(* ===== verification/_CoqProject ===== *)
-Q . S2P
Prelude.v
Text.v
Domain.v
Strconv.v
Schema.v
Tx.v
Tables.v
QOrders.v
QInventory.v
QPayments.v
QWallet.v
QUsers.v
QDelivery.v
QCatalog.v
QBanks.v
Models.v
Config.v
Instructions.v
Runner.v
AdminModels.v
QReports.v
UpdateStore.v
AdminStore.v
CatalogStore.v
InventoryStore.v
DeliveryStore.v
PaymentStore.v
WalletStore.v
OrderService.v
OrderStore.v
PaymentReference.v
References.v
PaymentEvents.v
AdminService.v
WalletService.v
InventoryAdmin.v
Ciphers.v
BankAccounts.v
PaymentAdmin.v
DeliveryAdmin.v
ProviderAdmin.v
Providers.v
Program.v
Webhooks.v
Reconciliation.v
Steps.v
Demo.v
Lifecycle.v
Stock.v
Secrets.v
Specification.v
Checkpoints.v
Notifications.v
Ledger.v
Decisions.v
Settlement.v
Acceptance.v
WalletPayment.v
Checkout.v
Parser.v
Callbacks.v
View.v
Workflows.v
Router.v
Scripts.v
History.v
Updates.v
Progress.v
DeliveryService.v
Workers.v
AtMostOnce.v
Fulfilment.v
Addressed.v
DeliveryClient.v
Startup.v
Started.v
TelegramClient.v
Server.v
Entrances.v
Observations.v
