(* ===== verification/Prelude.v ===== *)
(** * Verification of the Telegram shop bot

    The bot sells digital goods in Telegram: a customer places an order or tops up a
    wallet, pays by bank transfer or from the wallet, and a worker sends the goods.  It is
    two processes over one PostgreSQL database.  The API ([src/cmd/api]) takes updates of
    Telegram and notifications of payment providers; the worker ([src/cmd/worker]) expires
    orders, settles payments, delivers goods and reconciles with providers.  This library
    models the program bottom-up, from its machine integers to its processes, and proves
    what it guarantees to customers, to the shop and to whoever runs it.

    ** Layers and files

    Shared: [Prelude] (integers of Go, trimming and case, record update, generic lemmas),
    [Text] (strings, runes, integers in decimal), [Strconv] (float64 and the parsers of
    [strconv], base64 and [slog]), [Tx] (transactions, actions, scripts),
    [Tables] (lemmas and tactics on queries), [Program] (programs as trees of calls).

    - [Domain]: [src/internal/domain], with the sentinel errors of [app/errors.go].
    - [Schema]: the tables of [src/migrations] as records ([generated/models.go]) with
      their keys, CHECK and UNIQUE constraints; [Database] has one table of each kind.
    - [QOrders], [QInventory], [QPayments], [QWallet], [QUsers], [QDelivery], [QCatalog],
      [QBanks], [QReports]: one definition per SQL statement of
      [src/internal/postgres/generated] that a store calls, under the statement's name.
    - The stores ([src/internal/postgres]): [UpdateStore], [AdminStore], [CatalogStore],
      [InventoryStore], [InventoryAdmin], [DeliveryStore], [DeliveryAdmin], [PaymentStore],
      [PaymentEvents], [PaymentAdmin], [ProviderAdmin], [BankAccounts], [WalletStore],
      [OrderStore].  A method is [Name]; the body of its transaction is [name_tx].
    - The services ([src/internal/app]): [OrderService] (over a class of repositories that
      [OrderStore] implements), [AdminService], [WalletService], [PaymentReference],
      [DeliveryService], and the services that stand in the files of their stores;
      [Models] and [AdminModels] are [app/models.go].
    - The outside: [Providers], [Reconciliation] ([src/internal/payment]); [Webhooks],
      [Server] ([src/internal/httpapi]); [Parser], [View], [Workflows], [Router],
      [DeliveryClient], [TelegramClient] ([src/internal/telegram]); [Ciphers]
      ([src/internal/inventorycrypto], [bankcrypto]); [Instructions] ([src/internal/vietqr]).
    - The processes: [Config] ([src/internal/config]), [Runner] ([src/internal/worker]),
      [Startup] ([src/cmd]).

    ** How the code is rendered

    - A transaction ([Tx]) is a function from an environment and a database to a result with
      a new database or an error; [WithinTransaction] commits it, rolls it back, or commits
      it while the caller sees an error, as its environment says.  Transactions are atomic and run
      one after another, which is what the row locks and version guards of the code are for; SKIP LOCKED
      leaves out the rows the environment calls locked.  An environment also gives the
      clock of the process and the one of the database.  A failure of a single query, or of the begin,
      is the failure of the transaction.
    - A statement that finds no row, violates a constraint or overflows returns the error
      of [pgx] that the store maps; rows are found in the order the statement asks for.
    - What is called outside a transaction commits at once ([autocommit]).  The two reads of a
      listing (count and page) happen at one point in time.
    - A service that does several things in a row is a [Script]: a function of a sequence
      of environments, one per action.
    - The delivery worker and the reconciliation are trees of calls ([Program]): every call
      (to the store, to Telegram, to a provider, to the clock) is one step, and between the
      steps of one worker anything else can happen ([Workers]).  Workers have distinct
      names.  [CallSend] carries the attempt it belongs to, which the code only logs.
    - Integers have the width of the code; [wrap64] and [wrap32] are where it wraps around.
      Version counters are unbounded.  A sum beyond a bigint is a database error.
    - On an error only the error is returned; what Go returns beside it is dropped, as its
      callers do.  A wrapped error is its sentinel.
    - What the bot sends is a list of [Answer]s; how Telegram answers is only logged by the code.
    - Loops over the runes of values that must be ASCII run over their bytes.  The required
      variables of the configuration, a Go map, are visited in the order written.

    Given as parameters, because they are libraries: SHA-256 and HMAC, the AEAD and key derivation
    (class [Crypto], with the laws [CryptoLaws]), [net/url] (class [NetURL]), JSON of
    payloads, RFC 3339 and the other formats of times, Unicode tables beyond ASCII, the collation of
    the database, the routing of gin, [mime], the HTTP exchange with Telegram and with providers.

    ** What is proved

    Histories.  [Steps] lists every operation of every store ([operation]); [perform] runs it
    in any environment, successful, refused, rolled back or with its answer lost; a history
    ([shop_steps]) is any sequence of them.  [Preserved] collects, per SQL statement, what
    a relation between states has to tolerate, and [shop_steps_ok] then gives the
    relation for all histories.  [Entrances]: whatever requests the API serves and
    whatever the worker does, interleaved call by call for deliveries, makes a
    history; and a request changes anything only if its sender knew the token of the
    webhook or the signing key.  So the invariants hold of the running bot:
    - [Lifecycle]: all constraints of the schema, the life cycle of orders, the state machine of
      delivery jobs with and without an administrator's hand, sequences ahead of every key
      drawn; [Stock]: an item changes hands one edge per version, and is sold once;
      [Ledger]: a balance is the sum of its ledger, and the books are append-only;
      [Decisions]: updates, payment events and top-ups are decided once; [Secrets]: the
      lines of an import are what is decrypted, across histories and key rotations.
    - [Specification]: the shop refines an abstract machine of orders, items and jobs.
    - [AtMostOnce]: in every interleaving of workers that may die at any call with all
      other operations, no message is sent after one that may have arrived, but for one
      more each time an administrator puts the job back in the queue by hand.
    - [Addressed]: every message of a worker goes to the buyer of the order, with exactly the
      ordered number of the items held for that order, and shows exactly them.

    Operations.  [Settlement] and [WalletPayment]: what accepting a payment means, for
    orders and top-ups, once and for all; [Acceptance]: the other direction, a matching
    transfer is accepted when the store answers and the stock suffices; [Checkout]: creation
    is idempotent and exactly priced, cancellation is the owner's; [Notifications]: a provider that is answered with success
    can forget its notification, and only signed ones pass; [Checkpoints]: cursors move
    past what was ingested, leases exclude each other, passes end; [DeliveryClient]: what
    each outcome of a send is evidence for.

    Texts.  [References]: generated references survive the bank; [Callbacks]: the buttons
    printed are read back, and what is read is in range.

    The bot.  [History]: only administrators administer; [Updates]: an update is processed
    once; [Progress]: a customer who presses the button has cancelled the order.
    [Fulfilment]: what a payment leaves under way is delivered by the next pass of a worker.
    [Config], [Started]: a loaded configuration starts both processes.

    [Observations]: behaviour that differs from what the code says of itself.  [Demo] is a
    concrete shop on which the witnesses of the theorems are evaluated.

    Bounds.  Recursion is structural: on lists, on the page budget of a reconciliation, on
    the reference draws of an order ([paymentReferenceAttempts]) and on the digits of a
    number, where ten suffice for a 32-bit version.  No definition needs fuel that could run out.

    ** Not modelled

    - Logging, metrics, buffers wiped after use, the pool, signals and the shutdown of the
      processes, the recovery of the server from panics, [cmd/migrate].
    - Foreign keys, triggers, [updated_at] other than of provider accounts (a parameter
      where it is shown), and tables that no store uses.  Sequences roll back here, so
      identifiers have no gaps.
    - Statements that no store calls: those of [outbox.sql.go] and [system.sql.go] but the
      health check's, CountActiveInventoryMappingsByOrder, CreatePendingOrder,
      FindOrderByPaymentReference, GetOrderByID, GetOrderOwnedByUser,
      CountProviderOpenReviews, CountProviderPendingEvents,
      GetPaymentProviderCheckpoint, GetProviderLastWebhookAt, GetPaymentEventByID,
      GetTelegramUpdateReceipt, GetUserByTelegramID, and six readers of wallets and top-ups.
    - Services of the router are wired as [cmd/api/main.go] wires them: the branches for a missing
      service are not modelled, except the one for payment providers. *)

From stdpp Require Export base tactics option list list_numbers sorting strings pretty fin_maps gmap.
From Stdlib Require Export ZArith Lia.

#[global] Open Scope Z_scope.

(** ** Machine integers *)

Definition int32_max : Z := 2147483647.
Definition int32_min : Z := -2147483648.
Definition int64_max : Z := 9223372036854775807.
Definition int64_min : Z := -9223372036854775808.

Definition in_int64 (z : Z) : bool := (int64_min <=? z) && (z <=? int64_max).
Definition in_int32 (z : Z) : bool := (int32_min <=? z) && (z <=? int32_max).

(** Two's complement wrap-around of Go's [int64] and [int32] arithmetic. *)
Definition wrap64 (z : Z) : Z := (z + 2 ^ 63) mod 2 ^ 64 - 2 ^ 63.
Definition wrap32 (z : Z) : Z := (z + 2 ^ 31) mod 2 ^ 32 - 2 ^ 31.

Lemma in_int64_spec z : in_int64 z = true <-> int64_min <= z <= int64_max.
Proof. unfold in_int64. rewrite andb_true_iff, !Z.leb_le. lia. Qed.

Lemma in_int32_spec z : in_int32 z = true <-> int32_min <= z <= int32_max.
Proof. unfold in_int32. rewrite andb_true_iff, !Z.leb_le. lia. Qed.

Lemma wrap64_id z : int64_min <= z <= int64_max -> wrap64 z = z.
Proof.
  unfold wrap64, int64_min, int64_max; intros H.
  rewrite Z.mod_small by lia. lia.
Qed.

Lemma wrap32_id z : int32_min <= z <= int32_max -> wrap32 z = z.
Proof.
  unfold wrap32, int32_min, int32_max; intros H.
  rewrite Z.mod_small by lia. lia.
Qed.

Lemma wrap64_range z : int64_min <= wrap64 z <= int64_max.
Proof.
  unfold wrap64, int64_min, int64_max.
  pose proof (Z.mod_pos_bound (z + 2 ^ 63) (2 ^ 64) ltac:(lia)). lia.
Qed.

(** ** Time

    [time.Time] is an instant in nanoseconds; [0] is Go's zero time, so that
    [IsZero] is a test against [0].  [time.Duration] is an [int64]. *)

Abbreviation Time := Z (only parsing).
Abbreviation Duration := Z (only parsing).

Definition time_is_zero (t : Time) : bool := t =? 0.
(** [a.After(b)] *)
Definition time_after (a b : Time) : bool := b <? a.
(** [a.Sub(b)] saturates. *)
Definition time_sub (a b : Time) : Duration := Z.max int64_min (Z.min int64_max (a - b)).
(** [time.Unix(s, 0)]: the Unix epoch is that many seconds after Go's zero time. *)
Definition unix_time (s : Z) : Time := (62135596800 + s) * 1000000000.

(** ** Strings: [strings.TrimSpace] and the case mappings *)

Definition ascii_Z (a : Ascii.ascii) : Z := Z.of_nat (Ascii.nat_of_ascii a).

Definition is_ascii_space (a : Ascii.ascii) : bool :=
  let n := ascii_Z a in ((9 <=? n) && (n <=? 13)) || (n =? 32).

(** The UTF-8 encodings of the white space outside ASCII ([unicode.IsSpace]):
    U+0085, U+00A0, U+1680, U+2000-200A, U+2028, U+2029, U+202F, U+205F, U+3000. *)
Definition is_space2 (a b : Z) : bool := (a =? 194) && ((b =? 133) || (b =? 160)).
Definition is_space3 (a b c : Z) : bool :=
  ((a =? 225) && (b =? 154) && (c =? 128))
  || ((a =? 226) && (b =? 128) && (((128 <=? c) && (c <=? 138)) || (c =? 168) || (c =? 169) || (c =? 175)))
  || ((a =? 226) && (b =? 129) && (c =? 159))
  || ((a =? 227) && (b =? 128) && (c =? 128)).

Fixpoint trim_left (l : list Ascii.ascii) : list Ascii.ascii :=
  match l with
  | a :: l1 =>
      if is_ascii_space a then trim_left l1 else
      match l1 with
      | b :: l2 =>
          if is_space2 (ascii_Z a) (ascii_Z b) then trim_left l2 else
          match l2 with
          | c :: l3 => if is_space3 (ascii_Z a) (ascii_Z b) (ascii_Z c) then trim_left l3 else l
          | [] => l
          end
      | [] => l
      end
  | [] => []
  end.

(** The same on the reversed string, where an encoding reads backwards. *)
Fixpoint trim_right_rev (l : list Ascii.ascii) : list Ascii.ascii :=
  match l with
  | a :: l1 =>
      if is_ascii_space a then trim_right_rev l1 else
      match l1 with
      | b :: l2 =>
          if is_space2 (ascii_Z b) (ascii_Z a) then trim_right_rev l2 else
          match l2 with
          | c :: l3 => if is_space3 (ascii_Z c) (ascii_Z b) (ascii_Z a) then trim_right_rev l3 else l
          | [] => l
          end
      | [] => l
      end
  | [] => []
  end.

(** [strings.TrimSpace] *)
Definition TrimSpace (s : string) : string :=
  String.string_of_list_ascii
    (rev (trim_right_rev (rev (trim_left (String.list_ascii_of_string s))))).

Definition upper_ascii (a : Ascii.ascii) : Ascii.ascii :=
  let n := Ascii.nat_of_ascii a in
  if ((97 <=? n) && (n <=? 122))%nat then Ascii.ascii_of_nat (n - 32) else a.
Definition lower_ascii (a : Ascii.ascii) : Ascii.ascii :=
  let n := Ascii.nat_of_ascii a in
  if ((65 <=? n) && (n <=? 90))%nat then Ascii.ascii_of_nat (n + 32) else a.

(** [strings.ToUpper] and [strings.ToLower] on bytes: ASCII letters, and the
    four code points outside ASCII whose image is an ASCII letter (U+0131,
    U+017F upwards; U+0130, U+212A downwards).  Other code points keep their
    bytes: their images are outside ASCII too, so no comparison of the code
    with an ASCII constant can tell. *)
Fixpoint upper_list (l : list Ascii.ascii) : list Ascii.ascii :=
  match l with
  | a :: ((b :: l2) as l1) =>
      if (ascii_Z a =? 196) && (ascii_Z b =? 177) then Ascii.ascii_of_nat 73 :: upper_list l2
      else if (ascii_Z a =? 197) && (ascii_Z b =? 191) then Ascii.ascii_of_nat 83 :: upper_list l2
      else upper_ascii a :: upper_list l1
  | [a] => [upper_ascii a]
  | [] => []
  end.
Fixpoint lower_list (l : list Ascii.ascii) : list Ascii.ascii :=
  match l with
  | a :: ((b :: l2) as l1) =>
      if (ascii_Z a =? 196) && (ascii_Z b =? 176) then Ascii.ascii_of_nat 105 :: lower_list l2
      else
        match l2 with
        | c :: l3 =>
            if (ascii_Z a =? 226) && (ascii_Z b =? 132) && (ascii_Z c =? 170) then Ascii.ascii_of_nat 107 :: lower_list l3
            else lower_ascii a :: lower_list l1
        | [] => lower_ascii a :: lower_list l1
        end
  | [a] => [lower_ascii a]
  | [] => []
  end.
Definition ToUpper (s : string) : string :=
  String.string_of_list_ascii (upper_list (String.list_ascii_of_string s)).
Definition ToLower (s : string) : string :=
  String.string_of_list_ascii (lower_list (String.list_ascii_of_string s)).

(** PostgreSQL's [btrim(x) <> '']: some character is not a blank. *)
Definition nonblank (s : string) : bool :=
  existsb (fun a => negb (ascii_Z a =? 32)) (String.list_ascii_of_string s).

(** Decimal rendering ([fmt.Sprintf "%d"] and SQL's [::text] of a bigint). *)
Definition Z_dec (z : Z) : string := pretty z.

(** ** Record update

    [r <| f := v |>] is the record [r] with the field [f] set to [v].  A record
    type declares its eta expansion; the update of a field is then found by
    abstracting that projection. *)

Class Eta (R : Type) := eta : R -> R.
Class Update {R T : Type} (proj : R -> T) := update : T -> R -> R.
Arguments update {R T} proj {_} v r.

Ltac solve_update :=
  lazymatch goal with
  | |- @Update ?R ?T ?p =>
      let i := constr:(_ : Eta R) in
      let e := eval red in i in
      exact (fun (v : T) (r : R) =>
               ltac:(let t := eval cbv beta in (e r) in
                     let t' := eval pattern (p r) in t in
                     lazymatch t' with
                     | ?f _ => let u := eval cbv beta in (f v) in exact u
                     end))
  end.
#[export] Hint Extern 1 (Update _) => solve_update : typeclass_instances.

Notation "r <| f := v |>" := (update f v r)
  (at level 1, f constr, v at level 200, left associativity, format "r <| f  :=  v |>").

(** Which element of a list literal *)
Ltac in_cases H :=
  apply elem_of_cons in H as [H|H]; [| first [by apply not_elem_of_nil in H | in_cases H]].
