(* ===== verification/Text.v ===== *)
(** * Text

    The functions of Go's [strings], [strconv], [unicode/utf8] and [html] packages that
    the bot calls, on byte strings: splitting, decimal integers, UTF-8, HTML
    escaping; and the laws that relate printing to parsing. *)

From Stdlib Require Import Ascii.
From S2P Require Import Prelude.

#[local] Open Scope string_scope.
#[local] Open Scope Z_scope.

(** ** UTF-8 *)

Definition codes (s : string) : list Z := map ascii_Z (String.list_ascii_of_string s).
Definition str_len (s : string) : Z := Z.of_nat (String.length s).

Definition RuneError : Z := 65533.

Definition cont (b : Z) : bool := (128 <=? b) && (b <=? 191).
Definition between (lo hi b : Z) : bool := (lo <=? b) && (b <=? hi).

(** The range of the second byte of a three- or four-byte sequence *)
Definition second3 (b0 b1 : Z) : bool :=
  if b0 =? 224 then between 160 191 b1 else if b0 =? 237 then between 128 159 b1 else cont b1.
Definition second4 (b0 b1 : Z) : bool :=
  if b0 =? 240 then between 144 191 b1 else if b0 =? 244 then between 128 143 b1 else cont b1.

(** UTF-8 decoding as Go does it: a byte that starts no valid sequence is [RuneError]. *)
Fixpoint decode_runes (l : list Z) : list Z :=
  match l with
  | [] => []
  | b0 :: l1 =>
      if b0 <? 128 then b0 :: decode_runes l1 else
      match l1 with
      | [] => [RuneError]
      | b1 :: l2 =>
          if between 194 223 b0 && cont b1
          then Z.lor (Z.shiftl (Z.land b0 31) 6) (Z.land b1 63) :: decode_runes l2 else
          match l2 with
          | [] => RuneError :: decode_runes l1
          | b2 :: l3 =>
              if between 224 239 b0 && second3 b0 b1 && cont b2
              then Z.lor (Z.lor (Z.shiftl (Z.land b0 15) 12) (Z.shiftl (Z.land b1 63) 6)) (Z.land b2 63)
                   :: decode_runes l3 else
              match l3 with
              | [] => RuneError :: decode_runes l1
              | b3 :: l4 =>
                  if between 240 244 b0 && second4 b0 b1 && cont b2 && cont b3
                  then Z.lor (Z.lor (Z.shiftl (Z.land b0 7) 18) (Z.shiftl (Z.land b1 63) 12))
                             (Z.lor (Z.shiftl (Z.land b2 63) 6) (Z.land b3 63)) :: decode_runes l4
                  else RuneError :: decode_runes l1
              end
          end
      end
  end.

(** [utf8.Valid] *)
Fixpoint utf8_valid (l : list Z) : bool :=
  match l with
  | [] => true
  | b0 :: l1 =>
      if b0 <? 128 then utf8_valid l1 else
      match l1 with
      | [] => false
      | b1 :: l2 =>
          if between 194 223 b0 && cont b1 then utf8_valid l2 else
          match l2 with
          | [] => false
          | b2 :: l3 =>
              if between 224 239 b0 && second3 b0 b1 && cont b2 then utf8_valid l3 else
              match l3 with
              | [] => false
              | b3 :: l4 => between 240 244 b0 && second4 b0 b1 && cont b2 && cont b3 && utf8_valid l4
              end
          end
      end
  end.

(** [len([]rune(s))] *)
Definition rune_count (s : string) : Z := Z.of_nat (length (decode_runes (codes s))).

(** [len] of the encoding of a rune *)
Definition rune_len (r : Z) : Z :=
  if r <? 128 then 1 else if r <? 2048 then 2 else if r <? 65536 then 3 else 4.
Definition byte_len (runes : list Z) : Z := foldr (fun r n => rune_len r + n) 0 runes.

(** ** Splitting and joining *)

(** [strings.Split(s, sep)] with a separator of one byte *)
Fixpoint Split (sep : Ascii.ascii) (s : string) : list string :=
  match s with
  | EmptyString => [EmptyString]
  | String a s' =>
      if Ascii.eqb a sep then EmptyString :: Split sep s'
      else match Split sep s' with
           | part :: parts => String a part :: parts
           | [] => [String a EmptyString]
           end
  end.

(** [strings.SplitN(s, sep, n)]: the last part keeps its separators. *)
Fixpoint SplitN (sep : Ascii.ascii) (n : nat) (s : string) {struct s} : list string :=
  match n with
  | O => []
  | 1%nat => [s]
  | S n' =>
      match s with
      | EmptyString => [EmptyString]
      | String a s' =>
          if Ascii.eqb a sep then EmptyString :: SplitN sep n' s'
          else match SplitN sep n s' with
               | part :: parts => String a part :: parts
               | [] => [String a EmptyString]
               end
      end
  end.

(** [strings.Join] *)
Fixpoint Join (sep : string) (parts : list string) : string :=
  match parts with
  | [] => EmptyString
  | [part] => part
  | part :: parts' => part ++ sep ++ Join sep parts'
  end.

(** [strings.HasPrefix] and [strings.Contains] *)
Fixpoint HasPrefix (s prefix : string) : bool :=
  match prefix, s with
  | EmptyString, _ => true
  | String a prefix', String b s' => Ascii.eqb a b && HasPrefix s' prefix'
  | _, EmptyString => false
  end.
Fixpoint Contains (s part : string) : bool :=
  HasPrefix s part || match s with EmptyString => false | String _ s' => Contains s' part end.

(** [fmt.Sprintf] and string concatenation: the pieces in a row *)
Definition cat (parts : list string) : string := foldr String.append "" parts.
Definition nl : string := String "010" EmptyString.
Definition lines_of (lines : list string) : string := Join nl lines.

(** [string(bytes)] *)
Definition bytes_string (l : list Z) : string :=
  String.string_of_list_ascii (map (fun z => Ascii.ascii_of_nat (Z.to_nat z)) l).

(** [strings.Fields]: the maximal runs without white space *)
Fixpoint fields_list (current l : list Ascii.ascii) : list (list Ascii.ascii) :=
  let flush rest := match current with [] => rest | _ => rev current :: rest end in
  match l with
  | [] => flush []
  | a :: l1 =>
      if is_ascii_space a then flush (fields_list [] l1) else
      match l1 with
      | b :: l2 =>
          if is_space2 (ascii_Z a) (ascii_Z b) then flush (fields_list [] l2) else
          match l2 with
          | c :: l3 =>
              if is_space3 (ascii_Z a) (ascii_Z b) (ascii_Z c) then flush (fields_list [] l3)
              else fields_list (a :: current) l1
          | [] => fields_list (a :: current) l1
          end
      | [] => fields_list (a :: current) l1
      end
  end.
Definition Fields (s : string) : list string :=
  map String.string_of_list_ascii (fields_list [] (String.list_ascii_of_string s)).

(** [strings.TrimPrefix] and [strings.HasPrefix] for a prefix of one byte *)
Definition cut_byte (a : Ascii.ascii) (s : string) : option string :=
  match s with String b s' => if Ascii.eqb a b then Some s' else None | EmptyString => None end.

(** [name[:strings.IndexByte(name, a)]], the whole string when [a] is not in it *)
Fixpoint before_byte (a : Ascii.ascii) (s : string) : string :=
  match s with
  | EmptyString => EmptyString
  | String b s' => if Ascii.eqb a b then EmptyString else String b (before_byte a s')
  end.

(** ** Decimal integers *)

Definition digit_of (a : Ascii.ascii) : option Z :=
  let d := ascii_Z a - 48 in if (0 <=? d) && (d <=? 9) then Some d else None.

Fixpoint parse_digits (acc : Z) (s : string) : option Z :=
  match s with
  | EmptyString => Some acc
  | String a s' => match digit_of a with Some d => parse_digits (acc * 10 + d) s' | None => None end
  end.

Definition sign_split (s : string) : bool * string :=
  match s with
  | String a s' =>
      if Ascii.eqb a "-"%char then (true, s') else if Ascii.eqb a "+"%char then (false, s') else (false, s)
  | EmptyString => (false, s)
  end.

(** [strconv.ParseInt(s, 10, bits)] *)
Definition ParseInt (bits : Z) (s : string) : option Z :=
  let '(negative, digits) := sign_split s in
  match digits with
  | EmptyString => None
  | _ =>
      match parse_digits 0 digits with
      | Some v =>
          let z := if (negative : bool) then - v else v in
          if (- 2 ^ (bits - 1) <=? z) && (z <? 2 ^ (bits - 1)) then Some z else None
      | None => None
      end
  end.

(** ** HTML *)

(** [html.EscapeString] *)
Definition escape_char (a : Ascii.ascii) : string :=
  if Ascii.eqb a "&"%char then "&amp;" else if Ascii.eqb a "'"%char then "&#39;"
  else if Ascii.eqb a "<"%char then "&lt;" else if Ascii.eqb a ">"%char then "&gt;"
  else if ascii_Z a =? 34 then "&#34;" else String a EmptyString.
Fixpoint EscapeString (s : string) : string :=
  match s with
  | EmptyString => EmptyString
  | String a s' => escape_char a ++ EscapeString s'
  end.

(** ** Laws *)

(** No byte of [s] satisfies [p]. *)
Definition free_of (p : Ascii.ascii -> bool) (s : string) : bool :=
  forallb (fun a => negb (p a)) (String.list_ascii_of_string s).

Lemma free_of_cons p a s : free_of p (String a s) = negb (p a) && free_of p s.
Proof. done. Qed.

Lemma free_of_app p s t : free_of p (s ++ t) = free_of p s && free_of p t.
Proof. induction s as [|a s IH]; [done|]. change (String a s ++ t)%string with (String a (s ++ t)).
  by rewrite !free_of_cons, IH, andb_assoc. Qed.

Lemma str_app_cons a s t : (String a s ++ t)%string = String a (s ++ t).
Proof. done. Qed.
Lemma str_app_nil s : (s ++ "")%string = s.
Proof. induction s as [|a s IH]; [done|]. by rewrite str_app_cons, IH. Qed.
Lemma str_app_assoc s t u : ((s ++ t) ++ u)%string = (s ++ t ++ u)%string.
Proof. induction s as [|a s IH]; [done|]. by rewrite !str_app_cons, IH. Qed.
Lemma str_len_app s t : str_len (s ++ t) = str_len s + str_len t.
Proof.
  unfold str_len. induction s as [|a s IH]; [done|]. rewrite str_app_cons. simpl. lia.
Qed.

Lemma Split_part sep s : free_of (fun a => Ascii.eqb a sep) s = true -> Split sep s = [s].
Proof.
  induction s as [|a s IH]; [done|]. rewrite free_of_cons, andb_true_iff, negb_true_iff.
  intros [Ha Hs]. simpl. by rewrite Ha, IH.
Qed.

Lemma Split_app sep s t :
  free_of (fun a => Ascii.eqb a sep) s = true -> Split sep (s ++ String sep t) = s :: Split sep t.
Proof.
  induction s as [|a s IH].
  - intros _. simpl. by rewrite Ascii.eqb_refl.
  - rewrite free_of_cons, andb_true_iff, negb_true_iff. intros [Ha Hs].
    rewrite str_app_cons. simpl. by rewrite Ha, IH.
Qed.

(** Splitting undoes joining when the parts are free of the separator. *)
Lemma Split_Join sep parts :
  parts <> [] -> Forall (fun s => free_of (fun a => Ascii.eqb a sep) s = true) parts ->
  Split sep (Join (String sep "") parts) = parts.
Proof.
  intros Hne Hall. induction Hall as [|s parts Hs Hall IH]; [done|]. destruct parts as [|t parts].
  - by apply Split_part.
  - change (Join (String sep "") (s :: t :: parts)) with (s ++ String sep "" ++ Join (String sep "") (t :: parts))%string.
    change (String sep "" ++ ?x)%string with (String sep x). by rewrite Split_app, IH.
Qed.

Lemma Split_nonempty sep s : Split sep s <> [].
Proof. destruct s as [|a s]; [done|]. simpl. destruct (Ascii.eqb a sep); [done|]. by destruct (Split sep s). Qed.

Lemma Join_Split sep s : Join (String sep "") (Split sep s) = s.
Proof.
  induction s as [|a s IH]; [done|]. simpl. destruct (Ascii.eqb_spec a sep) as [->|Hne].
  - destruct (Split sep s) as [|p ps] eqn:E; [by apply Split_nonempty in E|].
    change (Join ?x ("" :: p :: ps)) with ("" ++ x ++ Join x (p :: ps))%string. by rewrite IH.
  - destruct (Split sep s) as [|p ps] eqn:E; [by apply Split_nonempty in E|].
    destruct ps as [|q ps]; simpl in IH |- *; rewrite <- IH; [done|]. by rewrite str_app_cons.
Qed.

(** *** Printing and parsing integers *)

Lemma digit_of_char n : (n < 10)%N -> digit_of (pretty_N_char n) = Some (Z.of_N n).
Proof.
  intros Hn. rewrite <- (N2Nat.id n). assert (N.to_nat n < 10)%nat as Hlt by lia.
  revert Hlt. generalize (N.to_nat n). clear. intros k Hk. do 10 (destruct k as [|k]; [reflexivity|]). lia.
Qed.

Lemma parse_pretty_go n s : parse_digits 0 (pretty_N_go n s) = parse_digits (Z.of_N n) s.
Proof.
  revert s. induction (N.lt_wf_0 n) as [n _ IH]; intros s. destruct (decide (n = 0)%N) as [->|Hn].
  - by rewrite pretty_N_go_0.
  - rewrite pretty_N_go_step by lia. rewrite IH by (apply N.div_lt; lia). cbn [parse_digits].
    rewrite digit_of_char by (apply N.mod_lt; lia). f_equal.
    rewrite N2Z.inj_div, N2Z.inj_mod. pose proof (Z.div_mod (Z.of_N n) 10). lia.
Qed.

Lemma free_pretty_go (p : Ascii.ascii -> bool) n s :
  (forall a, p a = true -> digit_of a = None) -> free_of p s = true -> free_of p (pretty_N_go n s) = true.
Proof.
  intros Hp. revert s. induction (N.lt_wf_0 n) as [n _ IH]; intros s Hs. destruct (decide (n = 0)%N) as [->|Hn].
  - by rewrite pretty_N_go_0.
  - rewrite pretty_N_go_step by lia. apply IH; [apply N.div_lt; lia|]. rewrite free_of_cons, Hs, andb_true_r.
    destruct (p _) eqn:E; [|done]. apply Hp in E. rewrite digit_of_char in E; [done|]. apply N.mod_lt; lia.
Qed.

(** The printed form of a natural number *)
Lemma pretty_N_pos (n : N) : (0 < n)%N -> pretty n = pretty_N_go n "".
Proof. intros Hn. unfold pretty, pretty_N. by rewrite decide_False by lia. Qed.

Lemma parse_pretty_N (n : N) : parse_digits 0 (pretty n) = Some (Z.of_N n).
Proof.
  destruct (decide (n = 0)%N) as [->|Hn]; [done|]. rewrite pretty_N_pos by lia. by rewrite parse_pretty_go.
Qed.

Lemma free_pretty_N p (n : N) : (forall a, p a = true -> digit_of a = None) -> free_of p (pretty n) = true.
Proof.
  intros Hp. destruct (decide (n = 0)%N) as [->|Hn].
  - simpl. destruct (p "0"%char) eqn:E; [by apply Hp in E|]. change (pretty 0%N) with "0".
    by rewrite free_of_cons, E.
  - rewrite pretty_N_pos by lia. by apply free_pretty_go.
Qed.

Lemma pretty_N_digit (n : N) : exists a s, pretty n = String a s /\ is_Some (digit_of a).
Proof.
  destruct (pretty n) as [|a s] eqn:E.
  - pose proof (parse_pretty_N n) as H. rewrite E in H. injection H as Hn.
    assert (n = 0%N) as -> by lia. discriminate.
  - exists a, s. split; [done|]. pose proof (parse_pretty_N n) as H. rewrite E in H. simpl in H.
    destruct (digit_of a); eauto.
Qed.

Lemma digit_no_sign a s : is_Some (digit_of a) -> sign_split (String a s) = (false, String a s).
Proof.
  intros [d Hd]. unfold sign_split.
  destruct (Ascii.eqb_spec a "-"%char) as [->|]; [done|]. by destruct (Ascii.eqb_spec a "+"%char) as [->|].
Qed.

Lemma ParseInt_dec bits z : - 2 ^ (bits - 1) <= z < 2 ^ (bits - 1) -> ParseInt bits (Z_dec z) = Some z.
Proof.
  intros Hr. assert (Hb : (- 2 ^ (bits - 1) <=? z) && (z <? 2 ^ (bits - 1)) = true) by lia.
  unfold ParseInt, Z_dec. destruct z as [|p|p].
  - change (sign_split (pretty 0)) with (false, "0"). cbn [parse_digits]. change (digit_of "0") with (Some 0).
    cbv iota beta. change (0 * 10 + 0) with 0. by rewrite Hb.
  - change (pretty (Z.pos p)) with (pretty (N.pos p)). destruct (pretty_N_digit (N.pos p)) as (a & s & E & Ha).
    rewrite E, digit_no_sign by done. cbv iota beta.
    replace (parse_digits 0 (String a s)) with (Some (Z.pos p)) by (rewrite <- E; symmetry; apply parse_pretty_N).
    by rewrite Hb.
  - change (pretty (Z.neg p)) with (String "-" (pretty (N.pos p))). unfold sign_split.
    change (Ascii.eqb "-" "-") with true. cbv iota beta.
    destruct (pretty_N_digit (N.pos p)) as (a & s & E & _). rewrite E.
    replace (parse_digits 0 (String a s)) with (Some (Z.pos p)) by (rewrite <- E; symmetry; apply parse_pretty_N).
    cbv iota beta. change (- Z.pos p) with (Z.neg p). by rewrite Hb.
Qed.

(** A printed integer consists of digits and possibly a minus sign. *)
Lemma free_dec (p : Ascii.ascii -> bool) z :
  (forall a, p a = true -> digit_of a = None) -> p "-"%char = false -> free_of p (Z_dec z) = true.
Proof.
  intros Hp Hm. unfold Z_dec. destruct z as [|q|q].
  - by apply (free_pretty_N p 0).
  - by apply (free_pretty_N p (N.pos q)).
  - change (pretty (Z.neg q)) with (String "-" (pretty (N.pos q))). rewrite free_of_cons, Hm. by apply free_pretty_N.
Qed.

(** The length of a printed integer *)
Lemma len_pretty_go n s k : (n < 10 ^ N.of_nat k)%N -> str_len (pretty_N_go n s) <= Z.of_nat k + str_len s.
Proof.
  revert n s. induction k as [|k IH]; intros n s Hn.
  - assert (n = 0%N) as -> by (simpl in Hn; lia). rewrite pretty_N_go_0. lia.
  - destruct (decide (n = 0)%N) as [->|H0]; [rewrite pretty_N_go_0; lia|].
    rewrite pretty_N_go_step by lia. etransitivity.
    + apply IH. apply N.Div0.div_lt_upper_bound. rewrite <- N.pow_succ_r'. replace (N.succ (N.of_nat k)) with (N.of_nat (S k)) by lia. done.
    + unfold str_len. simpl. lia.
Qed.

Lemma len_dec k z : (0 < k)%nat -> 0 <= z < 10 ^ Z.of_nat k -> str_len (Z_dec z) <= Z.of_nat k.
Proof.
  intros Hk Hz. unfold Z_dec. destruct z as [|p|p]; [unfold str_len; simpl; lia | | lia].
  change (pretty (Z.pos p)) with (pretty (N.pos p)). rewrite pretty_N_pos by lia.
  etransitivity; [apply (len_pretty_go _ _ k)|unfold str_len; simpl; lia].
  apply N2Z.inj_lt. rewrite N2Z.inj_pow, nat_N_Z. simpl. lia.
Qed.

Lemma parse_digits_nonneg acc s v : 0 <= acc -> parse_digits acc s = Some v -> 0 <= v.
Proof.
  revert acc. induction s as [|a s IH]; simpl; intros acc Hacc; [by intros [= ->]|].
  unfold digit_of. destruct (_ && _) eqn:E; [|done]. apply andb_true_iff in E as [E _]. apply IH. lia.
Qed.

Lemma ParseInt_range bits s z : ParseInt bits s = Some z -> - 2 ^ (bits - 1) <= z < 2 ^ (bits - 1).
Proof.
  unfold ParseInt. destruct (sign_split s) as [neg digits]. destruct digits; [done|].
  destruct (parse_digits 0 _); [|done]. destruct (_ && _) eqn:E; [|done]. intros [= <-]. lia.
Qed.

(** ** Case mapping and trimming

    [strings.TrimSpace] of what is trimmed changes nothing, and [strings.ToUpper] commutes with
    [strings.TrimSpace]: the generator of payment references trims the upper-cased prefix, the
    extractor upper-cases the trimmed one, and both end up with the same. *)

Section Casing.
(** Two bytes that become one letter, and the encodings of white space, read in one of
    the two directions *)
Context (pair : ascii -> ascii -> option ascii) (space2 : ascii -> ascii -> bool) (space3 : ascii -> ascii -> ascii -> bool).

Fixpoint up (l : list ascii) : list ascii :=
  match l with
  | a :: ((b :: l2) as l1) => match pair a b with Some c => c :: up l2 | None => upper_ascii a :: up l1 end
  | [a] => [upper_ascii a]
  | [] => []
  end.
Fixpoint trim (l : list ascii) : list ascii :=
  match l with
  | a :: l1 =>
      if is_ascii_space a then trim l1 else
      match l1 with
      | b :: l2 =>
          if space2 a b then trim l2 else
          match l2 with c :: l3 => if space3 a b c then trim l3 else l | [] => l end
      | [] => l
      end
  | [] => []
  end.

(** The bytes that occur in encodings of white space *)
Definition space_byte (a : ascii) : bool :=
  is_ascii_space a || ((128 <=? ascii_Z a) && (ascii_Z a <=? 175)) || existsb (Z.eqb (ascii_Z a)) [194; 225; 226; 227].

Context (pair_letters : forall a b c, pair a b = Some c -> space_byte a = false /\ space_byte b = false /\ space_byte c = false).
Context (space2_bytes : forall a b, space2 a b = true -> space_byte a = true /\ space_byte b = true).
Context (space3_bytes : forall a b c, space3 a b c = true -> space_byte a = true /\ space_byte b = true /\ space_byte c = true).

Lemma upper_space_byte a : space_byte (upper_ascii a) = space_byte a /\ (space_byte a = true -> upper_ascii a = a).
Proof. destruct a as [[] [] [] [] [] [] [] []]; by vm_compute. Qed.

Lemma up_space a l : space_byte a = true -> up (a :: l) = a :: up l.
Proof.
  intros Ha. simpl. destruct l as [|b l]; [by rewrite (proj2 (upper_space_byte a) Ha)|].
  destruct (pair a b) as [c|] eqn:E; [|by rewrite (proj2 (upper_space_byte a) Ha)].
  apply pair_letters in E as (? & _ & _). congruence.
Qed.

Lemma up_letter a l : space_byte a = false -> exists x l', up (a :: l) = x :: l' /\ space_byte x = false.
Proof.
  intros Ha. rewrite <- (proj1 (upper_space_byte a)) in Ha. simpl. destruct l as [|b l]; [by eexists _, _|].
  destruct (pair a b) as [c|] eqn:E; [|by eexists _, _]. apply pair_letters in E as (_ & _ & ?). by eexists _, _.
Qed.

Lemma space_byte_ascii a : space_byte a = false -> is_ascii_space a = false.
Proof. unfold space_byte. rewrite !orb_false_iff. tauto. Qed.
Lemma space2_letter a b : space_byte a = false \/ space_byte b = false -> space2 a b = false.
Proof. intros H. destruct (space2 a b) eqn:E; [|done]. apply space2_bytes in E as [? ?]. destruct H; congruence. Qed.
Lemma space3_letter a b c : space_byte a = false \/ space_byte b = false \/ space_byte c = false -> space3 a b c = false.
Proof.
  intros H. destruct (space3 a b c) eqn:E; [|done]. apply space3_bytes in E as (? & ? & ?).
  destruct H as [H|[H|H]]; congruence.
Qed.

(** Nothing is trimmed from text whose start cannot be white space. *)
Lemma trim_letter a l : space_byte a = false -> trim (a :: l) = a :: l.
Proof.
  intros Ha. simpl. rewrite (space_byte_ascii a Ha). destruct l as [|b l]; [done|].
  rewrite space2_letter by auto. destruct l as [|c l]; [done|]. by rewrite space3_letter by auto.
Qed.
Lemma trim_letter2 a b l : is_ascii_space a = false -> space_byte b = false -> trim (a :: b :: l) = a :: b :: l.
Proof.
  intros Ha Hb. simpl. rewrite Ha, space2_letter by auto. destruct l as [|c l]; [done|]. by rewrite space3_letter by auto.
Qed.
Lemma trim_letter3 a b c l :
  is_ascii_space a = false -> space2 a b = false -> space_byte c = false -> trim (a :: b :: c :: l) = a :: b :: c :: l.
Proof. intros Ha Hb Hc. simpl. by rewrite Ha, Hb, space3_letter by auto. Qed.

Lemma trim_up l : trim (up l) = up (trim l).
Proof.
  induction l as [l IH] using (induction_ltof1 _ length). destruct l as [|a l1]; [done|].
  destruct (space_byte a) eqn:Ha.
  2: { destruct (up_letter a l1 Ha) as (x & l' & E & Hx). rewrite (trim_letter a l1 Ha), E. by apply trim_letter. }
  rewrite (up_space a l1 Ha). destruct (is_ascii_space a) eqn:Hs.
  { simpl. rewrite Hs. apply IH. unfold ltof. simpl. lia. }
  destruct l1 as [|b l2]; [cbn -[up]; rewrite Hs; by rewrite (up_space a [] Ha)|].
  destruct (space_byte b) eqn:Hb.
  2: { destruct (up_letter b l2 Hb) as (x & l' & E & Hx). rewrite E, (trim_letter2 a b l2), (trim_letter2 a x l') by done.
       by rewrite (up_space a _ Ha), E. }
  rewrite (up_space b l2 Hb). destruct (space2 a b) eqn:H2.
  { cbn -[up]. rewrite Hs, H2. apply IH. unfold ltof. simpl. lia. }
  destruct l2 as [|c l3].
  { cbn -[up]. rewrite Hs, H2. rewrite (up_space a _ Ha), (up_space b _ Hb). done. }
  destruct (space_byte c) eqn:Hc.
  2: { destruct (up_letter c l3 Hc) as (x & l' & E & Hx). rewrite E, (trim_letter3 a b c l3), (trim_letter3 a b x l') by done.
       by rewrite (up_space a _ Ha), (up_space b _ Hb), E. }
  rewrite (up_space c l3 Hc). cbn -[up]. rewrite Hs, H2. destruct (space3 a b c).
  - apply IH. unfold ltof. simpl. lia.
  - by rewrite (up_space a _ Ha), (up_space b _ Hb), (up_space c _ Hc).
Qed.

(** *** Trimming twice *)

Definition starts_space (l : list ascii) : bool :=
  match l with
  | a :: l1 =>
      is_ascii_space a ||
      match l1 with
      | b :: l2 => space2 a b || match l2 with c :: _ => space3 a b c | [] => false end
      | [] => false
      end
  | [] => false
  end.

Lemma trim_of_started l : starts_space l = false -> trim l = l.
Proof.
  destruct l as [|a [|b [|c l]]]; simpl; rewrite ?orb_false_iff.
  - done.
  - by intros [-> _].
  - by intros (-> & -> & _).
  - by intros (-> & -> & ->).
Qed.

Lemma trim_spec l : starts_space (trim l) = false /\ exists p, l = (p ++ trim l)%list.
Proof.
  induction l as [l IH] using (induction_ltof1 _ length). unfold ltof in IH.
  destruct l as [|a [|b [|c l]]]; simpl.
  - split; [done|]. by exists [].
  - destruct (is_ascii_space a) eqn:Ha; simpl; [split; [done|by exists [a]]|]. rewrite Ha. split; [done|]. by exists [].
  - destruct (is_ascii_space a) eqn:Ha.
    { destruct (IH [b]) as (Hs & p & Hp); [simpl; lia|]. split; [exact Hs|]. exists (a :: p). exact (f_equal (cons a) Hp). }
    destruct (space2 a b) eqn:H2; simpl; [split; [done | by exists [a; b]]|]. rewrite Ha, H2. split; [done|]. by exists [].
  - destruct (is_ascii_space a) eqn:Ha.
    { destruct (IH (b :: c :: l)) as (Hs & p & Hp); [simpl; lia|]. split; [exact Hs|]. exists (a :: p). exact (f_equal (cons a) Hp). }
    destruct (space2 a b) eqn:H2.
    { destruct (IH (c :: l)) as (Hs & p & Hp); [simpl; lia|]. split; [exact Hs|]. exists (a :: b :: p). exact (f_equal (fun l => a :: b :: l) Hp). }
    destruct (space3 a b c) eqn:H3.
    { destruct (IH l) as (Hs & p & Hp); [simpl; lia|]. split; [exact Hs|]. exists (a :: b :: c :: p). exact (f_equal (fun l => a :: b :: c :: l) Hp). }
    simpl. rewrite Ha, H2, H3. split; [done|]. by exists [].
Qed.

Lemma started_prefix l x : starts_space (l ++ x) = false -> starts_space l = false.
Proof.
  destruct l as [|a [|b [|c l]]]; simpl; [done|..]; rewrite ?orb_false_iff; [by intros [-> _] | | tauto].
  destruct x as [|c x]; simpl; rewrite ?orb_false_iff; tauto.
Qed.
End Casing.

(** Trimming on both sides, in two directions that agree *)
Lemma trim_both_twice (s2 s2' : ascii -> ascii -> bool) (s3 s3' : ascii -> ascii -> ascii -> bool) l :
  let both l := rev (trim s2' s3' (rev (trim s2 s3 l))) in both (both l) = both l.
Proof.
  intros both. unfold both. set (m := trim s2 s3 l). set (k := trim s2' s3' (rev m)).
  destruct (trim_spec s2 s3 l) as [Hm _]. fold m in Hm. destruct (trim_spec s2' s3' (rev m)) as [Hk (p & Hp)]. fold k in Hk, Hp.
  assert (trim s2 s3 (rev k) = rev k) as ->.
  { apply trim_of_started. apply (started_prefix _ _ _ (rev p)). rewrite <- rev_app_distr, <- Hp, rev_involutive. exact Hm. }
  rewrite rev_involutive. by rewrite (trim_of_started _ _ k Hk).
Qed.

(** ** Both directions *)

(** U+0131 and U+017F, forwards and backwards *)
Definition dotless (a b : ascii) : option ascii :=
  if (ascii_Z a =? 196) && (ascii_Z b =? 177) then Some "I"%char
  else if (ascii_Z a =? 197) && (ascii_Z b =? 191) then Some "S"%char else None.

Lemma upper_list_cons2 a b l : upper_list (a :: b :: l) =
  match dotless a b with Some c => c :: upper_list l | None => upper_ascii a :: upper_list (b :: l) end.
Proof.
  unfold dotless. change (upper_list (a :: b :: l)) with
    (if (ascii_Z a =? 196) && (ascii_Z b =? 177) then ascii_of_nat 73 :: upper_list l
     else if (ascii_Z a =? 197) && (ascii_Z b =? 191) then ascii_of_nat 83 :: upper_list l
     else upper_ascii a :: upper_list (b :: l)).
  destruct (_ && _); [done|]. by destruct (_ && _).
Qed.

Lemma upper_list_up l : upper_list l = up dotless l.
Proof.
  induction l as [l IH] using (induction_ltof1 _ length). destruct l as [|a [|b l]]; [done|done|].
  rewrite upper_list_cons2. change (up dotless (a :: b :: l)) with
    (match dotless a b with Some c => c :: up dotless l | None => upper_ascii a :: up dotless (b :: l) end).
  destruct (dotless a b); f_equal; apply IH; unfold ltof; simpl; lia.
Qed.

Lemma dotless_bytes a b c : dotless a b = Some c -> (ascii_Z a = 196 /\ ascii_Z b = 177 \/ ascii_Z a = 197 /\ ascii_Z b = 191) /\ (c = "I"%char \/ c = "S"%char).
Proof.
  unfold dotless. destruct ((ascii_Z a =? 196) && (ascii_Z b =? 177)) eqn:E1.
  - apply andb_true_iff in E1 as [?%Z.eqb_eq ?%Z.eqb_eq]. intros [= <-]. auto.
  - destruct ((ascii_Z a =? 197) && (ascii_Z b =? 191)) eqn:E2; [|discriminate].
    apply andb_true_iff in E2 as [?%Z.eqb_eq ?%Z.eqb_eq]. intros [= <-]. auto.
Qed.

Lemma space_byte_Z a : In (ascii_Z a) [196; 197; 177; 191] -> space_byte a = false.
Proof.
  unfold space_byte, is_ascii_space. intros H. simpl in H. destruct H as [<-|[<-|[<-|[<-|[]]]]]; reflexivity.
Qed.
Lemma dotless_letters a b c : dotless a b = Some c -> space_byte a = false /\ space_byte b = false /\ space_byte c = false.
Proof.
  intros [[[Ha Hb]|[Ha Hb]] Hc]%dotless_bytes; (split_and!; [apply space_byte_Z; simpl; lia | apply space_byte_Z; simpl; lia |]).
  all: by destruct Hc as [->| ->].
Qed.

(** No byte belongs to two pairs. *)
Lemma dotless_last a b c x : dotless a b = Some c -> dotless b x = None.
Proof.
  intros [[[_ Hb]|[_ Hb]] _]%dotless_bytes; unfold dotless; by rewrite Hb.
Qed.
Lemma dotless_first a b c x : dotless a b = Some c -> dotless x a = None.
Proof.
  intros [[[Ha _]|[Ha _]] _]%dotless_bytes; unfold dotless; rewrite Ha, !andb_false_r; done.
Qed.

Definition backwards {A B} (f : A -> A -> B) (a b : A) : B := f b a.

Lemma up_cons2 pair a b l :
  up pair (a :: b :: l) = match pair a b with Some c => c :: up pair l | None => upper_ascii a :: up pair (b :: l) end.
Proof. done. Qed.

Lemma up_snoc pair l a :
  (forall x, last l = Some x -> pair x a = None) -> up pair (l ++ [a]) = (up pair l ++ [upper_ascii a])%list.
Proof.
  induction l as [l IH] using (induction_ltof1 _ length). intros Hl. destruct l as [|x [|y l]].
  - done.
  - simpl. by rewrite (Hl x eq_refl).
  - change ((x :: y :: l) ++ [a])%list with (x :: y :: (l ++ [a]))%list. rewrite !up_cons2. destruct (pair x y) as [c|].
    + rewrite IH; [done | unfold ltof; simpl; lia |]. intros z Hz. apply Hl. destruct l; [done|exact Hz].
    + change (y :: l ++ [a])%list with ((y :: l) ++ [a])%list. rewrite IH; [done | unfold ltof; simpl; lia |].
      intros z Hz. apply Hl. exact Hz.
Qed.

Lemma up_snoc2 pair l b a c :
  (forall x, pair x b = None) -> pair b a = Some c -> up pair (l ++ [b; a]) = (up pair l ++ [c])%list.
Proof.
  intros Hb Hc. induction l as [l IH] using (induction_ltof1 _ length). destruct l as [|x [|y l]].
  - simpl. by rewrite Hc.
  - simpl. by rewrite Hb, Hc.
  - change ((x :: y :: l) ++ [b; a])%list with (x :: y :: (l ++ [b; a]))%list. rewrite !up_cons2. destruct (pair x y) as [d|].
    + rewrite IH by (unfold ltof; simpl; lia). done.
    + change (y :: l ++ [b; a])%list with ((y :: l) ++ [b; a])%list. rewrite IH by (unfold ltof; simpl; lia). done.
Qed.

Lemma up_rev l : rev (up dotless l) = up (backwards dotless) (rev l).
Proof.
  induction l as [l IH] using (induction_ltof1 _ length). destruct l as [|a [|b l]]; [done|done|].
  rewrite up_cons2. destruct (dotless a b) as [c|] eqn:E.
  - cbn [rev]. rewrite IH, <- app_assoc by (unfold ltof; simpl; lia). symmetry. apply up_snoc2; [|exact E].
    intros x. exact (dotless_last _ _ _ x E).
  - change (rev (upper_ascii a :: up dotless (b :: l))) with (rev (up dotless (b :: l)) ++ [upper_ascii a])%list.
    rewrite IH by (unfold ltof; simpl; lia). change (rev (a :: b :: l)) with (rev (b :: l) ++ [a])%list. symmetry.
    apply up_snoc. intros x. cbn [rev]. rewrite last_snoc. by intros [= <-].
Qed.

Lemma trim_left_trim l :
  trim_left l = trim (fun a b => is_space2 (ascii_Z a) (ascii_Z b)) (fun a b c => is_space3 (ascii_Z a) (ascii_Z b) (ascii_Z c)) l.
Proof.
  induction l as [l IH] using (induction_ltof1 _ length). destruct l as [|a l]; [done|]. simpl.
  destruct (is_ascii_space a); [apply IH; unfold ltof; simpl; lia|]. destruct l as [|b l]; [done|].
  destruct (is_space2 _ _); [apply IH; unfold ltof; simpl; lia|]. destruct l as [|c l]; [done|].
  destruct (is_space3 _ _ _); [apply IH; unfold ltof; simpl; lia|done].
Qed.
Lemma trim_right_trim l :
  trim_right_rev l = trim (fun a b => is_space2 (ascii_Z b) (ascii_Z a)) (fun a b c => is_space3 (ascii_Z c) (ascii_Z b) (ascii_Z a)) l.
Proof.
  induction l as [l IH] using (induction_ltof1 _ length). destruct l as [|a l]; [done|]. simpl.
  destruct (is_ascii_space a); [apply IH; unfold ltof; simpl; lia|]. destruct l as [|b l]; [done|].
  destruct (is_space2 _ _); [apply IH; unfold ltof; simpl; lia|]. destruct l as [|c l]; [done|].
  destruct (is_space3 _ _ _); [apply IH; unfold ltof; simpl; lia|done].
Qed.

Lemma space_byte_range a : (128 <= ascii_Z a <= 175) \/ ascii_Z a = 194 \/ ascii_Z a = 225 \/ ascii_Z a = 226 \/ ascii_Z a = 227 ->
  space_byte a = true.
Proof.
  unfold space_byte. intros H. rewrite !orb_true_iff. destruct H as [H|H].
  - left. right. lia.
  - right. simpl. lia.
Qed.
Lemma is_space2_bytes a b : is_space2 (ascii_Z a) (ascii_Z b) = true -> space_byte a = true /\ space_byte b = true.
Proof. unfold is_space2. intros H. split; apply space_byte_range; lia. Qed.
Lemma is_space3_bytes a b c :
  is_space3 (ascii_Z a) (ascii_Z b) (ascii_Z c) = true -> space_byte a = true /\ space_byte b = true /\ space_byte c = true.
Proof. unfold is_space3. intros H. split_and!; apply space_byte_range; lia. Qed.

Theorem TrimSpace_ToUpper s : TrimSpace (ToUpper s) = ToUpper (TrimSpace s).
Proof.
  unfold TrimSpace, ToUpper. rewrite !String.list_ascii_of_string_of_list_ascii. f_equal.
  rewrite !upper_list_up, !trim_left_trim, !trim_right_trim.
  rewrite trim_up by (eauto using dotless_letters, is_space2_bytes, is_space3_bytes).
  rewrite up_rev, trim_up.
  - rewrite <- (rev_involutive (up dotless _)), up_rev. by rewrite rev_involutive.
  - unfold backwards. intros a b c (? & ? & ?)%dotless_letters. auto.
  - intros a b (? & ?)%is_space2_bytes. auto.
  - intros a b c (? & ? & ?)%is_space3_bytes. auto.
Qed.

Theorem TrimSpace_twice s : TrimSpace (TrimSpace s) = TrimSpace s.
Proof.
  unfold TrimSpace. rewrite !String.list_ascii_of_string_of_list_ascii. f_equal.
  rewrite !trim_left_trim, !trim_right_trim. apply trim_both_twice.
Qed.
