(* ===== verification/Domain.v ===== *)
(** * The domain package: statuses, state machines and money

    Models [src/internal/domain]: [order.go], [delivery.go], [inventory.go],
    [status.go], [money.go] and [errors.go].  Go's status types are strings; each
    is an inductive type with the source's constants and one constructor for any
    other text, so that [IsValid] has something to refuse.  The sentinel errors of
    [domain], of [app] ([errors.go]) and of the database driver are one type
    [Error]: [fmt.Errorf("...: %w")] keeps the sentinel that [errors.Is] finds. *)

From S2P Require Import Prelude.

(** ** Sentinel errors *)

(** The SQLSTATE classes of the constraints the code can meet. *)
Inductive SqlState :=
  | UniqueViolation          (* 23505 *)
  | CheckViolation           (* 23514 *)
  | NumericValueOutOfRange   (* 22003 *)
  | InvalidRowCount.         (* 2201W: negative LIMIT *)

Inductive Error :=
  (* domain/errors.go *)
  | ErrInvalidMoney | ErrDomainMoneyOverflow | ErrDomainInvalidQuantity
  | ErrInvalidStatus | ErrInvalidOrderTransition
  (* app/errors.go *)
  | ErrInvalidInput | ErrNotFound | ErrUnauthorized | ErrForbidden | ErrUserBlocked
  | ErrSessionExpired | ErrStaleVersion | ErrConflict | ErrDuplicateUpdate | ErrUpdateInProgress
  | ErrInventoryNotFound | ErrInventoryUnavailable | ErrInsufficientInventory
  | ErrInventoryAlreadyExists | ErrInvalidInventoryState | ErrReservationNotOwned
  | ErrReservationExpired | ErrUnsafeReservationRelease | ErrEncryptionFailed
  | ErrDecryptionFailed | ErrUnknownKeyVersion | ErrImportLimitExceeded
  | ErrInvalidInventoryPayload
  | ErrOrderNotFound | ErrOrderNotOwned | ErrInvalidOrderState | ErrOrderExpired
  | ErrOrderAlreadyCancelled | ErrInvalidQuantity | ErrQuantityLimitExceeded
  | ErrMoneyOverflow | ErrProductInactive | ErrCategoryInactive | ErrBankAccountNotFound
  | ErrBankAccountInactive | ErrDuplicateOrderOperation | ErrPaymentReferenceCollision
  | ErrInvalidPaymentInstruction | ErrBankEncryptionFailed | ErrBankDecryptionFailed
  | ErrUnknownBankKeyVersion
  | ErrInvalidWebhookSignature | ErrWebhookReplay | ErrUnknownPaymentProvider
  | ErrDuplicatePaymentEvent | ErrPaymentEventConflict | ErrPaymentTransactionConflict
  | ErrPaymentAlreadyAllocated | ErrPaymentReferenceNotFound | ErrPaymentAmountMismatch
  | ErrPaymentCurrencyMismatch | ErrPaymentTargetExpired | ErrLatePayment
  | ErrPaymentRequiresReview | ErrOrderAlreadyPaid | ErrWalletNotFound
  | ErrInsufficientWalletBalance | ErrDuplicateLedgerOperation | ErrWalletTopUpNotFound
  | ErrWalletTopUpExpired | ErrInvalidWalletAmount | ErrUnsafePaymentResolution
  | ErrDeliveryNotFound | ErrInvalidDeliveryState | ErrDeliveryLeaseLost
  | ErrDeliveryInventoryMismatch | ErrDeliveryMessageTooLarge | ErrDeliveryRequiresReview
  | ErrUnsafeDeliveryResolution
  (* the driver *)
  | ErrNoRows                      (* pgx.ErrNoRows *)
  | ErrPg (state : SqlState)       (* *pgconn.PgError *)
  | ErrInfra                       (* connection, begin or commit failure *)
  | ErrContext                     (* context.Canceled or context.DeadlineExceeded *)
  | ErrExternal (code : string).   (* an error of a collaborator outside src/ *)

#[export] Instance SqlState_eq_dec : EqDecision SqlState.
Proof. solve_decision. Defined.
#[export] Instance Error_eq_dec : EqDecision Error.
Proof. solve_decision. Defined.

(** ** Order lifecycle (order.go) *)

Module Order.
Inductive OrderStatus :=
  | OrderStatusPendingPayment | OrderStatusPaymentReview | OrderStatusPaid
  | OrderStatusReserving | OrderStatusDelivering | OrderStatusDelivered
  | OrderStatusExpired | OrderStatusCancelled | OrderStatusOutOfStock
  | OrderStatusDeliveryFailed | OrderStatusRefunded
  | OrderStatusOther (text : string).

#[export] Instance OrderStatus_eq_dec : EqDecision OrderStatus.
Proof. solve_decision. Defined.

(** [string(status)] *)
Definition OrderStatus_string (s : OrderStatus) : string :=
  match s with
  | OrderStatusPendingPayment => "pending_payment"
  | OrderStatusPaymentReview => "payment_review"
  | OrderStatusPaid => "paid"
  | OrderStatusReserving => "reserving"
  | OrderStatusDelivering => "delivering"
  | OrderStatusDelivered => "delivered"
  | OrderStatusExpired => "expired"
  | OrderStatusCancelled => "cancelled"
  | OrderStatusOutOfStock => "out_of_stock"
  | OrderStatusDeliveryFailed => "delivery_failed"
  | OrderStatusRefunded => "refunded"
  | OrderStatusOther t => t
  end.

Definition orderTransitions (from : OrderStatus) : list OrderStatus :=
  match from with
  | OrderStatusPendingPayment =>
      [OrderStatusPaid; OrderStatusPaymentReview; OrderStatusExpired; OrderStatusCancelled]
  | OrderStatusPaymentReview => [OrderStatusPaid; OrderStatusRefunded; OrderStatusCancelled]
  | OrderStatusPaid => [OrderStatusReserving; OrderStatusPaymentReview]
  | OrderStatusReserving => [OrderStatusDelivering; OrderStatusOutOfStock]
  | OrderStatusDelivering => [OrderStatusDelivered; OrderStatusDeliveryFailed]
  | OrderStatusDelivered => [OrderStatusRefunded]
  | OrderStatusExpired => [OrderStatusPaymentReview]
  | OrderStatusOutOfStock => [OrderStatusReserving; OrderStatusRefunded]
  | OrderStatusDeliveryFailed => [OrderStatusDelivering; OrderStatusRefunded]
  | _ => []
  end.

Definition IsValid (s : OrderStatus) : bool :=
  match s with OrderStatusOther _ => false | _ => true end.

Definition IsTerminal (s : OrderStatus) : bool :=
  bool_decide (s = OrderStatusCancelled) || bool_decide (s = OrderStatusRefunded).

Definition IsCustomerTerminal (s : OrderStatus) : bool :=
  bool_decide (s = OrderStatusExpired) || bool_decide (s = OrderStatusCancelled).

(** [error] results: [None] is Go's [nil]. *)
Definition ValidateCustomerOrderTransition (from to : OrderStatus) : option Error :=
  if negb (IsValid from) || negb (IsValid to) then Some ErrInvalidStatus
  else if negb (bool_decide (from = OrderStatusPendingPayment))
          || negb (bool_decide (to = OrderStatusCancelled))
  then Some ErrInvalidOrderTransition
  else None.

Definition CanTransitionOrder (from to : OrderStatus) : bool :=
  if negb (IsValid from) || negb (IsValid to) || bool_decide (from = to) then false
  else bool_decide (to ∈ orderTransitions from).

Definition ValidateOrderTransition (from to : OrderStatus) : option Error :=
  if negb (IsValid from) || negb (IsValid to) then Some ErrInvalidStatus
  else if negb (CanTransitionOrder from to) then Some ErrInvalidOrderTransition
  else None.

(** One permitted change, and any number of them. *)
Definition order_edge (from to : OrderStatus) : Prop := CanTransitionOrder from to = true.
Abbreviation order_path := (rtc order_edge).

Lemma order_edge_targets from to : order_edge from to -> to ∈ orderTransitions from.
Proof.
  unfold order_edge, CanTransitionOrder. case_match; [done|].
  by intros ?%bool_decide_eq_true.
Qed.

Lemma order_edge_valid from to :
  order_edge from to -> IsValid from = true /\ IsValid to = true /\ from <> to.
Proof.
  unfold order_edge, CanTransitionOrder. destruct (negb _ || _ || _) eqn:E; [done|]. intros _.
  apply orb_false_iff in E as [E E3]. apply orb_false_iff in E as [E1 E2].
  apply negb_false_iff in E1, E2. apply bool_decide_eq_false in E3. done.
Qed.

(** A state with no exit is left by no path. *)
Lemma path_from_stuck from to :
  orderTransitions from = [] -> order_path from to -> to = from.
Proof.
  intros Hnil Hp. inversion Hp as [|? mid ? He]; subst; [done|].
  apply order_edge_targets in He. rewrite Hnil in He. by apply not_elem_of_nil in He.
Qed.
End Order.
Export Order.

(** ** Delivery queue lifecycle (delivery.go) *)

Module Delivery.
Inductive DeliveryJobStatus :=
  | DeliveryJobPending | DeliveryJobProcessing | DeliveryJobRetryableFailed
  | DeliveryJobAmbiguous | DeliveryJobManualReview | DeliveryJobPermanentFailed
  | DeliveryJobCompleted | DeliveryJobCancelled
  | DeliveryJobOther (text : string).

#[export] Instance DeliveryJobStatus_eq_dec : EqDecision DeliveryJobStatus.
Proof. solve_decision. Defined.

Definition DeliveryJobStatus_string (s : DeliveryJobStatus) : string :=
  match s with
  | DeliveryJobPending => "pending"
  | DeliveryJobProcessing => "processing"
  | DeliveryJobRetryableFailed => "retryable_failed"
  | DeliveryJobAmbiguous => "ambiguous"
  | DeliveryJobManualReview => "manual_review"
  | DeliveryJobPermanentFailed => "permanent_failed"
  | DeliveryJobCompleted => "completed"
  | DeliveryJobCancelled => "cancelled"
  | DeliveryJobOther t => t
  end.

Inductive DeliveryResultClass :=
  | DeliveryResultSuccess | DeliveryResultRetryable
  | DeliveryResultPermanent | DeliveryResultAmbiguous
  | DeliveryResultOther (text : string).

#[export] Instance DeliveryResultClass_eq_dec : EqDecision DeliveryResultClass.
Proof. solve_decision. Defined.

Definition DeliveryResultClass_string (c : DeliveryResultClass) : string :=
  match c with
  | DeliveryResultSuccess => "success"
  | DeliveryResultRetryable => "retryable"
  | DeliveryResultPermanent => "permanent"
  | DeliveryResultAmbiguous => "ambiguous"
  | DeliveryResultOther t => t
  end.

Definition DeliveryJobStatus_IsValid (s : DeliveryJobStatus) : bool :=
  match s with DeliveryJobOther _ => false | _ => true end.

Definition AutomaticallyClaimable (s : DeliveryJobStatus) : bool :=
  bool_decide (s = DeliveryJobPending) || bool_decide (s = DeliveryJobRetryableFailed).

Definition DeliveryJob_Terminal (s : DeliveryJobStatus) : bool :=
  bool_decide (s = DeliveryJobCompleted) || bool_decide (s = DeliveryJobCancelled).

Definition CanTransitionDelivery (from to : DeliveryJobStatus) (manual : bool) : bool :=
  if negb (DeliveryJobStatus_IsValid from) || negb (DeliveryJobStatus_IsValid to)
     || bool_decide (from = to) then false
  else
    match from with
    | DeliveryJobPending | DeliveryJobRetryableFailed =>
        bool_decide (to = DeliveryJobProcessing)
    | DeliveryJobProcessing =>
        bool_decide (to = DeliveryJobCompleted) || bool_decide (to = DeliveryJobRetryableFailed)
        || bool_decide (to = DeliveryJobAmbiguous) || bool_decide (to = DeliveryJobPermanentFailed)
        || bool_decide (to = DeliveryJobManualReview)
    | DeliveryJobAmbiguous | DeliveryJobManualReview =>
        manual && (bool_decide (to = DeliveryJobPending) || bool_decide (to = DeliveryJobCompleted)
                   || bool_decide (to = DeliveryJobCancelled))
    | DeliveryJobPermanentFailed =>
        manual && (bool_decide (to = DeliveryJobPending) || bool_decide (to = DeliveryJobCancelled))
    | _ => false
    end.

(** What a worker may do without an administrator, and what either may do. *)
Definition automatic_edge (from to : DeliveryJobStatus) : Prop :=
  CanTransitionDelivery from to false = true.
Definition delivery_edge (from to : DeliveryJobStatus) : Prop :=
  CanTransitionDelivery from to true = true.

(** What an administrator's retry and completion do to a job: the transitions of
    [CanTransitionDelivery], and the retry of a job that waits for its next attempt. *)
Definition hand_edge (from to : DeliveryJobStatus) : Prop :=
  (to = DeliveryJobPending
   /\ from ∈ [DeliveryJobAmbiguous; DeliveryJobManualReview; DeliveryJobPermanentFailed; DeliveryJobRetryableFailed])
  \/ (to = DeliveryJobCompleted /\ from ∈ [DeliveryJobAmbiguous; DeliveryJobManualReview]).
Definition job_edge (from to : DeliveryJobStatus) : Prop := automatic_edge from to \/ hand_edge from to.

Lemma hand_edge_delivery from to :
  hand_edge from to -> delivery_edge from to \/ (from = DeliveryJobRetryableFailed /\ to = DeliveryJobPending).
Proof.
  intros [[-> Hf]|[-> Hf]]; in_cases Hf; subst from; first [by right | left; by vm_compute].
Qed.
End Delivery.
Export Delivery.

(** ** Inventory lifecycle (inventory.go, status.go) *)

Module Inventory.
Inductive InventoryStatus :=
  | InventoryStatusAvailable | InventoryStatusReserved | InventoryStatusSold
  | InventoryStatusDisabled
  | InventoryStatusOther (text : string).

#[export] Instance InventoryStatus_eq_dec : EqDecision InventoryStatus.
Proof. solve_decision. Defined.

Definition InventoryStatus_string (s : InventoryStatus) : string :=
  match s with
  | InventoryStatusAvailable => "available"
  | InventoryStatusReserved => "reserved"
  | InventoryStatusSold => "sold"
  | InventoryStatusDisabled => "disabled"
  | InventoryStatusOther t => t
  end.

Definition InventoryStatus_IsValid (s : InventoryStatus) : bool :=
  match s with InventoryStatusOther _ => false | _ => true end.

Inductive InventoryReleaseReason :=
  | InventoryReleaseOrderCancelled | InventoryReleaseOrderExpired
  | InventoryReleaseOrderRefunded | InventoryReleaseOutOfStock
  | InventoryReleaseOther (text : string).

#[export] Instance InventoryReleaseReason_eq_dec : EqDecision InventoryReleaseReason.
Proof. solve_decision. Defined.

Definition InventoryReleaseReason_string (r : InventoryReleaseReason) : string :=
  match r with
  | InventoryReleaseOrderCancelled => "order_cancelled"
  | InventoryReleaseOrderExpired => "order_expired"
  | InventoryReleaseOrderRefunded => "order_refunded"
  | InventoryReleaseOutOfStock => "order_out_of_stock"
  | InventoryReleaseOther t => t
  end.

Definition InventoryReleaseReason_IsValid (r : InventoryReleaseReason) : bool :=
  match r with InventoryReleaseOther _ => false | _ => true end.

(** [(reason, ok)]: [None] is [("", false)]. *)
Definition InventoryReleaseReasonForOrder (s : OrderStatus) : option InventoryReleaseReason :=
  match s with
  | OrderStatusCancelled => Some InventoryReleaseOrderCancelled
  | OrderStatusExpired => Some InventoryReleaseOrderExpired
  | OrderStatusRefunded => Some InventoryReleaseOrderRefunded
  | OrderStatusOutOfStock => Some InventoryReleaseOutOfStock
  | _ => None
  end.

Definition CanTransitionInventory (from to : InventoryStatus) : bool :=
  if bool_decide (from = InventoryStatusAvailable)
     && (bool_decide (to = InventoryStatusReserved) || bool_decide (to = InventoryStatusDisabled))
  then true
  else if bool_decide (from = InventoryStatusDisabled) && bool_decide (to = InventoryStatusAvailable)
  then true
  else bool_decide (from = InventoryStatusReserved) && bool_decide (to = InventoryStatusAvailable).
End Inventory.
Export Inventory.

(** ** Remaining typed statuses (status.go) *)

Module Status.
Inductive UserStatus :=
  | UserStatusActive | UserStatusBanned | UserStatusDisabled | UserStatusOther (text : string).
Inductive PaymentStatus :=
  | PaymentStatusCreated | PaymentStatusConfirmed | PaymentStatusFailed
  | PaymentStatusReview | PaymentStatusRefunded | PaymentStatusOther (text : string).
Inductive OutboxStatus :=
  | OutboxStatusPending | OutboxStatusProcessing | OutboxStatusCompleted
  | OutboxStatusFailed | OutboxStatusOther (text : string).
Inductive WalletEntryType :=
  | WalletEntryTypeCredit | WalletEntryTypeDebit | WalletEntryTypeRefund
  | WalletEntryTypeAdjustment | WalletEntryTypeOther (text : string).

#[export] Instance UserStatus_eq_dec : EqDecision UserStatus.
Proof. solve_decision. Defined.
#[export] Instance PaymentStatus_eq_dec : EqDecision PaymentStatus.
Proof. solve_decision. Defined.
#[export] Instance WalletEntryType_eq_dec : EqDecision WalletEntryType.
Proof. solve_decision. Defined.

Definition UserStatus_IsValid (s : UserStatus) : bool :=
  match s with UserStatusOther _ => false | _ => true end.
Definition PaymentStatus_IsValid (s : PaymentStatus) : bool :=
  match s with PaymentStatusOther _ => false | _ => true end.
Definition OutboxStatus_IsValid (s : OutboxStatus) : bool :=
  match s with OutboxStatusOther _ => false | _ => true end.
Definition WalletEntryType_IsValid (t : WalletEntryType) : bool :=
  match t with WalletEntryTypeOther _ => false | _ => true end.

Definition AcceptsAmount (t : WalletEntryType) (amount : Z) : bool :=
  match t with
  | WalletEntryTypeCredit | WalletEntryTypeRefund => 0 <? amount
  | WalletEntryTypeDebit => amount <? 0
  | WalletEntryTypeAdjustment => negb (amount =? 0)
  | WalletEntryTypeOther _ => false
  end.
End Status.
Export Status.

(** ** Money (money.go): an [int64] amount of VND *)

Module Money.
Definition NewMoney (value : Z) : Error + Z :=
  if value <? 0 then inl ErrInvalidMoney else inr value.

Definition Add (m other : Z) : Error + Z :=
  if (m <? 0) || (other <? 0) then inl ErrInvalidMoney
  else if wrap64 (int64_max - other) <? m then inl ErrDomainMoneyOverflow
  else inr (wrap64 (m + other)).

(** [quantity] is an [int32]; Go's division truncates. *)
Definition Multiply (m quantity : Z) : Error + Z :=
  if m <? 0 then inl ErrInvalidMoney
  else if quantity <=? 0 then inl ErrDomainInvalidQuantity
  else if negb (m =? 0) && (Z.quot int64_max m <? quantity) then inl ErrDomainMoneyOverflow
  else inr (wrap64 (m * quantity)).

(** The functional specification: exact arithmetic, or the error of the first
    violated condition. *)
Definition Multiply_spec (m quantity : Z) : Error + Z :=
  if m <? 0 then inl ErrInvalidMoney
  else if quantity <=? 0 then inl ErrDomainInvalidQuantity
  else if int64_max <? m * quantity then inl ErrDomainMoneyOverflow
  else inr (m * quantity).

Definition Add_spec (m other : Z) : Error + Z :=
  if (m <? 0) || (other <? 0) then inl ErrInvalidMoney
  else if int64_max <? m + other then inl ErrDomainMoneyOverflow
  else inr (m + other).

Lemma Multiply_exact m q : Multiply m q = Multiply_spec m q.
Proof.
  unfold Multiply, Multiply_spec.
  destruct (m <? 0) eqn:Em; [done|]. destruct (q <=? 0) eqn:Eq; [done|].
  apply Z.ltb_ge in Em. apply Z.leb_gt in Eq.
  destruct (m =? 0) eqn:E0; simpl.
  - apply Z.eqb_eq in E0 as ->. simpl. by rewrite wrap64_id by (unfold int64_max, int64_min; lia).
  - apply Z.eqb_neq in E0.
    assert (Z.quot int64_max m = int64_max / m) as ->
      by (apply Z.quot_div_nonneg; unfold int64_max; lia).
    assert (int64_max / m < q <-> int64_max < m * q) as Hiff.
    { split; intros H.
      - apply Z.nle_gt. intros Hle. apply (Z.div_le_lower_bound int64_max m q) in Hle; lia.
      - apply Z.div_lt_upper_bound; lia. }
    destruct (int64_max / m <? q) eqn:E1, (int64_max <? m * q) eqn:E2;
      rewrite ?Z.ltb_lt, ?Z.ltb_ge in *; try done; try lia.
    rewrite wrap64_id; [done|]. unfold int64_min, int64_max in *. nia.
Qed.

Lemma Add_exact m n :
  in_int64 m = true -> in_int64 n = true -> Add m n = Add_spec m n.
Proof.
  rewrite !in_int64_spec. intros Hm Hn. unfold Add, Add_spec.
  destruct ((m <? 0) || (n <? 0)) eqn:E; [done|].
  apply orb_false_iff in E as [Em En]. apply Z.ltb_ge in Em, En.
  rewrite wrap64_id by (unfold int64_min, int64_max in *; lia).
  destruct (int64_max - n <? m) eqn:E1, (int64_max <? m + n) eqn:E2;
    rewrite ?Z.ltb_lt, ?Z.ltb_ge in *; try done; try lia.
  rewrite wrap64_id; [done|]. unfold int64_min, int64_max in *; lia.
Qed.
End Money.
