(* ===== verification/Strconv.v ===== *)
(** * Values written as text

    What the configuration calls of Go's [strconv], [encoding/base64] and [log/slog] to
    read numbers, truth values, keys and log levels: each function on byte strings,
    [None] where Go returns an error; before them float64 itself, IEEE 754 binary64 with
    the Standard Library's executable [SpecFloat], which [time.Duration.Seconds] and the
    retry delay of the delivery worker go through as well. *)

From Stdlib Require Import Ascii SpecFloat.
From S2P Require Import Prelude Text.

#[local] Open Scope string_scope.
#[local] Open Scope Z_scope.

(** ** float64 *)

Definition f64_prec : Z := 53.
Definition f64_emax : Z := 1024.

(** [float64(z)] of an integer, rounded to nearest even *)
Definition f64_of_Z (z : Z) : spec_float := binary_normalize f64_prec f64_emax z 0 false.
Definition f64_add (a b : spec_float) : spec_float := SFadd f64_prec f64_emax a b.
Definition f64_sub (a b : spec_float) : spec_float := SFsub f64_prec f64_emax a b.
Definition f64_mul (a b : spec_float) : spec_float := SFmul f64_prec f64_emax a b.
Definition f64_div (a b : spec_float) : spec_float := SFdiv f64_prec f64_emax a b.

(** The floor, the ceiling and the truncation of a finite float as integers.  What Go
    makes of the others depends on the machine; they are given the value 0, which only a
    jitter ratio that is not a number would reach ([Started.nan_jitter_loads]). *)
Definition f64_floor (f : spec_float) : Z :=
  match f with
  | S754_finite s m e =>
      let z := if s then Zneg m else Zpos m in
      if 0 <=? e then z * 2 ^ e else z / 2 ^ (- e)
  | _ => 0
  end.
Definition f64_ceil (f : spec_float) : Z := - f64_floor (SFopp f).
Definition f64_trunc (f : spec_float) : Z :=
  match f with
  | S754_finite true _ _ => f64_ceil f
  | _ => f64_floor f
  end.

(** [d.Seconds()]: [float64(sec) + float64(nsec)/1e9] *)
Definition Seconds (d : Duration) : spec_float :=
  f64_add (f64_of_Z (Z.quot d 1000000000))
          (f64_div (f64_of_Z (Z.rem d 1000000000)) (f64_of_Z 1000000000)).

(** ** Integers and truth values *)

(** [strconv.Atoi]: [int] has 64 bits on the platforms of the bot. *)
Definition Atoi (s : string) : option Z := ParseInt 64 s.

(** [strconv.ParseBool] *)
Definition ParseBool (s : string) : option bool :=
  if existsb (String.eqb s) ["1"; "t"; "T"; "true"; "TRUE"; "True"] then Some true
  else if existsb (String.eqb s) ["0"; "f"; "F"; "false"; "FALSE"; "False"] then Some false
  else None.

(** ** Floating-point numbers *)

Definition lower_of (a : ascii) : ascii := lower_ascii a.
Definition in_decimal (a : ascii) : bool := match digit_of a with Some _ => true | None => false end.
Definition hex_of (a : ascii) : option Z :=
  match digit_of a with
  | Some d => Some d
  | None => let d := ascii_Z (lower_of a) - 87 in if (10 <=? d) && (d <=? 15) then Some d else None
  end.
Definition digit_in (hex : bool) (a : ascii) : option Z := if hex then hex_of a else digit_of a.

(** The mantissa: its value, the number of its digits after the point, whether a point
    and any digit were seen, and what follows *)
Record Mantissa := mkMantissa { ma_value : Z; ma_scale : Z; ma_dot : bool; ma_digits : bool; ma_rest : list ascii }.
Fixpoint read_mantissa (hex : bool) (value scale : Z) (dot digits : bool) (l : list ascii) : Mantissa :=
  match l with
  | [] => mkMantissa value scale dot digits []
  | a :: l' =>
      if Ascii.eqb a "_" then read_mantissa hex value scale dot digits l'
      else if Ascii.eqb a "." then
        if dot then mkMantissa value scale dot digits l else read_mantissa hex value scale true digits l'
      else match digit_in hex a with
           | Some d => read_mantissa hex (value * (if hex then 16 else 10) + d) (if dot then scale + 1 else scale) dot true l'
           | None => mkMantissa value scale dot digits l
           end
  end.

(** The digits of the exponent; it stops growing at 10000, which is far beyond what a
    float64 holds. *)
Fixpoint read_exponent (e : Z) (l : list ascii) : option Z :=
  match l with
  | [] => Some e
  | a :: l' =>
      if Ascii.eqb a "_" then read_exponent e l'
      else match digit_of a with
           | Some d => read_exponent (if e <? 10000 then e * 10 + d else e) l'
           | None => None
           end
  end.
Definition signed_exponent (l : list ascii) : option Z :=
  let '(negative, digits) :=
    match l with
    | a :: l' => if Ascii.eqb a "+" then (false, l') else if Ascii.eqb a "-" then (true, l') else (false, l)
    | [] => (false, [])
    end in
  match digits with
  | a :: _ => if in_decimal a then e ← read_exponent 0 digits; Some (if negative then - e else e) else None
  | [] => None
  end.

(** [underscoreOK]: an underscore stands between digits, or after the base's prefix. *)
Inductive Seen := SeenStart | SeenDigit | SeenUnderscore | SeenOther.
Fixpoint underscores_ok (hex : bool) (saw : Seen) (l : list ascii) : bool :=
  match l with
  | [] => match saw with SeenUnderscore => false | _ => true end
  | a :: l' =>
      if (match digit_in hex a with Some _ => true | None => false end) then underscores_ok hex SeenDigit l'
      else if Ascii.eqb a "_" then match saw with SeenDigit => underscores_ok hex SeenUnderscore l' | _ => false end
      else match saw with SeenUnderscore => false | _ => underscores_ok hex SeenOther l' end
  end.

(** The float64 nearest to [± m * base ^ e], ties to even; [None] when it overflows
    ([ErrRange]) *)
Definition nearest (negative : bool) (m : Z) (base e : Z) : option spec_float :=
  let v :=
    if 0 <=? e then binary_normalize f64_prec f64_emax (m * base ^ e) 0 false
    else match m, base ^ (- e) with
         | Zpos m, Zpos d => f64_div (S754_finite false m 0) (S754_finite false d 0)
         | _, _ => S754_zero false
         end in
  match v with
  | S754_infinity _ => None
  | v => Some (if negative then SFopp v else v)
  end.

(** The special values: infinities in any case, and [nan] without a sign *)
Definition special_float (negative signed : bool) (l : list ascii) : option spec_float :=
  let name := String.string_of_list_ascii (lower_list l) in
  if String.eqb name "inf" || String.eqb name "infinity" then Some (S754_infinity negative)
  else if negb signed && String.eqb name "nan" then Some S754_nan
  else None.

(** [strconv.ParseFloat(s, 64)] *)
Definition ParseFloat (s : string) : option spec_float :=
  let '(signed, negative, l) :=
    match String.list_ascii_of_string s with
    | a :: l => if Ascii.eqb a "+" then (true, false, l) else if Ascii.eqb a "-" then (true, true, l) else (false, false, a :: l)
    | [] => (false, false, [])
    end in
  match special_float negative signed l with
  | Some f => Some f
  | None =>
      let '(hex, body) :=
        match l with
        | a :: b :: (c :: _) as rest => if Ascii.eqb a "0" && Ascii.eqb (lower_of b) "x" then (true, rest) else (false, l)
        | _ => (false, l)
        end in
      let m := read_mantissa hex 0 0 false false body in
      if negb (ma_digits m) || negb (underscores_ok hex (if hex then SeenDigit else SeenStart) body) then None
      else
        e ← match ma_rest m with
            | [] => if hex then None else Some 0
            | a :: rest => if Ascii.eqb (lower_of a) (if hex then "p" else "e") then signed_exponent rest else None
            end;
        if hex then nearest negative (ma_value m) 2 (e - 4 * ma_scale m)
        else nearest negative (ma_value m) 10 (e - ma_scale m)
  end.

(** Comparison of floats: nothing compares with a NaN. *)
Definition f64_lt (a b : spec_float) : bool := SFltb a b.

(** ** Standard base64 *)

Definition base64_value (a : ascii) : option Z :=
  let n := ascii_Z a in
  if (65 <=? n) && (n <=? 90) then Some (n - 65)
  else if (97 <=? n) && (n <=? 122) then Some (n - 71)
  else if (48 <=? n) && (n <=? 57) then Some (n + 4)
  else if n =? 43 then Some 62 else if n =? 47 then Some 63 else None.

(** Four characters make three bytes; the padding ends the text. *)
Fixpoint base64_groups (l : list ascii) : option (list Z) :=
  match l with
  | [] => Some []
  | a :: b :: c :: d :: rest =>
      x ← base64_value a;
      y ← base64_value b;
      let first := Z.lor (Z.shiftl x 2) (Z.shiftr y 4) in
      if Ascii.eqb c "=" then
        if Ascii.eqb d "=" then match rest with [] => Some [first] | _ => None end else None
      else
        z ← base64_value c;
        let second := Z.lor (Z.shiftl (Z.land y 15) 4) (Z.shiftr z 2) in
        if Ascii.eqb d "=" then match rest with [] => Some [first; second] | _ => None end
        else
          w ← base64_value d;
          tail ← base64_groups rest;
          Some (first :: second :: Z.lor (Z.shiftl (Z.land z 3) 6) w :: tail)
  | _ => None
  end.
(** [base64.StdEncoding.DecodeString]: line breaks are skipped. *)
Definition DecodeString (s : string) : option (list Z) :=
  base64_groups (filter (fun a => negb (Ascii.eqb a "010" || Ascii.eqb a "013")) (String.list_ascii_of_string s)).

(** ** Log levels *)

(** [strings.IndexAny(s, "+-")]: the name before the sign, and the rest from it on *)
Fixpoint cut_sign (s : string) : string * option string :=
  match s with
  | EmptyString => (EmptyString, None)
  | String a s' =>
      if Ascii.eqb a "+" || Ascii.eqb a "-" then (EmptyString, Some s)
      else let '(name, offset) := cut_sign s' in (String a name, offset)
  end.
Definition level_of (name : string) : option Z :=
  let name := ToUpper name in
  if String.eqb name "DEBUG" then Some (-4)
  else if String.eqb name "INFO" then Some 0
  else if String.eqb name "WARN" then Some 4
  else if String.eqb name "ERROR" then Some 8
  else None.
(** [slog.Level.UnmarshalText] *)
Definition ParseLevel (s : string) : option Z :=
  let '(name, offset) := cut_sign s in
  offset ← match offset with None => Some 0 | Some o => Atoi o end;
  level ← level_of name;
  Some (wrap64 (level + offset)).

(** ** Examples and laws *)

Example parse_one_fifth : ParseFloat "0.20" = Some (f64_div (f64_of_Z 1) (f64_of_Z 5)).
Proof. vm_compute. reflexivity. Qed.
Example parse_tiny : ParseFloat "5e-324" = Some (S754_finite false 1 (-1074)).
Proof. vm_compute. reflexivity. Qed.
Example parse_hex : ParseFloat "-0x1.8p-1" = Some (SFopp (f64_div (f64_of_Z 3) (f64_of_Z 4))).
Proof. vm_compute. reflexivity. Qed.
Example parse_too_big : ParseFloat "1.8e308" = None.
Proof. vm_compute. reflexivity. Qed.
Example parse_underscores : ParseFloat "1_0.5" = Some (f64_div (f64_of_Z 21) (f64_of_Z 2)) /\ ParseFloat "1__0" = None.
Proof. vm_compute. done. Qed.
Example parse_nan : ParseFloat "NaN" = Some S754_nan /\ ParseFloat "+nan" = None.
Proof. vm_compute. done. Qed.
Example decode_hello : DecodeString "aGVsbG8=" = Some (codes "hello").
Proof. vm_compute. reflexivity. Qed.
Example decode_garbage : DecodeString "aGVsbG8" = None.
Proof. vm_compute. reflexivity. Qed.
Example parse_level : ParseLevel "warn+1" = Some 5.
Proof. vm_compute. reflexivity. Qed.

Lemma Atoi_range s z : Atoi s = Some z -> int64_min <= z <= int64_max.
Proof. intros H%ParseInt_range. unfold int64_min, int64_max. lia. Qed.
