(* ===== verification/Schema.v ===== *)
(** * The relational schema

    Models the tables of [src/migrations] as the Go code sees them
    ([src/internal/postgres/generated/models.go]): a record per row, the CHECK
    constraints as a decidable predicate, the UNIQUE constraints as a clash
    relation between two rows, and the database as a record of tables.

    Columns the code never reads back ([updated_at], [created_at] where no query
    orders by it, the outbox payload) are left out.  Foreign keys are left out too:
    every id a handler stores was read by the same transaction, and no row is ever
    deleted. *)

From S2P Require Import Prelude Domain.

(** [[]byte] *)
Abbreviation Bytes := (list Z) (only parsing).

Definition aes_format : string := "aes-256-gcm-v1".

(** What [json.Marshal] is given for the audit columns. *)
#[warnings="-register-all"]
Inductive Json :=
  | JNull | JBool (b : bool) | JInt (z : Z) | JStr (s : string)
  | JInts (l : list Z) | JObj (fields : list (string * Json)).

Definition json_field (k : string) (j : Json) : option Json :=
  match j with
  | JObj fs => (fun r => r.2.2) <$> list_find (fun p => p.1 = k) fs
  | _ => None
  end.

Inductive MappingStatus := MappingActive | MappingReleased.
Inductive EventStatus :=
  | EventReceived | EventProcessing | EventCompleted | EventReview | EventFailed.
Inductive ReviewStatus := ReviewOpen | ReviewHeld | ReviewResolved.
Inductive WalletStatus := WalletActive | WalletFrozen | WalletClosed.
Inductive TopupStatus :=
  | TopupPending | TopupCredited | TopupExpired | TopupCancelled | TopupReview.
Inductive ProcessingStage := StageClaimed | StageSending.
Inductive ReceiptStatus := ReceiptReceived | ReceiptProcessing | ReceiptCompleted | ReceiptFailed.

#[export] Instance MappingStatus_eq_dec : EqDecision MappingStatus.
Proof. solve_decision. Defined.
#[export] Instance EventStatus_eq_dec : EqDecision EventStatus.
Proof. solve_decision. Defined.
#[export] Instance ReviewStatus_eq_dec : EqDecision ReviewStatus.
Proof. solve_decision. Defined.
#[export] Instance WalletStatus_eq_dec : EqDecision WalletStatus.
Proof. solve_decision. Defined.
#[export] Instance TopupStatus_eq_dec : EqDecision TopupStatus.
Proof. solve_decision. Defined.
#[export] Instance ProcessingStage_eq_dec : EqDecision ProcessingStage.
Proof. solve_decision. Defined.
#[export] Instance ReceiptStatus_eq_dec : EqDecision ReceiptStatus.
Proof. solve_decision. Defined.

(** [storedPaymentMetadata] of payment_event_worker_store.go, the part of the
    sanitized payload the worker decodes; [None] is a payload it cannot decode. *)
Record StoredPaymentMetadata := mkStoredPaymentMetadata {
  sm_reference : string; sm_amount_vnd : Z; sm_currency : string; sm_occurred_at : Time }.

(** ** Rows *)

(** [users] (00002) *)
Record User := mkUser { u_id : Z; u_telegram_user_id : Z; u_username : option string;
    u_display_name : option string; u_status : UserStatus; u_last_seen_at : option Time }.
#[export] Instance Eta_User : Eta User := fun r =>
    mkUser (u_id r) (u_telegram_user_id r)
    (u_username r) (u_display_name r) (u_status r) (u_last_seen_at r).

(** [admins] (00002) *)
Record AdminRow := mkAdminRow { ad_id : Z; ad_user_id : Z; ad_role : string; ad_is_active : bool }.
#[export] Instance Eta_AdminRow : Eta AdminRow := fun r =>
    mkAdminRow (ad_id r)
    (ad_user_id r) (ad_role r) (ad_is_active r).

(** [admin_sessions] (00011); the payload is the raw JSON text *)
Record AdminSessionRow := mkAdminSessionRow { as_id : Z; as_admin_id : Z; as_state : string;
    as_payload : string; as_expires_at : Time; as_version : Z }.
#[export] Instance Eta_AdminSessionRow : Eta AdminSessionRow := fun r =>
    mkAdminSessionRow
    (as_id r) (as_admin_id r) (as_state r) (as_payload r) (as_expires_at r) (as_version r).

(** [categories] (00003, 00014) *)
Record CategoryRow := mkCategoryRow { cat_id : Z; cat_name : string; cat_slug : string;
    cat_emoji : string; cat_sort_order : Z; cat_is_active : bool; cat_version : Z }.
#[export] Instance Eta_CategoryRow : Eta CategoryRow := fun r =>
    mkCategoryRow (cat_id r)
    (cat_name r) (cat_slug r) (cat_emoji r) (cat_sort_order r) (cat_is_active r) (cat_version r).

(** [products] (00003) *)
Record ProductRow := mkProductRow { p_id : Z; p_category_id : Z; p_name : string;
    p_slug : string; p_description : option string; p_price_vnd : Z; p_delivery_type : string;
    p_contact_url : option string; p_is_active : bool; p_version : Z; p_created_at : Time }.
#[export] Instance Eta_ProductRow : Eta ProductRow := fun r =>
    mkProductRow (p_id r)
    (p_category_id r) (p_name r) (p_slug r) (p_description r) (p_price_vnd r)
    (p_delivery_type r) (p_contact_url r) (p_is_active r) (p_version r) (p_created_at r).

(** the bank columns copied into an order or a top-up *)
Record BankSnapshot := mkBankSnapshot { bs_bin : string; bs_name : string;
    bs_display_name : string; bs_account_name : string; bs_encrypted_number : Bytes;
    bs_nonce : Bytes; bs_format : string; bs_key_version : Z; bs_last4 : string }.
#[export] Instance Eta_BankSnapshot : Eta BankSnapshot := fun r =>
    mkBankSnapshot (bs_bin r)
    (bs_name r) (bs_display_name r) (bs_account_name r) (bs_encrypted_number r) (bs_nonce r)
    (bs_format r) (bs_key_version r) (bs_last4 r).

(** [bank_accounts] (00008, 00016, 00020) *)
Record BankAccountRow := mkBankAccountRow { b_id : Z; b_bank_bin : string; b_bank_name : string;
    b_display_name : string; b_account_name : string; b_encrypted_number : Bytes;
    b_fingerprint : Bytes; b_key_id : string; b_nonce : Bytes; b_format : string;
    b_key_version : Z; b_last4 : string; b_sort_order : Z; b_is_active : bool; b_version : Z;
    b_environment : string; b_created_at : Time }.
#[export] Instance Eta_BankAccountRow : Eta BankAccountRow := fun r =>
    mkBankAccountRow
    (b_id r) (b_bank_bin r) (b_bank_name r) (b_display_name r) (b_account_name r)
    (b_encrypted_number r) (b_fingerprint r) (b_key_id r) (b_nonce r) (b_format r)
    (b_key_version r) (b_last4 r) (b_sort_order r) (b_is_active r) (b_version r)
    (b_environment r) (b_created_at r).

(** [orders] (00004, 00016, 00019); the snapshot columns are all null or all set *)
Record OrderRow := mkOrderRow { o_id : Z; o_user_id : Z; o_status : OrderStatus;
    o_currency : string; o_subtotal_vnd : Z; o_total_vnd : Z; o_payment_reference : string;
    o_idempotency_key : string; o_expires_at : Time; o_paid_at : option Time;
    o_delivery_started_at : option Time; o_delivered_at : option Time;
    o_cancelled_at : option Time; o_version : Z; o_created_at : Time;
    o_bank : option (Z * BankSnapshot); o_environment : string }.
#[export] Instance Eta_OrderRow : Eta OrderRow := fun r =>
    mkOrderRow (o_id r) (o_user_id r)
    (o_status r) (o_currency r) (o_subtotal_vnd r) (o_total_vnd r) (o_payment_reference r)
    (o_idempotency_key r) (o_expires_at r) (o_paid_at r) (o_delivery_started_at r)
    (o_delivered_at r) (o_cancelled_at r) (o_version r) (o_created_at r) (o_bank r)
    (o_environment r).

(** [order_items] (00004) *)
Record OrderItemRow := mkOrderItemRow { oi_id : Z; oi_order_id : Z; oi_product_id : Z;
    oi_product_name : string; oi_unit_price_vnd : Z; oi_quantity : Z; oi_line_total_vnd : Z }.
#[export] Instance Eta_OrderItemRow : Eta OrderItemRow := fun r =>
    mkOrderItemRow (oi_id r)
    (oi_order_id r) (oi_product_id r) (oi_product_name r) (oi_unit_price_vnd r) (oi_quantity r)
    (oi_line_total_vnd r).

(** [order_status_history] (00004) *)
Record OrderHistoryRow := mkOrderHistoryRow { oh_id : Z; oh_order_id : Z;
    oh_from_status : option OrderStatus; oh_to_status : OrderStatus;
    oh_reason_code : option string; oh_actor_type : string; oh_actor_id : option Z;
    oh_request_id : option string }.
#[export] Instance Eta_OrderHistoryRow : Eta OrderHistoryRow := fun r =>
    mkOrderHistoryRow
    (oh_id r) (oh_order_id r) (oh_from_status r) (oh_to_status r) (oh_reason_code r)
    (oh_actor_type r) (oh_actor_id r) (oh_request_id r).

(** [inventory_items] (00005, 00015) *)
Record InventoryRow := mkInventoryRow { i_id : Z; i_product_id : Z; i_payload : Bytes;
    i_key_id : string; i_nonce : option Bytes; i_format : string; i_key_version : Z;
    i_fingerprint : Bytes; i_imported_by : option Z; i_status : InventoryStatus;
    i_reserved_order_id : option Z; i_reserved_until : option Time; i_sold_order_id : option Z;
    i_disabled_reason : option string; i_version : Z; i_created_at : Time }.
#[export] Instance Eta_InventoryRow : Eta InventoryRow := fun r =>
    mkInventoryRow (i_id r)
    (i_product_id r) (i_payload r) (i_key_id r) (i_nonce r) (i_format r) (i_key_version r)
    (i_fingerprint r) (i_imported_by r) (i_status r) (i_reserved_order_id r)
    (i_reserved_until r) (i_sold_order_id r) (i_disabled_reason r) (i_version r)
    (i_created_at r).

(** [order_inventory_items] (00005, 00015); [m_rowid] is the physical row, the primary key is (order, item) *)
Record MappingRow := mkMappingRow { m_rowid : Z; m_order_id : Z; m_order_item_id : Z;
    m_inventory_item_id : Z; m_status : MappingStatus; m_released_at : option Time;
    m_release_reason : option string }.
#[export] Instance Eta_MappingRow : Eta MappingRow := fun r =>
    mkMappingRow (m_rowid r)
    (m_order_id r) (m_order_item_id r) (m_inventory_item_id r) (m_status r) (m_released_at r)
    (m_release_reason r).

(** [payments] (00006, 00017, 00019) *)
Record PaymentRow := mkPaymentRow { pay_id : Z; pay_order_id : option Z; pay_user_id : Z;
    pay_purpose : string; pay_provider : string; pay_transaction_id : option string;
    pay_reference : string; pay_amount_vnd : Z; pay_currency : string;
    pay_status : PaymentStatus; pay_confirmed_at : option Time; pay_occurred_at : Time;
    pay_environment : string }.
#[export] Instance Eta_PaymentRow : Eta PaymentRow := fun r =>
    mkPaymentRow (pay_id r)
    (pay_order_id r) (pay_user_id r) (pay_purpose r) (pay_provider r) (pay_transaction_id r)
    (pay_reference r) (pay_amount_vnd r) (pay_currency r) (pay_status r) (pay_confirmed_at r)
    (pay_occurred_at r) (pay_environment r).

(** [payment_events] (00006, 00017, 00019); the metadata the worker decodes is the four fields of [storedPaymentMetadata] *)
Record PaymentEventRow := mkPaymentEventRow { ev_id : Z; ev_provider : string;
    ev_external_event_id : string; ev_transaction_id : option string; ev_event_type : string;
    ev_payload_hash : Bytes; ev_payload : option StoredPaymentMetadata;
    ev_signature_verified : bool; ev_environment : string; ev_source : string;
    ev_direction : string; ev_content : string; ev_destination : option string;
    ev_provider_account : option string; ev_fingerprint : Bytes; ev_status : EventStatus;
    ev_error : option string; ev_error_code : option string; ev_attempts : Z;
    ev_max_attempts : Z; ev_next_attempt_at : Time; ev_processing_started_at : option Time;
    ev_received_at : Time; ev_processed_at : option Time; ev_related_order_id : option Z;
    ev_related_topup_id : option Z; ev_mapping_id : option Z }.
#[export] Instance Eta_PaymentEventRow : Eta PaymentEventRow := fun r =>
    mkPaymentEventRow
    (ev_id r) (ev_provider r) (ev_external_event_id r) (ev_transaction_id r) (ev_event_type r)
    (ev_payload_hash r) (ev_payload r) (ev_signature_verified r) (ev_environment r)
    (ev_source r) (ev_direction r) (ev_content r) (ev_destination r) (ev_provider_account r)
    (ev_fingerprint r) (ev_status r) (ev_error r) (ev_error_code r) (ev_attempts r)
    (ev_max_attempts r) (ev_next_attempt_at r) (ev_processing_started_at r) (ev_received_at r)
    (ev_processed_at r) (ev_related_order_id r) (ev_related_topup_id r) (ev_mapping_id r).

(** [payment_allocations] (00017) *)
Record AllocationRow := mkAllocationRow { al_id : Z; al_payment_id : Z; al_target_type : string;
    al_target_id : Z; al_amount_vnd : Z }.
#[export] Instance Eta_AllocationRow : Eta AllocationRow := fun r =>
    mkAllocationRow
    (al_id r) (al_payment_id r) (al_target_type r) (al_target_id r) (al_amount_vnd r).

(** [payment_review_cases] (00017, 00019) *)
Record ReviewCaseRow := mkReviewCaseRow { rc_id : Z; rc_event_id : option Z;
    rc_payment_id : option Z; rc_order_id : option Z; rc_topup_id : option Z;
    rc_provider : string; rc_transaction_id : option string; rc_reference : string;
    rc_amount_vnd : Z; rc_currency : string; rc_occurred_at : Time; rc_reason : string;
    rc_status : ReviewStatus; rc_note : option string; rc_resolved_by : option Z;
    rc_resolved_at : option Time; rc_environment : string; rc_source : string;
    rc_mapping_id : option Z; rc_destination : option string; rc_created_at : Time }.
#[export] Instance Eta_ReviewCaseRow : Eta ReviewCaseRow := fun r =>
    mkReviewCaseRow
    (rc_id r) (rc_event_id r) (rc_payment_id r) (rc_order_id r) (rc_topup_id r) (rc_provider r)
    (rc_transaction_id r) (rc_reference r) (rc_amount_vnd r) (rc_currency r) (rc_occurred_at r)
    (rc_reason r) (rc_status r) (rc_note r) (rc_resolved_by r) (rc_resolved_at r)
    (rc_environment r) (rc_source r) (rc_mapping_id r) (rc_destination r) (rc_created_at r).

(** [wallet_accounts] (00007) *)
Record WalletRow := mkWalletRow { w_id : Z; w_user_id : Z; w_status : WalletStatus;
    w_balance_vnd : Z; w_version : Z }.
#[export] Instance Eta_WalletRow : Eta WalletRow := fun r =>
    mkWalletRow (w_id r)
    (w_user_id r) (w_status r) (w_balance_vnd r) (w_version r).

(** [wallet_ledger_entries] (00007) *)
Record LedgerRow := mkLedgerRow { le_id : Z; le_account_id : Z; le_entry_type : WalletEntryType;
    le_amount_vnd : Z; le_balance_after_vnd : Z; le_reference_type : string;
    le_reference_id : Z; le_idempotency_key : string }.
#[export] Instance Eta_LedgerRow : Eta LedgerRow := fun r =>
    mkLedgerRow (le_id r)
    (le_account_id r) (le_entry_type r) (le_amount_vnd r) (le_balance_after_vnd r)
    (le_reference_type r) (le_reference_id r) (le_idempotency_key r).

(** [wallet_topup_intents] (00017, 00019) *)
Record TopupRow := mkTopupRow { tp_id : Z; tp_user_id : Z; tp_wallet_account_id : Z;
    tp_amount_vnd : Z; tp_currency : string; tp_reference : string; tp_idempotency_key : string;
    tp_status : TopupStatus; tp_expires_at : Time; tp_credited_at : option Time;
    tp_bank_account_id : Z; tp_bank : BankSnapshot; tp_version : Z; tp_environment : string }.
#[export] Instance Eta_TopupRow : Eta TopupRow := fun r =>
    mkTopupRow (tp_id r)
    (tp_user_id r) (tp_wallet_account_id r) (tp_amount_vnd r) (tp_currency r) (tp_reference r)
    (tp_idempotency_key r) (tp_status r) (tp_expires_at r) (tp_credited_at r)
    (tp_bank_account_id r) (tp_bank r) (tp_version r) (tp_environment r).

(** [outbox_events] (00009, 00018) *)
Record OutboxRow := mkOutboxRow { j_id : Z; j_event_type : string; j_aggregate_type : string;
    j_aggregate_id : Z; j_dedup_key : string; j_status : DeliveryJobStatus; j_attempts : Z;
    j_max_attempts : Z; j_next_attempt_at : Time; j_locked_at : option Time;
    j_locked_by : option string; j_error_code : option string; j_error_detail : option string;
    j_completed_at : option Time; j_order_id : option Z; j_chat_id : option Z;
    j_stage : option ProcessingStage; j_send_attempted_at : option Time;
    j_message_id : option Z; j_sent_at : option Time; j_manual_resolution : option string;
    j_resolution_reason : option string; j_resolved_by : option Z; j_resolved_at : option Time;
    j_version : Z; j_created_at : Time }.
#[export] Instance Eta_OutboxRow : Eta OutboxRow := fun r =>
    mkOutboxRow (j_id r)
    (j_event_type r) (j_aggregate_type r) (j_aggregate_id r) (j_dedup_key r) (j_status r)
    (j_attempts r) (j_max_attempts r) (j_next_attempt_at r) (j_locked_at r) (j_locked_by r)
    (j_error_code r) (j_error_detail r) (j_completed_at r) (j_order_id r) (j_chat_id r)
    (j_stage r) (j_send_attempted_at r) (j_message_id r) (j_sent_at r) (j_manual_resolution r)
    (j_resolution_reason r) (j_resolved_by r) (j_resolved_at r) (j_version r) (j_created_at r).

(** [delivery_attempts] (00009, 00018) *)
Record AttemptRow := mkAttemptRow { da_id : Z; da_order_id : Z; da_job_id : option Z;
    da_attempt_number : Z; da_status : string; da_http_status : option Z;
    da_telegram_error_code : option Z; da_retry_after_seconds : option Z; da_chat_id : option Z;
    da_message_id : option Z; da_error_class : option string; da_error_code : option string;
    da_error_detail : option string; da_started_at : Time; da_finished_at : option Time }.
#[export] Instance Eta_AttemptRow : Eta AttemptRow := fun r =>
    mkAttemptRow (da_id r)
    (da_order_id r) (da_job_id r) (da_attempt_number r) (da_status r) (da_http_status r)
    (da_telegram_error_code r) (da_retry_after_seconds r) (da_chat_id r) (da_message_id r)
    (da_error_class r) (da_error_code r) (da_error_detail r) (da_started_at r)
    (da_finished_at r).

(** [audit_logs] (00011, 00014) *)
Record AuditRow := mkAuditRow { au_id : Z; au_actor_type : string; au_actor_id : option Z;
    au_action : string; au_resource_type : string; au_resource_id : option Z;
    au_before : option Json; au_after : option Json; au_request_id : option string;
    au_update_id : option Z }.
#[export] Instance Eta_AuditRow : Eta AuditRow := fun r =>
    mkAuditRow (au_id r)
    (au_actor_type r) (au_actor_id r) (au_action r) (au_resource_type r) (au_resource_id r)
    (au_before r) (au_after r) (au_request_id r) (au_update_id r).

(** [telegram_update_receipts] (00014), keyed by the update id *)
Record ReceiptRow := mkReceiptRow { rt_update_id : Z; rt_update_type : string;
    rt_status : ReceiptStatus; rt_attempts : Z; rt_started_at : option Time;
    rt_processed_at : option Time; rt_last_error : option string }.
#[export] Instance Eta_ReceiptRow : Eta ReceiptRow := fun r =>
    mkReceiptRow (rt_update_id r)
    (rt_update_type r) (rt_status r) (rt_attempts r) (rt_started_at r) (rt_processed_at r)
    (rt_last_error r).

(** [payment_provider_accounts] (00019) *)
Record ProviderAccountRow := mkProviderAccountRow { pa_id : Z; pa_provider : string;
    pa_environment : string; pa_identity : string; pa_fingerprint : Bytes;
    pa_bank_account_id : Z; pa_active : bool; pa_version : Z; pa_created_at : Time; pa_updated_at : Time }.
#[export] Instance Eta_ProviderAccountRow : Eta ProviderAccountRow := fun r =>
    mkProviderAccountRow
    (pa_id r) (pa_provider r) (pa_environment r) (pa_identity r) (pa_fingerprint r)
    (pa_bank_account_id r) (pa_active r) (pa_version r) (pa_created_at r) (pa_updated_at r).

(** [payment_provider_checkpoints] (00019, 00021) *)
Record CheckpointRow := mkCheckpointRow { cp_id : Z; cp_account_id : Z;
    cp_cursor : option string; cp_last_transaction : option string;
    cp_last_occurred_at : option Time; cp_last_attempted_at : option Time;
    cp_last_successful_at : option Time; cp_error_code : option string;
    cp_lease_owner : option string; cp_lease_expires_at : option Time; cp_version : Z }.
#[export] Instance Eta_CheckpointRow : Eta CheckpointRow := fun r =>
    mkCheckpointRow
    (cp_id r) (cp_account_id r) (cp_cursor r) (cp_last_transaction r) (cp_last_occurred_at r)
    (cp_last_attempted_at r) (cp_last_successful_at r) (cp_error_code r) (cp_lease_owner r)
    (cp_lease_expires_at r) (cp_version r).

(** ** The database *)

(** A table: its rows by key and the last value of its identity sequence. *)
Record Tbl (R : Type) := mkTbl { t_rows : gmap Z R; t_seq : Z }.
Arguments mkTbl {R} _ _.
Arguments t_rows {R} _.
Arguments t_seq {R} _.

Record Database := mkDatabase { d_users : Tbl User; d_admins : Tbl AdminRow;
    d_sessions : Tbl AdminSessionRow; d_categories : Tbl CategoryRow;
    d_products : Tbl ProductRow; d_banks : Tbl BankAccountRow; d_orders : Tbl OrderRow;
    d_items : Tbl OrderItemRow; d_history : Tbl OrderHistoryRow; d_inventory : Tbl InventoryRow;
    d_mappings : Tbl MappingRow; d_payments : Tbl PaymentRow; d_events : Tbl PaymentEventRow;
    d_allocations : Tbl AllocationRow; d_reviews : Tbl ReviewCaseRow; d_wallets : Tbl WalletRow;
    d_ledger : Tbl LedgerRow; d_topups : Tbl TopupRow; d_outbox : Tbl OutboxRow;
    d_attempts : Tbl AttemptRow; d_audit : Tbl AuditRow; d_receipts : Tbl ReceiptRow;
    d_accounts : Tbl ProviderAccountRow; d_checkpoints : Tbl CheckpointRow }.
#[export] Instance Eta_Database : Eta Database := fun d =>
    mkDatabase (d_users d)
    (d_admins d) (d_sessions d) (d_categories d) (d_products d) (d_banks d) (d_orders d)
    (d_items d) (d_history d) (d_inventory d) (d_mappings d) (d_payments d) (d_events d)
    (d_allocations d) (d_reviews d) (d_wallets d) (d_ledger d) (d_topups d) (d_outbox d)
    (d_attempts d) (d_audit d) (d_receipts d) (d_accounts d) (d_checkpoints d).

(** ** Constraints

    One class instance per table: where it lives in the database, its key, its
    CHECK constraints and its UNIQUE constraints. *)

Class Table (R : Type) := {
  tbl_get : Database -> Tbl R;
  tbl_set : Tbl R -> Database -> Database;
  row_key : R -> Z;
  row_check : R -> bool;
  row_clash : R -> R -> bool }.

(** The laws every table satisfies; the generic lemmas on queries use only these. *)
Class TableLaws (R : Type) `{Table R} := {
  tbl_get_set t d : tbl_get (tbl_set t d) = t;
  tbl_set_set t t' d : tbl_set t (tbl_set t' d) = tbl_set t d;
  row_clash_sym r r' : row_clash r r' = row_clash r' r }.

Definition opt_check {A} (p : A -> bool) (o : option A) : bool :=
  match o with Some a => p a | None => true end.
Definition is_some {A} (o : option A) : bool := match o with Some _ => true | None => false end.
Definition is_none {A} (o : option A) : bool := negb (is_some o).
Definition str_eqb (a b : string) : bool := bool_decide (a = b).
Lemma str_eqb_eq a b : str_eqb a b = true <-> a = b.
Proof. apply bool_decide_eq_true. Qed.
(** SQL equality of two nullable columns: null equals nothing. *)
Definition opt_eqb {A} `{EqDecision A} (a b : option A) : bool :=
  match a, b with Some x, Some y => bool_decide (x = y) | _, _ => false end.
Definition str_in (s : string) (l : list string) : bool := bool_decide (s ∈ l).

(** [column ~ '^[0-9]{n}$'] *)
Definition digits (n : nat) (s : string) : bool :=
  Nat.eqb (String.length s) n
  && forallb (fun a => (48 <=? ascii_Z a) && (ascii_Z a <=? 57)) (String.list_ascii_of_string s).

Definition environment_valid (e : string) : bool := str_in e ["development"; "test"; "production"].

Definition actor_valid (t : string) : bool := str_in t ["user"; "admin"; "system"; "provider"].

Definition users_check (r : User) : bool :=
  (0 <? u_telegram_user_id r) && UserStatus_IsValid (u_status r)
  && opt_check nonblank (u_username r) && opt_check nonblank (u_display_name r).

Definition admins_check (r : AdminRow) : bool :=
  str_in (ad_role r) ["owner"; "admin"; "operator"; "support"].

Definition admin_sessions_check (r : AdminSessionRow) : bool :=
  nonblank (as_state r) && (0 <? as_version r).

Definition categories_check (r : CategoryRow) : bool :=
  nonblank (cat_name r) && nonblank (cat_slug r) && nonblank (cat_emoji r)
  && (0 <=? cat_sort_order r) && (0 <? cat_version r).

Definition products_check (r : ProductRow) : bool :=
  nonblank (p_name r) && nonblank (p_slug r) && (0 <=? p_price_vnd r) && (0 <? p_version r)
  && ((str_eqb (p_delivery_type r) "inventory" && is_none (p_contact_url r))
      || (str_eqb (p_delivery_type r) "contact"
          && match p_contact_url r with Some u => nonblank u | None => false end)).

Definition bank_snapshot_check (b : BankSnapshot) : bool :=
  digits 6 (bs_bin b) && nonblank (bs_name b) && nonblank (bs_display_name b)
  && nonblank (bs_account_name b) && Nat.leb 16 (length (bs_encrypted_number b))
  && Nat.eqb (length (bs_nonce b)) 12 && str_eqb (bs_format b) aes_format
  && (0 <? bs_key_version b) && digits 4 (bs_last4 b).

Definition bank_accounts_check (r : BankAccountRow) : bool :=
  digits 6 (b_bank_bin r) && nonblank (b_bank_name r) && nonblank (b_account_name r)
  && nonblank (b_display_name r) && Nat.ltb 0 (length (b_encrypted_number r))
  && Nat.eqb (length (b_fingerprint r)) 32 && nonblank (b_key_id r) && digits 4 (b_last4 r)
  && (0 <=? b_sort_order r) && (0 <? b_key_version r) && (0 <? b_version r)
  && ((str_eqb (b_format r) "legacy-v0" && Nat.eqb (length (b_nonce r)) 0)
      || (str_eqb (b_format r) aes_format && Nat.eqb (length (b_nonce r)) 12
          && Nat.leb 16 (length (b_encrypted_number r))))
  && environment_valid (b_environment r).

Definition orders_check (r : OrderRow) : bool :=
  Order.IsValid (o_status r) && str_eqb (o_currency r) "VND"
  && (0 <=? o_subtotal_vnd r) && (0 <=? o_total_vnd r)
  && nonblank (o_payment_reference r) && nonblank (o_idempotency_key r) && (0 <? o_version r)
  && (negb (bool_decide (o_status r = OrderStatusDelivered)) || is_some (o_delivered_at r))
  && (negb (bool_decide (o_status r = OrderStatusCancelled)) || is_some (o_cancelled_at r))
  && opt_check (fun b => bank_snapshot_check b.2) (o_bank r)
  && environment_valid (o_environment r).

Definition order_items_check (r : OrderItemRow) : bool :=
  nonblank (oi_product_name r) && (0 <=? oi_unit_price_vnd r) && (0 <? oi_quantity r)
  && (0 <=? oi_line_total_vnd r)
  && (oi_line_total_vnd r =? oi_unit_price_vnd r * oi_quantity r).

Definition order_history_check (r : OrderHistoryRow) : bool :=
  opt_check Order.IsValid (oh_from_status r) && Order.IsValid (oh_to_status r)
  && actor_valid (oh_actor_type r) && opt_check nonblank (oh_reason_code r)
  && opt_check nonblank (oh_request_id r).

Definition inventory_items_check (r : InventoryRow) : bool :=
  Nat.ltb 0 (length (i_payload r)) && nonblank (i_key_id r) && Nat.eqb (length (i_fingerprint r)) 32
  && InventoryStatus_IsValid (i_status r) && opt_check nonblank (i_disabled_reason r)
  && match i_status r with
     | InventoryStatusAvailable =>
         is_none (i_reserved_order_id r) && is_none (i_reserved_until r)
         && is_none (i_sold_order_id r) && is_none (i_disabled_reason r)
     | InventoryStatusReserved =>
         is_some (i_reserved_order_id r) && is_some (i_reserved_until r)
         && is_none (i_sold_order_id r) && is_none (i_disabled_reason r)
     | InventoryStatusSold =>
         is_none (i_reserved_order_id r) && is_none (i_reserved_until r)
         && is_some (i_sold_order_id r) && is_none (i_disabled_reason r)
     | InventoryStatusDisabled =>
         is_none (i_reserved_order_id r) && is_none (i_reserved_until r)
         && is_none (i_sold_order_id r)
     | InventoryStatusOther _ => false
     end
  && ((str_eqb (i_format r) "legacy-v0" && is_none (i_nonce r))
      || (str_eqb (i_format r) aes_format
          && match i_nonce r with Some n => Nat.eqb (length n) 12 | None => false end
          && Nat.leb 16 (length (i_payload r))))
  && (0 <? i_key_version r) && (0 <? i_version r).

Definition order_inventory_items_check (r : MappingRow) : bool :=
  opt_check nonblank (m_release_reason r)
  && match m_status r with
     | MappingActive => is_none (m_released_at r) && is_none (m_release_reason r)
     | MappingReleased => is_some (m_released_at r) && is_some (m_release_reason r)
     end.

Definition payments_check (r : PaymentRow) : bool :=
  str_in (pay_purpose r) ["order"; "wallet_topup"; "refund"]
  && (negb (str_eqb (pay_purpose r) "order") || is_some (pay_order_id r))
  && nonblank (pay_provider r) && opt_check nonblank (pay_transaction_id r)
  && nonblank (pay_reference r) && (0 <? pay_amount_vnd r) && str_eqb (pay_currency r) "VND"
  && PaymentStatus_IsValid (pay_status r)
  && (negb (bool_decide (pay_status r = PaymentStatusConfirmed)) || is_some (pay_confirmed_at r))
  && environment_valid (pay_environment r).

Definition payment_events_check (r : PaymentEventRow) : bool :=
  nonblank (ev_provider r) && nonblank (ev_external_event_id r)
  && opt_check nonblank (ev_transaction_id r) && nonblank (ev_event_type r)
  && Nat.eqb (length (ev_payload_hash r)) 32 && opt_check nonblank (ev_error r)
  && (0 <=? ev_attempts r) && (0 <? ev_max_attempts r) && (ev_attempts r <=? ev_max_attempts r)
  && match ev_status r with
     | EventReceived => is_none (ev_processing_started_at r) && is_none (ev_processed_at r)
     | EventProcessing => is_some (ev_processing_started_at r) && is_none (ev_processed_at r)
     | _ => is_some (ev_processed_at r)
     end
  && opt_check nonblank (ev_error_code r) && environment_valid (ev_environment r)
  && str_in (ev_source r) ["webhook"; "reconciliation"; "legacy"]
  && str_in (ev_direction r) ["inbound"; "outbound"]
  && nonblank (ev_content r) && Nat.leb (String.length (ev_content r)) 2048
  && opt_check nonblank (ev_destination r) && opt_check nonblank (ev_provider_account r)
  && Nat.eqb (length (ev_fingerprint r)) 32.

Definition payment_allocations_check (r : AllocationRow) : bool :=
  str_in (al_target_type r) ["order"; "wallet_topup"] && (0 <? al_target_id r)
  && (0 <? al_amount_vnd r).

Definition payment_reviews_check (r : ReviewCaseRow) : bool :=
  nonblank (rc_provider r) && opt_check nonblank (rc_transaction_id r) && nonblank (rc_reference r)
  && (0 <? rc_amount_vnd r) && nonblank (rc_currency r) && nonblank (rc_reason r)
  && match rc_status r with
     | ReviewResolved => is_some (rc_resolved_by r) && is_some (rc_resolved_at r)
     | _ => is_none (rc_resolved_by r) && is_none (rc_resolved_at r)
     end
  && opt_check nonblank (rc_note r) && environment_valid (rc_environment r)
  && str_in (rc_source r) ["webhook"; "reconciliation"; "legacy"; "manual"]
  && opt_check nonblank (rc_destination r).

Definition wallet_accounts_check (r : WalletRow) : bool :=
  (0 <=? w_balance_vnd r) && (0 <? w_version r).

Definition wallet_ledger_check (r : LedgerRow) : bool :=
  AcceptsAmount (le_entry_type r) (le_amount_vnd r) && (0 <=? le_balance_after_vnd r)
  && nonblank (le_reference_type r) && (0 <? le_reference_id r) && nonblank (le_idempotency_key r).

Definition wallet_topups_check (r : TopupRow) : bool :=
  (0 <? tp_amount_vnd r) && str_eqb (tp_currency r) "VND" && nonblank (tp_reference r)
  && nonblank (tp_idempotency_key r)
  && Bool.eqb (bool_decide (tp_status r = TopupCredited)) (is_some (tp_credited_at r))
  && bank_snapshot_check (tp_bank r) && (0 <? tp_version r)
  && environment_valid (tp_environment r).

Definition delivery_event_type : string := "order.delivery_requested".

Definition outbox_events_check (r : OutboxRow) : bool :=
  nonblank (j_event_type r) && nonblank (j_aggregate_type r) && (0 <? j_aggregate_id r)
  && nonblank (j_dedup_key r)
  && (0 <=? j_attempts r) && (0 <? j_max_attempts r) && (j_attempts r <=? j_max_attempts r)
  && (DeliveryJobStatus_IsValid (j_status r) || bool_decide (j_status r = DeliveryJobOther "failed"))
  && (if bool_decide (j_status r = DeliveryJobProcessing)
      then is_some (j_locked_at r) && match j_locked_by r with Some w => nonblank w | None => false end
           && is_some (j_stage r)
      else is_none (j_locked_at r) && is_none (j_locked_by r) && is_none (j_stage r))
  && match j_status r with
     | DeliveryJobCompleted | DeliveryJobPermanentFailed | DeliveryJobCancelled
     | DeliveryJobOther _ => is_some (j_completed_at r)
     | _ => is_none (j_completed_at r)
     end
  && (if str_eqb (j_event_type r) delivery_event_type
      then str_eqb (j_aggregate_type r) "order"
           && bool_decide (j_order_id r = Some (j_aggregate_id r))
           && match j_chat_id r with Some c => 0 <? c | None => false end
      else is_none (j_order_id r) && is_none (j_chat_id r) && is_none (j_send_attempted_at r)
           && is_none (j_message_id r) && is_none (j_sent_at r) && is_none (j_manual_resolution r))
  && (negb (bool_decide (j_stage r = Some StageSending)) || is_some (j_send_attempted_at r))
  && match j_message_id r with
     | None => is_none (j_sent_at r)
     | Some m => (0 <? m) && is_some (j_sent_at r)
     end
  && match j_manual_resolution r with
     | None => is_none (j_resolution_reason r) && is_none (j_resolved_by r) && is_none (j_resolved_at r)
     | Some res =>
         str_in res ["retry"; "mark_delivered"; "cancel"]
         && match j_resolution_reason r with Some w => nonblank w | None => false end
         && is_some (j_resolved_by r) && is_some (j_resolved_at r)
     end
  && opt_check nonblank (j_error_code r) && opt_check nonblank (j_error_detail r)
  && (0 <? j_version r).

Definition http_code (z : Z) : bool := (100 <=? z) && (z <=? 599).

Definition delivery_attempts_check (r : AttemptRow) : bool :=
  (0 <? da_attempt_number r)
  && str_in (da_status r) ["started"; "succeeded"; "retryable_failed"; "ambiguous";
                           "permanent_failed"; "manual_resolution"]
  && Bool.eqb (str_eqb (da_status r) "started") (is_none (da_finished_at r))
  && opt_check http_code (da_http_status r) && opt_check http_code (da_telegram_error_code r)
  && opt_check (fun z => 0 <? z) (da_retry_after_seconds r)
  && opt_check (fun z => 0 <? z) (da_chat_id r) && opt_check (fun z => 0 <? z) (da_message_id r)
  && (negb (str_eqb (da_status r) "succeeded")
      || (is_some (da_chat_id r) && is_some (da_message_id r)))
  && opt_check nonblank (da_error_class r) && opt_check nonblank (da_error_code r)
  && opt_check nonblank (da_error_detail r).

Definition audit_logs_check (r : AuditRow) : bool :=
  actor_valid (au_actor_type r)
  && (if str_eqb (au_actor_type r) "system" then is_none (au_actor_id r)
      else match au_actor_id r with Some a => 0 <? a | None => false end)
  && nonblank (au_action r) && nonblank (au_resource_type r)
  && opt_check (fun z => 0 <? z) (au_resource_id r) && opt_check nonblank (au_request_id r).

Definition update_receipts_check (r : ReceiptRow) : bool :=
  (0 <=? rt_update_id r) && nonblank (rt_update_type r) && (0 <=? rt_attempts r)
  && opt_check nonblank (rt_last_error r)
  && match rt_status r with
     | ReceiptReceived => is_none (rt_started_at r) && is_none (rt_processed_at r)
     | ReceiptProcessing => is_some (rt_started_at r) && is_none (rt_processed_at r)
     | _ => is_some (rt_started_at r) && is_some (rt_processed_at r)
     end.

Definition provider_accounts_check (r : ProviderAccountRow) : bool :=
  nonblank (pa_provider r) && environment_valid (pa_environment r) && nonblank (pa_identity r)
  && Nat.eqb (length (pa_fingerprint r)) 32 && (0 <? pa_version r).

Definition checkpoints_check (r : CheckpointRow) : bool :=
  opt_check nonblank (cp_cursor r) && opt_check nonblank (cp_last_transaction r)
  && opt_check nonblank (cp_error_code r)
  && match cp_lease_owner r with
     | None => is_none (cp_lease_expires_at r)
     | Some w => nonblank w && is_some (cp_lease_expires_at r)
     end
  && (0 <? cp_version r).

(** The statuses of [outbox_events_active_delivery_order_unique]. *)
Definition active_job_status (s : DeliveryJobStatus) : bool :=
  match s with
  | DeliveryJobPending | DeliveryJobProcessing | DeliveryJobRetryableFailed
  | DeliveryJobAmbiguous | DeliveryJobManualReview => true
  | _ => false
  end.

Definition active_delivery_job (r : OutboxRow) : bool :=
  str_eqb (j_event_type r) delivery_event_type && active_job_status (j_status r).

Definition no_clash {R} (_ _ : R) : bool := false.

Definition orders_clash (a b : OrderRow) : bool :=
  str_eqb (o_payment_reference a) (o_payment_reference b)
  || ((o_user_id a =? o_user_id b) && str_eqb (o_idempotency_key a) (o_idempotency_key b)).

Definition mappings_clash (a b : MappingRow) : bool :=
  (m_inventory_item_id a =? m_inventory_item_id b)
  && ((m_order_id a =? m_order_id b)
      || (bool_decide (m_status a = MappingActive) && bool_decide (m_status b = MappingActive))).

Definition payments_clash (a b : PaymentRow) : bool :=
  opt_eqb (pay_transaction_id a) (pay_transaction_id b)
  && str_eqb (pay_provider a) (pay_provider b)
  && str_eqb (pay_environment a) (pay_environment b).

Definition events_clash (a b : PaymentEventRow) : bool :=
  str_eqb (ev_provider a) (ev_provider b)
  && (str_eqb (ev_external_event_id a) (ev_external_event_id b)
      || (opt_eqb (ev_transaction_id a) (ev_transaction_id b)
          && str_eqb (ev_environment a) (ev_environment b))).

Definition allocations_clash (a b : AllocationRow) : bool :=
  (al_payment_id a =? al_payment_id b)
  || (str_eqb (al_target_type a) (al_target_type b) && (al_target_id a =? al_target_id b)).

Definition topups_clash (a b : TopupRow) : bool :=
  str_eqb (tp_reference a) (tp_reference b)
  || ((tp_user_id a =? tp_user_id b) && str_eqb (tp_idempotency_key a) (tp_idempotency_key b)).

Definition outbox_clash (a b : OutboxRow) : bool :=
  str_eqb (j_dedup_key a) (j_dedup_key b)
  || (active_delivery_job a && active_delivery_job b && opt_eqb (j_order_id a) (j_order_id b)).

Definition accounts_clash (a b : ProviderAccountRow) : bool :=
  str_eqb (pa_provider a) (pa_provider b) && str_eqb (pa_environment a) (pa_environment b)
  && (str_eqb (pa_identity a) (pa_identity b)
      || bool_decide (pa_fingerprint a = pa_fingerprint b)
      || (pa_active a && pa_active b && (pa_bank_account_id a =? pa_bank_account_id b))).

#[export] Instance Table_User : Table User :=
  { tbl_get := d_users; tbl_set t d := d <| d_users := t |>; row_key := u_id; row_check := users_check;
    row_clash a b := u_telegram_user_id a =? u_telegram_user_id b }.
#[export] Instance Table_Admin : Table AdminRow :=
  { tbl_get := d_admins; tbl_set t d := d <| d_admins := t |>; row_key := ad_id;
    row_check := admins_check; row_clash a b := ad_user_id a =? ad_user_id b }.
#[export] Instance Table_Session : Table AdminSessionRow :=
  { tbl_get := d_sessions; tbl_set t d := d <| d_sessions := t |>; row_key := as_id;
    row_check := admin_sessions_check; row_clash a b := as_admin_id a =? as_admin_id b }.
#[export] Instance Table_Category : Table CategoryRow :=
  { tbl_get := d_categories; tbl_set t d := d <| d_categories := t |>; row_key := cat_id;
    row_check := categories_check; row_clash a b := str_eqb (cat_slug a) (cat_slug b) }.
#[export] Instance Table_Product : Table ProductRow :=
  { tbl_get := d_products; tbl_set t d := d <| d_products := t |>; row_key := p_id;
    row_check := products_check;
    row_clash a b := (p_category_id a =? p_category_id b) && str_eqb (p_slug a) (p_slug b) }.
#[export] Instance Table_Bank : Table BankAccountRow :=
  { tbl_get := d_banks; tbl_set t d := d <| d_banks := t |>; row_key := b_id;
    row_check := bank_accounts_check; row_clash a b := bool_decide (b_fingerprint a = b_fingerprint b) }.
#[export] Instance Table_Order : Table OrderRow :=
  { tbl_get := d_orders; tbl_set t d := d <| d_orders := t |>; row_key := o_id;
    row_check := orders_check; row_clash := orders_clash }.
#[export] Instance Table_OrderItem : Table OrderItemRow :=
  { tbl_get := d_items; tbl_set t d := d <| d_items := t |>; row_key := oi_id;
    row_check := order_items_check; row_clash := no_clash }.
#[export] Instance Table_OrderHistory : Table OrderHistoryRow :=
  { tbl_get := d_history; tbl_set t d := d <| d_history := t |>; row_key := oh_id;
    row_check := order_history_check; row_clash := no_clash }.
#[export] Instance Table_Inventory : Table InventoryRow :=
  { tbl_get := d_inventory; tbl_set t d := d <| d_inventory := t |>; row_key := i_id;
    row_check := inventory_items_check;
    row_clash a b := (i_product_id a =? i_product_id b) && bool_decide (i_fingerprint a = i_fingerprint b) }.
#[export] Instance Table_Mapping : Table MappingRow :=
  { tbl_get := d_mappings; tbl_set t d := d <| d_mappings := t |>; row_key := m_rowid;
    row_check := order_inventory_items_check; row_clash := mappings_clash }.
#[export] Instance Table_Payment : Table PaymentRow :=
  { tbl_get := d_payments; tbl_set t d := d <| d_payments := t |>; row_key := pay_id;
    row_check := payments_check; row_clash := payments_clash }.
#[export] Instance Table_Event : Table PaymentEventRow :=
  { tbl_get := d_events; tbl_set t d := d <| d_events := t |>; row_key := ev_id;
    row_check := payment_events_check; row_clash := events_clash }.
#[export] Instance Table_Allocation : Table AllocationRow :=
  { tbl_get := d_allocations; tbl_set t d := d <| d_allocations := t |>; row_key := al_id;
    row_check := payment_allocations_check; row_clash := allocations_clash }.
#[export] Instance Table_Review : Table ReviewCaseRow :=
  { tbl_get := d_reviews; tbl_set t d := d <| d_reviews := t |>; row_key := rc_id;
    row_check := payment_reviews_check; row_clash a b := opt_eqb (rc_event_id a) (rc_event_id b) }.
#[export] Instance Table_Wallet : Table WalletRow :=
  { tbl_get := d_wallets; tbl_set t d := d <| d_wallets := t |>; row_key := w_id;
    row_check := wallet_accounts_check; row_clash a b := w_user_id a =? w_user_id b }.
#[export] Instance Table_Ledger : Table LedgerRow :=
  { tbl_get := d_ledger; tbl_set t d := d <| d_ledger := t |>; row_key := le_id;
    row_check := wallet_ledger_check;
    row_clash a b := (le_account_id a =? le_account_id b)
                     && str_eqb (le_idempotency_key a) (le_idempotency_key b) }.
#[export] Instance Table_Topup : Table TopupRow :=
  { tbl_get := d_topups; tbl_set t d := d <| d_topups := t |>; row_key := tp_id;
    row_check := wallet_topups_check; row_clash := topups_clash }.
#[export] Instance Table_Outbox : Table OutboxRow :=
  { tbl_get := d_outbox; tbl_set t d := d <| d_outbox := t |>; row_key := j_id;
    row_check := outbox_events_check; row_clash := outbox_clash }.
#[export] Instance Table_Attempt : Table AttemptRow :=
  { tbl_get := d_attempts; tbl_set t d := d <| d_attempts := t |>; row_key := da_id;
    row_check := delivery_attempts_check;
    row_clash a b := opt_eqb (da_job_id a) (da_job_id b)
                     && (da_attempt_number a =? da_attempt_number b)
                     && str_eqb (da_status a) (da_status b) }.
#[export] Instance Table_Audit : Table AuditRow :=
  { tbl_get := d_audit; tbl_set t d := d <| d_audit := t |>; row_key := au_id;
    row_check := audit_logs_check; row_clash := no_clash }.
#[export] Instance Table_Receipt : Table ReceiptRow :=
  { tbl_get := d_receipts; tbl_set t d := d <| d_receipts := t |>; row_key := rt_update_id;
    row_check := update_receipts_check; row_clash := no_clash }.
#[export] Instance Table_ProviderAccount : Table ProviderAccountRow :=
  { tbl_get := d_accounts; tbl_set t d := d <| d_accounts := t |>; row_key := pa_id;
    row_check := provider_accounts_check; row_clash := accounts_clash }.
#[export] Instance Table_Checkpoint : Table CheckpointRow :=
  { tbl_get := d_checkpoints; tbl_set t d := d <| d_checkpoints := t |>; row_key := cp_id;
    row_check := checkpoints_check; row_clash a b := cp_account_id a =? cp_account_id b }.

(** ** The laws hold of every table *)

Lemma bool_decide_sym {A} `{EqDecision A} (a b : A) : bool_decide (a = b) = bool_decide (b = a).
Proof. apply bool_decide_ext. split; congruence. Qed.

Lemma opt_eqb_sym {A} `{EqDecision A} (a b : option A) : opt_eqb a b = opt_eqb b a.
Proof. destruct a, b; try done. apply bool_decide_sym. Qed.

(** Each clash relation is a boolean combination of equalities of one column of
    the two rows, and of a property of both: swapping the rows changes nothing. *)
Ltac clash_sym :=
  let a := fresh "a" in let b := fresh "b" in
  intros a b; simpl;
  unfold orders_clash, mappings_clash, payments_clash, events_clash, allocations_clash,
    topups_clash, outbox_clash, accounts_clash, no_clash, str_eqb;
  repeat match goal with
  | |- context [bool_decide (?f a = ?f b)] => rewrite (bool_decide_sym (f a) (f b))
  | |- context [?f a =? ?f b] => rewrite (Z.eqb_sym (f a) (f b))
  | |- context [opt_eqb (?f a) (?f b)] => rewrite (opt_eqb_sym (f a) (f b))
  end;
  rewrite ?(andb_comm (bool_decide (m_status a = _))), ?(andb_comm (active_delivery_job a)),
    ?(andb_comm (pa_active a));
  reflexivity.

Ltac table_laws := split; [reflexivity | reflexivity | clash_sym].

#[export] Instance Laws_User : TableLaws User.
Proof. table_laws. Qed.
#[export] Instance Laws_Admin : TableLaws AdminRow.
Proof. table_laws. Qed.
#[export] Instance Laws_Session : TableLaws AdminSessionRow.
Proof. table_laws. Qed.
#[export] Instance Laws_Category : TableLaws CategoryRow.
Proof. table_laws. Qed.
#[export] Instance Laws_Product : TableLaws ProductRow.
Proof. table_laws. Qed.
#[export] Instance Laws_Bank : TableLaws BankAccountRow.
Proof. table_laws. Qed.
#[export] Instance Laws_Order : TableLaws OrderRow.
Proof. table_laws. Qed.
#[export] Instance Laws_OrderItem : TableLaws OrderItemRow.
Proof. table_laws. Qed.
#[export] Instance Laws_OrderHistory : TableLaws OrderHistoryRow.
Proof. table_laws. Qed.
#[export] Instance Laws_Inventory : TableLaws InventoryRow.
Proof. table_laws. Qed.
#[export] Instance Laws_Mapping : TableLaws MappingRow.
Proof. table_laws. Qed.
#[export] Instance Laws_Payment : TableLaws PaymentRow.
Proof. table_laws. Qed.
#[export] Instance Laws_Event : TableLaws PaymentEventRow.
Proof. table_laws. Qed.
#[export] Instance Laws_Allocation : TableLaws AllocationRow.
Proof. table_laws. Qed.
#[export] Instance Laws_Review : TableLaws ReviewCaseRow.
Proof. table_laws. Qed.
#[export] Instance Laws_Wallet : TableLaws WalletRow.
Proof. table_laws. Qed.
#[export] Instance Laws_Ledger : TableLaws LedgerRow.
Proof. table_laws. Qed.
#[export] Instance Laws_Topup : TableLaws TopupRow.
Proof. table_laws. Qed.
#[export] Instance Laws_Outbox : TableLaws OutboxRow.
Proof. table_laws. Qed.
#[export] Instance Laws_Attempt : TableLaws AttemptRow.
Proof. table_laws. Qed.
#[export] Instance Laws_Audit : TableLaws AuditRow.
Proof. table_laws. Qed.
#[export] Instance Laws_Receipt : TableLaws ReceiptRow.
Proof. table_laws. Qed.
#[export] Instance Laws_ProviderAccount : TableLaws ProviderAccountRow.
Proof. table_laws. Qed.
#[export] Instance Laws_Checkpoint : TableLaws CheckpointRow.
Proof. table_laws. Qed.
