(* ===== verification/Tx.v ===== *)
(** * Transactions

    The execution model of the store: a query or a handler is a function of an
    environment and a state that either returns a value and a new state or fails
    with an error.  [WithinTransaction] models
    [src/internal/postgres/transaction.go].  The environment carries what the
    database and the scheduler decide: the database clock, whether the connection
    can begin a transaction, how a commit ends, and which rows concurrent
    transactions hold locked ([FOR UPDATE SKIP LOCKED] skips those).

    The second half is the proof theory: [respects R m] says that a run of [m]
    moves the state along the relation [R]; it is compositional, and [tx_auto]
    discharges it for a handler from the lemmas of the queries it calls. *)

From S2P Require Import Prelude Domain Schema.

Inductive LockTable := LockOrders | LockInventory | LockOutbox | LockEvents.

(** Whether a transaction can begin: the connection may be down, the caller's context
    cancelled or past its deadline. *)
Inductive Connection := Connected | Unreachable | ContextDone.

(** A commit succeeds, is refused, or is applied while its answer is lost. *)
Inductive CommitOutcome := CommitOk | CommitRejected | CommitUnknown.

Record Env := mkEnv {
  env_clock : Time;                          (* clock_timestamp() *)
  env_now : Time;                            (* time.Now() in the process *)
  env_begin : Connection;                    (* how BeginTx ends *)
  env_commit : CommitOutcome;
  env_locked : LockTable -> Z -> bool }.     (* rows locked by others *)

Inductive Outcome (S A : Type) :=
  | Ok (a : A) (s : S)
  | Fail (e : Error).
Arguments Ok {S A} _ _.
Arguments Fail {S A} _.

Definition Tx (S A : Type) : Type := Env -> S -> Outcome S A.

#[export] Instance Tx_ret S : MRet (Tx S) := fun A a _ s => Ok a s.
#[export] Instance Tx_bind S : MBind (Tx S) := fun A B k m env s =>
  match m env s with
  | Ok a s' => k a env s'
  | Fail e => Fail e
  end.

Section Combinators.
Context {S : Type}.

Definition throw {A} (e : Error) : Tx S A := fun _ _ => Fail e.
(** [clock_timestamp()] *)
Definition clock : Tx S Time := fun env s => Ok (env_clock env) s.
(** [time.Now()] *)
Definition time_now : Tx S Time := fun env s => Ok (env_now env) s.
Definition read {A} (f : S -> A) : Tx S A := fun _ s => Ok (f s) s.
Definition from_result {A} (r : Error + A) : Tx S A :=
  match r with inl e => throw e | inr a => mret a end.

(** [if errors.Is(err, pgx.ErrNoRows) { ... }]: the absence of a row as a value. *)
Definition try_row {A} (m : Tx S A) : Tx S (option A) := fun env s =>
  match m env s with
  | Ok a s' => Ok (Some a) s'
  | Fail ErrNoRows => Ok None s
  | Fail e => Fail e
  end.
(** [if errors.Is(err, pgx.ErrNoRows) { return e }] *)
Definition or_no_rows {A} (e : Error) (m : Tx S A) : Tx S A := fun env s =>
  match m env s with
  | Ok a s' => Ok a s'
  | Fail ErrNoRows => Fail e
  | Fail e' => Fail e'
  end.
(** [if errors.Is(err, e) { ... }] with any sentinel *)
Definition try_error {A} (e : Error) (m : Tx S A) : Tx S (option A) := fun env s =>
  match m env s with
  | Ok a s' => Ok (Some a) s'
  | Fail e' => if decide (e' = e) then Ok None s else Fail e'
  end.
Definition map_error {A} (f : Error -> Error) (m : Tx S A) : Tx S A := fun env s =>
  match m env s with
  | Ok a s' => Ok a s'
  | Fail e => Fail (f e)
  end.
(** [if errors.Is(err, e) { return e' }; return err] *)
Definition replace_error {A} (e e' : Error) (m : Tx S A) : Tx S A :=
  map_error (fun x => if decide (x = e) then e' else x) m.
(** [if cond { return e }] *)
Definition guard_not (cond : bool) (e : Error) : Tx S unit :=
  if cond then throw e else mret tt.

Fixpoint for_each {A} (l : list A) (f : A -> Tx S unit) : Tx S unit :=
  match l with
  | [] => mret tt
  | a :: l' => f a ;; for_each l' f
  end.

(** A loop that threads an accumulator ([created++], [append]). *)
Fixpoint fold_each {A B} (l : list A) (acc : B) (f : B -> A -> Tx S B) : Tx S B :=
  match l with
  | [] => mret acc
  | a :: l' => acc' ← f acc a; fold_each l' acc' f
  end.
End Combinators.

(** ** Transaction lifecycle (transaction.go)

    The callback's error is returned and its work undone; a begin or commit
    failure is returned as it is.  Joining a failed rollback's error keeps the
    callback's error for [errors.Is]. *)

Definition Action (S A : Type) : Type := Env -> S -> (Error + A) * S.

Definition WithinTransaction {S A} (fn : Tx S A) : Action S A := fun env s =>
  match env_begin env with
  | Connected =>
      match fn env s with
      | Fail e => (inl e, s)
      | Ok a s' =>
          match env_commit env with
          | CommitOk => (inr a, s')
          | CommitRejected => (inl ErrInfra, s)
          | CommitUnknown => (inl ErrInfra, s')
          end
      end
  | Unreachable => (inl ErrInfra, s)
  | ContextDone => (inl ErrContext, s)
  end.

Definition map_action_error {S A} (f : Error -> Error) (m : Action S A) : Action S A := fun env s =>
  let '(r, s') := m env s in
  (match r with inl e => inl (f e) | inr a => inr a end, s').

(** ** Scripts: several transactions in a row

    A worker's pass runs one action after another, each against the state that the
    one before left, each with what the database and the scheduler decide for it:
    [envs n] is the environment of the [n]-th action.  An error stops the script
    and keeps what was committed before it. *)

Definition Script (S A : Type) : Type := (nat -> Env) -> S * nat -> (Error + A) * (S * nat).

#[export] Instance Script_ret S : MRet (Script S) := fun A a _ sn => (inr a, sn).
#[export] Instance Script_bind S : MBind (Script S) := fun A B k m envs sn =>
  match m envs sn with
  | (inr a, sn') => k a envs sn'
  | (inl e, sn') => (inl e, sn')
  end.

Section Scripts.
Context {S : Type}.
Definition run {A} (a : Action S A) : Script S A := fun envs sn =>
  let '(r, s') := a (envs sn.2) sn.1 in (r, (s', Datatypes.S sn.2)).
(** The error of an action as a value: [if err != nil { ... }] *)
Definition run_result {A} (a : Action S A) : Script S (Error + A) := fun envs sn =>
  let '(r, s') := a (envs sn.2) sn.1 in (inr r, (s', Datatypes.S sn.2)).
(** ... and that of a whole script *)
Definition script_result {A} (m : Script S A) : Script S (Error + A) := fun envs sn =>
  let '(r, sn') := m envs sn in (inr r, sn').
Definition stop {A} (e : Error) : Script S A := fun _ sn => (inl e, sn).
Definition now_script : Script S Time := fun envs sn => (inr (env_now (envs sn.2)), sn).
Fixpoint script_each {A} (l : list A) (f : A -> Script S unit) : Script S unit :=
  match l with
  | [] => mret tt
  | a :: l' => f a ≫= fun _ => script_each l' f
  end.
End Scripts.

(** ** Queries over one table *)

(** [ORDER BY] as a decidable relation *)
Definition ordered_by {R} (le : R -> R -> bool) (a b : R) : Prop := le a b = true.
#[export] Instance ordered_by_dec {R} (le : R -> R -> bool) a b : Decision (ordered_by le a b).
Proof. unfold ordered_by. apply _. Defined.

Section Queries.
Context {R : Type} `{Table R}.

Definition rows (d : Database) : gmap Z R := t_rows (tbl_get d).
Definition put_row (k : Z) (r : R) (d : Database) : Database :=
  tbl_set (mkTbl (<[k := r]> (rows d)) (t_seq (tbl_get d))) d.

Definition select (p : R -> bool) (d : Database) : list R :=
  filter (fun r => p r = true) ((map_to_list (rows d)).*2).

(** A row violates a UNIQUE constraint against another row of the table. *)
Definition conflicts (k : Z) (r : R) (d : Database) : bool :=
  existsb (fun kr => negb (kr.1 =? k) && row_clash r kr.2) (map_to_list (rows d)).

(** [SELECT ... WHERE id = $1] with [:one] *)
Definition get_row (k : Z) : Tx Database R := fun _ d =>
  match rows d !! k with Some r => Ok r d | None => Fail ErrNoRows end.

(** [SELECT ... WHERE p] with [:one] *)
Definition find_row (p : R -> bool) : Tx Database R := fun _ d =>
  match select p d with r :: _ => Ok r d | [] => Fail ErrNoRows end.

Definition count_rows (p : R -> bool) (d : Database) : Z := Z.of_nat (length (select p d)).

(** The constraints are checked on every write. *)
Definition write_row (k : Z) (r : R) : Tx Database R := fun _ d =>
  if negb (row_check r) then Fail (ErrPg CheckViolation)
  else if conflicts k r d then Fail (ErrPg UniqueViolation)
  else Ok r (put_row k r d).

(** [INSERT INTO ... RETURNING *] with a key the caller gives *)
Definition insert_row_at (k : Z) (r : R) : Tx Database R := fun env d =>
  if negb (row_check r) then Fail (ErrPg CheckViolation)
  else if is_some (rows d !! k) || conflicts k r d then Fail (ErrPg UniqueViolation)
  else Ok r (tbl_set (mkTbl (<[k := r]> (rows d)) (Z.max k (t_seq (tbl_get d)))) d).

Definition next_key (d : Database) : Z := t_seq (tbl_get d) + 1.

(** [INSERT INTO ... RETURNING *] with a generated key *)
Definition insert_row (mk : Z -> R) : Tx Database R := fun env d =>
  insert_row_at (next_key d) (mk (next_key d)) env d.

(** [INSERT ... ON CONFLICT DO NOTHING RETURNING *]: no row on a conflict *)
Definition insert_row_or_nothing (mk : Z -> R) : Tx Database R := fun env d =>
  match insert_row mk env d with
  | Fail (ErrPg UniqueViolation) => Fail ErrNoRows
  | o => o
  end.

(** [UPDATE ... SET f WHERE id = k AND guard RETURNING *] with [:one] *)
Definition update_row (k : Z) (guard : R -> bool) (f : R -> R) : Tx Database R := fun env d =>
  match rows d !! k with
  | Some r => if guard r then write_row k (f r) env d else Fail ErrNoRows
  | None => Fail ErrNoRows
  end.

(** [INSERT ... ON CONFLICT (...) DO NOTHING RETURNING *]: only a conflict on the
    given columns is silent. *)
Definition insert_row_unless (conflict : R -> bool) (mk : Z -> R) : Tx Database R := fun env d =>
  if negb (row_check (mk (next_key d))) then Fail (ErrPg CheckViolation)
  else match select conflict d with
       | _ :: _ => Fail ErrNoRows
       | [] => insert_row mk env d
       end.

(** [INSERT ... ON CONFLICT (...) DO UPDATE SET f RETURNING *]: the CHECK
    constraints of the row to insert come first. *)
Definition upsert_row (conflict : R -> bool) (mk : Z -> R) (f : R -> R) : Tx Database R := fun env d =>
  if negb (row_check (mk (next_key d))) then Fail (ErrPg CheckViolation)
  else match select conflict d with
       | r :: _ => update_row (row_key r) (fun _ => true) f env d
       | [] => insert_row mk env d
       end.

(** [UPDATE ... FROM selected RETURNING *]: every row of the list, in turn *)
Fixpoint update_rows (ks : list Z) (guard : R -> bool) (f : R -> R) : Tx Database (list R) :=
  match ks with
  | [] => mret []
  | k :: ks' =>
      o ← try_row (update_row k guard f);
      rs ← update_rows ks' guard f;
      mret (match o with Some r => r :: rs | None => rs end)
  end.

(** [ORDER BY ... LIMIT n]: PostgreSQL refuses a negative limit *)
Definition order_limit (le : R -> R -> bool) (n : Z) (l : list R) : Tx Database (list R) :=
  if n <? 0 then throw (ErrPg InvalidRowCount)
  else mret (take (Z.to_nat n) (merge_sort (ordered_by le) l)).

(** [SELECT ... WHERE p ORDER BY le] *)
Definition select_sorted (p : R -> bool) (le : R -> R -> bool) (d : Database) : list R :=
  merge_sort (ordered_by le) (select p d).
End Queries.

Arguments rows R {_} d.

(** [ORDER BY k1, k2] as a decidable total order on pairs of integers *)
Definition lex_le (a b : Z * Z) : bool := (a.1 <? b.1) || ((a.1 =? b.1) && (a.2 <=? b.2)).
Definition lex3_le (a b : Z * Z * Z) : bool :=
  (a.1.1 <? b.1.1) || ((a.1.1 =? b.1.1) && lex_le (a.1.2, a.2) (b.1.2, b.2)).

(** [WHERE p FOR UPDATE SKIP LOCKED] *)
Definition select_unlocked {R} `{Table R} (lk : LockTable) (p : R -> bool) : Tx Database (list R) :=
  fun env d => Ok (filter (fun r => env_locked env lk (row_key r) = false) (select p d)) d.

(** A joined row that may be missing *)
Definition joined {A} (o : option A) : Tx Database A :=
  match o with Some a => mret a | None => throw ErrNoRows end.

(** [LIMIT n OFFSET m]: a negative limit or offset is refused. *)
Definition page_of {R} `{Table R} (le : R -> R -> bool) (limit offset : Z) (l : list R) : Tx Database (list R) :=
  if (limit <? 0) || (offset <? 0) then throw (ErrPg InvalidRowCount)
  else mret (take (Z.to_nat limit) (drop (Z.to_nat offset) (merge_sort (ordered_by le) l))).

(** [mapConstraintError] (app_store.go): a unique violation becomes [ErrConflict]. *)
Definition mapConstraintError (e : Error) : Error :=
  match e with ErrPg UniqueViolation => ErrConflict | _ => e end.

(** [pgtype] helpers *)
Definition optionalText (value : string) : option string :=
  let value := TrimSpace value in
  if str_eqb value "" then None else Some value.
Definition requiredInt8 (value : Z) : option Z := Some value.
Definition optionalInt8 (value : Z) : option Z := if 0 <? value then Some value else None.
Definition optionalInt4 (value : Z) : option Z := if 0 <? value then Some value else None.
Definition optionalTimestamp (value : Time) : option Time :=
  if time_is_zero value then None else Some value.
(** A nullable column read as its Go zero value *)
Definition text_or_empty (o : option string) : string := default EmptyString o.
Definition int_or_zero (o : option Z) : Z := default 0 o.

(** ** Proof theory *)

Definition respects {S A} (R : S -> S -> Prop) (m : Tx S A) : Prop :=
  forall env s a s', m env s = Ok a s' -> R s s'.

(** [m] never changes the state. *)
Definition readonly {S A} (m : Tx S A) : Prop := respects eq m.

Create HintDb tx discriminated.
#[export] Hint Constants Opaque : tx.

Section Respects.
Context {S : Type} (R : S -> S -> Prop) `{!PreOrder R}.

Lemma respects_ret {A} (a : A) : respects R (mret (M := Tx S) a).
Proof. intros env s b s' Heq. injection Heq as _ <-. reflexivity. Qed.

Lemma respects_throw {A} e : respects R (throw (A := A) e).
Proof. intros env s b s' Heq. discriminate. Qed.

Lemma respects_clock : respects R clock.
Proof. intros env s b s' Heq. injection Heq as _ <-. reflexivity. Qed.

Lemma respects_time_now : respects R time_now.
Proof. intros env s b s' Heq. injection Heq as _ <-. reflexivity. Qed.

Lemma respects_read {A} (f : S -> A) : respects R (read f).
Proof. intros env s b s' Heq. injection Heq as _ <-. reflexivity. Qed.

Lemma respects_bind {A B} (m : Tx S A) (k : A -> Tx S B) :
  respects R m -> (forall a, respects R (k a)) -> respects R (m ≫= k).
Proof.
  intros Hm Hk env s b s'. unfold mbind, Tx_bind.
  destruct (m env s) as [a s1|] eqn:E; [|discriminate].
  intros Hb. transitivity s1; [by eapply Hm | by eapply Hk].
Qed.

Lemma respects_readonly {A} (m : Tx S A) : readonly m -> respects R m.
Proof. intros Hm env s a s' Heq. by rewrite (Hm _ _ _ _ Heq). Qed.

Lemma respects_try_row {A} (m : Tx S A) : respects R m -> respects R (try_row m).
Proof.
  intros Hm env s b s'. unfold try_row.
  destruct (m env s) as [a s1|e] eqn:E.
  - intros Heq. injection Heq as _ <-. by eapply Hm.
  - destruct e; try discriminate. intros Heq. injection Heq as _ <-. reflexivity.
Qed.

Lemma respects_try_error {A} e (m : Tx S A) : respects R m -> respects R (try_error e m).
Proof.
  intros Hm env s b s'. unfold try_error.
  destruct (m env s) as [a s1|e'] eqn:E.
  - intros Heq. injection Heq as _ <-. by eapply Hm.
  - destruct (decide (e' = e)); [|discriminate]. intros Heq. injection Heq as _ <-. reflexivity.
Qed.

Lemma respects_or_no_rows {A} e (m : Tx S A) : respects R m -> respects R (or_no_rows e m).
Proof.
  intros Hm env s b s'. unfold or_no_rows.
  destruct (m env s) as [a s1|e'] eqn:E.
  - intros Heq. injection Heq as <- <-. by eapply Hm.
  - by destruct e'.
Qed.

Lemma respects_map_error {A} f (m : Tx S A) : respects R m -> respects R (map_error f m).
Proof.
  intros Hm env s b s'. unfold map_error.
  destruct (m env s) as [a s1|e'] eqn:E; [|done].
  intros Heq. injection Heq as <- <-. by eapply Hm.
Qed.

Lemma respects_from_result {A} (r : Error + A) : respects R (from_result r).
Proof. destruct r; [apply respects_throw | apply respects_ret]. Qed.

Lemma respects_guard_not c e : respects R (guard_not c e).
Proof. destruct c; [apply respects_throw | apply respects_ret]. Qed.

Lemma respects_for_each {A} (l : list A) f :
  (forall a, respects R (f a)) -> respects R (for_each l f).
Proof.
  intros Hf. induction l; simpl; [apply respects_ret|].
  apply respects_bind; [apply Hf | intros _; done].
Qed.

Lemma respects_fold_each {A B} (l : list A) (acc : B) f :
  (forall acc a, respects R (f acc a)) -> respects R (fold_each l acc f).
Proof.
  intros Hf. revert acc. induction l; intros acc; simpl; [apply respects_ret|].
  apply respects_bind; [apply Hf | done].
Qed.

Lemma respects_transaction {A} (m : Tx S A) env s r s' :
  respects R m -> WithinTransaction m env s = (r, s') -> R s s'.
Proof.
  intros Hm. unfold WithinTransaction.
  destruct (env_begin env); [| intros Heq; injection Heq as _ <-; reflexivity ..].
  destruct (m env s) as [a s1|] eqn:E; [|intros Heq; injection Heq as _ <-; reflexivity].
  destruct (env_commit env); intros Heq; injection Heq as _ <-;
    first [reflexivity | by eapply Hm].
Qed.
End Respects.

(** A failed run leaves the state as it was, whatever failed, unless the commit's
    answer was lost. *)
Lemma transaction_error_unchanged {S A} (m : Tx S A) env s e s' :
  WithinTransaction m env s = (inl e, s') -> env_commit env <> CommitUnknown -> s' = s.
Proof.
  unfold WithinTransaction. destruct (env_begin env); [| congruence ..].
  destruct (m env s); [|congruence]. destruct (env_commit env); congruence.
Qed.

Lemma transaction_ok_inv {S A} (m : Tx S A) env s a s' :
  WithinTransaction m env s = (inr a, s') -> m env s = Ok a s'.
Proof.
  unfold WithinTransaction. destruct (env_begin env); [| congruence ..].
  destruct (m env s); [|congruence]. destruct (env_commit env); congruence.
Qed.

(** A script that returned has run its parts. *)
Lemma script_bind_inv {S A B} (m : Script S A) (k : A -> Script S B) envs sn b sn' :
  (m ≫= k) envs sn = (inr b, sn') -> exists a sn1, m envs sn = (inr a, sn1) /\ k a envs sn1 = (inr b, sn').
Proof. unfold mbind, Script_bind. destruct (m envs sn) as [[e|a] sn1]; [discriminate | eauto]. Qed.

Lemma run_inv {S A} (a : Action S A) envs s n r s' n' :
  run a envs (s, n) = (r, (s', n')) -> a (envs n) s = (r, s').
Proof. unfold run. cbn. destruct (a (envs n) s) as [r0 s0]. congruence. Qed.

(** One step of a run: a bind that returned has run its parts. *)
Lemma bind_Ok_inv {S A B} (m : Tx S A) (k : A -> Tx S B) env s b s' :
  (m ≫= k) env s = Ok b s' -> exists a s1, m env s = Ok a s1 /\ k a env s1 = Ok b s'.
Proof.
  unfold mbind, Tx_bind. destruct (m env s) as [a s1|]; [|discriminate]. eauto.
Qed.

Lemma bind_Ok {S A B} (m : Tx S A) (k : A -> Tx S B) env s a s1 :
  m env s = Ok a s1 -> (m ≫= k) env s = k a env s1.
Proof. unfold mbind, Tx_bind. by intros ->. Qed.

Lemma bind_Fail {S A B} (m : Tx S A) (k : A -> Tx S B) env s e :
  m env s = Fail e -> (m ≫= k) env s = Fail e.
Proof. unfold mbind, Tx_bind. by intros ->. Qed.

Lemma ret_Ok_inv {S A} (a : A) env (s : S) b s' :
  (mret a : Tx S A) env s = Ok b s' -> a = b /\ s = s'.
Proof. intros Heq. by injection Heq as -> ->. Qed.

Lemma try_row_inv {S A} (m : Tx S A) env s o s' :
  try_row m env s = Ok o s' ->
  (exists a, o = Some a /\ m env s = Ok a s') \/ (o = None /\ s' = s /\ m env s = Fail ErrNoRows).
Proof.
  unfold try_row. destruct (m env s) as [a s1|e] eqn:E.
  - intros Heq. injection Heq as <- <-. eauto.
  - destruct e; try discriminate. intros Heq. injection Heq as <- <-. eauto.
Qed.

Lemma try_error_inv {S A} e (m : Tx S A) env s o s' :
  try_error e m env s = Ok o s' ->
  (exists a, o = Some a /\ m env s = Ok a s') \/ (o = None /\ s' = s /\ m env s = Fail e).
Proof.
  unfold try_error. destruct (m env s) as [a s1|e'] eqn:E.
  - intros Heq. injection Heq as <- <-. eauto.
  - destruct (decide (e' = e)) as [->|]; [|discriminate]. intros Heq. injection Heq as <- <-. eauto.
Qed.

Lemma map_error_inv {S A} f (m : Tx S A) env s a s' :
  map_error f m env s = Ok a s' -> m env s = Ok a s'.
Proof. unfold map_error. by destruct (m env s). Qed.

Lemma or_no_rows_inv {S A} e (m : Tx S A) env s a s' :
  or_no_rows e m env s = Ok a s' -> m env s = Ok a s'.
Proof. unfold or_no_rows. destruct (m env s) as [|e']; [done | by destruct e']. Qed.

Lemma guard_not_inv {S} c e env (s : S) u s' :
  guard_not c e env s = Ok u s' -> c = false /\ s' = s.
Proof. unfold guard_not. destruct c; [discriminate|]. intros Heq. by injection Heq as _ ->. Qed.
