(* ===== verification/Tables.v ===== *)
(** * Reasoning about queries

    The theory of the generic queries of [Tx]: what each of them returns and
    stores, that a write to one table leaves the others alone ([Frame]), that the
    constraints of the schema hold in every reachable state ([tbl_wf]), and the
    row-wise relations between the states before and after a handler ([evolves]),
    which [tx_auto] establishes along the structure of the handler. *)

From Stdlib Require Import Ascii.
From S2P Require Import Prelude Text Domain Schema Tx.

(** A write to [W] is invisible to a reader of [V]. *)
Class Frame (V W : Type) `{Table V} `{Table W} : Prop :=
  frame (t : Tbl W) (d : Database) : tbl_get (R := V) (tbl_set t d) = tbl_get d.
#[export] Hint Extern 0 (Frame _ _) => (intros ? ?; reflexivity) : typeclass_instances.

(** A relation that no write to [W] can leave. *)
Class Unaffected (Rel : Database -> Database -> Prop) (W : Type) `{Table W} : Prop :=
  unaffected (t : Tbl W) (d : Database) : Rel d (tbl_set t d).

(** ** Lists of rows *)

Section Select.
Context {R : Type} `{Table R}.

Lemma elem_of_select (p : R -> bool) d r :
  r ∈ select p d <-> p r = true /\ exists k, rows R d !! k = Some r.
Proof.
  unfold select. rewrite list_elem_of_filter, list_elem_of_fmap.
  split; intros [Hp Hr]; split; try done.
  - destruct Hr as ([k r'] & -> & Hk%elem_of_map_to_list). eauto.
  - destruct Hr as [k Hk%elem_of_map_to_list]. by exists (k, r).
Qed.

Lemma conflicts_false k r d :
  conflicts k r d = false <->
  forall k' r', k' <> k -> rows R d !! k' = Some r' -> row_clash r r' = false.
Proof.
  unfold conflicts. rewrite <- not_true_iff_false, existsb_exists. split.
  - intros Hn k' r' Hk Hr. destruct (row_clash r r') eqn:E; [|done]. destruct Hn.
    exists (k', r'). split; [by apply list_elem_of_In, elem_of_map_to_list|].
    simpl. rewrite E. apply Z.eqb_neq in Hk. by rewrite Hk.
  - intros Hall ([k' r'] & Hin & Hc). apply list_elem_of_In, elem_of_map_to_list in Hin.
    simpl in Hc. apply andb_true_iff in Hc as [Hk Hc]. apply negb_true_iff, Z.eqb_neq in Hk.
    by rewrite (Hall k' r') in Hc.
Qed.

Lemma find_row_Ok (p : R -> bool) env d r d' :
  find_row p env d = Ok r d' -> d' = d /\ p r = true /\ exists k, rows R d !! k = Some r.
Proof.
  unfold find_row. destruct (select p d) as [|r0 l] eqn:E; [done|]. intros Heq.
  injection Heq as <- <-. split; [done|]. apply elem_of_select. rewrite E. left.
Qed.

Lemma find_row_first (p : R -> bool) env d r d' :
  find_row p env d = Ok r d' -> d' = d /\ head (select p d) = Some r.
Proof. unfold find_row. destruct (select p d) as [|r0 l]; [done|]. by intros [= <- <-]. Qed.

Lemma find_row_Fail (p : R -> bool) env d e :
  find_row p env d = Fail e ->
  e = ErrNoRows /\ forall k r, rows R d !! k = Some r -> p r = false.
Proof.
  unfold find_row. destruct (select p d) as [|r0 l] eqn:E; [|done]. intros Heq.
  injection Heq as <-. split; [done|]. intros k r Hr. destruct (p r) eqn:Hp; [|done].
  assert (r ∈ select p d) as Hin by (apply elem_of_select; eauto).
  rewrite E in Hin. by apply not_elem_of_nil in Hin.
Qed.

(** The row a lookup finds when only one can satisfy the predicate *)
Lemma find_row_unique (p : R -> bool) env d k r :
  rows R d !! k = Some r -> p r = true ->
  (forall k' r', rows R d !! k' = Some r' -> p r' = true -> r' = r) ->
  find_row p env d = Ok r d.
Proof.
  intros Hk Hp Hu. unfold find_row. destruct (select p d) as [|r0 l] eqn:E.
  - assert (r ∈ select p d) as Hin by (apply elem_of_select; eauto).
    rewrite E in Hin. by apply not_elem_of_nil in Hin.
  - assert (r0 ∈ select p d) as Hin by (rewrite E; left).
    apply elem_of_select in Hin as [Hp0 [k' Hk']]. by rewrite (Hu k' r0).
Qed.

Lemma get_row_Ok k env d r d' :
  get_row k env d = Ok r d' -> d' = d /\ rows R d !! k = Some r.
Proof.
  unfold get_row. destruct (rows R d !! k) eqn:E; [|done]. intros Heq.
  by injection Heq as <- <-.
Qed.

Lemma get_row_Fail k env d e :
  get_row (R := R) k env d = Fail e -> e = ErrNoRows /\ rows R d !! k = None.
Proof. unfold get_row. destruct (rows R d !! k) eqn:E; [done|]. by intros [= <-]. Qed.

Lemma order_limit_Ok le n (l : list R) env d rs d' :
  order_limit le n l env d = Ok rs d' ->
  d' = d /\ 0 <= n /\ rs = take (Z.to_nat n) (merge_sort (ordered_by le) l).
Proof.
  unfold order_limit. destruct (n <? 0) eqn:E; [done|]. intros Heq.
  injection Heq as <- <-. apply Z.ltb_ge in E. done.
Qed.

Lemma elem_of_select_sorted (p : R -> bool) le d r :
  r ∈ select_sorted p le d <-> r ∈ select p d.
Proof. unfold select_sorted. by rewrite merge_sort_Permutation. Qed.

Lemma elem_of_take_sorted n le (l : list R) r :
  r ∈ take n (merge_sort (ordered_by le) l) -> r ∈ l.
Proof.
  intros Hin. rewrite <- (merge_sort_Permutation (ordered_by le) l).
  by apply (subseteq_take n).
Qed.
End Select.

(** ** Writes *)

Section Writes.
Context {R : Type} `{TableLaws R}.
Implicit Types (r : R) (f : R -> R) (guard : R -> bool).

Lemma rows_set t d : rows R (tbl_set t d) = t_rows t.
Proof. unfold rows. by rewrite tbl_get_set. Qed.

Lemma rows_put k r d : rows R (put_row k r d) = <[k := r]> (rows R d).
Proof. unfold put_row. by rewrite rows_set. Qed.

Lemma write_row_Ok k r env d r' d' :
  write_row k r env d = Ok r' d' ->
  r' = r /\ d' = put_row k r d /\ row_check r = true /\ conflicts k r d = false.
Proof.
  unfold write_row. destruct (row_check r); [|done]. destruct (conflicts k r d); [done|].
  intros Heq. by injection Heq as <- <-.
Qed.

Lemma update_row_Ok k guard f env d r' d' :
  update_row k guard f env d = Ok r' d' ->
  exists r, rows R d !! k = Some r /\ guard r = true /\ r' = f r /\
    d' = put_row k (f r) d /\ row_check (f r) = true /\ conflicts k (f r) d = false.
Proof.
  unfold update_row. destruct (rows R d !! k) as [r|] eqn:E; [|done].
  destruct (guard r) eqn:Eg; [|done]. intros (-> & -> & ? & ?)%write_row_Ok. eauto 10.
Qed.

Lemma update_row_no_rows k guard f env d :
  update_row k guard f env d = Fail ErrNoRows ->
  forall r, rows R d !! k = Some r -> guard r = false.
Proof.
  unfold update_row, write_row. intros Hu r Hr. rewrite Hr in Hu.
  destruct (guard r); [|done]. destruct (row_check _); [|done]. by destruct (conflicts _ _ _).
Qed.

Lemma insert_row_at_Ok k r env d r' d' :
  insert_row_at k r env d = Ok r' d' ->
  r' = r /\ d' = tbl_set (mkTbl (<[k := r]> (rows R d)) (Z.max k (t_seq (tbl_get (R := R) d)))) d
  /\ row_check r = true /\ rows R d !! k = None /\ conflicts k r d = false.
Proof.
  unfold insert_row_at. destruct (row_check r); [|done]. simpl.
  destruct (rows R d !! k); [done|]. simpl. destruct (conflicts k r d); [done|].
  intros Heq. by injection Heq as <- <-.
Qed.

Lemma insert_row_Ok mk env d r d' :
  insert_row (R := R) mk env d = Ok r d' ->
  r = mk (next_key (R := R) d) /\ rows R d !! next_key (R := R) d = None /\
  rows R d' = <[next_key (R := R) d := r]> (rows R d) /\
  (exists t, d' = tbl_set t d) /\ row_check r = true /\
  conflicts (next_key (R := R) d) r d = false.
Proof.
  unfold insert_row. intros (-> & -> & Hc & Hn & Hx)%insert_row_at_Ok.
  rewrite rows_set. simpl. eauto 10.
Qed.

Lemma insert_row_or_nothing_Ok mk env d r d' :
  insert_row_or_nothing (R := R) mk env d = Ok r d' <-> insert_row mk env d = Ok r d'.
Proof.
  unfold insert_row_or_nothing. destruct (insert_row mk env d) as [|e] eqn:E; [done|].
  destruct e; try done. by destruct state.
Qed.

Lemma insert_row_unless_Ok conflict mk env d r d' :
  insert_row_unless conflict mk env d = Ok r d' ->
  select conflict d = [] /\ insert_row mk env d = Ok r d'.
Proof.
  unfold insert_row_unless. destruct (row_check _); [|done]. simpl.
  by destruct (select conflict d).
Qed.

Lemma upsert_row_Ok conflict mk f env d r' d' :
  upsert_row conflict mk f env d = Ok r' d' ->
  (exists r, r ∈ select conflict d /\ update_row (row_key r) (fun _ => true) f env d = Ok r' d')
  \/ (select conflict d = [] /\ insert_row mk env d = Ok r' d').
Proof.
  unfold upsert_row. destruct (row_check _); [|done]. simpl.
  destruct (select conflict d) as [|r l] eqn:E; [by right|]. intros Hu. left. exists r.
  split; [left | done].
Qed.

(** The rows after a bulk update, and the rows it returns *)
Lemma update_rows_Ok ks guard f env d rs d' :
  NoDup ks -> update_rows ks guard f env d = Ok rs d' ->
  (forall k, rows R d' !! k =
     (fun r => if bool_decide (k ∈ ks) && guard r then f r else r) <$> rows R d !! k) /\
  rs = omap (fun k => r ← rows R d !! k; if guard r then Some (f r) else None) ks /\
  (d' = d \/ exists t, d' = tbl_set t d).
Proof.
  intros Hnd. revert d rs. induction Hnd as [|k ks Hk Hnd IH]; intros d rs; simpl.
  - intros (<- & ->)%ret_Ok_inv. split_and!; [|done|by left].
    intros k. by destruct (rows R d' !! k).
  - intros (o & d1 & Ho & (rs1 & d2 & Hrs & Hret)%bind_Ok_inv)%bind_Ok_inv.
    apply ret_Ok_inv in Hret as [<- ->].
    destruct (IH d1 rs1 Hrs) as (Hlk & -> & Hset).
    assert (Hother : forall k', k' ∈ ks -> rows R d1 !! k' = rows R d !! k').
    { intros k' Hk'. apply try_row_inv in Ho as [(r' & _ & Hu)|(_ & -> & _)]; [|done].
      apply update_row_Ok in Hu as (r & _ & _ & _ & -> & _ & _).
      rewrite rows_put, lookup_insert_ne; [done|]. intros ->. done. }
    assert (Homap : omap (fun k => r ← rows R d1 !! k; if guard r then Some (f r) else None) ks
                    = omap (fun k => r ← rows R d !! k; if guard r then Some (f r) else None) ks).
    { clear -Hother. induction ks as [|k' ks IH]; [done|]. csimpl.
      rewrite (Hother k') by left. rewrite IH; [done|]. intros k'' Hk''. apply Hother. by right. }
    assert (Hset' : d' = d \/ exists t, d' = tbl_set t d).
    { apply try_row_inv in Ho as [(r' & _ & Hu)|(_ & -> & _)]; [|done].
      apply update_row_Ok in Hu as (r & _ & _ & _ & -> & _ & _). right.
      destruct Hset as [->|[t ->]]; [by eexists|]. exists t. unfold put_row. apply tbl_set_set. }
    split_and!; [|rewrite Homap|done].
    + intros k'. rewrite Hlk.
      apply try_row_inv in Ho as [(r' & _ & Hu)|(_ & -> & Hu)].
      * apply update_row_Ok in Hu as (r & Hr & Hg & _ & -> & _ & _). rewrite rows_put.
        destruct (decide (k' = k)) as [->|Hne].
        -- rewrite lookup_insert_eq, Hr. simpl.
           rewrite (bool_decide_false (k ∈ ks)) by done.
           rewrite (bool_decide_true (k ∈ k :: ks)) by left. by rewrite Hg.
        -- rewrite lookup_insert_ne by done. destruct (rows R d !! k'); [|done]. simpl.
           by rewrite (bool_decide_ext (k' ∈ k :: ks) (k' ∈ ks)) by (rewrite elem_of_cons; tauto).
      * destruct (rows R d !! k') as [r|] eqn:Hr; [|done]. simpl.
        destruct (decide (k' = k)) as [->|Hne].
        -- rewrite (update_row_no_rows _ _ _ _ _ Hu r Hr), !andb_false_r. done.
        -- by rewrite (bool_decide_ext (k' ∈ k :: ks) (k' ∈ ks)) by (rewrite elem_of_cons; tauto).
    + apply try_row_inv in Ho as [(r' & -> & Hu)|(-> & -> & Hu)].
      * apply update_row_Ok in Hu as (r & Hr & Hg & -> & _). csimpl. by rewrite Hr; csimpl; rewrite Hg.
      * csimpl. destruct (rows R d !! k) as [r|] eqn:Hr; [|done]. csimpl.
        by rewrite (update_row_no_rows _ _ _ _ _ Hu r Hr).
Qed.
End Writes.

(** Reading one table after a write to another *)
Lemma rows_frame {V W} `{Table V} `{Table W} `{!Frame V W} t d :
  rows V (tbl_set (R := W) t d) = rows V d.
Proof. unfold rows. by rewrite frame. Qed.

(** ** Constraints *)

(** The table satisfies its schema: keys, CHECK and UNIQUE constraints. *)
Record tbl_wf (R : Type) `{Table R} (d : Database) : Prop := {
  wf_key k r : rows R d !! k = Some r -> row_key r = k;
  wf_check k r : rows R d !! k = Some r -> row_check r = true;
  wf_clash k k' r r' : rows R d !! k = Some r -> rows R d !! k' = Some r' ->
    k <> k' -> row_clash r r' = false }.

Lemma tbl_wf_ext {R} `{Table R} d d' :
  rows R d = rows R d' -> tbl_wf R d -> tbl_wf R d'.
Proof.
  intros Heq [H1 H2 H3]. split; rewrite <- Heq; [apply H1 | apply H2 | apply H3].
Qed.

Lemma tbl_wf_insert {R} `{TableLaws R} d d' k r :
  tbl_wf R d -> rows R d' = <[k := r]> (rows R d) -> row_key r = k -> row_check r = true ->
  conflicts k r d = false -> tbl_wf R d'.
Proof.
  intros [H1 H2 H3] Hrows Hk Hc Hcf. rewrite conflicts_false in Hcf. split; rewrite Hrows.
  - intros k' r' [[-> ->]|[? ?]]%lookup_insert_Some; [done|eauto].
  - intros k' r' [[-> ->]|[? ?]]%lookup_insert_Some; [done|eauto].
  - intros k1 k2 r1 r2 [[<- <-]|[Hn1 Hl1]]%lookup_insert_Some [[<- <-]|[Hn2 Hl2]]%lookup_insert_Some Hne.
    + done.
    + by apply Hcf with k2.
    + rewrite row_clash_sym. by apply Hcf with k1.
    + by apply H3 with k1 k2.
Qed.

Record db_wf (d : Database) : Prop := {
  wf_users : tbl_wf User d; wf_admins : tbl_wf AdminRow d; wf_sessions : tbl_wf AdminSessionRow d;
  wf_categories : tbl_wf CategoryRow d; wf_products : tbl_wf ProductRow d;
  wf_banks : tbl_wf BankAccountRow d; wf_orders : tbl_wf OrderRow d;
  wf_items : tbl_wf OrderItemRow d; wf_history : tbl_wf OrderHistoryRow d;
  wf_inventory : tbl_wf InventoryRow d; wf_mappings : tbl_wf MappingRow d;
  wf_payments : tbl_wf PaymentRow d; wf_events : tbl_wf PaymentEventRow d;
  wf_allocations : tbl_wf AllocationRow d; wf_reviews : tbl_wf ReviewCaseRow d;
  wf_wallets : tbl_wf WalletRow d; wf_ledger : tbl_wf LedgerRow d; wf_topups : tbl_wf TopupRow d;
  wf_outbox : tbl_wf OutboxRow d; wf_attempts : tbl_wf AttemptRow d; wf_audit : tbl_wf AuditRow d;
  wf_receipts : tbl_wf ReceiptRow d; wf_accounts : tbl_wf ProviderAccountRow d;
  wf_checkpoints : tbl_wf CheckpointRow d }.

(** A table of the database: writing it well keeps the whole database well-formed. *)
Class DbTable (R : Type) `{Table R} : Prop := {
  db_table d : db_wf d -> tbl_wf R d;
  db_table_set t d : db_wf d -> tbl_wf R (tbl_set t d) -> db_wf (tbl_set t d) }.

Ltac db_table :=
  let Ht := fresh "Ht" in
  split; [by intros ? [] | intros ? ? [] Ht; split; (exact Ht || (eapply tbl_wf_ext; [|eassumption]; reflexivity))].
#[export] Hint Extern 0 (DbTable _) => db_table : typeclass_instances.

(** [m] keeps an invariant. *)
Definition keeps {S} (I : S -> Prop) (s s' : S) : Prop := I s -> I s'.
#[export] Instance keeps_preorder {S} (I : S -> Prop) : PreOrder (keeps I).
Proof. split; unfold keeps; [by intros ? ? | intros ? ? ? ? ? ?; auto]. Qed.

Section Constraints.
Context {R : Type} `{TableLaws R} `{!DbTable R}.
Implicit Types (r : R) (f : R -> R) (guard : R -> bool).

Lemma put_row_wf k r d :
  db_wf d -> row_key r = k -> row_check r = true -> conflicts k r d = false ->
  db_wf (put_row k r d).
Proof.
  intros Hd Hk Hc Hx. unfold put_row. apply db_table_set; [done|].
  eapply tbl_wf_insert; [by apply db_table | | done..]. by rewrite rows_set.
Qed.

Lemma update_row_wf k guard f :
  (forall r, row_key (f r) = row_key r) -> respects (keeps db_wf) (update_row k guard f).
Proof.
  intros Hf env d r' d' (r & Hr & _ & _ & -> & Hc & Hx)%update_row_Ok Hd.
  apply put_row_wf; [done| |done|done]. rewrite Hf. by apply (wf_key R d (db_table d Hd)).
Qed.

Lemma insert_row_wf mk :
  (forall k, row_key (mk k) = k) -> respects (keeps db_wf) (insert_row (R := R) mk).
Proof.
  intros Hmk env d r d' (-> & Hn & Hrows & (t & ->) & Hc & Hx)%insert_row_Ok Hd.
  apply db_table_set; [done|]. by eapply tbl_wf_insert; [apply db_table | | | |].
Qed.

Lemma insert_row_or_nothing_wf mk :
  (forall k, row_key (mk k) = k) -> respects (keeps db_wf) (insert_row_or_nothing (R := R) mk).
Proof.
  intros Hmk env d r d' ?%insert_row_or_nothing_Ok. by eapply insert_row_wf.
Qed.

Lemma insert_row_unless_wf conflict mk :
  (forall k, row_key (mk k) = k) -> respects (keeps db_wf) (insert_row_unless (R := R) conflict mk).
Proof.
  intros Hmk env d r d' [_ ?]%insert_row_unless_Ok. by eapply insert_row_wf.
Qed.

Lemma insert_row_at_wf k r :
  row_key r = k -> respects (keeps db_wf) (insert_row_at k r).
Proof.
  intros Hk env d r' d' (-> & -> & Hc & Hn & Hx)%insert_row_at_Ok Hd.
  apply db_table_set; [done|]. eapply tbl_wf_insert; [by apply db_table | | done..].
  by rewrite rows_set.
Qed.

Lemma upsert_row_wf conflict mk f :
  (forall k, row_key (mk k) = k) -> (forall r, row_key (f r) = row_key r) ->
  respects (keeps db_wf) (upsert_row conflict mk f).
Proof.
  intros Hmk Hf env d r' d' [(r & _ & Hu)|[_ Hi]]%upsert_row_Ok.
  - by eapply update_row_wf.
  - by eapply insert_row_wf.
Qed.

Lemma update_rows_wf ks guard f :
  (forall r, row_key (f r) = row_key r) -> respects (keeps db_wf) (update_rows ks guard f).
Proof.
  intros Hf. induction ks as [|k ks IH]; simpl; [apply respects_ret, _|].
  apply respects_bind; [apply _ | by apply respects_try_row, update_row_wf; [apply _|] | intros o].
  apply respects_bind; [apply _ | done | intros rs; apply respects_ret, _].
Qed.
End Constraints.

(** ** Row-wise evolution *)

(** Every row of [R] survives, related to its successor by [E]. *)
Definition evolves (R : Type) `{Table R} (E : R -> R -> Prop) (d d' : Database) : Prop :=
  forall k r, rows R d !! k = Some r -> exists r', rows R d' !! k = Some r' /\ E r r'.

#[export] Instance evolves_preorder R `{Table R} E `{!PreOrder E} : PreOrder (evolves R E).
Proof.
  split.
  - intros d k r Hr. exists r. split; [done|]. reflexivity.
  - intros d1 d2 d3 H12 H23 k r (r2 & Hr2 & E2)%H12.
    destruct (H23 k r2 Hr2) as (r3 & Hr3 & E3). exists r3. split; [done|]. by transitivity r2.
Qed.

#[export] Instance evolves_unaffected V W `{Table V} `{Table W} E `{!PreOrder E} `{!Frame V W} :
  Unaffected (evolves V E) W.
Proof. intros t d k r Hr. exists r. rewrite rows_frame. split; [done|]. reflexivity. Qed.

(** No row of the table is ever changed or removed: the table is append-only. *)
Abbreviation append_only R := (evolves R eq).

(** No row is added, and [f] of each row stays. *)
Definition derived (R : Type) `{Table R} {X} (f : R -> X) (d d' : Database) : Prop :=
  forall k r', rows R d' !! k = Some r' -> exists r, rows R d !! k = Some r /\ f r' = f r.
#[export] Instance derived_preorder R `{Table R} {X} (f : R -> X) : PreOrder (derived R f).
Proof.
  split; [by intros d k r ?; exists r|].
  intros d1 d2 d3 H12 H23 k r3 (r2 & (r1 & ? & ?)%H12 & ?)%H23. exists r1. split; [done | congruence].
Qed.
#[export] Instance derived_unaffected V W `{Table V} `{Table W} {X} (f : V -> X) `{!Frame V W} :
  Unaffected (derived V f) W.
Proof. intros t d k r. rewrite rows_frame. eauto. Qed.

Lemma respects_update_derived {R} `{TableLaws R} {X} (f : R -> X) k guard g :
  (forall r, f (g r) = f r) -> respects (derived R f) (update_row k guard g).
Proof.
  intros Hf env d r' d' (r & Hr & _ & _ & -> & _)%update_row_Ok k' r1. rewrite rows_put.
  intros [[<- <-]|[_ Hr1]]%lookup_insert_Some; eauto.
Qed.
Lemma respects_update_rows_derived {R} `{TableLaws R} {X} (f : R -> X) ks guard g :
  (forall r, f (g r) = f r) -> respects (derived R f) (update_rows ks guard g).
Proof.
  intros Hf. induction ks as [|k ks IH]; simpl; [apply respects_ret, _|].
  apply respects_bind; [apply _ | by apply respects_try_row, respects_update_derived; [apply _|] | intros o].
  apply respects_bind; [apply _ | done | intros rs; apply respects_ret, _].
Qed.

(** An invariant of tables the write does not touch *)
Class Independent (I : Database -> Prop) (W : Type) `{Table W} : Prop :=
  independent (t : Tbl W) (d : Database) : I d -> I (tbl_set t d).
#[export] Instance keeps_unaffected I W `{Table W} `{!Independent I W} : Unaffected (keeps I) W.
Proof. intros t d Hd. by apply independent. Qed.

(** The table stays as it is. *)
Definition same_table (R : Type) `{Table R} (d d' : Database) : Prop := rows R d' = rows R d.
#[export] Instance same_table_preorder R `{Table R} : PreOrder (same_table R).
Proof. split; unfold same_table; [by intros ?|]. intros d1 d2 d3 -> ?. congruence. Qed.
#[export] Instance same_table_unaffected V W `{Table V} `{Table W} `{!Frame V W} :
  Unaffected (same_table V) W.
Proof. intros t d. unfold same_table. apply rows_frame. Qed.

(** Writes to a table the relation does not look at *)
Section Other.
Context (Rel : Database -> Database -> Prop) `{!PreOrder Rel}.
Context {W : Type} `{TableLaws W} `{!Unaffected Rel W}.
Implicit Types (r : W) (f : W -> W) (guard : W -> bool).

Lemma respects_update_other k guard f : respects Rel (update_row k guard f).
Proof. intros env d r' d' (r & _ & _ & _ & -> & _)%update_row_Ok. apply unaffected. Qed.
Lemma respects_insert_other mk : respects Rel (insert_row (R := W) mk).
Proof. intros env d r d' (_ & _ & _ & (t & ->) & _)%insert_row_Ok. apply unaffected. Qed.
Lemma respects_insert_nothing_other mk : respects Rel (insert_row_or_nothing (R := W) mk).
Proof. intros env d r d' ?%insert_row_or_nothing_Ok. by eapply respects_insert_other. Qed.
Lemma respects_insert_unless_other conflict mk :
  respects Rel (insert_row_unless (R := W) conflict mk).
Proof. intros env d r d' [_ ?]%insert_row_unless_Ok. by eapply respects_insert_other. Qed.
Lemma respects_insert_at_other k r : respects Rel (insert_row_at k r).
Proof. intros env d r' d' (_ & -> & _)%insert_row_at_Ok. apply unaffected. Qed.
Lemma respects_upsert_other conflict mk f : respects Rel (upsert_row conflict mk f).
Proof.
  intros env d r' d' [(r & _ & Hu)|[_ Hi]]%upsert_row_Ok.
  - by eapply respects_update_other.
  - by eapply respects_insert_other.
Qed.
Lemma respects_update_rows_other ks guard f : respects Rel (update_rows ks guard f).
Proof.
  induction ks as [|k ks IH]; simpl; [apply respects_ret, _|].
  apply respects_bind; [apply _ | apply respects_try_row, respects_update_other; apply _ | intros o].
  apply respects_bind; [apply _ | done | intros rs; apply respects_ret, _].
Qed.
End Other.

(** Writes to the table itself *)
Section Own.
Context {R : Type} `{TableLaws R} (E : R -> R -> Prop) `{!PreOrder E}.
Implicit Types (r : R) (f : R -> R) (guard : R -> bool).

Lemma evolves_insert k r (d : Database) t :
  rows R d !! k = None -> t_rows t = <[k := r]> (rows R d) -> evolves R E d (tbl_set t d).
Proof.
  intros Hn Ht k' r' Hr'. exists r'. split; [|reflexivity]. rewrite rows_set, Ht.
  rewrite lookup_insert_ne; [done|]. intros ->. congruence.
Qed.

Lemma respects_insert_own mk : respects (evolves R E) (insert_row mk).
Proof.
  intros env d r d' (_ & Hn & Hrows & (t & ->) & _)%insert_row_Ok.
  rewrite rows_set in Hrows. by eapply evolves_insert.
Qed.
Lemma respects_insert_nothing_own mk : respects (evolves R E) (insert_row_or_nothing mk).
Proof. intros env d r d' ?%insert_row_or_nothing_Ok. by eapply respects_insert_own. Qed.
Lemma respects_insert_unless_own conflict mk :
  respects (evolves R E) (insert_row_unless conflict mk).
Proof. intros env d r d' [_ ?]%insert_row_unless_Ok. by eapply respects_insert_own. Qed.
Lemma respects_insert_at_own k r : respects (evolves R E) (insert_row_at k r).
Proof.
  intros env d r' d' (_ & -> & _ & Hn & _)%insert_row_at_Ok. by eapply evolves_insert.
Qed.
Lemma respects_update_own k guard f :
  (forall r, guard r = true -> row_check (f r) = true -> E r (f r)) ->
  respects (evolves R E) (update_row k guard f).
Proof.
  intros Hf env d r' d' (r & Hr & Hg & _ & -> & Hc & _)%update_row_Ok k' r1 Hr1.
  rewrite rows_put. destruct (decide (k' = k)) as [->|Hne].
  - rewrite lookup_insert_eq. simplify_eq. eauto.
  - rewrite lookup_insert_ne by done. exists r1. split; [done|]. reflexivity.
Qed.
Lemma respects_upsert_own conflict mk f :
  (forall r, row_check (f r) = true -> E r (f r)) ->
  respects (evolves R E) (upsert_row conflict mk f).
Proof.
  intros Hf env d r' d' [(r & _ & Hu)|[_ Hi]]%upsert_row_Ok.
  - eapply respects_update_own, Hu. intros ? _ ?. auto.
  - by eapply respects_insert_own.
Qed.
Lemma respects_update_rows_own ks guard f :
  (forall r, guard r = true -> row_check (f r) = true -> E r (f r)) ->
  respects (evolves R E) (update_rows ks guard f).
Proof.
  intros Hf. induction ks as [|k ks IH]; simpl; [apply respects_ret, _|].
  apply respects_bind; [apply _ | by apply respects_try_row, respects_update_own; [apply _|] | intros o].
  apply respects_bind; [apply _ | done | intros rs; apply respects_ret, _].
Qed.
End Own.

(** Reads *)
Section Reads.
Context (Rel : Database -> Database -> Prop) `{!PreOrder Rel}.
Context {R : Type} `{Table R}.
Lemma respects_get k : respects Rel (get_row (R := R) k).
Proof. intros env d r d' (-> & _)%get_row_Ok. reflexivity. Qed.
Lemma respects_find p : respects Rel (find_row (R := R) p).
Proof. intros env d r d' (-> & _)%find_row_Ok. reflexivity. Qed.
Lemma respects_order_limit le n l : respects Rel (order_limit (R := R) le n l).
Proof. intros env d r d' (-> & _)%order_limit_Ok. reflexivity. Qed.
Lemma respects_select_unlocked lk p : respects Rel (select_unlocked (R := R) lk p).
Proof. intros env d r d' Heq. injection Heq as _ <-. reflexivity. Qed.
Lemma respects_page_of le n m l : respects Rel (page_of (R := R) le n m l).
Proof.
  unfold page_of. destruct (_ || _); [by apply respects_throw | by apply respects_ret].
Qed.
Lemma respects_joined {A} (o : option A) : respects Rel (joined o).
Proof. destruct o; [by apply respects_ret | by apply respects_throw]. Qed.
End Reads.

(** ** Automation

    [tx_queries] unfolds the statements of the store and [tx_handlers] the helper
    procedures; [tx] holds the lemmas about the ones that matter to a relation,
    which are tried first. *)
Create HintDb tx_queries discriminated.
Create HintDb tx_handlers discriminated.

Ltac tx_leaf :=
  lazymatch goal with
  | |- respects _ (mret _) => apply respects_ret; apply _
  | |- respects _ (throw _) => apply respects_throw; apply _
  | |- respects _ (read _) => apply respects_read; apply _
  | |- respects _ clock => apply respects_clock; apply _
  | |- respects _ time_now => apply respects_time_now; apply _
  | |- respects _ (from_result _) => apply respects_from_result; apply _
  | |- respects _ (guard_not _ _) => apply respects_guard_not; apply _
  | |- respects _ (joined _) => apply respects_joined; apply _
  | |- respects _ (get_row _) => apply respects_get; apply _
  | |- respects _ (find_row _) => apply respects_find; apply _
  | |- respects _ (order_limit _ _ _) => apply respects_order_limit; apply _
  | |- respects _ (select_unlocked _ _) => apply respects_select_unlocked; apply _
  | |- respects _ (page_of _ _ _ _) => apply respects_page_of; apply _
  | |- respects _ (update_row _ _ _) => apply respects_update_other; apply _
  | |- respects _ (update_rows _ _ _) => apply respects_update_rows_other; apply _
  | |- respects _ (upsert_row _ _ _) => apply respects_upsert_other; apply _
  | |- respects _ (insert_row _) =>
      first [apply respects_insert_other; apply _ | apply respects_insert_own; apply _]
  | |- respects _ (insert_row_or_nothing _) =>
      first [apply respects_insert_nothing_other; apply _ | apply respects_insert_nothing_own; apply _]
  | |- respects _ (insert_row_unless _ _) =>
      first [apply respects_insert_unless_other; apply _ | apply respects_insert_unless_own; apply _]
  | |- respects _ (insert_row_at _ _) =>
      first [apply respects_insert_at_other; apply _ | apply respects_insert_at_own; apply _]
  end.

Ltac tx_structure :=
  lazymatch goal with
  | |- respects _ (mbind _ _) => apply respects_bind; [apply _ | | intros ?]
  | |- respects _ (try_row _) => apply respects_try_row; [apply _ |]
  | |- respects _ (try_error _ _) => apply respects_try_error; [apply _ |]
  | |- respects _ (replace_error _ _ _) => apply respects_map_error
  | |- respects _ (or_no_rows _ _) => apply respects_or_no_rows
  | |- respects _ (map_error _ _) => apply respects_map_error
  | |- respects _ (for_each _ _) => apply respects_for_each; [apply _ | intros ?]
  | |- respects _ (fold_each _ _ _) => apply respects_fold_each; [apply _ | intros ? ?]
  | |- respects _ (match ?x with _ => _ end) => destruct x
  | |- respects _ (let '_ := ?x in _) => destruct x
  end.

Ltac tx_step :=
  first
    [ tx_structure
    | solve [eauto with tx nocore]
    | tx_leaf
    | progress (autounfold with tx_handlers)
    | progress (autounfold with tx_queries) ].

Ltac tx_auto := repeat (cbv zeta; tx_step).

(** ** Relations under an invariant *)

(** From a state where the invariant holds, [m] re-establishes it and moves along [Rel]. *)
Definition under {S} (I : S -> Prop) (Rel : S -> S -> Prop) (s s' : S) : Prop := I s -> I s' /\ Rel s s'.
#[export] Instance under_preorder {S} (I : S -> Prop) Rel `{!PreOrder Rel} : PreOrder (under I Rel).
Proof.
  split; unfold under.
  - intros s Hs. split; [done|]. reflexivity.
  - intros s1 s2 s3 H12 H23 H1. destruct (H12 H1) as [H2 R12]. destruct (H23 H2) as [H3 R23].
    split; [done|]. by transitivity s2.
Qed.

Lemma respects_under {S A} (I : S -> Prop) Rel (m : Tx S A) :
  respects (keeps I) m -> respects Rel m -> respects (under I Rel) m.
Proof. intros HI HR env s a s' Hm Hs. split; [by eapply HI | by eapply HR]. Qed.

(** An update of the row with a given key, whose key column is that key *)
Lemma respects_update_keyed {R} `{TableLaws R} `{!DbTable R} (E : R -> R -> Prop) `{!PreOrder E} k guard f :
  respects (keeps db_wf) (update_row k guard f) ->
  (forall r, row_key r = k -> guard r = true -> E r (f r)) ->
  respects (under db_wf (evolves R E)) (update_row k guard f).
Proof.
  intros Hwf HE env d r' d' Hu Hd. split; [by eapply Hwf|].
  apply update_row_Ok in Hu as (r & Hr & Hg & _ & -> & _). intros k' r1 Hr1.
  rewrite rows_put. destruct (decide (k' = k)) as [->|Hne].
  - rewrite lookup_insert_eq. simplify_eq. eexists. split; [done|]. apply HE; [|done].
    by eapply wf_key; [apply db_table|].
  - rewrite lookup_insert_ne by done. exists r1. split; [done|]. reflexivity.
Qed.

(** A bulk update of distinct keys, row by row *)
Lemma update_rows_evolves {R} `{TableLaws R} (E : R -> R -> Prop) `{!PreOrder E} ks guard f env d us d' :
  NoDup ks ->
  (forall k r, k ∈ ks -> rows R d !! k = Some r -> guard r = true -> E r (f r)) ->
  update_rows ks guard f env d = Ok us d' -> evolves R E d d'.
Proof.
  intros Hnd HE Hu k r Hr.
  apply update_rows_Ok in Hu as (Hrows & _ & _); [|done]. rewrite Hrows, Hr. simpl.
  eexists. split; [done|]. destruct (bool_decide (k ∈ ks)) eqn:Hk; [|reflexivity].
  apply bool_decide_eq_true in Hk. destruct (guard r) eqn:Hg; simpl; [|reflexivity]. eauto.
Qed.

(** The keys of selected rows are distinct. *)
Lemma NoDup_select_keys {R} `{TableLaws R} `{!DbTable R} (p : R -> bool) d :
  db_wf d -> NoDup (map row_key (select p d)).
Proof.
  intros Hwf. apply db_table in Hwf as Ht. unfold select.
  assert (Hkeys : map row_key (map_to_list (rows R d)).*2 = (map_to_list (rows R d)).*1).
  { change (map row_key) with (fmap (M := list) (row_key (R := R))). rewrite <- list_fmap_compose.
    apply list_fmap_ext. intros i [k r] Hi%list_elem_of_lookup_2%elem_of_map_to_list. simpl.
    by eapply wf_key. }
  assert (Hnd : NoDup (map row_key (map_to_list (rows R d)).*2))
    by (rewrite Hkeys; apply NoDup_fst_map_to_list).
  clear Hkeys. induction ((map_to_list (rows R d)).*2) as [|r l IH]; [constructor|].
  simpl in Hnd. apply NoDup_cons in Hnd as [Hn Hnd]. rewrite filter_cons.
  destruct (decide (p r = true)); [|auto]. simpl. constructor; [|auto].
  intros Hin. apply Hn. apply list_elem_of_fmap in Hin as (r' & Hk & Hr').
  apply list_elem_of_filter in Hr' as [_ Hr']. apply list_elem_of_fmap. eauto.
Qed.

(** A column on which two selected rows may not agree takes distinct values. *)
Lemma NoDup_select_by {R A} `{TableLaws R} `{!DbTable R} (f : R -> A) (p : R -> bool) d :
  db_wf d -> (forall r r', p r = true -> p r' = true -> f r = f r' -> row_clash r r' = true) ->
  NoDup (map f (select p d)).
Proof.
  intros Hwf Hf. apply db_table in Hwf as Ht. unfold select.
  pose proof (NoDup_fst_map_to_list (rows R d)) as Hnd.
  assert (Hl : forall k r, (k, r) ∈ map_to_list (rows R d) -> rows R d !! k = Some r)
    by (intros k r; by rewrite elem_of_map_to_list).
  induction (map_to_list (rows R d)) as [|[k r] l IH]; [constructor|].
  simpl in *. apply NoDup_cons in Hnd as [Hn Hnd].
  assert (IH' := IH Hnd (fun k' r' H' => Hl k' r' (list_elem_of_further _ _ _ H'))).
  rewrite filter_cons. destruct (decide (p r = true)) as [Hp|]; [|done]. simpl. constructor; [|done].
  intros (r' & Heq & [Hp' Hr']%list_elem_of_filter)%list_elem_of_fmap.
  apply list_elem_of_fmap in Hr' as ([k' r2] & -> & Hin). simpl in *.
  assert (Hk : k <> k').
  { intros ->. apply Hn. apply list_elem_of_fmap. by exists (k', r2). }
  assert (Hc := Hf r r2 Hp Hp' Heq).
  rewrite (wf_clash _ _ Ht k k') in Hc; [done| | |done]; apply Hl; [left | by right].
Qed.

Lemma select_none {R} `{Table R} (p : R -> bool) d :
  (forall k r, rows R d !! k = Some r -> p r = false) -> select p d = [].
Proof.
  intros Hno. apply elem_of_nil_inv. intros r [Hp (k & Hr)]%elem_of_select. by rewrite (Hno k r Hr) in Hp.
Qed.

(** A selection of one row *)
Lemma select_single {R} `{TableLaws R} `{!DbTable R} (p : R -> bool) d k r :
  db_wf d -> rows R d !! k = Some r -> p r = true ->
  (forall k' r', rows R d !! k' = Some r' -> p r' = true -> k' = k) -> select p d = [r].
Proof.
  intros Hwf Hk Hp Hall. pose proof (NoDup_select_keys p d Hwf) as Hnd. apply db_table in Hwf as Ht.
  assert (r ∈ select p d) as Hin by (apply elem_of_select; eauto).
  assert (forall x, x ∈ select p d -> row_key x = k) as Hsame.
  { intros x [Hx (k' & Hk')]%elem_of_select. rewrite (wf_key _ _ Ht _ _ Hk'). by eapply Hall. }
  destruct (select p d) as [|a [|b l]].
  - by apply not_elem_of_nil in Hin.
  - by apply list_elem_of_singleton in Hin as <-.
  - exfalso. simpl in Hnd. apply NoDup_cons in Hnd as [Hn _]. apply Hn.
    rewrite (Hsame a), <- (Hsame b); [left | by right; left | by left].
Qed.

Lemma NoDup_keys_sublist {R} `{Table R} (l l' : list R) :
  l `sublist_of` l' -> NoDup (map row_key l') -> NoDup (map row_key l).
Proof.
  intros Hs Hnd. eapply sublist_NoDup; [exact Hnd|].
  change (map (row_key (R := R))) with (fmap (M := list) (row_key (R := R))).
  clear Hnd. induction Hs; simpl; by constructor.
Qed.

Lemma NoDup_keys_perm {R} `{Table R} (l l' : list R) :
  l ≡ₚ l' -> NoDup (map row_key l') -> NoDup (map row_key l).
Proof. intros Hp. by rewrite Hp. Qed.

(** Rows selected for an update: their keys are distinct, and each key leads back
    to a row that satisfies the selection. *)
Lemma selected_keys {R} `{TableLaws R} `{!DbTable R} (p : R -> bool) (l rs : list R) le n env d :
  db_wf d -> l `sublist_of` select p d ->
  order_limit le n l env d = Ok rs d ->
  NoDup (map row_key rs) /\
  (forall k r, k ∈ map row_key rs -> rows R d !! k = Some r -> p r = true /\ r ∈ l).
Proof.
  intros Hwf Hsub (_ & _ & ->)%order_limit_Ok. split.
  - eapply NoDup_keys_sublist; [apply sublist_take|]. eapply NoDup_keys_perm; [apply merge_sort_Permutation|].
    eapply NoDup_keys_sublist; [done|]. by apply NoDup_select_keys.
  - intros k r (r0 & -> & Hr0)%list_elem_of_fmap Hk. apply elem_of_take_sorted in Hr0.
    assert (Hs : r0 ∈ select p d) by (by eapply elem_of_sublist).
    apply elem_of_select in Hs as [Hp [k0 Hk0]].
    assert (row_key r0 = k0) as Hkey by (eapply wf_key; [by apply db_table | done]).
    rewrite Hkey, Hk0 in Hk. by injection Hk as <-.
Qed.

Lemma select_unlocked_Ok {R} `{Table R} lk (p : R -> bool) env d l d' :
  select_unlocked lk p env d = Ok l d' -> d' = d /\ l `sublist_of` select p d.
Proof.
  intros Heq. injection Heq as <- <-. split; [done|]. apply sublist_filter.
Qed.

#[export] Hint Extern 1 (respects (keeps db_wf) (update_row _ _ _)) =>
  (apply update_row_wf; intros; lazy; reflexivity) : tx.
#[export] Hint Extern 1 (respects (keeps db_wf) (update_rows _ _ _)) =>
  (apply update_rows_wf; intros; lazy; reflexivity) : tx.
#[export] Hint Extern 1 (respects (keeps db_wf) (insert_row _)) =>
  (apply insert_row_wf; intros; lazy; reflexivity) : tx.
#[export] Hint Extern 1 (respects (keeps db_wf) (insert_row_or_nothing _)) =>
  (apply insert_row_or_nothing_wf; intros; lazy; reflexivity) : tx.
#[export] Hint Extern 1 (respects (keeps db_wf) (insert_row_unless _ _)) =>
  (apply insert_row_unless_wf; intros; lazy; reflexivity) : tx.
#[export] Hint Extern 1 (respects (keeps db_wf) (upsert_row _ _ _)) =>
  (apply upsert_row_wf; intros; lazy; reflexivity) : tx.
#[export] Hint Extern 1 (respects (keeps db_wf) (insert_row_at _ _)) =>
  (apply insert_row_at_wf; reflexivity) : tx.
#[export] Hint Extern 1 (respects (derived ?R _) (update_row (R := ?R) _ _ _)) =>
  (apply respects_update_derived; intros; lazy; reflexivity) : tx.
#[export] Hint Extern 1 (respects (derived ?R _) (update_rows (R := ?R) _ _ _)) =>
  (apply respects_update_rows_derived; intros; lazy; reflexivity) : tx.

(** ** Statements and transactions that succeed

    What it takes for a statement to succeed; what precedes says what it means that one
    has. *)

Section Succeeds.
Context {R : Type} `{TableLaws R}.

(** An update that keeps the unique columns and satisfies the CHECK constraints *)
Lemma update_row_succeeds k (guard : R -> bool) f env d r :
  tbl_wf R d -> rows R d !! k = Some r -> guard r = true -> row_check (f r) = true ->
  (forall r', row_clash r r' = false -> row_clash (f r) r' = false) ->
  update_row k guard f env d = Ok (f r) (put_row k (f r) d).
Proof.
  intros Hwf Hr Hg Hc Hx. unfold update_row. rewrite Hr, Hg. unfold write_row. rewrite Hc. simpl.
  assert (conflicts k (f r) d = false) as ->; [|done].
  apply conflicts_false. intros k' r' Hne Hr'. apply Hx. by apply (wf_clash R d Hwf k k').
Qed.

(** A guard that lets pass *)
Lemma guard_passes {S A} c e (k : unit -> Tx S A) env s : c = false -> (guard_not c e ≫= k) env s = k tt env s.
Proof. by intros ->. Qed.

(** An insertion into a table without unique columns but its key, which the sequence
    has not reached before *)
Lemma insert_row_succeeds (mk : Z -> R) env d :
  rows R d !! next_key (R := R) d = None -> row_check (mk (next_key (R := R) d)) = true ->
  (forall r r' : R, row_clash r r' = false) ->
  exists d', insert_row mk env d = Ok (mk (next_key (R := R) d)) d' /\ exists t, d' = tbl_set t d.
Proof.
  intros Hn Hc Hx. unfold insert_row, insert_row_at. rewrite Hc, Hn. simpl.
  assert (conflicts (next_key (R := R) d) (mk (next_key (R := R) d)) d = false) as ->
    by (apply conflicts_false; intros; apply Hx).
  eauto.
Qed.
End Succeeds.

(** ** Texts that the store accepts *)

Lemma trim_right_head l a l' : trim_right_rev l = a :: l' -> is_ascii_space a = false.
Proof.
  revert a l'. induction l as [l IH] using (induction_ltof1 _ (@length ascii)); unfold ltof in IH.
  destruct l as [|x l1]; [done|]. cbn [trim_right_rev]. intros a l'.
  destruct (is_ascii_space x) eqn:Ex; [apply IH; simpl; lia|].
  destruct l1 as [|b l2]; [by intros [= <- _]|].
  destruct (is_space2 _ _); [apply IH; simpl; lia|].
  destruct l2 as [|c l3]; [by intros [= <- _]|].
  destruct (is_space3 _ _ _); [apply IH; simpl; lia | by intros [= <- _]].
Qed.

(** What [TrimSpace] leaves is empty or not blank, so the store accepts it. *)
Lemma TrimSpace_nonblank s : str_eqb (TrimSpace s) "" = false -> nonblank (TrimSpace s) = true.
Proof.
  unfold nonblank, TrimSpace. rewrite String.list_ascii_of_string_of_list_ascii. intros Hne. apply existsb_exists.
  destruct (trim_right_rev _) as [|a l] eqn:E; [done|]. exists a. split; [apply in_rev; rewrite rev_involutive; by left|].
  apply trim_right_head in E. unfold is_ascii_space in E. destruct (Z.eqb_spec (ascii_Z a) 32) as [Ha|]; [|done].
  by rewrite Ha in E.
Qed.

Lemma optional_text_nonblank s : opt_check nonblank (optionalText s) = true.
Proof.
  unfold optionalText. cbv zeta. destruct (str_eqb (TrimSpace s) "") eqn:E; [done|]. by apply TrimSpace_nonblank.
Qed.

(** ** Transactions *)

(** The store answers: nothing keeps a transaction from beginning and committing. *)
Definition answering (env : Env) : Prop := env_begin env = Connected /\ env_commit env = CommitOk.

Lemma transaction_succeeds {A} (m : Tx Database A) env d a d' :
  answering env -> m env d = Ok a d' -> WithinTransaction m env d = (inr a, d').
Proof. intros [Hb Hc] Hm. unfold WithinTransaction. by rewrite Hb, Hm, Hc. Qed.


(** ** Several rows, and new ones *)

Section Rows.
Context {R : Type} `{TableLaws R}.

Lemma update_rows_succeed ks guard f env d :
  tbl_wf R d -> NoDup ks ->
  (forall r, row_key (f r) = row_key r) -> (forall r r', row_clash r r' = false -> row_clash (f r) r' = false) ->
  (forall k, k ∈ ks -> exists r, rows R d !! k = Some r /\ guard r = true /\ row_check (f r) = true) ->
  exists rs d', update_rows ks guard f env d = Ok rs d' /\ length rs = length ks.
Proof.
  intros Hwf Hnd Hkey Hx. revert d Hwf. induction Hnd as [|k ks Hk Hnd IH]; intros d Hwf Hall; [by exists [], d|].
  destruct (Hall k) as (r & Hr & Hg & Hc); [left|].
  pose proof (update_row_succeeds k guard f env d r Hwf Hr Hg Hc (Hx r)) as Hu.
  destruct (IH (put_row k (f r) d)) as (rs & d' & Hrs & Hlen).
  - apply update_row_Ok in Hu as (r' & Hr' & _ & _ & _ & Hck & Hcf). rewrite Hr in Hr'. injection Hr' as <-.
    eapply tbl_wf_insert; [exact Hwf | apply rows_put | | exact Hck | exact Hcf].
    rewrite Hkey. by eapply wf_key.
  - intros k' Hk'. destruct (Hall k') as (r' & Hr' & Hrest); [by right|]. exists r'. split; [|done].
    rewrite rows_put, lookup_insert_ne; [done|]. by intros ->.
  - exists (f r :: rs), d'. split; [|simpl; by rewrite Hlen]. simpl.
    erewrite bind_Ok by (unfold try_row; rewrite Hu; reflexivity). by erewrite bind_Ok by exact Hrs.
Qed.

(** The sequence of the table is ahead of its keys. *)
Definition ahead (d : Database) : Prop := forall k, t_seq (tbl_get d) < k -> rows R d !! k = None.

Lemma insert_fresh_succeeds (mk : Z -> R) env d :
  ahead d -> row_check (mk (next_key d)) = true ->
  (forall k r, rows R d !! k = Some r -> row_clash (mk (next_key d)) r = false) ->
  exists d', insert_row mk env d = Ok (mk (next_key d)) d' /\ rows R d' = <[next_key d := mk (next_key d)]> (rows R d) /\
    ahead d' /\ exists t, d' = tbl_set t d.
Proof.
  intros Ha Hc Hx. unfold insert_row, insert_row_at. rewrite Hc, (Ha (next_key d)) by (unfold next_key; lia). simpl.
  assert (conflicts (next_key (R := R) d) (mk (next_key (R := R) d)) d = false) as ->
    by (apply conflicts_false; intros k r _ Hr; by eapply Hx).
  eexists. split; [reflexivity|]. split; [by rewrite rows_set|]. split; [|by eexists].
  intros k Hk. rewrite rows_set, tbl_get_set in *. simpl in *. rewrite lookup_insert_ne by (unfold next_key in *; lia).
  apply Ha. unfold next_key in *. lia.
Qed.

Lemma ahead_other {V} `{Table V} `{!Frame R V} t d : ahead d -> ahead (tbl_set (R := V) t d).
Proof. intros Ha k. rewrite frame, rows_frame. apply Ha. Qed.
End Rows.
Arguments ahead R {_} d.
