(* ===== verification/QOrders.v ===== *)
(** * Order queries

    [src/sqlc/queries/orders.sql] and the order statements of [delivery.sql], as
    generated in [src/internal/postgres/generated/orders.sql.go] and
    [delivery.sql.go]: one definition per statement the stores use, with the
    statement's WHERE clause as the guard and its SET clause as the update. *)

From S2P Require Import Prelude Domain Schema Tx Tables.

(** [JOIN LATERAL (SELECT * FROM order_items WHERE order_id = orders.id ORDER BY id LIMIT 1)] *)
Definition first_item (order_id : Z) (d : Database) : option OrderItemRow :=
  head (select_sorted (fun it => oi_order_id it =? order_id) (fun a b => oi_id a <=? oi_id b) d).

Definition LockUserForOrderCreation (telegram_user_id : Z) : Tx Database User :=
  find_row (fun u => u_telegram_user_id u =? telegram_user_id).

Definition GetProductForOrderCreation (product_id : Z) : Tx Database (ProductRow * CategoryRow) :=
  p ← get_row product_id;
  c ← get_row (p_category_id p);
  mret (p, c).

(** No active order-inventory mapping refers to the item. *)
Definition unmapped (d : Database) (item_id : Z) : bool :=
  forallb (fun m => negb ((m_inventory_item_id m =? item_id) && bool_decide (m_status m = MappingActive)))
    (select (fun _ => true) d).

(** The WHERE clause shared by [CountClaimableInventoryForOrder],
    [ClaimAvailableInventory] and [ClaimExactAvailableInventory] *)
Definition claimable (d : Database) (product_id : Z) (i : InventoryRow) : bool :=
  (i_product_id i =? product_id) && bool_decide (i_status i = InventoryStatusAvailable)
  && str_eqb (i_format i) aes_format && unmapped d (i_id i).

Definition CountClaimableInventoryForOrder (product_id : Z) : Tx Database Z :=
  read (fun d => count_rows (claimable d product_id) d).

Definition CreatePendingOrderWithBank (user_id subtotal_vnd total_vnd : Z)
    (payment_reference idempotency_key : string) (expires_at : Time) (bank : Z * BankSnapshot)
    (payment_environment : string) : Tx Database OrderRow :=
  now ← clock;
  insert_row_or_nothing (fun id =>
    mkOrderRow id user_id OrderStatusPendingPayment "VND" subtotal_vnd total_vnd payment_reference
      idempotency_key expires_at None None None None 1 now (Some bank) payment_environment).

Definition FindOrderByUserIdempotency (user_id : Z) (idempotency_key : string) : Tx Database OrderRow :=
  find_row (fun o => (o_user_id o =? user_id) && str_eqb (o_idempotency_key o) idempotency_key).

Definition LockOrderByPaymentReference (payment_reference : string) : Tx Database (OrderRow * OrderItemRow) :=
  o ← find_row (fun o => str_eqb (o_payment_reference o) payment_reference);
  item ← read (first_item (o_id o));
  item ← joined item;
  mret (o, item).

(** [JOIN users ... WHERE users.telegram_user_id = $1] *)
Definition owned_by (d : Database) (telegram_user_id : Z) (o : OrderRow) : bool :=
  match rows User d !! o_user_id o with
  | Some u => u_telegram_user_id u =? telegram_user_id
  | None => false
  end.

Definition LockOrderDetailOwnedByTelegramUser (order_id telegram_user_id : Z) : Tx Database (OrderRow * OrderItemRow) :=
  o ← get_row order_id;
  owned ← read (fun d => owned_by d telegram_user_id o);
  guard_not (negb owned) ErrNoRows;;
  item ← read (first_item (o_id o));
  item ← joined item;
  mret (o, item).

(** [LEFT JOIN outbox_events ... event_type = 'order.delivery_requested'] *)
Definition delivery_job_of (order_id : Z) (d : Database) : option OutboxRow :=
  head (select (fun j => str_eqb (j_event_type j) delivery_event_type
                         && bool_decide (j_order_id j = Some order_id)) d).

Definition GetOrderDetailOwnedByTelegramUser (order_id telegram_user_id : Z)
    : Tx Database (OrderRow * OrderItemRow * option DeliveryJobStatus) :=
  oi ← LockOrderDetailOwnedByTelegramUser order_id telegram_user_id;
  job ← read (delivery_job_of order_id);
  mret (oi, j_status <$> job).

Definition has_item (d : Database) (o : OrderRow) : bool := is_some (first_item (o_id o) d).

Definition CountOrdersOwnedByTelegramUser (telegram_user_id : Z) : Tx Database Z :=
  read (fun d => count_rows (owned_by d telegram_user_id) d).

Definition newest_first (a b : OrderRow) : bool :=
  lex_le (o_created_at b, o_id b) (o_created_at a, o_id a).

Definition ListOrdersOwnedByTelegramUser (telegram_user_id page_offset page_limit : Z)
    : Tx Database (list (OrderRow * option OrderItemRow * option DeliveryJobStatus)) :=
  mine ← read (fun d => select (fun o => owned_by d telegram_user_id o && has_item d o) d);
  page ← page_of newest_first page_limit page_offset mine;
  read (fun d => map (fun o => (o, first_item (o_id o) d, j_status <$> delivery_job_of (o_id o) d)) page).

Definition CancelPendingOrderOwnedGuarded (id user_id : Z) (now : Time) (expected_version : Z) : Tx Database OrderRow :=
  cancelled_at ← clock;
  update_row id
    (fun o => (o_user_id o =? user_id) && bool_decide (o_status o = OrderStatusPendingPayment)
              && (now <? o_expires_at o) && (o_version o =? expected_version))
    (fun o => o <| o_status := OrderStatusCancelled |> <| o_cancelled_at := Some cancelled_at |>
                <| o_version := o_version o + 1 |>).

Definition overdue (now : Time) (o : OrderRow) : bool :=
  bool_decide (o_status o = OrderStatusPendingPayment) && (o_expires_at o <=? now).

Definition by_expiry (a b : OrderRow) : bool :=
  lex_le (o_expires_at a, o_id a) (o_expires_at b, o_id b).

Definition expire_order (o : OrderRow) : OrderRow :=
  o <| o_status := OrderStatusExpired |> <| o_version := o_version o + 1 |>.

Definition ClaimOverduePendingOrders (now : Time) (batch_size : Z) : Tx Database (list OrderRow) :=
  candidates ← select_unlocked LockOrders (overdue now);
  selected ← order_limit by_expiry batch_size candidates;
  update_rows (map o_id selected) (overdue now) expire_order.

Definition InsertOrderItem (order_id product_id : Z) (product_name : string)
    (unit_price_vnd quantity line_total_vnd : Z) : Tx Database OrderItemRow :=
  insert_row (fun id => mkOrderItemRow id order_id product_id product_name unit_price_vnd quantity line_total_vnd).

Definition LockOrderForUpdate (id : Z) : Tx Database OrderRow := get_row id.

Definition UpdateOrderStatusGuarded (new_status : OrderStatus) (id : Z) (expected_status : OrderStatus)
    (expected_version : Z) : Tx Database OrderRow :=
  update_row id
    (fun o => bool_decide (o_status o = expected_status) && (o_version o =? expected_version))
    (fun o => o <| o_status := new_status |> <| o_version := o_version o + 1 |>).

Definition MarkOrderPaidGuarded (paid_at : Time) (id expected_version : Z) : Tx Database OrderRow :=
  update_row id
    (fun o => bool_decide (o_status o = OrderStatusPendingPayment) && (o_version o =? expected_version))
    (fun o => o <| o_status := OrderStatusPaid |> <| o_paid_at := Some paid_at |>
                <| o_version := o_version o + 1 |>).

Definition InsertOrderStatusHistory (order_id : Z) (from_status : option OrderStatus) (to_status : OrderStatus)
    (reason_code : option string) (actor_type : string) (actor_id : option Z) (request_id : option string)
    : Tx Database OrderHistoryRow :=
  insert_row (fun id => mkOrderHistoryRow id order_id from_status to_status reason_code actor_type actor_id request_id).

(** ** delivery.sql *)

Definition LockOrderForDeliveryHandoff (order_id : Z) : Tx Database (OrderRow * User * OrderItemRow) :=
  o ← get_row order_id;
  u ← get_row (o_user_id o);
  item ← find_row (fun it => oi_order_id it =? order_id);
  mret (o, u, item).

Definition MarkOrderDeliveringGuarded (started_at : Time) (order_id expected_version : Z) : Tx Database OrderRow :=
  update_row order_id
    (fun o => bool_decide (o_status o = OrderStatusReserving) && (o_version o =? expected_version))
    (fun o => o <| o_status := OrderStatusDelivering |> <| o_delivery_started_at := Some started_at |>
                <| o_version := o_version o + 1 |>).

Definition MarkOrderDeliveredGuarded (delivered_at : Time) (order_id expected_version : Z) : Tx Database OrderRow :=
  update_row order_id
    (fun o => bool_decide (o_status o = OrderStatusDelivering) && (o_version o =? expected_version))
    (fun o => o <| o_status := OrderStatusDelivered |> <| o_delivered_at := Some delivered_at |>
                <| o_version := o_version o + 1 |>).

Definition MarkOrderDeliveryFailedGuarded (order_id : Z) : Tx Database OrderRow :=
  update_row order_id (fun o => bool_decide (o_status o = OrderStatusDelivering))
    (fun o => o <| o_status := OrderStatusDeliveryFailed |> <| o_version := o_version o + 1 |>).

#[export] Hint Unfold LockUserForOrderCreation GetProductForOrderCreation
  CountClaimableInventoryForOrder FindOrderByUserIdempotency LockOrderByPaymentReference
  LockOrderDetailOwnedByTelegramUser GetOrderDetailOwnedByTelegramUser
  CreatePendingOrderWithBank CancelPendingOrderOwnedGuarded
  CountOrdersOwnedByTelegramUser ListOrdersOwnedByTelegramUser ClaimOverduePendingOrders
  InsertOrderItem LockOrderForUpdate UpdateOrderStatusGuarded MarkOrderPaidGuarded
  InsertOrderStatusHistory LockOrderForDeliveryHandoff MarkOrderDeliveringGuarded
  MarkOrderDeliveredGuarded MarkOrderDeliveryFailedGuarded : tx_queries.
