(* ===== verification/QInventory.v ===== *)
(** * Inventory queries

    [src/sqlc/queries/inventory.sql] and the inventory statements of
    [delivery.sql] ([generated/inventory.sql.go], [generated/delivery.sql.go]). *)

From S2P Require Import Prelude Domain Schema Tx Tables QOrders.

Definition by_creation (a b : InventoryRow) : bool :=
  lex_le (i_created_at a, i_id a) (i_created_at b, i_id b).
Definition by_item_id (a b : InventoryRow) : bool := i_id a <=? i_id b.

Definition reserve_item (order_id : Z) (reserved_until : Time) (i : InventoryRow) : InventoryRow :=
  i <| i_status := InventoryStatusReserved |> <| i_reserved_order_id := Some order_id |>
    <| i_reserved_until := Some reserved_until |> <| i_version := i_version i + 1 |>.

(** The items a claim selects: available, encrypted, unmapped, oldest first. *)
Definition claim_selection (product_id quantity : Z) : Tx Database (list InventoryRow) :=
  d ← read id;
  candidates ← select_unlocked LockInventory (claimable d product_id);
  order_limit by_creation quantity candidates.

Definition ClaimAvailableInventory (order_id : Z) (reserved_until : Time) (product_id quantity : Z)
    : Tx Database (list Z) :=
  selected_items ← claim_selection product_id quantity;
  updated ← update_rows (map i_id selected_items) (fun _ => true) (reserve_item order_id reserved_until);
  mret (map i_id updated).

Definition ClaimExactAvailableInventory (order_id : Z) (reserved_until : Time) (product_id quantity : Z)
    : Tx Database (list Z) :=
  selected_items ← claim_selection product_id quantity;
  let exact_set := if Z.of_nat (length selected_items) =? quantity then selected_items else [] in
  updated ← update_rows (map i_id exact_set) (fun _ => true) (reserve_item order_id reserved_until);
  mret (map i_id updated).

Definition LockOrderItemForInventory (order_item_id order_id product_id : Z) : Tx Database OrderItemRow :=
  find_row (fun it => (oi_id it =? order_item_id) && (oi_order_id it =? order_id)
                      && (oi_product_id it =? product_id)).

Definition InsertOrderInventoryMapping (order_id order_item_id inventory_item_id : Z) : Tx Database MappingRow :=
  insert_row (fun rowid =>
    mkMappingRow rowid order_id order_item_id inventory_item_id MappingActive None None).

Definition reserved_for (order_id : Z) (i : InventoryRow) : bool :=
  bool_decide (i_reserved_order_id i = Some order_id) && bool_decide (i_status i = InventoryStatusReserved).

Definition ListReservedInventoryIDsByOrder (order_id : Z) : Tx Database (list Z) :=
  read (fun d => map i_id (select_sorted (reserved_for order_id) by_item_id d)).

Definition CountExpiredReservationsByOrder (order_id : Z) (expired_at : Time) : Tx Database Z :=
  read (count_rows (fun i => reserved_for order_id i
                             && match i_reserved_until i with Some t => t <=? expired_at | None => false end)).

Definition release_item (i : InventoryRow) : InventoryRow :=
  i <| i_status := InventoryStatusAvailable |> <| i_reserved_order_id := None |>
    <| i_reserved_until := None |> <| i_version := i_version i + 1 |>.

Definition ReleaseReservedInventoryByOrder (order_id : Z) : Tx Database (list Z) :=
  ids ← read (fun d => map i_id (select_sorted (reserved_for order_id) by_item_id d));
  updated ← update_rows ids (reserved_for order_id) release_item;
  mret (map i_id updated).

Definition MarkOrderInventoryMappingsReleased (release_reason : option string) (order_id : Z)
    (inventory_item_ids : list Z) : Tx Database Z :=
  released_at ← clock;
  let affected m := (m_order_id m =? order_id) && bool_decide (m_inventory_item_id m ∈ inventory_item_ids)
                    && bool_decide (m_status m = MappingActive) in
  keys ← read (fun d => map m_rowid (select affected d));
  updated ← update_rows keys affected
    (fun m => m <| m_status := MappingReleased |> <| m_released_at := Some released_at |>
                <| m_release_reason := release_reason |>);
  mret (Z.of_nat (length updated)).

(** The JOIN of active mappings with the items reserved for the same order *)
Definition holds_reserved (d : Database) (order_id : Z) (m : MappingRow) : bool :=
  (m_order_id m =? order_id) && bool_decide (m_status m = MappingActive)
  && match rows InventoryRow d !! m_inventory_item_id m with
     | Some i => reserved_for order_id i
     | None => false
     end.

Definition held_items (order_id : Z) (d : Database) : list Z :=
  map m_inventory_item_id (select (holds_reserved d order_id) d).

Definition CountExactReservedInventoryForOrder (order_id : Z) : Tx Database Z :=
  read (fun d => Z.of_nat (length (held_items order_id d))).

Definition ListEncryptedInventoryForDelivery (order_id : Z) : Tx Database (list InventoryRow) :=
  read (fun d =>
    omap (fun m => rows InventoryRow d !! m_inventory_item_id m)
      (select_sorted (holds_reserved d order_id)
         (fun a b => lex_le (m_order_item_id a, m_inventory_item_id a)
                            (m_order_item_id b, m_inventory_item_id b)) d)).

Definition sell_item (order_id : Z) (i : InventoryRow) : InventoryRow :=
  i <| i_status := InventoryStatusSold |> <| i_reserved_order_id := None |>
    <| i_reserved_until := None |> <| i_sold_order_id := Some order_id |>
    <| i_version := i_version i + 1 |>.

Definition MarkExactReservedInventorySold (order_id expected_count : Z) : Tx Database (list Z) :=
  eligible ← read (fun d => merge_sort Z.le (held_items order_id d));
  let exact_set := if Z.of_nat (length eligible) =? expected_count then eligible else [] in
  updated ← update_rows exact_set (fun _ => true) (sell_item order_id);
  mret (map i_id updated).

(** The audit row of a recovery that needs an operator, once per order and status *)
Definition recovery_audit (order_id : Z) (order_status : OrderStatus) (request_id : option string) (id : Z) : AuditRow :=
  mkAuditRow id "system" None "inventory.reservation_recovery_required" "order" (Some order_id) None
    (Some (JObj [("order_id", JInt order_id); ("order_status", JStr (OrderStatus_string order_status))]))
    request_id None.

Definition already_audited (order_id : Z) (order_status : OrderStatus) (a : AuditRow) : bool :=
  str_eqb (au_action a) "inventory.reservation_recovery_required"
  && str_eqb (au_resource_type a) "order" && bool_decide (au_resource_id a = Some order_id)
  && match au_after a ≫= json_field "order_status" with
     | Some (JStr s) => str_eqb s (OrderStatus_string order_status)
     | _ => false
     end.

Definition InsertInventoryRecoveryAuditOnce (order_id : Z) (order_status : OrderStatus)
    (request_id : option string) : Tx Database AuditRow :=
  audited ← read (fun d => existsb (already_audited order_id order_status) (select (fun _ => true) d));
  guard_not audited ErrNoRows;;
  insert_row (recovery_audit order_id order_status request_id).

(** ** The administrator's inventory *)

Definition CountAvailableInventoryByProduct (product_id : Z) : Tx Database Z :=
  read (count_rows (fun i => (i_product_id i =? product_id) && bool_decide (i_status i = InventoryStatusAvailable))).

Definition stocked (p : ProductRow) : bool := str_eqb (p_delivery_type p) "inventory".
Definition by_product_creation (a b : ProductRow) : bool := lex_le (p_created_at a, p_id a) (p_created_at b, p_id b).

Definition CountInventoryOverviewProducts : Tx Database Z := read (count_rows stocked).

(** A product and its items per status: [LEFT JOIN ... GROUP BY products.id] with
    [count(...) FILTER (WHERE ...)] *)
Record InventoryOverviewRow := mkInventoryOverviewRow { ov_product_id : Z; ov_product_name : string; ov_available : Z;
    ov_reserved : Z; ov_sold : Z; ov_disabled : Z; ov_total : Z }.

Definition items_of (d : Database) (product_id : Z) (p : InventoryRow -> bool) : Z :=
  count_rows (fun i => (i_product_id i =? product_id) && p i) d.
Definition overview_row (d : Database) (p : ProductRow) : InventoryOverviewRow :=
  let count status := items_of d (p_id p) (fun i => bool_decide (i_status i = status)) in
  mkInventoryOverviewRow (p_id p) (p_name p) (count InventoryStatusAvailable) (count InventoryStatusReserved)
    (count InventoryStatusSold) (count InventoryStatusDisabled) (items_of d (p_id p) (fun _ => true)).

Definition ListInventoryOverviewPage (page_offset page_limit : Z) : Tx Database (list InventoryOverviewRow) :=
  d ← read id;
  l ← page_of by_product_creation page_limit page_offset (select stocked d);
  mret (map (overview_row d) l).

Definition CountRedactedInventoryByProduct (product_id : Z) : Tx Database Z :=
  read (count_rows (fun i => i_product_id i =? product_id)).

(** The rows of a product's items, with the product's name *)
Definition ListRedactedInventoryPage (product_id page_offset page_limit : Z) : Tx Database (list (InventoryRow * string)) :=
  d ← read id;
  l ← page_of by_creation page_limit page_offset
        (select (fun i => (i_product_id i =? product_id) && is_some (rows ProductRow d !! product_id)) d);
  mret (map (fun i => (i, match rows ProductRow d !! i_product_id i with Some p => p_name p | None => ""%string end)) l).

(** The constraint is on (product_id, payload_fingerprint). *)
Definition InsertEncryptedInventoryItem (product_id : Z) (payload : Bytes) (key_id : string) (nonce : Bytes)
    (key_version : Z) (fingerprint : Bytes) (imported_by : option Z) : Tx Database Z :=
  now ← clock;
  row ← insert_row_unless (fun i => (i_product_id i =? product_id) && bool_decide (i_fingerprint i = fingerprint))
    (fun id => mkInventoryRow id product_id payload key_id (Some nonce) aes_format key_version fingerprint imported_by
                 InventoryStatusAvailable None None None None 1 now);
  mret (i_id row).

Definition GetEncryptedInventoryItem (id : Z) : Tx Database InventoryRow := get_row id.
Definition LockRedactedInventoryItem (id : Z) : Tx Database InventoryRow := get_row id.

Definition DisableAvailableInventoryItem (disabled_reason : option string) (id expected_version : Z) : Tx Database InventoryRow :=
  update_row id
    (fun i => bool_decide (i_status i = InventoryStatusAvailable) && (i_version i =? expected_version))
    (fun i => i <| i_status := InventoryStatusDisabled |> <| i_disabled_reason := disabled_reason |>
                <| i_version := i_version i + 1 |>).
Definition EnableDisabledInventoryItem (id expected_version : Z) : Tx Database InventoryRow :=
  update_row id
    (fun i => bool_decide (i_status i = InventoryStatusDisabled) && (i_version i =? expected_version))
    (fun i => i <| i_status := InventoryStatusAvailable |> <| i_disabled_reason := None |>
                <| i_version := i_version i + 1 |>).

#[export] Hint Unfold CountAvailableInventoryByProduct CountInventoryOverviewProducts ListInventoryOverviewPage
  CountRedactedInventoryByProduct ListRedactedInventoryPage InsertEncryptedInventoryItem GetEncryptedInventoryItem
  LockRedactedInventoryItem DisableAvailableInventoryItem EnableDisabledInventoryItem claim_selection ClaimAvailableInventory ClaimExactAvailableInventory
  LockOrderItemForInventory InsertOrderInventoryMapping ListReservedInventoryIDsByOrder
  CountExpiredReservationsByOrder ReleaseReservedInventoryByOrder MarkOrderInventoryMappingsReleased
  CountExactReservedInventoryForOrder ListEncryptedInventoryForDelivery
  MarkExactReservedInventorySold InsertInventoryRecoveryAuditOnce : tx_queries.
