(* ===== verification/QPayments.v ===== *)
(** * Payment queries

    [src/sqlc/queries/payments.sql] and the payment statements of
    [payment_providers.sql] ([generated/payments.sql.go],
    [generated/payment_providers.sql.go]). *)

From S2P Require Import Prelude Domain Schema Tx Tables QOrders.

(** What an ingested event carries into the table *)
Record InsertPaymentEventParams := mkInsertPaymentEventParams {
  ipe_provider : string; ipe_external_event_id : string; ipe_transaction_id : option string;
  ipe_event_type : string; ipe_payload_hash : Bytes; ipe_payload : option StoredPaymentMetadata;
  ipe_signature_verified : bool; ipe_environment : string; ipe_source : string;
  ipe_direction : string; ipe_content : string; ipe_destination : option string;
  ipe_provider_account : option string; ipe_fingerprint : Bytes; ipe_max_attempts : Z }.

Definition InsertPaymentEvent (p : InsertPaymentEventParams) : Tx Database PaymentEventRow :=
  now ← clock;
  insert_row_or_nothing (fun id =>
    mkPaymentEventRow id (ipe_provider p) (ipe_external_event_id p) (ipe_transaction_id p)
      (ipe_event_type p) (ipe_payload_hash p) (ipe_payload p) (ipe_signature_verified p)
      (ipe_environment p) (ipe_source p) (ipe_direction p) (ipe_content p) (ipe_destination p)
      (ipe_provider_account p) (ipe_fingerprint p) EventReceived None None 0 (ipe_max_attempts p)
      now None now None None None None).

Definition GetPaymentEventByProviderEventID (provider external_event_id : string) : Tx Database PaymentEventRow :=
  find_row (fun e => str_eqb (ev_provider e) provider && str_eqb (ev_external_event_id e) external_event_id).

Definition GetPaymentEventByProviderTransactionID (provider payment_environment : string)
    (provider_transaction_id : option string) : Tx Database PaymentEventRow :=
  find_row (fun e => str_eqb (ev_provider e) provider && str_eqb (ev_environment e) payment_environment
                     && opt_eqb (ev_transaction_id e) provider_transaction_id).

Definition claimable_event (claimed_at stale_before : Time) (e : PaymentEventRow) : bool :=
  ((bool_decide (ev_status e = EventReceived) && (ev_next_attempt_at e <=? claimed_at))
   || (bool_decide (ev_status e = EventProcessing)
       && match ev_processing_started_at e with Some t => t <=? stale_before | None => false end))
  && (ev_attempts e <? ev_max_attempts e).

Definition by_receipt (a b : PaymentEventRow) : bool :=
  lex_le (ev_received_at a, ev_id a) (ev_received_at b, ev_id b).

Definition claim_event (claimed_at : Time) (e : PaymentEventRow) : PaymentEventRow :=
  e <| ev_status := EventProcessing |> <| ev_attempts := ev_attempts e + 1 |>
    <| ev_processing_started_at := Some claimed_at |> <| ev_processed_at := None |>
    <| ev_error := None |> <| ev_error_code := None |>.

Definition ClaimPaymentEvents (claimed_at stale_before : Time) (batch_size : Z) : Tx Database (list PaymentEventRow) :=
  candidates ← select_unlocked LockEvents (claimable_event claimed_at stale_before);
  selected ← order_limit by_receipt batch_size candidates;
  update_rows (map ev_id selected) (fun _ => true) (claim_event claimed_at).

Definition LockPaymentEvent (id : Z) : Tx Database PaymentEventRow := get_row id.

Definition CompletePaymentEvent (processing_status : EventStatus) (related_order_id related_topup_id : option Z)
    (processed_at : Time) (processing_error last_error_code : option string) (id : Z) : Tx Database PaymentEventRow :=
  update_row id (fun e => bool_decide (ev_status e = EventProcessing))
    (fun e => e <| ev_status := processing_status |> <| ev_related_order_id := related_order_id |>
                <| ev_related_topup_id := related_topup_id |> <| ev_processing_started_at := None |>
                <| ev_processed_at := Some processed_at |> <| ev_error := processing_error |>
                <| ev_error_code := last_error_code |>).

Definition SchedulePaymentEventRetry (next_attempt_at processed_at : Time)
    (processing_error last_error_code : option string) (id : Z) : Tx Database PaymentEventRow :=
  update_row id (fun e => bool_decide (ev_status e = EventProcessing))
    (fun e =>
       let exhausted := ev_max_attempts e <=? ev_attempts e in
       e <| ev_status := if exhausted then EventFailed else EventReceived |>
         <| ev_next_attempt_at := next_attempt_at |> <| ev_processing_started_at := None |>
         <| ev_processed_at := if exhausted then Some processed_at else None |>
         <| ev_error := processing_error |> <| ev_error_code := last_error_code |>).

Definition InsertPayment (order_id : option Z) (user_id : Z) (purpose provider : string)
    (provider_transaction_id : option string) (payment_reference : string) (amount_vnd : Z)
    (payment_environment : string) (status : PaymentStatus) (confirmed_at : option Time)
    (occurred_at : Time) : Tx Database PaymentRow :=
  insert_row_or_nothing (fun id =>
    mkPaymentRow id order_id user_id purpose provider provider_transaction_id payment_reference
      amount_vnd "VND" status confirmed_at occurred_at payment_environment).

Definition is_transaction (provider payment_environment : string) (provider_transaction_id : option string)
    (p : PaymentRow) : bool :=
  str_eqb (pay_provider p) provider && str_eqb (pay_environment p) payment_environment
  && opt_eqb (pay_transaction_id p) provider_transaction_id.

Definition GetPaymentByProviderTransaction (provider payment_environment : string)
    (provider_transaction_id : option string) : Tx Database PaymentRow :=
  find_row (is_transaction provider payment_environment provider_transaction_id).

Definition InsertPaymentAllocation (payment_id : Z) (target_type : string) (target_id amount_vnd : Z)
    : Tx Database AllocationRow :=
  insert_row (fun id => mkAllocationRow id payment_id target_type target_id amount_vnd).

Definition GetPaymentAllocation (payment_id : Z) : Tx Database AllocationRow :=
  find_row (fun a => al_payment_id a =? payment_id).

Record InsertPaymentReviewCaseParams := mkInsertPaymentReviewCaseParams {
  irc_event_id : option Z; irc_payment_id : option Z; irc_order_id : option Z;
  irc_topup_id : option Z; irc_provider : string; irc_transaction_id : option string;
  irc_reference : string; irc_amount_vnd : Z; irc_currency : string; irc_occurred_at : Time;
  irc_reason : string; irc_environment : string; irc_source : string;
  irc_mapping_id : option Z; irc_destination : option string }.

(** [ON CONFLICT (payment_event_id) DO UPDATE SET reason = EXCLUDED.reason] *)
Definition InsertPaymentReviewCase (p : InsertPaymentReviewCaseParams) : Tx Database ReviewCaseRow :=
  now ← clock;
  upsert_row (fun rc => opt_eqb (rc_event_id rc) (irc_event_id p))
    (fun id =>
       mkReviewCaseRow id (irc_event_id p) (irc_payment_id p) (irc_order_id p) (irc_topup_id p)
         (irc_provider p) (irc_transaction_id p) (irc_reference p) (irc_amount_vnd p)
         (irc_currency p) (irc_occurred_at p) (irc_reason p) ReviewOpen None None None
         (irc_environment p) (irc_source p) (irc_mapping_id p) (irc_destination p) now)
    (fun rc => rc <| rc_reason := irc_reason p |>).

Definition MarkPaymentEventReviewedBeforeAcceptance (processed_at : Time)
    (processing_error last_error_code : option string) (id : Z) : Tx Database PaymentEventRow :=
  update_row id
    (fun e => bool_decide (ev_status e = EventReceived) || bool_decide (ev_status e = EventProcessing))
    (fun e => e <| ev_status := EventReview |> <| ev_processing_started_at := None |>
                <| ev_processed_at := Some processed_at |> <| ev_error := processing_error |>
                <| ev_error_code := last_error_code |>).

Definition CompleteIgnoredPaymentEvent (processed_at : Time)
    (processing_error last_error_code : option string) (id : Z) : Tx Database PaymentEventRow :=
  update_row id (fun e => bool_decide (ev_status e = EventProcessing))
    (fun e => e <| ev_status := EventCompleted |> <| ev_processing_started_at := None |>
                <| ev_processed_at := Some processed_at |> <| ev_error := processing_error |>
                <| ev_error_code := last_error_code |>).

(** ** The open review cases *)

Definition open_review (rc : ReviewCaseRow) : bool :=
  bool_decide (rc_status rc = ReviewOpen) || bool_decide (rc_status rc = ReviewHeld).
Definition by_review_creation (a b : ReviewCaseRow) : bool := lex_le (rc_created_at a, rc_id a) (rc_created_at b, rc_id b).

Definition CountOpenPaymentReviews : Tx Database Z := read (count_rows open_review).
Definition ListOpenPaymentReviews (page_offset page_limit : Z) : Tx Database (list ReviewCaseRow) :=
  l ← read (select open_review);
  page_of by_review_creation page_limit page_offset l.

Definition ReviewStatus_string (s : ReviewStatus) : string :=
  match s with ReviewOpen => "open" | ReviewHeld => "held" | ReviewResolved => "resolved" end.
(** The status the column accepts *)
Definition review_status (s : string) : option ReviewStatus :=
  if str_eqb s "open" then Some ReviewOpen else if str_eqb s "held" then Some ReviewHeld
  else if str_eqb s "resolved" then Some ReviewResolved else None.

(** Only a resolution records who made it and when. *)
Definition resolve_case (status : ReviewStatus) (resolution_note : option string) (admin_id : option Z) (now : Time)
    (rc : ReviewCaseRow) : ReviewCaseRow :=
  let resolved := bool_decide (status = ReviewResolved) in
  rc <| rc_status := status |> <| rc_note := resolution_note |>
     <| rc_resolved_by := if resolved then admin_id else None |>
     <| rc_resolved_at := if resolved then Some now else None |>.

Definition ResolvePaymentReview (status : string) (resolution_note : option string) (admin_id : option Z) (id : Z)
    : Tx Database ReviewCaseRow :=
  now ← clock;
  match review_status status with
  | Some status => update_row id open_review (resolve_case status resolution_note admin_id now)
  | None =>
      rc ← get_row id;
      guard_not (negb (open_review rc)) ErrNoRows;;
      throw (ErrPg CheckViolation)
  end.

(** ** payment_providers.sql *)

Definition CountPaymentReferenceTargets (reference_value : string) : Tx Database Z :=
  read (fun d => count_rows (fun o => str_eqb (o_payment_reference o) reference_value) d
                 + count_rows (fun t => str_eqb (tp_reference t) reference_value) d).

Definition ResolveActivePaymentProviderAccount (provider environment external_account_identity : string)
    : Tx Database ProviderAccountRow :=
  find_row (fun a => str_eqb (pa_provider a) provider && str_eqb (pa_environment a) environment
                     && str_eqb (pa_identity a) external_account_identity && pa_active a).

Definition AttachPaymentEventProviderAccount (mapping_id id : Z) : Tx Database PaymentEventRow :=
  update_row id
    (fun e => bool_decide (ev_status e = EventProcessing) && is_none (ev_mapping_id e))
    (fun e => e <| ev_mapping_id := Some mapping_id |>).

(** [ON CONFLICT (provider_account_id) DO UPDATE SET provider_account_id = EXCLUDED...]:
    the row itself *)
Definition EnsurePaymentProviderCheckpoint (provider_account_id : Z) : Tx Database CheckpointRow :=
  upsert_row (fun c => cp_account_id c =? provider_account_id)
    (fun id => mkCheckpointRow id provider_account_id None None None None None None None None 1)
    (fun c => c).

Definition ClaimPaymentProviderCheckpoint (lease_owner : option string) (lease_expires_at attempted_at : Time) (id : Z)
    : Tx Database CheckpointRow :=
  update_row id
    (fun c => is_none (cp_lease_owner c)
              || match cp_lease_expires_at c with Some t => t <=? attempted_at | None => false end)
    (fun c => c <| cp_lease_owner := lease_owner |> <| cp_lease_expires_at := Some lease_expires_at |>
                <| cp_last_attempted_at := Some attempted_at |> <| cp_error_code := None |>
                <| cp_version := cp_version c + 1 |>).

Definition lease_held (expected_version : Z) (expected_lease_owner : option string) (c : CheckpointRow) : bool :=
  (cp_version c =? expected_version) && opt_eqb (cp_lease_owner c) expected_lease_owner.

Definition AdvancePaymentProviderCheckpoint (cursor_value last_transaction_external_id : option string)
    (last_occurred_at : option Time) (id expected_version : Z) (expected_lease_owner : option string)
    : Tx Database CheckpointRow :=
  update_row id (lease_held expected_version expected_lease_owner)
    (fun c => c <| cp_cursor := cursor_value |> <| cp_last_transaction := last_transaction_external_id |>
                <| cp_last_occurred_at := last_occurred_at |> <| cp_error_code := None |>
                <| cp_version := cp_version c + 1 |>).

Definition CompletePaymentProviderCheckpoint (completed_at : Time) (id expected_version : Z)
    (expected_lease_owner : option string) : Tx Database CheckpointRow :=
  update_row id (lease_held expected_version expected_lease_owner)
    (fun c => c <| cp_last_successful_at := Some completed_at |> <| cp_error_code := None |>
                <| cp_lease_owner := None |> <| cp_lease_expires_at := None |>
                <| cp_version := cp_version c + 1 |>).

Definition RecordPaymentProviderCheckpointFailure (last_error_code : option string) (id expected_version : Z)
    (expected_lease_owner : option string) : Tx Database CheckpointRow :=
  update_row id (lease_held expected_version expected_lease_owner)
    (fun c => c <| cp_error_code := last_error_code |>
                <| cp_lease_owner := None |> <| cp_lease_expires_at := None |>
                <| cp_version := cp_version c + 1 |>).

#[export] Hint Unfold CountOpenPaymentReviews ListOpenPaymentReviews ResolvePaymentReview
  InsertPaymentEvent InsertPaymentReviewCase GetPaymentEventByProviderEventID GetPaymentEventByProviderTransactionID
  ClaimPaymentEvents LockPaymentEvent CompletePaymentEvent SchedulePaymentEventRetry InsertPayment
  GetPaymentByProviderTransaction InsertPaymentAllocation GetPaymentAllocation
  MarkPaymentEventReviewedBeforeAcceptance CompleteIgnoredPaymentEvent
  CountPaymentReferenceTargets ResolveActivePaymentProviderAccount
  AttachPaymentEventProviderAccount EnsurePaymentProviderCheckpoint ClaimPaymentProviderCheckpoint
  AdvancePaymentProviderCheckpoint CompletePaymentProviderCheckpoint
  RecordPaymentProviderCheckpointFailure : tx_queries.
