(* ===== verification/QWallet.v ===== *)
(** * Wallet queries

    [src/sqlc/queries/wallet.sql] and the order-creation statement of
    [bank_accounts.sql] ([generated/wallet.sql.go], [generated/bank_accounts.sql.go]). *)

From S2P Require Import Prelude Domain Schema Tx Tables.

(** [DO UPDATE SET user_id = EXCLUDED.user_id] keeps the row. *)
Definition EnsureWalletAccount (user_id : Z) : Tx Database WalletRow :=
  upsert_row (fun w => w_user_id w =? user_id)
    (fun id => mkWalletRow id user_id WalletActive 0 1) (fun w => w).

Definition LockWalletAccount (id : Z) : Tx Database WalletRow := get_row id.

Definition credit_wallet (amount_vnd : Z) (w : WalletRow) : WalletRow :=
  w <| w_balance_vnd := w_balance_vnd w + amount_vnd |> <| w_version := w_version w + 1 |>.

(** [bigint] addition outside the range is an error of the statement. *)
Definition UpdateWalletBalance (amount_vnd id : Z) : Tx Database WalletRow :=
  w ← get_row id;
  guard_not (negb (bool_decide (w_status w = WalletActive))) ErrNoRows;;
  guard_not (negb (in_int64 (w_balance_vnd w + amount_vnd))) (ErrPg NumericValueOutOfRange);;
  update_row id
    (fun w => bool_decide (w_status w = WalletActive) && (0 <=? w_balance_vnd w + amount_vnd))
    (credit_wallet amount_vnd).

Definition InsertWalletLedgerEntry (account_id : Z) (entry_type : WalletEntryType)
    (amount_vnd balance_after_vnd : Z) (reference_type : string) (reference_id : Z)
    (idempotency_key : string) : Tx Database LedgerRow :=
  insert_row (fun id =>
    mkLedgerRow id account_id entry_type amount_vnd balance_after_vnd reference_type reference_id idempotency_key).

(** Go's empty bank snapshot format is always the current one. *)
Definition CreateWalletTopup (user_id wallet_account_id amount_vnd : Z)
    (payment_reference idempotency_key : string) (expires_at : Time) (bank_account_id : Z)
    (bank : BankSnapshot) (payment_environment : string) : Tx Database TopupRow :=
  insert_row_or_nothing (fun id =>
    mkTopupRow id user_id wallet_account_id amount_vnd "VND" payment_reference idempotency_key
      TopupPending expires_at None bank_account_id bank 1
      (if str_eqb payment_environment "" then "production" else payment_environment)).

Definition FindWalletTopupByIdempotency (user_id : Z) (idempotency_key : string) : Tx Database TopupRow :=
  find_row (fun t => (tp_user_id t =? user_id) && str_eqb (tp_idempotency_key t) idempotency_key).

Definition LockWalletTopupByReference (payment_reference : string) : Tx Database TopupRow :=
  find_row (fun t => str_eqb (tp_reference t) payment_reference).

Definition MarkWalletTopupCredited (credited_at : Time) (id expected_version : Z) : Tx Database TopupRow :=
  update_row id
    (fun t => bool_decide (tp_status t = TopupPending) && (tp_version t =? expected_version))
    (fun t => t <| tp_status := TopupCredited |> <| tp_credited_at := Some credited_at |>
                <| tp_version := tp_version t + 1 |>).

Definition MarkWalletTopupReview (id : Z) : Tx Database TopupRow :=
  update_row id
    (fun t => bool_decide (tp_status t = TopupPending) || bool_decide (tp_status t = TopupExpired))
    (fun t => t <| tp_status := TopupReview |> <| tp_version := tp_version t + 1 |>).

(** ** bank_accounts.sql *)

Definition GetActiveBankAccountForOrder (id : Z) (payment_environment : string) : Tx Database BankAccountRow :=
  find_row (fun b => (b_id b =? id) && b_is_active b && str_eqb (b_environment b) payment_environment
                     && str_eqb (b_format b) aes_format).

(** The snapshot columns of an order or a top-up: the ciphertext, its nonce and
    key version, never the number *)
Definition bank_snapshot (b : BankAccountRow) : BankSnapshot :=
  mkBankSnapshot (b_bank_bin b) (b_bank_name b) (b_display_name b) (b_account_name b)
    (b_encrypted_number b) (b_nonce b) aes_format (b_key_version b) (b_last4 b).

#[export] Hint Unfold EnsureWalletAccount LockWalletAccount UpdateWalletBalance InsertWalletLedgerEntry
  CreateWalletTopup FindWalletTopupByIdempotency LockWalletTopupByReference MarkWalletTopupCredited
  MarkWalletTopupReview GetActiveBankAccountForOrder : tx_queries.
