(* ===== verification/QUsers.v ===== *)
(** * User, administrator, receipt and audit queries

    [src/sqlc/queries/users.sql], [admin.sql] and [telegram.sql]
    ([generated/users.sql.go], [generated/admin.sql.go], [generated/telegram.sql.go]). *)

From S2P Require Import Prelude Domain Schema Tx Tables.

(** ** users.sql *)

(** [COALESCE(EXCLUDED.x, users.x)] *)
Definition coalesce {A} (a b : option A) : option A :=
  match a with Some _ => a | None => b end.

Definition UpsertTelegramUser (telegram_user_id : Z) (username display_name : option string) : Tx Database User :=
  now ← clock;
  upsert_row (fun u => u_telegram_user_id u =? telegram_user_id)
    (fun id => mkUser id telegram_user_id username display_name UserStatusActive (Some now))
    (fun u => u <| u_username := coalesce username (u_username u) |>
                <| u_display_name := coalesce display_name (u_display_name u) |>
                <| u_last_seen_at := Some now |>).

Definition EnsureBootstrapUser (telegram_user_id : Z) : Tx Database User :=
  now ← clock;
  upsert_row (fun u => u_telegram_user_id u =? telegram_user_id)
    (fun id => mkUser id telegram_user_id None None UserStatusActive (Some now))
    (fun u => u <| u_last_seen_at := Some now |>).

(** [ON CONFLICT (user_id) DO NOTHING] with [:execrows] *)
Definition EnsureBootstrapAdmin (user_id : Z) : Tx Database Z :=
  inserted ← try_row (insert_row_unless (fun a => ad_user_id a =? user_id)
    (fun id => mkAdminRow id user_id "owner" true));
  mret (match inserted with Some _ => 1 | None => 0 end).

Definition GetAdminAuthorizationByTelegramID (telegram_user_id : Z) : Tx Database (AdminRow * User) :=
  u ← find_row (fun u => u_telegram_user_id u =? telegram_user_id);
  a ← find_row (fun a => ad_user_id a =? u_id u);
  mret (a, u).

Definition LockUserByTelegramID (telegram_user_id : Z) : Tx Database User :=
  find_row (fun u => u_telegram_user_id u =? telegram_user_id).

(** ** admin.sql *)

Definition finished_session (state : string) : bool := str_in state ["completed"; "cancelled"].

(** The WHERE clause of the guarded session updates *)
Definition session_live (now : Time) (id admin_id expected_version : Z) (s : AdminSessionRow) : bool :=
  (as_id s =? id) && (as_admin_id s =? admin_id) && (as_version s =? expected_version)
  && (now <? as_expires_at s) && negb (finished_session (as_state s)).

Definition StartAdminSession (admin_id : Z) (state payload : string) (expires_at : Time) : Tx Database AdminSessionRow :=
  upsert_row (fun s => as_admin_id s =? admin_id)
    (fun id => mkAdminSessionRow id admin_id state payload expires_at 1)
    (fun s => s <| as_state := state |> <| as_payload := payload |> <| as_expires_at := expires_at |>
                <| as_version := as_version s + 1 |>).

Definition GetActiveAdminSession (admin_id : Z) : Tx Database AdminSessionRow :=
  now ← clock;
  find_row (fun s => (as_admin_id s =? admin_id) && (now <? as_expires_at s)
                     && negb (finished_session (as_state s))).

Definition LockAdminSessionByID (id : Z) : Tx Database AdminSessionRow := get_row id.

Definition AdvanceAdminSessionGuarded (state payload : string) (expires_at : Time)
    (id admin_id expected_version : Z) : Tx Database AdminSessionRow :=
  now ← clock;
  update_row id (session_live now id admin_id expected_version)
    (fun s => s <| as_state := state |> <| as_payload := payload |> <| as_expires_at := expires_at |>
                <| as_version := as_version s + 1 |>).

Definition FinishAdminSessionGuarded (state : string) (id admin_id expected_version : Z) : Tx Database AdminSessionRow :=
  now ← clock;
  update_row id (session_live now id admin_id expected_version)
    (fun s => s <| as_state := state |> <| as_payload := "{}"%string |> <| as_expires_at := now |>
                <| as_version := as_version s + 1 |>).

Definition InsertAuditLog (actor_type : string) (actor_id : option Z) (action resource_type : string)
    (resource_id : option Z) (before_data after_data : option Json) (request_id : option string)
    (telegram_update_id : option Z) : Tx Database AuditRow :=
  insert_row (fun id =>
    mkAuditRow id actor_type actor_id action resource_type resource_id before_data after_data
      request_id telegram_update_id).

(** ** telegram.sql *)

(** [ON CONFLICT (update_id) DO NOTHING] with [:execrows] *)
Definition InsertTelegramUpdateReceipt (update_id : Z) (update_type : string) : Tx Database Z :=
  fun env d =>
    match insert_row_at update_id (mkReceiptRow update_id update_type ReceiptReceived 0 None None None) env d with
    | Ok _ d' => Ok 1 d'
    | Fail (ErrPg UniqueViolation) => Ok 0 d
    | Fail e => Fail e
    end.

Definition LockTelegramUpdateReceipt (update_id : Z) : Tx Database ReceiptRow := get_row update_id.

Definition startable (stale_before : Time) (r : ReceiptRow) : bool :=
  match rt_status r with
  | ReceiptReceived | ReceiptFailed => true
  | ReceiptProcessing => match rt_started_at r with Some t => t <=? stale_before | None => false end
  | ReceiptCompleted => false
  end.

Definition StartTelegramUpdateProcessing (update_id : Z) (stale_before : Time) : Tx Database ReceiptRow :=
  now ← clock;
  update_row update_id (startable stale_before)
    (fun r => r <| rt_status := ReceiptProcessing |> <| rt_attempts := rt_attempts r + 1 |>
                <| rt_started_at := Some now |> <| rt_processed_at := None |> <| rt_last_error := None |>).

Definition CompleteTelegramUpdateReceipt (update_id : Z) : Tx Database ReceiptRow :=
  now ← clock;
  update_row update_id (fun r => bool_decide (rt_status r = ReceiptProcessing))
    (fun r => r <| rt_status := ReceiptCompleted |> <| rt_processed_at := Some now |>
                <| rt_last_error := None |>).

Definition FailTelegramUpdateReceipt (last_error : option string) (update_id : Z) : Tx Database ReceiptRow :=
  now ← clock;
  update_row update_id (fun r => bool_decide (rt_status r = ReceiptProcessing))
    (fun r => r <| rt_status := ReceiptFailed |> <| rt_processed_at := Some now |>
                <| rt_last_error := last_error |>).

#[export] Hint Unfold UpsertTelegramUser EnsureBootstrapUser EnsureBootstrapAdmin GetAdminAuthorizationByTelegramID LockUserByTelegramID
  StartAdminSession GetActiveAdminSession LockAdminSessionByID AdvanceAdminSessionGuarded
  FinishAdminSessionGuarded InsertAuditLog LockTelegramUpdateReceipt
  StartTelegramUpdateProcessing CompleteTelegramUpdateReceipt FailTelegramUpdateReceipt : tx_queries.
