(* ===== verification/QDelivery.v ===== *)
(** * Delivery job queries

    The [outbox_events] and [delivery_attempts] statements of
    [src/sqlc/queries/delivery.sql] ([generated/delivery.sql.go]). *)

From S2P Require Import Prelude Domain Schema Tx Tables QOrders QInventory.

Definition delivery_dedup_key (order_id : Z) : string := ("delivery:order:" ++ Z_dec order_id)%string.

Definition InsertDeliveryJob (order_id max_attempts : Z) (next_attempt_at : Time) (recipient_chat_id : Z)
    : Tx Database OutboxRow :=
  now ← clock;
  insert_row_unless (fun j => str_eqb (j_dedup_key j) (delivery_dedup_key order_id))
    (fun id =>
       mkOutboxRow id delivery_event_type "order" order_id (delivery_dedup_key order_id)
         DeliveryJobPending 0 max_attempts next_attempt_at None None None None None (Some order_id)
         (Some recipient_chat_id) None None None None None None None None 1 now).

Definition is_job_of (order_id : Z) (j : OutboxRow) : bool :=
  str_eqb (j_event_type j) delivery_event_type && bool_decide (j_order_id j = Some order_id).

Definition GetDeliveryJobByOrder (order_id : Z) : Tx Database OutboxRow := find_row (is_job_of order_id).

(** [COALESCE(sum(item.quantity), 0)] over the items of the order *)
Definition ordered_quantity (order_id : Z) (d : Database) : Z :=
  foldr (fun it n => oi_quantity it + n) 0 (select (fun it => oi_order_id it =? order_id) d).

Definition needs_backfill (d : Database) (o : OrderRow) : bool :=
  bool_decide (o_status o = OrderStatusReserving)
  && (Z.of_nat (length (held_items (o_id o) d)) =? ordered_quantity (o_id o) d)
  && (match select (is_job_of (o_id o)) d with [] => true | _ => false end).

Definition ListDeliveryBackfillOrderIDs (batch_size : Z) : Tx Database (list Z) :=
  d ← read id;
  candidates ← select_unlocked LockOrders (needs_backfill d);
  selected ← order_limit (fun a b => lex_le (o_created_at a, o_id a) (o_created_at b, o_id b))
    batch_size candidates;
  mret (map o_id selected).

Definition claimable_job (claimed_at : Time) (j : OutboxRow) : bool :=
  str_eqb (j_event_type j) delivery_event_type
  && (bool_decide (j_status j = DeliveryJobPending) || bool_decide (j_status j = DeliveryJobRetryableFailed))
  && (j_next_attempt_at j <=? claimed_at) && (j_attempts j <? j_max_attempts j).

Definition by_schedule (a b : OutboxRow) : bool :=
  lex3_le (j_next_attempt_at a, j_created_at a, j_id a) (j_next_attempt_at b, j_created_at b, j_id b).

Definition claim_job (claimed_at : Time) (worker_id : option string) (j : OutboxRow) : OutboxRow :=
  j <| j_status := DeliveryJobProcessing |> <| j_stage := Some StageClaimed |>
    <| j_locked_at := Some claimed_at |> <| j_locked_by := worker_id |>
    <| j_error_code := None |> <| j_error_detail := None |> <| j_version := j_version j + 1 |>.

Definition ClaimDeliveryJobs (claimed_at : Time) (worker_id : option string) (batch_size : Z)
    : Tx Database (list OutboxRow) :=
  candidates ← select_unlocked LockOutbox (claimable_job claimed_at);
  selected_jobs ← order_limit by_schedule batch_size candidates;
  update_rows (map j_id selected_jobs) (fun _ => true) (claim_job claimed_at worker_id).

Definition is_stale (stale_before : Time) (j : OutboxRow) : bool :=
  str_eqb (j_event_type j) delivery_event_type && bool_decide (j_status j = DeliveryJobProcessing)
  && match j_locked_at j with Some t => t <? stale_before | None => false end.

Definition LockStaleDeliveryJobs (stale_before : Time) (batch_size : Z) : Tx Database (list OutboxRow) :=
  candidates ← select_unlocked LockOutbox (is_stale stale_before);
  order_limit (fun a b => lex_le (default 0 (j_locked_at a), j_id a) (default 0 (j_locked_at b), j_id b))
    batch_size candidates.

(** [status = 'processing' AND processing_stage = ...] *)
Definition in_stage (stage : ProcessingStage) (j : OutboxRow) : bool :=
  bool_decide (j_status j = DeliveryJobProcessing) && bool_decide (j_stage j = Some stage).

(** [processing_stage = NULL, locked_at = NULL, locked_by = NULL, version = version + 1] *)
Definition leave_processing (status : DeliveryJobStatus) (j : OutboxRow) : OutboxRow :=
  j <| j_status := status |> <| j_stage := None |> <| j_locked_at := None |> <| j_locked_by := None |>
    <| j_version := j_version j + 1 |>.

Definition MarkStaleDeliveryClaimRetryable (next_attempt_at : Time) (id : Z) : Tx Database OutboxRow :=
  update_row id (in_stage StageClaimed)
    (fun j => leave_processing DeliveryJobRetryableFailed j
                <| j_next_attempt_at := next_attempt_at |>
                <| j_error_code := Some "stale_claim_recovered"%string |>
                <| j_error_detail := Some "worker stopped before send began"%string |>).

Definition MarkStaleDeliverySendAmbiguous (id : Z) : Tx Database OutboxRow :=
  update_row id (in_stage StageSending)
    (fun j => leave_processing DeliveryJobAmbiguous j
                <| j_error_code := Some "stale_after_send_started"%string |>
                <| j_error_detail := Some "send outcome requires manual verification"%string |>).

Definition LockDeliveryJob (id : Z) : Tx Database OutboxRow :=
  j ← get_row id;
  guard_not (negb (str_eqb (j_event_type j) delivery_event_type)) ErrNoRows;;
  mret j.

(** The row of [LoadDeliveryEnvelope]: the job and the joined order, user and item *)
Definition LoadDeliveryEnvelope (delivery_job_id : Z) : Tx Database (OutboxRow * OrderRow * User * OrderItemRow) :=
  j ← LockDeliveryJob delivery_job_id;
  order_id ← joined (j_order_id j);
  o ← get_row order_id;
  u ← get_row (o_user_id o);
  item ← find_row (fun it => oi_order_id it =? o_id o);
  mret (j, o, u, item).

Definition BeginDeliverySend (send_attempted_at : Time) (id : Z) (worker_id : option string) : Tx Database OutboxRow :=
  update_row id
    (fun j => in_stage StageClaimed j && opt_eqb (j_locked_by j) worker_id
              && (j_attempts j <? j_max_attempts j))
    (fun j => j <| j_stage := Some StageSending |> <| j_send_attempted_at := Some send_attempted_at |>
                <| j_attempts := j_attempts j + 1 |> <| j_version := j_version j + 1 |>).

Definition InsertDeliveryAttemptEvent (order_id job_id attempt_number : Z) (status : string)
    (http_status telegram_error_code retry_after_seconds chat_id message_id : option Z)
    (error_class error_code error_detail : option string) (started_at : Time) (finished_at : option Time)
    : Tx Database AttemptRow :=
  insert_row (fun id =>
    mkAttemptRow id order_id (Some job_id) attempt_number status http_status telegram_error_code
      retry_after_seconds chat_id message_id error_class error_code error_detail started_at finished_at).

Definition MarkDeliveryRetryable (next_attempt_at : Time) (error_code error_detail : option string)
    (id : Z) (worker_id : option string) : Tx Database OutboxRow :=
  update_row id (fun j => in_stage StageSending j && opt_eqb (j_locked_by j) worker_id)
    (fun j => leave_processing DeliveryJobRetryableFailed j
                <| j_next_attempt_at := next_attempt_at |>
                <| j_error_code := error_code |> <| j_error_detail := error_detail |>).

(** The statement accepts only the three failure statuses. *)
Definition claimed_failure_status (s : DeliveryJobStatus) : bool :=
  bool_decide (s = DeliveryJobRetryableFailed) || bool_decide (s = DeliveryJobPermanentFailed)
  || bool_decide (s = DeliveryJobManualReview).

Definition MarkClaimedDeliveryFailure (new_status : DeliveryJobStatus) (next_attempt_at : Time)
    (error_code error_detail : option string) (completed_at : option Time) (id : Z)
    (worker_id : option string) : Tx Database OutboxRow :=
  update_row id
    (fun j => in_stage StageClaimed j && opt_eqb (j_locked_by j) worker_id
              && claimed_failure_status new_status)
    (fun j => leave_processing new_status j
                <| j_attempts := j_attempts j + 1 |> <| j_next_attempt_at := next_attempt_at |>
                <| j_error_code := error_code |> <| j_error_detail := error_detail |>
                <| j_completed_at := completed_at |>).

Definition MarkDeliveryPermanentFailed (error_code error_detail : option string) (completed_at : Time)
    (id : Z) (worker_id : option string) : Tx Database OutboxRow :=
  update_row id (fun j => in_stage StageSending j && opt_eqb (j_locked_by j) worker_id)
    (fun j => leave_processing DeliveryJobPermanentFailed j
                <| j_error_code := error_code |> <| j_error_detail := error_detail |>
                <| j_completed_at := Some completed_at |>).

Definition MarkDeliveryAmbiguous (telegram_message_id : option Z) (telegram_sent_at : option Time)
    (error_code error_detail : option string) (id : Z) : Tx Database OutboxRow :=
  update_row id (in_stage StageSending)
    (fun j => leave_processing DeliveryJobAmbiguous j
                <| j_message_id := match telegram_message_id with Some m => Some m | None => j_message_id j end |>
                <| j_sent_at := match telegram_sent_at with Some t => Some t | None => j_sent_at j end |>
                <| j_error_code := error_code |> <| j_error_detail := error_detail |>).

Definition MarkDeliveryCompleted (telegram_message_id : Z) (telegram_sent_at completed_at : Time)
    (id : Z) (worker_id : option string) : Tx Database OutboxRow :=
  update_row id (fun j => in_stage StageSending j && opt_eqb (j_locked_by j) worker_id)
    (fun j => leave_processing DeliveryJobCompleted j
                <| j_message_id := Some telegram_message_id |> <| j_sent_at := Some telegram_sent_at |>
                <| j_error_code := None |> <| j_error_detail := None |>
                <| j_completed_at := Some completed_at |>).

(** ** Manual resolution *)

Definition ManualRetryDeliveryJob (next_attempt_at : Time) (reason : option string) (admin_id : Z)
    (resolved_at : Time) (id expected_version : Z) : Tx Database OutboxRow :=
  update_row id
    (fun j => str_eqb (j_event_type j) delivery_event_type
              && (bool_decide (j_status j = DeliveryJobAmbiguous) || bool_decide (j_status j = DeliveryJobManualReview)
                  || bool_decide (j_status j = DeliveryJobPermanentFailed)
                  || bool_decide (j_status j = DeliveryJobRetryableFailed))
              && (j_version j =? expected_version))
    (fun j => j <| j_status := DeliveryJobPending |> <| j_next_attempt_at := next_attempt_at |>
                <| j_max_attempts := Z.max (j_max_attempts j) (j_attempts j + 1) |>
                <| j_completed_at := None |> <| j_manual_resolution := Some "retry"%string |>
                <| j_resolution_reason := reason |> <| j_resolved_by := Some admin_id |>
                <| j_resolved_at := Some resolved_at |> <| j_error_code := None |>
                <| j_error_detail := None |> <| j_version := j_version j + 1 |>).

Definition ManualCompleteDeliveryJob (telegram_message_id : Z) (resolved_at : Time) (reason : option string)
    (admin_id id expected_version : Z) : Tx Database OutboxRow :=
  update_row id
    (fun j => str_eqb (j_event_type j) delivery_event_type
              && (bool_decide (j_status j = DeliveryJobAmbiguous) || bool_decide (j_status j = DeliveryJobManualReview))
              && (j_version j =? expected_version))
    (fun j => j <| j_status := DeliveryJobCompleted |> <| j_message_id := Some telegram_message_id |>
                <| j_sent_at := Some resolved_at |> <| j_completed_at := Some resolved_at |>
                <| j_manual_resolution := Some "mark_delivered"%string |>
                <| j_resolution_reason := reason |> <| j_resolved_by := Some admin_id |>
                <| j_resolved_at := Some resolved_at |> <| j_error_code := None |>
                <| j_error_detail := None |> <| j_version := j_version j + 1 |>).

#[export] Hint Unfold InsertDeliveryJob GetDeliveryJobByOrder ListDeliveryBackfillOrderIDs ClaimDeliveryJobs
  LockStaleDeliveryJobs MarkStaleDeliveryClaimRetryable MarkStaleDeliverySendAmbiguous LockDeliveryJob
  LoadDeliveryEnvelope BeginDeliverySend InsertDeliveryAttemptEvent MarkDeliveryRetryable
  MarkClaimedDeliveryFailure MarkDeliveryPermanentFailed MarkDeliveryAmbiguous MarkDeliveryCompleted
  ManualRetryDeliveryJob ManualCompleteDeliveryJob : tx_queries.
