(* ===== verification/QCatalog.v ===== *)
(** * Catalog queries

    [src/sqlc/queries/catalog.sql] ([generated/catalog.sql.go]). *)

From S2P Require Import Prelude Domain Schema Tx Tables.

(** [ORDER BY sort_order, id] and [ORDER BY category_id, id] *)
Definition by_sort_order (a b : CategoryRow) : bool :=
  lex_le (cat_sort_order a, cat_id a) (cat_sort_order b, cat_id b).
Definition by_category (a b : ProductRow) : bool := lex_le (p_category_id a, p_id a) (p_category_id b, p_id b).
Definition by_product_id (a b : ProductRow) : bool := p_id a <=? p_id b.

(** [JOIN categories ON categories.id = products.category_id WHERE ... is_active] *)
Definition in_active_category (d : Database) (p : ProductRow) : bool :=
  match rows CategoryRow d !! p_category_id p with Some c => cat_is_active c | None => false end.
Definition on_sale (d : Database) (p : ProductRow) : bool := p_is_active p && in_active_category d p.

Definition CountActiveCategories : Tx Database Z := read (count_rows cat_is_active).
Definition CountActiveProductsByCategory (category_id : Z) : Tx Database Z :=
  read (fun d => count_rows (fun p => (p_category_id p =? category_id) && on_sale d p) d).
Definition CountAdminCategories : Tx Database Z := read (count_rows (fun _ : CategoryRow => true)).
Definition CountAdminProducts : Tx Database Z := read (count_rows (fun _ : ProductRow => true)).

(** [emoji text NOT NULL DEFAULT ...]: the columns the statement leaves out *)
Definition default_emoji : string := "📦".

Definition CreateCategory (name slug : string) (sort_order : Z) : Tx Database CategoryRow :=
  insert_row (fun id => mkCategoryRow id name slug default_emoji sort_order true 1).

Definition CreateProduct (category_id : Z) (name slug : string) (description : option string) (price_vnd : Z)
    (delivery_type : string) (contact_url : option string) : Tx Database ProductRow :=
  now ← clock;
  insert_row (fun id => mkProductRow id category_id name slug description price_vnd delivery_type contact_url true 1 now).

Definition GetActiveProductDetail (product_id : Z) : Tx Database ProductRow :=
  p ← get_row product_id;
  visible ← read (fun d => on_sale d p);
  guard_not (negb visible) ErrNoRows;;
  mret p.

Definition GetCategoryByID (id : Z) : Tx Database CategoryRow := get_row id.
Definition GetProductByID (id : Z) : Tx Database ProductRow := get_row id.

Definition ListActiveCategories : Tx Database (list CategoryRow) := read (select_sorted cat_is_active by_sort_order).
Definition ListActiveCategoriesPage (page_offset page_limit : Z) : Tx Database (list CategoryRow) :=
  l ← read (select cat_is_active);
  page_of by_sort_order page_limit page_offset l.
Definition ListActiveProductsByCategory (category_id : Z) : Tx Database (list ProductRow) :=
  read (select_sorted (fun p => (p_category_id p =? category_id) && p_is_active p) by_product_id).
Definition ListActiveProductsPage (category_id page_offset page_limit : Z) : Tx Database (list ProductRow) :=
  l ← read (fun d => select (fun p => (p_category_id p =? category_id) && on_sale d p) d);
  page_of by_product_id page_limit page_offset l.
Definition ListAdminCategoriesPage (page_offset page_limit : Z) : Tx Database (list CategoryRow) :=
  l ← read (select (fun _ => true));
  page_of by_sort_order page_limit page_offset l.
Definition ListAdminProductsPage (page_offset page_limit : Z) : Tx Database (list ProductRow) :=
  l ← read (select (fun _ => true));
  page_of by_category page_limit page_offset l.

Definition LockCategoryByID (id : Z) : Tx Database CategoryRow := get_row id.
Definition LockProductByID (id : Z) : Tx Database ProductRow := get_row id.

Definition SetCategoryActiveGuarded (is_active : bool) (id expected_version : Z) : Tx Database CategoryRow :=
  update_row id (fun c => cat_version c =? expected_version)
    (fun c => c <| cat_is_active := is_active |> <| cat_version := cat_version c + 1 |>).
Definition SetProductActiveGuarded (is_active : bool) (id expected_version : Z) : Tx Database ProductRow :=
  update_row id (fun p => p_version p =? expected_version)
    (fun p => p <| p_is_active := is_active |> <| p_version := p_version p + 1 |>).
Definition UpdateCategoryDetailsGuarded (name : string) (sort_order id expected_version : Z) : Tx Database CategoryRow :=
  update_row id (fun c => cat_version c =? expected_version)
    (fun c => c <| cat_name := name |> <| cat_sort_order := sort_order |> <| cat_version := cat_version c + 1 |>).
Definition UpdateProductDetailsGuarded (category_id : Z) (name : string) (description : option string) (price_vnd : Z)
    (id expected_version : Z) : Tx Database ProductRow :=
  update_row id (fun p => p_version p =? expected_version)
    (fun p => p <| p_category_id := category_id |> <| p_name := name |> <| p_description := description |>
                <| p_price_vnd := price_vnd |> <| p_version := p_version p + 1 |>).

#[export] Hint Unfold CountActiveCategories CountActiveProductsByCategory CountAdminCategories CountAdminProducts
  CreateCategory CreateProduct GetActiveProductDetail GetCategoryByID GetProductByID ListActiveCategories
  ListActiveCategoriesPage ListActiveProductsByCategory ListActiveProductsPage ListAdminCategoriesPage
  ListAdminProductsPage LockCategoryByID LockProductByID SetCategoryActiveGuarded SetProductActiveGuarded
  UpdateCategoryDetailsGuarded UpdateProductDetailsGuarded : tx_queries.
