(* ===== verification/QBanks.v ===== *)
(** * Bank and provider account queries

    [src/sqlc/queries/bank_accounts.sql] and the account statements of
    [payment_providers.sql] ([generated/bank_accounts.sql.go],
    [generated/payment_providers.sql.go]).  The collation that orders text is a
    parameter of the listings. *)

From S2P Require Import Prelude Domain Schema Tx Tables.

(** ** bank_accounts.sql *)

(** [ORDER BY sort_order, id] *)
Definition by_bank_order (a b : BankAccountRow) : bool := lex_le (b_sort_order a, b_id a) (b_sort_order b, b_id b).

Definition CountAdminBankAccounts : Tx Database Z := read (count_rows (fun _ : BankAccountRow => true)).

(** The columns the two statements that write an account set *)
Record EncryptedBankAccountParams := mkEncryptedBankAccountParams { eb_bank_bin : string; eb_bank_name : string;
    eb_display_name : string; eb_account_name : string; eb_encrypted_number : Bytes; eb_fingerprint : Bytes;
    eb_key_id : string; eb_nonce : Bytes; eb_key_version : Z; eb_last4 : string; eb_sort_order : Z }.

(** [ON CONFLICT (account_number_fingerprint) DO NOTHING], and
    [COALESCE(NULLIF(payment_environment, ''), 'production')] *)
Definition CreateEncryptedBankAccount (p : EncryptedBankAccountParams) (payment_environment : string)
    : Tx Database BankAccountRow :=
  now ← clock;
  insert_row_unless (fun b => bool_decide (b_fingerprint b = eb_fingerprint p))
    (fun id => mkBankAccountRow id (eb_bank_bin p) (eb_bank_name p) (eb_display_name p) (eb_account_name p)
       (eb_encrypted_number p) (eb_fingerprint p) (eb_key_id p) (eb_nonce p) aes_format (eb_key_version p)
       (eb_last4 p) (eb_sort_order p) true 1
       (if str_eqb payment_environment "" then "production" else payment_environment) now).

Definition ListActiveBankAccountOptions (payment_environment : string) : Tx Database (list BankAccountRow) :=
  read (select_sorted
    (fun b => b_is_active b && str_eqb (b_environment b) payment_environment && str_eqb (b_format b) aes_format)
    by_bank_order).

Definition ListAdminBankAccountsPage (page_offset page_limit : Z) : Tx Database (list BankAccountRow) :=
  l ← read (select (fun _ => true));
  page_of by_bank_order page_limit page_offset l.

Definition LockBankAccountByID (id : Z) : Tx Database BankAccountRow := get_row id.

Definition SetBankAccountActiveGuarded (is_active : bool) (id expected_version : Z) : Tx Database BankAccountRow :=
  update_row id
    (fun b => (b_version b =? expected_version) && negb (bool_decide (b_is_active b = is_active)))
    (fun b => b <| b_is_active := is_active |> <| b_version := b_version b + 1 |>).

Definition UpdateEncryptedBankAccountGuarded (p : EncryptedBankAccountParams) (id expected_version : Z)
    : Tx Database BankAccountRow :=
  update_row id (fun b => b_version b =? expected_version)
    (fun b => b <| b_bank_bin := eb_bank_bin p |> <| b_bank_name := eb_bank_name p |>
                <| b_display_name := eb_display_name p |> <| b_account_name := eb_account_name p |>
                <| b_encrypted_number := eb_encrypted_number p |> <| b_fingerprint := eb_fingerprint p |>
                <| b_key_id := eb_key_id p |> <| b_nonce := eb_nonce p |> <| b_format := aes_format |>
                <| b_key_version := eb_key_version p |> <| b_last4 := eb_last4 p |>
                <| b_sort_order := eb_sort_order p |> <| b_version := b_version b + 1 |>).

(** ** payment_providers.sql: the accounts *)

Definition CountPaymentProviderAccounts : Tx Database Z := read (count_rows (fun _ : ProviderAccountRow => true)).

(** [ON CONFLICT DO NOTHING]: no UNIQUE constraint of the table is an error. *)
Definition CreatePaymentProviderAccount (provider environment external_account_identity : string)
    (external_identity_fingerprint : Bytes) (local_bank_account_id : Z) : Tx Database ProviderAccountRow :=
  now ← clock;
  insert_row_or_nothing (fun id =>
    mkProviderAccountRow id provider environment external_account_identity external_identity_fingerprint
      local_bank_account_id true 1 now now).

Definition LockPaymentProviderAccount (id : Z) : Tx Database ProviderAccountRow := get_row id.

(** [updated_at] is set by the table's trigger. *)
Definition SetPaymentProviderAccountStatusGuarded (active : bool) (id expected_version : Z) : Tx Database ProviderAccountRow :=
  now ← clock;
  update_row id
    (fun a => (pa_version a =? expected_version) && negb (bool_decide (pa_active a = active)))
    (fun a => a <| pa_active := active |> <| pa_version := pa_version a + 1 |> <| pa_updated_at := now |>).

Section Listings.
(** How the database orders text *)
Context (text_le : string -> string -> bool).

(** [ORDER BY mapping.provider, mapping.environment, mapping.id] *)
Definition by_provider (a b : ProviderAccountRow) : bool :=
  if negb (str_eqb (pa_provider a) (pa_provider b)) then text_le (pa_provider a) (pa_provider b)
  else if negb (str_eqb (pa_environment a) (pa_environment b)) then text_le (pa_environment a) (pa_environment b)
  else pa_id a <=? pa_id b.

(** [JOIN bank_accounts AS bank ON bank.id = mapping.local_bank_account_id] *)
Definition has_bank (d : Database) (a : ProviderAccountRow) : bool := is_some (rows BankAccountRow d !! pa_bank_account_id a).
Definition with_bank (d : Database) (l : list ProviderAccountRow) : list (ProviderAccountRow * BankAccountRow) :=
  omap (fun a => b ← rows BankAccountRow d !! pa_bank_account_id a; Some (a, b)) l.

Definition ListPaymentProviderAccounts (page_offset page_limit : Z) : Tx Database (list (ProviderAccountRow * BankAccountRow)) :=
  d ← read id;
  l ← page_of by_provider page_limit page_offset (select (has_bank d) d);
  mret (with_bank d l).

Definition ListActivePaymentProviderAccounts : Tx Database (list ProviderAccountRow) :=
  read (fun d => select_sorted (fun a => has_bank d a && pa_active a) by_provider d).
End Listings.

(** ** payment_providers.sql: the health of a provider *)

(** [max(x)] of the values that are not null *)
Definition max_of (l : list (option Time)) : option Time :=
  foldr (fun t m => match t, m with Some t, Some m => Some (Z.max t m) | Some t, None => Some t | None, m => m end) None l.

Definition accounts_of (provider environment : string) (d : Database) : list ProviderAccountRow :=
  select (fun a => str_eqb (pa_provider a) provider && str_eqb (pa_environment a) environment) d.
Definition checkpoints_of (provider environment : string) (d : Database) : list CheckpointRow :=
  select (fun c => existsb (fun a => pa_id a =? cp_account_id c) (accounts_of provider environment d)) d.
Definition pending_provider_event (provider environment : string) (e : PaymentEventRow) : bool :=
  str_eqb (ev_provider e) provider && str_eqb (ev_environment e) environment
  && (bool_decide (ev_status e = EventReceived) || bool_decide (ev_status e = EventProcessing)).
Definition provider_webhook (provider environment : string) (e : PaymentEventRow) : bool :=
  str_eqb (ev_provider e) provider && str_eqb (ev_environment e) environment && str_eqb (ev_source e) "webhook".
Definition open_provider_review (provider environment : string) (rc : ReviewCaseRow) : bool :=
  str_eqb (rc_provider rc) provider && str_eqb (rc_environment rc) environment
  && (bool_decide (rc_status rc = ReviewOpen) || bool_decide (rc_status rc = ReviewHeld)).

(** [ORDER BY last_attempted_at DESC NULLS LAST, id DESC] *)
Definition latest_attempt (a b : CheckpointRow) : bool :=
  match cp_last_attempted_at a, cp_last_attempted_at b with
  | Some t, Some t' => lex_le (t', cp_id b) (t, cp_id a)
  | Some _, None => true
  | None, Some _ => false
  | None, None => cp_id b <=? cp_id a
  end.

Record ProviderHealthRow := mkProviderHealthRow { ph_active_mappings : Z; ph_last_webhook_at : option Time;
    ph_last_attempt : option Time; ph_last_success : option Time; ph_last_error_code : option string;
    ph_last_transaction_at : option Time; ph_pending_events : Z; ph_open_reviews : Z }.

Definition GetPaymentProviderHealth (provider environment : string) : Tx Database ProviderHealthRow :=
  read (fun d =>
    let checkpoints := checkpoints_of provider environment d in
    mkProviderHealthRow
      (Z.of_nat (length (filter (fun a => pa_active a = true) (accounts_of provider environment d))))
      (max_of (map (fun e => Some (ev_received_at e)) (select (provider_webhook provider environment) d)))
      (max_of (map cp_last_attempted_at checkpoints))
      (max_of (map cp_last_successful_at checkpoints))
      (head (omap cp_error_code (merge_sort (ordered_by latest_attempt) checkpoints)))
      (max_of (map cp_last_occurred_at checkpoints))
      (count_rows (pending_provider_event provider environment) d)
      (count_rows (open_provider_review provider environment) d)).

#[export] Hint Unfold CountAdminBankAccounts CreateEncryptedBankAccount ListActiveBankAccountOptions
  ListAdminBankAccountsPage LockBankAccountByID SetBankAccountActiveGuarded UpdateEncryptedBankAccountGuarded
  CountPaymentProviderAccounts CreatePaymentProviderAccount LockPaymentProviderAccount
  SetPaymentProviderAccountStatusGuarded ListPaymentProviderAccounts ListActivePaymentProviderAccounts
  GetPaymentProviderHealth : tx_queries.
