(* ===== verification/Models.v ===== *)
(** * Application models

    The request and result types of [src/internal/app]: [models.go] and the types
    declared next to the services ([order_service.go], [wallet_service.go],
    [payment_acceptance_service.go], [delivery_service.go]). *)

From S2P Require Import Prelude Domain Schema.

Definition DefaultPageSize : Z := 8.
Definition MaxPageSize : Z := 20.
Definition DefaultDeliveryMaxAttempts : Z := 5.

(** [app.User] *)
Record AppUser := mkAppUser { us_id : Z; us_telegram_user_id : Z; us_username : string;
    us_display_name : string; us_status : UserStatus }.

(** [app.Admin] *)
Record Admin := mkAdmin { adm_id : Z; adm_user_id : Z; adm_telegram_user_id : Z; adm_role : string;
    adm_active : bool; adm_user_status : UserStatus }.

Definition CanOpenAdmin (a : Admin) : bool :=
  adm_active a && bool_decide (adm_user_status a = UserStatusActive).

Definition CanManageCatalog (a : Admin) : bool :=
  if negb (CanOpenAdmin a) then false else str_in (adm_role a) ["owner"; "admin"; "operator"].

Record PageInfo := mkPageInfo { pg_page : Z; pg_page_size : Z; pg_total_items : Z; pg_total_pages : Z }.

(** [int((total + int64(size) - 1) / int64(size))]: Go's division truncates. *)
Definition pageInfo (page size total : Z) : PageInfo :=
  let totalPages := if 0 <? total then Z.quot (wrap64 (total + size - 1)) size else 0 in
  mkPageInfo page size total totalPages.

Record AdminSession := mkAdminSession { ss_id : Z; ss_admin_id : Z; ss_state : string;
    ss_payload : string; ss_expires_at : Time; ss_version : Z }.

Record RequestMeta := mkRequestMeta { meta_request_id : string; meta_update_id : Z }.

Record InventoryClaimRequest := mkInventoryClaimRequest { icr_order_id : Z; icr_order_item_id : Z;
    icr_product_id : Z; icr_quantity : Z; icr_reserved_until : Time; icr_request_id : string }.
Record InventoryClaimResult := mkInventoryClaimResult { icl_order_id : Z; icl_item_ids : list Z; icl_count : Z }.
Record InventoryReleaseRequest := mkInventoryReleaseRequest { irr_order_id : Z;
    irr_reason : InventoryReleaseReason; irr_request_id : string }.
Record InventoryReleaseResult := mkInventoryReleaseResult { irl_order_id : Z; irl_released : Z;
    irl_reason : InventoryReleaseReason }.
Record InventoryRecoveryResult := mkInventoryRecoveryResult { irv_order_id : Z; irv_released : Z;
    irv_recovery_required : bool; irv_order_status : option OrderStatus }.

Record ProtectedBankAccountNumber := mkProtectedBankAccountNumber { pb_ciphertext : Bytes;
    pb_nonce : Bytes; pb_fingerprint : Bytes; pb_key_version : Z; pb_key_id : string; pb_format : string }.

(** [BankAccountRecord] with its embedded [BankAccountOption] *)
Record BankAccountRecord := mkBankAccountRecord { bk_id : Z; bk_bank_bin : string; bk_bank_name : string;
    bk_display_name : string; bk_account_name : string; bk_last4 : string; bk_sort_order : Z;
    bk_version : Z; bk_environment : string; bk_protected : ProtectedBankAccountNumber;
    bk_active : bool; bk_created_at : Time }.

Record OrderItemSnapshot := mkOrderItemSnapshot { it_id : Z; it_product_id : Z; it_name : string;
    it_unit_price : Z; it_quantity : Z; it_line_total : Z }.

Record OrderSummary := mkOrderSummary { os_id : Z; os_status : OrderStatus; os_total : Z;
    os_payment_reference : string; os_expires_at : Time; os_version : Z; os_created_at : Time;
    os_product_name : string; os_quantity : Z; os_delivery_status : string }.

Record OrderDetail := mkOrderDetail { od_id : Z; od_user_id : Z; od_status : OrderStatus;
    od_currency : string; od_subtotal : Z; od_total : Z; od_payment_reference : string;
    od_expires_at : Time; od_cancelled_at : Time; od_version : Z; od_created_at : Time;
    od_bank_account_id : Z; od_bank_bin : string; od_bank_name : string; od_bank_display_name : string;
    od_bank_account_name : string; od_bank_last4 : string; od_bank_protected : ProtectedBankAccountNumber;
    od_item : OrderItemSnapshot; od_delivery_status : string }.
#[export] Instance Eta_OrderDetail : Eta OrderDetail := fun r =>
    mkOrderDetail (od_id r) (od_user_id r) (od_status r) (od_currency r) (od_subtotal r) (od_total r)
    (od_payment_reference r) (od_expires_at r) (od_cancelled_at r) (od_version r) (od_created_at r)
    (od_bank_account_id r) (od_bank_bin r) (od_bank_name r) (od_bank_display_name r)
    (od_bank_account_name r) (od_bank_last4 r) (od_bank_protected r) (od_item r) (od_delivery_status r).

Record PaymentInstructionRequest := mkPaymentInstructionRequest { pir_bank_bin : string;
    pir_bank_name : string; pir_account_number : string; pir_account_name : string;
    pir_bank_display_name : string; pir_amount : Z; pir_payment_reference : string;
    pir_order_id : Z; pir_expires_at : Time }.
Record PaymentInstruction := mkPaymentInstruction { pin_image_url : string; pin_bank_display_name : string;
    pin_bank_name : string; pin_account_number : string; pin_account_name : string; pin_amount : Z;
    pin_transfer_content : string; pin_expires_at : Time }.

Record CreateOrderCommand := mkCreateOrderCommand { co_telegram_user_id : Z; co_product_id : Z;
    co_bank_account_id : Z; co_quantity : Z; co_idempotency_key : string; co_meta : RequestMeta }.
Record CancelOrderCommand := mkCancelOrderCommand { cc_telegram_user_id : Z; cc_order_id : Z;
    cc_expected_version : Z; cc_meta : RequestMeta }.

Record OrderProductRecord := mkOrderProductRecord { pr_id : Z; pr_name : string; pr_price : Z;
    pr_delivery_type : string; pr_product_active : bool; pr_category_active : bool }.
Record PendingOrderInsert := mkPendingOrderInsert { po_user_id : Z; po_product : OrderProductRecord;
    po_quantity : Z; po_line_total : Z; po_payment_reference : string; po_idempotency_key : string;
    po_expires_at : Time; po_bank : BankAccountRecord; po_environment : string }.

Record CreateOrderResult := mkCreateOrderResult { cr_order : OrderDetail; cr_instruction : PaymentInstruction;
    cr_duplicate : bool }.
Record CancelOrderResult := mkCancelOrderResult { cn_order : OrderDetail; cn_already_cancelled : bool }.
Record OrderPage := mkOrderPage { op_items : list OrderSummary; op_page : PageInfo }.

(** [validPaymentEnvironment] (payment_event_service.go) *)
Definition validPaymentEnvironment (e : string) : bool := str_in e ["development"; "test"; "production"].

(** ** payment_acceptance_service.go *)

Record PaymentActor := mkPaymentActor { pact_type : string; pact_id : Z }.

Record AcceptPaymentCommand := mkAcceptPaymentCommand { ap_event_id : Z; ap_provider : string;
    ap_external_event_id : string; ap_transaction_id : string; ap_reference : string; ap_amount : Z;
    ap_currency : string; ap_occurred_at : Time; ap_actor : PaymentActor; ap_request_id : string;
    ap_environment : string; ap_source : string; ap_mapping_id : Z; ap_bank_account_id : Z;
    ap_destination : string }.
#[export] Instance Eta_AcceptPaymentCommand : Eta AcceptPaymentCommand := fun r =>
    mkAcceptPaymentCommand (ap_event_id r) (ap_provider r) (ap_external_event_id r) (ap_transaction_id r)
    (ap_reference r) (ap_amount r) (ap_currency r) (ap_occurred_at r) (ap_actor r) (ap_request_id r)
    (ap_environment r) (ap_source r) (ap_mapping_id r) (ap_bank_account_id r) (ap_destination r).

Record PaymentAcceptanceResult := mkPaymentAcceptanceResult { res_payment_id : Z; res_order_id : Z;
    res_topup_id : Z; res_target : string; res_decision : string; res_reason : string; res_claimed : Z }.
#[export] Instance Eta_PaymentAcceptanceResult : Eta PaymentAcceptanceResult := fun r =>
    mkPaymentAcceptanceResult (res_payment_id r) (res_order_id r) (res_topup_id r) (res_target r)
    (res_decision r) (res_reason r) (res_claimed r).
(** Go's zero value *)
Definition zero_result : PaymentAcceptanceResult := mkPaymentAcceptanceResult 0 0 0 "" "" "" 0.

(** ** wallet_service.go *)

Record WalletAccount := mkWalletAccount { wa_id : Z; wa_user_id : Z; wa_balance : Z;
    wa_status : WalletStatus; wa_version : Z }.
Record WalletTopup := mkWalletTopup { wt_id : Z; wt_user_id : Z; wt_wallet_account_id : Z; wt_amount : Z;
    wt_currency : string; wt_payment_reference : string; wt_status : TopupStatus; wt_expires_at : Time;
    wt_version : Z; wt_bank_bin : string; wt_bank_name : string; wt_bank_display_name : string;
    wt_bank_account_name : string; wt_bank_last4 : string; wt_bank_protected : ProtectedBankAccountNumber }.
Record CreateWalletTopupCommand := mkCreateWalletTopupCommand { ct_telegram_user_id : Z; ct_amount : Z;
    ct_bank_account_id : Z; ct_idempotency_key : string; ct_meta : RequestMeta; ct_environment : string }.
Record WalletOrderPaymentCommand := mkWalletOrderPaymentCommand { wp_telegram_user_id : Z;
    wp_order_id : Z; wp_idempotency_key : string; wp_meta : RequestMeta }.
Record WalletOrderPaymentResult := mkWalletOrderPaymentResult { wr_order_id : Z; wr_balance : Z;
    wr_duplicate : bool; wr_claimed : Z }.
Record WalletAdjustmentCommand := mkWalletAdjustmentCommand { wj_admin_telegram_id : Z;
    wj_target_telegram_id : Z; wj_amount : Z; wj_debit : bool; wj_reason : string;
    wj_idempotency_key : string; wj_session : AdminSession; wj_meta : RequestMeta }.

(** ** delivery_service.go *)

Record DeliveryWorkItem := mkDeliveryWorkItem { wi_id : Z; wi_order_id : Z; wi_chat_id : Z;
    wi_attempts : Z; wi_max_attempts : Z }.
Record EncryptedDeliveryItem := mkEncryptedDeliveryItem { ed_id : Z; ed_product_id : Z;
    ed_ciphertext : Bytes; ed_nonce : Bytes; ed_format : string; ed_key_version : Z }.
Record DeliveryEnvelope := mkDeliveryEnvelope { de_job_id : Z; de_order_id : Z; de_chat_id : Z;
    de_telegram_user_id : Z; de_product_name : string; de_quantity : Z; de_attempts : Z; de_max_attempts : Z }.
Record DeliveryAttempt := mkDeliveryAttempt { dt_number : Z; dt_job_id : Z; dt_order_id : Z }.
Record DeliverySendResult := mkDeliverySendResult { sr_chat_id : Z; sr_message_id : Z;
    sr_sent_at : Time; sr_method : string }.
Record DeliverySuccess := mkDeliverySuccess { ds_result : DeliverySendResult; ds_completed_at : Time }.
Record DeliveryFailure := mkDeliveryFailure { df_class : DeliveryResultClass; df_code : string;
    df_summary : string; df_http_status : Z; df_telegram_error_code : Z; df_retry_after : Duration;
    df_next_attempt_at : Time; df_failed_at : Time }.
Definition no_failure : DeliveryFailure := mkDeliveryFailure (DeliveryResultOther "") "" "" 0 0 0 0 0.
Definition no_send_result : DeliverySendResult := mkDeliverySendResult 0 0 0 "".
Record DeliveryRecoveryResult := mkDeliveryRecoveryResult { drr_retryable : Z; drr_ambiguous : Z }.

(** ** update_service.go *)

Inductive UpdateClaim := UpdateClaimed | UpdateDuplicateCompleted | UpdateDuplicateProcessing.
#[export] Instance UpdateClaim_eq_dec : EqDecision UpdateClaim.
Proof. solve_decision. Defined.
