(* ===== verification/Config.v ===== *)
(** * Configuration

    [src/internal/config/config.go]: the settings of the two processes, read from the
    environment and validated.  The environment is a function ([os.Getenv], empty for an
    unset variable); [net/url] is an interface.  The problems found are collected in the
    order of the code (the required variables, which Go walks in no fixed order, as
    listed here). *)

From Stdlib Require Import Ascii SpecFloat.
From S2P Require Import Prelude Text Strconv Schema.

(** ** Settings *)

Record Config := mkConfig {
  AppEnv : string; HTTPAddr : string; DatabaseURL : string; TelegramBotToken : string;
  TelegramWebhookSecret : string; TelegramWebhookURL : string; TelegramWebhookBodyLimit : Z;
  TelegramWebhookTimeout : Duration; TelegramUpdateStaleAfter : Duration; AdminSessionTTL : Duration;
  TelegramAPITimeout : Duration; SupportContact : string; AdminTelegramIDs : list Z;
  InventoryEncryptionKey : list Z; InventoryEncryptionKeyVersion : Z; InventoryImportMaxItems : Z;
  InventoryImportMaxItemBytes : Z; InventoryImportMaxTotalBytes : Z; BankAccountEncryptionKey : list Z;
  BankAccountEncryptionVersion : Z; OrderExpiry : Duration; OrderMaxQuantity : Z; OrderExpiryInterval : Duration;
  OrderExpiryBatchSize : Z; OrderExpiryRunTimeout : Duration; PaymentReferencePrefix : string;
  PaymentReferenceRandomBytes : Z; VietQRBaseURL : string; VietQRTemplate : string; OrderPageSize : Z;
  BankAccountPageSize : Z; PaymentWebhookBodyLimit : Z; PaymentEventBatchSize : Z;
  PaymentEventPollInterval : Duration; PaymentEventRunTimeout : Duration; PaymentEventMaxAttempts : Z;
  PaymentEventRetryBase : Duration; PaymentStaleProcessingTimeout : Duration; PaymentProviders : list string;
  PaymentPrimaryProvider : string; PaymentProviderEnvironment : string; PaymentReconciliationEnabled : bool;
  PaymentReconciliationInterval : Duration; PaymentReconciliationRunTimeout : Duration;
  PaymentReconciliationRequestTimeout : Duration; PaymentReconciliationMaxPages : Z;
  PaymentReconciliationPageSize : Z; PaymentProviderReviewPageSize : Z; SignedJSONWebhookSecret : string;
  SignedJSONTimestampTolerance : Duration; WalletTopupMinAmount : Z; WalletTopupMaxAmount : Z;
  WalletTopupExpiry : Duration; WalletPageSize : Z; PaymentReviewPageSize : Z; DeliveryBatchSize : Z;
  DeliveryPollInterval : Duration; DeliveryRunTimeout : Duration; DeliveryJobTimeout : Duration;
  DeliveryProcessingLease : Duration; DeliveryMaxAttempts : Z; DeliveryRetryBase : Duration;
  DeliveryRetryMax : Duration; DeliveryRetryJitter : spec_float; DeliveryStaleScanInterval : Duration;
  DeliveryMessageMaxBytes : Z; DeliveryReviewPageSize : Z; LogLevel : Z; PrometheusEnabled : bool;
  ShutdownTimeout : Duration; DatabaseMaxConnections : Z; DatabaseMinConnections : Z;
  DatabaseConnectionTTL : Duration; DatabaseHealthTimeout : Duration }.
#[export] Instance Eta_Config : Eta Config := fun c => mkConfig
  (AppEnv c) (HTTPAddr c) (DatabaseURL c) (TelegramBotToken c) (TelegramWebhookSecret c) (TelegramWebhookURL c)
  (TelegramWebhookBodyLimit c) (TelegramWebhookTimeout c) (TelegramUpdateStaleAfter c) (AdminSessionTTL c)
  (TelegramAPITimeout c) (SupportContact c) (AdminTelegramIDs c) (InventoryEncryptionKey c)
  (InventoryEncryptionKeyVersion c) (InventoryImportMaxItems c) (InventoryImportMaxItemBytes c)
  (InventoryImportMaxTotalBytes c) (BankAccountEncryptionKey c) (BankAccountEncryptionVersion c) (OrderExpiry c)
  (OrderMaxQuantity c) (OrderExpiryInterval c) (OrderExpiryBatchSize c) (OrderExpiryRunTimeout c)
  (PaymentReferencePrefix c) (PaymentReferenceRandomBytes c) (VietQRBaseURL c) (VietQRTemplate c) (OrderPageSize c)
  (BankAccountPageSize c) (PaymentWebhookBodyLimit c) (PaymentEventBatchSize c) (PaymentEventPollInterval c)
  (PaymentEventRunTimeout c) (PaymentEventMaxAttempts c) (PaymentEventRetryBase c)
  (PaymentStaleProcessingTimeout c) (PaymentProviders c) (PaymentPrimaryProvider c) (PaymentProviderEnvironment c)
  (PaymentReconciliationEnabled c) (PaymentReconciliationInterval c) (PaymentReconciliationRunTimeout c)
  (PaymentReconciliationRequestTimeout c) (PaymentReconciliationMaxPages c) (PaymentReconciliationPageSize c)
  (PaymentProviderReviewPageSize c) (SignedJSONWebhookSecret c) (SignedJSONTimestampTolerance c)
  (WalletTopupMinAmount c) (WalletTopupMaxAmount c) (WalletTopupExpiry c) (WalletPageSize c)
  (PaymentReviewPageSize c) (DeliveryBatchSize c) (DeliveryPollInterval c) (DeliveryRunTimeout c)
  (DeliveryJobTimeout c) (DeliveryProcessingLease c) (DeliveryMaxAttempts c) (DeliveryRetryBase c)
  (DeliveryRetryMax c) (DeliveryRetryJitter c) (DeliveryStaleScanInterval c) (DeliveryMessageMaxBytes c)
  (DeliveryReviewPageSize c) (LogLevel c) (PrometheusEnabled c) (ShutdownTimeout c) (DatabaseMaxConnections c)
  (DatabaseMinConnections c) (DatabaseConnectionTTL c) (DatabaseHealthTimeout c).

Record MigrationConfig := mkMigrationConfig { mc_database_url : string; mc_migrations_dir : string }.

Inductive processKind := processAPI | processWorker.

(** A problem: a fixed message, a message about a value, or that of a variable *)
Inductive ConfigError :=
  | Message (text : string)
  | Unfit (value text : string)
  | Named (name : string) (e : ConfigError).

(** [net/url], as far as the bot calls it: the parts of a parsed URL and its text *)
Class NetURL (URL : Type) := {
  url_parse : string -> option URL;
  url_parse_request_uri : string -> option URL;
  url_scheme : URL -> string;
  url_host : URL -> string;
  url_path : URL -> string;
  url_with_path : URL -> string -> URL;
  url_query : URL -> gmap string (list string);
  url_encode : gmap string (list string) -> string;
  url_with_raw_query : URL -> string -> URL;
  url_string : URL -> string }.

Definition Second : Duration := 1000000000.
Definition Minute : Duration := 60 * Second.

(** ** Reading one variable *)

Definition unset (raw : string) : bool := str_eqb (TrimSpace raw) "".

Definition parsePositiveInt (raw : string) (fallback : Z) : ConfigError + Z :=
  if unset raw then inr fallback
  else match Atoi raw with
       | Some value => if value <=? 0 then inl (Message "must be a positive integer") else inr value
       | None => inl (Message "must be a positive integer")
       end.
Definition parsePositiveInt32 (raw : string) (fallback : Z) : ConfigError + Z :=
  if unset raw then inr fallback
  else match ParseInt 32 raw with
       | Some value => if value <=? 0 then inl (Message "must be a positive 32-bit integer") else inr value
       | None => inl (Message "must be a positive 32-bit integer")
       end.
Definition parsePositiveInt64 (raw : string) (fallback : Z) : ConfigError + Z :=
  if unset raw then inr fallback
  else match ParseInt 64 raw with
       | Some value => if value <=? 0 then inl (Message "must be a positive 64-bit integer") else inr value
       | None => inl (Message "must be a positive 64-bit integer")
       end.
Definition parseNonNegativeInt32 (raw : string) (fallback : Z) : ConfigError + Z :=
  if unset raw then inr fallback
  else match ParseInt 32 raw with
       | Some value => if value <? 0 then inl (Message "must be a non-negative integer") else inr value
       | None => inl (Message "must be a non-negative integer")
       end.
(** The multiplication by the unit is Go's, on 64 bits. *)
Definition parsePositiveDuration (raw : string) (unit fallback : Duration) : ConfigError + Duration :=
  match parsePositiveInt raw (Z.quot fallback unit) with
  | inl e => inl e
  | inr value => inr (wrap64 (value * unit))
  end.
(** Its only range is 0 to 1, which the message prints. *)
Definition parseFloatRange (raw : string) (fallback minimum maximum : spec_float) : ConfigError + spec_float :=
  if unset raw then inr fallback
  else match ParseFloat (TrimSpace raw) with
       | Some value =>
           if f64_lt value minimum || f64_lt maximum value then inl (Message "must be between 0.00 and 1.00") else inr value
       | None => inl (Message "must be between 0.00 and 1.00")
       end.
Definition parseLogLevel (raw : string) : ConfigError + Z :=
  if unset raw then inr 0
  else match ParseLevel (ToUpper (TrimSpace raw)) with
       | Some level => inr level
       | None => inl (Message "must be DEBUG, INFO, WARN, or ERROR")
       end.
Definition parseBool (raw : string) (fallback : bool) : ConfigError + bool :=
  if unset raw then inr fallback
  else match ParseBool raw with
       | Some value => inr value
       | None => inl (Message "must be true or false")
       end.
Definition parseEncryptionKey (raw : string) : ConfigError + list Z :=
  if unset raw then inr []
  else match DecodeString (TrimSpace raw) with
       | Some key => inr key
       | None => inl (Message "must be standard base64")
       end.

(** The ids of a list, each once, in the order of their first occurrence *)
Fixpoint admin_ids (seen ids : list Z) (items : list string) : ConfigError + list Z :=
  match items with
  | [] => inr ids
  | item :: items =>
      match ParseInt 64 (TrimSpace item) with
      | Some id =>
          if id <=? 0 then inl (Unfit item "is not a positive Telegram ID")
          else if bool_decide (id ∈ seen) then admin_ids seen ids items
          else admin_ids (id :: seen) (ids ++ [id]) items
      | None => inl (Unfit item "is not a positive Telegram ID")
      end
  end.
Definition parseAdminIDs (raw : string) : ConfigError + list Z :=
  if unset raw then inr [] else admin_ids [] [] (Split "," raw).

Fixpoint provider_names (seen providers : list string) (items : list string) : ConfigError + list string :=
  match items with
  | [] => inr providers
  | item :: items =>
      let name := ToLower (TrimSpace item) in
      if str_eqb name "" then inl (Message "contains a blank provider")
      else if bool_decide (name ∈ seen) then provider_names seen providers items
      else provider_names (name :: seen) (providers ++ [name]) items
  end.
Definition parsePaymentProviders (raw : string) : ConfigError + list string :=
  if unset raw then inr [] else provider_names [] [] (Split "," raw).

Definition providerEnvironmentForApp (appEnv : string) : string :=
  let environment := ToLower (TrimSpace appEnv) in
  if str_eqb environment "production" then "production"
  else if str_eqb environment "test" then "test" else "development".

(** The loops over the runes of a text that must be ASCII are loops over its bytes: a rune
    outside ASCII is refused, and so are its bytes. *)
Definition reference_char (r : Z) : bool := between 65 90 r || between 48 57 r.
Definition validReferencePrefix (value : string) : bool :=
  let value := TrimSpace (ToUpper value) in
  negb ((str_len value <? 1) || (12 <? str_len value)) && forallb reference_char (codes value).

Definition template_char (r : Z) : bool :=
  between 97 122 r || between 65 90 r || between 48 57 r || (r =? 45) || (r =? 95).
Definition validVietQRTemplate (value : string) : bool :=
  let value := TrimSpace value in
  negb ((str_len value <? 1) || (32 <? str_len value)) && forallb template_char (codes value).

Definition containsString (values : list string) (expected : string) : bool := existsb (str_eqb expected) values.

(** ** Loading *)

(** What has been read so far, and the problems *)
Record Loading := mkLoading { ld_config : Config; ld_problems : list ConfigError }.
Abbreviation Setting := (Loading -> Loading).

Definition assign {A} (name : string) (result : ConfigError + A) (target : A -> Config -> Config) : Setting := fun l =>
  match result with
  | inl e => mkLoading (ld_config l) (ld_problems l ++ [Named name e])
  | inr value => mkLoading (target value (ld_config l)) (ld_problems l)
  end.

(** An assignment that cannot fail *)
Definition put (change : Config -> Config) : Setting := fun l => mkLoading (change (ld_config l)) (ld_problems l).

Section Loading.
(** [os.Getenv] *)
Context (getenv : string -> string).

Definition envOrDefault (name fallback : string) : string :=
  let value := TrimSpace (getenv name) in if str_eqb value "" then fallback else value.

(** [cfg.F], read from its variable or left as it is *)
Definition positive_int (name : string) (f : Config -> Z) `{!Update f} : Setting := fun l =>
  assign name (parsePositiveInt (getenv name) (f (ld_config l))) (update f) l.
Definition positive_int32 (name : string) (f : Config -> Z) `{!Update f} : Setting := fun l =>
  assign name (parsePositiveInt32 (getenv name) (f (ld_config l))) (update f) l.
Definition positive_int64 (name : string) (f : Config -> Z) `{!Update f} : Setting := fun l =>
  assign name (parsePositiveInt64 (getenv name) (f (ld_config l))) (update f) l.
Definition non_negative_int32 (name : string) (f : Config -> Z) `{!Update f} : Setting := fun l =>
  assign name (parseNonNegativeInt32 (getenv name) (f (ld_config l))) (update f) l.
Definition duration (name : string) (unit : Duration) (f : Config -> Z) `{!Update f} : Setting := fun l =>
  assign name (parsePositiveDuration (getenv name) unit (f (ld_config l))) (update f) l.
Definition boolean (name : string) (f : Config -> bool) `{!Update f} : Setting := fun l =>
  assign name (parseBool (getenv name) (f (ld_config l))) (update f) l.
Definition key (name : string) (f : Config -> list Z) `{!Update f} : Setting :=
  assign name (parseEncryptionKey (getenv name)) (update f).

Definition one_fifth : spec_float := f64_div (f64_of_Z 1) (f64_of_Z 5).

Definition defaults : Config := {|
  AppEnv := (envOrDefault "APP_ENV" "local"); HTTPAddr := (envOrDefault "HTTP_ADDR" ":8080");
  DatabaseURL := (TrimSpace (getenv "DATABASE_URL"));
  TelegramBotToken := (TrimSpace (getenv "TELEGRAM_BOT_TOKEN"));
  TelegramWebhookSecret := (TrimSpace (getenv "TELEGRAM_WEBHOOK_SECRET"));
  TelegramWebhookURL := (TrimSpace (getenv "TELEGRAM_WEBHOOK_URL")); TelegramWebhookBodyLimit := 1048576;
  TelegramWebhookTimeout := (5 * Second); TelegramUpdateStaleAfter := (2 * Minute);
  AdminSessionTTL := (15 * Minute); TelegramAPITimeout := (5 * Second);
  SupportContact := (envOrDefault "SUPPORT_CONTACT" "Vui lòng liên hệ quản trị viên cửa hàng.");
  AdminTelegramIDs := []; InventoryEncryptionKey := []; InventoryEncryptionKeyVersion := 1;
  InventoryImportMaxItems := 100; InventoryImportMaxItemBytes := 4096; InventoryImportMaxTotalBytes := 262144;
  BankAccountEncryptionKey := []; BankAccountEncryptionVersion := 1; OrderExpiry := (15 * Minute);
  OrderMaxQuantity := 10; OrderExpiryInterval := (30 * Second); OrderExpiryBatchSize := 100;
  OrderExpiryRunTimeout := (10 * Second); PaymentReferencePrefix := "TS"; PaymentReferenceRandomBytes := 6;
  VietQRBaseURL := "https://img.vietqr.io/image/"; VietQRTemplate := "compact2"; OrderPageSize := 8;
  BankAccountPageSize := 8; PaymentWebhookBodyLimit := 1048576; PaymentEventBatchSize := 100;
  PaymentEventPollInterval := (5 * Second); PaymentEventRunTimeout := (10 * Second); PaymentEventMaxAttempts := 5;
  PaymentEventRetryBase := (5 * Second); PaymentStaleProcessingTimeout := (2 * Minute); PaymentProviders := [];
  PaymentPrimaryProvider := "";
  PaymentProviderEnvironment := (providerEnvironmentForApp (envOrDefault "APP_ENV" "local"));
  PaymentReconciliationEnabled := false; PaymentReconciliationInterval := Minute;
  PaymentReconciliationRunTimeout := (30 * Second); PaymentReconciliationRequestTimeout := (10 * Second);
  PaymentReconciliationMaxPages := 10; PaymentReconciliationPageSize := 100; PaymentProviderReviewPageSize := 8;
  SignedJSONWebhookSecret := ""; SignedJSONTimestampTolerance := (5 * Minute); WalletTopupMinAmount := 10000;
  WalletTopupMaxAmount := 10000000; WalletTopupExpiry := (15 * Minute); WalletPageSize := 8;
  PaymentReviewPageSize := 8; DeliveryBatchSize := 25; DeliveryPollInterval := (5 * Second);
  DeliveryRunTimeout := (30 * Second); DeliveryJobTimeout := (10 * Second);
  DeliveryProcessingLease := (2 * Minute); DeliveryMaxAttempts := 5; DeliveryRetryBase := (5 * Second);
  DeliveryRetryMax := (5 * Minute); DeliveryRetryJitter := one_fifth; DeliveryStaleScanInterval := (30 * Second);
  DeliveryMessageMaxBytes := 3500; DeliveryReviewPageSize := 8; LogLevel := 0; PrometheusEnabled := true;
  ShutdownTimeout := (10 * Second); DatabaseMaxConnections := 20; DatabaseMinConnections := 2;
  DatabaseConnectionTTL := (30 * Minute); DatabaseHealthTimeout := (2 * Second) |}.

(** [PAYMENT_ALLOWED_PROVIDERS] is the older name of [PAYMENT_PROVIDERS]. *)
Definition provider_list : string :=
  let providerList := getenv "PAYMENT_PROVIDERS" in
  if unset providerList then getenv "PAYMENT_ALLOWED_PROVIDERS" else providerList.

Definition delivery_settings : list Setting :=
  [ positive_int32 "DELIVERY_BATCH_SIZE" DeliveryBatchSize;
    duration "DELIVERY_POLL_INTERVAL" Second DeliveryPollInterval;
    duration "DELIVERY_RUN_TIMEOUT" Second DeliveryRunTimeout;
    duration "DELIVERY_JOB_TIMEOUT" Second DeliveryJobTimeout;
    duration "DELIVERY_PROCESSING_LEASE" Second DeliveryProcessingLease;
    positive_int32 "DELIVERY_MAX_ATTEMPTS" DeliveryMaxAttempts;
    duration "DELIVERY_RETRY_BASE" Second DeliveryRetryBase;
    duration "DELIVERY_RETRY_MAX" Second DeliveryRetryMax;
    (fun l => assign "DELIVERY_RETRY_JITTER" (parseFloatRange (getenv "DELIVERY_RETRY_JITTER")
      (DeliveryRetryJitter (ld_config l)) (f64_of_Z 0) (f64_of_Z 1)) (update DeliveryRetryJitter) l);
    duration "DELIVERY_STALE_SCAN_INTERVAL" Second DeliveryStaleScanInterval;
    positive_int "DELIVERY_MESSAGE_MAX_BYTES" DeliveryMessageMaxBytes;
    positive_int "DELIVERY_REVIEW_PAGE_SIZE" DeliveryReviewPageSize;
    assign "LOG_LEVEL" (parseLogLevel (getenv "LOG_LEVEL")) (update LogLevel);
    boolean "PROMETHEUS_ENABLED" PrometheusEnabled;
    duration "SHUTDOWN_TIMEOUT_SECONDS" Second ShutdownTimeout;
    positive_int32 "DATABASE_MAX_CONNECTIONS" DatabaseMaxConnections;
    non_negative_int32 "DATABASE_MIN_CONNECTIONS" DatabaseMinConnections;
    duration "DATABASE_CONNECTION_TTL_MINUTES" Minute DatabaseConnectionTTL;
    duration "DATABASE_HEALTH_TIMEOUT_SECONDS" Second DatabaseHealthTimeout ].

Definition payment_settings : list Setting :=
  [ positive_int32 "PAYMENT_EVENT_BATCH_SIZE" PaymentEventBatchSize;
    duration "PAYMENT_EVENT_POLL_INTERVAL" Second PaymentEventPollInterval;
    duration "PAYMENT_EVENT_RUN_TIMEOUT" Second PaymentEventRunTimeout;
    positive_int32 "PAYMENT_EVENT_MAX_ATTEMPTS" PaymentEventMaxAttempts;
    duration "PAYMENT_EVENT_RETRY_BASE" Second PaymentEventRetryBase;
    duration "PAYMENT_STALE_PROCESSING_TIMEOUT" Second PaymentStaleProcessingTimeout;
    positive_int "PAYMENT_REFERENCE_RANDOM_BYTES" PaymentReferenceRandomBytes;
    put (fun c => c <| PaymentReferencePrefix := envOrDefault "PAYMENT_REFERENCE_PREFIX" (PaymentReferencePrefix c) |>);
    assign "PAYMENT_PROVIDERS" (parsePaymentProviders provider_list) (update PaymentProviders);
    put (fun c => c <| PaymentPrimaryProvider := ToLower (TrimSpace (getenv "PAYMENT_PRIMARY_PROVIDER")) |>);
    put (fun c => c <| PaymentProviderEnvironment :=
      ToLower (envOrDefault "PAYMENT_PROVIDER_ENVIRONMENT" (PaymentProviderEnvironment c)) |>);
    boolean "PAYMENT_RECONCILIATION_ENABLED" PaymentReconciliationEnabled;
    duration "PAYMENT_RECONCILIATION_INTERVAL" Second PaymentReconciliationInterval;
    duration "PAYMENT_RECONCILIATION_RUN_TIMEOUT" Second PaymentReconciliationRunTimeout;
    duration "PAYMENT_RECONCILIATION_REQUEST_TIMEOUT" Second PaymentReconciliationRequestTimeout;
    positive_int "PAYMENT_RECONCILIATION_MAX_PAGES" PaymentReconciliationMaxPages;
    positive_int "PAYMENT_RECONCILIATION_PAGE_SIZE" PaymentReconciliationPageSize;
    positive_int "PAYMENT_PROVIDER_REVIEW_PAGE_SIZE" PaymentProviderReviewPageSize ].

Definition api_settings : list Setting :=
  [ positive_int64 "PAYMENT_WEBHOOK_BODY_LIMIT" PaymentWebhookBodyLimit;
    put (fun c => c <| SignedJSONWebhookSecret := TrimSpace (getenv "SIGNED_JSON_WEBHOOK_SECRET") |>);
    duration "SIGNED_JSON_TIMESTAMP_TOLERANCE" Second SignedJSONTimestampTolerance;
    positive_int64 "WALLET_TOPUP_MIN_AMOUNT" WalletTopupMinAmount;
    positive_int64 "WALLET_TOPUP_MAX_AMOUNT" WalletTopupMaxAmount;
    duration "WALLET_TOPUP_EXPIRE_MINUTES" Minute WalletTopupExpiry;
    positive_int "WALLET_PAGE_SIZE" WalletPageSize;
    positive_int "PAYMENT_REVIEW_PAGE_SIZE" PaymentReviewPageSize;
    duration "ORDER_EXPIRE_MINUTES" Minute OrderExpiry;
    positive_int32 "ORDER_MAX_QUANTITY" OrderMaxQuantity;
    positive_int "ORDER_PAGE_SIZE" OrderPageSize;
    positive_int "BANK_ACCOUNT_PAGE_SIZE" BankAccountPageSize;
    put (fun c => c <| VietQRBaseURL := envOrDefault "VIETQR_BASE_URL" (VietQRBaseURL c) |>);
    put (fun c => c <| VietQRTemplate := envOrDefault "VIETQR_TEMPLATE" (VietQRTemplate c) |>);
    assign "ADMIN_TELEGRAM_IDS" (parseAdminIDs (getenv "ADMIN_TELEGRAM_IDS")) (update AdminTelegramIDs);
    key "INVENTORY_ENCRYPTION_KEY" InventoryEncryptionKey;
    positive_int32 "INVENTORY_ENCRYPTION_KEY_VERSION" InventoryEncryptionKeyVersion;
    positive_int "INVENTORY_IMPORT_MAX_ITEMS" InventoryImportMaxItems;
    positive_int "INVENTORY_IMPORT_MAX_ITEM_BYTES" InventoryImportMaxItemBytes;
    positive_int "INVENTORY_IMPORT_MAX_TOTAL_BYTES" InventoryImportMaxTotalBytes;
    key "BANK_ACCOUNT_ENCRYPTION_KEY" BankAccountEncryptionKey;
    positive_int32 "BANK_ACCOUNT_ENCRYPTION_KEY_VERSION" BankAccountEncryptionVersion;
    positive_int64 "TELEGRAM_WEBHOOK_BODY_LIMIT_BYTES" TelegramWebhookBodyLimit;
    duration "TELEGRAM_WEBHOOK_TIMEOUT_SECONDS" Second TelegramWebhookTimeout;
    duration "TELEGRAM_UPDATE_STALE_SECONDS" Second TelegramUpdateStaleAfter;
    duration "ADMIN_SESSION_TTL_MINUTES" Minute AdminSessionTTL;
    duration "TELEGRAM_API_TIMEOUT_SECONDS" Second TelegramAPITimeout ].

Definition worker_settings : list Setting :=
  [ duration "TELEGRAM_API_TIMEOUT_SECONDS" Second TelegramAPITimeout;
    key "INVENTORY_ENCRYPTION_KEY" InventoryEncryptionKey;
    positive_int32 "INVENTORY_ENCRYPTION_KEY_VERSION" InventoryEncryptionKeyVersion;
    duration "ORDER_EXPIRY_INTERVAL" Second OrderExpiryInterval;
    positive_int32 "ORDER_EXPIRY_BATCH_SIZE" OrderExpiryBatchSize;
    duration "ORDER_EXPIRY_RUN_TIMEOUT" Second OrderExpiryRunTimeout ].

Definition settings (process : processKind) : list Setting :=
  (delivery_settings ++ payment_settings
   ++ match process with processAPI => api_settings | processWorker => worker_settings end)%list.

(** ** Validation *)

Section Validation.
Context {URL : Type} `{NetURL URL}.

Definition when (b : bool) (text : string) : list ConfigError := if b then [Message text] else [].

Definition required_variables (cfg : Config) (process : processKind) : list (string * string) :=
  match process with
  | processAPI =>
      [("DATABASE_URL"%string, DatabaseURL cfg); ("TELEGRAM_BOT_TOKEN"%string, TelegramBotToken cfg);
       ("TELEGRAM_WEBHOOK_SECRET"%string, TelegramWebhookSecret cfg); ("TELEGRAM_WEBHOOK_URL"%string, TelegramWebhookURL cfg)]
  | processWorker => [("DATABASE_URL"%string, DatabaseURL cfg); ("TELEGRAM_BOT_TOKEN"%string, TelegramBotToken cfg)]
  end.
Definition validate_required (cfg : Config) (process : processKind) : list ConfigError :=
  flat_map (fun '(name, value) => if str_eqb value "" then [Named name (Message "is required")] else [])
    (required_variables cfg process).

Definition validate_webhook_url (cfg : Config) : list ConfigError :=
  if str_eqb (TelegramWebhookURL cfg) "" then []
  else match url_parse_request_uri (TelegramWebhookURL cfg) with
       | None => [Message "TELEGRAM_WEBHOOK_URL must be an absolute URL"]
       | Some webhookURL =>
           if str_eqb (url_host webhookURL) "" then [Message "TELEGRAM_WEBHOOK_URL must be an absolute URL"]
           else when (str_eqb (AppEnv cfg) "production" && negb (str_eqb (url_scheme webhookURL) "https"))
                  "TELEGRAM_WEBHOOK_URL must use HTTPS in production"
       end.

(** The checks of the API before and after the one of the support contact *)
Definition validate_webhooks (cfg : Config) : list ConfigError :=
  when (str_eqb (HTTPAddr cfg) "") "HTTP_ADDR is required"
  ++ when ((0 <? str_len (TelegramWebhookSecret cfg)) && (str_len (TelegramWebhookSecret cfg) <? 16))
       "TELEGRAM_WEBHOOK_SECRET must contain at least 16 characters"
  ++ validate_webhook_url cfg
  ++ when ((TelegramWebhookBodyLimit cfg <? 1024) || (10485760 <? TelegramWebhookBodyLimit cfg))
       "TELEGRAM_WEBHOOK_BODY_LIMIT_BYTES must be between 1024 and 10485760"
  ++ when ((PaymentWebhookBodyLimit cfg <? 1024) || (10485760 <? PaymentWebhookBodyLimit cfg))
       "PAYMENT_WEBHOOK_BODY_LIMIT must be between 1024 and 10485760".

Definition validate_provider (cfg : Config) (provider : string) : list ConfigError :=
  (if str_eqb provider "signed_json" then [] else [Unfit provider "PAYMENT_PROVIDERS contains unsupported provider"])
  ++ when (str_eqb provider "signed_json" && (str_len (SignedJSONWebhookSecret cfg) <? 16))
       "SIGNED_JSON_WEBHOOK_SECRET must contain at least 16 characters when signed_json is enabled".

Definition valid_vietqr (cfg : Config) : bool :=
  match url_parse (VietQRBaseURL cfg) with
  | Some vietQRURL =>
      str_eqb (url_scheme vietQRURL) "https" && negb (str_eqb (url_host vietQRURL) "")
      && validVietQRTemplate (VietQRTemplate cfg)
  | None => false
  end.

Definition validate_api (cfg : Config) : list ConfigError :=
  flat_map (validate_provider cfg) (PaymentProviders cfg)
  ++ when (str_eqb (PaymentProviderEnvironment cfg) "production" && containsString (PaymentProviders cfg) "signed_json")
       "signed_json cannot be enabled in production"
  ++ when (Nat.eqb (length (AdminTelegramIDs cfg)) 0) "ADMIN_TELEGRAM_IDS must contain at least one positive ID"
  ++ when (negb (Nat.eqb (length (InventoryEncryptionKey cfg)) 32))
       "INVENTORY_ENCRYPTION_KEY must decode to exactly 32 bytes"
  ++ when (InventoryEncryptionKeyVersion cfg <=? 0) "INVENTORY_ENCRYPTION_KEY_VERSION must be positive"
  ++ when (InventoryImportMaxTotalBytes cfg <? InventoryImportMaxItemBytes cfg)
       "INVENTORY_IMPORT_MAX_ITEM_BYTES cannot exceed INVENTORY_IMPORT_MAX_TOTAL_BYTES"
  ++ when (negb (Nat.eqb (length (BankAccountEncryptionKey cfg)) 32))
       "BANK_ACCOUNT_ENCRYPTION_KEY must decode to exactly 32 bytes"
  ++ when (BankAccountEncryptionVersion cfg <=? 0) "BANK_ACCOUNT_ENCRYPTION_KEY_VERSION must be positive"
  ++ when ((OrderMaxQuantity cfg <=? 0) || (1000 <? OrderMaxQuantity cfg)) "ORDER_MAX_QUANTITY must be between 1 and 1000"
  ++ when ((20 <? OrderPageSize cfg) || (20 <? BankAccountPageSize cfg)) "order and bank page sizes must not exceed 20"
  ++ when ((WalletTopupMaxAmount cfg <? WalletTopupMinAmount cfg) || (20 <? WalletPageSize cfg)
           || (20 <? PaymentReviewPageSize cfg)) "wallet amount limits or page sizes are invalid"
  ++ when (negb (valid_vietqr cfg)) "VietQR configuration is invalid".

Definition validate_worker (cfg : Config) : list ConfigError :=
  when ((OrderExpiryBatchSize cfg <=? 0) || (1000 <? OrderExpiryBatchSize cfg))
    "ORDER_EXPIRY_BATCH_SIZE must be between 1 and 1000"
  ++ when (negb (Nat.eqb (length (InventoryEncryptionKey cfg)) 32) || (InventoryEncryptionKeyVersion cfg <=? 0))
       "worker inventory encryption key configuration is invalid".

Definition validate_common (cfg : Config) : list ConfigError :=
  when (negb (str_eqb (PaymentProviderEnvironment cfg) "development") && negb (str_eqb (PaymentProviderEnvironment cfg) "test")
        && negb (str_eqb (PaymentProviderEnvironment cfg) "production"))
    "PAYMENT_PROVIDER_ENVIRONMENT must be development, test, or production"
  ++ when ((PaymentReferenceRandomBytes cfg <? 4) || (24 <? PaymentReferenceRandomBytes cfg)
           || negb (validReferencePrefix (PaymentReferencePrefix cfg))) "payment reference configuration is invalid"
  ++ when (negb (str_eqb (PaymentPrimaryProvider cfg) "")
           && negb (containsString (PaymentProviders cfg) (PaymentPrimaryProvider cfg)))
       "PAYMENT_PRIMARY_PROVIDER must be present in PAYMENT_PROVIDERS"
  ++ when ((100 <? PaymentReconciliationMaxPages cfg) || (1000 <? PaymentReconciliationPageSize cfg)
           || (20 <? PaymentProviderReviewPageSize cfg)
           || (PaymentReconciliationRunTimeout cfg <=? PaymentReconciliationRequestTimeout cfg))
       "payment provider reconciliation configuration is outside its safe range"
  ++ when ((PaymentEventBatchSize cfg <=? 0) || (1000 <? PaymentEventBatchSize cfg)
           || (PaymentEventMaxAttempts cfg <=? 0) || (100 <? PaymentEventMaxAttempts cfg))
       "payment event batch size or max attempts is outside its safe range"
  ++ when ((DeliveryBatchSize cfg <=? 0) || (100 <? DeliveryBatchSize cfg)
           || (DeliveryMaxAttempts cfg <=? 0) || (20 <? DeliveryMaxAttempts cfg))
       "delivery batch size or max attempts is outside its safe range"
  ++ when ((DeliveryRetryMax cfg <? DeliveryRetryBase cfg) || (DeliveryProcessingLease cfg <=? TelegramAPITimeout cfg)
           || (DeliveryProcessingLease cfg <=? DeliveryJobTimeout cfg))
       "delivery retry or processing lease configuration is invalid"
  ++ when ((DeliveryMessageMaxBytes cfg <? 512) || (4096 <? DeliveryMessageMaxBytes cfg)
           || (20 <? DeliveryReviewPageSize cfg)) "delivery message limit or review page size is invalid"
  ++ when (DatabaseMaxConnections cfg <? DatabaseMinConnections cfg)
       "DATABASE_MIN_CONNECTIONS cannot exceed DATABASE_MAX_CONNECTIONS".

Definition validate (cfg : Config) (process : processKind) : list ConfigError :=
  validate_required cfg process
  ++ match process with processAPI => validate_webhooks cfg | processWorker => [] end
  ++ when (str_eqb (TrimSpace (SupportContact cfg)) "" || (200 <? rune_count (SupportContact cfg)))
       "SUPPORT_CONTACT must contain 1 to 200 characters"
  ++ match process with processAPI => validate_api cfg | processWorker => validate_worker cfg end
  ++ validate_common cfg.

(** [load]: all the problems at once, or the configuration *)
Definition load (process : processKind) : list ConfigError + Config :=
  let l := fold_left (fun l setting => setting l) (settings process) (mkLoading defaults []) in
  match (ld_problems l ++ validate (ld_config l) process)%list with
  | [] => inr (ld_config l)
  | problems => inl problems
  end.
Definition LoadAPI : list ConfigError + Config := load processAPI.
Definition LoadWorker : list ConfigError + Config := load processWorker.
End Validation.

Definition LoadMigration : ConfigError + MigrationConfig :=
  let cfg := mkMigrationConfig (TrimSpace (getenv "DATABASE_URL")) (envOrDefault "MIGRATIONS_DIR" "migrations") in
  if str_eqb (mc_database_url cfg) "" then inl (Message "DATABASE_URL is required")
  else if str_eqb (TrimSpace (mc_migrations_dir cfg)) "" then inl (Message "MIGRATIONS_DIR is required")
  else inr cfg.
End Loading.

(** ** What a loaded configuration guarantees

    A configuration that loads has every number and every page size positive and in the
    range the services ask for, and every duration positive as long as none of those
    written in the environment is longer than a century.  One that overflows an int64 of
    nanoseconds is not noticed ([overflowing_interval_loads] of [Started]). *)

(** ** Loading as a sequence of settings *)

(** What holds of the defaults and is kept by every setting holds of the configuration. *)
Lemma load_keeps getenv {URL} `{NetURL URL} (P : Config -> Prop) process cfg :
  P (defaults getenv) ->
  Forall (fun s : Setting => forall l, P (ld_config l) -> P (ld_config (s l))) (settings getenv process) ->
  load getenv process = inr cfg -> P cfg /\ validate cfg process = [].
Proof.
  intros Hd Hs. assert (forall s l, Forall (fun s : Setting => forall l, P (ld_config l) -> P (ld_config (s l))) s ->
    P (ld_config l) -> P (ld_config (fold_left (fun l setting => setting l) s l))) as Hfold.
  { clear. intros s l Hs. revert l. induction Hs as [|x s Hx Hs IH]; intros l Hl; simpl; auto. }
  pose proof (Hfold _ (mkLoading (defaults getenv) []) Hs Hd) as Hw. revert Hw. unfold load.
  generalize (fold_left (fun l setting => setting l) (settings getenv process) (mkLoading (defaults getenv) [])).
  intros l Hw. destruct (ld_problems l ++ validate (ld_config l) process)%list eqn:E; [|done].
  apply app_eq_nil in E as [_ Hv]. by intros [= <-].
Qed.

(** ** The numbers and the durations *)

Definition numbers : list (Config -> Z) :=
  [DeliveryBatchSize; DeliveryMaxAttempts; DeliveryMessageMaxBytes; DeliveryReviewPageSize; DatabaseMaxConnections;
   PaymentEventBatchSize; PaymentEventMaxAttempts; PaymentReferenceRandomBytes; PaymentReconciliationMaxPages;
   PaymentReconciliationPageSize; PaymentProviderReviewPageSize; PaymentWebhookBodyLimit; WalletTopupMinAmount;
   WalletTopupMaxAmount; WalletPageSize; PaymentReviewPageSize; OrderMaxQuantity; OrderPageSize;
   BankAccountPageSize; InventoryEncryptionKeyVersion; InventoryImportMaxItems; InventoryImportMaxItemBytes;
   InventoryImportMaxTotalBytes; BankAccountEncryptionVersion; TelegramWebhookBodyLimit; OrderExpiryBatchSize].

Definition durations : list (string * Duration * (Config -> Duration)) :=
  [("DELIVERY_POLL_INTERVAL"%string, Second, DeliveryPollInterval);
   ("DELIVERY_RUN_TIMEOUT"%string, Second, DeliveryRunTimeout);
   ("DELIVERY_JOB_TIMEOUT"%string, Second, DeliveryJobTimeout);
   ("DELIVERY_PROCESSING_LEASE"%string, Second, DeliveryProcessingLease);
   ("DELIVERY_RETRY_BASE"%string, Second, DeliveryRetryBase);
   ("DELIVERY_RETRY_MAX"%string, Second, DeliveryRetryMax);
   ("DELIVERY_STALE_SCAN_INTERVAL"%string, Second, DeliveryStaleScanInterval);
   ("SHUTDOWN_TIMEOUT_SECONDS"%string, Second, ShutdownTimeout);
   ("DATABASE_CONNECTION_TTL_MINUTES"%string, Minute, DatabaseConnectionTTL);
   ("DATABASE_HEALTH_TIMEOUT_SECONDS"%string, Second, DatabaseHealthTimeout);
   ("PAYMENT_EVENT_POLL_INTERVAL"%string, Second, PaymentEventPollInterval);
   ("PAYMENT_EVENT_RUN_TIMEOUT"%string, Second, PaymentEventRunTimeout);
   ("PAYMENT_EVENT_RETRY_BASE"%string, Second, PaymentEventRetryBase);
   ("PAYMENT_STALE_PROCESSING_TIMEOUT"%string, Second, PaymentStaleProcessingTimeout);
   ("PAYMENT_RECONCILIATION_INTERVAL"%string, Second, PaymentReconciliationInterval);
   ("PAYMENT_RECONCILIATION_RUN_TIMEOUT"%string, Second, PaymentReconciliationRunTimeout);
   ("PAYMENT_RECONCILIATION_REQUEST_TIMEOUT"%string, Second, PaymentReconciliationRequestTimeout);
   ("SIGNED_JSON_TIMESTAMP_TOLERANCE"%string, Second, SignedJSONTimestampTolerance);
   ("WALLET_TOPUP_EXPIRE_MINUTES"%string, Minute, WalletTopupExpiry);
   ("ORDER_EXPIRE_MINUTES"%string, Minute, OrderExpiry);
   ("TELEGRAM_WEBHOOK_TIMEOUT_SECONDS"%string, Second, TelegramWebhookTimeout);
   ("TELEGRAM_UPDATE_STALE_SECONDS"%string, Second, TelegramUpdateStaleAfter);
   ("ADMIN_SESSION_TTL_MINUTES"%string, Minute, AdminSessionTTL);
   ("TELEGRAM_API_TIMEOUT_SECONDS"%string, Second, TelegramAPITimeout);
   ("ORDER_EXPIRY_INTERVAL"%string, Second, OrderExpiryInterval);
   ("ORDER_EXPIRY_RUN_TIMEOUT"%string, Second, OrderExpiryRunTimeout)].

(** A hundred years of 365 days, in nanoseconds: an int64 holds two of them. *)
Definition century : Duration := 100 * 365 * 24 * 60 * Minute.

Section Guarantees.
Context (getenv : string -> string).

(** The number in a variable is one of at most a century. *)
Definition fits (name : string) (unit : Duration) : bool :=
  match Atoi (getenv name) with Some v => v * unit <=? century | None => true end.
Definition durations_fit : bool := forallb (fun '(name, unit, _) => fits name unit) durations.

Definition proper_ratio (f : spec_float) : Prop := f64_lt f (f64_of_Z 0) = false /\ f64_lt (f64_of_Z 1) f = false.

(** [P] of every element, as a conjunction that computes *)
Fixpoint each {A} (P : A -> Prop) (l : list A) : Prop :=
  match l with [] => True | x :: l => P x /\ each P l end.

(** What reading establishes, before any validation *)
Definition well_set (c : Config) : Prop :=
  each (fun f => 0 < f c) numbers /\ each (fun '(_, unit, f) => unit <= f c <= century) durations /\
  0 <= DatabaseMinConnections c /\ proper_ratio (DeliveryRetryJitter c) /\ NoDup (PaymentProviders c).

(** ** Reading one variable *)

Lemma parsePositiveInt_pos raw fallback v : 0 < fallback -> parsePositiveInt raw fallback = inr v -> 0 < v.
Proof.
  unfold parsePositiveInt. intros Hf. destruct (unset raw); [congruence|]. destruct (Atoi raw) as [z|]; [|done].
  destruct (Z.leb_spec z 0); congruence.
Qed.
Lemma parsePositiveInt32_pos raw fallback v : 0 < fallback -> parsePositiveInt32 raw fallback = inr v -> 0 < v.
Proof.
  unfold parsePositiveInt32. intros Hf. destruct (unset raw); [congruence|]. destruct (ParseInt 32 raw) as [z|]; [|done].
  destruct (Z.leb_spec z 0); congruence.
Qed.
Lemma parsePositiveInt64_pos raw fallback v : 0 < fallback -> parsePositiveInt64 raw fallback = inr v -> 0 < v.
Proof.
  unfold parsePositiveInt64. intros Hf. destruct (unset raw); [congruence|]. destruct (ParseInt 64 raw) as [z|]; [|done].
  destruct (Z.leb_spec z 0); congruence.
Qed.
Lemma parseNonNegativeInt32_nonneg raw fallback v : 0 <= fallback -> parseNonNegativeInt32 raw fallback = inr v -> 0 <= v.
Proof.
  unfold parseNonNegativeInt32. intros Hf. destruct (unset raw); [congruence|]. destruct (ParseInt 32 raw) as [z|]; [|done].
  destruct (Z.ltb_spec z 0); [done|congruence].
Qed.

Lemma parsePositiveDuration_range name unit fallback v :
  fits name unit = true -> 0 < unit -> unit <= fallback <= century ->
  parsePositiveDuration (getenv name) unit fallback = inr v -> unit <= v <= century.
Proof.
  unfold parsePositiveDuration, fits, parsePositiveInt. intros Hfit Hu Hf. destruct (unset (getenv name)).
  - intros [= <-]. assert (1 <= Z.quot fallback unit) by (apply Z.quot_le_lower_bound; lia).
    assert (Z.quot fallback unit * unit <= fallback) by (rewrite Z.mul_comm; apply Z.mul_quot_le; lia).
    rewrite wrap64_id by (unfold int64_min, int64_max, century, Minute, Second in *; nia). nia.
  - destruct (Atoi (getenv name)) as [z|]; [|done]. destruct (Z.leb_spec z 0); [done|]. intros [= <-].
    apply Z.leb_le in Hfit. rewrite wrap64_id by (unfold int64_min, int64_max, century, Minute, Second in *; nia). nia.
Qed.

Lemma parseFloatRange_proper raw fallback v :
  proper_ratio fallback -> parseFloatRange raw fallback (f64_of_Z 0) (f64_of_Z 1) = inr v -> proper_ratio v.
Proof.
  unfold parseFloatRange. intros Hf. destruct (unset raw); [congruence|]. destruct (ParseFloat _) as [f|]; [|done].
  destruct (f64_lt f _) eqn:Hlo; [done|]. destruct (f64_lt _ f) eqn:Hhi; [done|]. simpl. intros [= <-]. done.
Qed.

Lemma provider_names_NoDup seen providers items v :
  NoDup providers -> (forall p, p ∈ providers -> p ∈ seen) -> provider_names seen providers items = inr v -> NoDup v.
Proof.
  revert seen providers. induction items as [|item items IH]; intros seen providers Hnd Hin; simpl; [congruence|].
  destruct (str_eqb _ _); [done|]. destruct (bool_decide_reflect (ToLower (TrimSpace item) ∈ seen)) as [|Hnew]; [by apply IH|].
  apply IH.
  - apply NoDup_app. split_and!; [done | | apply NoDup_singleton]. intros p Hp ->%list_elem_of_singleton. auto.
  - intros p [Hp|Hp%list_elem_of_singleton]%elem_of_app; [right; auto | subst; left].
Qed.
Lemma parsePaymentProviders_NoDup raw v : parsePaymentProviders raw = inr v -> NoDup v.
Proof.
  unfold parsePaymentProviders. destruct (unset raw); [intros [= <-]; apply NoDup_nil_2|].
  apply provider_names_NoDup; [apply NoDup_nil_2 | by intros p ?%not_elem_of_nil].
Qed.

(** ** Every setting *)

Lemma assign_ok {A} name (result : ConfigError + A) target l :
  well_set (ld_config l) -> (forall v, result = inr v -> well_set (target v (ld_config l))) ->
  well_set (ld_config (assign name result target l)).
Proof. unfold assign. intros Hl Hr. destruct result as [e|v]; simpl; auto. Qed.

Definition keeps_set (s : Setting) : Prop := forall l, well_set (ld_config l) -> well_set (ld_config (s l)).

(** Changing a field to a value it may have *)
Ltac frame :=
  intros;
  match goal with
  | c : Config, H : well_set ?c' |- _ =>
      destruct c; unfold well_set, numbers, durations in *; cbn -[Z.lt Z.le Z.mul] in *; destruct_and? H; split_and?; first [assumption | done | lia]
  end.

Section Kinds.
Context (name : string) (f : Config -> Z) `{!Update f}.

Lemma positive_int_ok :
  (forall c, well_set c -> 0 < f c) -> (forall v c, 0 < v -> well_set c -> well_set (update f v c)) ->
  keeps_set (positive_int getenv name f).
Proof. intros Hf Hu l Hl. apply assign_ok; [done|]. intros v Hv%parsePositiveInt_pos; auto. Qed.
Lemma positive_int32_ok :
  (forall c, well_set c -> 0 < f c) -> (forall v c, 0 < v -> well_set c -> well_set (update f v c)) ->
  keeps_set (positive_int32 getenv name f).
Proof. intros Hf Hu l Hl. apply assign_ok; [done|]. intros v Hv%parsePositiveInt32_pos; auto. Qed.
Lemma positive_int64_ok :
  (forall c, well_set c -> 0 < f c) -> (forall v c, 0 < v -> well_set c -> well_set (update f v c)) ->
  keeps_set (positive_int64 getenv name f).
Proof. intros Hf Hu l Hl. apply assign_ok; [done|]. intros v Hv%parsePositiveInt64_pos; auto. Qed.
Lemma non_negative_int32_ok :
  (forall c, well_set c -> 0 <= f c) -> (forall v c, 0 <= v -> well_set c -> well_set (update f v c)) ->
  keeps_set (non_negative_int32 getenv name f).
Proof. intros Hf Hu l Hl. apply assign_ok; [done|]. intros v Hv%parseNonNegativeInt32_nonneg; auto. Qed.
Lemma duration_ok unit :
  fits name unit = true -> 0 < unit -> (forall c, well_set c -> unit <= f c <= century) ->
  (forall v c, unit <= v <= century -> well_set c -> well_set (update f v c)) ->
  keeps_set (duration getenv name unit f).
Proof. intros Hfit Hu Hf Hset l Hl. apply assign_ok; [done|]. intros v Hv%parsePositiveDuration_range; auto. Qed.
End Kinds.

Lemma put_ok change : (forall c, well_set c -> well_set (change c)) -> keeps_set (put change).
Proof. intros Hc l Hl. by apply Hc. Qed.
Lemma assigned_ok {A} name (result : ConfigError + A) target :
  (forall v c, well_set c -> well_set (target v c)) -> keeps_set (assign name result target).
Proof. intros Ht l Hl. apply assign_ok; auto. Qed.

Ltac setting :=
  lazymatch goal with
  | |- keeps_set (positive_int _ _ _) => apply positive_int_ok; frame
  | |- keeps_set (positive_int32 _ _ _) => apply positive_int32_ok; frame
  | |- keeps_set (positive_int64 _ _ _) => apply positive_int64_ok; frame
  | |- keeps_set (non_negative_int32 _ _ _) => apply non_negative_int32_ok; frame
  | |- keeps_set (duration _ _ _ _) => apply duration_ok; [assumption | done | frame | frame]
  | |- keeps_set (put _) => apply put_ok; frame
  | |- keeps_set (assign "PAYMENT_PROVIDERS" _ _) =>
      intros l Hl; apply assign_ok; [done|]; intros v Hv%parsePaymentProviders_NoDup; revert Hv Hl; generalize (ld_config l); frame
  | |- keeps_set (assign _ _ _) => apply assigned_ok; frame
  | |- keeps_set (boolean _ _ _) => intros l Hl; apply assign_ok; [done|]; intros v _; revert Hl; generalize (ld_config l); frame
  | |- keeps_set (key _ _ _) => apply assigned_ok; frame
  | |- _ =>
      intros l Hl; apply assign_ok; [done|]; intros v Hv;
      apply parseFloatRange_proper in Hv; [|unfold well_set in Hl; tauto]; revert Hv Hl; generalize (ld_config l); frame
  end.

Hypothesis Hfit : durations_fit = true.

Lemma each_forallb {A} (p : A -> bool) l : forallb p l = true -> each (fun x => p x = true) l.
Proof. induction l as [|x l IH]; [done|]. simpl. rewrite andb_true_iff. intros [Hx Hl]. auto. Qed.
Lemma all_fit : each (fun '(name, unit, _) => fits name unit = true) durations.
Proof. pose proof (each_forallb _ _ Hfit) as H. exact H. Qed.

Ltac settings :=
  pose proof all_fit as Hall; unfold durations in Hall; cbn in Hall; destruct_and? Hall;
  repeat apply Forall_cons_2; try apply Forall_nil_2; setting.

Lemma delivery_settings_ok : Forall keeps_set (delivery_settings getenv).
Proof. unfold delivery_settings. settings. Qed.
Lemma payment_settings_ok : Forall keeps_set (payment_settings getenv).
Proof. unfold payment_settings. settings. Qed.
Lemma api_settings_ok : Forall keeps_set (api_settings getenv).
Proof. unfold api_settings. settings. Qed.
Lemma worker_settings_ok : Forall keeps_set (worker_settings getenv).
Proof. unfold worker_settings. settings. Qed.

Lemma defaults_well_set : well_set (defaults getenv).
Proof. unfold well_set, proper_ratio. cbn -[Z.lt Z.le]. split_and?; try done. apply NoDup_nil_2. Qed.

(** ** What a loaded configuration is *)

Lemma load_ok {URL} `{NetURL URL} process cfg :
  load getenv process = inr cfg -> well_set cfg /\ validate cfg process = [].
Proof.
  apply load_keeps; [apply defaults_well_set|]. unfold settings. rewrite !Forall_app.
  split_and!; [apply delivery_settings_ok | apply payment_settings_ok |].
  destruct process; [apply api_settings_ok | apply worker_settings_ok].
Qed.
End Guarantees.

Lemma when_nil b text : when b text = [] <-> b = false.
Proof. by destruct b. Qed.

(** A validation that finds nothing, as the list of its checks *)
Ltac passed H :=
  repeat (apply app_eq_nil in H; let H' := fresh "V" in destruct H as [H' H]; try apply when_nil in H'); try apply when_nil in H;
  repeat match goal with
  | V : (_ || _) = false |- _ => apply orb_false_iff in V; let V' := fresh "V" in destruct V as [V' V]
  | V : negb _ = false |- _ => apply negb_false_iff in V
  end.

Section Validated.
Context {URL : Type} `{NetURL URL} (cfg : Config).

Lemma common_ok : validate_common cfg = [] ->
  In (PaymentProviderEnvironment cfg) ["development"; "test"; "production"]%string /\
  4 <= PaymentReferenceRandomBytes cfg <= 24 /\ validReferencePrefix (PaymentReferencePrefix cfg) = true /\
  PaymentReconciliationMaxPages cfg <= 100 /\ PaymentReconciliationPageSize cfg <= 1000 /\
  PaymentReconciliationRequestTimeout cfg < PaymentReconciliationRunTimeout cfg /\
  0 < PaymentEventBatchSize cfg /\ 0 < DeliveryBatchSize cfg <= 100 /\ 0 < DeliveryMaxAttempts cfg <= 20 /\
  DeliveryRetryBase cfg <= DeliveryRetryMax cfg /\ TelegramAPITimeout cfg < DeliveryProcessingLease cfg /\
  DeliveryJobTimeout cfg < DeliveryProcessingLease cfg /\ 512 <= DeliveryMessageMaxBytes cfg <= 4096.
Proof.
  unfold validate_common. intros Hv. passed Hv. rewrite ?Z.ltb_ge, ?Z.leb_gt in *. split_and!; try lia; try done.
  match goal with V : negb _ && negb _ && negb _ = false |- _ => revert V end.
  destruct (str_eqb (PaymentProviderEnvironment cfg) "development") eqn:E; [apply str_eqb_eq in E as ->; by left|clear E].
  destruct (str_eqb (PaymentProviderEnvironment cfg) "test") eqn:E; [apply str_eqb_eq in E as ->; right; by left|clear E].
  destruct (str_eqb (PaymentProviderEnvironment cfg) "production") eqn:E; [apply str_eqb_eq in E as ->; right; right; by left|done].
Qed.

Lemma worker_ok : validate_worker cfg = [] ->
  0 < OrderExpiryBatchSize cfg <= 1000 /\ length (InventoryEncryptionKey cfg) = 32%nat /\ 0 < InventoryEncryptionKeyVersion cfg.
Proof.
  unfold validate_worker. intros Hv. passed Hv. rewrite ?Z.ltb_ge, ?Z.leb_gt, ?Nat.eqb_eq in *. split_and!; lia.
Qed.

Lemma api_ok : validate_api cfg = [] ->
  Forall (fun p => p = "signed_json"%string /\ 16 <= str_len (SignedJSONWebhookSecret cfg)) (PaymentProviders cfg) /\
  (PaymentProviders cfg <> [] -> PaymentProviderEnvironment cfg <> "production"%string) /\
  length (InventoryEncryptionKey cfg) = 32%nat /\ 0 < InventoryEncryptionKeyVersion cfg /\
  length (BankAccountEncryptionKey cfg) = 32%nat /\ 0 < BankAccountEncryptionVersion cfg /\
  0 < OrderMaxQuantity cfg <= 1000 /\ WalletTopupMinAmount cfg <= WalletTopupMaxAmount cfg /\ valid_vietqr cfg = true /\
  AdminTelegramIDs cfg <> [].
Proof.
  unfold validate_api. intros Hv. apply app_eq_nil in Hv as [Hp Hv]. passed Hv.
  rewrite ?Z.ltb_ge, ?Z.leb_gt, ?Nat.eqb_eq in *.
  assert (Forall (fun p => p = "signed_json"%string /\ 16 <= str_len (SignedJSONWebhookSecret cfg)) (PaymentProviders cfg)) as Hall.
  { clear -Hp. induction (PaymentProviders cfg) as [|p ps IH]; [constructor|]. simpl in Hp. apply app_eq_nil in Hp as [Hp Hps].
    constructor; [|auto]. unfold validate_provider in Hp. destruct (str_eqb p "signed_json") eqn:E; [apply str_eqb_eq in E as ->|done].
    split; [done|]. simpl in Hp. apply when_nil, Z.ltb_ge in Hp. done. }
  split_and!; try lia; try done.
  - intros Hne He. destruct (PaymentProviders cfg) as [|p ps] eqn:E; [done|].
    apply Forall_cons in Hall as [[-> _] _]. unfold containsString in *. rewrite He in *. done.
  - intros E. rewrite E in *. done.
Qed.
End Validated.
