(* ===== verification/Instructions.v ===== *)
(** * Payment instructions

    [src/internal/vietqr/generator.go]: the address of the image a customer scans, and
    the checks of what goes into it.  [net/url] is the interface of [Config]. *)

From Stdlib Require Import Ascii.
From S2P Require Import Prelude Text Domain Schema Models Config.

(** ** Paths *)

(** [path.Clean], by segments: the empty ones and the dots vanish, a double dot takes
    back the segment before it; [segments] holds the path so far, last segment first. *)
Definition clean_segment (rooted : bool) (segments : list string) (s : string) : list string :=
  if str_eqb s "" || str_eqb s "." then segments
  else if str_eqb s ".." then
    match segments with
    | top :: rest => if str_eqb top ".." then s :: segments else rest
    | [] => if rooted then [] else [s]
    end
  else s :: segments.
Definition Clean (path : string) : string :=
  let rooted := HasPrefix path "/" in
  let cleaned := Join "/" (rev (fold_left (clean_segment rooted) (Split "/" path) [])) in
  if rooted then ("/" ++ cleaned)%string else if str_eqb cleaned "" then "." else cleaned.
(** [path.Join] of two elements; empty ones are left out. *)
Definition path_join (a b : string) : string :=
  match List.filter (fun s => negb (str_eqb s "")) [a; b] with
  | [] => ""
  | parts => Clean (Join "/" parts)
  end.

Example clean_dots : path_join "/image/./old/.." "970416-1.png" = "/image/970416-1.png".
Proof. reflexivity. Qed.
Example clean_above : Clean "a/../../b//" = "../b" /\ Clean "" = "." /\ Clean "/.." = "/".
Proof. by vm_compute. Qed.

(** ** The generator *)

Definition accountDigits (value : string) : bool :=
  (4 <=? str_len value) && (str_len value <=? 34) && forallb (fun r => (48 <=? r) && (r <=? 57)) (codes value).
Definition sixDigits (value : string) : bool := (str_len value =? 6) && accountDigits value.
Definition validReference (value : string) : bool :=
  (4 <=? str_len value) && (str_len value <=? 64) && forallb reference_char (codes value).
Definition safeTemplate (value : string) : bool :=
  let value := TrimSpace value in
  negb ((str_len value <? 1) || (32 <? str_len value)) && forallb template_char (codes value).

Section Generator.
Context {URL : Type} `{NetURL URL}.

Record Generator := mkGenerator { g_base_url : URL; g_template : string }.

Definition NewGenerator (baseURL template : string) : Error + Generator :=
  match url_parse (TrimSpace baseURL) with
  | Some parsed =>
      if negb (str_eqb (url_scheme parsed) "https") || str_eqb (url_host parsed) "" || negb (safeTemplate template)
      then inl ErrInvalidPaymentInstruction else inr (mkGenerator parsed (TrimSpace template))
  | None => inl ErrInvalidPaymentInstruction
  end.

Definition valid_request (r : PaymentInstructionRequest) : bool :=
  sixDigits (pir_bank_bin r) && accountDigits (pir_account_number r) && (0 <? pir_amount r) && (0 <? pir_order_id r)
  && negb (time_is_zero (pir_expires_at r)) && validReference (pir_payment_reference r)
  && negb (str_eqb (TrimSpace (pir_account_name r)) "") && negb (str_eqb (TrimSpace (pir_bank_display_name r)) "")
  && negb (str_eqb (TrimSpace (pir_bank_name r)) "").

Definition Generate (g : Generator) (cancelled : bool) (request : PaymentInstructionRequest) : Error + PaymentInstruction :=
  if cancelled then inl ErrContext
  else if negb (valid_request request) then inl ErrInvalidPaymentInstruction
  else
    let file := cat [pir_bank_bin request; "-"; pir_account_number request; "-"; g_template g; ".png"] in
    let resultURL := url_with_path (g_base_url g) (path_join (url_path (g_base_url g)) file) in
    let query := <["accountName" := [TrimSpace (pir_account_name request)]]>
      (<["addInfo" := [pir_payment_reference request]]>
        (<["amount" := [Z_dec (pir_amount request)]]> (url_query resultURL))) in
    inr (mkPaymentInstruction (url_string (url_with_raw_query resultURL (url_encode query)))
           (TrimSpace (pir_bank_display_name request)) (TrimSpace (pir_bank_name request)) (pir_account_number request)
           (TrimSpace (pir_account_name request)) (pir_amount request) (pir_payment_reference request)
           (pir_expires_at request)).

(** Generation fails only for a request that is not fit to be paid. *)
Lemma Generate_valid g request :
  valid_request request = true ->
  exists i, Generate g false request = inr i /\ pin_account_number i = pir_account_number request
    /\ pin_amount i = pir_amount request /\ pin_transfer_content i = pir_payment_reference request
    /\ pin_expires_at i = pir_expires_at request.
Proof. intros Hv. unfold Generate. rewrite Hv. eexists. by split_and!. Qed.
End Generator.
Arguments Generator : clear implicits.
