(* ===== verification/Runner.v ===== *)
(** * The worker process

    [src/internal/worker/runner.go]: the loop that runs the jobs on their tickers, one
    at a time, until the process is told to stop.  A job is given by how its runs end;
    logging and metrics are left out. *)

From S2P Require Import Prelude.

Inductive Job := ExpiryJob | PaymentEventsJob | DeliveryRun | ReconciliationRun.
#[export] Instance Job_eq_dec : EqDecision Job.
Proof. solve_decision. Defined.

Inductive JobOutcome := JobDone | JobFailed | JobPanicked.

Record Runner := mkRunner {
  healthInterval : Duration;
  expiryInterval : Duration;
  runTimeout : Duration;
  payment : option (Duration * Duration);
  delivery : option (Duration * Duration);
  reconciliation : option (Duration * Duration) }.

Definition NewRunner (healthInterval expiryInterval runTimeout : Duration) : Runner :=
  mkRunner healthInterval expiryInterval runTimeout None None None.
Definition WithPaymentEvents (r : Runner) (interval timeout : Duration) : Runner :=
  mkRunner (healthInterval r) (expiryInterval r) (runTimeout r) (Some (interval, timeout)) (delivery r) (reconciliation r).
Definition WithDelivery (r : Runner) (interval timeout : Duration) : Runner :=
  mkRunner (healthInterval r) (expiryInterval r) (runTimeout r) (payment r) (Some (interval, timeout)) (reconciliation r).
Definition WithPaymentReconciliation (r : Runner) (interval timeout : Duration) : Runner :=
  mkRunner (healthInterval r) (expiryInterval r) (runTimeout r) (payment r) (delivery r) (Some (interval, timeout)).

(** [time.NewTicker] panics for an interval that is not positive. *)
Definition tickers_start (r : Runner) : bool :=
  (0 <? healthInterval r) && (0 <? expiryInterval r)
  && match payment r with Some (i, _) => 0 <? i | None => true end
  && match delivery r with Some (i, _) => 0 <? i | None => true end
  && match reconciliation r with Some (i, _) => 0 <? i | None => true end.

Definition configured (r : Runner) (j : Job) : bool :=
  match j with
  | ExpiryJob => true
  | PaymentEventsJob => match payment r with Some _ => true | None => false end
  | DeliveryRun => match delivery r with Some _ => true | None => false end
  | ReconciliationRun => match reconciliation r with Some _ => true | None => false end
  end.

(** The runs of delivery and reconciliation recover from a panic. *)
Definition recovers (j : Job) : bool :=
  match j with DeliveryRun | ReconciliationRun => true | ExpiryJob | PaymentEventsJob => false end.

(** What the loop selects *)
Inductive Event := Cancelled | HealthTick (healthy : bool) | Tick (j : Job).

Definition is_cancelled (e : Event) : bool := match e with Cancelled => true | _ => false end.

Inductive State := Running | Stopped | Crashed.

Section Run.
Context (r : Runner).
(** How the n-th run of the process ends *)
Context (outcome : nat -> Job -> JobOutcome).

(** The runs made so far, and how the process is *)
Definition run_job (j : Job) (s : list Job * State) : list Job * State :=
  let '(runs, state) := s in
  match state with
  | Running =>
      if configured r j then
        ((runs ++ [j])%list,
         match outcome (length runs) j with
         | JobPanicked => if recovers j then Running else Crashed
         | JobDone | JobFailed => Running
         end)
      else s
  | _ => s
  end.

Definition handle (s : list Job * State) (e : Event) : list Job * State :=
  match s.2 with
  | Running => match e with Cancelled => (s.1, Stopped) | HealthTick _ => s | Tick j => run_job j s end
  | _ => s
  end.

(** [Run]: the tickers, a first run of every job, and the loop *)
Definition Run (events : list Event) : list Job * State :=
  if tickers_start r then
    fold_left handle events (run_job ReconciliationRun (run_job DeliveryRun (run_job PaymentEventsJob (run_job ExpiryJob ([], Running)))))
  else ([], Crashed).
End Run.

(** ** The loop *)

Section Loop.
Context (r : Runner) (outcome : nat -> Job -> JobOutcome).

(** Failures never end the process; it stops only when it is cancelled. *)
Lemma handle_failures s e :
  (forall n j, outcome n j <> JobPanicked) -> s.2 = Running ->
  (handle r outcome s e).2 = match e with Cancelled => Stopped | _ => Running end.
Proof.
  intros Hno Hs. unfold handle. rewrite Hs. destruct e as [|b|j]; [done|done|]. unfold run_job. destruct s as [runs state].
  simpl in Hs. subst. destruct (configured r j); [|done]. simpl. specialize (Hno (length runs) j).
  by destruct (outcome _ _).
Qed.

Lemma run_job_running j s :
  (forall n, outcome n j <> JobPanicked) -> s.2 = Running -> (run_job r outcome j s).2 = Running.
Proof.
  intros Hno. destruct s as [runs state]. simpl. intros ->. unfold run_job. destruct (configured r j); [|done]. simpl.
  specialize (Hno (length runs)). by destruct (outcome _ _).
Qed.

Lemma ended_stays events s : s.2 <> Running -> fold_left (handle r outcome) events s = s.
Proof.
  induction events as [|e events IH]; [done|]. intros Hs. simpl. unfold handle at 2. destruct s as [runs []]; [done| |]; by apply IH.
Qed.

Lemma runs_until_cancelled events :
  tickers_start r = true -> (forall n j, outcome n j <> JobPanicked) ->
  (Run r outcome events).2 = if existsb is_cancelled events then Stopped else Running.
Proof.
  intros Ht Hno. unfold Run. rewrite Ht.
  assert ((run_job r outcome ReconciliationRun (run_job r outcome DeliveryRun
             (run_job r outcome PaymentEventsJob (run_job r outcome ExpiryJob ([], Running))))).2 = Running) as Hs
    by (repeat apply run_job_running; done).
  revert Hs. generalize (run_job r outcome ReconciliationRun (run_job r outcome DeliveryRun
    (run_job r outcome PaymentEventsJob (run_job r outcome ExpiryJob ([], Running))))). clear Ht.
  induction events as [|e events IH]; intros s Hs; [done|]. simpl.
  pose proof (handle_failures s e Hno Hs) as He. destruct e; simpl; [|by apply IH ..].
  rewrite ended_stays by congruence. done.
Qed.
End Loop.
