(* ===== verification/AdminModels.v ===== *)
(** * Models of the catalog and administration screens

    The view types of [src/internal/app/models.go], [delivery_admin_service.go],
    [payment_admin_service.go], [payment_provider_admin_service.go] and
    [reconciliation_service.go]. *)

From S2P Require Import Prelude Domain Schema Models.

Record TelegramProfile := mkTelegramProfile { tpf_telegram_user_id : Z; tpf_username : string;
    tpf_first_name : string; tpf_last_name : string }.

Record Category := mkCategory { cg_id : Z; cg_name : string; cg_slug : string; cg_emoji : string;
    cg_sort_order : Z; cg_active : bool; cg_version : Z }.
Record Product := mkProduct { pd_id : Z; pd_category_id : Z; pd_name : string; pd_slug : string;
    pd_description : string; pd_price : Z; pd_delivery_type : string; pd_contact_url : string;
    pd_active : bool; pd_version : Z }.
Record CategoryPage := mkCategoryPage { cgp_items : list Category; cgp_page : PageInfo }.
Record ProductPage := mkProductPage { pdp_items : list Product; pdp_page : PageInfo }.

Record EncryptedInventoryPayload := mkEncryptedInventoryPayload { ep_ciphertext : Bytes; ep_nonce : Bytes;
    ep_fingerprint : Bytes; ep_key_version : Z; ep_format : string }.
Record InventoryOverview := mkInventoryOverview { io_product_id : Z; io_product_name : string;
    io_available : Z; io_reserved : Z; io_sold : Z; io_disabled : Z; io_total : Z }.
Record InventoryOverviewPage := mkInventoryOverviewPage { iop_items : list InventoryOverview; iop_page : PageInfo }.
(** A zero [ri_reserved_order_id] or time stands for an absent one. *)
Record RedactedInventoryItem := mkRedactedInventoryItem { ri_id : Z; ri_product_id : Z; ri_product_name : string;
    ri_status : InventoryStatus; ri_reserved_order_id : Z; ri_reserved_until : Time; ri_key_version : Z;
    ri_version : Z; ri_created_at : Time }.
Record RedactedInventoryPage := mkRedactedInventoryPage { rip_items : list RedactedInventoryItem; rip_page : PageInfo }.
Record InventoryImportLimits := mkInventoryImportLimits { il_max_items : Z; il_max_item_bytes : Z; il_max_total_bytes : Z }.
Record InventoryImportResult := mkInventoryImportResult { ir_product_id : Z; ir_requested : Z; ir_inserted : Z;
    ir_duplicates : Z; ir_rejected : Z; ir_key_version : Z }.

Record BankAccountOption := mkBankAccountOption { bo_id : Z; bo_bank_bin : string; bo_bank_name : string;
    bo_display_name : string; bo_account_name : string; bo_last4 : string; bo_sort_order : Z; bo_version : Z;
    bo_environment : string }.
Record RedactedBankAccount := mkRedactedBankAccount { rb_option : BankAccountOption; rb_active : bool;
    rb_key_version : Z; rb_format : string; rb_created_at : Time }.
Record RedactedBankAccountPage := mkRedactedBankAccountPage { rbp_items : list RedactedBankAccount; rbp_page : PageInfo }.

(** ** Deliveries *)

Record DeliveryReviewItem := mkDeliveryReviewItem { dv_id : Z; dv_order_id : Z; dv_status : string; dv_attempts : Z;
    dv_max_attempts : Z; dv_chat_id : Z; dv_message_id : Z; dv_error_code : string; dv_error_detail : string;
    dv_created_at : Time; dv_updated_at : Time; dv_version : Z; dv_product_name : string; dv_quantity : Z }.
Record DeliveryAttemptView := mkDeliveryAttemptView { dav_number : Z; dav_status : string; dav_http_status : Z;
    dav_telegram_error_code : Z; dav_retry_after : Z; dav_chat_id : Z; dav_message_id : Z; dav_error_class : string;
    dav_error_code : string; dav_error_detail : string; dav_started_at : Time; dav_finished_at : Time }.
Record DeliveryReviewPage := mkDeliveryReviewPage { dvp_items : list DeliveryReviewItem; dvp_page : PageInfo }.
Record DeliveryReviewDetail := mkDeliveryReviewDetail { dvd_item : DeliveryReviewItem; dvd_history : list DeliveryAttemptView }.

(** ** Payments *)

Record PaymentReviewCase := mkPaymentReviewCase { pv_id : Z; pv_provider : string; pv_environment : string;
    pv_source : string; pv_masked_transaction : string; pv_masked_destination : string; pv_mapping_id : Z;
    pv_reference : string; pv_amount : Z; pv_currency : string; pv_occurred_at : Time; pv_order_id : Z;
    pv_topup_id : Z; pv_reason : string; pv_status : string }.
Record PaymentReviewPage := mkPaymentReviewPage { pvp_items : list PaymentReviewCase; pvp_page : PageInfo }.

Record PaymentProviderDescriptor := mkPaymentProviderDescriptor { ppd_name : string; ppd_enabled : bool;
    ppd_environment : string; ppd_webhook : bool; ppd_reconciliation : bool; ppd_test_mode : bool }.
Record PaymentProviderAccount := mkPaymentProviderAccount { ppa_id : Z; ppa_provider : string; ppa_environment : string;
    ppa_masked_identity : string; ppa_bank_id : Z; ppa_bank_display_name : string; ppa_bank_last4 : string;
    ppa_status : string; ppa_version : Z; ppa_created_at : Time; ppa_updated_at : Time }.
Record PaymentProviderAccountPage := mkPaymentProviderAccountPage { ppp_items : list PaymentProviderAccount; ppp_page : PageInfo }.
Record PaymentProviderHealth := mkPaymentProviderHealth { pph_descriptor : PaymentProviderDescriptor;
    pph_active_mappings : Z; pph_last_webhook_at : Time; pph_last_attempt : Time; pph_last_success : Time;
    pph_last_error_code : string; pph_last_transaction_at : Time; pph_pending_events : Z; pph_open_reviews : Z }.

(** ** Reconciliation *)

Record DeliveryReconciliation := mkDeliveryReconciliation { rd_delivering_without_job : Z;
    rd_active_job_wrong_order_state : Z; rd_completed_job_order_not_delivered : Z; rd_delivered_inventory_mismatch : Z;
    rd_sold_without_completed_job : Z; rd_delivered_order_reserved_inventory : Z; rd_multiple_active_jobs : Z;
    rd_stale_processing : Z; rd_ambiguous_without_review : Z; rd_success_evidence_not_completed : Z }.

(** [Clean] compares each with zero. *)
Definition reconciliation_counts (r : DeliveryReconciliation) : list Z :=
  [rd_delivering_without_job r; rd_active_job_wrong_order_state r; rd_completed_job_order_not_delivered r;
   rd_delivered_inventory_mismatch r; rd_sold_without_completed_job r; rd_delivered_order_reserved_inventory r;
   rd_multiple_active_jobs r; rd_stale_processing r; rd_ambiguous_without_review r; rd_success_evidence_not_completed r].
Definition Clean (r : DeliveryReconciliation) : bool := forallb (fun n => n =? 0) (reconciliation_counts r).

Record FinancialReconciliation := mkFinancialReconciliation { rf_completed_events_without_payment : Z;
    rf_confirmed_payments_without_outcome : Z; rf_wallet_balance_mismatches : Z; rf_reservation_count_mismatches : Z;
    rf_review_cases_without_reason : Z }.
Definition financial_counts (r : FinancialReconciliation) : list Z :=
  [rf_completed_events_without_payment r; rf_confirmed_payments_without_outcome r; rf_wallet_balance_mismatches r;
   rf_reservation_count_mismatches r; rf_review_cases_without_reason r].
Definition FinancialClean (r : FinancialReconciliation) : bool := forallb (fun n => n =? 0) (financial_counts r).
