(* ===== verification/QReports.v ===== *)
(** * Review and reconciliation queries

    The statements of [src/sqlc/queries/delivery.sql] and [reconciliation.sql]
    ([generated/delivery.sql.go], [generated/reconciliation.sql.go]) behind the review
    of deliveries and the reports on the consistency of deliveries and money. *)

From S2P Require Import Prelude Domain Schema Tx Tables AdminModels QOrders QInventory QDelivery.

(** ** Delivery reviews *)

Definition reviewable_statuses : list DeliveryJobStatus :=
  [DeliveryJobPending; DeliveryJobProcessing; DeliveryJobRetryableFailed; DeliveryJobAmbiguous;
   DeliveryJobManualReview; DeliveryJobPermanentFailed].
Definition delivery_job (j : OutboxRow) : bool := str_eqb (j_event_type j) delivery_event_type.
Definition under_review (j : OutboxRow) : bool := delivery_job j && bool_decide (j_status j ∈ reviewable_statuses).

Definition CountDeliveryReviewJobs : Tx Database Z := read (count_rows under_review).

(** The items of the order of a job *)
Definition items_of_job (d : Database) (j : OutboxRow) : list OrderItemRow :=
  select (fun it => bool_decide (j_order_id j = Some (oi_order_id it))) d.
Definition with_items (d : Database) (l : list OutboxRow) : list (OutboxRow * OrderItemRow) :=
  l ≫= (fun j => map (pair j) (items_of_job d j)).

Section Reviews.
(** [updated_at] of a job, which a trigger keeps *)
Context (updated_at : OutboxRow -> Time).

Definition last_updated_first (a b : OutboxRow * OrderItemRow) : bool :=
  lex_le (updated_at b.1, j_id b.1) (updated_at a.1, j_id a.1).

Definition ListDeliveryReviewJobs (page_offset page_limit : Z) : Tx Database (list (OutboxRow * OrderItemRow)) :=
  d ← read id;
  if (page_limit <? 0) || (page_offset <? 0) then throw (ErrPg InvalidRowCount)
  else mret (take (Z.to_nat page_limit)
               (drop (Z.to_nat page_offset) (merge_sort (ordered_by last_updated_first) (with_items d (select under_review d))))).
End Reviews.

Definition GetDeliveryReviewJob (delivery_job_id : Z) : Tx Database (OutboxRow * OrderItemRow) :=
  j ← LockDeliveryJob delivery_job_id;
  found ← read (fun d => head (items_of_job d j));
  item ← joined found;
  mret (j, item).

Definition last_attempt_first (a b : AttemptRow) : bool :=
  lex_le (da_attempt_number b, da_id b) (da_attempt_number a, da_id a).
Definition ListDeliveryAttemptEvents (delivery_job_id : option Z) : Tx Database (list AttemptRow) :=
  read (select_sorted (fun a => is_some delivery_job_id && opt_eqb (da_job_id a) delivery_job_id) last_attempt_first).

(** One row per status that occurs *)
Definition CountDeliveryJobsByStatus : Tx Database (list (string * Z)) :=
  d ← read id;
  let jobs := select delivery_job d in
  let statuses := remove_dups (map (fun j => DeliveryJobStatus_string (j_status j)) jobs) in
  mret (map (fun s => (s, Z.of_nat (length (filter (fun j => DeliveryJobStatus_string (j_status j) = s) jobs)))) statuses).

(** ** delivery.sql: the anomalies of deliveries *)

Definition counted {A} (l : list A) : Z := Z.of_nat (length l).
Definition job_in (statuses : list DeliveryJobStatus) (j : OutboxRow) : bool :=
  delivery_job j && bool_decide (j_status j ∈ statuses).
(** [JOIN orders AS o ON o.id = job.delivery_order_id] with a condition on the order *)
Definition order_of_job (d : Database) (p : OrderRow -> bool) (j : OutboxRow) : bool :=
  match j_order_id j ≫= (fun k => rows OrderRow d !! k) with Some o => p o | None => false end.
Definition sold_to (order_id : Z) (i : InventoryRow) : bool :=
  bool_decide (i_sold_order_id i = Some order_id) && bool_decide (i_status i = InventoryStatusSold).

(** [GROUP BY delivery_order_id HAVING count-star > 1] *)
Definition repeated_orders (jobs : list OutboxRow) : list (option Z) :=
  filter (fun k => (1 < length (filter (fun j => j_order_id j = k) jobs))%nat) (remove_dups (map j_order_id jobs)).

Definition CountDeliveryReconciliationAnomalies (stale_before : Time) : Tx Database DeliveryReconciliation :=
  read (fun d =>
    mkDeliveryReconciliation
      (count_rows (fun o => bool_decide (o_status o = OrderStatusDelivering)
                            && match select (is_job_of (o_id o)) d with [] => true | _ => false end) d)
      (count_rows (fun j => job_in [DeliveryJobPending; DeliveryJobProcessing; DeliveryJobRetryableFailed] j
                            && order_of_job d (fun o => negb (bool_decide (o_status o = OrderStatusDelivering))) j) d)
      (count_rows (fun j => job_in [DeliveryJobCompleted] j
                            && order_of_job d (fun o => negb (bool_decide (o_status o = OrderStatusDelivered))) j) d)
      (count_rows (fun o => bool_decide (o_status o = OrderStatusDelivered)
                            && negb (count_rows (sold_to (o_id o)) d =? ordered_quantity (o_id o) d)) d)
      (count_rows (fun i => bool_decide (i_status i = InventoryStatusSold)
                            && match select (fun j => job_in [DeliveryJobCompleted] j && is_some (i_sold_order_id i)
                                                      && opt_eqb (j_order_id j) (i_sold_order_id i)) d with
                               | [] => true | _ => false end) d)
      (count_rows (fun i => bool_decide (i_status i = InventoryStatusReserved)
                            && match i_reserved_order_id i ≫= (fun k => rows OrderRow d !! k) with
                               | Some o => bool_decide (o_status o = OrderStatusDelivered)
                               | None => false end) d)
      (counted (repeated_orders (select (job_in [DeliveryJobPending; DeliveryJobProcessing; DeliveryJobRetryableFailed;
                                                  DeliveryJobAmbiguous; DeliveryJobManualReview]) d)))
      (count_rows (is_stale stale_before) d)
      (count_rows (fun j => job_in [DeliveryJobAmbiguous] j && is_none (j_manual_resolution j)) d)
      (count_rows (fun a => str_eqb (da_status a) "succeeded" && is_some (da_message_id a)
                            && match da_job_id a ≫= (fun k => rows OutboxRow d !! k) with
                               | Some j => negb (bool_decide (j_status j = DeliveryJobCompleted))
                               | None => false end) d)).

(** ** reconciliation.sql: the anomalies of money *)

Definition ledger_sum (account_id : Z) (d : Database) : Z :=
  foldr (fun e n => le_amount_vnd e + n) 0 (select (fun e => le_account_id e =? account_id) d).
Definition active_mappings (order_id : Z) (d : Database) : Z :=
  count_rows (fun m => (m_order_id m =? order_id) && bool_decide (m_status m = MappingActive)) d.

(** The sum of a ledger is cast to [bigint]. *)
Definition GetFinancialReconciliation : Tx Database FinancialReconciliation :=
  d ← read id;
  guard_not (existsb (fun w => negb (in_int64 (ledger_sum (w_id w) d))) (select (fun _ : WalletRow => true) d))
    (ErrPg NumericValueOutOfRange);;
  mret (mkFinancialReconciliation
    (count_rows (fun e => bool_decide (ev_status e = EventCompleted) && is_some (ev_transaction_id e)
                          && match select (fun p => str_eqb (pay_provider p) (ev_provider e)
                                                    && opt_eqb (pay_transaction_id p) (ev_transaction_id e)) d with
                             | [] => true | _ => false end) d)
    (count_rows (fun p => bool_decide (pay_status p = PaymentStatusConfirmed)
                          && match select (fun a => al_payment_id a =? pay_id p) d with [] => true | _ => false end
                          && match select (fun rc => bool_decide (rc_payment_id rc = Some (pay_id p))
                                                     && (bool_decide (rc_status rc = ReviewOpen)
                                                         || bool_decide (rc_status rc = ReviewHeld))) d with
                             | [] => true | _ => false end) d)
    (count_rows (fun w => negb (w_balance_vnd w =? ledger_sum (w_id w) d)) d)
    (count_rows (fun o => bool_decide (o_status o = OrderStatusReserving)
                          && negb (ordered_quantity (o_id o) d =? active_mappings (o_id o) d)) d)
    (count_rows (fun rc => negb (nonblank (rc_reason rc))) d)).

#[export] Hint Unfold CountDeliveryReviewJobs ListDeliveryReviewJobs GetDeliveryReviewJob ListDeliveryAttemptEvents
  CountDeliveryJobsByStatus CountDeliveryReconciliationAnomalies GetFinancialReconciliation : tx_queries.
