(* ===== verification/UpdateStore.v ===== *)
(** * Update receipts

    [ClaimUpdate], [CompleteUpdate] and [FailUpdate] of
    [src/internal/postgres/app_store.go], and [UpdateService] of
    [src/internal/app/update_service.go]: each Telegram update is processed once. *)

From S2P Require Import Prelude Domain Schema Tx Tables Models QUsers.

(** [s.queries.X] outside a transaction: one statement, committed on its own *)
Definition autocommit {S A} (m : Tx S A) : Action S A := WithinTransaction m.

(** [completeReceipt] (admin_store.go) *)
Definition completeReceipt (update_id : Z) : Tx Database unit :=
  or_no_rows ErrDuplicateUpdate (CompleteTelegramUpdateReceipt update_id);;
  mret tt.

Definition claim_update_tx (update_id : Z) (update_type : string) (stale_before : Time) : Tx Database UpdateClaim :=
  InsertTelegramUpdateReceipt update_id update_type;;
  receipt ← LockTelegramUpdateReceipt update_id;
  match rt_status receipt with
  | ReceiptCompleted => mret UpdateDuplicateCompleted
  | status =>
      if bool_decide (status = ReceiptProcessing)
         && match rt_started_at receipt with Some t => time_after t stale_before | None => false end
      then mret UpdateDuplicateProcessing
      else
        started ← try_row (StartTelegramUpdateProcessing update_id stale_before);
        mret (match started with Some _ => UpdateClaimed | None => UpdateDuplicateProcessing end)
  end.

Definition ClaimUpdate (update_id : Z) (update_type : string) (stale_before : Time) : Action Database UpdateClaim :=
  WithinTransaction (claim_update_tx update_id update_type stale_before).

Definition CompleteUpdate (update_id : Z) : Action Database unit :=
  autocommit (completeReceipt update_id).

Definition FailUpdate (update_id : Z) (code : string) : Action Database unit :=
  autocommit (or_no_rows ErrDuplicateUpdate (FailTelegramUpdateReceipt (optionalText code) update_id);; mret tt).

(** ** UpdateService *)

(** A service call that fails validation never reaches the store. *)
Definition reject {S A} (e : Error) : Action S A := fun _ s => (inl e, s).

Module UpdateService.
Definition Claim (staleAfter : Duration) (update_id : Z) (update_type : string) : Action Database UpdateClaim :=
  fun env =>
    if (update_id <? 0) || str_eqb (TrimSpace update_type) "" then reject ErrInvalidInput env
    else ClaimUpdate update_id update_type (env_now env - staleAfter) env.

Definition Complete (update_id : Z) : Action Database unit := CompleteUpdate update_id.

(** [Fail] *)
Definition FailWith (update_id : Z) (code : string) : Action Database unit :=
  let code := TrimSpace code in
  let code := if str_eqb code "" || Nat.ltb 200 (String.length code) then "internal_error"%string else code in
  FailUpdate update_id code.
End UpdateService.
