(* ===== verification/AdminStore.v ===== *)
(** * Administrator sessions

    The authorization, session and audit helpers of
    [src/internal/postgres/admin_store.go] and its session operations. *)

From S2P Require Import Prelude Domain Schema Tx Tables Models QUsers UpdateStore.

Definition authorizeAdmin (telegram_id : Z) : Tx Database Admin :=
  row ← or_no_rows ErrNotFound (GetAdminAuthorizationByTelegramID telegram_id);
  let '(a, u) := row in
  mret (mkAdmin (ad_id a) (ad_user_id a) (u_telegram_user_id u) (ad_role a) (ad_is_active a) (u_status u)).

(** Any failure to authorize is [ErrForbidden]. *)
Definition requireCatalogAdmin (expected : Admin) : Tx Database unit :=
  current ← map_error (fun _ => ErrForbidden) (authorizeAdmin (adm_telegram_user_id expected));
  guard_not (negb (adm_id current =? adm_id expected) || negb (CanManageCatalog current)) ErrForbidden.

Definition lockAndVerifySession (admin_id : Z) (expected : AdminSession) (requiredState : string)
    : Tx Database AdminSessionRow :=
  row ← or_no_rows ErrNotFound (LockAdminSessionByID (ss_id expected));
  guard_not (negb (as_admin_id row =? admin_id) || negb (ss_admin_id expected =? admin_id)) ErrForbidden;;
  now ← time_now;
  guard_not (negb (time_after (as_expires_at row) now)) ErrSessionExpired;;
  guard_not (negb (as_version row =? ss_version expected)) ErrStaleVersion;;
  guard_not (negb (str_eqb requiredState "") && negb (str_eqb (as_state row) requiredState)) ErrStaleVersion;;
  mret row.

Definition finishSession (admin_id : Z) (session : AdminSession) : Tx Database unit :=
  or_no_rows ErrStaleVersion
    (FinishAdminSessionGuarded "completed" (ss_id session) admin_id (ss_version session));;
  mret tt.

Definition insertAudit (admin_id : Z) (action resource_type : string) (resource_id : Z)
    (before after : option Json) (meta : RequestMeta) : Tx Database unit :=
  InsertAuditLog "admin" (Some admin_id) action resource_type (Some resource_id) before after
    (optionalText (meta_request_id meta)) (Some (meta_update_id meta));;
  mret tt.

Definition mapSession (r : AdminSessionRow) : AdminSession :=
  mkAdminSession (as_id r) (as_admin_id r) (as_state r) (as_payload r) (as_expires_at r) (as_version r).

Definition session_json (state : string) (version : Z) : option Json :=
  Some (JObj [("state", JStr state); ("version", JInt version)]).

Definition StartSession (admin : Admin) (state payload : string) (expires_at : Time) (meta : RequestMeta)
    : Action Database AdminSession :=
  map_action_error mapConstraintError (WithinTransaction (
    requireCatalogAdmin admin;;
    row ← StartAdminSession (adm_id admin) state payload expires_at;
    insertAudit (adm_id admin) "admin.session.started" "admin_session" (as_id row) None
      (session_json (as_state row) (as_version row)) meta;;
    completeReceipt (meta_update_id meta);;
    mret (mapSession row))).

Definition GetActiveSession (admin_id : Z) : Action Database AdminSession :=
  autocommit (row ← or_no_rows ErrNotFound (GetActiveAdminSession admin_id); mret (mapSession row)).

Definition AdvanceSession (admin : Admin) (session : AdminSession) (state payload : string)
    (expires_at : Time) (meta : RequestMeta) : Action Database AdminSession :=
  WithinTransaction (
    requireCatalogAdmin admin;;
    lockAndVerifySession (adm_id admin) session "";;
    row ← or_no_rows ErrStaleVersion
      (AdvanceAdminSessionGuarded state payload expires_at (ss_id session) (adm_id admin) (ss_version session));
    completeReceipt (meta_update_id meta);;
    mret (mapSession row)).

Definition CancelSession (admin : Admin) (session : AdminSession) (meta : RequestMeta) : Action Database unit :=
  WithinTransaction (
    requireCatalogAdmin admin;;
    lockAndVerifySession (adm_id admin) session "";;
    row ← or_no_rows ErrStaleVersion
      (FinishAdminSessionGuarded "cancelled" (ss_id session) (adm_id admin) (ss_version session));
    insertAudit (adm_id admin) "admin.session.cancelled" "admin_session" (as_id row)
      (session_json (ss_state session) (ss_version session))
      (session_json (as_state row) (as_version row)) meta;;
    completeReceipt (meta_update_id meta)).
