(* ===== verification/CatalogStore.v ===== *)
(** * The catalog in the store

    The listings of [src/internal/postgres/app_store.go] and the administrator's
    changes to categories and products of [src/internal/postgres/admin_store.go]:
    each is one transaction that checks the administrator and the session, changes
    one row at the version the administrator saw, writes an audit entry, ends the
    session and completes the update's receipt. *)

From S2P Require Import Prelude Domain Schema Tx Tables Models AdminModels QUsers QCatalog UpdateStore AdminStore.

(** ** Inputs (admin_service.go) *)

Record CreateCategoryInput := mkCreateCategoryInput { cci_name : string; cci_slug : string; cci_sort_order : Z;
    cci_meta : RequestMeta }.
Record UpdateCategoryInput := mkUpdateCategoryInput { uci_category_id : Z; uci_expected_record : Z; uci_name : string;
    uci_sort_order : Z; uci_meta : RequestMeta }.
Record SetCategoryActiveInput := mkSetCategoryActiveInput { sci_category_id : Z; sci_expected_record : Z;
    sci_active : bool; sci_meta : RequestMeta }.
Record CreateProductInput := mkCreateProductInput { cpi_category_id : Z; cpi_name : string; cpi_slug : string;
    cpi_description : string; cpi_price : Z; cpi_meta : RequestMeta }.
Record UpdateProductInput := mkUpdateProductInput { upi_product_id : Z; upi_expected_record : Z; upi_category_id : Z;
    upi_name : string; upi_description : string; upi_price : Z; upi_meta : RequestMeta }.
Record SetProductActiveInput := mkSetProductActiveInput { spi_product_id : Z; spi_expected_record : Z;
    spi_active : bool; spi_meta : RequestMeta }.

Definition SessionCategoryCreate : string := "category.create".
Definition SessionCategoryEdit : string := "category.edit".
Definition SessionCategoryToggle : string := "category.toggle".
Definition SessionProductCreate : string := "product.create".
Definition SessionProductEdit : string := "product.edit".
Definition SessionProductToggle : string := "product.toggle".

(** ** Users and administrators *)

Definition mapUser (r : User) : AppUser :=
  mkAppUser (u_id r) (u_telegram_user_id r) (text_or_empty (u_username r)) (text_or_empty (u_display_name r)) (u_status r).

Definition UpsertTelegramUser (profile : TelegramProfile) : Action Database AppUser :=
  let displayName := TrimSpace (tpf_first_name profile ++ " " ++ tpf_last_name profile)%string in
  autocommit (
    row ← QUsers.UpsertTelegramUser (tpf_telegram_user_id profile) (optionalText (tpf_username profile)) (optionalText displayName);
    mret (mapUser row)).

Definition bootstrap_tx (telegram_id : Z) : Tx Database unit :=
  user ← EnsureBootstrapUser telegram_id;
  EnsureBootstrapAdmin (u_id user);;
  mret tt.
Definition BootstrapAdmin (telegram_id : Z) : Action Database unit := WithinTransaction (bootstrap_tx telegram_id).

Definition AuthorizeAdmin (telegram_id : Z) : Action Database Admin := autocommit (authorizeAdmin telegram_id).

(** ** Listings *)

Definition mapCategory (r : CategoryRow) : Category :=
  mkCategory (cat_id r) (cat_name r) (cat_slug r) (cat_emoji r) (cat_sort_order r) (cat_is_active r) (cat_version r).
Definition mapCategories (l : list CategoryRow) : list Category := map mapCategory l.
Definition mapProduct (r : ProductRow) : Product :=
  mkProduct (p_id r) (p_category_id r) (p_name r) (p_slug r) (text_or_empty (p_description r)) (p_price_vnd r)
    (p_delivery_type r) (text_or_empty (p_contact_url r)) (p_is_active r) (p_version r).
Definition mapProducts (l : list ProductRow) : list Product := map mapProduct l.

(** Each listing counts and reads in two statements, at one point in time. *)
Definition ListActiveCategories (offset limit : Z) : Action Database (list Category * Z) :=
  autocommit (total ← CountActiveCategories; l ← ListActiveCategoriesPage offset limit; mret (mapCategories l, total)).
Definition ListActiveProducts (category_id offset limit : Z) : Action Database (list Product * Z) :=
  autocommit (
    total ← CountActiveProductsByCategory category_id;
    l ← ListActiveProductsPage category_id offset limit;
    mret (mapProducts l, total)).
Definition GetActiveProduct (product_id : Z) : Action Database Product :=
  autocommit (row ← or_no_rows ErrNotFound (GetActiveProductDetail product_id); mret (mapProduct row)).
Definition ListAdminCategories (offset limit : Z) : Action Database (list Category * Z) :=
  autocommit (total ← CountAdminCategories; l ← ListAdminCategoriesPage offset limit; mret (mapCategories l, total)).
Definition ListAdminProducts (offset limit : Z) : Action Database (list Product * Z) :=
  autocommit (total ← CountAdminProducts; l ← ListAdminProductsPage offset limit; mret (mapProducts l, total)).

(** ** Changes *)

Definition categorySnapshot (r : CategoryRow) : Json :=
  JObj [("id", JInt (cat_id r)); ("name", JStr (cat_name r)); ("sort_order", JInt (cat_sort_order r));
        ("active", JBool (cat_is_active r)); ("version", JInt (cat_version r))].
(** [json:"description,omitempty"] *)
Definition productSnapshot (r : ProductRow) : Json :=
  JObj ([("id", JInt (p_id r)); ("category_id", JInt (p_category_id r)); ("name", JStr (p_name r))]
        ++ (if str_eqb (text_or_empty (p_description r)) "" then []
            else [("description", JStr (text_or_empty (p_description r)))])
        ++ [("price_vnd", JInt (p_price_vnd r)); ("active", JBool (p_is_active r)); ("version", JInt (p_version r))])%list.

(** What each change begins and ends with *)
Definition begin_change (admin : Admin) (session : AdminSession) (state : string) : Tx Database unit :=
  requireCatalogAdmin admin;;
  lockAndVerifySession (adm_id admin) session state;;
  mret tt.
Definition end_change (admin : Admin) (session : AdminSession) (meta : RequestMeta) : Tx Database unit :=
  finishSession (adm_id admin) session;;
  completeReceipt (meta_update_id meta).

Section Changes.
Context (admin : Admin) (session : AdminSession).

Definition create_category_tx (input : CreateCategoryInput) : Tx Database Category :=
  begin_change admin session SessionCategoryCreate;;
  row ← QCatalog.CreateCategory (cci_name input) (cci_slug input) (cci_sort_order input);
  insertAudit (adm_id admin) "category.created" "category" (cat_id row) None (Some (categorySnapshot row)) (cci_meta input);;
  end_change admin session (cci_meta input);;
  mret (mapCategory row).

Definition update_category_tx (input : UpdateCategoryInput) : Tx Database Category :=
  begin_change admin session SessionCategoryEdit;;
  before ← or_no_rows ErrNotFound (LockCategoryByID (uci_category_id input));
  guard_not (negb (cat_version before =? uci_expected_record input)) ErrStaleVersion;;
  after ← UpdateCategoryDetailsGuarded (uci_name input) (uci_sort_order input) (uci_category_id input)
    (uci_expected_record input);
  insertAudit (adm_id admin) "category.updated" "category" (cat_id after) (Some (categorySnapshot before))
    (Some (categorySnapshot after)) (uci_meta input);;
  end_change admin session (uci_meta input);;
  mret (mapCategory after).

Definition set_category_active_tx (input : SetCategoryActiveInput) : Tx Database Category :=
  begin_change admin session SessionCategoryToggle;;
  before ← or_no_rows ErrNotFound (LockCategoryByID (sci_category_id input));
  guard_not (negb (cat_version before =? sci_expected_record input)
             || bool_decide (cat_is_active before = sci_active input)) ErrStaleVersion;;
  after ← SetCategoryActiveGuarded (sci_active input) (sci_category_id input) (sci_expected_record input);
  insertAudit (adm_id admin) (if sci_active input then "category.activated" else "category.deactivated") "category"
    (cat_id after) (Some (categorySnapshot before)) (Some (categorySnapshot after)) (sci_meta input);;
  end_change admin session (sci_meta input);;
  mret (mapCategory after).

Definition create_product_tx (input : CreateProductInput) : Tx Database Product :=
  begin_change admin session SessionProductCreate;;
  or_no_rows ErrNotFound (GetCategoryByID (cpi_category_id input));;
  row ← QCatalog.CreateProduct (cpi_category_id input) (cpi_name input) (cpi_slug input)
    (optionalText (cpi_description input)) (cpi_price input) "inventory" None;
  insertAudit (adm_id admin) "product.created" "product" (p_id row) None (Some (productSnapshot row)) (cpi_meta input);;
  end_change admin session (cpi_meta input);;
  mret (mapProduct row).

Definition update_product_tx (input : UpdateProductInput) : Tx Database Product :=
  begin_change admin session SessionProductEdit;;
  or_no_rows ErrNotFound (GetCategoryByID (upi_category_id input));;
  before ← or_no_rows ErrNotFound (LockProductByID (upi_product_id input));
  guard_not (negb (p_version before =? upi_expected_record input)) ErrStaleVersion;;
  after ← UpdateProductDetailsGuarded (upi_category_id input) (upi_name input) (optionalText (upi_description input))
    (upi_price input) (upi_product_id input) (upi_expected_record input);
  insertAudit (adm_id admin) "product.updated" "product" (p_id after) (Some (productSnapshot before))
    (Some (productSnapshot after)) (upi_meta input);;
  end_change admin session (upi_meta input);;
  mret (mapProduct after).

Definition set_product_active_tx (input : SetProductActiveInput) : Tx Database Product :=
  begin_change admin session SessionProductToggle;;
  before ← or_no_rows ErrNotFound (LockProductByID (spi_product_id input));
  guard_not (negb (p_version before =? spi_expected_record input)
             || bool_decide (p_is_active before = spi_active input)) ErrStaleVersion;;
  after ← SetProductActiveGuarded (spi_active input) (spi_product_id input) (spi_expected_record input);
  insertAudit (adm_id admin) (if spi_active input then "product.activated" else "product.deactivated") "product"
    (p_id after) (Some (productSnapshot before)) (Some (productSnapshot after)) (spi_meta input);;
  end_change admin session (spi_meta input);;
  mret (mapProduct after).

Definition CreateCategory (input : CreateCategoryInput) : Action Database Category :=
  map_action_error mapConstraintError (WithinTransaction (create_category_tx input)).
Definition UpdateCategory (input : UpdateCategoryInput) : Action Database Category :=
  map_action_error mapConstraintError (WithinTransaction (update_category_tx input)).
Definition SetCategoryActive (input : SetCategoryActiveInput) : Action Database Category :=
  WithinTransaction (set_category_active_tx input).
Definition CreateProduct (input : CreateProductInput) : Action Database Product :=
  map_action_error mapConstraintError (WithinTransaction (create_product_tx input)).
Definition UpdateProduct (input : UpdateProductInput) : Action Database Product :=
  map_action_error mapConstraintError (WithinTransaction (update_product_tx input)).
Definition SetProductActive (input : SetProductActiveInput) : Action Database Product :=
  WithinTransaction (set_product_active_tx input).
End Changes.
