(* ===== verification/InventoryStore.v ===== *)
(** * Inventory reservations

    [src/internal/postgres/inventory_reservation_store.go]. *)

From S2P Require Import Prelude Domain Schema Tx Tables Models QOrders QInventory QUsers.

Definition insertSystemInventoryAudit (action resource_type : string) (resource_id : Z) (after : Json)
    (request_id : string) : Tx Database unit :=
  InsertAuditLog "system" None action resource_type (Some resource_id) None (Some after)
    (optionalText request_id) None;;
  mret tt.

(** Recording each claimed item against the order *)
Definition map_items (order_id order_item_id : Z) (ids : list Z) : Tx Database unit :=
  for_each ids (fun id => InsertOrderInventoryMapping order_id order_item_id id;; mret tt).

Definition claim_inventory_tx (request : InventoryClaimRequest) : Tx Database InventoryClaimResult :=
  let order_id := icr_order_id request in
  order ← or_no_rows ErrNotFound (LockOrderForUpdate order_id);
  guard_not (negb (bool_decide (o_status order = OrderStatusReserving))) ErrInvalidInventoryState;;
  item ← or_no_rows ErrNotFound
    (LockOrderItemForInventory (icr_order_item_id request) order_id (icr_product_id request));
  guard_not (negb (oi_quantity item =? icr_quantity request)) ErrInvalidInput;;
  ids ← ClaimAvailableInventory order_id (icr_reserved_until request) (icr_product_id request) (icr_quantity request);
  guard_not (negb (Z.of_nat (length ids) =? icr_quantity request)) ErrInsufficientInventory;;
  map_items order_id (icr_order_item_id request) ids;;
  insertSystemInventoryAudit "inventory.reserved" "order" order_id
    (JObj [("order_id", JInt order_id); ("order_item_id", JInt (icr_order_item_id request));
           ("product_id", JInt (icr_product_id request)); ("claimed_count", JInt (Z.of_nat (length ids)));
           ("inventory_item_ids", JInts ids)]) (icr_request_id request);;
  mret (mkInventoryClaimResult order_id ids (Z.of_nat (length ids))).

Definition ClaimInventory (request : InventoryClaimRequest) : Action Database InventoryClaimResult :=
  WithinTransaction (claim_inventory_tx request).

Definition releaseInventoryForOrder (order_id : Z) (reason : InventoryReleaseReason) (request_id : string)
    : Tx Database Z :=
  ids ← ListReservedInventoryIDsByOrder order_id;
  match ids with
  | [] => mret 0
  | _ :: _ =>
      released ← ReleaseReservedInventoryByOrder order_id;
      guard_not (negb (Nat.eqb (length released) (length ids))) ErrReservationNotOwned;;
      mappings ← MarkOrderInventoryMappingsReleased
        (optionalText (InventoryReleaseReason_string reason)) order_id released;
      guard_not (negb (mappings =? Z.of_nat (length released))) ErrReservationNotOwned;;
      insertSystemInventoryAudit "inventory.released" "order" order_id
        (JObj [("order_id", JInt order_id); ("released_count", JInt (Z.of_nat (length released)));
               ("inventory_item_ids", JInts released);
               ("reason", JStr (InventoryReleaseReason_string reason))]) request_id;;
      mret (Z.of_nat (length released))
  end.

Definition release_inventory_tx (request : InventoryReleaseRequest) : Tx Database InventoryReleaseResult :=
  order ← or_no_rows ErrNotFound (LockOrderForUpdate (irr_order_id request));
  match InventoryReleaseReasonForOrder (o_status order) with
  | None => throw ErrUnsafeReservationRelease
  | Some expectedReason =>
      guard_not (negb (bool_decide (irr_reason request = expectedReason))) ErrInvalidInput;;
      released ← releaseInventoryForOrder (irr_order_id request) (irr_reason request) (irr_request_id request);
      mret (mkInventoryReleaseResult (irr_order_id request) released (irr_reason request))
  end.

Definition ReleaseInventory (request : InventoryReleaseRequest) : Action Database InventoryReleaseResult :=
  WithinTransaction (release_inventory_tx request).

Definition recover_expired_tx (order_id : Z) (expired_at : Time) (request_id : string)
    : Tx Database InventoryRecoveryResult :=
  order ← or_no_rows ErrNotFound (LockOrderForUpdate order_id);
  let status := o_status order in
  expiredCount ← CountExpiredReservationsByOrder order_id expired_at;
  if expiredCount =? 0 then mret (mkInventoryRecoveryResult order_id 0 false (Some status))
  else
    match InventoryReleaseReasonForOrder status with
    | Some reason =>
        released ← releaseInventoryForOrder order_id reason request_id;
        mret (mkInventoryRecoveryResult order_id released false (Some status))
    | None =>
        try_row (InsertInventoryRecoveryAuditOnce order_id status (optionalText request_id));;
        mret (mkInventoryRecoveryResult order_id 0 true (Some status))
    end.

Definition RecoverExpiredReservation (order_id : Z) (expired_at : Time) (request_id : string)
    : Action Database InventoryRecoveryResult :=
  WithinTransaction (recover_expired_tx order_id expired_at request_id).
