(* ===== verification/DeliveryStore.v ===== *)
(** * Delivery jobs

    [src/internal/postgres/delivery_store.go]: the hand-off of a paid order to the
    delivery queue, and the worker's operations on a job. *)

From S2P Require Import Prelude Domain Strconv Schema Tx Tables Models QOrders QInventory QUsers QDelivery.
From S2P Require Import UpdateStore.

(** Audit rows are never written in the name of a provider. *)
Definition audit_actor (actor_type : string) (actor_id : option Z) : string * option Z :=
  if str_eqb actor_type "provider" then ("system"%string, None) else (actor_type, actor_id).

Definition createDeliveryHandoffWithinTransaction (order_id : Z) (created_at : Time) (max_attempts : Z)
    (actor_type : string) (actor_id : Z) (request_id : string) : Tx Database bool :=
  guard_not ((order_id <=? 0) || (max_attempts <=? 0)) ErrInvalidInput;;
  row ← LockOrderForDeliveryHandoff order_id;
  let '(order, user, item) := row in
  if bool_decide (o_status order = OrderStatusDelivering) then
    GetDeliveryJobByOrder (o_id order);;
    mret false
  else
    guard_not (negb (bool_decide (o_status order = OrderStatusReserving))
               || (u_telegram_user_id user <=? 0) || (oi_quantity item <=? 0)) ErrInvalidDeliveryState;;
    reserved ← CountExactReservedInventoryForOrder (o_id order);
    guard_not (negb (reserved =? oi_quantity item)) ErrDeliveryInventoryMismatch;;
    job ← try_row (InsertDeliveryJob (o_id order) max_attempts created_at (u_telegram_user_id user));
    match job with
    | None =>
        GetDeliveryJobByOrder (o_id order);;
        mret false
    | Some job =>
        delivering ← MarkOrderDeliveringGuarded created_at (o_id order) (o_version order);
        InsertOrderStatusHistory (o_id order) (Some OrderStatusReserving) OrderStatusDelivering
          (optionalText "delivery_job_created") actor_type (optionalInt8 actor_id) (optionalText request_id);;
        let '(auditActorType, auditActorID) := audit_actor actor_type (optionalInt8 actor_id) in
        InsertAuditLog auditActorType auditActorID "delivery.job_created" "delivery_job" (Some (j_id job)) None
          (Some (JObj [("delivery_job_id", JInt (j_id job)); ("order_id", JInt (o_id order));
                       ("status", JStr (OrderStatus_string (o_status delivering)));
                       ("inventory_count", JInt reserved)])) (optionalText request_id) None;;
        mret true
    end.

Definition backfill_request_id (order_id : Z) : string := ("delivery-backfill-" ++ Z_dec order_id)%string.

Definition backfill_tx (now : Time) (batch_size max_attempts : Z) : Tx Database Z :=
  orderIDs ← ListDeliveryBackfillOrderIDs batch_size;
  fold_each orderIDs 0 (fun created order_id =>
    inserted ← createDeliveryHandoffWithinTransaction order_id now max_attempts "system" 0 (backfill_request_id order_id);
    mret (if inserted : bool then created + 1 else created)).

Definition BackfillDeliveryJobs (now : Time) (batch_size max_attempts : Z) : Action Database Z :=
  WithinTransaction (backfill_tx now batch_size max_attempts).

Definition failureAttemptStatus (class : DeliveryResultClass) : string :=
  match class with
  | DeliveryResultRetryable => "retryable_failed"
  | DeliveryResultPermanent => "permanent_failed"
  | _ => "ambiguous"
  end.

(** [math.Ceil(value.Seconds())], capped at [MaxInt32] *)
Definition durationSeconds (value : Duration) : option Z :=
  if value <=? 0 then None
  else Some (Z.min int32_max (f64_ceil (Seconds value))).

Definition insertDeliveryAttempt (job : OutboxRow) (status : string) (finished_at : Time)
    (failure : DeliveryFailure) (result : DeliverySendResult) : Tx Database AttemptRow :=
  InsertDeliveryAttemptEvent (int_or_zero (j_order_id job)) (j_id job) (j_attempts job) status
    (optionalInt4 (df_http_status failure)) (optionalInt4 (df_telegram_error_code failure))
    (durationSeconds (df_retry_after failure)) (optionalInt8 (sr_chat_id result))
    (optionalInt8 (sr_message_id result)) (optionalText (DeliveryResultClass_string (df_class failure)))
    (optionalText (df_code failure)) (optionalText (df_summary failure))
    (default finished_at (j_send_attempted_at job)) (Some finished_at).

Definition insertDeliveryAudit (job_id order_id : Z) (action actor_type : string) (actor_id : Z)
    (reason request_id : string) : Tx Database unit :=
  InsertAuditLog actor_type (optionalInt8 actor_id) action "delivery_job" (Some job_id) None
    (Some (JObj [("delivery_job_id", JInt job_id); ("order_id", JInt order_id); ("reason", JStr reason)]))
    (optionalText request_id) None;;
  mret tt.

Definition job_request_id (job_id : Z) : string := ("delivery-job-" ++ Z_dec job_id)%string.

Definition markOrderDeliveryFailed (job : OutboxRow) (reason : string) : Tx Database unit :=
  order ← or_no_rows ErrInvalidDeliveryState (MarkOrderDeliveryFailedGuarded (int_or_zero (j_order_id job)));
  InsertOrderStatusHistory (o_id order) (Some OrderStatusDelivering) OrderStatusDeliveryFailed
    (optionalText reason) "system" None (optionalText (job_request_id (j_id job)));;
  mret tt.

Definition stale_failure (now : Time) : DeliveryFailure :=
  mkDeliveryFailure DeliveryResultAmbiguous "stale_after_send_started"
    "send outcome requires manual verification" 0 0 0 0 now.

Definition recover_stale_job (now : Time) (result : DeliveryRecoveryResult) (job : OutboxRow)
    : Tx Database DeliveryRecoveryResult :=
  match j_stage job with
  | Some StageClaimed =>
      MarkStaleDeliveryClaimRetryable now (j_id job);;
      mret (mkDeliveryRecoveryResult (drr_retryable result + 1) (drr_ambiguous result))
  | Some StageSending =>
      MarkStaleDeliverySendAmbiguous (j_id job);;
      insertDeliveryAttempt job "ambiguous" now (stale_failure now) no_send_result;;
      insertDeliveryAudit (j_id job) (int_or_zero (j_order_id job)) "delivery.stale_send_ambiguous" "system" 0
        "stale_after_send_started" "";;
      mret (mkDeliveryRecoveryResult (drr_retryable result) (drr_ambiguous result + 1))
  | None => throw ErrInvalidDeliveryState
  end.

Definition recover_stale_tx (now stale_before : Time) (batch_size : Z) : Tx Database DeliveryRecoveryResult :=
  jobs ← LockStaleDeliveryJobs stale_before batch_size;
  fold_each jobs (mkDeliveryRecoveryResult 0 0) (recover_stale_job now).

Definition RecoverStaleDeliveryJobs (now stale_before : Time) (batch_size : Z)
    : Action Database DeliveryRecoveryResult :=
  WithinTransaction (recover_stale_tx now stale_before batch_size).

Definition work_item (j : OutboxRow) : DeliveryWorkItem :=
  mkDeliveryWorkItem (j_id j) (int_or_zero (j_order_id j)) (int_or_zero (j_chat_id j)) (j_attempts j) (j_max_attempts j).

Definition claim_delivery_tx (now : Time) (worker_id : string) (batch_size : Z) : Tx Database (list DeliveryWorkItem) :=
  jobs ← QDelivery.ClaimDeliveryJobs now (optionalText worker_id) batch_size;
  mret (map work_item jobs).

Definition ClaimDeliveryJobs (now : Time) (worker_id : string) (batch_size : Z) : Action Database (list DeliveryWorkItem) :=
  autocommit (claim_delivery_tx now worker_id batch_size).

(** [row.LockedBy.String != workerID]: a null owner reads as the empty string. *)
Definition owned_by_worker (worker_id : string) (j : OutboxRow) : bool :=
  str_eqb (text_or_empty (j_locked_by j)) worker_id.

Definition encrypted_item (i : InventoryRow) : EncryptedDeliveryItem :=
  mkEncryptedDeliveryItem (i_id i) (i_product_id i) (i_payload i) (default [] (i_nonce i)) (i_format i) (i_key_version i).

Definition load_claimed_tx (job_id : Z) (worker_id : string)
    : Tx Database (DeliveryEnvelope * list EncryptedDeliveryItem) :=
  row ← or_no_rows ErrDeliveryNotFound (LoadDeliveryEnvelope job_id);
  let '(job, order, user, item) := row in
  guard_not (negb (bool_decide (j_status job = DeliveryJobProcessing))
             || negb (bool_decide (j_stage job = Some StageClaimed)) || negb (owned_by_worker worker_id job)
             || negb (bool_decide (o_status order = OrderStatusDelivering))
             || is_none (j_order_id job) || is_none (j_chat_id job)
             || negb (bool_decide (j_chat_id job = Some (u_telegram_user_id user)))
             || (oi_quantity item <=? 0)) ErrInvalidDeliveryState;;
  items ← ListEncryptedInventoryForDelivery (int_or_zero (j_order_id job));
  guard_not (negb (Z.of_nat (length items) =? oi_quantity item)) ErrDeliveryInventoryMismatch;;
  guard_not (negb (forallb (reserved_for (int_or_zero (j_order_id job))) items)) ErrDeliveryInventoryMismatch;;
  mret (mkDeliveryEnvelope (j_id job) (int_or_zero (j_order_id job)) (int_or_zero (j_chat_id job))
          (u_telegram_user_id user) (oi_product_name item) (oi_quantity item) (j_attempts job) (j_max_attempts job),
        map encrypted_item items).

(** Two statements outside a transaction, read at one point in time *)
Definition LoadClaimedDelivery (job_id : Z) (worker_id : string)
    : Action Database (DeliveryEnvelope * list EncryptedDeliveryItem) :=
  autocommit (load_claimed_tx job_id worker_id).

Definition begin_attempt_tx (job_id : Z) (worker_id : string) (attempted_at : Time) : Tx Database DeliveryAttempt :=
  job ← or_no_rows ErrDeliveryLeaseLost (BeginDeliverySend attempted_at job_id (optionalText worker_id));
  InsertDeliveryAttemptEvent (int_or_zero (j_order_id job)) (j_id job) (j_attempts job) "started"
    None None None None None None None None attempted_at None;;
  mret (mkDeliveryAttempt (j_attempts job) (j_id job) (int_or_zero (j_order_id job))).

Definition BeginDeliveryAttempt (job_id : Z) (worker_id : string) (attempted_at : Time) : Action Database DeliveryAttempt :=
  WithinTransaction (begin_attempt_tx job_id worker_id attempted_at).

(** The worker still holds the job, in the given stage. *)
Definition holds_job (stage : ProcessingStage) (worker_id : string) (job : OutboxRow) : bool :=
  bool_decide (j_status job = DeliveryJobProcessing) && bool_decide (j_stage job = Some stage)
  && owned_by_worker worker_id job.

Definition finalize_success_tx (job_id : Z) (worker_id : string) (success : DeliverySuccess) : Tx Database unit :=
  let result := ds_result success in
  job ← LockDeliveryJob job_id;
  if bool_decide (j_status job = DeliveryJobCompleted) then mret tt
  else
    guard_not (negb (holds_job StageSending worker_id job)) ErrDeliveryLeaseLost;;
    row ← LockOrderForDeliveryHandoff (int_or_zero (j_order_id job));
    let '(order, user, item) := row in
    guard_not (negb (bool_decide (o_status order = OrderStatusDelivering))
               || negb (sr_chat_id result =? int_or_zero (j_chat_id job))
               || (sr_message_id result <=? 0)) ErrInvalidDeliveryState;;
    sold ← MarkExactReservedInventorySold (o_id order) (oi_quantity item);
    guard_not (negb (Z.of_nat (length sold) =? oi_quantity item)) ErrDeliveryInventoryMismatch;;
    MarkOrderDeliveredGuarded (ds_completed_at success) (o_id order) (o_version order);;
    MarkDeliveryCompleted (sr_message_id result) (sr_sent_at result) (ds_completed_at success)
      (j_id job) (optionalText worker_id);;
    insertDeliveryAttempt job "succeeded" (ds_completed_at success) no_failure result;;
    InsertOrderStatusHistory (o_id order) (Some OrderStatusDelivering) OrderStatusDelivered
      (optionalText "telegram_delivery_confirmed") "system" None (optionalText (job_request_id (j_id job)));;
    insertDeliveryAudit (j_id job) (o_id order) "delivery.completed" "system" 0 "telegram_success" "".

Definition FinalizeDeliverySuccess (job_id : Z) (worker_id : string) (success : DeliverySuccess) : Action Database unit :=
  WithinTransaction (finalize_success_tx job_id worker_id success).

Definition finalize_failure_tx (job_id : Z) (worker_id : string) (failure : DeliveryFailure) : Tx Database unit :=
  job ← LockDeliveryJob job_id;
  guard_not (negb (holds_job StageSending worker_id job)) ErrDeliveryLeaseLost;;
  insertDeliveryAttempt job (failureAttemptStatus (df_class failure)) (df_failed_at failure) failure no_send_result;;
  let code := optionalText (df_code failure) in
  let summary := optionalText (df_summary failure) in
  let audit action := insertDeliveryAudit (j_id job) (int_or_zero (j_order_id job)) action "system" 0 (df_code failure) "" in
  match df_class failure with
  | DeliveryResultRetryable =>
      MarkDeliveryRetryable (df_next_attempt_at failure) code summary (j_id job) (optionalText worker_id);;
      audit "delivery.retry_scheduled"
  | DeliveryResultPermanent =>
      MarkDeliveryPermanentFailed code summary (df_failed_at failure) (j_id job) (optionalText worker_id);;
      markOrderDeliveryFailed job (df_code failure);;
      audit "delivery.permanent_failed"
  | DeliveryResultAmbiguous =>
      MarkDeliveryAmbiguous None None code summary (j_id job);;
      audit "delivery.ambiguous"
  | _ => throw ErrInvalidDeliveryState
  end.

Definition FinalizeDeliveryFailure (job_id : Z) (worker_id : string) (failure : DeliveryFailure) : Action Database unit :=
  WithinTransaction (finalize_failure_tx job_id worker_id failure).

Definition finalize_claimed_failure_tx (job_id : Z) (worker_id : string) (failure : DeliveryFailure) : Tx Database unit :=
  job ← LockDeliveryJob job_id;
  guard_not (negb (holds_job StageClaimed worker_id job)) ErrDeliveryLeaseLost;;
  let '(newStatus, completedAt) :=
    if bool_decide (df_class failure = DeliveryResultRetryable) then (DeliveryJobRetryableFailed, None)
    else (DeliveryJobPermanentFailed, Some (df_failed_at failure)) in
  updated ← MarkClaimedDeliveryFailure newStatus (df_next_attempt_at failure) (optionalText (df_code failure))
    (optionalText (df_summary failure)) completedAt (j_id job) (optionalText worker_id);
  insertDeliveryAttempt updated (failureAttemptStatus (df_class failure)) (df_failed_at failure) failure no_send_result;;
  (if bool_decide (df_class failure = DeliveryResultPermanent)
   then markOrderDeliveryFailed job (df_code failure) else mret tt);;
  insertDeliveryAudit (j_id job) (int_or_zero (j_order_id job)) "delivery.pre_send_failed" "system" 0 (df_code failure) "".

Definition FinalizeClaimedDeliveryFailure (job_id : Z) (worker_id : string) (failure : DeliveryFailure) : Action Database unit :=
  WithinTransaction (finalize_claimed_failure_tx job_id worker_id failure).

Definition preserve_ambiguous_tx (job_id : Z) (success : DeliverySuccess) (reason : string) : Tx Database unit :=
  let result := ds_result success in
  job ← LockDeliveryJob job_id;
  if bool_decide (j_status job = DeliveryJobCompleted) then mret tt
  else
    guard_not (negb (bool_decide (j_status job = DeliveryJobProcessing))
               || negb (bool_decide (j_stage job = Some StageSending))) ErrInvalidDeliveryState;;
    MarkDeliveryAmbiguous (Some (sr_message_id result)) (Some (sr_sent_at result)) (optionalText reason)
      (optionalText "Telegram confirmed send but database finalization was not confirmed") (j_id job);;
    insertDeliveryAttempt job "ambiguous" (ds_completed_at success)
      (mkDeliveryFailure DeliveryResultAmbiguous reason "confirmed send requires database reconciliation"
         0 0 0 0 (ds_completed_at success)) result;;
    insertDeliveryAudit (j_id job) (int_or_zero (j_order_id job)) "delivery.finalize_ambiguous" "system" 0 reason "".

Definition PreserveAmbiguousSuccess (job_id : Z) (success : DeliverySuccess) (reason : string) : Action Database unit :=
  WithinTransaction (preserve_ambiguous_tx job_id success reason).

(** [configuredDeliveryMaxAttempts]: Go's variadic argument is a list. *)
Definition configuredDeliveryMaxAttempts (values : list Z) : Z :=
  match values with
  | v :: _ => if 0 <? v then v else DefaultDeliveryMaxAttempts
  | [] => DefaultDeliveryMaxAttempts
  end.
