(* ===== verification/PaymentStore.v ===== *)
(** * Payment acceptance

    [src/internal/postgres/payment_acceptance_store.go]: one transaction decides
    what a verified payment means.  The result record that the Go code fills in
    through a pointer is threaded through the branches as a value. *)

From S2P Require Import Prelude Domain Schema Tx Tables Models QOrders QInventory QPayments QWallet QUsers.
From S2P Require Import InventoryStore DeliveryStore.

Definition completePaymentEvent (event_id : Z) (status : EventStatus) (order_id topup_id : Z)
    (processed_at : Time) (errorCode errorDetail : string) : Tx Database unit :=
  if event_id <=? 0 then mret tt
  else
    CompletePaymentEvent status (optionalInt8 order_id) (optionalInt8 topup_id) processed_at
      (optionalText errorDetail) (optionalText errorCode) event_id;;
    mret tt.

Definition insertPaymentOrderHistory (command : AcceptPaymentCommand) (order_id : Z)
    (from to : OrderStatus) (reason : string) : Tx Database unit :=
  InsertOrderStatusHistory order_id (Some from) to (optionalText reason)
    (pact_type (ap_actor command)) (optionalInt8 (pact_id (ap_actor command)))
    (optionalText (ap_request_id command));;
  mret tt.

Definition insertPaymentAudit (command : AcceptPaymentCommand) (payment_id order_id : Z)
    (decision reason : string) : Tx Database unit :=
  let '(actorType, actorID) :=
    audit_actor (pact_type (ap_actor command)) (optionalInt8 (pact_id (ap_actor command))) in
  InsertAuditLog actorType actorID "payment.acceptance_decided" "payment" (optionalInt8 payment_id) None
    (Some (JObj [("payment_id", JInt payment_id); ("order_id", JInt order_id);
                 ("decision", JStr decision); ("reason", JStr reason)]))
    (optionalText (ap_request_id command)) None;;
  mret tt.

Definition review_case (command : AcceptPaymentCommand) (payment_id order_id topup_id : Z) (reason : string)
    : InsertPaymentReviewCaseParams :=
  mkInsertPaymentReviewCaseParams (optionalInt8 (ap_event_id command)) (optionalInt8 payment_id)
    (optionalInt8 order_id) (optionalInt8 topup_id) (ap_provider command)
    (optionalText (ap_transaction_id command)) (ap_reference command) (ap_amount command)
    (ap_currency command) (ap_occurred_at command) reason (ap_environment command) (ap_source command)
    (optionalInt8 (ap_mapping_id command)) (optionalText (ap_destination command)).

Definition recordTopupReview (command : AcceptPaymentCommand) (payment_id topup_id : Z) (reason : string)
    (accepted_at : Time) (result : PaymentAcceptanceResult) : Tx Database PaymentAcceptanceResult :=
  InsertPaymentReviewCase (review_case command payment_id 0 topup_id reason);;
  let result := result <| res_decision := "review"%string |> <| res_reason := reason |> in
  completePaymentEvent (ap_event_id command) EventReview 0 topup_id accepted_at reason reason;;
  insertPaymentAudit command payment_id 0 "review" reason;;
  mret result.

Definition recordPaymentReview (command : AcceptPaymentCommand) (payment : option PaymentRow) (order_id : Z)
    (reason : string) (accepted_at : Time) (result : PaymentAcceptanceResult) : Tx Database PaymentAcceptanceResult :=
  let paymentID := match payment with Some p => pay_id p | None => 0 end in
  let result := match payment with Some p => result <| res_payment_id := pay_id p |> | None => result end in
  InsertPaymentReviewCase (review_case command paymentID order_id 0 reason);;
  let result := result <| res_decision := "review"%string |> <| res_reason := reason |> in
  let result := if str_eqb (res_target result) "" then result <| res_target := "unmatched"%string |> else result in
  completePaymentEvent (ap_event_id command) EventReview order_id 0 accepted_at reason reason;;
  insertPaymentAudit command paymentID order_id "review" reason;;
  mret result.

Definition orderReviewReason (order : OrderRow) (command : AcceptPaymentCommand) (accepted_at : Time) : string :=
  if negb (o_total_vnd order =? ap_amount command) then "amount_mismatch"
  else if negb (str_eqb (o_currency order) (ap_currency command)) then "currency_mismatch"
  else if bool_decide (o_status order = OrderStatusExpired) || bool_decide (o_status order = OrderStatusCancelled)
          || negb (time_after (o_expires_at order) accepted_at) then "late_or_cancelled"
  else if negb (bool_decide (o_status order = OrderStatusPendingPayment)) then "competing_payment"
  else "".

(** The money arrived at another account, or in another environment, than the order's. *)
Definition wrong_destination (environment : string) (bank_account_id : option Z) (command : AcceptPaymentCommand) : bool :=
  negb (str_eqb environment (ap_environment command))
  || ((0 <? ap_mapping_id command)
      && match bank_account_id with Some b => negb (b =? ap_bank_account_id command) | None => true end).

Definition order_review_reason (order : OrderRow) (command : AcceptPaymentCommand) (accepted_at : Time) : string :=
  let reviewReason := orderReviewReason order command accepted_at in
  if str_eqb reviewReason ""
     && wrong_destination (o_environment order) (fst <$> o_bank order) command
  then "provider_destination_account_mismatch" else reviewReason.

Definition insertOrderPayment (command : AcceptPaymentCommand) (order : OrderRow) (status : PaymentStatus)
    (accepted_at : Time) : Tx Database PaymentRow :=
  let confirmedAt := if bool_decide (status = PaymentStatusConfirmed) then Some accepted_at else None in
  InsertPayment (Some (o_id order)) (o_user_id order) "order" (ap_provider command)
    (optionalText (ap_transaction_id command)) (ap_reference command) (ap_amount command)
    (ap_environment command) status confirmedAt (ap_occurred_at command).

Definition existing_payment (command : AcceptPaymentCommand) : Tx Database PaymentRow :=
  GetPaymentByProviderTransaction (ap_provider command) (ap_environment command)
    (optionalText (ap_transaction_id command)).

Definition handleExistingPayment (command : AcceptPaymentCommand) (existing : PaymentRow) (accepted_at : Time)
    (result : PaymentAcceptanceResult) : Tx Database PaymentAcceptanceResult :=
  let existing_order := int_or_zero (pay_order_id existing) in
  let result := result <| res_payment_id := pay_id existing |> <| res_order_id := existing_order |>
                       <| res_target := pay_purpose existing |> in
  if negb (str_eqb (pay_reference existing) (ap_reference command))
     || negb (pay_amount_vnd existing =? ap_amount command)
     || negb (str_eqb (pay_currency existing) (ap_currency command))
     || negb (str_eqb (pay_environment existing) (ap_environment command))
  then recordPaymentReview command (Some existing) existing_order "transaction_conflict" accepted_at result
  else
    allocation ← try_row (GetPaymentAllocation (pay_id existing));
    match allocation with
    | Some allocation =>
        let result := result <| res_decision := "duplicate"%string |> <| res_target := al_target_type allocation |> in
        let result :=
          if str_eqb (al_target_type allocation) "order" then result <| res_order_id := al_target_id allocation |>
          else if str_eqb (al_target_type allocation) "wallet_topup"
               then result <| res_topup_id := al_target_id allocation |>
               else result in
        completePaymentEvent (ap_event_id command) EventCompleted (res_order_id result) (res_topup_id result)
          accepted_at "" "";;
        mret result
    | None =>
        recordPaymentReview command (Some existing) existing_order "duplicate_unallocated" accepted_at result
    end.

Definition topup_review_reason (topup : TopupRow) (command : AcceptPaymentCommand) (accepted_at : Time) : string :=
  if wrong_destination (tp_environment topup) (Some (tp_bank_account_id topup)) command
  then "provider_destination_account_mismatch"
  else if negb (tp_amount_vnd topup =? ap_amount command) then "amount_mismatch"
  else if negb (str_eqb (tp_currency topup) (ap_currency command)) then "currency_mismatch"
  else if negb (bool_decide (tp_status topup = TopupPending)) || negb (time_after (tp_expires_at topup) accepted_at)
  then "topup_expired"
  else "".

Definition payment_ledger_key (payment_id : Z) : string := ("payment:" ++ Z_dec payment_id)%string.

(** The wallet movement of a top-up: the balance and its ledger entry *)
Definition credit_topup (command : AcceptPaymentCommand) (topup : TopupRow) (payment_id : Z) : Tx Database unit :=
  wallet ← LockWalletAccount (tp_wallet_account_id topup);
  updated ← UpdateWalletBalance (ap_amount command) (w_id wallet);
  InsertWalletLedgerEntry (w_id wallet) WalletEntryTypeCredit (ap_amount command) (w_balance_vnd updated)
    "wallet_topup" (tp_id topup) (payment_ledger_key payment_id);;
  mret tt.

Definition acceptWalletTopupPayment (command : AcceptPaymentCommand) (topup : TopupRow) (accepted_at : Time)
    (result : PaymentAcceptanceResult) : Tx Database PaymentAcceptanceResult :=
  let result := result <| res_target := "wallet_topup"%string |> <| res_topup_id := tp_id topup |> in
  let reason := topup_review_reason topup command accepted_at in
  let clean := str_eqb reason "" in
  let status := if clean then PaymentStatusConfirmed else PaymentStatusReview in
  let confirmedAt := if clean then Some accepted_at else None in
  payment ← try_row (InsertPayment None (tp_user_id topup) "wallet_topup" (ap_provider command)
    (optionalText (ap_transaction_id command)) (ap_reference command) (ap_amount command)
    (ap_environment command) status confirmedAt (ap_occurred_at command));
  match payment with
  | None =>
      existing ← existing_payment command;
      handleExistingPayment command existing accepted_at result
  | Some payment =>
      let result := result <| res_payment_id := pay_id payment |> in
      if negb clean then
        (if bool_decide (tp_status topup = TopupPending) || bool_decide (tp_status topup = TopupExpired)
         then MarkWalletTopupReview (tp_id topup);; mret tt
         else mret tt);;
        recordTopupReview command (pay_id payment) (tp_id topup) reason accepted_at result
      else
        credit_topup command topup (pay_id payment);;
        MarkWalletTopupCredited accepted_at (tp_id topup) (tp_version topup);;
        InsertPaymentAllocation (pay_id payment) "wallet_topup" (tp_id topup) (ap_amount command);;
        let result := result <| res_decision := "accepted"%string |> in
        completePaymentEvent (ap_event_id command) EventCompleted 0 (tp_id topup) accepted_at "" "";;
        insertPaymentAudit command (pay_id payment) 0 "accepted" "wallet_topup";;
        mret result
  end.

(** The order branch after the payment row is in: paid, reserving, claim, hand-off *)
Definition settle_order (command : AcceptPaymentCommand) (order : OrderRow) (item : OrderItemRow)
    (payment : PaymentRow) (accepted_at : Time) (reservationTTL : Duration) (deliveryMaxAttempts : Z)
    (result : PaymentAcceptanceResult) : Tx Database PaymentAcceptanceResult :=
  let result := result <| res_payment_id := pay_id payment |> in
  paidOrder ← MarkOrderPaidGuarded accepted_at (o_id order) (o_version order);
  insertPaymentOrderHistory command (o_id order) OrderStatusPendingPayment OrderStatusPaid "payment_accepted";;
  reservingOrder ← UpdateOrderStatusGuarded OrderStatusReserving (o_id order) OrderStatusPaid (o_version paidOrder);
  insertPaymentOrderHistory command (o_id order) OrderStatusPaid OrderStatusReserving "inventory_claim_started";;
  inventoryIDs ← ClaimExactAvailableInventory (o_id order) (accepted_at + reservationTTL)
    (oi_product_id item) (oi_quantity item);
  if negb (Z.of_nat (length inventoryIDs) =? oi_quantity item) then
    UpdateOrderStatusGuarded OrderStatusOutOfStock (o_id order) OrderStatusReserving (o_version reservingOrder);;
    insertPaymentOrderHistory command (o_id order) OrderStatusReserving OrderStatusOutOfStock
      "post_payment_inventory_insufficient";;
    recordPaymentReview command (Some payment) (o_id order) "out_of_stock" accepted_at result
  else
    map_items (o_id order) (oi_id item) inventoryIDs;;
    InsertPaymentAllocation (pay_id payment) "order" (o_id order) (ap_amount command);;
    createDeliveryHandoffWithinTransaction (o_id order) accepted_at deliveryMaxAttempts
      (pact_type (ap_actor command)) (pact_id (ap_actor command)) (ap_request_id command);;
    let result := result <| res_decision := "accepted"%string |>
                         <| res_claimed := Z.of_nat (length inventoryIDs) |> in
    completePaymentEvent (ap_event_id command) EventCompleted (o_id order) 0 accepted_at "" "";;
    insertPaymentAudit command (pay_id payment) (o_id order) (res_decision result) "";;
    mret result.

Definition accept_order_payment (command : AcceptPaymentCommand) (order : OrderRow) (item : OrderItemRow)
    (accepted_at : Time) (reservationTTL : Duration) (deliveryMaxAttempts : Z)
    (result : PaymentAcceptanceResult) : Tx Database PaymentAcceptanceResult :=
  let result := result <| res_target := "order"%string |> <| res_order_id := o_id order |> in
  let reviewReason := order_review_reason order command accepted_at in
  if negb (str_eqb reviewReason "") then
    payment ← insertOrderPayment command order PaymentStatusReview accepted_at;
    recordPaymentReview command (Some payment) (o_id order) reviewReason accepted_at result
  else
    payment ← try_row (insertOrderPayment command order PaymentStatusConfirmed accepted_at);
    match payment with
    | None =>
        existing ← existing_payment command;
        handleExistingPayment command existing accepted_at result
    | Some payment =>
        settle_order command order item payment accepted_at reservationTTL deliveryMaxAttempts result
    end.

(** Finding what the payment is for *)
Definition route_payment (command : AcceptPaymentCommand) (accepted_at : Time) (reservationTTL : Duration)
    (deliveryMaxAttempts : Z) (result : PaymentAcceptanceResult) : Tx Database PaymentAcceptanceResult :=
  existing ← try_row (existing_payment command);
  match existing with
  | Some existing => handleExistingPayment command existing accepted_at result
  | None =>
      targetCount ← CountPaymentReferenceTargets (ap_reference command);
      if 1 <? targetCount
      then recordPaymentReview command None 0 "provider_ambiguous_reference" accepted_at result
      else
        order ← try_row (LockOrderByPaymentReference (ap_reference command));
        match order with
        | Some (order, item) =>
            accept_order_payment command order item accepted_at reservationTTL deliveryMaxAttempts result
        | None =>
            topup ← try_row (LockWalletTopupByReference (ap_reference command));
            match topup with
            | None => recordPaymentReview command None 0 "unknown_reference" accepted_at result
            | Some topup => acceptWalletTopupPayment command topup accepted_at result
            end
        end
  end.

Definition acceptPaymentWithinTransaction (command : AcceptPaymentCommand) (accepted_at : Time)
    (reservationTTL : Duration) (deliveryMaxAttempts : Z) : Tx Database PaymentAcceptanceResult :=
  if 0 <? ap_event_id command then
    event ← LockPaymentEvent (ap_event_id command);
    match ev_status event with
    | EventCompleted | EventReview => mret (zero_result <| res_decision := "duplicate"%string |>)
    | EventProcessing => route_payment command accepted_at reservationTTL deliveryMaxAttempts zero_result
    | _ => throw ErrConflict
    end
  else route_payment command accepted_at reservationTTL deliveryMaxAttempts zero_result.

Definition AcceptPayment (command : AcceptPaymentCommand) (accepted_at : Time) (reservationTTL : Duration)
    (deliveryMaxAttempts : list Z) : Action Database PaymentAcceptanceResult :=
  WithinTransaction (acceptPaymentWithinTransaction command accepted_at reservationTTL
    (configuredDeliveryMaxAttempts deliveryMaxAttempts)).
