(* ===== verification/WalletStore.v ===== *)
(** * Wallets

    [src/internal/postgres/wallet_store.go]: balances, top-ups, paying an order
    from the wallet, and an administrator's adjustment. *)

From S2P Require Import Prelude Domain Schema Tx Tables Models QOrders QInventory QPayments QWallet QUsers.
From S2P Require Import UpdateStore AdminStore InventoryStore DeliveryStore PaymentStore.

Definition mapWallet (r : WalletRow) : WalletAccount :=
  mkWalletAccount (w_id r) (w_user_id r) (w_balance_vnd r) (w_status r) (w_version r).

(** What a snapshot gives back to the application: ciphertext, nonce, key version, format *)
Definition snapshot_protected (b : BankSnapshot) : ProtectedBankAccountNumber :=
  mkProtectedBankAccountNumber (bs_encrypted_number b) (bs_nonce b) [] (bs_key_version b) "" (bs_format b).

Definition mapWalletTopup (r : TopupRow) : WalletTopup :=
  mkWalletTopup (tp_id r) (tp_user_id r) (tp_wallet_account_id r) (tp_amount_vnd r) (tp_currency r)
    (tp_reference r) (tp_status r) (tp_expires_at r) (tp_version r) (bs_bin (tp_bank r))
    (bs_name (tp_bank r)) (bs_display_name (tp_bank r)) (bs_account_name (tp_bank r))
    (bs_last4 (tp_bank r)) (snapshot_protected (tp_bank r)).

Definition mapWalletError (e : Error) : Error :=
  match e with
  | ErrInsufficientInventory | ErrInsufficientWalletBalance => e
  | _ => mapConstraintError e
  end.

(** Only an active user may go on. *)
Definition lock_active_user (telegram_user_id : Z) : Tx Database User :=
  user ← or_no_rows ErrUnauthorized (LockUserByTelegramID telegram_user_id);
  guard_not (negb (bool_decide (u_status user = UserStatusActive))) ErrUserBlocked;;
  mret user.

Definition EnsureWallet (telegram_user_id : Z) : Action Database WalletAccount :=
  WithinTransaction (
    user ← lock_active_user telegram_user_id;
    wallet ← EnsureWalletAccount (u_id user);
    mret (mapWallet wallet)).

Definition create_topup_tx (command : CreateWalletTopupCommand) (environment reference : string)
    (expires_at : Time) : Tx Database (WalletTopup * bool) :=
  let finish topup duplicate :=
    completeReceipt (meta_update_id (ct_meta command));;
    mret (mapWalletTopup topup, duplicate) in
  user ← lock_active_user (ct_telegram_user_id command);
  existing ← try_row (FindWalletTopupByIdempotency (u_id user) (ct_idempotency_key command));
  match existing with
  | Some existing => finish existing true
  | None =>
      wallet ← EnsureWalletAccount (u_id user);
      bank ← or_no_rows ErrBankAccountInactive
        (GetActiveBankAccountForOrder (ct_bank_account_id command) environment);
      topup ← try_row (QWallet.CreateWalletTopup (u_id user) (w_id wallet) (ct_amount command) reference
        (ct_idempotency_key command) expires_at (b_id bank) (bank_snapshot bank) environment);
      match topup with
      | Some topup => finish topup false
      | None =>
          existing ← FindWalletTopupByIdempotency (u_id user) (ct_idempotency_key command);
          finish existing true
      end
  end.

Definition CreateWalletTopup (command : CreateWalletTopupCommand) (reference : string) (expires_at : Time)
    : Action Database (WalletTopup * bool) :=
  let environment := if str_eqb (ct_environment command) "" then "production"%string else ct_environment command in
  WithinTransaction (create_topup_tx command environment reference expires_at).

Definition wallet_transaction_id (order_id : Z) : string := ("wallet-order-" ++ Z_dec order_id)%string.

(** The command the wallet hands to the shared history helper *)
Definition wallet_actor (user_id : Z) (meta : RequestMeta) (environment : string) : AcceptPaymentCommand :=
  mkAcceptPaymentCommand 0 "" "" "" "" 0 "" 0 (mkPaymentActor "user" user_id) (meta_request_id meta)
    environment "manual" 0 0 "".

Definition debit_order (command : WalletOrderPaymentCommand) (wallet : WalletRow) (order : OrderRow) : Tx Database WalletRow :=
  updated ← or_no_rows ErrInsufficientWalletBalance
    (UpdateWalletBalance (wrap64 (- o_total_vnd order)) (w_id wallet));
  InsertWalletLedgerEntry (w_id wallet) WalletEntryTypeDebit (wrap64 (- o_total_vnd order)) (w_balance_vnd updated)
    "order" (o_id order) (wp_idempotency_key command);;
  mret updated.

Definition settle_wallet_order (command : WalletOrderPaymentCommand) (user : User) (order : OrderRow)
    (item : OrderItemRow) (paid_at : Time) (reservationTTL : Duration) (deliveryMaxAttempts : Z)
    : Tx Database WalletOrderPaymentResult :=
  wallet ← EnsureWalletAccount (u_id user);
  wallet ← LockWalletAccount (w_id wallet);
  guard_not (w_balance_vnd wallet <? o_total_vnd order) ErrInsufficientWalletBalance;;
  inventoryIDs ← ClaimExactAvailableInventory (o_id order) (paid_at + reservationTTL)
    (oi_product_id item) (oi_quantity item);
  guard_not (negb (Z.of_nat (length inventoryIDs) =? oi_quantity item)) ErrInsufficientInventory;;
  payment ← InsertPayment (Some (o_id order)) (u_id user) "order" "wallet"
    (optionalText (wallet_transaction_id (o_id order))) (o_payment_reference order) (o_total_vnd order)
    (o_environment order) PaymentStatusConfirmed (Some paid_at) paid_at;
  updated ← debit_order command wallet order;
  paidOrder ← MarkOrderPaidGuarded paid_at (o_id order) (o_version order);
  let actor := wallet_actor (u_id user) (wp_meta command) (o_environment order) in
  insertPaymentOrderHistory actor (o_id order) OrderStatusPendingPayment OrderStatusPaid "wallet_payment_accepted";;
  UpdateOrderStatusGuarded OrderStatusReserving (o_id order) OrderStatusPaid (o_version paidOrder);;
  insertPaymentOrderHistory actor (o_id order) OrderStatusPaid OrderStatusReserving "wallet_inventory_claimed";;
  map_items (o_id order) (oi_id item) inventoryIDs;;
  InsertPaymentAllocation (pay_id payment) "order" (o_id order) (o_total_vnd order);;
  createDeliveryHandoffWithinTransaction (o_id order) paid_at deliveryMaxAttempts "user" (u_id user)
    (meta_request_id (wp_meta command));;
  completeReceipt (meta_update_id (wp_meta command));;
  mret (mkWalletOrderPaymentResult (o_id order) (w_balance_vnd updated) false (Z.of_nat (length inventoryIDs))).

Definition pay_order_tx (command : WalletOrderPaymentCommand) (paid_at : Time) (reservationTTL : Duration)
    (deliveryMaxAttempts : Z) : Tx Database WalletOrderPaymentResult :=
  user ← lock_active_user (wp_telegram_user_id command);
  row ← or_no_rows ErrOrderNotFound
    (LockOrderDetailOwnedByTelegramUser (wp_order_id command) (wp_telegram_user_id command));
  let '(order, item) := row in
  existingPayment ← try_row (GetPaymentByProviderTransaction "wallet" (o_environment order)
    (optionalText (wallet_transaction_id (o_id order))));
  match existingPayment with
  | Some existingPayment =>
      (* every failure of the allocation lookup means a conflict *)
      allocation ← map_error (fun _ => ErrPaymentTransactionConflict) (GetPaymentAllocation (pay_id existingPayment));
      guard_not (negb (str_eqb (al_target_type allocation) "order") || negb (al_target_id allocation =? o_id order))
        ErrPaymentTransactionConflict;;
      wallet ← EnsureWalletAccount (u_id user);
      completeReceipt (meta_update_id (wp_meta command));;
      mret (mkWalletOrderPaymentResult (o_id order) (w_balance_vnd wallet) true 0)
  | None =>
      guard_not (negb (bool_decide (o_status order = OrderStatusPendingPayment))) ErrOrderAlreadyPaid;;
      guard_not (negb (time_after (o_expires_at order) paid_at)) ErrOrderExpired;;
      settle_wallet_order command user order item paid_at reservationTTL deliveryMaxAttempts
  end.

Definition PayOrderWithWallet (command : WalletOrderPaymentCommand) (paid_at : Time)
    (reservationTTL : Duration) (deliveryMaxAttempts : list Z) : Action Database WalletOrderPaymentResult :=
  map_action_error mapWalletError (WithinTransaction
    (pay_order_tx command paid_at reservationTTL (configuredDeliveryMaxAttempts deliveryMaxAttempts))).

Definition SessionWalletAdjustment : string := "wallet.adjustment".

(** The balance change and its ledger entry *)
Definition adjust_balance (command : WalletAdjustmentCommand) (admin_id : Z) (wallet : WalletRow)
    : Tx Database (WalletRow * LedgerRow) :=
  let amount := if wj_debit command then wrap64 (- wj_amount command) else wj_amount command in
  updated ← or_no_rows ErrInsufficientWalletBalance (UpdateWalletBalance amount (w_id wallet));
  ledger ← InsertWalletLedgerEntry (w_id wallet) WalletEntryTypeAdjustment amount (w_balance_vnd updated)
    "admin_adjustment" admin_id (wj_idempotency_key command);
  mret (updated, ledger).

Definition adjust_wallet_tx (command : WalletAdjustmentCommand) (adjusted_at : Time) : Tx Database WalletAccount :=
  admin ← map_error (fun e => match e with ErrNotFound => ErrUnauthorized | _ => e end)
    (authorizeAdmin (wj_admin_telegram_id command));
  requireCatalogAdmin admin;;
  lockAndVerifySession (adm_id admin) (wj_session command) SessionWalletAdjustment;;
  user ← or_no_rows ErrNotFound (LockUserByTelegramID (wj_target_telegram_id command));
  wallet ← EnsureWalletAccount (u_id user);
  wallet ← LockWalletAccount (w_id wallet);
  moved ← adjust_balance command (adm_id admin) wallet;
  let '(updated, ledger) := moved in
  InsertAuditLog "admin" (Some (adm_id admin)) "wallet.adjusted" "wallet_account" (Some (w_id wallet))
    (Some (JObj [("balance_vnd", JInt (w_balance_vnd wallet))]))
    (Some (JObj [("balance_vnd", JInt (w_balance_vnd updated)); ("ledger_id", JInt (le_id ledger));
                 ("reason", JStr (wj_reason command)); ("adjusted_at", JInt adjusted_at)]))
    (optionalText (meta_request_id (wj_meta command))) (optionalInt8 (meta_update_id (wj_meta command)));;
  finishSession (adm_id admin) (wj_session command);;
  completeReceipt (meta_update_id (wj_meta command));;
  mret (mapWallet updated).

Definition AdjustWallet (command : WalletAdjustmentCommand) (adjusted_at : Time) : Action Database WalletAccount :=
  map_action_error mapWalletError (WithinTransaction (adjust_wallet_tx command adjusted_at)).
