(* ===== verification/OrderService.v ===== *)
(** * Customer orders

    [src/internal/app/order_service.go] over the interface it is written against:
    [OrderTransaction] is the Go interface of the same name as a type class in an
    abstract state, and [OrderTransactionLaws] states what the service relies on.
    [OrderStore] gives the PostgreSQL instance. *)

From S2P Require Import Prelude Domain Schema Tx Models UpdateStore.

Class OrderTransaction (S : Type) := {
  LockUserByTelegramID : Z -> Tx S AppUser;
  FindOrderByIdempotency : Z -> string -> Tx S OrderDetail;
  GetProductForOrderCreation : Z -> Tx S OrderProductRecord;
  CountClaimableInventory : Z -> Tx S Z;
  GetActiveBankAccountForOrder : Z -> string -> Tx S BankAccountRecord;
  InsertPendingOrder : PendingOrderInsert -> Tx S (option OrderDetail);
  InsertOrderItem : Z -> OrderItemSnapshot -> Tx S OrderItemSnapshot;
  InsertOrderHistory : Z -> option OrderStatus -> OrderStatus -> string -> string -> Z -> string -> Tx S unit;
  LockOrderOwnedByTelegramUser : Z -> Z -> Tx S OrderDetail;
  CancelPendingOrder : Z -> Z -> Z -> Time -> Tx S OrderDetail;
  CompleteUpdate : Z -> Tx S unit }.

(** [CancelPendingOrder] is the repository's compare-and-set: it returns only an
    order it has just cancelled.  [InsertPendingOrder] returns only the row it
    was given. *)
Class OrderTransactionLaws (S : Type) `{OrderTransaction S} : Prop := {
  cancel_result order_id user_id version now env s od s' :
    CancelPendingOrder order_id user_id version now env s = Ok od s' ->
    od_user_id od = user_id /\ od_status od = OrderStatusCancelled
    /\ od_version od = version + 1 /\ now < od_expires_at od;
  insert_result input env s od s' :
    InsertPendingOrder input env s = Ok (Some od) s' ->
    od_user_id od = po_user_id input /\ od_status od = OrderStatusPendingPayment
    /\ od_subtotal od = po_line_total input /\ od_total od = po_line_total input
    /\ od_payment_reference od = po_payment_reference input /\ od_expires_at od = po_expires_at input;
  insert_item_result order_id item env s it s' :
    InsertOrderItem order_id item env s = Ok it s' ->
    it_product_id it = it_product_id item /\ it_name it = it_name item
    /\ it_unit_price it = it_unit_price item /\ it_quantity it = it_quantity item
    /\ it_line_total it = it_line_total item }.

(** What the service is configured with, and its collaborators outside the
    database: the results of successive reference draws, the account cipher and
    the payment-instruction generator. *)
Record OrderConfig := mkOrderConfig {
  expiry : Duration;
  maxQuantity : Z;
  pageSize : Z;
  paymentEnvironment : string;
  references : nat -> Error + string;
  decrypt : string -> ProtectedBankAccountNumber -> Error + string;
  generate : PaymentInstructionRequest -> Error + PaymentInstruction }.

(** [NewOrderService] corrects the page size. *)
Definition NewOrderService (pageSize : Z) : Z :=
  if (pageSize <=? 0) || (MaxPageSize <? pageSize) then DefaultPageSize else pageSize.

Definition paymentReferenceAttempts : nat := 8.

Section Service.
Context {S : Type} `{OrderTransaction S} (s : OrderConfig).

(** The loop over reference draws: a collision with another order's reference
    draws again, a concurrent order of the same key is returned. *)
Fixpoint create_attempts (attempts attempt : nat) (command : CreateOrderCommand) (user : AppUser)
    (product : OrderProductRecord) (lineTotal : Z) (bank : BankAccountRecord) (expiresAt : Time)
    : Tx S (OrderDetail * bool) :=
  match attempts with
  | O => throw ErrPaymentReferenceCollision
  | Datatypes.S attempts' =>
      reference ← from_result (references s attempt);
      inserted ← InsertPendingOrder (mkPendingOrderInsert (us_id user) product (co_quantity command)
        lineTotal reference (co_idempotency_key command) expiresAt bank (paymentEnvironment s));
      match inserted with
      | None =>
          existing ← try_error ErrOrderNotFound
            (FindOrderByIdempotency (us_id user) (co_idempotency_key command));
          match existing with
          | Some existing =>
              CompleteUpdate (meta_update_id (co_meta command));;
              mret (existing, true)
          | None =>
              create_attempts attempts' (Datatypes.S attempt) command user product lineTotal bank expiresAt
          end
      | Some order =>
          item ← InsertOrderItem (od_id order) (mkOrderItemSnapshot 0 (pr_id product) (pr_name product)
            (pr_price product) (co_quantity command) lineTotal);
          InsertOrderHistory (od_id order) None OrderStatusPendingPayment "order_created" "user" (us_id user)
            (meta_request_id (co_meta command));;
          CompleteUpdate (meta_update_id (co_meta command));;
          mret (order <| od_item := item |>, false)
      end
  end.

Definition line_total (product : OrderProductRecord) (quantity : Z) : Error + Z :=
  match Money.Multiply (pr_price product) quantity with
  | inl ErrDomainMoneyOverflow => inl ErrMoneyOverflow
  | inl ErrDomainInvalidQuantity => inl ErrInvalidQuantity
  | r => r
  end.

Definition create_order_tx (command : CreateOrderCommand) : Tx S (OrderDetail * bool) :=
  user ← replace_error ErrNotFound ErrUnauthorized (LockUserByTelegramID (co_telegram_user_id command));
  guard_not (negb (bool_decide (us_status user = UserStatusActive))) ErrUserBlocked;;
  existing ← try_error ErrOrderNotFound (FindOrderByIdempotency (us_id user) (co_idempotency_key command));
  match existing with
  | Some existing =>
      CompleteUpdate (meta_update_id (co_meta command));;
      mret (existing, true)
  | None =>
      product ← replace_error ErrNotFound ErrOrderNotFound (GetProductForOrderCreation (co_product_id command));
      guard_not (negb (pr_category_active product)) ErrCategoryInactive;;
      guard_not (negb (pr_product_active product) || negb (str_eqb (pr_delivery_type product) "inventory"))
        ErrProductInactive;;
      lineTotal ← from_result (line_total product (co_quantity command));
      available ← CountClaimableInventory (pr_id product);
      guard_not (available <? co_quantity command) ErrInsufficientInventory;;
      bank ← map_error (fun e => match e with ErrBankAccountNotFound | ErrNotFound => ErrBankAccountInactive | _ => e end)
        (GetActiveBankAccountForOrder (co_bank_account_id command) (paymentEnvironment s));
      now ← time_now;
      create_attempts paymentReferenceAttempts 0 command user product lineTotal bank (now + expiry s)
  end.

Definition instruction (order : OrderDetail) : Error + PaymentInstruction :=
  match decrypt s (od_bank_bin order) (od_bank_protected order) with
  | inl e => inl e
  | inr accountNumber =>
      generate s (mkPaymentInstructionRequest (od_bank_bin order) (od_bank_name order) accountNumber
        (od_bank_account_name order) (od_bank_display_name order) (od_total order)
        (od_payment_reference order) (od_id order) (od_expires_at order))
  end.

Definition Create (command : CreateOrderCommand) : Action S CreateOrderResult := fun env st =>
  if (co_telegram_user_id command <=? 0) || (co_product_id command <=? 0) || (co_bank_account_id command <=? 0)
     || str_eqb (co_idempotency_key command) "" || (meta_update_id (co_meta command) <=? 0)
  then (inl ErrInvalidInput, st)
  else if co_quantity command <=? 0 then (inl ErrInvalidQuantity, st)
  else if (maxQuantity s <=? 0) || (maxQuantity s <? co_quantity command) then (inl ErrQuantityLimitExceeded, st)
  else if expiry s <=? 0 then (inl ErrInvalidInput, st)
  else
    match WithinTransaction (create_order_tx command) env st with
    | (inl e, st') => (inl e, st')
    | (inr (order, duplicate), st') =>
        match instruction order with
        | inl e => (inl e, st')
        | inr ins => (inr (mkCreateOrderResult order ins duplicate), st')
        end
    end.

Definition cancel_order_tx (command : CancelOrderCommand) : Tx S CancelOrderResult :=
  order ← map_error (fun _ => ErrOrderNotFound)
    (LockOrderOwnedByTelegramUser (cc_telegram_user_id command) (cc_order_id command));
  if bool_decide (od_status order = OrderStatusCancelled) then
    CompleteUpdate (meta_update_id (cc_meta command));;
    mret (mkCancelOrderResult order true)
  else
    now ← time_now;
    guard_not (bool_decide (od_status order = OrderStatusExpired) || negb (time_after (od_expires_at order) now))
      ErrOrderExpired;;
    guard_not (negb (od_version order =? cc_expected_version command)) ErrStaleVersion;;
    guard_not (is_some (ValidateCustomerOrderTransition (od_status order) OrderStatusCancelled)) ErrInvalidOrderState;;
    updated ← CancelPendingOrder (od_id order) (od_user_id order) (od_version order) now;
    InsertOrderHistory (od_id order) (Some (od_status order)) OrderStatusCancelled "customer_cancelled" "user"
      (od_user_id order) (meta_request_id (cc_meta command));;
    CompleteUpdate (meta_update_id (cc_meta command));;
    mret (mkCancelOrderResult (updated <| od_item := od_item order |>) false).

Definition Cancel (command : CancelOrderCommand) : Action S CancelOrderResult := fun env st =>
  if (cc_telegram_user_id command <=? 0) || (cc_order_id command <=? 0) || (cc_expected_version command <=? 0)
     || (meta_update_id (cc_meta command) <=? 0)
  then (inl ErrInvalidInput, st)
  else WithinTransaction (cancel_order_tx command) env st.
End Service.
