(* ===== verification/OrderStore.v ===== *)
(** * The PostgreSQL order repository

    [src/internal/postgres/order_store.go]: the instance of [OrderTransaction]
    that the service runs on, the order reads, and the expiry batch with
    [src/internal/app/order_expiry_service.go]. *)

From S2P Require Import Prelude Domain Schema Tx Tables Models QOrders QWallet QUsers UpdateStore WalletStore.
From S2P Require Import OrderService.

Definition mapUser (r : User) : AppUser :=
  mkAppUser (u_id r) (u_telegram_user_id r) (text_or_empty (u_username r))
    (text_or_empty (u_display_name r)) (u_status r).

Definition no_item : OrderItemSnapshot := mkOrderItemSnapshot 0 0 "" 0 0 0.
Definition no_protected : ProtectedBankAccountNumber := mkProtectedBankAccountNumber [] [] [] 0 "" "".

(** A null snapshot column reads as the Go zero value. *)
Definition mapOrder (r : OrderRow) : OrderDetail :=
  let text f := match o_bank r with Some (_, b) => f b | None => ""%string end in
  mkOrderDetail (o_id r) (o_user_id r) (o_status r) (o_currency r) (o_subtotal_vnd r) (o_total_vnd r)
    (o_payment_reference r) (o_expires_at r) (default 0 (o_cancelled_at r)) (o_version r) (o_created_at r)
    (match o_bank r with Some (id, _) => id | None => 0 end)
    (text bs_bin) (text bs_name) (text bs_display_name) (text bs_account_name) (text bs_last4)
    (match o_bank r with Some (_, b) => snapshot_protected b | None => no_protected end)
    no_item "".

Definition mapOrderItem (r : OrderItemRow) : OrderItemSnapshot :=
  mkOrderItemSnapshot (oi_id r) (oi_product_id r) (oi_product_name r) (oi_unit_price_vnd r)
    (oi_quantity r) (oi_line_total_vnd r).

Definition mapLockedOrderDetail (row : OrderRow * OrderItemRow) : OrderDetail :=
  (mapOrder row.1) <| od_item := mapOrderItem row.2 |>.

Definition mapOwnedOrderDetail (row : OrderRow * OrderItemRow * option DeliveryJobStatus) : OrderDetail :=
  (mapLockedOrderDetail row.1)
    <| od_delivery_status := text_or_empty (DeliveryJobStatus_string <$> row.2) |>.

(** The columns of a bank row the service sees *)
Definition bank_record (r : BankAccountRow) : BankAccountRecord :=
  mkBankAccountRecord (b_id r) (b_bank_bin r) (b_bank_name r) (b_display_name r) (b_account_name r)
    (b_last4 r) (b_sort_order r) (b_version r) (b_environment r)
    (mkProtectedBankAccountNumber (b_encrypted_number r) (b_nonce r) (b_fingerprint r) (b_key_version r)
       (b_key_id r) (b_format r)) (b_is_active r) (b_created_at r).

(** The snapshot columns an order copies from the record *)
Definition record_snapshot (b : BankAccountRecord) : BankSnapshot :=
  mkBankSnapshot (bk_bank_bin b) (bk_bank_name b) (bk_display_name b) (bk_account_name b)
    (pb_ciphertext (bk_protected b)) (pb_nonce (bk_protected b)) aes_format
    (pb_key_version (bk_protected b)) (bk_last4 b).

Module PgOrder.
Definition LockUserByTelegramID (telegram_id : Z) : Tx Database AppUser :=
  row ← or_no_rows ErrNotFound (LockUserForOrderCreation telegram_id);
  mret (mapUser row).

Definition FindOrderByIdempotency (user_id : Z) (key : string) : Tx Database OrderDetail :=
  row ← or_no_rows ErrOrderNotFound (FindOrderByUserIdempotency user_id key);
  mret (mapOrder row).

Definition GetProductForOrderCreation (product_id : Z) : Tx Database OrderProductRecord :=
  row ← or_no_rows ErrNotFound (QOrders.GetProductForOrderCreation product_id);
  let '(p, c) := row in
  mret (mkOrderProductRecord (p_id p) (p_name p) (p_price_vnd p) (p_delivery_type p) (p_is_active p) (cat_is_active c)).

Definition CountClaimableInventory (product_id : Z) : Tx Database Z :=
  CountClaimableInventoryForOrder product_id.

Definition GetActiveBankAccountForOrder (bank_id : Z) (environment : string) : Tx Database BankAccountRecord :=
  row ← or_no_rows ErrBankAccountNotFound (QWallet.GetActiveBankAccountForOrder bank_id environment);
  mret (bank_record row).

Definition InsertPendingOrder (input : PendingOrderInsert) : Tx Database (option OrderDetail) :=
  let environment := if str_eqb (po_environment input) "" then "production"%string else po_environment input in
  row ← try_row (CreatePendingOrderWithBank (po_user_id input) (po_line_total input) (po_line_total input)
    (po_payment_reference input) (po_idempotency_key input) (po_expires_at input)
    (bk_id (po_bank input), record_snapshot (po_bank input)) environment);
  mret (mapOrder <$> row).

Definition InsertOrderItem (order_id : Z) (item : OrderItemSnapshot) : Tx Database OrderItemSnapshot :=
  row ← QOrders.InsertOrderItem order_id (it_product_id item) (it_name item) (it_unit_price item)
    (it_quantity item) (it_line_total item);
  mret (mapOrderItem row).

Definition InsertOrderHistory (order_id : Z) (from : option OrderStatus) (to : OrderStatus)
    (reason actor_type : string) (actor_id : Z) (request_id : string) : Tx Database unit :=
  InsertOrderStatusHistory order_id from to (optionalText reason) actor_type
    (optionalInt8 actor_id) (optionalText request_id);;
  mret tt.

Definition LockOrderOwnedByTelegramUser (telegram_id order_id : Z) : Tx Database OrderDetail :=
  row ← or_no_rows ErrOrderNotFound (LockOrderDetailOwnedByTelegramUser order_id telegram_id);
  mret (mapLockedOrderDetail row).

Definition CancelPendingOrder (order_id user_id version : Z) (now : Time) : Tx Database OrderDetail :=
  row ← or_no_rows ErrInvalidOrderState (CancelPendingOrderOwnedGuarded order_id user_id now version);
  mret (mapOrder row).
End PgOrder.

#[export] Instance PgOrderTransaction : OrderTransaction Database := {
  LockUserByTelegramID := PgOrder.LockUserByTelegramID;
  FindOrderByIdempotency := PgOrder.FindOrderByIdempotency;
  GetProductForOrderCreation := PgOrder.GetProductForOrderCreation;
  CountClaimableInventory := PgOrder.CountClaimableInventory;
  GetActiveBankAccountForOrder := PgOrder.GetActiveBankAccountForOrder;
  InsertPendingOrder := PgOrder.InsertPendingOrder;
  InsertOrderItem := PgOrder.InsertOrderItem;
  InsertOrderHistory := PgOrder.InsertOrderHistory;
  LockOrderOwnedByTelegramUser := PgOrder.LockOrderOwnedByTelegramUser;
  CancelPendingOrder := PgOrder.CancelPendingOrder;
  CompleteUpdate := completeReceipt }.

(** ** Reads *)

Definition order_summary (row : OrderRow * option OrderItemRow * option DeliveryJobStatus) : OrderSummary :=
  let '(o, item, status) := row in
  mkOrderSummary (o_id o) (o_status o) (o_total_vnd o) (o_payment_reference o) (o_expires_at o) (o_version o)
    (o_created_at o) (match item with Some it => oi_product_name it | None => ""%string end)
    (match item with Some it => oi_quantity it | None => 0 end)
    (text_or_empty (DeliveryJobStatus_string <$> status)).

Definition ListOrdersOwnedByTelegramUser (telegram_id offset limit : Z) : Action Database (list OrderSummary * Z) :=
  autocommit (
    total ← CountOrdersOwnedByTelegramUser telegram_id;
    rows ← QOrders.ListOrdersOwnedByTelegramUser telegram_id offset limit;
    mret (map order_summary rows, total)).

Definition GetOrderOwnedByTelegramUser (telegram_id order_id : Z) : Action Database OrderDetail :=
  autocommit (
    row ← or_no_rows ErrOrderNotFound (GetOrderDetailOwnedByTelegramUser order_id telegram_id);
    mret (mapOwnedOrderDetail row)).

(** [OrderService.List]: the offset and the limit are [int32]. *)
Definition List (s : OrderConfig) (telegram_user_id page : Z) : Action Database OrderPage := fun env d =>
  if (telegram_user_id <=? 0) || (page <? 0) then (inl ErrInvalidInput, d)
  else
    match ListOrdersOwnedByTelegramUser telegram_user_id (wrap32 (wrap64 (page * pageSize s))) (wrap32 (pageSize s)) env d with
    | (inl e, d') => (inl e, d')
    | (inr (items, total), d') => (inr (mkOrderPage items (pageInfo page (pageSize s) total)), d')
    end.

(** [OrderService.Get]: an order without a bank account has no instruction. *)
Definition Get (s : OrderConfig) (telegram_user_id order_id : Z) : Action Database (OrderDetail * option PaymentInstruction) :=
  fun env d =>
    if (telegram_user_id <=? 0) || (order_id <=? 0) then (inl ErrInvalidInput, d)
    else
      match GetOrderOwnedByTelegramUser telegram_user_id order_id env d with
      | (inl e, d') => (inl (if bool_decide (e = ErrOrderNotFound) || bool_decide (e = ErrOrderNotOwned)
                             then ErrOrderNotFound else e), d')
      | (inr order, d') =>
          if od_bank_account_id order =? 0 then (inr (order, None), d')
          else match instruction s order with
               | inl e => (inl e, d')
               | inr i => (inr (order, Some i), d')
               end
      end.

(** ** Expiry *)

Definition expire_overdue_tx (now : Time) (batch_size : Z) : Tx Database (list Z) :=
  rows ← ClaimOverduePendingOrders now batch_size;
  for_each rows (fun row =>
    InsertOrderStatusHistory (o_id row) (Some OrderStatusPendingPayment) OrderStatusExpired
      (optionalText "payment_window_elapsed") "system" None None;;
    mret tt);;
  mret (merge_sort Z.le (map o_id rows)).

Definition ExpireOverdueOrders (now : Time) (batch_size : Z) : Action Database (list Z) :=
  WithinTransaction (expire_overdue_tx now batch_size).

(** [OrderExpiryService.RunOnce] *)
Definition RunOnce (batch_size : Z) : Action Database Z := fun env d =>
  if batch_size <=? 0 then (inl ErrInvalidInput, d)
  else match ExpireOverdueOrders (env_now env) batch_size env d with
       | (inl e, d') => (inl e, d')
       | (inr ids, d') => (inr (Z.of_nat (length ids)), d')
       end.
