(* ===== verification/PaymentReference.v ===== *)
(** * Payment references

    [src/internal/app/payment_reference.go], which draws the reference printed in
    a payment instruction, and [payment_reference_extractor.go], which finds it
    again in the free text of a bank transfer.  Text is a list of bytes; Go's
    [range] and [strings.FieldsFunc] see the runes of [decode_runes].  The Unicode
    tables behind [unicode.IsLetter], [unicode.IsDigit] and [strings.ToUpper] are
    concrete on ASCII and parameters of the section elsewhere: every theorem holds
    for all of them. *)

From S2P Require Import Prelude Text Domain Schema.

Definition is_upper (r : Z) : bool := between 65 90 r.
Definition is_lower (r : Z) : bool := between 97 122 r.
Definition is_digit (r : Z) : bool := between 48 57 r.
Definition isUpperHex (r : Z) : bool := is_digit r || between 65 70 r.

(** ** The generator *)

Definition safeReferencePart (value : string) : bool :=
  Nat.leb 1 (String.length value) && Nat.leb (String.length value) 12
  && forallb (fun r => is_upper r || is_digit r) (codes value).

Record RandomPaymentReferenceGenerator := mkGenerator { g_prefix : string; g_bytes : Z }.

Definition NewPaymentReferenceGenerator (prefix : string) (randomBytes : Z) : Error + RandomPaymentReferenceGenerator :=
  let prefix := TrimSpace (ToUpper prefix) in
  if negb (safeReferencePart prefix) || (randomBytes <? 4) || (24 <? randomBytes) then inl ErrInvalidInput
  else inr (mkGenerator prefix randomBytes).

Definition hex_digit (n : Z) : Z := if n <? 10 then 48 + n else 55 + n.
(** [strings.ToUpper(hex.EncodeToString(buffer))] *)
Definition upper_hex (buffer : list Z) : list Z :=
  flat_map (fun b => [hex_digit (Z.shiftr b 4); hex_digit (Z.land b 15)]) buffer.

(** [random] is what the reader gives for the buffer; [None] is its failure. *)
Definition Generate (g : RandomPaymentReferenceGenerator) (random : option (list Z)) : Error + list Z :=
  match random with
  | None => inl ErrPaymentReferenceCollision
  | Some buffer => inr (codes (g_prefix g) ++ upper_hex buffer)
  end.

(** ** The extractor *)

Inductive PaymentReferenceExtraction :=
  | PaymentReferenceExact (reference : list Z)
  | PaymentReferenceMissing | PaymentReferenceMultiple | PaymentReferenceInvalid.

Record PaymentReferenceExtractor := mkExtractor { x_prefix : string; x_token_length : Z; x_content_limit : Z }.

Definition NewPaymentReferenceExtractor (prefix : string) (randomBytes contentLimit : Z)
    : Error + PaymentReferenceExtractor :=
  let prefix := ToUpper (TrimSpace prefix) in
  if negb (safeReferencePart prefix) || (randomBytes <? 4) || (24 <? randomBytes)
     || (contentLimit <=? 0) || (8192 <? contentLimit) then inl ErrInvalidInput
  else inr (mkExtractor prefix (Z.of_nat (String.length prefix) + randomBytes * 2) contentLimit).

Definition allUpperHex (value : list Z) : bool :=
  match value with [] => false | _ => forallb isUpperHex value end.

(** [strings.HasPrefix] and the rest *)
Fixpoint strip_prefix (prefix token : list Z) : option (list Z) :=
  match prefix, token with
  | [], _ => Some token
  | p :: prefix', t :: token' => if p =? t then strip_prefix prefix' token' else None
  | _ :: _, [] => None
  end.

Section Extractor.
(** The tables outside ASCII *)
Context (unicode_letter unicode_digit : Z -> bool) (unicode_upper : Z -> Z).

Definition IsLetter (r : Z) : bool :=
  if r <? 128 then is_upper r || is_lower r else unicode_letter r.
Definition IsDigit (r : Z) : bool := if r <? 128 then is_digit r else unicode_digit r.
Definition to_upper (r : Z) : Z :=
  if r <? 128 then (if is_lower r then r - 32 else r) else unicode_upper r.

Definition separator (r : Z) : bool := negb (IsLetter r) && negb (IsDigit r) && negb (r =? 45).

(** [strings.FieldsFunc]: the maximal runs without separators *)
Fixpoint fields (current runes : list Z) : list (list Z) :=
  match runes with
  | [] => match current with [] => [] | _ => [rev current] end
  | r :: runes' =>
      if separator r then
        match current with [] => fields [] runes' | _ => rev current :: fields [] runes' end
      else fields (r :: current) runes'
  end.

Inductive Verdict := Skip | Valid (token : list Z) | Suspicious.

(** One token of the loop *)
Definition classify (e : PaymentReferenceExtractor) (raw : list Z) : Verdict :=
  let token := map to_upper raw in
  match strip_prefix (codes (x_prefix e)) token with
  | None => Skip
  | Some suffix =>
      match suffix with
      | [] => Skip
      | c :: _ =>
          (* [suffix[0]] is a byte: only an ASCII rune can be a digit *)
          if negb (isUpperHex c) then Skip
          else if (byte_len token =? x_token_length e) && allUpperHex suffix then Valid token
          else Suspicious
      end
  end.

Definition valid_tokens (vs : list Verdict) : list (list Z) :=
  flat_map (fun v => match v with Valid t => [t] | _ => [] end) vs.
Definition some_suspicious (vs : list Verdict) : bool :=
  existsb (fun v => match v with Suspicious => true | _ => false end) vs.

Definition decide_tokens (vs : list Verdict) : PaymentReferenceExtraction :=
  match valid_tokens vs with
  | _ :: _ :: _ => PaymentReferenceMultiple
  | [t] => if some_suspicious vs then PaymentReferenceMultiple else PaymentReferenceExact t
  | [] => if some_suspicious vs then PaymentReferenceInvalid else PaymentReferenceMissing
  end.

Definition Extract (e : PaymentReferenceExtractor) (content : list Z) : PaymentReferenceExtraction :=
  match content with
  | [] => PaymentReferenceMissing
  | _ =>
      if x_content_limit e <? Z.of_nat (length content) then PaymentReferenceInvalid
      else decide_tokens (map (classify e) (fields [] (decode_runes content)))
  end.
End Extractor.
