(* ===== verification/References.v ===== *)
(** * References survive the bank

    A reference that the generator draws is found again by the extractor in the text of
    a bank transfer, whatever surrounds it; and whatever the extractor returns has the
    form of a generated reference. *)

From S2P Require Import Prelude Text Domain Schema PaymentReference.

Section Laws.
Context (unicode_letter unicode_digit : Z -> bool) (unicode_upper : Z -> Z).
#[local] Abbreviation separator := (separator unicode_letter unicode_digit).
#[local] Abbreviation fields := (fields unicode_letter unicode_digit).
#[local] Abbreviation to_upper := (to_upper unicode_upper).
#[local] Abbreviation classify := (classify unicode_upper).
#[local] Abbreviation Extract := (Extract unicode_letter unicode_digit unicode_upper).

(** ** Decoding next to ASCII bytes *)

Lemma ascii_no_cont b : 0 <= b < 128 -> cont b = false.
Proof. unfold cont. intros Hb. lia. Qed.
Lemma ascii_no_second3 b0 b : 0 <= b < 128 -> second3 b0 b = false.
Proof. intros Hb. unfold second3, cont, between. repeat case_match; lia. Qed.
Lemma ascii_no_second4 b0 b : 0 <= b < 128 -> second4 b0 b = false.
Proof. intros Hb. unfold second4, cont, between. repeat case_match; lia. Qed.

Lemma decode_ascii b r : 0 <= b < 128 -> decode_runes (b :: r) = b :: decode_runes r.
Proof. intros Hb. cbn [decode_runes]. by rewrite (proj2 (Z.ltb_lt b 128)) by lia. Qed.

Lemma decode_eq b0 l1 : decode_runes (b0 :: l1) =
  if b0 <? 128 then b0 :: decode_runes l1 else
  match l1 with
  | [] => [RuneError]
  | b1 :: l2 =>
      if between 194 223 b0 && cont b1
      then Z.lor (Z.shiftl (Z.land b0 31) 6) (Z.land b1 63) :: decode_runes l2 else
      match l2 with
      | [] => RuneError :: decode_runes l1
      | b2 :: l3 =>
          if between 224 239 b0 && second3 b0 b1 && cont b2
          then Z.lor (Z.lor (Z.shiftl (Z.land b0 15) 12) (Z.shiftl (Z.land b1 63) 6)) (Z.land b2 63) :: decode_runes l3 else
          match l3 with
          | [] => RuneError :: decode_runes l1
          | b3 :: l4 =>
              if between 240 244 b0 && second4 b0 b1 && cont b2 && cont b3
              then Z.lor (Z.lor (Z.shiftl (Z.land b0 7) 18) (Z.shiftl (Z.land b1 63) 12))
                         (Z.lor (Z.shiftl (Z.land b2 63) 6) (Z.land b3 63)) :: decode_runes l4
              else RuneError :: decode_runes l1
          end
      end
  end.
Proof. reflexivity. Qed.

(** An ASCII byte ends whatever sequence comes before it. *)
Lemma decode_before_ascii l b r :
  0 <= b < 128 -> decode_runes (l ++ b :: r) = decode_runes l ++ b :: decode_runes r.
Proof.
  intros Hb. rewrite <- (decode_ascii b r) by done.
  assert (Hno : cont b = false /\ (forall b0, second3 b0 b = false) /\ forall b0, second4 b0 b = false)
    by (split_and!; auto using ascii_no_cont, ascii_no_second3, ascii_no_second4).
  destruct Hno as (Hc & H3 & H4).
  remember (length l) as n eqn:Hn. revert l Hn. induction (lt_wf n) as [n _ IH]; intros l ->.
  assert (Hrec : forall l', (length l' < length l)%nat -> decode_runes (l' ++ b :: r) = decode_runes l' ++ decode_runes (b :: r))
    by (intros l' Hl; by eapply IH).
  clear IH. destruct l as [|b0 l1]; [done|]. rewrite <- app_comm_cons, (decode_eq b0 (l1 ++ b :: r)), (decode_eq b0 l1).
  destruct (b0 <? 128); [rewrite Hrec by (simpl; lia); done|].
  destruct l1 as [|b1 l2]; [|destruct l2 as [|b2 l3]; [|destruct l3 as [|b3 l4]]];
    rewrite <- ?app_comm_cons, ?app_nil_l, ?Hc, ?H3, ?H4, ?andb_false_r, ?andb_false_l; cbv iota.
  - by destruct r as [|? [|? ?]].
  - change (b1 :: b :: r) with ([b1] ++ b :: r). rewrite Hrec by (simpl; lia). destruct (_ && _); [done|]. by destruct r.
  - change (b1 :: b2 :: b :: r) with ([b1; b2] ++ b :: r). change (b2 :: b :: r) with ([b2] ++ b :: r).
    rewrite !Hrec by (simpl; lia). by repeat destruct (_ && _).
  - rewrite !app_comm_cons, !Hrec by (simpl; lia). by repeat destruct (_ && _).
Qed.

(** ** Tokens *)

Lemma fields_separator current l b r :
  separator b = true -> fields current (l ++ b :: r) = fields current l ++ fields [] r.
Proof.
  intros Hb. revert current. induction l as [|c l IH]; intros current; simpl.
  - rewrite Hb. by destruct current.
  - destruct (separator c); [|apply IH]. destruct current; [apply IH|]. by rewrite IH.
Qed.

Lemma fields_token current tok :
  Forall (fun r => separator r = false) tok -> current <> [] \/ tok <> [] ->
  fields current tok = [rev current ++ tok].
Proof.
  intros Htok. revert current. induction Htok as [|c tok Hc Htok IH]; intros current Hne; simpl.
  - rewrite app_nil_r. destruct current; [by destruct Hne|done].
  - rewrite Hc, IH by (by left). simpl. by rewrite <- app_assoc.
Qed.

Definition verdicts (e : PaymentReferenceExtractor) (content : list Z) : list Verdict :=
  map (classify e) (fields [] (decode_runes content)).

Lemma decide_skip vs vs' ws : valid_tokens vs = [] -> some_suspicious vs = false ->
  valid_tokens vs' = [] -> some_suspicious vs' = false -> decide_tokens (vs ++ ws ++ vs') = decide_tokens ws.
Proof.
  intros H1 H2 H3 H4. unfold decide_tokens, valid_tokens, some_suspicious in *.
  by rewrite !flat_map_app, !existsb_app, H1, H2, H3, H4, app_nil_r, orb_false_r.
Qed.

Lemma missing_skip e content : Extract e content = PaymentReferenceMissing ->
  valid_tokens (verdicts e content) = [] /\ some_suspicious (verdicts e content) = false.
Proof.
  unfold PaymentReference.Extract. destruct content as [|c content]; [done|].
  case_match; [done|]. fold (verdicts e (c :: content)). unfold decide_tokens.
  destruct (valid_tokens _) as [|? [|? ?]]; destruct (some_suspicious _); done.
Qed.

Lemma Extract_verdicts e content : content <> [] -> Z.of_nat (length content) <= x_content_limit e ->
  Extract e content = decide_tokens (verdicts e content).
Proof. intros Hne Hl. unfold PaymentReference.Extract. destruct content; [done|]. by rewrite (proj2 (Z.ltb_ge _ _)). Qed.

(** ** Shapes *)

Definition is_byte (b : Z) : Prop := 0 <= b < 256.
Definition ascii_text (l : list Z) : Prop := Forall (fun b => 0 <= b < 128) l.
(** An ASCII separator *)
Definition boundary (b : Z) : Prop := 0 <= b < 128 /\ separator b = true.

Lemma decode_ascii_text l : ascii_text l -> decode_runes l = l.
Proof. induction 1 as [|b l Hb Hl IH]; [done|]. by rewrite decode_ascii, IH. Qed.

Lemma byte_len_ascii l : ascii_text l -> byte_len l = Z.of_nat (length l).
Proof.
  induction 1 as [|b l Hb Hl IH]; [done|]. simpl. rewrite IH. unfold rune_len.
  rewrite (proj2 (Z.ltb_lt b 128)) by lia. lia.
Qed.

Lemma hex_digit_upper n : 0 <= n < 16 -> isUpperHex (hex_digit n) = true.
Proof. unfold hex_digit, isUpperHex, is_digit, between. case_match; lia. Qed.

Lemma upper_hex_shape buffer : Forall is_byte buffer ->
  forallb isUpperHex (upper_hex buffer) = true /\ length (upper_hex buffer) = (2 * length buffer)%nat.
Proof.
  induction 1 as [|b l Hb Hl [IH1 IH2]]; [done|]. unfold is_byte in Hb.
  assert (0 <= Z.shiftr b 4 < 16) by (rewrite Z.shiftr_div_pow2 by lia; change (2 ^ 4) with 16; pose proof (Z.div_mod b 16); pose proof (Z.mod_pos_bound b 16); lia).
  assert (0 <= Z.land b 15 < 16) by (change 15 with (Z.ones 4); rewrite Z.land_ones by lia; apply Z.mod_pos_bound; lia).
  change (upper_hex (b :: l)) with ([hex_digit (Z.shiftr b 4); hex_digit (Z.land b 15)] ++ upper_hex l).
  rewrite forallb_app, length_app, IH1, IH2. simpl forallb. rewrite !hex_digit_upper by done.
  split; [done|]. simpl. lia.
Qed.

Lemma hex_ascii l : forallb isUpperHex l = true -> ascii_text l.
Proof.
  rewrite forallb_forall. intros Hall. apply Forall_forall. intros r Hr. apply list_elem_of_In, Hall in Hr.
  unfold isUpperHex, is_digit, between in Hr. lia.
Qed.

Lemma safe_ascii prefix : safeReferencePart prefix = true ->
  ascii_text (codes prefix) /\ length (codes prefix) = String.length prefix.
Proof.
  unfold safeReferencePart. intros [_ Hall]%andb_true_iff. rewrite forallb_forall in Hall. split.
  - apply Forall_forall. intros r Hr. apply list_elem_of_In, Hall in Hr. unfold is_upper, is_digit, between in Hr. lia.
  - unfold codes. rewrite length_map. clear. by induction prefix; simpl; f_equal.
Qed.

Lemma strip_prefix_app p t : strip_prefix p (p ++ t) = Some t.
Proof. induction p as [|a p IH]; simpl; [done|]. by rewrite Z.eqb_refl. Qed.
Lemma strip_prefix_Some p t u : strip_prefix p t = Some u -> t = p ++ u.
Proof.
  revert t. induction p as [|a p IH]; intros t; simpl; [by intros [= ->]|].
  destruct t as [|b t]; [done|]. destruct (Z.eqb_spec a b) as [->|]; [|done]. by intros ->%IH.
Qed.

(** The case mapping sends separators to separators only. *)
Lemma upper_not_separator r : 0 <= r < 128 -> is_upper (to_upper r) = true \/ is_digit (to_upper r) = true ->
  separator r = false.
Proof.
  intros Hr. unfold PaymentReference.separator, PaymentReference.to_upper, PaymentReference.IsLetter, PaymentReference.IsDigit.
  rewrite (proj2 (Z.ltb_lt r 128)) by lia. unfold is_upper, is_lower, is_digit, between.
  destruct ((97 <=? r) && (r <=? 122)) eqn:E; intros H; [by rewrite orb_true_r|]. rewrite orb_false_r.
  destruct H as [-> | ->]; simpl; [done|by rewrite andb_false_r].
Qed.

Lemma generator_inv p n g : NewPaymentReferenceGenerator p n = inr g ->
  safeReferencePart (g_prefix g) = true /\ g_bytes g = n /\ 4 <= n <= 24.
Proof.
  unfold NewPaymentReferenceGenerator. destruct (safeReferencePart _) eqn:E; simpl; [|done].
  destruct (_ || _) eqn:Eb; [done|]. intros [= <-]. simpl. split_and!; [done..|lia|lia].
Qed.

Lemma extractor_inv p n limit e : NewPaymentReferenceExtractor p n limit = inr e ->
  safeReferencePart (x_prefix e) = true /\ x_token_length e = Z.of_nat (String.length (x_prefix e)) + n * 2 /\
  x_content_limit e = limit /\ 4 <= n <= 24 /\ 0 < limit <= 8192.
Proof.
  unfold NewPaymentReferenceExtractor. destruct (safeReferencePart _) eqn:E; simpl; [|done].
  destruct (_ || _) eqn:Eb; [done|]. intros [= <-]. simpl. split_and!; try done; lia.
Qed.

Lemma classify_reference e n token buffer :
  safeReferencePart (x_prefix e) = true -> x_token_length e = Z.of_nat (String.length (x_prefix e)) + n * 2 ->
  length buffer = Z.to_nat n -> 4 <= n -> Forall is_byte buffer ->
  map to_upper token = codes (x_prefix e) ++ upper_hex buffer ->
  classify e token = Valid (codes (x_prefix e) ++ upper_hex buffer).
Proof.
  intros Hsafe Hlen Hbuf Hn Hbytes Hup. destruct (safe_ascii _ Hsafe) as [Hpa Hpl].
  destruct (upper_hex_shape buffer Hbytes) as [Hhex Hhl].
  unfold PaymentReference.classify. rewrite Hup, strip_prefix_app.
  rewrite byte_len_ascii by (apply Forall_app; split; [done|by apply hex_ascii]).
  rewrite length_app, Hpl, Hhl, Hbuf, Hlen, (proj2 (Z.eqb_eq _ _)) by lia.
  destruct (upper_hex buffer) as [|c l] eqn:E.
  { destruct buffer; [simpl in Hbuf; lia|done]. }
  assert (isUpperHex c = true) as -> by (simpl in Hhex; by apply andb_true_iff in Hhex as [-> _]).
  unfold allUpperHex. by rewrite Hhex.
Qed.

(** Text that ends, or starts, where a token cannot continue *)
Definition ends_clean (l : list Z) : Prop := l = [] \/ exists l' b, l = l' ++ [b] /\ boundary b.
Definition starts_clean (l : list Z) : Prop := l = [] \/ exists b l', l = b :: l' /\ boundary b.

Lemma verdicts_after e pre l : ends_clean pre -> verdicts e (pre ++ l) = verdicts e pre ++ verdicts e l.
Proof.
  intros [-> | (l' & b & -> & Hb & Hs)]; [done|]. unfold verdicts.
  rewrite <- app_assoc. cbn [app]. rewrite !decode_before_ascii, !fields_separator by done.
  by rewrite !map_app, app_nil_r.
Qed.

Lemma verdicts_token e token post : starts_clean post -> ascii_text token -> token <> [] ->
  Forall (fun r => separator r = false) token -> verdicts e (token ++ post) = classify e token :: verdicts e post.
Proof.
  intros Hpost Hasc Hne Hsep. unfold verdicts. destruct Hpost as [-> | (b & l & -> & Hb & Hs)].
  - rewrite app_nil_r, decode_ascii_text, fields_token by auto. done.
  - rewrite decode_before_ascii, decode_ascii_text, decode_ascii by done.
    rewrite fields_separator, fields_token by auto. simpl. by rewrite Hs.
Qed.

Lemma reference_token g token buffer :
  safeReferencePart g = true -> Forall is_byte buffer -> ascii_text token ->
  map to_upper token = codes g ++ upper_hex buffer -> Forall (fun r => separator r = false) token.
Proof.
  intros Hsafe Hbytes Hasc Hup. unfold safeReferencePart in Hsafe. apply andb_true_iff in Hsafe as [_ Hall].
  rewrite forallb_forall in Hall. destruct (upper_hex_shape buffer Hbytes) as [Hhex _]. rewrite forallb_forall in Hhex.
  apply Forall_forall. intros r Hr. unfold ascii_text in Hasc. rewrite Forall_forall in Hasc.
  apply upper_not_separator; [by apply Hasc|].
  assert (Hin : to_upper r ∈ codes g ++ upper_hex buffer) by (rewrite <- Hup; by apply list_elem_of_fmap_2).
  apply elem_of_app in Hin as [Hin|Hin]; apply list_elem_of_In in Hin.
  - apply Hall in Hin. by apply orb_true_iff in Hin.
  - apply Hhex in Hin. unfold isUpperHex, is_upper, between in *. apply orb_true_iff in Hin as [Hin|Hin]; [by right|left; lia].
Qed.

(** C30: a reference that the generator drew is recognised by the extractor of the same
    prefix and size in a transfer's content, even when the bank changed the case of
    its letters, between any text before and after it that is kept apart from it by a
    separator, contains nothing that looks like a reference itself, and leaves the whole
    content within the extractor's limit. *)
Theorem generated_references_are_extracted p p' n limit g e buffer reference token pre post :
  NewPaymentReferenceGenerator p n = inr g -> NewPaymentReferenceExtractor p' n limit = inr e ->
  x_prefix e = g_prefix g -> Forall is_byte buffer -> length buffer = Z.to_nat n ->
  Generate g (Some buffer) = inr reference ->
  ascii_text token -> map to_upper token = reference ->
  ends_clean pre -> starts_clean post ->
  Extract e pre = PaymentReferenceMissing -> Extract e post = PaymentReferenceMissing ->
  Z.of_nat (length (pre ++ token ++ post)) <= limit ->
  Extract e (pre ++ token ++ post) = PaymentReferenceExact reference.
Proof.
  intros Hg He Hpre Hbytes Hbuf Hgen Hasc Hup Hl Hr Hml Hmr Hlimit.
  apply generator_inv in Hg as (Hsafe & _ & Hn & _). apply extractor_inv in He as (_ & Htl & Hcl & _ & _).
  injection Hgen as <-. rewrite <- Hpre in *.
  assert (Hne : token <> []).
  { intros ->. destruct buffer; [simpl in Hbuf; lia|]. by destruct (codes (x_prefix e)). }
  assert (Hne' : pre ++ token ++ post <> []) by (by destruct pre, token).
  rewrite Extract_verdicts by (rewrite ?Hcl; done).
  rewrite verdicts_after, verdicts_token by eauto using reference_token.
  erewrite classify_reference by eauto. apply missing_skip in Hml as [? ?], Hmr as [? ?].
  change (Valid ?t :: ?vs) with ([Valid t] ++ vs). by rewrite decide_skip.
Qed.

(** C31: whatever the extractor returns as exact is the only candidate in the text and has the
    form of a generated reference: the prefix and then upper-case hexadecimal digits,
    two for each random byte. *)
Theorem extracted_references_are_well_formed p n limit e content reference :
  NewPaymentReferenceExtractor p n limit = inr e -> Extract e content = PaymentReferenceExact reference ->
  valid_tokens (verdicts e content) = [reference] /\ some_suspicious (verdicts e content) = false /\
  Z.of_nat (length content) <= limit /\
  exists suffix, reference = codes (x_prefix e) ++ suffix /\ forallb isUpperHex suffix = true /\
    Z.of_nat (length suffix) = 2 * n.
Proof.
  intros He Hx. apply extractor_inv in He as (Hsafe & Htl & <- & _ & _).
  assert (Hd : decide_tokens (verdicts e content) = PaymentReferenceExact reference /\ Z.of_nat (length content) <= x_content_limit e).
  { unfold PaymentReference.Extract in Hx. destruct content; [done|]. case_match eqn:E; [done|]. split; [exact Hx|lia]. }
  destruct Hd as [Hd Hlim]. unfold decide_tokens in Hd.
  destruct (valid_tokens (verdicts e content)) as [|t [|? ?]] eqn:Hv; try (by destruct (some_suspicious _)).
  destruct (some_suspicious (verdicts e content)) eqn:Hs; [done|]. injection Hd as ->. split_and!; try done.
  assert (Hin : reference ∈ valid_tokens (verdicts e content)) by (rewrite Hv; left).
  unfold valid_tokens in Hin. apply list_elem_of_In, in_flat_map in Hin as (v & Hin & Hv').
  destruct v as [|t|]; try done. destruct Hv' as [->|[]].
  unfold verdicts in Hin. apply in_map_iff in Hin as (raw & Hc & _). unfold PaymentReference.classify in Hc.
  destruct (strip_prefix _ _) as [suffix|] eqn:Hsp; [|done]. destruct suffix as [|c suffix]; [done|].
  case_match; [done|]. case_match eqn:Hb; [|done]. injection Hc as <-. apply andb_true_iff in Hb as [Hbl Hhex].
  apply strip_prefix_Some in Hsp. exists (c :: suffix). split_and!; [done..|].
  destruct (safe_ascii _ Hsafe) as [Hpa Hpl]. rewrite Hsp, byte_len_ascii, length_app, Hpl in Hbl
    by (apply Forall_app; split; [done|by apply hex_ascii]). apply Z.eqb_eq in Hbl. rewrite Htl, Nat2Z.inj_add in Hbl. clear -Hbl. lia.
Qed.
End Laws.

(** ** At concrete inputs *)

Definition no_letter (r : Z) : bool := false.
Definition same_rune (r : Z) : Z := r.
Definition shop_generator : RandomPaymentReferenceGenerator := mkGenerator "DH" 4.
Definition shop_extractor : PaymentReferenceExtractor := mkExtractor "DH" 10 512.

Lemma generated_references_are_extracted_witness :
  Extract no_letter no_letter same_rune shop_extractor (codes "CT tu LAN: dh0a1b2c3d, cam on")
  = PaymentReferenceExact (codes "DH0A1B2C3D").
Proof.
  refine (generated_references_are_extracted no_letter no_letter same_rune "dh" " DH" 4 512 shop_generator shop_extractor
    [10; 27; 44; 61] (codes "DH0A1B2C3D") (codes "dh0a1b2c3d") (codes "CT tu LAN: ") (codes ", cam on")
    _ _ _ _ _ _ _ _ _ _ _ _ _); try (vm_compute; reflexivity).
  - repeat constructor; lia.
  - change (ascii_text [100; 104; 48; 97; 49; 98; 50; 99; 51; 100]). repeat constructor; lia.
  - right. exists (codes "CT tu LAN:"), 32. split; [reflexivity|]. split; [lia | reflexivity].
  - right. exists 44, (codes " cam on"). split; [reflexivity|]. split; [lia | reflexivity].
  - vm_compute. discriminate.
Defined.

Lemma extracted_references_are_well_formed_witness :
  exists suffix, codes "DH0A1B2C3D" = codes "DH" ++ suffix /\ Z.of_nat (length suffix) = 2 * 4.
Proof.
  assert (He : NewPaymentReferenceExtractor "DH" 4 512 = inr shop_extractor) by (vm_compute; reflexivity).
  assert (Hx : Extract no_letter no_letter same_rune shop_extractor (codes "x DH0A1B2C3D") = PaymentReferenceExact (codes "DH0A1B2C3D"))
    by (vm_compute; reflexivity).
  destruct (extracted_references_are_well_formed _ _ _ _ _ _ _ _ _ He Hx) as (_ & _ & _ & suffix & Hs & _ & Hl).
  exists suffix. split; [exact Hs | exact Hl].
Defined.
