(* ===== verification/PaymentEvents.v ===== *)
(** * Payment events

    Ingestion of provider notifications and the worker that turns them into
    payments: [src/internal/postgres/payment_event_store.go],
    [payment_event_worker_store.go], [src/internal/app/payment_event_service.go],
    [payment_event_job.go] and [payment_acceptance_service.go].

    SHA-256 and the RFC 3339 rendering of a time are parameters; [json.Valid] and
    [json.Unmarshal] of the sanitized metadata are the two fields of
    [SanitizedMetadata]. *)

From S2P Require Import Text Prelude Domain Schema Tx Tables Models QPayments QUsers UpdateStore PaymentStore.
From S2P Require Import PaymentReference.

Record SanitizedMetadata := mkSanitizedMetadata { sm_valid : bool; sm_stored : option StoredPaymentMetadata }.

Record NormalizedPaymentEvent := mkNormalizedPaymentEvent { ne_provider : string; ne_environment : string;
    ne_external_event_id : string; ne_transaction_id : string; ne_reference : string; ne_direction : string;
    ne_content : string; ne_destination : string; ne_provider_account : string; ne_source : string;
    ne_amount : Z; ne_currency : string; ne_occurred_at : Time; ne_received_account : string;
    ne_event_type : string; ne_payload_hash : Bytes; ne_fingerprint : Bytes; ne_metadata : SanitizedMetadata }.
#[export] Instance Eta_NormalizedPaymentEvent : Eta NormalizedPaymentEvent := fun r =>
    mkNormalizedPaymentEvent (ne_provider r) (ne_environment r) (ne_external_event_id r) (ne_transaction_id r)
    (ne_reference r) (ne_direction r) (ne_content r) (ne_destination r) (ne_provider_account r) (ne_source r)
    (ne_amount r) (ne_currency r) (ne_occurred_at r) (ne_received_account r) (ne_event_type r)
    (ne_payload_hash r) (ne_fingerprint r) (ne_metadata r).

Record PaymentEventRecord := mkPaymentEventRecord { pe_id : Z; pe_provider : string;
    pe_external_event_id : string; pe_transaction_id : string; pe_payload_hash : Bytes; pe_fingerprint : Bytes }.
Record PaymentEventIngestionResult := mkPaymentEventIngestionResult { in_event_id : Z; in_duplicate : bool }.
Record PaymentEventWorkItem := mkPaymentEventWorkItem { pw_id : Z; pw_provider : string;
    pw_external_event_id : string; pw_transaction_id : string; pw_reference : string; pw_environment : string;
    pw_source : string; pw_direction : string; pw_content : string; pw_destination : string;
    pw_mapping_id : Z; pw_bank_account_id : Z; pw_amount : Z; pw_currency : string; pw_occurred_at : Time;
    pw_attempts : Z }.
#[export] Instance Eta_PaymentEventWorkItem : Eta PaymentEventWorkItem := fun r =>
    mkPaymentEventWorkItem (pw_id r) (pw_provider r) (pw_external_event_id r) (pw_transaction_id r)
    (pw_reference r) (pw_environment r) (pw_source r) (pw_direction r) (pw_content r) (pw_destination r)
    (pw_mapping_id r) (pw_bank_account_id r) (pw_amount r) (pw_currency r) (pw_occurred_at r) (pw_attempts r).

(** ** The store *)

Definition mapPaymentEventRecord (r : PaymentEventRow) : PaymentEventRecord :=
  mkPaymentEventRecord (ev_id r) (ev_provider r) (ev_external_event_id r) (text_or_empty (ev_transaction_id r))
    (ev_payload_hash r) (ev_fingerprint r).

Definition event_params (event : NormalizedPaymentEvent) (max_attempts : Z) : InsertPaymentEventParams :=
  mkInsertPaymentEventParams (ne_provider event) (ne_external_event_id event)
    (optionalText (ne_transaction_id event)) (ne_event_type event) (ne_payload_hash event)
    (sm_stored (ne_metadata event)) (str_eqb (ne_source event) "webhook") (ne_environment event)
    (ne_source event) (ne_direction event) (ne_content event) (optionalText (ne_destination event))
    (optionalText (ne_provider_account event)) (ne_fingerprint event) max_attempts.

Definition insert_event_tx (event : NormalizedPaymentEvent) (max_attempts : Z) : Tx Database (PaymentEventRecord * bool) :=
  inserted ← try_row (QPayments.InsertPaymentEvent (event_params event max_attempts));
  match inserted with
  | Some row => mret (mapPaymentEventRecord row, true)
  | None =>
      found ← try_row (GetPaymentEventByProviderEventID (ne_provider event) (ne_external_event_id event));
      row ← match found with
            | Some row => mret row
            | None => GetPaymentEventByProviderTransactionID (ne_provider event) (ne_environment event)
                        (optionalText (ne_transaction_id event))
            end;
      mret (mapPaymentEventRecord row, false)
  end.

Definition InsertPaymentEvent (event : NormalizedPaymentEvent) (max_attempts : Z)
    : Action Database (PaymentEventRecord * bool) :=
  autocommit (insert_event_tx event max_attempts).

Definition record_conflict_tx (event_id : Z) (event : NormalizedPaymentEvent) (reason : string) : Tx Database unit :=
  row ← LockPaymentEvent event_id;
  let reference := if str_eqb (ne_reference event) "" then "UNRESOLVED"%string else ne_reference event in
  InsertPaymentReviewCase (mkInsertPaymentReviewCaseParams (Some (ev_id row)) None None None (ev_provider row)
    (optionalText (ne_transaction_id event)) reference (ne_amount event) (ne_currency event)
    (ne_occurred_at event) reason (ne_environment event) (ne_source event) None
    (optionalText (ne_destination event)));;
  now ← time_now;
  try_row (MarkPaymentEventReviewedBeforeAcceptance now (optionalText "payment provider evidence conflict")
    (optionalText reason) (ev_id row));;
  InsertAuditLog "system" None "payment.provider_event_conflict" "payment_event" (Some (ev_id row)) None
    (Some (JObj [("provider", JStr (ev_provider row)); ("environment", JStr (ev_environment row));
                 ("reason", JStr reason); ("external_event_id", JStr (ne_external_event_id event))]))
    (optionalText "provider-event-conflict") None;;
  mret tt.

Definition RecordPaymentEventConflict (event_id : Z) (event : NormalizedPaymentEvent) (reason : string)
    : Action Database unit :=
  WithinTransaction (record_conflict_tx event_id event reason).

Definition work_item_of (row : PaymentEventRow) (metadata : StoredPaymentMetadata) : PaymentEventWorkItem :=
  mkPaymentEventWorkItem (ev_id row) (ev_provider row) (ev_external_event_id row)
    (text_or_empty (ev_transaction_id row)) (sm_reference metadata) (ev_environment row) (ev_source row)
    (ev_direction row) (ev_content row) (text_or_empty (ev_destination row)) 0 0 (sm_amount_vnd metadata)
    (sm_currency metadata) (sm_occurred_at metadata) (ev_attempts row).

(** Each statement commits on its own: the claim of the batch stands whatever
    happens to the items after it. *)
Fixpoint attach_items (rows : list PaymentEventRow) : Script Database (list PaymentEventWorkItem) :=
  match rows with
  | [] => mret []
  | row :: rows' =>
      match ev_payload row with
      | None => stop (ErrExternal "decode payment event metadata")
      | Some metadata =>
          let item := work_item_of row metadata in
          item ←
            (if str_eqb (pw_destination item) "" then mret item
             else
               mapping ← run_result (autocommit (ResolveActivePaymentProviderAccount (ev_provider row)
                 (ev_environment row) (pw_destination item)));
               match mapping with
               | inr mapping =>
                   attached ← run_result (autocommit (AttachPaymentEventProviderAccount (pa_id mapping) (ev_id row)));
                   match attached with
                   | inl ErrNoRows | inr _ =>
                       mret (item <| pw_mapping_id := pa_id mapping |>
                                  <| pw_bank_account_id := pa_bank_account_id mapping |>)
                   | inl e => stop e
                   end
               | inl ErrNoRows => mret item
               | inl e => stop e
               end);
          items ← attach_items rows';
          mret (item :: items)
      end
  end.

Definition ClaimPaymentEvents (now stale_before : Time) (batch_size : Z) : Script Database (list PaymentEventWorkItem) :=
  rows ← run (autocommit (QPayments.ClaimPaymentEvents now stale_before batch_size));
  attach_items rows.

Definition review_event_tx (item : PaymentEventWorkItem) (reference reason : string) (reviewed_at : Time) : Tx Database unit :=
  row ← LockPaymentEvent (pw_id item);
  if bool_decide (ev_status row = EventReview) || bool_decide (ev_status row = EventCompleted) then mret tt
  else
    InsertPaymentReviewCase (mkInsertPaymentReviewCaseParams (Some (pw_id item)) None None None (pw_provider item)
      (optionalText (pw_transaction_id item)) reference (pw_amount item) (pw_currency item)
      (pw_occurred_at item) reason (pw_environment item) (pw_source item)
      (optionalInt8 (pw_mapping_id item)) (optionalText (pw_destination item)));;
    MarkPaymentEventReviewedBeforeAcceptance reviewed_at
      (optionalText "payment provider event requires review") (optionalText reason) (pw_id item);;
    mret tt.

Definition ReviewPaymentEvent (item : PaymentEventWorkItem) (reference reason : string) (reviewed_at : Time)
    : Action Database unit :=
  WithinTransaction (review_event_tx item reference reason reviewed_at).

Definition CompleteIgnoredPaymentEvent (event_id : Z) (reason : string) (completed_at : Time) : Action Database unit :=
  autocommit (QPayments.CompleteIgnoredPaymentEvent completed_at
    (optionalText "provider transaction ignored") (optionalText reason) event_id;; mret tt).

Definition SchedulePaymentEventRetry (event_id : Z) (next_attempt_at processed_at : Time)
    (errorCode errorDetail : string) : Action Database unit :=
  autocommit (QPayments.SchedulePaymentEventRetry next_attempt_at processed_at
    (optionalText errorDetail) (optionalText errorCode) event_id;; mret tt).

(** ** PaymentEventIngestionService *)

Definition validPaymentSource (e : string) : bool := str_in e ["webhook"; "reconciliation"; "legacy"].

Section Ingestion.
Context (sha256 : string -> Bytes) (rfc3339 : Time -> string).

(** The unit separator of the canonical form *)
Definition unit_separator : string := String (Ascii.ascii_of_nat 31) EmptyString.

Definition paymentBusinessFingerprint (event : NormalizedPaymentEvent) : Bytes :=
  sha256 (String.concat unit_separator
    [ne_provider event; ne_environment event; ne_transaction_id event; ne_event_type event;
     ne_direction event; Z_dec (ne_amount event); ne_currency event; ne_content event;
     ne_destination event; ne_provider_account event; rfc3339 (ne_occurred_at event)]).

Definition or_default (value fallback : string) : string := if str_eqb value "" then fallback else value.

Definition normalizePaymentEvent (event : NormalizedPaymentEvent) : NormalizedPaymentEvent :=
  let reference := TrimSpace (ToUpper (ne_reference event)) in
  let e := event
    <| ne_provider := TrimSpace (ne_provider event) |>
    <| ne_environment := or_default (TrimSpace (ToLower (ne_environment event))) "production" |>
    <| ne_external_event_id := TrimSpace (ne_external_event_id event) |>
    <| ne_transaction_id := TrimSpace (ne_transaction_id event) |>
    <| ne_reference := reference |>
    <| ne_direction := or_default (TrimSpace (ToLower (ne_direction event))) "inbound" |>
    <| ne_content := or_default (TrimSpace (ne_content event)) reference |>
    <| ne_destination := TrimSpace (ne_destination event) |>
    <| ne_provider_account := TrimSpace (ne_provider_account event) |>
    <| ne_source := or_default (TrimSpace (ToLower (ne_source event))) "webhook" |>
    <| ne_currency := TrimSpace (ToUpper (ne_currency event)) |> in
  match ne_fingerprint e with
  | [] => e <| ne_fingerprint := paymentBusinessFingerprint e |>
  | _ => e
  end.

(** The validation of a normalized event *)
Definition invalid_event (event : NormalizedPaymentEvent) (maxAttempts : Z) : bool :=
  str_eqb (ne_provider event) "" || str_eqb (ne_external_event_id event) ""
  || str_eqb (ne_transaction_id event) "" || str_eqb (ne_content event) "" || (ne_amount event <=? 0)
  || str_eqb (ne_currency event) "" || time_is_zero (ne_occurred_at event) || str_eqb (ne_event_type event) ""
  || negb (validPaymentEnvironment (ne_environment event)) || negb (validPaymentSource (ne_source event))
  || (negb (str_eqb (ne_direction event) "inbound") && negb (str_eqb (ne_direction event) "outbound"))
  || negb (Nat.eqb (length (ne_payload_hash event)) 32) || negb (Nat.eqb (length (ne_fingerprint event)) 32)
  || (maxAttempts <=? 0) || negb (sm_valid (ne_metadata event)).

(** Why a notification that is already stored contradicts the stored one *)
Definition conflict_reason (record : PaymentEventRecord) (event : NormalizedPaymentEvent) : string :=
  if str_eqb (pe_external_event_id record) (ne_external_event_id event)
     && negb (bool_decide (pe_payload_hash record = ne_payload_hash event))
  then "provider_event_payload_conflict"
  else if str_eqb (pe_transaction_id record) (ne_transaction_id event)
          && negb (bool_decide (pe_fingerprint record = ne_fingerprint event))
  then "provider_duplicate_transaction_conflict"
  else "".

Definition Ingest (maxAttempts : Z) (event : NormalizedPaymentEvent) : Script Database PaymentEventIngestionResult :=
  let event := normalizePaymentEvent event in
  if invalid_event event maxAttempts then stop ErrInvalidInput
  else
    stored ← run (InsertPaymentEvent event maxAttempts);
    let '(record, inserted) := stored in
    let reason := conflict_reason record event in
    if negb inserted && negb (str_eqb reason "") then
      run (RecordPaymentEventConflict (pe_id record) event reason) ≫= (fun _ => stop ErrPaymentEventConflict)
    else mret (mkPaymentEventIngestionResult (pe_id record) (negb inserted)).
End Ingestion.

(** ** PaymentAcceptanceService.Accept *)

Definition normalize_command (command : AcceptPaymentCommand) : AcceptPaymentCommand :=
  let environment := TrimSpace (ToLower (ap_environment command)) in
  let source := TrimSpace (ToLower (ap_source command)) in
  command
    <| ap_provider := TrimSpace (ap_provider command) |>
    <| ap_transaction_id := TrimSpace (ap_transaction_id command) |>
    <| ap_reference := TrimSpace (ap_reference command) |>
    <| ap_currency := TrimSpace (ap_currency command) |>
    <| ap_environment := if str_eqb environment "" then "production"%string else environment |>
    <| ap_source := if str_eqb source "" then
                      (if str_eqb (pact_type (ap_actor command)) "provider" then "webhook" else "manual")%string
                    else source |>
    <| ap_destination := TrimSpace (ap_destination command) |>.

Definition invalid_command (command : AcceptPaymentCommand) (reservationTTL : Duration) : bool :=
  str_eqb (ap_provider command) "" || str_eqb (ap_transaction_id command) "" || str_eqb (ap_reference command) ""
  || (ap_amount command <=? 0) || str_eqb (ap_currency command) "" || time_is_zero (ap_occurred_at command)
  || negb (str_in (pact_type (ap_actor command)) ["provider"; "admin"; "user"])
  || negb (validPaymentEnvironment (ap_environment command))
  || negb (str_in (ap_source command) ["webhook"; "reconciliation"; "manual"; "legacy"])
  || (reservationTTL <=? 0).

Definition Accept (reservationTTL : Duration) (deliveryMaxAttempts : Z) (command : AcceptPaymentCommand)
    : Action Database PaymentAcceptanceResult := fun env =>
  let command := normalize_command command in
  if invalid_command command reservationTTL then reject ErrInvalidInput env
  else AcceptPayment command (env_now env) reservationTTL [deliveryMaxAttempts] env.

(** ** PaymentEventJob *)

Record PaymentEventJob := mkPaymentEventJob { pj_batch_size : Z; pj_retry_base : Duration;
    pj_stale_after : Duration; pj_reservation_ttl : Duration; pj_delivery_max_attempts : Z;
    pj_extract : option (string -> PaymentReferenceExtraction) }.

(** [base * time.Duration(1<<shift)] in [int64] arithmetic *)
Definition retryDelay (base : Duration) (attempts : Z) : Duration :=
  let shift := wrap32 (attempts - 1) in
  let shift := if shift <? 0 then 0 else shift in
  let shift := if 10 <? shift then 10 else shift in
  wrap64 (base * Z.shiftl 1 shift).

Definition event_request_id (event_id : Z) : string := ("payment-event-" ++ Z_dec event_id)%string.

Definition event_command (item : PaymentEventWorkItem) (reference : string) : AcceptPaymentCommand :=
  mkAcceptPaymentCommand (pw_id item) (pw_provider item) (pw_external_event_id item) (pw_transaction_id item)
    reference (pw_amount item) (pw_currency item) (pw_occurred_at item) (mkPaymentActor "provider" 0)
    (event_request_id (pw_id item)) (pw_environment item) (pw_source item) (pw_mapping_id item)
    (pw_bank_account_id item) (pw_destination item).

(** The reference the worker uses, or the reason it cannot *)
Definition item_reference (j : PaymentEventJob) (item : PaymentEventWorkItem) : string + string :=
  match pj_extract j with
  | None => inr (pw_reference item)
  | Some extract =>
      match extract (pw_content item) with
      | PaymentReferenceExact reference => inr (bytes_string reference)
      | PaymentReferenceMultiple => inl "provider_ambiguous_reference"%string
      | _ => inl "provider_unmatched_reference"%string
      end
  end.

Definition process_item (j : PaymentEventJob) (now : Time) (item : PaymentEventWorkItem) : Script Database unit :=
  if str_eqb (pw_direction item) "outbound"
  then run (CompleteIgnoredPaymentEvent (pw_id item) "provider_unsupported_transaction" now)
  else
    match item_reference j item with
    | inl reason => run (ReviewPaymentEvent item "UNRESOLVED" reason now)
    | inr reference =>
        if negb (str_eqb (pw_destination item) "") && (pw_mapping_id item =? 0)
        then run (ReviewPaymentEvent item reference "provider_account_unmapped" now)
        else
          accepted ← run_result (Accept (pj_reservation_ttl j) (pj_delivery_max_attempts j) (event_command item reference));
          match accepted with
          | inr _ => mret tt
          | inl _ =>
              run (SchedulePaymentEventRetry (pw_id item) (now + retryDelay (pj_retry_base j) (pw_attempts item)) now
                     "acceptance_failed" "payment acceptance failed")
          end
    end.

Definition PaymentEventJob_RunOnce (j : PaymentEventJob) : Script Database Z :=
  if (pj_batch_size j <=? 0) || (pj_retry_base j <=? 0) || (pj_stale_after j <=? 0) then stop ErrInvalidInput
  else
    now ← now_script;
    items ← ClaimPaymentEvents now (now - pj_stale_after j) (pj_batch_size j);
    script_each items (process_item j now) ≫= fun _ =>
    mret (Z.of_nat (length items)).
