(* ===== verification/AdminService.v ===== *)
(** * Administration and catalog services

    [src/internal/app/admin_service.go], [catalog_service.go] and [user_service.go]:
    the validation of inputs, the authorization of every call and the administrator's
    sessions, over the store.  A service call is a script of store actions, each in
    its own environment.  A session payload is given as what [json.Marshal] makes of
    it; [None] is Go's [nil]. *)

From Stdlib Require Import Ascii.
From S2P Require Import Prelude Text Domain Schema Tx Tables Models AdminModels UpdateStore AdminStore CatalogStore.
From S2P Require Import WalletStore.

Definition SessionInventoryImport : string := "inventory.import".
Definition SessionInventoryToggle : string := "inventory.toggle".
Definition SessionBankCreate : string := "bank.create".
Definition SessionBankEdit : string := "bank.edit".
Definition SessionBankToggle : string := "bank.toggle".
Definition SessionPaymentManual : string := "payment.manual".
Definition SessionPaymentReview : string := "payment.review".
Definition SessionDeliveryRetry : string := "delivery.retry".
Definition SessionDeliveryComplete : string := "delivery.complete".
Definition SessionProviderAccountCreate : string := "provider.account.create".
Definition SessionProviderAccountToggle : string := "provider.account.toggle".
Definition SessionProviderReconciliation : string := "provider.reconciliation".

Definition validSessionState (state : string) : bool :=
  str_in state [SessionCategoryCreate; SessionCategoryEdit; SessionCategoryToggle;
    SessionProductCreate; SessionProductEdit; SessionProductToggle;
    SessionInventoryImport; SessionInventoryToggle;
    SessionBankCreate; SessionBankEdit; SessionBankToggle;
    SessionPaymentManual; SessionPaymentReview; SessionWalletAdjustment;
    SessionDeliveryRetry; SessionDeliveryComplete;
    SessionProviderAccountCreate; SessionProviderAccountToggle; SessionProviderReconciliation].

Definition encodePayload (payload : option string) : Error + string :=
  match payload with
  | None => inr "{}"%string
  | Some encoded => if 16 * 1024 <? str_len encoded then inl ErrInvalidInput else inr encoded
  end.

(** [strings.ContainsAny(raw, ".,")] *)
Definition has_separator (raw : string) : bool :=
  existsb (fun a => Ascii.eqb a "."%char || Ascii.eqb a ","%char) (String.list_ascii_of_string raw).

Definition ParseMoneyInput (raw : string) : option Z :=
  let raw := TrimSpace raw in
  if str_eqb raw "" || has_separator raw then None
  else
    match ParseInt 64 raw with
    | None => None
    | Some value => match Money.NewMoney value with inl _ => None | inr money => Some money end
    end.

Definition slug_char (a : ascii) : bool :=
  let n := ascii_Z a in
  ((97 <=? n) && (n <=? 122)) || ((48 <=? n) && (n <=? 57)) || (n =? 45).

(** The runes of a slug are checked one by one: a byte outside ASCII belongs to a
    rune that is refused. *)
Definition validateCategory (name slug : string) (sortOrder : Z) : bool :=
  negb (str_eqb name "" || (120 <? rune_count name) || str_eqb slug "" || (160 <? str_len slug) || (sortOrder <? 0))
  && forallb slug_char (String.list_ascii_of_string slug).

Definition validateProduct (categoryID : Z) (name slug description : string) (price : Z) : bool :=
  negb ((categoryID <=? 0) || str_eqb name "" || (160 <? rune_count name) || str_eqb slug "" || (180 <? str_len slug)
        || (2000 <? rune_count description) || (price <? 0)).

(** ** AdminService *)

Module AdminService.

Definition bootstrap_one (telegramID : Z) : Script Database unit := run (BootstrapAdmin telegramID).

Fixpoint bootstrap_all (seen telegramIDs : list Z) : Script Database unit :=
  match telegramIDs with
  | [] => mret tt
  | telegramID :: rest =>
      if telegramID <=? 0 then stop ErrInvalidInput
      else if bool_decide (telegramID ∈ seen) then bootstrap_all seen rest
      else bootstrap_one telegramID ≫= fun _ => bootstrap_all (telegramID :: seen) rest
  end.
Definition Bootstrap (telegramIDs : list Z) : Script Database unit := bootstrap_all [] telegramIDs.

Definition Authorize (telegramID : Z) (mutation : bool) : Script Database Admin :=
  if telegramID <=? 0 then stop ErrUnauthorized
  else
    found ← run_result (AuthorizeAdmin telegramID);
    match found with
    | inl ErrNotFound => stop ErrForbidden
    | inl e => stop e
    | inr admin =>
        if negb (CanOpenAdmin admin) || (mutation && negb (CanManageCatalog admin)) then stop ErrForbidden
        else mret admin
    end.

Section Service.
Context (sessionTTL : Duration).

(** [s.clock().Add(s.sessionTTL)] is read before the store is called. *)
Definition with_deadline {A} (call : Time -> Action Database A) : Script Database A :=
  now ← now_script;
  run (call (now + sessionTTL)).

Definition StartSession (telegramID : Z) (state : string) (payload : option string) (meta : RequestMeta)
    : Script Database AdminSession :=
  if negb (validSessionState state) then stop ErrInvalidInput
  else
    admin ← Authorize telegramID true;
    match encodePayload payload with
    | inl e => stop e
    | inr encoded => with_deadline (fun expires_at => AdminStore.StartSession admin state encoded expires_at meta)
    end.

Definition LoadSession (telegramID : Z) : Script Database AdminSession :=
  admin ← Authorize telegramID true;
  found ← run_result (GetActiveSession (adm_id admin));
  match found with
  | inl ErrNotFound => stop ErrSessionExpired
  | inl e => stop e
  | inr session =>
      now ← now_script;
      if negb (time_after (ss_expires_at session) now) then stop ErrSessionExpired else mret session
  end.

Definition AdvanceSession (telegramID : Z) (session : AdminSession) (state : string) (payload : option string)
    (meta : RequestMeta) : Script Database AdminSession :=
  if negb (validSessionState state) then stop ErrInvalidInput
  else
    admin ← Authorize telegramID true;
    match encodePayload payload with
    | inl e => stop e
    | inr encoded => with_deadline (fun expires_at => AdminStore.AdvanceSession admin session state encoded expires_at meta)
    end.
End Service.

Definition CancelSession (telegramID : Z) (session : AdminSession) (meta : RequestMeta) : Script Database unit :=
  admin ← Authorize telegramID true;
  run (AdminStore.CancelSession admin session meta).

(** A change of the catalog: the input is validated, the administrator authorized,
    and the store makes the change. *)
Definition change {A} (valid : bool) (telegramID : Z) (store : Admin -> Action Database A) : Script Database A :=
  if negb valid then stop ErrInvalidInput
  else
    admin ← Authorize telegramID true;
    run (store admin).

Definition CreateCategory (telegramID : Z) (session : AdminSession) (input : CreateCategoryInput) : Script Database Category :=
  let input := mkCreateCategoryInput (TrimSpace (cci_name input)) (TrimSpace (cci_slug input)) (cci_sort_order input) (cci_meta input) in
  change (validateCategory (cci_name input) (cci_slug input) (cci_sort_order input)) telegramID
    (fun admin => CatalogStore.CreateCategory admin session input).

Definition UpdateCategory (telegramID : Z) (session : AdminSession) (input : UpdateCategoryInput) : Script Database Category :=
  let input := mkUpdateCategoryInput (uci_category_id input) (uci_expected_record input) (TrimSpace (uci_name input))
                 (uci_sort_order input) (uci_meta input) in
  change (negb ((uci_category_id input <=? 0) || (uci_expected_record input <=? 0) || str_eqb (uci_name input) ""
                || (120 <? rune_count (uci_name input)) || (uci_sort_order input <? 0))) telegramID
    (fun admin => CatalogStore.UpdateCategory admin session input).

Definition SetCategoryActive (telegramID : Z) (session : AdminSession) (input : SetCategoryActiveInput) : Script Database Category :=
  change (negb ((sci_category_id input <=? 0) || (sci_expected_record input <=? 0))) telegramID
    (fun admin => CatalogStore.SetCategoryActive admin session input).

(** [normalizeProduct] *)
Definition normalizeProduct (input : CreateProductInput) : CreateProductInput :=
  mkCreateProductInput (cpi_category_id input) (TrimSpace (cpi_name input)) (TrimSpace (cpi_slug input))
    (TrimSpace (cpi_description input)) (cpi_price input) (cpi_meta input).

Definition CreateProduct (telegramID : Z) (session : AdminSession) (input : CreateProductInput) : Script Database Product :=
  let input := normalizeProduct input in
  change (validateProduct (cpi_category_id input) (cpi_name input) (cpi_slug input) (cpi_description input) (cpi_price input))
    telegramID (fun admin => CatalogStore.CreateProduct admin session input).

Definition UpdateProduct (telegramID : Z) (session : AdminSession) (input : UpdateProductInput) : Script Database Product :=
  let input := mkUpdateProductInput (upi_product_id input) (upi_expected_record input) (upi_category_id input)
                 (TrimSpace (upi_name input)) (TrimSpace (upi_description input)) (upi_price input) (upi_meta input) in
  change (negb ((upi_product_id input <=? 0) || (upi_expected_record input <=? 0)
                || negb (validateProduct (upi_category_id input) (upi_name input) "valid" (upi_description input) (upi_price input))))
    telegramID (fun admin => CatalogStore.UpdateProduct admin session input).

Definition SetProductActive (telegramID : Z) (session : AdminSession) (input : SetProductActiveInput) : Script Database Product :=
  change (negb ((spi_product_id input <=? 0) || (spi_expected_record input <=? 0))) telegramID
    (fun admin => CatalogStore.SetProductActive admin session input).
End AdminService.

(** ** UserService *)

Module UserService.
(** [Sync]: a blocked user is returned next to the error, which callers only use to
    refuse him. *)
Definition Sync (profile : TelegramProfile) : Script Database AppUser :=
  if tpf_telegram_user_id profile <=? 0 then stop ErrInvalidInput
  else
    user ← run (UpsertTelegramUser
      (mkTelegramProfile (tpf_telegram_user_id profile) (TrimSpace (tpf_username profile))
         (TrimSpace (tpf_first_name profile)) (TrimSpace (tpf_last_name profile))));
    if bool_decide (us_status user = UserStatusBanned) || bool_decide (us_status user = UserStatusDisabled)
    then stop ErrUserBlocked else mret user.
End UserService.

(** ** CatalogService *)

Module CatalogService.
Section Service.
(** The page size, as [NewCatalogService] normalises it *)
Context (size : Z).

Definition NewCatalogService : Z :=
  if (size <=? 0) || (MaxPageSize <? size) then DefaultPageSize else size.

(** The offset is an [int]; it and the limit are cut to [int32]. *)
Definition offset (page : Z) : option Z :=
  if page <? 0 then None else Some (wrap64 (page * size)).

Definition paged {A B} (page : Z) (list : Z -> Z -> Action Database (A * Z)) (build : A -> PageInfo -> B) : Script Database B :=
  match offset page with
  | None => stop ErrInvalidInput
  | Some o =>
      found ← run (list (wrap32 o) (wrap32 size));
      mret (build found.1 (pageInfo page size found.2))
  end.

Definition ListCategories (page : Z) : Script Database CategoryPage :=
  paged page CatalogStore.ListActiveCategories mkCategoryPage.
Definition ListProducts (categoryID page : Z) : Script Database ProductPage :=
  if categoryID <=? 0 then stop ErrInvalidInput
  else paged page (CatalogStore.ListActiveProducts categoryID) mkProductPage.
Definition GetProduct (productID : Z) : Script Database Product :=
  if productID <=? 0 then stop ErrInvalidInput else run (GetActiveProduct productID).
Definition ListAdminCategories (page : Z) : Script Database CategoryPage :=
  paged page CatalogStore.ListAdminCategories mkCategoryPage.
Definition ListAdminProducts (page : Z) : Script Database ProductPage :=
  paged page CatalogStore.ListAdminProducts mkProductPage.
End Service.
End CatalogService.
