(* ===== verification/WalletService.v ===== *)
(** * Wallet and reservation services

    [src/internal/app/wallet_service.go] and [inventory_reservation_service.go]: the
    checks and collaborators around the stores of wallets and reservations.  The
    reference generator, the account cipher and the instruction generator are given by
    what they answer. *)

From S2P Require Import Prelude Domain Schema Tx Tables Models UpdateStore InventoryStore WalletStore.

Module WalletService.
Record Config := mkConfig { topupMin : Z; topupMax : Z; topupExpiry : Duration; reservationTTL : Duration;
    deliveryMaxAttempts : Z; paymentEnvironment : string }.

(** [NewWalletService] with [WithPaymentEnvironment] and [WithDeliveryMaxAttempts] *)
Definition NewWalletService (topupMin topupMax : Z) (topupExpiry reservationTTL : Duration) : Config :=
  mkConfig topupMin topupMax topupExpiry reservationTTL DefaultDeliveryMaxAttempts "production".
Definition WithPaymentEnvironment (s : Config) (environment : string) : Config :=
  if validPaymentEnvironment environment
  then mkConfig (topupMin s) (topupMax s) (topupExpiry s) (reservationTTL s) (deliveryMaxAttempts s) environment
  else s.
Definition WithDeliveryMaxAttempts (s : Config) (maxAttempts : Z) : Config :=
  if 0 <? maxAttempts
  then mkConfig (topupMin s) (topupMax s) (topupExpiry s) (reservationTTL s) maxAttempts (paymentEnvironment s)
  else s.

Section Service.
Context (s : Config).
Context (generate_reference : Error + string).
Context (decrypt : string -> ProtectedBankAccountNumber -> Error + string).
Context (generate : PaymentInstructionRequest -> Error + PaymentInstruction).

Definition Balance (telegram_user_id : Z) : Action Database WalletAccount :=
  if telegram_user_id <=? 0 then reject ErrInvalidInput else EnsureWallet telegram_user_id.

Definition topup_instruction (topup : WalletTopup) : Error + PaymentInstruction :=
  match decrypt (wt_bank_bin topup) (wt_bank_protected topup) with
  | inl e => inl e
  | inr accountNumber =>
      generate (mkPaymentInstructionRequest (wt_bank_bin topup) (wt_bank_name topup) accountNumber
        (wt_bank_account_name topup) (wt_bank_display_name topup) (wt_amount topup) (wt_payment_reference topup)
        (wt_id topup) (wt_expires_at topup))
  end.

Definition valid_topup (command : CreateWalletTopupCommand) : bool :=
  negb ((ct_telegram_user_id command <=? 0) || (ct_bank_account_id command <=? 0)
        || str_eqb (ct_idempotency_key command) "" || (meta_update_id (ct_meta command) <=? 0)
        || (ct_amount command <? topupMin s) || (topupMax s <? ct_amount command) || (topupExpiry s <=? 0)).

(** The top-up is created even when its instruction cannot be rendered afterwards. *)
Definition CreateTopup (command : CreateWalletTopupCommand) : Action Database (WalletTopup * PaymentInstruction * bool) :=
  fun env d =>
    if negb (valid_topup command) then (inl ErrInvalidWalletAmount, d)
    else
      match generate_reference with
      | inl e => (inl e, d)
      | inr reference =>
          let command := mkCreateWalletTopupCommand (ct_telegram_user_id command) (ct_amount command)
            (ct_bank_account_id command) (ct_idempotency_key command) (ct_meta command) (paymentEnvironment s) in
          match CreateWalletTopup command reference (env_now env + topupExpiry s) env d with
          | (inl e, d') => (inl e, d')
          | (inr (topup, duplicate), d') =>
              match topup_instruction topup with
              | inl e => (inl e, d')
              | inr instruction => (inr (topup, instruction, duplicate), d')
              end
          end
      end.

Definition PayOrder (command : WalletOrderPaymentCommand) : Action Database WalletOrderPaymentResult := fun env d =>
  if (wp_telegram_user_id command <=? 0) || (wp_order_id command <=? 0) || str_eqb (wp_idempotency_key command) ""
     || (meta_update_id (wp_meta command) <=? 0) || (reservationTTL s <=? 0)
  then (inl ErrInvalidInput, d)
  else PayOrderWithWallet command (env_now env) (reservationTTL s) [deliveryMaxAttempts s] env d.

Definition Adjust (command : WalletAdjustmentCommand) : Action Database WalletAccount := fun env d =>
  let command := mkWalletAdjustmentCommand (wj_admin_telegram_id command) (wj_target_telegram_id command)
    (wj_amount command) (wj_debit command) (TrimSpace (wj_reason command)) (wj_idempotency_key command)
    (wj_session command) (wj_meta command) in
  if (wj_admin_telegram_id command <=? 0) || (wj_target_telegram_id command <=? 0) || (wj_amount command <=? 0)
     || str_eqb (wj_reason command) "" || str_eqb (wj_idempotency_key command) "" || (meta_update_id (wj_meta command) <=? 0)
  then (inl ErrInvalidInput, d)
  else AdjustWallet command (env_now env) env d.
End Service.
End WalletService.

Module InventoryReservationService.
Definition Claim (maxTTL : Duration) (request : InventoryClaimRequest) : Action Database InventoryClaimResult := fun env d =>
  let now := env_now env in
  if (icr_order_id request <=? 0) || (icr_order_item_id request <=? 0) || (icr_product_id request <=? 0)
     || (icr_quantity request <=? 0) || (maxTTL <=? 0) || negb (time_after (icr_reserved_until request) now)
     || time_after (icr_reserved_until request) (now + maxTTL)
  then (inl ErrInvalidInput, d)
  else ClaimInventory request env d.

Definition Release (request : InventoryReleaseRequest) : Action Database InventoryReleaseResult :=
  if (irr_order_id request <=? 0) || negb (Inventory.InventoryReleaseReason_IsValid (irr_reason request))
  then reject ErrInvalidInput
  else ReleaseInventory request.

Definition RecoverExpired (order_id : Z) (now : Time) (request_id : string) : Action Database InventoryRecoveryResult :=
  if (order_id <=? 0) || time_is_zero now then reject ErrInvalidInput
  else RecoverExpiredReservation order_id now request_id.
End InventoryReservationService.
