(* ===== verification/InventoryAdmin.v ===== *)
(** * The administrator's inventory

    [src/internal/postgres/inventory_admin_store.go] and
    [src/internal/app/inventory_service.go]: overview and listing of the encrypted
    stock, import of a text of one item per line, and disabling or enabling an item.
    The cipher ([Protect]) is given by what it answers; clearing plaintext buffers and
    metrics are left out. *)

From Stdlib Require Import Ascii.
From S2P Require Import Prelude Text Domain Schema Tx Tables Models AdminModels QUsers QCatalog QInventory.
From S2P Require Import UpdateStore.
From S2P Require Import AdminStore CatalogStore WalletStore AdminService.

(** ** The store *)

Definition overview (r : InventoryOverviewRow) : InventoryOverview :=
  mkInventoryOverview (ov_product_id r) (ov_product_name r) (ov_available r) (ov_reserved r) (ov_sold r)
    (ov_disabled r) (ov_total r).

Definition list_overview_tx (admin : Admin) (offset limit : Z) : Tx Database (list InventoryOverview * Z) :=
  requireCatalogAdmin admin;;
  total ← CountInventoryOverviewProducts;
  l ← ListInventoryOverviewPage offset limit;
  mret (map overview l, total).
Definition ListInventoryOverview (admin : Admin) (offset limit : Z) : Action Database (list InventoryOverview * Z) :=
  WithinTransaction (list_overview_tx admin offset limit).

Definition mapRedactedInventory (i : InventoryRow) (product_name : string) : RedactedInventoryItem :=
  mkRedactedInventoryItem (i_id i) (i_product_id i) product_name (i_status i) (int_or_zero (i_reserved_order_id i))
    (int_or_zero (i_reserved_until i)) (i_key_version i) (i_version i) (i_created_at i).

(** The product must exist and be kept in stock. *)
Definition stocked_product (product_id : Z) : Tx Database ProductRow :=
  product ← or_no_rows ErrNotFound (GetProductByID product_id);
  guard_not (negb (stocked product)) ErrNotFound;;
  mret product.

Definition list_redacted_tx (admin : Admin) (product_id offset limit : Z) : Tx Database (list RedactedInventoryItem * Z) :=
  requireCatalogAdmin admin;;
  stocked_product product_id;;
  total ← CountRedactedInventoryByProduct product_id;
  l ← ListRedactedInventoryPage product_id offset limit;
  mret (map (fun '(i, name) => mapRedactedInventory i name) l, total).
Definition ListRedactedInventory (admin : Admin) (product_id offset limit : Z) : Action Database (list RedactedInventoryItem * Z) :=
  WithinTransaction (list_redacted_tx admin product_id offset limit).

(** [fmt.Sprintf("inventory-v%d", item.KeyVersion)] *)
Definition inventory_key_id (key_version : Z) : string := ("inventory-v" ++ Z_dec key_version)%string.

Definition well_protected (item : EncryptedInventoryPayload) : bool :=
  str_eqb (ep_format item) aes_format && (0 <? ep_key_version item) && Nat.eqb (length (ep_nonce item)) 12
  && Nat.leb 16 (length (ep_ciphertext item)) && Nat.eqb (length (ep_fingerprint item)) 32.

Definition import_item (admin_id product_id : Z) (result : InventoryImportResult) (item : EncryptedInventoryPayload)
    : Tx Database InventoryImportResult :=
  guard_not (negb (well_protected item)) ErrEncryptionFailed;;
  inserted ← try_row (InsertEncryptedInventoryItem product_id (ep_ciphertext item) (inventory_key_id (ep_key_version item))
    (ep_nonce item) (ep_key_version item) (ep_fingerprint item) (Some admin_id));
  mret (match inserted with
        | None => mkInventoryImportResult (ir_product_id result) (ir_requested result) (ir_inserted result)
                    (ir_duplicates result + 1) (ir_rejected result) (ir_key_version result)
        | Some _ => mkInventoryImportResult (ir_product_id result) (ir_requested result) (ir_inserted result + 1)
                      (ir_duplicates result) (ir_rejected result) (ep_key_version item)
        end).

(** The key version of the first item stands in when nothing was inserted. *)
Definition import_key_version (result : InventoryImportResult) (items : list EncryptedInventoryPayload) : Z :=
  match items with
  | item :: _ => if ir_key_version result =? 0 then ep_key_version item else ir_key_version result
  | [] => ir_key_version result
  end.

Definition import_inventory_tx (admin : Admin) (session : AdminSession) (product_id : Z)
    (items : list EncryptedInventoryPayload) (requested rejected : Z) (meta : RequestMeta) : Tx Database InventoryImportResult :=
  begin_change admin session SessionInventoryImport;;
  stocked_product product_id;;
  result ← fold_each items (mkInventoryImportResult product_id requested 0 0 rejected 0) (import_item (adm_id admin) product_id);
  let keyVersion := import_key_version result items in
  let result := mkInventoryImportResult (ir_product_id result) (ir_requested result) (ir_inserted result)
                  (ir_duplicates result) (ir_rejected result) keyVersion in
  insertAudit (adm_id admin) "inventory.imported" "product" product_id None
    (Some (JObj [("product_id", JInt product_id); ("requested_count", JInt requested);
                 ("inserted_count", JInt (ir_inserted result)); ("duplicate_count", JInt (ir_duplicates result));
                 ("rejected_count", JInt rejected); ("key_version", JInt keyVersion)])) meta;;
  end_change admin session meta;;
  mret result.
Definition ImportInventory (admin : Admin) (session : AdminSession) (product_id : Z)
    (items : list EncryptedInventoryPayload) (requested rejected : Z) (meta : RequestMeta) : Action Database InventoryImportResult :=
  map_action_error mapConstraintError
    (WithinTransaction (import_inventory_tx admin session product_id items requested rejected meta)).

Definition inventoryAuditSnapshot (i : InventoryRow) : Json :=
  JObj [("id", JInt (i_id i)); ("product_id", JInt (i_product_id i));
        ("status", JStr (Inventory.InventoryStatus_string (i_status i))); ("version", JInt (i_version i))].

Definition set_item_enabled_tx (admin : Admin) (session : AdminSession) (item_id expected_version : Z) (enabled : bool)
    (meta : RequestMeta) : Tx Database RedactedInventoryItem :=
  begin_change admin session SessionInventoryToggle;;
  before ← or_no_rows ErrInventoryNotFound (LockRedactedInventoryItem item_id);
  guard_not (negb (i_version before =? expected_version)) ErrStaleVersion;;
  let expectedStatus := if enabled then InventoryStatusDisabled else InventoryStatusAvailable in
  guard_not (negb (bool_decide (i_status before = expectedStatus))) ErrInvalidInventoryState;;
  after ← or_no_rows ErrStaleVersion
    (if enabled then EnableDisabledInventoryItem item_id expected_version
     else DisableAvailableInventoryItem (optionalText "admin_disabled") item_id expected_version);
  insertAudit (adm_id admin) (if enabled then "inventory.enabled" else "inventory.disabled") "inventory_item" item_id
    (Some (inventoryAuditSnapshot before)) (Some (inventoryAuditSnapshot after)) meta;;
  end_change admin session meta;;
  mret (mapRedactedInventory after "").
Definition SetInventoryItemEnabled (admin : Admin) (session : AdminSession) (item_id expected_version : Z) (enabled : bool)
    (meta : RequestMeta) : Action Database RedactedInventoryItem :=
  WithinTransaction (set_item_enabled_tx admin session item_id expected_version enabled meta).

(** ** The text of an import *)

(** [bytes.Split(raw, "\n")] *)
Fixpoint split_lines (raw : Bytes) : list Bytes :=
  match raw with
  | [] => [[]]
  | b :: raw' =>
      if b =? 10 then [] :: split_lines raw'
      else match split_lines raw' with line :: lines => (b :: line) :: lines | [] => [[b]] end
  end.

(** A trailing carriage return is dropped. *)
Definition drop_cr (line : Bytes) : Bytes :=
  match rev line with
  | last :: rest => if last =? 13 then rev rest else line
  | [] => line
  end.

(** [len(bytes.TrimSpace(line)) == 0] *)
Definition blank (line : Bytes) : bool := str_eqb (TrimSpace (bytes_string line)) "".

Definition clean_import (limits : InventoryImportLimits) (raw : Bytes) : option Error :=
  if (il_max_items limits <=? 0) || (il_max_item_bytes limits <=? 0) || (il_max_total_bytes limits <=? 0)
     || (il_max_total_bytes limits <? il_max_item_bytes limits) then Some ErrInvalidInput
  else if match raw with [] => true | _ => false end || negb (utf8_valid raw) then Some ErrInvalidInventoryPayload
  else if il_max_total_bytes limits <? Z.of_nat (length raw) then Some ErrImportLimitExceeded
  else None.

Fixpoint import_lines (limits : InventoryImportLimits) (lines items : list Bytes) (rejected : Z) : Error + (list Bytes * Z) :=
  match lines with
  | [] => inr (items, rejected)
  | line :: lines =>
      let line := drop_cr line in
      if match line with [] => true | _ => false end || blank line then import_lines limits lines items (rejected + 1)
      else if (il_max_item_bytes limits <? Z.of_nat (length line)) || (Z.of_nat (length items) =? il_max_items limits)
      then inl ErrImportLimitExceeded
      else import_lines limits lines (items ++ [line])%list rejected
  end.

Definition ParseInventoryImport (raw : Bytes) (limits : InventoryImportLimits) : Error + (list Bytes * Z) :=
  match clean_import limits raw with
  | Some e => inl e
  | None =>
      match import_lines limits (split_lines raw) [] 0 with
      | inl e => inl e
      | inr (items, rejected) => match items with [] => inl ErrInvalidInventoryPayload | _ => inr (items, rejected) end
      end
  end.

(** [page > MaxInt/size] *)
Definition inventoryPageOffset (page size : Z) : option Z :=
  if (page <? 0) || (size <=? 0) || (Z.quot int64_max size <? page) then None else Some (wrap64 (page * size)).

(** ** The service *)

Module InventoryAdminService.
Section Service.
Context (limits : InventoryImportLimits) (size : Z).
(** [cipher.Protect(productID, item)] for the n-th item *)
Context (protect : nat -> Z -> Bytes -> Error + EncryptedInventoryPayload).

Definition paged {A B} (telegramID page : Z) (list : Admin -> Z -> Z -> Action Database (A * Z)) (build : A -> PageInfo -> B)
    : Script Database B :=
  match inventoryPageOffset page size with
  | None => stop ErrInvalidInput
  | Some offset =>
      admin ← AdminService.Authorize telegramID false;
      found ← run (list admin (wrap32 offset) (wrap32 size));
      mret (build found.1 (pageInfo page size found.2))
  end.

Definition ListOverview (telegramID page : Z) : Script Database InventoryOverviewPage :=
  paged telegramID page ListInventoryOverview mkInventoryOverviewPage.
Definition ListItems (telegramID productID page : Z) : Script Database RedactedInventoryPage :=
  if productID <=? 0 then stop ErrInvalidInput
  else paged telegramID page (fun admin => ListRedactedInventory admin productID) mkRedactedInventoryPage.

Fixpoint protect_items (n : nat) (productID : Z) (items : list Bytes) : option (list EncryptedInventoryPayload) :=
  match items with
  | [] => Some []
  | item :: items =>
      match protect n productID item with
      | inl _ => None
      | inr protected => rest ← protect_items (S n) productID items; Some (protected :: rest)
      end
  end.

Definition Import (telegramID : Z) (session : AdminSession) (productID : Z) (raw : Bytes) (meta : RequestMeta)
    : Script Database InventoryImportResult :=
  if (productID <=? 0) || (ss_id session <=? 0) || (ss_version session <=? 0) then stop ErrInvalidInput
  else
    admin ← AdminService.Authorize telegramID true;
    match ParseInventoryImport raw limits with
    | inl e => stop e
    | inr (items, rejected) =>
        match protect_items 0 productID items with
        | None => stop ErrEncryptionFailed
        | Some encrypted =>
            run (ImportInventory admin session productID encrypted (Z.of_nat (length encrypted)) rejected meta)
        end
    end.

Definition SetItemEnabled (telegramID : Z) (session : AdminSession) (itemID expectedVersion : Z) (enabled : bool)
    (meta : RequestMeta) : Script Database RedactedInventoryItem :=
  if (itemID <=? 0) || (expectedVersion <=? 0) || (ss_id session <=? 0) || (ss_version session <=? 0)
  then stop ErrInvalidInput
  else
    admin ← AdminService.Authorize telegramID true;
    run (SetInventoryItemEnabled admin session itemID expectedVersion enabled meta).
End Service.
End InventoryAdminService.
