(* ===== verification/Ciphers.v ===== *)
(** * Protection of stored secrets

    [src/internal/inventorycrypto/cipher.go] and [src/internal/bankcrypto/cipher.go]:
    the key rings that protect inventory payloads and bank account numbers.  AES-GCM,
    HKDF and HMAC are an interface ([Crypto]) with the laws the code relies on
    ([CryptoLaws]); what the code binds to a ciphertext and to a fingerprint is
    written out.  Metrics are left out. *)

From Stdlib Require Import Ascii.
From S2P Require Import Prelude Text Domain Schema Tx Tables Models AdminModels QInventory.
From S2P Require Import DeliveryStore InventoryAdmin.

(** ** The cryptography of the standard library *)

Class Crypto := {
  (** [hkdf.Key(sha256.New, secret, nil, info, length)] *)
  hkdf_key : Bytes -> string -> Z -> option Bytes;
  (** [gcm.Seal(nil, nonce, plaintext, aad)] and [gcm.Open] under a key *)
  gcm_seal : Bytes -> Bytes -> Bytes -> Bytes -> Bytes;
  gcm_open : Bytes -> Bytes -> Bytes -> Bytes -> option Bytes;
  (** HMAC-SHA256 of a message under a key *)
  hmac_sha256 : Bytes -> Bytes -> Bytes }.

Class CryptoLaws `(Crypto) : Prop := {
  (* The only error of HKDF is a length above 255 hashes. *)
  hkdf_key_some secret info n : 0 <= n <= 8160 -> is_Some (hkdf_key secret info n);
  hkdf_key_length secret info n k : hkdf_key secret info n = Some k -> Z.of_nat (length k) = n;
  gcm_open_seal k nonce plaintext aad :
    gcm_open k nonce (gcm_seal k nonce plaintext aad) aad = Some plaintext;
  gcm_seal_length k nonce plaintext aad : length (gcm_seal k nonce plaintext aad) = (length plaintext + 16)%nat;
  hmac_length k message : length (hmac_sha256 k message) = 32%nat }.

(** [aes.NewCipher] takes keys of 16, 24 and 32 bytes; [cipher.NewGCM] of it never
    fails. *)
Definition newGCM (key : Bytes) : option Bytes :=
  if bool_decide (length key ∈ [16; 24; 32]%nat) then Some key else None.

(** [io.ReadFull] of a buffer from what the random source still gives *)
Definition read_full (n : nat) (random : Bytes) : option Bytes :=
  if Nat.leb n (length random) then Some (take n random) else None.

(** [binary.BigEndian.PutUint32] and [PutUint64] *)
Fixpoint big_endian (n : nat) (z : Z) : Bytes :=
  match n with
  | O => []
  | S n' => Z.land (Z.shiftr z (8 * Z.of_nat n')) 255 :: big_endian n' z
  end.

(** [copy] of a constant, and the byte that ends it *)
Definition terminated (s : string) : Bytes := (codes s ++ [0])%list.

Record derivedKey := mkDerivedKey { dk_encryption : Bytes; dk_fingerprint : Bytes }.
Record Cipher := mkCipher { ci_keys : gmap Z derivedKey; ci_current : Z }.

Definition masterKeyBytes : Z := 32.
Definition nonceBytes : nat := 12.

(** A single key, as the processes are configured *)
Definition one_key (key : Bytes) (version : Z) : gmap Z Bytes := {[ version := key ]}.

Section Rings.
Context `{Crypto} (encryption_info fingerprint_info : string) (failed unknown_version : Error).

Definition derive_key (version : Z) (master : Bytes) : option derivedKey :=
  if (version <=? 0) || negb (Z.of_nat (length master) =? masterKeyBytes) then None
  else
    encryption ← hkdf_key master encryption_info masterKeyBytes;
    fingerprint ← hkdf_key master fingerprint_info masterKeyBytes;
    Some (mkDerivedKey encryption fingerprint).

(** [newWithRandom] of both packages, which differ in their labels and errors *)
Definition new_ring (masterKeys : gmap Z Bytes) (currentVersion : Z) : Error + Cipher :=
  if (currentVersion <=? 0) || Nat.eqb (size masterKeys) 0 then inl failed
  else
    let keys := map_imap (fun version master => Some (derive_key version master)) masterKeys in
    if decide (map_Forall (fun _ k => is_Some k) keys) then
      let keys := omap id keys in
      if is_some (keys !! currentVersion) then inr (mkCipher keys currentVersion) else inl unknown_version
    else inl failed.

Lemma new_ring_ok masterKeys currentVersion c :
  new_ring masterKeys currentVersion = inr c ->
  ci_current c = currentVersion /\ 0 < currentVersion /\ is_Some (ci_keys c !! currentVersion)
  /\ forall version, ci_keys c !! version = masterKeys !! version ≫= derive_key version.
Proof.
  unfold new_ring. destruct (currentVersion <=? 0) eqn:Hv; [done|]. apply Z.leb_gt in Hv. simpl.
  destruct (Nat.eqb _ _); [done|]. destruct (decide _) as [Hall|]; [|done].
  set (keys := map_imap _ _) in *.
  assert (forall version, omap id keys !! version = masterKeys !! version ≫= derive_key version) as Hkeys.
  { intros version. rewrite lookup_omap. unfold keys. rewrite map_lookup_imap.
    destruct (masterKeys !! version) as [m|]; [|done]. simpl. by destruct (derive_key version m). }
  destruct (is_some _) eqn:E; [|done]. intros [= <-]. split_and!; [done|lia| |done].
  simpl. by destruct (omap id keys !! currentVersion).
Qed.

Lemma derive_key_gcm `{!CryptoLaws _} version master k : derive_key version master = Some k ->
  newGCM (dk_encryption k) = Some (dk_encryption k).
Proof.
  unfold derive_key. destruct (_ || _); [done|].
  destruct (hkdf_key master encryption_info _) as [a|] eqn:Ha; simpl; [|done].
  destruct (hkdf_key master fingerprint_info _) as [b|]; simpl; [|done]. intros [= <-]. simpl.
  apply hkdf_key_length in Ha. unfold newGCM, masterKeyBytes in *. rewrite bool_decide_true; [done|].
  assert (length a = 32)%nat as -> by lia. set_solver.
Qed.

(** A ring of one key of the right length *)
Lemma new_ring_one `{!CryptoLaws _} key version :
  length key = 32%nat -> 0 < version -> exists c, new_ring (one_key key version) version = inr c.
Proof.
  intros Hk Hv. unfold new_ring, one_key. replace (version <=? 0) with false by lia. rewrite map_size_singleton. simpl.
  assert (exists k, derive_key version key = Some k) as [k Hd].
  { unfold derive_key, masterKeyBytes. rewrite Hk. replace (version <=? 0) with false by lia. simpl.
    destruct (hkdf_key_some key encryption_info 32) as [a ->]; [lia|]. simpl.
    destruct (hkdf_key_some key fingerprint_info 32) as [b ->]; [lia|]. simpl. by eexists. }
  assert (map_imap (fun version master => Some (derive_key version master)) {[version := key]} = {[version := Some k]}) as ->.
  { apply map_eq. intros v. rewrite map_lookup_imap. destruct (decide (version = v)) as [<-|Hne].
    - rewrite !lookup_singleton_eq. simpl. by rewrite Hd.
    - by rewrite !lookup_singleton_ne. }
  destruct (decide _) as [|Hn].
  - rewrite omap_singleton. simpl. rewrite lookup_singleton_eq. simpl. by eexists.
  - destruct Hn. apply map_Forall_singleton. by eexists.
Qed.
End Rings.

(** ** Inventory payloads *)

Module InventoryCipher.
Section Cipher.
Context `{Crypto}.

Definition FormatAES256GCMV1 : string := "aes-256-gcm-v1".

Definition newWithRandom : gmap Z Bytes -> Z -> Error + Cipher :=
  new_ring "telegram-shop/inventory/encryption/v1" "telegram-shop/inventory/fingerprint/v1"
    ErrEncryptionFailed ErrUnknownKeyVersion.
Definition NewKeyring (masterKeys : gmap Z Bytes) (currentVersion : Z) : Error + Cipher :=
  newWithRandom masterKeys currentVersion.
Definition New (masterKey : Bytes) (keyVersion : Z) : Error + Cipher := newWithRandom (one_key masterKey keyVersion) keyVersion.

Definition associatedData (keyVersion productID : Z) : Bytes :=
  (terminated "telegram-shop/inventory/aad/v1" ++ big_endian 4 keyVersion ++ big_endian 8 productID)%list.

(** What the fingerprint's HMAC is given *)
Definition fingerprint_input (productID : Z) (plaintext : Bytes) : Bytes :=
  (terminated "telegram-shop/inventory/fingerprint-input/v1" ++ big_endian 8 productID
   ++ big_endian 8 (Z.of_nat (length plaintext)) ++ plaintext)%list.
Definition keyedFingerprint (key : Bytes) (productID : Z) (plaintext : Bytes) : Bytes :=
  hmac_sha256 key (fingerprint_input productID plaintext).

(** [cancelled] is whether the context is, [random] the random source. *)
Definition Protect (c : Cipher) (cancelled : bool) (random : Bytes) (productID : Z) (plaintext : Bytes)
    : Error + EncryptedInventoryPayload :=
  if cancelled then inl ErrContext
  else if (productID <=? 0) || Nat.eqb (length plaintext) 0 then inl ErrInvalidInventoryPayload
  else
    match ci_keys c !! ci_current c with
    | None => inl ErrUnknownKeyVersion
    | Some key =>
        match newGCM (dk_encryption key) with
        | None => inl ErrEncryptionFailed
        | Some gcm =>
            match read_full nonceBytes random with
            | None => inl ErrEncryptionFailed
            | Some nonce =>
                let aad := associatedData (ci_current c) productID in
                inr (mkEncryptedInventoryPayload (gcm_seal gcm nonce plaintext aad) nonce
                       (keyedFingerprint (dk_fingerprint key) productID plaintext) (ci_current c) FormatAES256GCMV1)
            end
        end
    end.

Definition Decrypt (c : Cipher) (cancelled : bool) (productID : Z) (payload : EncryptedInventoryPayload) : Error + Bytes :=
  if cancelled then inl ErrContext
  else if (productID <=? 0) || negb (str_eqb (ep_format payload) FormatAES256GCMV1)
          || negb (Nat.eqb (length (ep_nonce payload)) nonceBytes) || Nat.ltb (length (ep_ciphertext payload)) 16
  then inl ErrDecryptionFailed
  else
    match ci_keys c !! ep_key_version payload with
    | None => inl ErrUnknownKeyVersion
    | Some key =>
        match newGCM (dk_encryption key) with
        | None => inl ErrDecryptionFailed
        | Some gcm =>
            match gcm_open gcm (ep_nonce payload) (ep_ciphertext payload)
                    (associatedData (ep_key_version payload) productID) with
            | None => inl ErrDecryptionFailed
            | Some plaintext => inr plaintext
            end
        end
    end.
End Cipher.
End InventoryCipher.

(** ** Bank account numbers *)

Module BankCipher.

Definition FormatAES256GCMV1 : string := "aes-256-gcm-v1".
Definition keyIDPrefix : string := "bank-v".

Definition digitsOnly (value : string) : bool := forallb (fun r => (48 <=? r) && (r <=? 57)) (codes value).
Definition validBankBIN (value : string) : bool := (str_len value =? 6) && digitsOnly value.
Definition validAccountNumber (value : string) : bool :=
  (4 <=? str_len value) && (str_len value <=? 34) && digitsOnly value.

(** The digits of a version, least significant first into a buffer of ten, which holds
    every int32; a version that is not positive other than 0 has none. *)
Fixpoint version_digits (buffer : nat) (value : Z) (digits : string) : string :=
  match buffer with
  | O => digits
  | S buffer =>
      if 0 <? value
      then version_digits buffer (value / 10) (String (ascii_of_N (Z.to_N (48 + value mod 10))) digits)
      else digits
  end.
Definition decimalVersion (value : Z) : string := if value =? 0 then "0" else version_digits 10 value "".

Section Cipher.
Context `{Crypto}.

Definition newWithRandom : gmap Z Bytes -> Z -> Error + Cipher :=
  new_ring "telegram-shop/bank/encryption/v1" "telegram-shop/bank/fingerprint/v1"
    ErrBankEncryptionFailed ErrUnknownBankKeyVersion.
Definition NewKeyring (masterKeys : gmap Z Bytes) (currentVersion : Z) : Error + Cipher :=
  newWithRandom masterKeys currentVersion.
Definition New (masterKey : Bytes) (keyVersion : Z) : Error + Cipher := newWithRandom (one_key masterKey keyVersion) keyVersion.

Definition associatedData (version : Z) (bankBIN : string) : Bytes := (big_endian 4 version ++ codes bankBIN)%list.

Definition fingerprint_input (bankBIN : string) (accountNumber : Bytes) : Bytes :=
  (terminated "telegram-shop/bank/fingerprint-input/v1" ++ terminated bankBIN ++ accountNumber)%list.
Definition fingerprint (key : Bytes) (bankBIN : string) (accountNumber : Bytes) : Bytes :=
  hmac_sha256 key (fingerprint_input bankBIN accountNumber).

Definition Protect (c : Cipher) (cancelled : bool) (random : Bytes) (bankBIN accountNumber : string)
    : Error + ProtectedBankAccountNumber :=
  if cancelled || negb (validBankBIN bankBIN) || negb (validAccountNumber accountNumber) then inl ErrBankEncryptionFailed
  else
    match ci_keys c !! ci_current c with
    | None => inl ErrUnknownBankKeyVersion
    | Some key =>
        match newGCM (dk_encryption key), read_full nonceBytes random with
        | Some gcm, Some nonce =>
            let plaintext := codes accountNumber in
            inr (mkProtectedBankAccountNumber (gcm_seal gcm nonce plaintext (associatedData (ci_current c) bankBIN)) nonce
                   (fingerprint (dk_fingerprint key) bankBIN plaintext) (ci_current c)
                   (keyIDPrefix ++ decimalVersion (ci_current c))%string FormatAES256GCMV1)
        | _, _ => inl ErrBankEncryptionFailed
        end
    end.

Definition Decrypt (c : Cipher) (cancelled : bool) (bankBIN : string) (protected : ProtectedBankAccountNumber)
    : Error + string :=
  if cancelled || negb (validBankBIN bankBIN) || negb (str_eqb (pb_format protected) FormatAES256GCMV1)
     || negb (Nat.eqb (length (pb_nonce protected)) nonceBytes) || Nat.ltb (length (pb_ciphertext protected)) 16
  then inl ErrBankDecryptionFailed
  else
    match ci_keys c !! pb_key_version protected with
    | None => inl ErrUnknownBankKeyVersion
    | Some key =>
        match newGCM (dk_encryption key) with
        | None => inl ErrBankDecryptionFailed
        | Some gcm =>
            match gcm_open gcm (pb_nonce protected) (pb_ciphertext protected)
                    (associatedData (pb_key_version protected) bankBIN) with
            | None => inl ErrBankDecryptionFailed
            | Some plaintext =>
                if validAccountNumber (bytes_string plaintext) then inr (bytes_string plaintext)
                else inl ErrBankDecryptionFailed
            end
        end
    end.
End Cipher.
End BankCipher.

(** ** Bytes and text *)

Lemma ascii_Z_range a : 0 <= ascii_Z a < 256.
Proof. unfold ascii_Z. pose proof (nat_ascii_bounded a). lia. Qed.

Lemma bytes_string_codes s : bytes_string (codes s) = s.
Proof.
  unfold bytes_string, codes. rewrite map_map. rewrite <- (String.string_of_list_ascii_of_string s) at 2. f_equal.
  rewrite <- (map_id (String.list_ascii_of_string s)) at 2. apply map_ext. intros a. unfold ascii_Z.
  by rewrite Nat2Z.id, ascii_nat_embedding.
Qed.

Lemma codes_inj s t : codes s = codes t -> s = t.
Proof. intros E. rewrite <- (bytes_string_codes s), <- (bytes_string_codes t). by rewrite E. Qed.

Lemma big_endian_length n z : length (big_endian n z) = n.
Proof. induction n as [|n IH]; simpl; [done | by rewrite IH]. Qed.

Lemma high_bit z w i : 0 <= z < 2 ^ w -> 0 <= w <= i -> Z.testbit z i = false.
Proof.
  intros Hz Hi. destruct (decide (z = 0)) as [->|]; [apply Z.bits_0|]. apply Z.bits_above_log2; [lia|].
  apply Z.log2_lt_pow2; [lia|]. eapply Z.lt_le_trans; [apply Hz|]. apply Z.pow_le_mono_r; lia.
Qed.

(** The bytes determine a number of their width. *)
Lemma big_endian_inj n a b :
  0 <= a < 2 ^ (8 * Z.of_nat n) -> 0 <= b < 2 ^ (8 * Z.of_nat n) -> big_endian n a = big_endian n b -> a = b.
Proof.
  intros Ha Hb E. apply Z.bits_inj'. intros i Hi.
  destruct (Z.lt_ge_cases i (8 * Z.of_nat n)) as [Hlt|Hge].
  - clear Ha Hb. revert i Hi Hlt E. induction n as [|n IH]; intros i Hi Hlt; [lia|]. simpl. intros [= Eb Er].
    destruct (Z.lt_ge_cases i (8 * Z.of_nat n)) as [Hl|Hg]; [by apply IH|].
    apply (f_equal (fun z => Z.testbit z (i - 8 * Z.of_nat n))) in Eb.
    change 255 with (Z.ones 8) in Eb. rewrite !Z.land_spec, !Z.shiftr_spec, Z.ones_spec_low in Eb by lia.
    rewrite !andb_true_r in Eb. by replace (i - 8 * Z.of_nat n + 8 * Z.of_nat n) with i in Eb by lia.
  - by rewrite !(high_bit _ (8 * Z.of_nat n)) by lia.
Qed.

(** The decimal rendering of [bankcrypto] is the usual one. *)
Lemma version_digits_pretty buffer v digits :
  0 <= v < 10 ^ Z.of_nat buffer -> BankCipher.version_digits buffer v digits = pretty_N_go (Z.to_N v) digits.
Proof.
  revert v digits. induction buffer as [|buffer IH]; intros v digits Hv.
  - simpl in Hv. replace v with 0 by lia. by rewrite pretty_N_go_0.
  - rewrite Nat2Z.inj_succ, Z.pow_succ_r in Hv by lia. cbn [BankCipher.version_digits].
    destruct (Z.ltb_spec 0 v) as [Hp|Hz]; [|replace v with 0 by lia; by rewrite pretty_N_go_0].
    rewrite (pretty_N_go_step (Z.to_N v)) by lia. rewrite IH by (split; [apply Z.div_pos; lia | apply Z.div_lt_upper_bound; lia]).
    rewrite Z2N.inj_div by lia. change (Z.to_N 10) with 10%N. f_equal. f_equal.
    rewrite Z2N.inj_add, Z2N.inj_mod by (try apply Z.mod_pos_bound; lia). change (Z.to_N 10) with 10%N.
    assert (Z.to_N v `mod` 10 < 10)%N as Hlt by (apply N.mod_lt; lia). revert Hlt. generalize (Z.to_N v `mod` 10)%N.
    intros n Hn. rewrite <- (N2Nat.id n). assert (N.to_nat n < 10)%nat as Hlt by lia.
    revert Hlt. generalize (N.to_nat n). clear. intros k Hk. do 10 (destruct k as [|k]; [reflexivity|]). lia.
Qed.

Lemma decimalVersion_dec v : 0 < v <= int32_max -> BankCipher.decimalVersion v = Z_dec v.
Proof.
  unfold int32_max. intros Hv. unfold BankCipher.decimalVersion. replace (v =? 0) with false by lia.
  rewrite version_digits_pretty by lia. destruct v as [|p|p]; [lia| |lia].
  change (Z_dec (Zpos p)) with (pretty (Npos p)). by rewrite pretty_N_pos.
Qed.

(** ** What is protected is recovered *)

Section Laws.
Context `{Crypto} `{!CryptoLaws _}.

Lemma read_full_length n random nonce : read_full n random = Some nonce -> length nonce = n.
Proof.
  unfold read_full. destruct (Nat.leb_spec n (length random)) as [Hle|]; [|done]. intros [= <-].
  rewrite length_take. lia.
Qed.

(** Two rings that hold the same key under a version: one that protected with it, and
    one that meets the version again, perhaps after a rotation of the current key *)
Lemma ring_shares e f e1 e2 keys keys' current current' c c' k :
  new_ring e f e1 e2 keys current = inr c -> new_ring e f e1 e2 keys' current' = inr c' ->
  keys' !! current = keys !! current -> ci_keys c !! ci_current c = Some k ->
  0 < ci_current c /\ ci_keys c' !! ci_current c = Some k /\ newGCM (dk_encryption k) = Some (dk_encryption k).
Proof.
  intros (Hc & Hp & _ & Hk)%new_ring_ok (_ & _ & _ & Hk')%new_ring_ok Hsame Hcur.
  rewrite Hc in *. split_and!; [done | |].
  - by rewrite Hk', Hsame, <- Hk.
  - rewrite Hk in Hcur. destruct (keys !! current) as [m|]; [|done]. by eapply derive_key_gcm.
Qed.

Lemma inventory_recovered keys current c keys' current' c' random productID plaintext p :
  InventoryCipher.NewKeyring keys current = inr c -> InventoryCipher.NewKeyring keys' current' = inr c' ->
  keys' !! current = keys !! current ->
  InventoryCipher.Protect c false random productID plaintext = inr p ->
  well_protected p = true /\ ep_key_version p = current /\
  forall fingerprint,
    InventoryCipher.Decrypt c' false productID
      (mkEncryptedInventoryPayload (ep_ciphertext p) (ep_nonce p) fingerprint (ep_key_version p) (ep_format p))
    = inr plaintext.
Proof.
  intros Hc Hc' Hsame. pose proof Hc as (Hcur & _)%new_ring_ok. unfold InventoryCipher.Protect.
  destruct (productID <=? 0) eqn:Hp; [done|]. destruct (Nat.eqb _ _); [done|]. simpl.
  destruct (ci_keys c !! ci_current c) as [k|] eqn:Hk; [|done].
  destruct (ring_shares _ _ _ _ _ _ _ _ _ _ _ Hc Hc' Hsame Hk) as (Hpos & Hk' & Hgcm). rewrite Hgcm.
  destruct (read_full _ _) as [nonce|] eqn:Hn; [|done]. apply read_full_length in Hn. intros [= <-].
  split_and!; [| done |].
  - unfold well_protected. cbn -[Nat.leb Nat.eqb Z.ltb]. unfold InventoryCipher.keyedFingerprint.
    rewrite gcm_seal_length, hmac_length, Hn, !andb_true_iff, Z.ltb_lt, Nat.leb_le.
    split_and!; [done | lia | done | lia | done].
  - intros fingerprint. unfold InventoryCipher.Decrypt. simpl. rewrite Hp, Hn, gcm_seal_length. simpl.
    destruct (Nat.ltb_spec (length plaintext + 16) 16); [lia|]. rewrite Hk'. simpl. rewrite Hgcm.
    by rewrite gcm_open_seal.
Qed.

Lemma account_number_recovered keys current c keys' current' c' random bin number p :
  BankCipher.NewKeyring keys current = inr c -> BankCipher.NewKeyring keys' current' = inr c' ->
  keys' !! current = keys !! current ->
  BankCipher.Protect c false random bin number = inr p ->
  BankCipher.Decrypt c' false bin p = inr number.
Proof.
  intros Hc Hc' Hsame. unfold BankCipher.Protect.
  destruct (BankCipher.validBankBIN bin) eqn:Hb; [|done]. destruct (BankCipher.validAccountNumber number) eqn:Ha; [|done].
  simpl. destruct (ci_keys c !! ci_current c) as [k|] eqn:Hk; [|done].
  destruct (ring_shares _ _ _ _ _ _ _ _ _ _ _ Hc Hc' Hsame Hk) as (Hpos & Hk' & Hgcm). rewrite Hgcm.
  destruct (read_full _ _) as [nonce|] eqn:Hn; [|done]. apply read_full_length in Hn. intros [= <-].
  unfold BankCipher.Decrypt. simpl. rewrite Hb, Hn, gcm_seal_length. simpl.
  destruct (Nat.ltb_spec (length (codes number) + 16) 16); [lia|]. rewrite Hk'. simpl.
  by rewrite Hgcm, gcm_open_seal, bytes_string_codes, Ha.
Qed.
End Laws.

(** ** What fingerprints and ciphertexts are bound to *)

Lemma app_split {A} n (a b c d : list A) : length a = n -> length c = n -> (a ++ b)%list = (c ++ d)%list -> a = c /\ b = d.
Proof. intros <- Hl E. apply app_inj_1 in E; [done|lia]. Qed.

Lemma inventory_fingerprint_injective p p' plaintext plaintext' :
  0 <= p <= int64_max -> 0 <= p' <= int64_max ->
  InventoryCipher.fingerprint_input p plaintext = InventoryCipher.fingerprint_input p' plaintext' ->
  p = p' /\ plaintext = plaintext'.
Proof.
  unfold int64_max. intros Hp Hp'. unfold InventoryCipher.fingerprint_input.
  intros E%app_inv_head. apply (app_split 8) in E as [Ep E]; [|apply big_endian_length ..].
  apply (app_split 8) in E as [_ E]; [|apply big_endian_length ..]. apply big_endian_inj in Ep; [done| simpl; lia ..].
Qed.

Lemma inventory_data_injective v v' p p' :
  0 < v <= int32_max -> 0 < v' <= int32_max -> 0 <= p <= int64_max -> 0 <= p' <= int64_max ->
  InventoryCipher.associatedData v p = InventoryCipher.associatedData v' p' -> v = v' /\ p = p'.
Proof.
  unfold int32_max, int64_max. intros Hv Hv' Hp Hp'. unfold InventoryCipher.associatedData.
  intros E%app_inv_head. apply (app_split 4) in E as [Ev Ep]; [|apply big_endian_length ..].
  split; eapply big_endian_inj; try eassumption; simpl; lia.
Qed.

(** A bank's identifier has six digits, so it ends where the number begins. *)
Lemma account_fingerprint_injective bin bin' number number' :
  BankCipher.validBankBIN bin = true -> BankCipher.validBankBIN bin' = true ->
  BankCipher.fingerprint_input bin (codes number) = BankCipher.fingerprint_input bin' (codes number') ->
  bin = bin' /\ number = number'.
Proof.
  unfold BankCipher.validBankBIN. intros [Hl _]%andb_true_iff [Hl' _]%andb_true_iff.
  unfold BankCipher.fingerprint_input. intros E%app_inv_head.
  assert (forall s, (str_len s =? 6) = true -> length (terminated s) = 7%nat) as Hlen.
  { intros s Hs. unfold terminated. rewrite length_app. replace (length (codes s)) with (String.length s).
    - unfold str_len in Hs. simpl. lia.
    - clear. unfold codes. rewrite length_map. induction s as [|a s IH]; simpl; congruence. }
  apply (app_split 7) in E as [Eb En]; [|by apply Hlen ..].
  apply app_inj_2 in Eb as [Eb _]; [|done]. split; by apply codes_inj.
Qed.
