(* ===== verification/BankAccounts.v ===== *)
(** * Bank accounts

    [src/internal/postgres/bank_account_store.go] and
    [src/internal/app/bank_account_service.go]: the accounts customers pay to, and
    the administrator's changes to them.  Only the ciphertext, a fingerprint and the
    last four digits of an account number are stored; the cipher ([Protect]) is given
    by what it answers. *)

From Stdlib Require Import Ascii.
From S2P Require Import Prelude Text Domain Schema Tx Tables Models AdminModels QUsers QBanks UpdateStore.
From S2P Require Import AdminStore.
From S2P Require Import CatalogStore WalletStore AdminService.

Record BankAccountInput := mkBankAccountInput { bi_bank_bin : string; bi_bank_name : string; bi_display_name : string;
    bi_account_name : string; bi_account_number : string; bi_sort_order : Z; bi_environment : string }.
Record CreateBankAccountInput := mkCreateBankAccountInput { cbi_input : BankAccountInput; cbi_meta : RequestMeta }.
Record UpdateBankAccountInput := mkUpdateBankAccountInput { ubi_id : Z; ubi_expected_record : Z;
    ubi_input : BankAccountInput; ubi_meta : RequestMeta }.
Record SetBankAccountActiveInput := mkSetBankAccountActiveInput { sbi_id : Z; sbi_expected_record : Z; sbi_active : bool;
    sbi_meta : RequestMeta }.

(** ** The store *)

Definition bank_option (r : BankAccountRow) : BankAccountOption :=
  mkBankAccountOption (b_id r) (b_bank_bin r) (b_bank_name r) (b_display_name r) (b_account_name r) (b_last4 r)
    (b_sort_order r) (b_version r) (b_environment r).
Definition mapRedactedBank (r : BankAccountRow) : RedactedBankAccount :=
  mkRedactedBankAccount (bank_option r) (b_is_active r) (b_key_version r) (b_format r) (b_created_at r).

Definition ListActiveBankAccounts (environment : string) : Action Database (list BankAccountOption) :=
  autocommit (l ← ListActiveBankAccountOptions environment; mret (map bank_option l)).
Definition ListAdminBankAccounts (offset limit : Z) : Action Database (list RedactedBankAccount * Z) :=
  autocommit (
    total ← CountAdminBankAccounts;
    l ← ListAdminBankAccountsPage offset limit;
    mret (map mapRedactedBank l, total)).

Definition bankAuditSnapshot (r : RedactedBankAccount) : Json :=
  let o := rb_option r in
  JObj [("id", JInt (bo_id o)); ("bank_bin", JStr (bo_bank_bin o)); ("bank_name", JStr (bo_bank_name o));
        ("display_name", JStr (bo_display_name o)); ("account_name", JStr (bo_account_name o));
        ("account_last4", JStr (bo_last4 o)); ("sort_order", JInt (bo_sort_order o));
        ("active", JBool (rb_active r)); ("version", JInt (bo_version o));
        ("payment_environment", JStr (bo_environment o))].

(** The last [n] bytes of a longer text *)
Definition last4 (value : string) : string :=
  if Nat.leb (String.length value) 4 then value else String.substring (String.length value - 4) 4 value.

(** What the statements that write an account store of it *)
Definition account_params (i : BankAccountInput) (p : ProtectedBankAccountNumber) : EncryptedBankAccountParams :=
  mkEncryptedBankAccountParams (bi_bank_bin i) (bi_bank_name i) (bi_display_name i) (bi_account_name i)
    (pb_ciphertext p) (pb_fingerprint p) (pb_key_id p) (pb_nonce p) (pb_key_version p) (last4 (bi_account_number i))
    (bi_sort_order i).

Section Changes.
Context (admin : Admin) (session : AdminSession).

Definition create_bank_tx (input : CreateBankAccountInput) (protected : ProtectedBankAccountNumber)
    : Tx Database RedactedBankAccount :=
  begin_change admin session SessionBankCreate;;
  row ← or_no_rows ErrConflict
    (CreateEncryptedBankAccount (account_params (cbi_input input) protected) (bi_environment (cbi_input input)));
  let result := mapRedactedBank row in
  insertAudit (adm_id admin) "bank_account.created" "bank_account" (b_id row) None (Some (bankAuditSnapshot result))
    (cbi_meta input);;
  end_change admin session (cbi_meta input);;
  mret result.

Definition update_bank_tx (input : UpdateBankAccountInput) (protected : ProtectedBankAccountNumber)
    : Tx Database RedactedBankAccount :=
  begin_change admin session SessionBankEdit;;
  before ← or_no_rows ErrBankAccountNotFound (LockBankAccountByID (ubi_id input));
  guard_not (negb (b_version before =? ubi_expected_record input)) ErrStaleVersion;;
  after ← or_no_rows ErrStaleVersion
    (UpdateEncryptedBankAccountGuarded (account_params (ubi_input input) protected) (ubi_id input) (ubi_expected_record input));
  insertAudit (adm_id admin) "bank_account.updated" "bank_account" (b_id after)
    (Some (bankAuditSnapshot (mapRedactedBank before))) (Some (bankAuditSnapshot (mapRedactedBank after))) (ubi_meta input);;
  end_change admin session (ubi_meta input);;
  mret (mapRedactedBank after).

Definition set_bank_active_tx (input : SetBankAccountActiveInput) : Tx Database RedactedBankAccount :=
  begin_change admin session SessionBankToggle;;
  before ← or_no_rows ErrBankAccountNotFound (LockBankAccountByID (sbi_id input));
  guard_not (negb (b_version before =? sbi_expected_record input) || bool_decide (b_is_active before = sbi_active input))
    ErrStaleVersion;;
  after ← or_no_rows ErrStaleVersion
    (SetBankAccountActiveGuarded (sbi_active input) (sbi_id input) (sbi_expected_record input));
  insertAudit (adm_id admin) (if sbi_active input then "bank_account.activated" else "bank_account.deactivated")
    "bank_account" (b_id after) (Some (bankAuditSnapshot (mapRedactedBank before)))
    (Some (bankAuditSnapshot (mapRedactedBank after))) (sbi_meta input);;
  end_change admin session (sbi_meta input);;
  mret (mapRedactedBank after).

Definition CreateBankAccount (input : CreateBankAccountInput) (protected : ProtectedBankAccountNumber)
    : Action Database RedactedBankAccount :=
  map_action_error mapConstraintError (WithinTransaction (create_bank_tx input protected)).
Definition UpdateBankAccount (input : UpdateBankAccountInput) (protected : ProtectedBankAccountNumber)
    : Action Database RedactedBankAccount :=
  map_action_error mapConstraintError (WithinTransaction (update_bank_tx input protected)).
Definition SetBankAccountActive (input : SetBankAccountActiveInput) : Action Database RedactedBankAccount :=
  WithinTransaction (set_bank_active_tx input).
End Changes.

(** ** The service *)

Definition digit_char (a : ascii) : bool := let n := ascii_Z a in (48 <=? n) && (n <=? 57).
(** The text is read rune by rune: a rune outside ASCII is no digit. *)
Definition isDigits (value : string) (minimum maximum : Z) : bool :=
  negb ((str_len value <? minimum) || (maximum <? str_len value))
  && forallb digit_char (String.list_ascii_of_string value).

Definition normalizeBankInput (i : BankAccountInput) : BankAccountInput :=
  mkBankAccountInput (TrimSpace (bi_bank_bin i)) (TrimSpace (bi_bank_name i)) (TrimSpace (bi_display_name i))
    (TrimSpace (bi_account_name i)) (TrimSpace (bi_account_number i)) (bi_sort_order i) (bi_environment i).

Definition validateBankInput (i : BankAccountInput) : bool :=
  negb (negb (isDigits (bi_bank_bin i) 6 6) || negb (isDigits (bi_account_number i) 4 34)
        || str_eqb (bi_bank_name i) "" || (120 <? rune_count (bi_bank_name i))
        || str_eqb (bi_display_name i) "" || (120 <? rune_count (bi_display_name i))
        || str_eqb (bi_account_name i) "" || (160 <? rune_count (bi_account_name i))
        || (bi_sort_order i <? 0)).

Module BankAccountService.
Record Config := mkConfig { pageSize : Z; paymentEnvironment : string }.

Definition NewBankAccountService (pageSize : Z) : Config :=
  mkConfig (if (pageSize <=? 0) || (MaxPageSize <? pageSize) then DefaultPageSize else pageSize) "production".
Definition WithPaymentEnvironment (s : Config) (environment : string) : Config :=
  if validPaymentEnvironment environment then mkConfig (pageSize s) environment else s.

Section Service.
Context (s : Config).
(** [cipher.Protect(ctx, bin, number)] *)
Context (protect : string -> string -> Error + ProtectedBankAccountNumber).

Definition ListActive : Script Database (list BankAccountOption) := run (ListActiveBankAccounts (paymentEnvironment s)).

Definition ListAdmin (telegramID page : Z) : Script Database RedactedBankAccountPage :=
  if page <? 0 then stop ErrInvalidInput
  else
    AdminService.Authorize telegramID false ≫= fun _ =>
    found ← run (ListAdminBankAccounts (wrap32 (page * pageSize s)) (wrap32 (pageSize s)));
    mret (mkRedactedBankAccountPage found.1 (pageInfo page (pageSize s) found.2)).

(** The environment is the deployment's, whatever the input says. *)
Definition Create (telegramID : Z) (session : AdminSession) (input : CreateBankAccountInput) : Script Database RedactedBankAccount :=
  let i := cbi_input input in
  let i := normalizeBankInput (mkBankAccountInput (bi_bank_bin i) (bi_bank_name i) (bi_display_name i)
             (bi_account_name i) (bi_account_number i) (bi_sort_order i) (paymentEnvironment s)) in
  if negb (validateBankInput i) then stop ErrInvalidInput
  else
    admin ← AdminService.Authorize telegramID true;
    match protect (bi_bank_bin i) (bi_account_number i) with
    | inl e => stop e
    | inr protected => run (CreateBankAccount admin session (mkCreateBankAccountInput i (cbi_meta input)) protected)
    end.

Definition Update (telegramID : Z) (session : AdminSession) (input : UpdateBankAccountInput) : Script Database RedactedBankAccount :=
  let i := normalizeBankInput (ubi_input input) in
  if (ubi_id input <=? 0) || (ubi_expected_record input <=? 0) || negb (validateBankInput i) then stop ErrInvalidInput
  else
    admin ← AdminService.Authorize telegramID true;
    match protect (bi_bank_bin i) (bi_account_number i) with
    | inl e => stop e
    | inr protected =>
        run (UpdateBankAccount admin session
          (mkUpdateBankAccountInput (ubi_id input) (ubi_expected_record input) i (ubi_meta input)) protected)
    end.

Definition SetActive (telegramID : Z) (session : AdminSession) (input : SetBankAccountActiveInput)
    : Script Database RedactedBankAccount :=
  AdminService.change (negb ((sbi_id input <=? 0) || (sbi_expected_record input <=? 0))) telegramID
    (fun admin => SetBankAccountActive admin session input).
End Service.
End BankAccountService.
