(* ===== verification/PaymentAdmin.v ===== *)
(** * The administrator's payments

    [src/internal/postgres/payment_admin_store.go] and
    [src/internal/app/payment_admin_service.go]: confirming a payment by hand, which
    goes through the same acceptance as a provider's notification, and the list and
    the resolution of the payments that need a review. *)

From S2P Require Import Prelude Text Domain Schema Tx Tables Models AdminModels QOrders QInventory QPayments.
From S2P Require Import QWallet.
From S2P Require Import QUsers UpdateStore AdminStore InventoryStore DeliveryStore PaymentStore WalletStore.
From S2P Require Import CatalogStore AdminService.

Record ManualPaymentCommand := mkManualPaymentCommand { mp_admin_telegram_id : Z; mp_session : AdminSession;
    mp_transaction_id : string; mp_reference : string; mp_amount : Z; mp_currency : string; mp_occurred_at : Time;
    mp_note : string; mp_meta : RequestMeta }.
Record ResolvePaymentReviewCommand := mkResolvePaymentReviewCommand { rp_admin_telegram_id : Z; rp_review_id : Z;
    rp_status : string; rp_note : string; rp_session : AdminSession; rp_meta : RequestMeta }.

(** ** The store *)

Definition authorizePaymentAdmin (telegram_id : Z) : Tx Database Admin :=
  row ← or_no_rows ErrUnauthorized (GetAdminAuthorizationByTelegramID telegram_id);
  let '(a, u) := row in
  let admin := mkAdmin (ad_id a) (ad_user_id a) (u_telegram_user_id u) (ad_role a) (ad_is_active a) (u_status u) in
  guard_not (negb (CanManageCatalog admin)) ErrForbidden;;
  mret admin.

(** The payment the administrator vouches for: always of the production environment *)
Definition manual_command (manual : ManualPaymentCommand) (admin_id : Z) : AcceptPaymentCommand :=
  mkAcceptPaymentCommand 0 "manual" "" (mp_transaction_id manual) (mp_reference manual) (mp_amount manual)
    (mp_currency manual) (mp_occurred_at manual) (mkPaymentActor "admin" admin_id) (meta_request_id (mp_meta manual))
    "production" "manual" 0 0 "".

Definition manual_accept_tx (manual : ManualPaymentCommand) (accepted_at : Time) (reservationTTL : Duration)
    (deliveryMaxAttempts : Z) : Tx Database PaymentAcceptanceResult :=
  admin ← authorizePaymentAdmin (mp_admin_telegram_id manual);
  lockAndVerifySession (adm_id admin) (mp_session manual) SessionPaymentManual;;
  result ← acceptPaymentWithinTransaction (manual_command manual (adm_id admin)) accepted_at reservationTTL deliveryMaxAttempts;
  InsertAuditLog "admin" (Some (adm_id admin)) "payment.manual_confirmed" "payment" (optionalInt8 (res_payment_id result)) None
    (Some (JObj [("note", JStr (mp_note manual)); ("decision", JStr (res_decision result)); ("reason", JStr (res_reason result))]))
    (optionalText (meta_request_id (mp_meta manual))) (optionalInt8 (meta_update_id (mp_meta manual)));;
  end_change admin (mp_session manual) (mp_meta manual);;
  mret result.
Definition ManualAcceptPayment (manual : ManualPaymentCommand) (accepted_at : Time) (reservationTTL : Duration)
    (deliveryMaxAttempts : list Z) : Action Database PaymentAcceptanceResult :=
  map_action_error mapConstraintError (WithinTransaction
    (manual_accept_tx manual accepted_at reservationTTL (configuredDeliveryMaxAttempts deliveryMaxAttempts))).

Definition maskTransactionID (value : string) : string :=
  if Nat.leb (String.length value) 6 then "***"%string
  else (String.substring 0 2 value ++ "***" ++ String.substring (String.length value - 4) 4 value)%string.

Definition mapPaymentReview (r : ReviewCaseRow) : PaymentReviewCase :=
  mkPaymentReviewCase (rc_id r) (rc_provider r) (rc_environment r) (rc_source r)
    (maskTransactionID (text_or_empty (rc_transaction_id r))) (maskTransactionID (text_or_empty (rc_destination r)))
    (int_or_zero (rc_mapping_id r)) (rc_reference r) (rc_amount_vnd r) (rc_currency r) (rc_occurred_at r)
    (int_or_zero (rc_order_id r)) (int_or_zero (rc_topup_id r)) (rc_reason r) (ReviewStatus_string (rc_status r)).

(** Three statements, at one point in time *)
Definition ListPaymentReviews (admin_telegram_id offset limit : Z) : Action Database (list PaymentReviewCase * Z) :=
  autocommit (
    authorizeAdmin admin_telegram_id;;
    total ← CountOpenPaymentReviews;
    l ← ListOpenPaymentReviews offset limit;
    mret (map mapPaymentReview l, total)).

Definition resolve_review_tx (command : ResolvePaymentReviewCommand) : Tx Database PaymentReviewCase :=
  admin ← authorizePaymentAdmin (rp_admin_telegram_id command);
  lockAndVerifySession (adm_id admin) (rp_session command) SessionPaymentReview;;
  row ← or_no_rows ErrNotFound
    (QPayments.ResolvePaymentReview (rp_status command) (optionalText (rp_note command)) (Some (adm_id admin)) (rp_review_id command));
  InsertAuditLog "admin" (Some (adm_id admin)) "payment.review_resolved" "payment_review" (Some (rc_id row)) None
    (Some (JObj [("status", JStr (rp_status command)); ("note", JStr (rp_note command)); ("reason", JStr (rc_reason row))]))
    (optionalText (meta_request_id (rp_meta command))) (optionalInt8 (meta_update_id (rp_meta command)));;
  end_change admin (rp_session command) (rp_meta command);;
  mret (mapPaymentReview row).
Definition ResolvePaymentReview (command : ResolvePaymentReviewCommand) : Action Database PaymentReviewCase :=
  WithinTransaction (resolve_review_tx command).

(** ** The service *)

Module PaymentAdminService.
Record Config := mkConfig { pageSize : Z; reservationTTL : Duration; deliveryMaxAttempts : Z }.

Definition NewPaymentAdminService (pageSize : Z) (reservationTTL : Duration) : Config :=
  mkConfig (if (pageSize <=? 0) || (MaxPageSize <? pageSize) then DefaultPageSize else pageSize) reservationTTL
    DefaultDeliveryMaxAttempts.
Definition WithDeliveryMaxAttempts (s : Config) (maxAttempts : Z) : Config :=
  if 0 <? maxAttempts then mkConfig (pageSize s) (reservationTTL s) maxAttempts else s.

Section Service.
Context (s : Config).

Definition normalize_manual (c : ManualPaymentCommand) : ManualPaymentCommand :=
  mkManualPaymentCommand (mp_admin_telegram_id c) (mp_session c) (TrimSpace (mp_transaction_id c))
    (TrimSpace (mp_reference c)) (mp_amount c) (TrimSpace (mp_currency c)) (mp_occurred_at c) (TrimSpace (mp_note c))
    (mp_meta c).
Definition valid_manual (c : ManualPaymentCommand) : bool :=
  negb ((mp_admin_telegram_id c <=? 0) || (ss_id (mp_session c) <=? 0) || (ss_version (mp_session c) <=? 0)
        || str_eqb (mp_transaction_id c) "" || str_eqb (mp_reference c) "" || (mp_amount c <=? 0)
        || str_eqb (mp_currency c) "" || time_is_zero (mp_occurred_at c) || (meta_update_id (mp_meta c) <=? 0)
        || (reservationTTL s <=? 0)).

Definition ManualConfirm (command : ManualPaymentCommand) : Script Database PaymentAcceptanceResult :=
  let command := normalize_manual command in
  if negb (valid_manual command) then stop ErrInvalidInput
  else
    now ← now_script;
    run (ManualAcceptPayment command now (reservationTTL s) [deliveryMaxAttempts s]).

Definition ListReviews (adminTelegramID page : Z) : Script Database PaymentReviewPage :=
  if (adminTelegramID <=? 0) || (page <? 0) then stop ErrInvalidInput
  else
    found ← run (ListPaymentReviews adminTelegramID (wrap32 (page * pageSize s)) (wrap32 (pageSize s)));
    mret (mkPaymentReviewPage found.1 (pageInfo page (pageSize s) found.2)).

Definition ResolveReview (command : ResolvePaymentReviewCommand) : Script Database PaymentReviewCase :=
  let command := mkResolvePaymentReviewCommand (rp_admin_telegram_id command) (rp_review_id command) (rp_status command)
                   (TrimSpace (rp_note command)) (rp_session command) (rp_meta command) in
  if (rp_admin_telegram_id command <=? 0) || (rp_review_id command <=? 0) || (ss_id (rp_session command) <=? 0)
     || (ss_version (rp_session command) <=? 0) || str_eqb (rp_note command) "" || (meta_update_id (rp_meta command) <=? 0)
     || negb (str_in (rp_status command) ["held"; "resolved"])
  then stop ErrInvalidInput
  else run (PaymentAdmin.ResolvePaymentReview command).
End Service.
End PaymentAdminService.
