(* ===== verification/DeliveryAdmin.v ===== *)
(** * The administrator's deliveries

    [src/internal/postgres/delivery_admin_store.go] and [reconciliation_store.go],
    [src/internal/app/delivery_admin_service.go] and [reconciliation_service.go]: the
    review of the deliveries that need a person, their manual retry and completion,
    and the reports on inconsistent deliveries and money. *)

From S2P Require Import Prelude Text Domain Schema Tx Tables Models AdminModels QOrders QInventory QPayments.
From S2P Require Import QWallet.
From S2P Require Import QUsers QDelivery QReports UpdateStore AdminStore InventoryStore DeliveryStore PaymentStore.
From S2P Require Import WalletStore.
From S2P Require Import CatalogStore AdminService PaymentAdmin.

Record DeliveryResolutionCommand := mkDeliveryResolutionCommand { dc_admin_telegram_id : Z; dc_job_id : Z;
    dc_expected_version : Z; dc_message_id : Z; dc_reason : string; dc_session : AdminSession; dc_meta : RequestMeta }.

(** ** The store *)

Section Store.
(** [updated_at] of a job, which a trigger keeps *)
Context (updated_at : OutboxRow -> Time).

Definition mapDeliveryReviewFields (j : OutboxRow) (productName : string) (quantity : Z) : DeliveryReviewItem :=
  mkDeliveryReviewItem (j_id j) (int_or_zero (j_order_id j)) (DeliveryJobStatus_string (j_status j)) (j_attempts j)
    (j_max_attempts j) (int_or_zero (j_chat_id j)) (int_or_zero (j_message_id j)) (text_or_empty (j_error_code j))
    (text_or_empty (j_error_detail j)) (j_created_at j) (updated_at j) (j_version j) productName quantity.
Definition deliveryReviewFromJob := mapDeliveryReviewFields.

(** The administrator is authorized outside a transaction; the statements that follow
    read one point in time. *)
Definition ListDeliveryReviews (adminTelegramID offset limit : Z) : Action Database (list DeliveryReviewItem * Z) :=
  autocommit (
    authorizePaymentAdmin adminTelegramID;;
    total ← CountDeliveryReviewJobs;
    l ← ListDeliveryReviewJobs updated_at offset limit;
    mret (map (fun '(j, item) => mapDeliveryReviewFields j (oi_product_name item) (oi_quantity item)) l, total)).

Definition attempt_view (a : AttemptRow) : DeliveryAttemptView :=
  mkDeliveryAttemptView (da_attempt_number a) (da_status a) (int_or_zero (da_http_status a))
    (int_or_zero (da_telegram_error_code a)) (int_or_zero (da_retry_after_seconds a)) (int_or_zero (da_chat_id a))
    (int_or_zero (da_message_id a)) (text_or_empty (da_error_class a)) (text_or_empty (da_error_code a))
    (text_or_empty (da_error_detail a)) (da_started_at a) (int_or_zero (da_finished_at a)).

Definition GetDeliveryReview (adminTelegramID jobID : Z) : Action Database DeliveryReviewDetail :=
  autocommit (
    authorizePaymentAdmin adminTelegramID;;
    row ← or_no_rows ErrNotFound (GetDeliveryReviewJob jobID);
    let '(j, item) := row in
    attempts ← ListDeliveryAttemptEvents (requiredInt8 jobID);
    mret (mkDeliveryReviewDetail (mapDeliveryReviewFields j (oi_product_name item) (oi_quantity item))
            (map attempt_view attempts))).

Definition ReconcileDeliveryState (staleBefore : Time) : Action Database DeliveryReconciliation :=
  autocommit (CountDeliveryReconciliationAnomalies staleBefore).
Definition ReconcileDeliveryForAdmin (adminTelegramID : Z) (staleBefore : Time) : Action Database DeliveryReconciliation :=
  autocommit (authorizePaymentAdmin adminTelegramID;; CountDeliveryReconciliationAnomalies staleBefore).
Definition ReconcileFinancialState : Action Database FinancialReconciliation := autocommit GetFinancialReconciliation.

Definition DeliveryQueueDepthForAdmin (adminTelegramID : Z) : Action Database (gmap string Z) :=
  autocommit (
    authorizePaymentAdmin adminTelegramID;;
    l ← CountDeliveryJobsByStatus;
    mret (list_to_map l)).

(** *** Manual resolution *)

Definition manual_job (job_id expected_version : Z) : Tx Database OutboxRow :=
  job ← or_no_rows ErrDeliveryNotFound (LockDeliveryJob job_id);
  guard_not (negb (j_version job =? expected_version)) ErrStaleVersion;;
  mret job.

Definition insertManualDeliveryAudit (adminID : Z) (before after : OutboxRow) (action : string)
    (command : DeliveryResolutionCommand) : Tx Database unit :=
  InsertAuditLog "admin" (Some adminID) action "delivery_job" (Some (j_id after))
    (Some (JObj [("status", JStr (DeliveryJobStatus_string (j_status before))); ("version", JInt (j_version before))]))
    (Some (JObj [("status", JStr (DeliveryJobStatus_string (j_status after))); ("version", JInt (j_version after));
                 ("reason", JStr (dc_reason command)); ("telegram_message_id", JInt (dc_message_id command))]))
    (optionalText (meta_request_id (dc_meta command))) (optionalInt8 (meta_update_id (dc_meta command)));;
  mret tt.

(** The row that records a manual decision among the attempts of the job *)
Definition manual_attempt (job : OutboxRow) (order_id : Z) (chat_id message_id : option Z) (code reason : string)
    (resolvedAt : Time) : Tx Database AttemptRow :=
  InsertDeliveryAttemptEvent order_id (j_id job) (j_attempts job + 1) "manual_resolution" None None None chat_id message_id
    (optionalText "manual") (optionalText code) (optionalText reason) resolvedAt (Some resolvedAt).

Definition retryable_by_hand (s : DeliveryJobStatus) : bool :=
  bool_decide (s ∈ [DeliveryJobAmbiguous; DeliveryJobManualReview; DeliveryJobPermanentFailed; DeliveryJobRetryableFailed]).
Definition completable_by_hand (s : DeliveryJobStatus) : bool :=
  bool_decide (s ∈ [DeliveryJobAmbiguous; DeliveryJobManualReview]).

(** An order whose delivery has failed is under way again. *)
Definition restart_delivery (order : OrderRow) (adminID : Z) (meta : RequestMeta) : Tx Database unit :=
  if bool_decide (o_status order = OrderStatusDeliveryFailed) then
    UpdateOrderStatusGuarded OrderStatusDelivering (o_id order) OrderStatusDeliveryFailed (o_version order);;
    InsertOrderStatusHistory (o_id order) (Some OrderStatusDeliveryFailed) OrderStatusDelivering
      (optionalText "manual_redelivery_verified") "admin" (Some adminID) (optionalText (meta_request_id meta));;
    mret tt
  else guard_not (negb (bool_decide (o_status order = OrderStatusDelivering))) ErrInvalidDeliveryState.

Definition retry_delivery_tx (command : DeliveryResolutionCommand) (resolvedAt : Time) : Tx Database DeliveryReviewItem :=
  admin ← authorizePaymentAdmin (dc_admin_telegram_id command);
  lockAndVerifySession (adm_id admin) (dc_session command) SessionDeliveryRetry;;
  job ← manual_job (dc_job_id command) (dc_expected_version command);
  guard_not (negb (retryable_by_hand (j_status job))) ErrUnsafeDeliveryResolution;;
  row ← LockOrderForDeliveryHandoff (int_or_zero (j_order_id job));
  let '(order, _, item) := row in
  restart_delivery order (adm_id admin) (dc_meta command);;
  updated ← or_no_rows ErrStaleVersion
    (ManualRetryDeliveryJob resolvedAt (optionalText (dc_reason command)) (adm_id admin) resolvedAt (j_id job) (j_version job));
  manual_attempt job (o_id order) None None "verified_not_delivered" (dc_reason command) resolvedAt;;
  insertManualDeliveryAudit (adm_id admin) job updated "delivery.manual_retry" command;;
  end_change admin (dc_session command) (dc_meta command);;
  mret (deliveryReviewFromJob updated (oi_product_name item) (oi_quantity item)).
Definition RetryDelivery (command : DeliveryResolutionCommand) (resolvedAt : Time) : Action Database DeliveryReviewItem :=
  map_action_error mapConstraintError (WithinTransaction (retry_delivery_tx command resolvedAt)).

Definition complete_delivery_tx (command : DeliveryResolutionCommand) (resolvedAt : Time) : Tx Database DeliveryReviewItem :=
  admin ← authorizePaymentAdmin (dc_admin_telegram_id command);
  lockAndVerifySession (adm_id admin) (dc_session command) SessionDeliveryComplete;;
  job ← manual_job (dc_job_id command) (dc_expected_version command);
  guard_not (negb (completable_by_hand (j_status job))) ErrUnsafeDeliveryResolution;;
  row ← LockOrderForDeliveryHandoff (int_or_zero (j_order_id job));
  let '(order, _, item) := row in
  guard_not (negb (bool_decide (o_status order = OrderStatusDelivering))) ErrInvalidDeliveryState;;
  sold ← MarkExactReservedInventorySold (o_id order) (oi_quantity item);
  guard_not (negb (Z.of_nat (length sold) =? oi_quantity item)) ErrDeliveryInventoryMismatch;;
  MarkOrderDeliveredGuarded resolvedAt (o_id order) (o_version order);;
  updated ← or_no_rows ErrStaleVersion
    (ManualCompleteDeliveryJob (dc_message_id command) resolvedAt (optionalText (dc_reason command)) (adm_id admin)
       (j_id job) (j_version job));
  manual_attempt job (o_id order) (j_chat_id job) (Some (dc_message_id command)) "verified_delivered" (dc_reason command) resolvedAt;;
  InsertOrderStatusHistory (o_id order) (Some OrderStatusDelivering) OrderStatusDelivered
    (optionalText "manual_delivery_verified") "admin" (Some (adm_id admin)) (optionalText (meta_request_id (dc_meta command)));;
  insertManualDeliveryAudit (adm_id admin) job updated "delivery.manual_completed" command;;
  end_change admin (dc_session command) (dc_meta command);;
  mret (deliveryReviewFromJob updated (oi_product_name item) (oi_quantity item)).
Definition CompleteDelivery (command : DeliveryResolutionCommand) (resolvedAt : Time) : Action Database DeliveryReviewItem :=
  map_action_error mapConstraintError (WithinTransaction (complete_delivery_tx command resolvedAt)).
End Store.

(** ** The services *)

Module DeliveryAdminService.
Record Config := mkConfig { pageSize : Z; processingLease : Duration; measured : bool }.

(** The lease is two minutes unless configured; [measured] tells whether metrics are set. *)
Definition NewDeliveryAdminService (pageSize : Z) : Config :=
  mkConfig (if (pageSize <=? 0) || (MaxPageSize <? pageSize) then DefaultPageSize else pageSize) 120000000000 false.
Definition WithProcessingLease (s : Config) (lease : Duration) : Config :=
  if 0 <? lease then mkConfig (pageSize s) lease (measured s) else s.
Definition WithMetrics (s : Config) : Config := mkConfig (pageSize s) (processingLease s) true.

Section Service.
Context (updated_at : OutboxRow -> Time) (s : Config).

Definition Reconcile (adminTelegramID : Z) : Script Database DeliveryReconciliation :=
  if (adminTelegramID <=? 0) || (processingLease s <=? 0) then stop ErrInvalidInput
  else
    now ← now_script;
    run (ReconcileDeliveryForAdmin adminTelegramID (now - processingLease s)).

Definition List (adminTelegramID page : Z) : Script Database DeliveryReviewPage :=
  if (adminTelegramID <=? 0) || (page <? 0) then stop ErrInvalidInput
  else
    found ← run (ListDeliveryReviews updated_at adminTelegramID (wrap32 (page * pageSize s)) (wrap32 (pageSize s)));
    (if measured s then run (DeliveryQueueDepthForAdmin adminTelegramID) ≫= (fun _ => mret tt) else mret tt);;
    mret (mkDeliveryReviewPage found.1 (pageInfo page (pageSize s) found.2)).

Definition Get (adminTelegramID jobID : Z) : Script Database DeliveryReviewDetail :=
  if (adminTelegramID <=? 0) || (jobID <=? 0) then stop ErrInvalidInput
  else
    found ← run_result (GetDeliveryReview updated_at adminTelegramID jobID);
    match found with
    | inr detail => mret detail
    | inl ErrNotFound => stop ErrDeliveryNotFound
    | inl e => stop e
    end.

Definition with_reason (c : DeliveryResolutionCommand) : DeliveryResolutionCommand :=
  mkDeliveryResolutionCommand (dc_admin_telegram_id c) (dc_job_id c) (dc_expected_version c) (dc_message_id c)
    (TrimSpace (dc_reason c)) (dc_session c) (dc_meta c).
Definition valid_resolution (c : DeliveryResolutionCommand) : bool :=
  negb ((dc_admin_telegram_id c <=? 0) || (dc_job_id c <=? 0) || (dc_expected_version c <=? 0)
        || str_eqb (dc_reason c) "" || (1000 <? rune_count (dc_reason c)) || (meta_update_id (dc_meta c) <=? 0)).

Definition Retry (command : DeliveryResolutionCommand) : Script Database DeliveryReviewItem :=
  let command := with_reason command in
  if negb (valid_resolution command) then stop ErrInvalidInput
  else
    now ← now_script;
    run (RetryDelivery updated_at command now).

Definition Complete (command : DeliveryResolutionCommand) : Script Database DeliveryReviewItem :=
  let command := with_reason command in
  if negb (valid_resolution command) || (dc_message_id command <=? 0) then stop ErrInvalidInput
  else
    now ← now_script;
    run (CompleteDelivery updated_at command now).
End Service.
End DeliveryAdminService.

Module ReconciliationService.
Definition Run : Script Database FinancialReconciliation := run ReconcileFinancialState.
Definition RunDelivery (staleBefore : Time) : Script Database DeliveryReconciliation :=
  if time_is_zero staleBefore then stop ErrInvalidInput else run (ReconcileDeliveryState staleBefore).
End ReconciliationService.

#[export] Hint Unfold manual_job insertManualDeliveryAudit manual_attempt restart_delivery : tx_handlers.
