(* ===== verification/ProviderAdmin.v ===== *)
(** * The administrator's payment providers

    [src/internal/postgres/payment_provider_admin_store.go] and
    [src/internal/app/payment_provider_admin_service.go]: which external accounts of a
    provider stand for which bank account of the shop.  SHA-256 and the collation of
    the database are parameters. *)

From S2P Require Import Prelude Text Domain Schema Tx Tables Models AdminModels QUsers QBanks UpdateStore.
From S2P Require Import AdminStore.
From S2P Require Import CatalogStore AdminService.

Record CreatePaymentProviderAccountCommand := mkCreatePaymentProviderAccountCommand { cpa_admin_telegram_id : Z;
    cpa_provider : string; cpa_environment : string; cpa_identity : string; cpa_bank_account_id : Z;
    cpa_confirmed : bool; cpa_session : AdminSession; cpa_meta : RequestMeta }.
Record SetPaymentProviderAccountStatusCommand := mkSetPaymentProviderAccountStatusCommand { spa_admin_telegram_id : Z;
    spa_mapping_id : Z; spa_expected_version : Z; spa_active : bool; spa_confirmed : bool; spa_session : AdminSession;
    spa_meta : RequestMeta }.

(** ** The store *)

Definition maskProviderAccountIdentity (value : string) : string :=
  if Nat.leb (String.length value) 4 then "***"%string
  else ("***" ++ String.substring (String.length value - 4) 4 value)%string.

Definition account_status (active : bool) : string := if active then "active" else "inactive".
Definition mapPaymentProviderAccountView (a : ProviderAccountRow) (bank : BankAccountRow) : PaymentProviderAccount :=
  mkPaymentProviderAccount (pa_id a) (pa_provider a) (pa_environment a) (maskProviderAccountIdentity (pa_identity a))
    (pa_bank_account_id a) (b_display_name bank) (b_last4 bank) (account_status (pa_active a)) (pa_version a)
    (pa_created_at a) (pa_updated_at a).

Definition providerAccountAuditSnapshot (v : PaymentProviderAccount) : Json :=
  JObj [("id", JInt (ppa_id v)); ("provider", JStr (ppa_provider v)); ("environment", JStr (ppa_environment v));
        ("external_identity", JStr (ppa_masked_identity v)); ("local_bank_account_id", JInt (ppa_bank_id v));
        ("status", JStr (ppa_status v)); ("version", JInt (ppa_version v))].

Definition create_provider_account_tx (admin : Admin) (session : AdminSession)
    (command : CreatePaymentProviderAccountCommand) (fingerprint : Bytes) : Tx Database PaymentProviderAccount :=
  begin_change admin session SessionProviderAccountCreate;;
  bank ← or_no_rows ErrBankAccountInactive (LockBankAccountByID (cpa_bank_account_id command));
  guard_not (negb (b_is_active bank)) ErrBankAccountInactive;;
  guard_not (negb (str_eqb (b_environment bank) (cpa_environment command))) ErrInvalidInput;;
  row ← or_no_rows ErrConflict
    (QBanks.CreatePaymentProviderAccount (cpa_provider command) (cpa_environment command) (cpa_identity command)
       fingerprint (b_id bank));
  let result := mapPaymentProviderAccountView row bank in
  insertAudit (adm_id admin) "payment_provider_account.created" "payment_provider_account" (pa_id row) None
    (Some (providerAccountAuditSnapshot result)) (cpa_meta command);;
  end_change admin session (cpa_meta command);;
  mret result.
Definition CreatePaymentProviderAccount (admin : Admin) (session : AdminSession)
    (command : CreatePaymentProviderAccountCommand) (fingerprint : Bytes) : Action Database PaymentProviderAccount :=
  map_action_error mapConstraintError (WithinTransaction (create_provider_account_tx admin session command fingerprint)).

Definition set_provider_account_tx (admin : Admin) (session : AdminSession)
    (command : SetPaymentProviderAccountStatusCommand) : Tx Database PaymentProviderAccount :=
  begin_change admin session SessionProviderAccountToggle;;
  before ← or_no_rows ErrNotFound (LockPaymentProviderAccount (spa_mapping_id command));
  guard_not (negb (pa_version before =? spa_expected_version command) || bool_decide (pa_active before = spa_active command))
    ErrStaleVersion;;
  after ← or_no_rows ErrStaleVersion
    (SetPaymentProviderAccountStatusGuarded (spa_active command) (pa_id before) (spa_expected_version command));
  bank ← LockBankAccountByID (pa_bank_account_id after);
  let beforeView := mapPaymentProviderAccountView before bank in
  let result := mapPaymentProviderAccountView after bank in
  insertAudit (adm_id admin)
    (if spa_active command then "payment_provider_account.activated" else "payment_provider_account.deactivated")
    "payment_provider_account" (pa_id after) (Some (providerAccountAuditSnapshot beforeView))
    (Some (providerAccountAuditSnapshot result)) (spa_meta command);;
  end_change admin session (spa_meta command);;
  mret result.
Definition SetPaymentProviderAccountStatus (admin : Admin) (session : AdminSession)
    (command : SetPaymentProviderAccountStatusCommand) : Action Database PaymentProviderAccount :=
  map_action_error mapConstraintError (WithinTransaction (set_provider_account_tx admin session command)).

Definition no_descriptor : PaymentProviderDescriptor := mkPaymentProviderDescriptor "" false "" false false false.
Definition health_view (descriptor : PaymentProviderDescriptor) (r : ProviderHealthRow) : PaymentProviderHealth :=
  mkPaymentProviderHealth descriptor (ph_active_mappings r) (int_or_zero (ph_last_webhook_at r))
    (int_or_zero (ph_last_attempt r)) (int_or_zero (ph_last_success r)) (text_or_empty (ph_last_error_code r))
    (int_or_zero (ph_last_transaction_at r)) (ph_pending_events r) (ph_open_reviews r).
Definition GetPaymentProviderHealth (provider environment : string) : Action Database PaymentProviderHealth :=
  autocommit (row ← QBanks.GetPaymentProviderHealth provider environment; mret (health_view no_descriptor row)).

(** ** The service *)

Module PaymentProviderAdminService.
Section Service.
Context (text_le : string -> string -> bool) (Sum256 : Bytes -> Bytes).
(** The configured providers; those without a name are left out *)
Context (configured : list PaymentProviderDescriptor) (pageSize : Z).

Definition providerList : list PaymentProviderDescriptor :=
  filter (fun p => str_eqb (ppd_name p) "" = false) configured.
(** [byName]: the last provider of a name *)
Definition providers (name : string) : option PaymentProviderDescriptor :=
  last (filter (fun p => str_eqb (ppd_name p) name = true) providerList).
Definition size : Z := if (pageSize <=? 0) || (MaxPageSize <? pageSize) then DefaultPageSize else pageSize.

Definition ListPaymentProviderAccounts (offset limit : Z) : Action Database (list PaymentProviderAccount * Z) :=
  autocommit (
    total ← CountPaymentProviderAccounts;
    l ← QBanks.ListPaymentProviderAccounts text_le offset limit;
    mret (map (fun '(a, bank) => mapPaymentProviderAccountView a bank) l, total)).

Definition ListProviders (telegramID : Z) : Script Database (list PaymentProviderDescriptor) :=
  AdminService.Authorize telegramID false ≫= fun _ => mret (filter (fun p => ppd_enabled p = true) providerList).

Definition ListAccounts (telegramID page : Z) : Script Database PaymentProviderAccountPage :=
  if page <? 0 then stop ErrInvalidInput
  else
    AdminService.Authorize telegramID false ≫= fun _ =>
    found ← run (ListPaymentProviderAccounts (wrap32 (page * size)) (wrap32 size));
    mret (mkPaymentProviderAccountPage found.1 (pageInfo page size found.2)).

(** [provider + "\x00" + environment + "\x00" + identity] *)
Definition identity_bytes (command : CreatePaymentProviderAccountCommand) : Bytes :=
  (codes (cpa_provider command) ++ [0%Z] ++ codes (cpa_environment command) ++ [0%Z] ++ codes (cpa_identity command))%list.

Definition normalize_account (c : CreatePaymentProviderAccountCommand) : CreatePaymentProviderAccountCommand :=
  mkCreatePaymentProviderAccountCommand (cpa_admin_telegram_id c) (ToLower (TrimSpace (cpa_provider c)))
    (ToLower (TrimSpace (cpa_environment c))) (TrimSpace (cpa_identity c)) (cpa_bank_account_id c) (cpa_confirmed c)
    (cpa_session c) (cpa_meta c).
Definition valid_account (c : CreatePaymentProviderAccountCommand) : bool :=
  match providers (cpa_provider c) with
  | None => false
  | Some provider =>
      negb (negb (ppd_enabled provider) || negb (str_eqb (ppd_environment provider) (cpa_environment c))
            || str_eqb (cpa_identity c) "" || (256 <? str_len (cpa_identity c)) || (cpa_bank_account_id c <=? 0)
            || negb (cpa_confirmed c))
  end.

Definition CreateAccount (command : CreatePaymentProviderAccountCommand) : Script Database PaymentProviderAccount :=
  let command := normalize_account command in
  AdminService.change (valid_account command) (cpa_admin_telegram_id command)
    (fun admin => CreatePaymentProviderAccount admin (cpa_session command) command (Sum256 (identity_bytes command))).

Definition SetAccountActive (command : SetPaymentProviderAccountStatusCommand) : Script Database PaymentProviderAccount :=
  AdminService.change
    (negb ((spa_mapping_id command <=? 0) || (spa_expected_version command <=? 0) || negb (spa_confirmed command)))
    (spa_admin_telegram_id command) (fun admin => SetPaymentProviderAccountStatus admin (spa_session command) command).

Fixpoint health_of (providers : list PaymentProviderDescriptor) : Script Database (list PaymentProviderHealth) :=
  match providers with
  | [] => mret []
  | p :: providers =>
      h ← run (GetPaymentProviderHealth (ppd_name p) (ppd_environment p));
      rest ← health_of providers;
      mret (mkPaymentProviderHealth p (pph_active_mappings h) (pph_last_webhook_at h) (pph_last_attempt h)
              (pph_last_success h) (pph_last_error_code h) (pph_last_transaction_at h) (pph_pending_events h)
              (pph_open_reviews h) :: rest)
  end.
Definition Health (telegramID : Z) : Script Database (list PaymentProviderHealth) :=
  AdminService.Authorize telegramID false ≫= fun _ => health_of providerList.
End Service.
End PaymentProviderAdminService.
