(* ===== verification/Providers.v ===== *)
(** * Payment providers

    [src/internal/payment/provider.go] and [signed_json.go]: the registry of the
    configured providers, and the provider whose notifications are JSON documents
    signed with HMAC-SHA256.  HMAC, SHA-256, [json.Unmarshal] of a notification and
    [json.Marshal] of what is kept of it are parameters. *)

From Stdlib Require Import Ascii.
From S2P Require Import Text Prelude Domain Schema Tx Tables Models QPayments QUsers UpdateStore PaymentStore.
From S2P Require Import PaymentReference PaymentEvents.

(** ** Providers and their registry *)

Definition EnvironmentDevelopment : string := "development".
Definition EnvironmentTest : string := "test".
Definition EnvironmentProduction : string := "production".

Record ProviderCapabilities := mkProviderCapabilities { SupportsWebhook : bool; SupportsReconciliation : bool;
    SupportsTestMode : bool }.

(** A header is looked up by its canonical name; an absent one is empty. *)
Record WebhookRequest := mkWebhookRequest { wq_headers : string -> string; wq_body : Bytes; wq_received_at : Time }.
Record WebhookAcknowledgement := mkWebhookAcknowledgement { wa_status : Z; wa_headers : list (string * string);
    wa_body : string; wa_duplicate_body : string }.

(** A provider; the optional interfaces it implements *)
Record Provider := mkProvider { prov_name : string; prov_enabled : bool; prov_environment : string;
    prov_capabilities : ProviderCapabilities;
    prov_webhook : option (WebhookRequest -> Time -> WebhookAcknowledgement * (Error + NormalizedPaymentEvent));
    prov_transactions : bool }.

Inductive ProviderError := ErrDuplicateProvider | ErrProviderDisabled | ErrUnsupportedCapability | ErrProvider (e : Error).

Definition Registry : Type := gmap string Provider.

Definition provider_char (a : ascii) : bool :=
  let n := ascii_Z a in
  ((97 <=? n) && (n <=? 122)) || ((48 <=? n) && (n <=? 57)) || (n =? 95) || (n =? 45).
Definition validProviderName (value : string) : bool :=
  negb (str_eqb value "" || (64 <? str_len value) || negb (str_eqb (TrimSpace value) value))
  && forallb provider_char (String.list_ascii_of_string value).
Definition validEnvironment (environment : string) : bool :=
  str_in environment [EnvironmentDevelopment; EnvironmentTest; EnvironmentProduction].

(** [None] stands for a nil provider. *)
Fixpoint register_all (registry : Registry) (providers : list (option Provider)) : ProviderError + Registry :=
  match providers with
  | [] => inr registry
  | None :: _ => inl (ErrProvider ErrInvalidInput)
  | Some provider :: providers =>
      if negb (validProviderName (prov_name provider)) || negb (validEnvironment (prov_environment provider))
      then inl (ErrProvider ErrInvalidInput)
      else if is_some (registry !! prov_name provider) then inl ErrDuplicateProvider
      else if negb (SupportsWebhook (prov_capabilities provider)) && negb (SupportsReconciliation (prov_capabilities provider))
      then inl (ErrProvider ErrInvalidInput)
      else register_all (<[prov_name provider := provider]> registry) providers
  end.
Definition NewProviderRegistry (providers : list (option Provider)) : ProviderError + Registry := register_all ∅ providers.

Definition lookup_provider (r : Registry) (name : string) : ProviderError + Provider :=
  if negb (validProviderName name) then inl (ErrProvider ErrUnknownPaymentProvider)
  else
    match r !! name with
    | None => inl (ErrProvider ErrUnknownPaymentProvider)
    | Some provider => if prov_enabled provider then inr provider else inl ErrProviderDisabled
    end.

Definition GetWebhookProvider (r : Registry) (name : string)
    : ProviderError + (WebhookRequest -> Time -> WebhookAcknowledgement * (Error + NormalizedPaymentEvent)) :=
  match lookup_provider r name with
  | inl e => inl e
  | inr provider =>
      if negb (SupportsWebhook (prov_capabilities provider)) then inl ErrUnsupportedCapability
      else match prov_webhook provider with Some webhook => inr webhook | None => inl ErrUnsupportedCapability end
  end.

Definition GetTransactionAPIProvider (r : Registry) (name : string) : ProviderError + Provider :=
  match lookup_provider r name with
  | inl e => inl e
  | inr provider =>
      if negb (SupportsReconciliation (prov_capabilities provider)) || negb (prov_transactions provider)
      then inl ErrUnsupportedCapability else inr provider
  end.

(** [Providers]: by name, in the order of the bytes *)
Definition name_le (a b : Provider) : bool :=
  match String.compare (prov_name a) (prov_name b) with Gt => false | _ => true end.
#[export] Instance name_le_dec : RelDecision (fun a b => name_le a b = true).
Proof. intros a b. apply _. Defined.
Definition ListProviders (r : Registry) : list Provider := merge_sort (fun a b => name_le a b = true) ((map_to_list r).*2).

Definition JSONAcknowledgement (status : Z) (body : string) : WebhookAcknowledgement :=
  mkWebhookAcknowledgement status [("Content-Type"%string, "application/json"%string)] body "".

(** The two answers of the signed provider; [q] is the double quote. *)
Definition q : string := String "034" EmptyString.
Definition accepted_body (duplicate : bool) : string :=
  cat ["{"; q; "status"; q; ":"; q; "accepted"; q; ","; q; "duplicate"; q; ":"; if duplicate then "true" else "false"; "}"].
Definition signed_acknowledgement : WebhookAcknowledgement :=
  let ack := JSONAcknowledgement 202 (accepted_body false) in
  mkWebhookAcknowledgement (wa_status ack) (wa_headers ack) (wa_body ack) (accepted_body true).

(** ** Signed notifications *)

Definition SignedJSONProvider : string := "signed_json".
Definition signatureHeader : string := "X-Payment-Signature".
Definition timestampHeader : string := "X-Payment-Timestamp".

Record SignedJSON := mkSignedJSON { sj_secret : Bytes; sj_tolerance : Duration; sj_environment : string; sj_enabled : bool }.

Record signedJSONPayload := mkSignedJSONPayload { sp_event_id : string; sp_transaction_id : string; sp_event_type : string;
    sp_reference : string; sp_direction : string; sp_content : string; sp_destination : string;
    sp_provider_account : string; sp_amount : Z; sp_currency : string; sp_timestamp : Z; sp_occurred_at : Time;
    sp_received_account : string }.

Definition NewSignedJSON (secret : string) (tolerance : Duration) : option SignedJSON :=
  if str_eqb (TrimSpace secret) "" || (tolerance <=? 0) then None
  else Some (mkSignedJSON (codes secret) tolerance EnvironmentDevelopment true).
(** Never for the production environment *)
Definition NewSignedJSONForEnvironment (secret : string) (tolerance : Duration) (environment : string) (enabled : bool)
    : option SignedJSON :=
  if str_eqb environment EnvironmentProduction || negb (validEnvironment environment) then None
  else
    provider ← NewSignedJSON secret tolerance;
    Some (mkSignedJSON (sj_secret provider) (sj_tolerance provider) environment enabled).

(** [hex.DecodeString] *)
Definition hex_value (a : ascii) : option Z :=
  let n := ascii_Z a in
  if (48 <=? n) && (n <=? 57) then Some (n - 48)
  else if (97 <=? n) && (n <=? 102) then Some (n - 87)
  else if (65 <=? n) && (n <=? 70) then Some (n - 55)
  else None.
Fixpoint hex_decode (s : string) : option Bytes :=
  match s with
  | EmptyString => Some []
  | String a (String b s) => x ← hex_value a; y ← hex_value b; rest ← hex_decode s; Some (16 * x + y :: rest)
  | _ => None
  end.

(** [^[A-Z0-9][A-Z0-9-]{2,127}$] *)
Definition reference_char (a : ascii) : bool :=
  let n := ascii_Z a in ((65 <=? n) && (n <=? 90)) || ((48 <=? n) && (n <=? 57)).
Definition referencePattern (s : string) : bool :=
  match s with
  | EmptyString => false
  | String a s =>
      reference_char a && forallb (fun a => reference_char a || (ascii_Z a =? 45)) (String.list_ascii_of_string s)
      && (2 <=? str_len s) && (str_len s <=? 127)
  end.

(** A trimmed, non-empty text of at most [n] bytes *)
Definition trimmed (n : Z) (s : string) : bool :=
  str_eqb (TrimSpace s) s && negb (str_eqb s "") && (str_len s <=? n).

Definition validPayload (p : signedJSONPayload) : bool :=
  trimmed 128 (sp_event_id p) && trimmed 128 (sp_transaction_id p) && str_eqb (sp_event_type p) "payment.received"
  && (str_eqb (sp_reference p) "" || referencePattern (sp_reference p)) && str_in (sp_direction p) ["inbound"; "outbound"]
  && trimmed 2048 (sp_content p) && trimmed 256 (sp_destination p)
  && (0 <? sp_amount p) && str_eqb (sp_currency p) "VND" && negb (time_is_zero (sp_occurred_at p)).

Definition outsideTolerance (now timestamp : Time) (tolerance : Duration) : bool :=
  let delta := time_sub now timestamp in (tolerance <? delta) || (delta <? - tolerance).

Definition maskAccount (value : string) : string :=
  let value := TrimSpace value in
  if Nat.leb (String.length value) 4 then ""%string
  else ("***" ++ String.substring (String.length value - 4) 4 value)%string.

Section Signed.
Context (HMAC : Bytes -> Bytes -> Bytes) (Sum256 : Bytes -> Bytes).
Context (unmarshal : Bytes -> option signedJSONPayload) (sanitize : signedJSONPayload -> option SanitizedMetadata).
Context (s : SignedJSON).

(** The signature, before anything of the body is read *)
Definition authentic (headers : string -> string) (body : Bytes) : bool :=
  match hex_decode (TrimSpace (headers signatureHeader)) with
  | Some provided => Nat.eqb (length provided) 32 && bool_decide (provided = HMAC (sj_secret s) body)
  | None => false
  end.

Definition signed_event (payload : signedJSONPayload) (body : Bytes) (metadata : SanitizedMetadata) : NormalizedPaymentEvent :=
  mkNormalizedPaymentEvent SignedJSONProvider (sj_environment s) (sp_event_id payload) (sp_transaction_id payload)
    (sp_reference payload) (sp_direction payload) (sp_content payload) (sp_destination payload)
    (sp_provider_account payload) "webhook" (sp_amount payload) (sp_currency payload) (sp_occurred_at payload)
    (maskAccount (sp_received_account payload)) (sp_event_type payload) (Sum256 body) [] metadata.

Definition VerifyAndNormalize (headers : string -> string) (body : Bytes) (now : Time) : Error + NormalizedPaymentEvent :=
  if negb (authentic headers body) then inl ErrInvalidWebhookSignature
  else
    match ParseInt 64 (TrimSpace (headers timestampHeader)) with
    | None => inl ErrWebhookReplay
    | Some headerTimestamp =>
        match unmarshal body with
        | None => inl ErrInvalidInput
        | Some payload =>
            if negb (sp_timestamp payload =? headerTimestamp)
               || outsideTolerance now (unix_time (sp_timestamp payload)) (sj_tolerance s)
            then inl ErrWebhookReplay
            else if negb (validPayload payload) then inl ErrInvalidInput
            else match sanitize payload with
                 | None => inl ErrInvalidInput
                 | Some metadata => inr (signed_event payload body metadata)
                 end
        end
    end.

Definition VerifyAndNormalizeWebhook (request : WebhookRequest) (now : Time)
    : WebhookAcknowledgement * (Error + NormalizedPaymentEvent) :=
  (signed_acknowledgement, VerifyAndNormalize (wq_headers request) (wq_body request) now).

Definition signed_provider : Provider :=
  mkProvider SignedJSONProvider (sj_enabled s) (sj_environment s) (mkProviderCapabilities true false true)
    (Some VerifyAndNormalizeWebhook) false.
End Signed.
