(* ===== verification/Program.v ===== *)
(** * Programs

    A service that talks to the outside between its steps (the store, the clock,
    Telegram) is a tree of calls: a program either returns or makes a call and
    continues with its answer.  One call is one atomic step, so that several
    programs can run interleaved (Delivery workers, [AtMostOnce]). *)

From S2P Require Import Prelude.

Section Programs.
Context {call : Type} {answer : call -> Type}.

Inductive Prog (A : Type) : Type :=
  | Ret (a : A)
  | Ask (c : call) (k : answer c -> Prog A).
Arguments Ret {A} _.
Arguments Ask {A} _ _.

Fixpoint prog_bind {A B} (f : A -> Prog B) (p : Prog A) : Prog B :=
  match p with
  | Ret a => f a
  | Ask c k => Ask c (fun x => prog_bind f (k x))
  end.

#[export] Instance Prog_ret : MRet Prog := @Ret.
#[export] Instance Prog_bind : MBind Prog := @prog_bind.

Definition ask (c : call) : Prog (answer c) := Ask c Ret.

(** A program has returned. *)
Definition returned {A} (p : Prog A) : bool := match p with Ret _ => true | Ask _ _ => false end.

(** ** Traces

    [runs p t r]: answered by whatever outside, the program makes the calls of [t] and
    returns [r]. *)

Definition called : Type := { c : call & answer c }.
Definition did (c : call) (x : answer c) : called := existT c x.

Fixpoint runs {A} (p : Prog A) (t : list called) (r : A) : Prop :=
  match p with
  | Ret a => t = [] /\ r = a
  | Ask c k => exists x t', t = did c x :: t' /\ runs (k x) t' r
  end.

Lemma runs_bind {A B} (p : Prog A) (f : A -> Prog B) t r :
  runs (p ≫= f) t r -> exists a t1 t2, t = (t1 ++ t2)%list /\ runs p t1 a /\ runs (f a) t2 r.
Proof.
  revert t. induction p as [a|c k IH]; intros t.
  - intros Hr. by exists a, [], t.
  - intros (x & t' & -> & (a & t1 & t2 & -> & Ha & Hb)%IH). exists a, (did c x :: t1), t2.
    split_and!; [done | by exists x, t1 | done].
Qed.

(** The run against an outside that answers the [n]-th call with [outside n c] *)
Fixpoint run_trace {A} (outside : nat -> forall c : call, answer c) (n : nat) (p : Prog A) : list called * A :=
  match p with
  | Ret a => ([], a)
  | Ask c k => let '(t, r) := run_trace outside (S n) (k (outside n c)) in (did c (outside n c) :: t, r)
  end.

Lemma run_trace_runs {A} outside n (p : Prog A) : runs p (run_trace outside n p).1 (run_trace outside n p).2.
Proof.
  revert n. induction p as [a|c k IH]; intros n; [done|]. simpl.
  specialize (IH (outside n c) (S n)). destruct (run_trace outside (S n) (k (outside n c))) as [t r]. by exists (outside n c), t.
Qed.

Section Runs.
Context {W : Type} (reply : nat -> forall c : call, W -> answer c * W).

(** One step: the next call is answered and moves the world. *)
Definition step {A} (n : nat) (p : Prog A) (w : W) : Prog A * W :=
  match p with
  | Ret a => (Ret a, w)
  | Ask c k => let '(x, w') := reply n c w in (k x, w')
  end.

(** A run without interruption; [n] counts the calls. *)
Fixpoint run_prog {A} (p : Prog A) (n : nat) (w : W) : A * nat * W :=
  match p with
  | Ret a => (a, n, w)
  | Ask c k => let '(x, w') := reply n c w in run_prog (k x) (S n) w'
  end.

Fixpoint run_steps {A} (m n : nat) (p : Prog A) (w : W) : Prog A * W :=
  match m with
  | O => (p, w)
  | S m' => let '(p', w') := step n p w in run_steps m' (S n) p' w'
  end.

(** The run is the sequence of its steps. *)
Lemma run_prog_steps {A} (p : Prog A) n w :
  exists m, run_steps m n p w = (Ret (run_prog p n w).1.1, (run_prog p n w).2).
Proof.
  revert n w. induction p as [a|c k IH]; intros n w; [by exists O|].
  simpl. destruct (reply n c w) as [x w'] eqn:Hr. destruct (IH x (S n) w') as [m Hm].
  exists (S m). simpl. by rewrite Hr.
Qed.

(** A run of two programs in a row *)
Lemma run_prog_bind {A B} (p : Prog A) (f : A -> Prog B) n w :
  run_prog (p ≫= f) n w = run_prog (f (run_prog p n w).1.1) (run_prog p n w).1.2 (run_prog p n w).2.
Proof.
  revert n w. induction p as [a|c k IH]; intros n w; [done|]. simpl. destruct (reply n c w) as [x w']. apply IH.
Qed.
End Runs.
End Programs.

Arguments Prog {call} answer A.
Arguments Ret {call answer A} _.
Arguments Ask {call answer A} _ _.
Arguments ask {call answer} _.
Arguments called {call} answer.
Arguments did {call answer} c x.
Arguments runs {call answer A} p t r.

(** Where an element of a concatenation is when the first part has none like it *)
Lemma app_split_at {X} (P : X -> Prop) (l1 l2 before after : list X) x :
  (l1 ++ l2 = before ++ x :: after)%list -> Forall (fun y => ~ P y) l1 -> P x ->
  exists before', (before = l1 ++ before' /\ l2 = before' ++ x :: after)%list.
Proof.
  revert before. induction l1 as [|y l1 IH]; intros before Heq Hl1 Hx; [by exists before|].
  inversion_clear Hl1 as [|? ? Hy Hl]. destruct before as [|b before]; simpl in Heq.
  - by injection Heq as -> _.
  - injection Heq as -> Heq. destruct (IH before Heq Hl Hx) as (before' & -> & ->). by exists before'.
Qed.
