(* ===== verification/Webhooks.v ===== *)
(** * Webhooks

    [src/internal/httpapi/payment_webhook.go] and [telegram_webhook.go]: what the API
    answers to a notification of a payment provider and to an update of Telegram.
    The HTTP server, [mime.ParseMediaType], the JSON decoder of updates and the
    processing of an update are parameters; metrics are left out. *)

From Stdlib Require Import Ascii.
From S2P Require Import Text Prelude Domain Schema Tx Tables Models QPayments QUsers UpdateStore PaymentStore.
From S2P Require Import PaymentReference PaymentEvents Providers.

(** What reading a bounded request body gives *)
Inductive BodyRead := BodyRead_ok (body : Bytes) | BodyTooLarge | BodyFailed.

Record Response := mkResponse { hr_status : Z; hr_content_type : string; hr_body : string; hr_headers : list (string * string) }.

(** [c.AbortWithStatusJSON(status, gin.H{"error": message})] *)
Definition error_response (status : Z) (message : string) : Response :=
  mkResponse status "application/json; charset=utf-8" (cat ["{"; q; "error"; q; ":"; q; message; q; "}"]) [].

Section Http.
(** [mime.ParseMediaType], without the parameters of the type *)
Context (ParseMediaType : string -> option string).
(** [http.CanonicalHeaderKey] *)
Context (CanonicalHeaderKey : string -> string).

(** [strings.EqualFold] on media types, which are ASCII *)
Definition EqualFold (a b : string) : bool := str_eqb (ToLower a) (ToLower b).
Definition json_content (content_type : string) : bool :=
  match ParseMediaType content_type with
  | Some mediaType => EqualFold mediaType "application/json"
  | None => false
  end.

(** ** Payment notifications *)

(** [strings.ContainsAny(value, "\r\n")] *)
Definition has_newline (value : string) : bool :=
  existsb (fun a => (ascii_Z a =? 13) || (ascii_Z a =? 10)) (String.list_ascii_of_string value).

Definition bad_header (header : string * string) : bool :=
  let '(name, value) := header in
  let canonical := CanonicalHeaderKey (TrimSpace name) in
  str_eqb canonical "" || has_newline (name ++ value) || (512 <? str_len value)
  || str_eqb canonical "Authorization" || str_eqb canonical "Set-Cookie".

(** The content type of the last header of that name *)
Definition ack_content_type (headers : list (string * string)) : string :=
  foldl (fun found '(name, value) => if str_eqb (CanonicalHeaderKey (TrimSpace name)) "Content-Type" then value else found)
    EmptyString headers.

Definition validateProviderAcknowledgement (ack : WebhookAcknowledgement) : bool :=
  negb ((wa_status ack <? 200) || (299 <? wa_status ack) || (4096 <? str_len (wa_body ack))
        || (4096 <? str_len (wa_duplicate_body ack)) || match wa_headers ack with [] => true | _ => false end)
  && negb (existsb bad_header (wa_headers ack))
  && match ParseMediaType (ack_content_type (wa_headers ack)) with
     | Some mediaType => str_in mediaType ["application/json"; "text/plain"]
     | None => false
     end.

Section Payments.
Context (registry : Registry) (ingest : NormalizedPaymentEvent -> Script Database PaymentEventIngestionResult).

(** The acknowledgement of an event that is stored *)
Definition acknowledge (ack : WebhookAcknowledgement) (duplicate : bool) : Response :=
  if negb (validateProviderAcknowledgement ack)
  then error_response 503 "payment provider acknowledgement unavailable"
  else
    let body := if duplicate && (0 <? str_len (wa_duplicate_body ack)) then wa_duplicate_body ack else wa_body ack in
    let contentType := default EmptyString (snd <$> head (filter (fun h => h.1 = "Content-Type"%string) (wa_headers ack))) in
    mkResponse (wa_status ack) contentType body (wa_headers ack).

Definition rejected (e : Error) : Response :=
  error_response
    (match e with ErrInvalidWebhookSignature | ErrWebhookReplay => 401 | _ => 400 end) "payment webhook rejected".

Definition ingestion_failed (e : Error) : Response :=
  match e with
  | ErrPaymentEventConflict => error_response 409 "payment event conflict"
  | _ => error_response 503 "payment event ingestion unavailable"
  end.

Definition PaymentWebhook_Handler (providerName content_type : string) (headers : string -> string) (body : BodyRead)
    (now : Time) : Script Database Response :=
  match GetWebhookProvider registry providerName with
  | inl _ => mret (error_response 404 "payment provider not found")
  | inr provider =>
      if negb (json_content content_type) then mret (error_response 415 "application/json required")
      else
        match body with
        | BodyTooLarge => mret (error_response 413 "request body too large")
        | BodyFailed => mret (error_response 400 "invalid request body")
        | BodyRead_ok body =>
            match provider (mkWebhookRequest headers body now) now with
            | (_, inl e) => mret (rejected e)
            | (ack, inr event) =>
                result ← script_result (ingest event);
                mret (match result with
                      | inl e => ingestion_failed e
                      | inr result => acknowledge ack (in_duplicate result)
                      end)
            end
        end
  end.
End Payments.

(** ** Telegram updates *)

Definition validSecret (provided expected : string) : bool :=
  negb (str_eqb provided "" || str_eqb expected "" || negb (str_len provided =? str_len expected))
  && str_eqb provided expected.

(** What decoding the body gives: an update and nothing after it *)
Inductive Decoded (Update : Type) := DecodedUpdate (update : Update) | DecodeTooLarge | DecodeMalformed.
Arguments DecodedUpdate {Update} _.
Arguments DecodeTooLarge {Update}.
Arguments DecodeMalformed {Update}.

Section Telegram.
Context {Update : Type} (secret : string) (process : Update -> Script Database unit).

Definition TelegramWebhook_Handler (secret_header content_type : string) (body : Decoded Update) : Script Database Response :=
  if negb (validSecret secret_header secret) then mret (error_response 401 "unauthorized")
  else if negb (json_content content_type) then mret (error_response 415 "application/json required")
  else
    match body with
    | DecodeTooLarge => mret (error_response 413 "request body too large")
    | DecodeMalformed => mret (error_response 400 "malformed JSON")
    | DecodedUpdate update =>
        result ← script_result (process update);
        mret (match result with
              | inl _ => error_response 500 "update processing failed"
              | inr _ => mkResponse 200 "application/json; charset=utf-8" (cat ["{"; q; "status"; q; ":"; q; "ok"; q; "}"]) []
              end)
    end.
End Telegram.
End Http.
