(* ===== verification/Reconciliation.v ===== *)
(** * Reconciliation with the payment providers

    [src/internal/payment/reconciliation.go] over the checkpoints of
    [src/internal/postgres/provider_reconciliation_store.go]: one pass pages through
    the transactions of every active provider account and ingests them.  A checkpoint
    row remembers how far an account was read; it is leased to one job at a time and
    every change of it is guarded by its version.

    The job is a tree of calls ([Program]); the provider's HTTP client is outside.
    Metrics are left out. *)

From Stdlib Require Import Ascii.
From S2P Require Import Text Prelude Domain Schema Tx Tables Models QPayments QBanks QUsers UpdateStore PaymentStore.
From S2P Require Import PaymentReference PaymentEvents Providers Program.

Record ProviderAccount := mkProviderAccount { pc_id : Z; pc_provider : string; pc_environment : string;
    pc_identity : string; pc_bank_account_id : Z }.
Record ProviderCheckpoint := mkProviderCheckpoint { ck_id : Z; ck_account_id : Z; ck_cursor : string;
    ck_last_transaction : string; ck_last_occurred_at : Time; ck_lease_owner : string; ck_version : Z }.
(** Go's zero value *)
Definition no_checkpoint : ProviderCheckpoint := mkProviderCheckpoint 0 0 "" "" 0 "" 0.

(** ** The store

    [None] stands for [ErrCheckpointLeaseUnavailable], and for the [claimed] result
    of [ClaimProviderCheckpoint] being false. *)

Definition ListActiveProviderAccounts (text_le : string -> string -> bool) : Action Database (list ProviderAccount) :=
  autocommit (
    l ← ListActivePaymentProviderAccounts text_le;
    mret (map (fun a => mkProviderAccount (pa_id a) (pa_provider a) (pa_environment a) (pa_identity a) (pa_bank_account_id a)) l)).

Definition mapProviderCheckpoint (c : CheckpointRow) : ProviderCheckpoint :=
  mkProviderCheckpoint (cp_id c) (cp_account_id c) (text_or_empty (cp_cursor c)) (text_or_empty (cp_last_transaction c))
    (int_or_zero (cp_last_occurred_at c)) (text_or_empty (cp_lease_owner c)) (cp_version c).
Definition checkpointLeaseOwner (checkpoint : ProviderCheckpoint) : string := ck_lease_owner checkpoint.

Definition EnsureProviderCheckpoint (account_id : Z) : Action Database ProviderCheckpoint :=
  autocommit (row ← EnsurePaymentProviderCheckpoint account_id; mret (mapProviderCheckpoint row)).

Definition ClaimProviderCheckpoint (checkpoint_id : Z) (owner : string) (attempted_at expires_at : Time)
    : Action Database (option ProviderCheckpoint) :=
  autocommit (
    row ← try_row (ClaimPaymentProviderCheckpoint (optionalText owner) expires_at attempted_at checkpoint_id);
    mret (mapProviderCheckpoint <$> row)).

Definition AdvanceProviderCheckpoint (checkpoint : ProviderCheckpoint) (cursor lastTransactionID : string) (lastOccurredAt : Time)
    : Action Database (option ProviderCheckpoint) :=
  autocommit (
    row ← try_row (AdvancePaymentProviderCheckpoint (optionalText cursor) (optionalText lastTransactionID)
                     (optionalTimestamp lastOccurredAt) (ck_id checkpoint) (ck_version checkpoint)
                     (optionalText (checkpointLeaseOwner checkpoint)));
    mret (mapProviderCheckpoint <$> row)).

Definition CompleteProviderCheckpoint (checkpoint : ProviderCheckpoint) (completed_at : Time) : Action Database (option unit) :=
  autocommit (
    row ← try_row (CompletePaymentProviderCheckpoint completed_at (ck_id checkpoint) (ck_version checkpoint)
                     (optionalText (checkpointLeaseOwner checkpoint)));
    mret (const tt <$> row)).

Definition FailProviderCheckpoint (checkpoint : ProviderCheckpoint) (error_code : string) : Action Database (option unit) :=
  autocommit (
    row ← try_row (RecordPaymentProviderCheckpointFailure (optionalText error_code) (ck_id checkpoint) (ck_version checkpoint)
                     (optionalText (checkpointLeaseOwner checkpoint)));
    mret (const tt <$> row)).

(** ** The job *)

Record ProviderAPIError := mkProviderAPIError { ae_code : string; ae_temporary : bool; ae_auth_failed : bool; ae_retry_after : Duration }.

(** The errors of one account *)
Inductive ReconcileError :=
  | ErrCheckpointLeaseUnavailable | ErrMalformedTransactionPage
  | ErrApi (e : ProviderAPIError) | ErrDeadlineExceeded | ErrCanceled
  | ErrOther (e : Error).

Record ListTransactionsRequest := mkListTransactionsRequest { lt_account_id : Z; lt_identity : string; lt_environment : string;
    lt_cursor : string; lt_page_size : Z }.
Record TransactionPage := mkTransactionPage { tg_transactions : list NormalizedPaymentEvent; tg_next_cursor : string; tg_has_more : bool }.

Record ReconciliationSummary := mkReconciliationSummary { su_accounts : Z; su_pages : Z; su_fetched : Z; su_ingested : Z;
    su_duplicates : Z; su_skipped : Z }.
#[export] Instance Eta_Summary : Eta ReconciliationSummary := fun r =>
  mkReconciliationSummary (su_accounts r) (su_pages r) (su_fetched r) (su_ingested r) (su_duplicates r) (su_skipped r).
Definition no_summary : ReconciliationSummary := mkReconciliationSummary 0 0 0 0 0 0.

Record ReconciliationJob := mkReconciliationJob { rj_registry : Registry; rj_owner : string; rj_max_pages : Z;
    rj_page_size : Z; rj_request_timeout : Duration; rj_lease_duration : Duration }.

Definition NewReconciliationJob (registry : Registry) (owner : string) (maxPages pageSize : Z)
    (requestTimeout leaseDuration : Duration) : option ReconciliationJob :=
  let owner := TrimSpace owner in
  if str_eqb owner "" || (128 <? str_len owner) || (maxPages <=? 0) || (100 <? maxPages) || (pageSize <=? 0)
     || (1000 <? pageSize) || (requestTimeout <=? 0) || (leaseDuration <=? requestTimeout)
  then None
  else Some (mkReconciliationJob registry owner maxPages pageSize requestTimeout leaseDuration).

Definition safe_char (a : ascii) : bool :=
  let n := ascii_Z a in ((97 <=? n) && (n <=? 122)) || ((48 <=? n) && (n <=? 57)) || (n =? 95).
Definition safeErrorCode (value : string) : string :=
  let value := TrimSpace (ToLower value) in
  if str_eqb value "" || (64 <? str_len value) || negb (forallb safe_char (String.list_ascii_of_string value))
  then "provider_api_error" else value.

Definition reconciliationErrorCode (err : ReconcileError) : string :=
  match err with
  | ErrApi e => if ae_auth_failed e then "provider_api_auth_failed" else safeErrorCode (ae_code e)
  | ErrDeadlineExceeded => "provider_api_timeout"
  | ErrCanceled => "provider_api_cancelled"
  | ErrMalformedTransactionPage => "provider_malformed_page"
  | _ => "provider_reconciliation_failed"
  end.

(** The calls of the job and their answers *)
Inductive reconcile_call :=
  | CallAccounts
  | CallEnsure (account_id : Z)
  | CallClaimCheckpoint (id : Z) (owner : string) (attempted_at expires_at : Time)
  | CallFetch (provider : string) (request : ListTransactionsRequest)
  | CallIngest (event : NormalizedPaymentEvent)
  | CallAdvance (checkpoint : ProviderCheckpoint) (cursor last_transaction : string) (last_occurred_at : Time)
  | CallComplete (checkpoint : ProviderCheckpoint) (completed_at : Time)
  | CallFail (checkpoint : ProviderCheckpoint) (code : string)
  | CallNow.

Definition reconcile_answer (c : reconcile_call) : Type :=
  match c with
  | CallAccounts => Error + list ProviderAccount
  | CallEnsure _ => Error + ProviderCheckpoint
  | CallClaimCheckpoint _ _ _ _ | CallAdvance _ _ _ _ => Error + option ProviderCheckpoint
  | CallFetch _ _ => ReconcileError + TransactionPage
  | CallIngest _ => Error + PaymentEventIngestionResult
  | CallComplete _ _ | CallFail _ _ => Error + option unit
  | CallNow => Time
  end.

Abbreviation Job := (Prog reconcile_answer).

Section Account.
Context (j : ReconciliationJob) (account : ProviderAccount).

(** The transaction as it is ingested *)
Definition stamp (event : NormalizedPaymentEvent) : NormalizedPaymentEvent :=
  let event := event <| ne_provider := pc_provider account |> <| ne_environment := pc_environment account |>
                     <| ne_source := "reconciliation"%string |> in
  if str_eqb (ne_destination event) "" then event <| ne_destination := pc_identity account |> else event.

(** The transactions of a page, in order; the last of them and the latest time so far *)
Fixpoint ingest_all (summary : ReconciliationSummary) (lastTransactionID : string) (lastOccurredAt : Time)
    (events : list NormalizedPaymentEvent)
    : Job (ReconciliationSummary * (Error + (string * Time))) :=
  match events with
  | [] => mret (summary, inr (lastTransactionID, lastOccurredAt))
  | event :: events =>
      let event := stamp event in
      result ← ask (CallIngest event);
      match result with
      | inl e => mret (summary, inl e)
      | inr result =>
          let summary := if in_duplicate result then summary <| su_duplicates := su_duplicates summary + 1 |>
                         else summary <| su_ingested := su_ingested summary + 1 |> in
          ingest_all summary (ne_transaction_id event)
            (if time_after (ne_occurred_at event) lastOccurredAt then ne_occurred_at event else lastOccurredAt) events
      end
  end.

(** [None]: the account is done. *)
Definition outcome : Type := ReconciliationSummary * option ReconcileError.

(** The deferred call: a failure is recorded and the lease given back. *)
Definition failing (summary : ReconciliationSummary) (checkpoint : ProviderCheckpoint) (e : ReconcileError) : Job outcome :=
  ask (CallFail checkpoint (reconciliationErrorCode e)) ≫= fun _ => mret (summary, Some e).

Definition completing (summary : ReconciliationSummary) (checkpoint : ProviderCheckpoint) : Job outcome :=
  now ← ask CallNow;
  result ← ask (CallComplete checkpoint now);
  match result with
  | inl e => failing summary checkpoint (ErrOther e)
  | inr None => failing summary checkpoint ErrCheckpointLeaseUnavailable
  | inr (Some _) => mret (summary, None)
  end.

Definition malformed (cursor : string) (page : TransactionPage) : bool :=
  tg_has_more page && (str_eqb (TrimSpace (tg_next_cursor page)) "" || str_eqb (tg_next_cursor page) cursor).
Definition next_cursor (cursor : string) (page : TransactionPage) : string :=
  if negb (tg_has_more page) && str_eqb (tg_next_cursor page) "" then cursor else tg_next_cursor page.

(** The page after page: [n] of them are left.  An error of the advance leaves the
    zero checkpoint behind for the deferred call. *)
Fixpoint pages (n : nat) (summary : ReconciliationSummary) (checkpoint : ProviderCheckpoint) (cursor : string) : Job outcome :=
  match n with
  | O => completing summary checkpoint
  | S n =>
      fetched ← ask (CallFetch (pc_provider account)
        (mkListTransactionsRequest (pc_id account) (pc_identity account) (pc_environment account) cursor (rj_page_size j)));
      match fetched with
      | inl e => failing summary checkpoint e
      | inr page =>
          if malformed cursor page then failing summary checkpoint ErrMalformedTransactionPage
          else
            let summary := summary <| su_pages := su_pages summary + 1 |>
                             <| su_fetched := su_fetched summary + Z.of_nat (length (tg_transactions page)) |> in
            ingested ← ingest_all summary (ck_last_transaction checkpoint) (ck_last_occurred_at checkpoint) (tg_transactions page);
            let '(summary, read) := ingested in
            match read with
            | inl e => failing summary checkpoint (ErrOther e)
            | inr (lastTransactionID, lastOccurredAt) =>
                let nextCursor := next_cursor cursor page in
                advanced ← ask (CallAdvance checkpoint nextCursor lastTransactionID lastOccurredAt);
                match advanced with
                | inl e => failing summary no_checkpoint (ErrOther e)
                | inr None => failing summary no_checkpoint ErrCheckpointLeaseUnavailable
                | inr (Some checkpoint) =>
                    if negb (tg_has_more page) then completing summary checkpoint
                    else pages n summary checkpoint nextCursor
                end
            end
      end
  end.

Definition reconcileAccount : Job outcome :=
  ensured ← ask (CallEnsure (pc_id account));
  match ensured with
  | inl e => mret (no_summary, Some (ErrOther e))
  | inr checkpoint =>
      now ← ask CallNow;
      claimed ← ask (CallClaimCheckpoint (ck_id checkpoint) (rj_owner j) now (now + rj_lease_duration j));
      match claimed with
      | inl e => mret (no_summary, Some (ErrOther e))
      | inr None => mret (no_summary, Some ErrCheckpointLeaseUnavailable)
      | inr (Some checkpoint) => pages (Z.to_nat (rj_max_pages j)) no_summary checkpoint (ck_cursor checkpoint)
      end
  end.
End Account.

(** ** One pass over the accounts: the errors of the accounts, joined *)

Definition add_summary (summary account : ReconciliationSummary) : ReconciliationSummary :=
  summary <| su_pages := su_pages summary + su_pages account |> <| su_fetched := su_fetched summary + su_fetched account |>
          <| su_ingested := su_ingested summary + su_ingested account |>
          <| su_duplicates := su_duplicates summary + su_duplicates account |>.

Section Pass.
Context (j : ReconciliationJob).

(** A provider that is missing, disabled or of another environment is skipped. *)
Definition reconcilable (account : ProviderAccount) : bool :=
  match GetTransactionAPIProvider (rj_registry j) (pc_provider account) with
  | inl _ => false
  | inr provider => str_eqb (prov_environment provider) (pc_environment account)
  end.

Fixpoint reconcile_all (summary : ReconciliationSummary) (errors : list (ProviderAccount * ReconcileError))
    (accounts : list ProviderAccount) : Job (ReconciliationSummary * list (ProviderAccount * ReconcileError)) :=
  match accounts with
  | [] => mret (summary, errors)
  | account :: accounts =>
      if negb (reconcilable account) then reconcile_all (summary <| su_skipped := su_skipped summary + 1 |>) errors accounts
      else
        let summary := summary <| su_accounts := su_accounts summary + 1 |> in
        result ← reconcileAccount j account;
        let '(accountSummary, err) := result in
        let summary := add_summary summary accountSummary in
        match err with
        | None => reconcile_all summary errors accounts
        | Some ErrCheckpointLeaseUnavailable =>
            reconcile_all (summary <| su_skipped := su_skipped summary + 1 |>) errors accounts
        | Some e => reconcile_all summary (errors ++ [(account, e)])%list accounts
        end
  end.

Definition ReconciliationJob_RunOnce : Job (Error + (ReconciliationSummary * list (ProviderAccount * ReconcileError))) :=
  accounts ← ask CallAccounts;
  match accounts with
  | inl e => mret (inl e)
  | inr accounts => result ← reconcile_all no_summary [] accounts; mret (inr result)
  end.
End Pass.
