(* ===== verification/Steps.v ===== *)
(** * The steps of the shop

    [Preserved Rel] collects what a relation between database states has to
    tolerate: the writing statements of the stores, each with the side condition
    its callers guarantee.  Every handler then moves the database along [Rel]
    ([Section Handlers]), and so does every step of the system ([shop_step]),
    which is one committed, rejected or half-acknowledged run of any operation,
    by any caller, with any arguments, in any environment. *)

From S2P Require Import Prelude Domain Schema Tx Tables Models AdminModels QOrders QInventory QPayments QWallet.
From S2P Require Import QUsers.
From S2P Require Import QDelivery UpdateStore AdminStore InventoryStore DeliveryStore PaymentStore WalletStore.
From S2P Require Import OrderService OrderStore PaymentEvents QCatalog QBanks CatalogStore AdminService InventoryAdmin.
From S2P Require Import BankAccounts PaymentAdmin ProviderAdmin Reconciliation QReports DeliveryAdmin.

(** The statements a customer's request runs; the hand-off moves an order and inserts
    its job together, and a balance moves together with its ledger entry. *)
Class PreservedCustomer (Rel : Database -> Database -> Prop) : Prop := {
  pres_create_order u s t r k e b env : respects Rel (CreatePendingOrderWithBank u s t r k e b env);
  pres_cancel_order i u n v : respects Rel (CancelPendingOrderOwnedGuarded i u n v);
  pres_order_item o p n u q l : respects Rel (QOrders.InsertOrderItem o p n u q l);
  pres_order_status new i old v : order_edge old new -> respects Rel (UpdateOrderStatusGuarded new i old v);
  pres_order_paid t i v : respects Rel (MarkOrderPaidGuarded t i v);
  pres_order_history o f t r at_ ai q : respects Rel (InsertOrderStatusHistory o f t r at_ ai q);
  pres_handoff o t n at_ a q : respects Rel (createDeliveryHandoffWithinTransaction o t n at_ a q);
  pres_claim_exact o t p q : respects Rel (ClaimExactAvailableInventory o t p q);
  pres_mapping o oi i : respects Rel (InsertOrderInventoryMapping o oi i);
  pres_payment o u pu pr tx r a env st c t : respects Rel (InsertPayment o u pu pr tx r a env st c t);
  pres_allocation p tt ti a : respects Rel (InsertPaymentAllocation p tt ti a);
  pres_ensure_wallet u : respects Rel (EnsureWalletAccount u);
  pres_debit_order c w o : respects Rel (debit_order c w o);
  pres_create_topup u w a r k e bi b env : respects Rel (QWallet.CreateWalletTopup u w a r k e bi b env);
  pres_upsert_user t u d : respects Rel (QUsers.UpsertTelegramUser t u d);
  pres_insert_receipt u t : respects Rel (InsertTelegramUpdateReceipt u t);
  pres_start_receipt u t : respects Rel (StartTelegramUpdateProcessing u t);
  pres_complete_receipt u : respects Rel (CompleteTelegramUpdateReceipt u);
  pres_fail_receipt e u : respects Rel (FailTelegramUpdateReceipt e u) }.

(** ... those of administrators and jobs *)
Class PreservedShared (Rel : Database -> Database -> Prop) : Prop := {
  pres_customer :: PreservedCustomer Rel;
  pres_expire_orders n b : respects Rel (ClaimOverduePendingOrders n b);
  pres_delivered t i v : respects Rel (MarkOrderDeliveredGuarded t i v);
  pres_delivery_failed i : respects Rel (MarkOrderDeliveryFailedGuarded i);
  pres_claim_available o t p q : respects Rel (ClaimAvailableInventory o t p q);
  pres_release o : respects Rel (ReleaseReservedInventoryByOrder o);
  pres_mappings_released r o ids : respects Rel (MarkOrderInventoryMappingsReleased r o ids);
  pres_sold o n : respects Rel (MarkExactReservedInventorySold o n);
  pres_recovery_audit o s q : respects Rel (InsertInventoryRecoveryAuditOnce o s q);
  pres_insert_event p : respects Rel (QPayments.InsertPaymentEvent p);
  pres_claim_events n s b : respects Rel (QPayments.ClaimPaymentEvents n s b);
  pres_complete_event st o tp t e c i :
    st = EventCompleted \/ st = EventReview -> respects Rel (CompletePaymentEvent st o tp t e c i);
  pres_schedule_event n t e c i : respects Rel (QPayments.SchedulePaymentEventRetry n t e c i);
  pres_review_case p : respects Rel (InsertPaymentReviewCase p);
  pres_event_reviewed t e c i : respects Rel (MarkPaymentEventReviewedBeforeAcceptance t e c i);
  pres_event_ignored t e c i : respects Rel (QPayments.CompleteIgnoredPaymentEvent t e c i);
  pres_attach m i : respects Rel (AttachPaymentEventProviderAccount m i);
  pres_credit_topup c tp p : respects Rel (credit_topup c tp p);
  pres_adjust_balance c a w : respects Rel (adjust_balance c a w);
  pres_topup_credited t i v : respects Rel (MarkWalletTopupCredited t i v);
  pres_topup_review i : respects Rel (MarkWalletTopupReview i);
  pres_resolve_review st n a i : respects Rel (QPayments.ResolvePaymentReview st n a i);
  pres_create_account p env i f b : respects Rel (QBanks.CreatePaymentProviderAccount p env i f b);
  pres_account_status a i v : respects Rel (SetPaymentProviderAccountStatusGuarded a i v);
  pres_ensure_checkpoint i : respects Rel (EnsurePaymentProviderCheckpoint i);
  pres_claim_checkpoint o e t i : respects Rel (ClaimPaymentProviderCheckpoint o e t i);
  pres_advance_checkpoint c l t i v o : respects Rel (AdvancePaymentProviderCheckpoint c l t i v o);
  pres_complete_checkpoint t i v o : respects Rel (CompletePaymentProviderCheckpoint t i v o);
  pres_fail_checkpoint c i v o : respects Rel (RecordPaymentProviderCheckpointFailure c i v o);
  pres_create_category n s o : respects Rel (QCatalog.CreateCategory n s o);
  pres_update_category n o i v : respects Rel (UpdateCategoryDetailsGuarded n o i v);
  pres_category_active a i v : respects Rel (SetCategoryActiveGuarded a i v);
  pres_create_product c n s d p dt u : respects Rel (QCatalog.CreateProduct c n s d p dt u);
  pres_update_product c n d p i v : respects Rel (UpdateProductDetailsGuarded c n d p i v);
  pres_product_active a i v : respects Rel (SetProductActiveGuarded a i v);
  pres_import_item p pl k n kv f a : respects Rel (InsertEncryptedInventoryItem p pl k n kv f a);
  pres_disable_item r i v : respects Rel (DisableAvailableInventoryItem r i v);
  pres_enable_item i v : respects Rel (EnableDisabledInventoryItem i v);
  pres_create_bank p env : respects Rel (CreateEncryptedBankAccount p env);
  pres_update_bank p i v : respects Rel (UpdateEncryptedBankAccountGuarded p i v);
  pres_bank_active a i v : respects Rel (SetBankAccountActiveGuarded a i v);
  pres_claim_jobs t w b : respects Rel (QDelivery.ClaimDeliveryJobs t w b);
  pres_stale_claim t i : respects Rel (MarkStaleDeliveryClaimRetryable t i);
  pres_stale_send i : respects Rel (MarkStaleDeliverySendAmbiguous i);
  pres_attempt o j n s h te ra c m ec eco ed st fi :
    respects Rel (InsertDeliveryAttemptEvent o j n s h te ra c m ec eco ed st fi);
  pres_bootstrap_user t : respects Rel (EnsureBootstrapUser t);
  pres_bootstrap_admin u : respects Rel (EnsureBootstrapAdmin u);
  pres_start_session a s p e : respects Rel (StartAdminSession a s p e);
  pres_advance_session s p e i a v : respects Rel (AdvanceAdminSessionGuarded s p e i a v);
  pres_finish_session s i a v : respects Rel (FinishAdminSessionGuarded s i a v);
  pres_audit at_ ai ac rt ri b a q u : respects Rel (InsertAuditLog at_ ai ac rt ri b a q u) }.

(** ... those of the worker that holds a delivery job *)
Class PreservedAuto (Rel : Database -> Database -> Prop) : Prop := {
  pres_shared :: PreservedShared Rel;
  pres_begin_send t i w : respects Rel (BeginDeliverySend t i w);
  pres_retryable t c d i w : respects Rel (MarkDeliveryRetryable t c d i w);
  pres_claimed_failure s t c d ca i w : respects Rel (MarkClaimedDeliveryFailure s t c d ca i w);
  pres_permanent c d t i w : respects Rel (MarkDeliveryPermanentFailed c d t i w);
  pres_ambiguous m t c d i : respects Rel (MarkDeliveryAmbiguous m t c d i);
  pres_completed m s t i w : respects Rel (MarkDeliveryCompleted m s t i w) }.

(** ... and those of an administrator who resolves a delivery by hand *)
Class Preserved (Rel : Database -> Database -> Prop) : Prop := {
  pres_auto :: PreservedAuto Rel;
  pres_manual_retry n r a t i v : respects Rel (ManualRetryDeliveryJob n r a t i v);
  pres_manual_complete m t r a i v : respects Rel (ManualCompleteDeliveryJob m t r a i v) }.

(** Go through the statements of the classes. *)
Ltac shared_statements := split; [split | ..].
Ltac auto_statements := split; [shared_statements | ..]; intros.
Ltac preserved_statements := split; [split; [shared_statements | ..] | ..]; intros.

#[export] Hint Resolve pres_create_order pres_cancel_order pres_expire_orders pres_order_item
  pres_order_status pres_order_paid pres_order_history pres_handoff pres_delivered pres_delivery_failed
  pres_claim_available pres_claim_exact pres_mapping pres_release pres_mappings_released pres_sold
  pres_recovery_audit pres_insert_event pres_claim_events pres_complete_event pres_schedule_event
  pres_payment pres_allocation pres_review_case pres_event_reviewed pres_event_ignored pres_attach
  pres_ensure_wallet pres_credit_topup pres_debit_order pres_adjust_balance pres_create_topup
  pres_topup_credited pres_topup_review pres_claim_jobs pres_stale_claim pres_stale_send
  pres_begin_send pres_attempt pres_retryable pres_claimed_failure pres_permanent pres_ambiguous
  pres_resolve_review pres_create_account pres_account_status pres_ensure_checkpoint pres_claim_checkpoint
  pres_advance_checkpoint pres_complete_checkpoint pres_fail_checkpoint pres_create_category pres_update_category
  pres_category_active pres_create_product pres_update_product pres_product_active pres_import_item pres_disable_item
  pres_enable_item pres_create_bank pres_update_bank pres_bank_active pres_bootstrap_user pres_bootstrap_admin
  pres_completed pres_upsert_user pres_start_session pres_advance_session pres_finish_session pres_audit
  pres_insert_receipt pres_start_receipt pres_complete_receipt pres_fail_receipt pres_manual_retry
  pres_manual_complete : tx.
#[export] Hint Extern 0 (Preserved _) => (apply _) : tx.
#[export] Hint Extern 0 (PreservedAuto _) => (apply _) : tx.
#[export] Hint Extern 0 (PreservedShared _) => (apply _) : tx.
#[export] Hint Extern 0 (PreservedCustomer _) => (apply _) : tx.
#[export] Hint Extern 1 (order_edge _ _) => (vm_compute; reflexivity) : tx.
#[export] Hint Extern 1 (_ = EventCompleted \/ _ = EventReview) => (by left) : tx.
#[export] Hint Extern 2 (_ = EventCompleted \/ _ = EventReview) => (by right) : tx.

(** The handlers are built from these; [tx_auto] opens them where no lemma applies. *)
#[export] Hint Unfold completeReceipt authorizeAdmin requireCatalogAdmin lockAndVerifySession finishSession
  insertAudit begin_change end_change stocked_product import_item authorizePaymentAdmin insertSystemInventoryAudit map_items insertDeliveryAttempt insertDeliveryAudit
  markOrderDeliveryFailed insertPaymentOrderHistory insertPaymentAudit
  recordTopupReview insertOrderPayment existing_payment lock_active_user
  PgOrder.LockUserByTelegramID PgOrder.FindOrderByIdempotency PgOrder.GetProductForOrderCreation
  PgOrder.CountClaimableInventory PgOrder.GetActiveBankAccountForOrder PgOrder.InsertPendingOrder
  PgOrder.InsertOrderItem PgOrder.InsertOrderHistory PgOrder.LockOrderOwnedByTelegramUser
  PgOrder.CancelPendingOrder : tx_handlers.

Section CustomerHandlers.
Context (Rel : Database -> Database -> Prop) `{!PreOrder Rel} `{!PreservedCustomer Rel}.
Abbreviation ok m := (respects Rel m).

Lemma pay_order_ok c t ttl n : ok (pay_order_tx c t ttl n).
Proof. unfold pay_order_tx, settle_wallet_order. tx_auto. Qed.

Lemma create_topup_ok c e r t : ok (create_topup_tx c e r t).
Proof. unfold create_topup_tx. tx_auto. Qed.

(** The reference draws of an order creation *)
Lemma create_attempts_ok s n attempt command user product lineTotal bank expiresAt :
  ok (create_attempts s n attempt command user product lineTotal bank expiresAt).
Proof.
  revert attempt. induction n as [|n IH]; intros attempt; simpl; [by apply respects_throw|].
  tx_auto.
Qed.
#[local] Hint Resolve create_attempts_ok : tx.

Lemma create_order_ok s c : ok (create_order_tx s c).
Proof. unfold create_order_tx. simpl. tx_auto. Qed.

Lemma cancel_order_ok c : ok (cancel_order_tx c).
Proof. unfold cancel_order_tx. simpl. tx_auto. Qed.

Lemma claim_update_ok u t s : ok (claim_update_tx u t s).
Proof. unfold claim_update_tx. tx_auto. Qed.

End CustomerHandlers.

Section Handlers.
Context (Rel : Database -> Database -> Prop) `{!PreOrder Rel} `{!PreservedShared Rel}.
Abbreviation ok m := (respects Rel m).

Lemma completePaymentEvent_ok e st o tp t c d :
  st = EventCompleted \/ st = EventReview -> ok (completePaymentEvent e st o tp t c d).
Proof. intros. unfold completePaymentEvent. tx_auto. Qed.
#[local] Hint Resolve completePaymentEvent_ok : tx.

Lemma releaseInventoryForOrder_ok o r q : ok (releaseInventoryForOrder o r q).
Proof. unfold releaseInventoryForOrder. tx_auto. Qed.
#[local] Hint Resolve releaseInventoryForOrder_ok : tx.

Lemma claim_inventory_ok r : ok (claim_inventory_tx r).
Proof. unfold claim_inventory_tx. tx_auto. Qed.

Lemma release_inventory_ok r : ok (release_inventory_tx r).
Proof. unfold release_inventory_tx. tx_auto. Qed.

Lemma recover_expired_ok o t q : ok (recover_expired_tx o t q).
Proof. unfold recover_expired_tx. tx_auto. Qed.

Lemma backfill_ok t b m : ok (backfill_tx t b m).
Proof. unfold backfill_tx. tx_auto. Qed.

Lemma recover_stale_ok t s b : ok (recover_stale_tx t s b).
Proof. unfold recover_stale_tx, recover_stale_job. tx_auto. Qed.

Lemma claim_delivery_ok t w b : ok (claim_delivery_tx t w b).
Proof. unfold claim_delivery_tx. tx_auto. Qed.

Lemma recordPaymentReview_ok c p o r t res : ok (recordPaymentReview c p o r t res).
Proof. unfold recordPaymentReview. tx_auto. Qed.
#[local] Hint Resolve recordPaymentReview_ok : tx.

Lemma handleExistingPayment_ok c e t res : ok (handleExistingPayment c e t res).
Proof. unfold handleExistingPayment. tx_auto. Qed.
#[local] Hint Resolve handleExistingPayment_ok : tx.

Lemma acceptWalletTopupPayment_ok c tp t res : ok (acceptWalletTopupPayment c tp t res).
Proof. unfold acceptWalletTopupPayment. tx_auto. Qed.
#[local] Hint Resolve acceptWalletTopupPayment_ok : tx.

Lemma settle_order_ok c o i p t ttl n res : ok (settle_order c o i p t ttl n res).
Proof. unfold settle_order. tx_auto. Qed.
#[local] Hint Resolve settle_order_ok : tx.

Lemma acceptPayment_ok c t ttl n : ok (acceptPaymentWithinTransaction c t ttl n).
Proof. unfold acceptPaymentWithinTransaction, route_payment, accept_order_payment. tx_auto. Qed.

Lemma adjust_wallet_ok c t : ok (adjust_wallet_tx c t).
Proof. unfold adjust_wallet_tx. tx_auto. Qed.

Lemma manual_accept_ok c t ttl n : ok (manual_accept_tx c t ttl n).
Proof. pose proof acceptPayment_ok. unfold manual_accept_tx. tx_auto. Qed.

Lemma resolve_review_ok c : ok (resolve_review_tx c).
Proof. unfold resolve_review_tx. tx_auto. Qed.

Lemma create_provider_account_ok a s c f : ok (create_provider_account_tx a s c f).
Proof. unfold create_provider_account_tx. tx_auto. Qed.

Lemma set_provider_account_ok a s c : ok (set_provider_account_tx a s c).
Proof. unfold set_provider_account_tx. tx_auto. Qed.

Lemma create_category_ok a s i : ok (create_category_tx a s i).
Proof. unfold create_category_tx. tx_auto. Qed.

Lemma update_category_ok a s i : ok (update_category_tx a s i).
Proof. unfold update_category_tx. tx_auto. Qed.

Lemma set_category_active_ok a s i : ok (set_category_active_tx a s i).
Proof. unfold set_category_active_tx. tx_auto. Qed.

Lemma create_product_ok a s i : ok (create_product_tx a s i).
Proof. unfold create_product_tx. tx_auto. Qed.

Lemma update_product_ok a s i : ok (update_product_tx a s i).
Proof. unfold update_product_tx. tx_auto. Qed.

Lemma set_product_active_ok a s i : ok (set_product_active_tx a s i).
Proof. unfold set_product_active_tx. tx_auto. Qed.

Lemma import_inventory_ok a s p l n r m : ok (import_inventory_tx a s p l n r m).
Proof. unfold import_inventory_tx. tx_auto. Qed.

Lemma set_item_enabled_ok a s i v e m : ok (set_item_enabled_tx a s i v e m).
Proof. unfold set_item_enabled_tx. tx_auto. Qed.

Lemma create_bank_ok a s i p : ok (create_bank_tx a s i p).
Proof. unfold create_bank_tx. tx_auto. Qed.

Lemma update_bank_ok a s i p : ok (update_bank_tx a s i p).
Proof. unfold update_bank_tx. tx_auto. Qed.

Lemma set_bank_active_ok a s i : ok (set_bank_active_tx a s i).
Proof. unfold set_bank_active_tx. tx_auto. Qed.

Lemma bootstrap_ok t : ok (bootstrap_tx t).
Proof. unfold bootstrap_tx. tx_auto. Qed.

Lemma expire_overdue_ok t b : ok (expire_overdue_tx t b).
Proof. unfold expire_overdue_tx. tx_auto. Qed.

Lemma insert_event_ok e n : ok (insert_event_tx e n).
Proof. unfold insert_event_tx. tx_auto. Qed.

Lemma record_conflict_ok i e r : ok (record_conflict_tx i e r).
Proof. unfold record_conflict_tx. tx_auto. Qed.

Lemma review_event_ok i r re t : ok (review_event_tx i r re t).
Proof. unfold review_event_tx. tx_auto. Qed.
End Handlers.

Section WorkerHandlers.
Context (Rel : Database -> Database -> Prop) `{!PreOrder Rel} `{!PreservedAuto Rel}.
Abbreviation ok m := (respects Rel m).

Lemma begin_attempt_ok j w t : ok (begin_attempt_tx j w t).
Proof. unfold begin_attempt_tx. tx_auto. Qed.

Lemma finalize_success_ok j w s : ok (finalize_success_tx j w s).
Proof. unfold finalize_success_tx. tx_auto. Qed.

Lemma finalize_failure_ok j w f : ok (finalize_failure_tx j w f).
Proof. unfold finalize_failure_tx. tx_auto. Qed.

Lemma finalize_claimed_failure_ok j w f : ok (finalize_claimed_failure_tx j w f).
Proof. unfold finalize_claimed_failure_tx. tx_auto. Qed.

Lemma preserve_ambiguous_ok j s r : ok (preserve_ambiguous_tx j s r).
Proof. unfold preserve_ambiguous_tx. tx_auto. Qed.
End WorkerHandlers.

Section ManualHandlers.
Context (Rel : Database -> Database -> Prop) `{!PreOrder Rel} `{!Preserved Rel}.
Abbreviation ok m := (respects Rel m).

Lemma retry_delivery_ok u c t : ok (retry_delivery_tx u c t).
Proof. unfold retry_delivery_tx. tx_auto. Qed.

Lemma complete_delivery_ok u c t : ok (complete_delivery_tx u c t).
Proof. unfold complete_delivery_tx. tx_auto. Qed.
End ManualHandlers.

(** ** The operations of the system *)

Inductive operation :=
  | OpClaimUpdate (update_id : Z) (update_type : string) (stale_before : Time)
  | OpCompleteUpdate (update_id : Z)
  | OpFailUpdate (update_id : Z) (code : string)
  | OpUpsertUser (telegram_user_id : Z) (username display_name : option string)
  | OpStartSession (admin : Admin) (state payload : string) (expires_at : Time) (meta : RequestMeta)
  | OpAdvanceSession (admin : Admin) (session : AdminSession) (state payload : string) (expires_at : Time) (meta : RequestMeta)
  | OpCancelSession (admin : Admin) (session : AdminSession) (meta : RequestMeta)
  | OpCreateOrder (s : OrderConfig) (command : CreateOrderCommand)
  | OpCancelOrder (command : CancelOrderCommand)
  | OpExpireOrders (now : Time) (batch_size : Z)
  | OpClaimInventory (request : InventoryClaimRequest)
  | OpReleaseInventory (request : InventoryReleaseRequest)
  | OpRecoverReservation (order_id : Z) (expired_at : Time) (request_id : string)
  | OpIngestEvent (event : NormalizedPaymentEvent) (max_attempts : Z)
  | OpRecordConflict (event_id : Z) (event : NormalizedPaymentEvent) (reason : string)
  | OpClaimEvents (now stale_before : Time) (batch_size : Z)
  | OpAttachAccount (mapping_id event_id : Z)
  | OpReviewEvent (item : PaymentEventWorkItem) (reference reason : string) (reviewed_at : Time)
  | OpIgnoreEvent (event_id : Z) (reason : string) (completed_at : Time)
  | OpScheduleEvent (event_id : Z) (next_attempt_at processed_at : Time) (code detail : string)
  | OpAcceptPayment (command : AcceptPaymentCommand) (accepted_at : Time) (ttl : Duration) (max_attempts : list Z)
  | OpEnsureWallet (telegram_user_id : Z)
  | OpCreateTopup (command : CreateWalletTopupCommand) (reference : string) (expires_at : Time)
  | OpPayOrder (command : WalletOrderPaymentCommand) (paid_at : Time) (ttl : Duration) (max_attempts : list Z)
  | OpAdjustWallet (command : WalletAdjustmentCommand) (adjusted_at : Time)
  | OpManualAccept (command : ManualPaymentCommand) (accepted_at : Time) (ttl : Duration) (max_attempts : list Z)
  | OpResolveReview (command : ResolvePaymentReviewCommand)
  | OpCreateProviderAccount (admin : Admin) (session : AdminSession) (command : CreatePaymentProviderAccountCommand) (fingerprint : Bytes)
  | OpSetProviderAccount (admin : Admin) (session : AdminSession) (command : SetPaymentProviderAccountStatusCommand)
  | OpEnsureCheckpoint (account_id : Z)
  | OpClaimCheckpoint (checkpoint_id : Z) (owner : string) (attempted_at expires_at : Time)
  | OpAdvanceCheckpoint (checkpoint : ProviderCheckpoint) (cursor last_transaction : string) (last_occurred_at : Time)
  | OpCompleteCheckpoint (checkpoint : ProviderCheckpoint) (completed_at : Time)
  | OpFailCheckpoint (checkpoint : ProviderCheckpoint) (code : string)
  | OpBootstrap (telegram_id : Z)
  | OpCreateCategory (admin : Admin) (session : AdminSession) (input : CreateCategoryInput)
  | OpUpdateCategory (admin : Admin) (session : AdminSession) (input : UpdateCategoryInput)
  | OpSetCategoryActive (admin : Admin) (session : AdminSession) (input : SetCategoryActiveInput)
  | OpCreateProduct (admin : Admin) (session : AdminSession) (input : CreateProductInput)
  | OpUpdateProduct (admin : Admin) (session : AdminSession) (input : UpdateProductInput)
  | OpSetProductActive (admin : Admin) (session : AdminSession) (input : SetProductActiveInput)
  | OpImportInventory (admin : Admin) (session : AdminSession) (product_id : Z) (items : list EncryptedInventoryPayload)
      (requested rejected : Z) (meta : RequestMeta)
  | OpSetItemEnabled (admin : Admin) (session : AdminSession) (item_id expected_version : Z) (enabled : bool) (meta : RequestMeta)
  | OpCreateBank (admin : Admin) (session : AdminSession) (input : CreateBankAccountInput) (protected : ProtectedBankAccountNumber)
  | OpUpdateBank (admin : Admin) (session : AdminSession) (input : UpdateBankAccountInput) (protected : ProtectedBankAccountNumber)
  | OpSetBankActive (admin : Admin) (session : AdminSession) (input : SetBankAccountActiveInput)
  | OpBackfillJobs (now : Time) (batch_size max_attempts : Z)
  | OpRecoverStale (now stale_before : Time) (batch_size : Z)
  | OpClaimJobs (now : Time) (worker_id : string) (batch_size : Z)
  | OpBeginAttempt (job_id : Z) (worker_id : string) (attempted_at : Time)
  | OpFinalizeSuccess (job_id : Z) (worker_id : string) (success : DeliverySuccess)
  | OpFinalizeFailure (job_id : Z) (worker_id : string) (failure : DeliveryFailure)
  | OpFinalizeClaimedFailure (job_id : Z) (worker_id : string) (failure : DeliveryFailure)
  | OpPreserveAmbiguous (job_id : Z) (success : DeliverySuccess) (reason : string)
  | OpRetryDelivery (updated_at : OutboxRow -> Time) (command : DeliveryResolutionCommand) (resolved_at : Time)
  | OpCompleteDelivery (updated_at : OutboxRow -> Time) (command : DeliveryResolutionCommand) (resolved_at : Time).

(** The state an action leaves, whatever it returns *)
Definition after {S A} (a : Action S A) (env : Env) (s : S) : S := (a env s).2.

Definition perform (op : operation) : Env -> Database -> Database :=
  match op with
  | OpClaimUpdate u t s => after (ClaimUpdate u t s)
  | OpCompleteUpdate u => after (UpdateStore.CompleteUpdate u)
  | OpFailUpdate u c => after (FailUpdate u c)
  | OpUpsertUser t u d => after (autocommit (QUsers.UpsertTelegramUser t u d))
  | OpStartSession a s p e m => after (AdminStore.StartSession a s p e m)
  | OpAdvanceSession a s st p e m => after (AdminStore.AdvanceSession a s st p e m)
  | OpCancelSession a s m => after (AdminStore.CancelSession a s m)
  | OpCreateOrder s c => after (Create s c)
  | OpCancelOrder c => after (Cancel c)
  | OpExpireOrders n b => after (ExpireOverdueOrders n b)
  | OpClaimInventory r => after (ClaimInventory r)
  | OpReleaseInventory r => after (ReleaseInventory r)
  | OpRecoverReservation o t q => after (RecoverExpiredReservation o t q)
  | OpIngestEvent e n => after (InsertPaymentEvent e n)
  | OpRecordConflict i e r => after (RecordPaymentEventConflict i e r)
  | OpClaimEvents n s b => after (autocommit (QPayments.ClaimPaymentEvents n s b))
  | OpAttachAccount m i => after (autocommit (AttachPaymentEventProviderAccount m i))
  | OpReviewEvent i r re t => after (ReviewPaymentEvent i r re t)
  | OpIgnoreEvent i r t => after (CompleteIgnoredPaymentEvent i r t)
  | OpScheduleEvent i n p c d => after (SchedulePaymentEventRetry i n p c d)
  | OpAcceptPayment c t ttl n => after (AcceptPayment c t ttl n)
  | OpEnsureWallet t => after (EnsureWallet t)
  | OpCreateTopup c r e => after (CreateWalletTopup c r e)
  | OpPayOrder c t ttl n => after (PayOrderWithWallet c t ttl n)
  | OpAdjustWallet c t => after (AdjustWallet c t)
  | OpManualAccept c t ttl n => after (ManualAcceptPayment c t ttl n)
  | OpResolveReview c => after (PaymentAdmin.ResolvePaymentReview c)
  | OpCreateProviderAccount a s c f => after (ProviderAdmin.CreatePaymentProviderAccount a s c f)
  | OpSetProviderAccount a s c => after (SetPaymentProviderAccountStatus a s c)
  | OpEnsureCheckpoint i => after (EnsureProviderCheckpoint i)
  | OpClaimCheckpoint i o t e => after (ClaimProviderCheckpoint i o t e)
  | OpAdvanceCheckpoint k c l t => after (AdvanceProviderCheckpoint k c l t)
  | OpCompleteCheckpoint k t => after (CompleteProviderCheckpoint k t)
  | OpFailCheckpoint k c => after (FailProviderCheckpoint k c)
  | OpBootstrap t => after (BootstrapAdmin t)
  | OpCreateCategory a s i => after (CatalogStore.CreateCategory a s i)
  | OpUpdateCategory a s i => after (CatalogStore.UpdateCategory a s i)
  | OpSetCategoryActive a s i => after (CatalogStore.SetCategoryActive a s i)
  | OpCreateProduct a s i => after (CatalogStore.CreateProduct a s i)
  | OpUpdateProduct a s i => after (CatalogStore.UpdateProduct a s i)
  | OpSetProductActive a s i => after (CatalogStore.SetProductActive a s i)
  | OpImportInventory a s p l n r m => after (ImportInventory a s p l n r m)
  | OpSetItemEnabled a s i v e m => after (SetInventoryItemEnabled a s i v e m)
  | OpCreateBank a s i p => after (CreateBankAccount a s i p)
  | OpUpdateBank a s i p => after (UpdateBankAccount a s i p)
  | OpSetBankActive a s i => after (SetBankAccountActive a s i)
  | OpBackfillJobs n b m => after (BackfillDeliveryJobs n b m)
  | OpRecoverStale n s b => after (RecoverStaleDeliveryJobs n s b)
  | OpClaimJobs n w b => after (ClaimDeliveryJobs n w b)
  | OpBeginAttempt j w t => after (BeginDeliveryAttempt j w t)
  | OpFinalizeSuccess j w s => after (FinalizeDeliverySuccess j w s)
  | OpFinalizeFailure j w f => after (FinalizeDeliveryFailure j w f)
  | OpFinalizeClaimedFailure j w f => after (FinalizeClaimedDeliveryFailure j w f)
  | OpPreserveAmbiguous j s r => after (PreserveAmbiguousSuccess j s r)
  | OpRetryDelivery u c t => after (RetryDelivery u c t)
  | OpCompleteDelivery u c t => after (CompleteDelivery u c t)
  end.

(** The operations of customers *)
Definition by_customer (op : operation) : bool :=
  match op with
  | OpClaimUpdate _ _ _ | OpCompleteUpdate _ | OpFailUpdate _ _ | OpUpsertUser _ _ _ | OpCreateOrder _ _
  | OpCancelOrder _ | OpPayOrder _ _ _ _ | OpCreateTopup _ _ _ | OpEnsureWallet _ => true
  | _ => false
  end.

(** The operations of the store that only the worker that holds the job calls *)
Definition of_the_holder (op : operation) : bool :=
  match op with
  | OpBeginAttempt _ _ _ | OpFinalizeSuccess _ _ _ | OpFinalizeFailure _ _ _
  | OpFinalizeClaimedFailure _ _ _ | OpPreserveAmbiguous _ _ _ => true
  | _ => false
  end.

(** Those by which an administrator resolves a delivery *)
Definition by_hand (op : operation) : bool :=
  match op with OpRetryDelivery _ _ _ | OpCompleteDelivery _ _ _ => true | _ => false end.

(** One step of the shop, and any number of them *)
Definition shop_step (d d' : Database) : Prop := exists op env, d' = perform op env d.
Abbreviation shop_steps := (rtc shop_step).
(** ... without an administrator resolving a delivery *)
Definition auto_step (d d' : Database) : Prop := exists op env, by_hand op = false /\ d' = perform op env d.
Abbreviation auto_steps := (rtc auto_step).

Section CustomerSteps.
Context (Rel : Database -> Database -> Prop) `{!PreOrder Rel} `{!PreservedCustomer Rel}.

Lemma after_transaction {A} (m : Tx Database A) env d :
  respects Rel m -> Rel d (after (WithinTransaction m) env d).
Proof.
  intros Hm. unfold after. destruct (WithinTransaction m env d) as [r d'] eqn:E.
  by eapply respects_transaction.
Qed.

Lemma after_mapped {A} f (a : Action Database A) env d :
  after (map_action_error f a) env d = after a env d.
Proof. unfold after, map_action_error. by destruct (a env d). Qed.

Lemma after_create s c env d : Rel d (after (Create s c) env d).
Proof.
  unfold after, Create. repeat (case_match; [reflexivity|]).
  destruct (WithinTransaction _ env d) as [r d'] eqn:E.
  apply (respects_transaction Rel) in E; [|apply create_order_ok; apply _].
  destruct r as [e|[o dup]]; [done|]. by destruct (instruction s o).
Qed.

Lemma after_cancel c env d : Rel d (after (Cancel c) env d).
Proof.
  unfold Cancel, after. case_match; [reflexivity|].
  apply after_transaction. apply cancel_order_ok; apply _.
Qed.

Lemma perform_customer_ok op env d : by_customer op = true -> Rel d (perform op env d).
Proof.
  destruct op; try discriminate; intros _; simpl; unfold ClaimUpdate, UpdateStore.CompleteUpdate, FailUpdate,
    EnsureWallet, CreateWalletTopup, PayOrderWithWallet, autocommit; rewrite ?after_mapped;
    first [apply after_create | apply after_cancel | apply after_transaction].
  all: first
    [ apply claim_update_ok; apply _ | apply create_topup_ok; apply _ | apply pay_order_ok; apply _ | tx_auto ].
Qed.
End CustomerSteps.

Section SharedSteps.
Context (Rel : Database -> Database -> Prop) `{!PreOrder Rel} `{!PreservedShared Rel}.

Lemma perform_shared_ok op env d : of_the_holder op = false -> by_hand op = false -> Rel d (perform op env d).
Proof.
  destruct (by_customer op) eqn:Hop; [by intros; apply perform_customer_ok; [apply _..|]|].
  destruct op; try discriminate; intros _ _; simpl; unfold AdminStore.StartSession,
    AdminStore.AdvanceSession, AdminStore.CancelSession, ExpireOverdueOrders, ClaimInventory, ReleaseInventory, RecoverExpiredReservation,
    InsertPaymentEvent, RecordPaymentEventConflict, ReviewPaymentEvent, CompleteIgnoredPaymentEvent,
    SchedulePaymentEventRetry, AcceptPayment, AdjustWallet,
    BackfillDeliveryJobs, RecoverStaleDeliveryJobs, ClaimDeliveryJobs, ManualAcceptPayment, PaymentAdmin.ResolvePaymentReview,
    ProviderAdmin.CreatePaymentProviderAccount, SetPaymentProviderAccountStatus, EnsureProviderCheckpoint,
    ClaimProviderCheckpoint, AdvanceProviderCheckpoint, CompleteProviderCheckpoint, FailProviderCheckpoint, BootstrapAdmin,
    CatalogStore.CreateCategory, CatalogStore.UpdateCategory, CatalogStore.SetCategoryActive, CatalogStore.CreateProduct,
    CatalogStore.UpdateProduct, CatalogStore.SetProductActive, ImportInventory, SetInventoryItemEnabled, CreateBankAccount,
    UpdateBankAccount, SetBankAccountActive, autocommit; rewrite ?after_mapped;
    (apply after_transaction; [apply _ |]).
  all: first
    [ apply expire_overdue_ok; apply _ | apply claim_inventory_ok; apply _
    | apply release_inventory_ok; apply _ | apply recover_expired_ok; apply _ | apply insert_event_ok; apply _
    | apply record_conflict_ok; apply _ | apply review_event_ok; apply _ | apply acceptPayment_ok; apply _
    | apply adjust_wallet_ok; apply _
    | apply manual_accept_ok; apply _ | apply resolve_review_ok; apply _ | apply create_provider_account_ok; apply _
    | apply set_provider_account_ok; apply _ | apply create_category_ok; apply _ | apply update_category_ok; apply _
    | apply set_category_active_ok; apply _ | apply create_product_ok; apply _ | apply update_product_ok; apply _
    | apply set_product_active_ok; apply _ | apply import_inventory_ok; apply _ | apply set_item_enabled_ok; apply _
    | apply create_bank_ok; apply _ | apply update_bank_ok; apply _ | apply set_bank_active_ok; apply _
    | apply bootstrap_ok; apply _ | apply backfill_ok; apply _ | apply recover_stale_ok; apply _ | apply claim_delivery_ok; apply _
    | tx_auto ].
Qed.
End SharedSteps.

(** A weaker relation tolerates as much. *)
Lemma preserved_auto_mono (Rel Rel' : Database -> Database -> Prop) :
  (forall d d', Rel d d' -> Rel' d d') -> PreservedAuto Rel -> PreservedAuto Rel'.
Proof.
  intros Hsub Hpres. auto_statements; lazymatch goal with |- respects _ ?m =>
    let H := fresh in assert (respects Rel m) as H by eauto with tx nocore;
    intros ? ? ? ? Hrun; apply Hsub; exact (H _ _ _ _ Hrun) end.
Qed.

Section AutoSteps.
Context (Rel : Database -> Database -> Prop) `{!PreOrder Rel} `{!PreservedAuto Rel}.

Lemma perform_auto_ok op env d : by_hand op = false -> Rel d (perform op env d).
Proof.
  intros Hhand. destruct (of_the_holder op) eqn:Hop; [|by apply perform_shared_ok; [apply _..| |]].
  destruct op; try discriminate; simpl;
    unfold BeginDeliveryAttempt, FinalizeDeliverySuccess, FinalizeDeliveryFailure, FinalizeClaimedDeliveryFailure,
      PreserveAmbiguousSuccess; (apply after_transaction; [apply _ |]).
  - apply begin_attempt_ok; apply _.
  - apply finalize_success_ok; apply _.
  - apply finalize_failure_ok; apply _.
  - apply finalize_claimed_failure_ok; apply _.
  - apply preserve_ambiguous_ok; apply _.
Qed.

Lemma auto_steps_ok d d' : auto_steps d d' -> Rel d d'.
Proof.
  induction 1 as [d | d d1 d' (op & env & Hop & ->) _ IH]; [reflexivity|].
  transitivity (perform op env d); [by apply perform_auto_ok | done].
Qed.
End AutoSteps.

Section Steps.
Context (Rel : Database -> Database -> Prop) `{!PreOrder Rel} `{!Preserved Rel}.

Lemma perform_ok op env d : Rel d (perform op env d).
Proof.
  destruct (by_hand op) eqn:Hop; [|by apply perform_auto_ok; [apply _..|]].
  destruct op; try discriminate; simpl; unfold RetryDelivery, CompleteDelivery; rewrite after_mapped;
    (apply after_transaction; [apply _ |]); [apply retry_delivery_ok | apply complete_delivery_ok]; apply _.
Qed.

(** The master lemma: a preserved preorder relates the ends of every history. *)
Lemma shop_steps_ok d d' : shop_steps d d' -> Rel d d'.
Proof.
  induction 1 as [d | d d1 d' (op & env & ->) _ IH]; [reflexivity|].
  transitivity (perform op env d); [apply perform_ok | done].
Qed.
End Steps.

Lemma auto_steps_shop d d' : auto_steps d d' -> shop_steps d d'.
Proof. apply rtc_subrel. intros x y (op & env & _ & ->). by exists op, env. Qed.
