(* ===== verification/Demo.v ===== *)
(** * A concrete shop

    One customer, one administrator, one product with three items in stock and one
    bank account, and the states a sale goes through.  The witnesses of the
    theorems evaluate on these. *)

From S2P Require Import Prelude Domain Schema Tx Tables Models QOrders QInventory QPayments QWallet QUsers.
From S2P Require Import QDelivery UpdateStore AdminStore InventoryStore DeliveryStore PaymentStore WalletStore.
From S2P Require Import OrderService OrderStore PaymentEvents Steps.

Definition calm (now : Time) : Env := mkEnv now now Connected CommitOk (fun _ _ => false).

Definition bytes (n : nat) (b : Z) : Bytes := repeat b n.
Definition table {R} `{Table R} (l : list R) : Tbl R :=
  mkTbl (list_to_map (map (fun r => (row_key r, r)) l)) (Z.of_nat (length l)).
Arguments table {R _} l.

Definition buyer : User := mkUser 1 7001 (Some "lan") (Some "Lan") UserStatusActive None.
Definition keeper : User := mkUser 2 9001 (Some "minh") (Some "Minh") UserStatusActive None.
Definition owner : AdminRow := mkAdminRow 1 2 "owner" true.
Definition shelf : CategoryRow := mkCategoryRow 1 "Games" "games" "G" 0 true 1.
Definition product : ProductRow := mkProductRow 1 1 "Gift card" "gift-card" None 50000 "inventory" None true 1 1.
Definition bank : BankAccountRow :=
  mkBankAccountRow 1 "970436" "Vietcombank" "VCB" "SHOP" (bytes 24 7) (bytes 32 9) "k1" (bytes 12 3)
    aes_format 1 "1234" 0 true 1 "production" 1.
Definition item (id : Z) : InventoryRow :=
  mkInventoryRow id 1 (bytes 20 id) "k1" (Some (bytes 12 id)) aes_format 1 (bytes 32 id) None
    InventoryStatusAvailable None None None None 1 (10 + id).
Definition receipt (id : Z) : ReceiptRow := mkReceiptRow id "message" ReceiptProcessing 1 (Some 1) None None.
Definition purse : WalletRow := mkWalletRow 1 1 WalletActive 0 1.

Definition shop : Database :=
  mkDatabase (table [buyer; keeper]) (table [owner]) (table []) (table [shelf]) (table [product]) (table [bank])
    (table []) (table []) (table []) (table [item 1; item 2; item 3]) (table []) (table []) (table []) (table [])
    (table []) (table []) (table []) (table []) (table []) (table []) (table []) (table [receipt 101; receipt 102])
    (table []) (table []).

Definition config : OrderConfig :=
  mkOrderConfig 900 5 8 "production" (fun n => inr (("DH" ++ Z_dec (Z.of_nat n))%string))
    (fun _ _ => inr "0123456789"%string)
    (fun r => inr (mkPaymentInstruction "https://img" (pir_bank_display_name r) (pir_bank_name r)
                     (pir_account_number r) (pir_account_name r) (pir_amount r) (pir_payment_reference r)
                     (pir_expires_at r))).

Definition order_two : CreateOrderCommand := mkCreateOrderCommand 7001 1 1 2 "key-1" (mkRequestMeta "req-1" 101).

(** The order is placed, *)
Definition ordered : Database := perform (OpCreateOrder config order_two) (calm 1000) shop.

Definition transfer : AcceptPaymentCommand :=
  mkAcceptPaymentCommand 0 "acb" "ext-1" "txn-1" "DH0" 100000 "VND" 1100 (mkPaymentActor "provider" 0) "req-2"
    "production" "webhook" 0 0 "".

(** paid by bank transfer, *)
Definition paid : Database := perform (OpAcceptPayment transfer 1200 600 [5]) (calm 1200) ordered.
(** and delivered. *)
Definition claimed_job : Database := perform (OpClaimJobs 1300 "w1" 10) (calm 1300) paid.
Definition sending : Database := perform (OpBeginAttempt 1 "w1" 1310) (calm 1310) claimed_job.
Definition sent : DeliverySuccess := mkDeliverySuccess (mkDeliverySendResult 7001 55 1320 "sendMessage") 1330.
Definition delivered : Database := perform (OpFinalizeSuccess 1 "w1" sent) (calm 1330) sending.

Example shop_sells :
  (o_status <$> rows OrderRow ordered !! 1, o_total_vnd <$> rows OrderRow ordered !! 1,
   o_status <$> rows OrderRow paid !! 1, o_status <$> rows OrderRow delivered !! 1,
   i_status <$> rows InventoryRow delivered !! 2, i_sold_order_id <$> rows InventoryRow delivered !! 2,
   i_status <$> rows InventoryRow delivered !! 3, j_status <$> rows OutboxRow delivered !! 1)
  = (Some OrderStatusPendingPayment, Some 100000, Some OrderStatusDelivering, Some OrderStatusDelivered,
     Some InventoryStatusSold, Some (Some 1), Some InventoryStatusAvailable, Some DeliveryJobCompleted).
Proof. vm_compute. reflexivity. Qed.

(** The customer tops the wallet up *)
Definition topup_requested : Database :=
  perform (OpCreateTopup (mkCreateWalletTopupCommand 7001 150000 1 "top-1" (mkRequestMeta "req-3" 102) "production")
             "TP1" 5000) (calm 1000) shop.
Definition topup_transfer : AcceptPaymentCommand :=
  mkAcceptPaymentCommand 0 "acb" "ext-2" "txn-2" "TP1" 150000 "VND" 1100 (mkPaymentActor "provider" 0) "req-4"
    "production" "webhook" 0 0 "".
Definition funded : Database := perform (OpAcceptPayment topup_transfer 1200 600 [5]) (calm 1200) topup_requested.
(** and pays an order with it. *)
Definition funded_order : Database := perform (OpCreateOrder config order_two) (calm 1300) funded.
Definition wallet_payment : WalletOrderPaymentCommand :=
  mkWalletOrderPaymentCommand 7001 1 "pay-1" (mkRequestMeta "req-5" 103).
Definition wallet_paid : Database :=
  perform (OpPayOrder wallet_payment 1400 600 [5]) (calm 1400)
    (perform (OpClaimUpdate 103 "callback" 0) (calm 1390) funded_order).

Example wallet_pays :
  (w_balance_vnd <$> rows WalletRow funded !! 1, w_balance_vnd <$> rows WalletRow wallet_paid !! 1,
   o_status <$> rows OrderRow wallet_paid !! 1, le_amount_vnd <$> rows LedgerRow wallet_paid !! 2)
  = (Some 150000, Some 50000, Some OrderStatusDelivering, Some (-100000)).
Proof. vm_compute. reflexivity. Qed.

(** The same transfer, arriving as a provider's notification *)
Definition notice : NormalizedPaymentEvent :=
  mkNormalizedPaymentEvent "acb" "production" "ext-1" "txn-1" "DH0" "inbound" "DH0 thanks" "" "" "webhook" 100000
    "VND" 1100 "" "payment" (bytes 32 1) (bytes 32 2)
    (mkSanitizedMetadata true (Some (mkStoredPaymentMetadata "DH0" 100000 "VND" 1100))).
Definition notified : Database := perform (OpIngestEvent notice 5) (calm 1110) ordered.
Definition claimed_notice : Database := perform (OpClaimEvents 1120 0 10) (calm 1120) notified.
Definition event_transfer : AcceptPaymentCommand := transfer <| ap_event_id := 1 |>.
Definition event_paid : Database := perform (OpAcceptPayment event_transfer 1200 600 [5]) (calm 1200) claimed_notice.

Definition delivered_notice : Database :=
  perform (OpFinalizeSuccess 1 "w1" sent) (calm 1330)
    (perform (OpBeginAttempt 1 "w1" 1310) (calm 1310) (perform (OpClaimJobs 1300 "w1" 10) (calm 1300) event_paid)).

Example notice_pays :
  (ev_status <$> rows PaymentEventRow claimed_notice !! 1, ev_status <$> rows PaymentEventRow event_paid !! 1,
   o_status <$> rows OrderRow event_paid !! 1)
  = (Some EventProcessing, Some EventCompleted, Some OrderStatusDelivering).
Proof. vm_compute. reflexivity. Qed.

(** Deciding the constraints of a concrete database *)
Definition tbl_wfb (R : Type) `{Table R} (d : Database) : bool :=
  let l := map_to_list (rows R d) in
  forallb (fun kr => (row_key kr.2 =? kr.1) && row_check kr.2
                     && forallb (fun kr' => (kr.1 =? kr'.1) || negb (row_clash kr.2 kr'.2)) l) l.

Lemma tbl_wfb_correct R `{Table R} d : tbl_wfb R d = true -> tbl_wf R d.
Proof.
  unfold tbl_wfb. rewrite forallb_forall. intros Hall.
  assert (Hrow : forall k r, rows R d !! k = Some r ->
    row_key r = k /\ row_check r = true /\
    forall k' r', rows R d !! k' = Some r' -> k <> k' -> row_clash r r' = false).
  { intros k r Hr. specialize (Hall (k, r)).
    rewrite <- list_elem_of_In, elem_of_map_to_list in Hall. specialize (Hall Hr).
    rewrite !andb_true_iff, forallb_forall in Hall. simpl in Hall. destruct Hall as [[Hk Hc] Hx].
    split_and!; [lia | done |]. intros k' r' Hr' Hne. specialize (Hx (k', r')).
    rewrite <- list_elem_of_In, elem_of_map_to_list in Hx. specialize (Hx Hr'). simpl in Hx.
    apply orb_true_iff in Hx as [?%Z.eqb_eq|?%negb_true_iff]; done. }
  split.
  - intros k r Hr. by apply (Hrow k r).
  - intros k r Hr. by apply (Hrow k r).
  - intros k k' r r' Hr Hr' Hne. destruct (Hrow k r Hr) as (_ & _ & Hx). by eapply Hx.
Qed.

(** Deciding a property of every row *)
Lemma rows_forall {R} `{Table R} (p : R -> bool) d :
  forallb (fun kr => p kr.2) (map_to_list (rows R d)) = true ->
  forall k r, rows R d !! k = Some r -> p r = true.
Proof.
  rewrite forallb_forall. intros Hall k r Hr.
  apply (Hall (k, r)). by rewrite <- list_elem_of_In, elem_of_map_to_list.
Qed.

Ltac decide_wf := split; apply tbl_wfb_correct; vm_compute; reflexivity.

Lemma shop_wf : db_wf shop.
Proof. decide_wf. Qed.

(** One operation, and the histories that lead from one concrete state to another *)
Lemma performs op env d : shop_steps d (perform op env d).
Proof. apply rtc_once. by exists op, env. Qed.

Lemma performs_auto op env d : by_hand op = false -> auto_steps d (perform op env d).
Proof. intros Hop. apply rtc_once. by exists op, env. Qed.

Ltac history :=
  repeat lazymatch goal with
  | |- rtc shop_step ?d ?d => apply rtc_refl
  | |- rtc shop_step _ (perform _ _ _) => etransitivity; [|apply performs]
  | |- rtc shop_step _ ?d => unfold d
  | |- rtc auto_step ?d ?d => apply rtc_refl
  | |- rtc auto_step _ (perform _ _ _) => etransitivity; [|apply performs_auto; reflexivity]
  | |- rtc auto_step _ ?d => unfold d
  end.
