(* ===== verification/Lifecycle.v ===== *)
(** * What every history preserves

    Instances of [Preserved] and what they say about any sequence of operations:
    the constraints of the schema hold in every reachable state; an order only
    moves along [CanTransitionOrder]; a delivery job only moves along its state
    machine, along the manual transitions only when an administrator resolves it. *)

From S2P Require Import Prelude Domain Schema Tx Tables Models QOrders QInventory QPayments QWallet QUsers.
From S2P Require Import QCatalog QBanks QDelivery UpdateStore AdminStore InventoryStore DeliveryStore PaymentStore.
From S2P Require Import WalletStore.
From S2P Require Import OrderService OrderStore PaymentEvents AdminModels DeliveryAdmin Steps Demo.

(** Opens a statement and follows its structure. *)
Ltac preserve :=
  intros; unfold credit_topup, debit_order, adjust_balance, createDeliveryHandoffWithinTransaction, audit_actor;
  tx_auto.

(** ** Constraints *)

Lemma InsertTelegramUpdateReceipt_at (Rel : Database -> Database -> Prop) `{!PreOrder Rel} u t :
  respects Rel (insert_row_at u (mkReceiptRow u t ReceiptReceived 0 None None None)) ->
  respects Rel (InsertTelegramUpdateReceipt u t).
Proof.
  intros Hw env d n d'. unfold InsertTelegramUpdateReceipt.
  destruct (insert_row_at _ _ env d) as [r d1|e] eqn:E.
  - intros [= <- <-]. exact (Hw _ _ _ _ E).
  - destruct e; try done. destruct state; try done. intros [= <- <-]. reflexivity.
Qed.

#[export] Hint Extern 1 (respects _ (InsertTelegramUpdateReceipt _ _)) =>
  (apply InsertTelegramUpdateReceipt_at; [apply _ |]; tx_auto) : tx.

#[export] Instance preserved_wf : Preserved (keeps db_wf).
Proof. preserved_statements; preserve. Qed.

(** ** Sequences

    A generated key is always new. *)

Definition sequenced (d : Database) : Prop :=
  ahead OrderHistoryRow d /\ ahead MappingRow d /\ ahead PaymentRow d /\ ahead AllocationRow d /\
  ahead OutboxRow d /\ ahead AttemptRow d /\ ahead AuditRow d /\ 0 <= t_seq (tbl_get (R := OutboxRow) d).

(** One of those tables *)
Class Sequenced (R : Type) `{Table R} : Prop := {
  sequenced_ahead d : sequenced d -> ahead R d;
  sequenced_set (t : Tbl R) d : (forall k, t_seq t < k -> t_rows t !! k = None) -> t_seq (tbl_get d) <= t_seq t -> sequenced d ->
    sequenced (tbl_set t d) }.

Ltac sequenced_table :=
  let Ht := fresh in
  split; [unfold sequenced; tauto |
    intros ? ? Ht ?; unfold sequenced; intros; destruct_and?; split_and!;
    first [by apply ahead_other | exact Ht | simpl in *; lia]].
#[export] Hint Mode Sequenced + - : typeclass_instances.
#[export] Hint Extern 0 (Sequenced _) => sequenced_table : typeclass_instances.

#[export] Instance sequenced_independent W `{Table W} `{!Frame OrderHistoryRow W} `{!Frame MappingRow W} `{!Frame PaymentRow W}
  `{!Frame AllocationRow W} `{!Frame OutboxRow W} `{!Frame AttemptRow W} `{!Frame AuditRow W} : Independent sequenced W.
Proof. intros t d Hs. unfold sequenced in *. destruct_and! Hs. split_and!; first [by apply ahead_other | by rewrite frame]. Qed.

Section Sequences.
Context {R : Type} `{TableLaws R} `{!Sequenced R}.

Lemma update_row_sequenced k (guard : R -> bool) f : respects (keeps sequenced) (update_row k guard f).
Proof.
  intros env d r' d' (r & Hr & _ & _ & -> & _)%update_row_Ok Hs. apply sequenced_set; [|simpl; lia|done].
  intros k' Hk'. apply (sequenced_ahead _ Hs) in Hk'. simpl. rewrite lookup_insert_ne; [done | congruence].
Qed.

Lemma insert_row_sequenced (mk : Z -> R) : respects (keeps sequenced) (insert_row mk).
Proof.
  intros env d r d' Hrun Hs. unfold insert_row in Hrun. apply insert_row_at_Ok in Hrun as (_ & -> & _).
  apply sequenced_set; [|simpl; unfold next_key; lia|done]. simpl. unfold next_key. intros k' Hk'. rewrite lookup_insert_ne by lia.
  apply (sequenced_ahead _ Hs). lia.
Qed.

Lemma insert_row_or_nothing_sequenced (mk : Z -> R) : respects (keeps sequenced) (insert_row_or_nothing mk).
Proof. intros env d r d' ?%insert_row_or_nothing_Ok. by eapply insert_row_sequenced. Qed.

Lemma insert_row_unless_sequenced conflict (mk : Z -> R) : respects (keeps sequenced) (insert_row_unless conflict mk).
Proof. intros env d r d' [_ ?]%insert_row_unless_Ok. by eapply insert_row_sequenced. Qed.

Lemma update_rows_sequenced ks (guard : R -> bool) f : respects (keeps sequenced) (update_rows ks guard f).
Proof.
  induction ks as [|k ks IH]; simpl; [apply respects_ret, _|].
  apply respects_bind; [apply _ | apply respects_try_row; [apply _ | apply update_row_sequenced] | intros o].
  apply respects_bind; [apply _ | done | intros rs; apply respects_ret, _].
Qed.
End Sequences.

#[export] Hint Extern 2 (respects (keeps sequenced) _) =>
  (first [ apply update_row_sequenced | apply update_rows_sequenced | apply insert_row_sequenced
         | apply insert_row_or_nothing_sequenced | apply insert_row_unless_sequenced ]; apply _) : tx.

#[export] Instance preserved_sequenced : Preserved (keeps sequenced).
Proof. preserved_statements; preserve. Qed.

(** Deciding it on a concrete database *)
Definition aheadb (R : Type) `{Table R} (d : Database) : bool :=
  forallb (fun kr => kr.1 <=? t_seq (tbl_get (R := R) d)) (map_to_list (rows R d)).

Lemma aheadb_correct R `{Table R} d : aheadb R d = true -> ahead R d.
Proof.
  unfold aheadb. rewrite forallb_forall. intros Hall k Hk. destruct (rows R d !! k) as [r|] eqn:Hr; [|done].
  specialize (Hall (k, r)). rewrite <- list_elem_of_In, elem_of_map_to_list in Hall. apply Hall in Hr. simpl in Hr. lia.
Qed.

Lemma sequenced_decide d :
  aheadb OrderHistoryRow d && aheadb MappingRow d && aheadb PaymentRow d && aheadb AllocationRow d && aheadb OutboxRow d
  && aheadb AttemptRow d && aheadb AuditRow d && (0 <=? t_seq (tbl_get (R := OutboxRow) d)) = true -> sequenced d.
Proof. rewrite !andb_true_iff. intros. destruct_and!. split_and!; first [by apply aheadb_correct | lia]. Qed.

(** ** Orders *)

(** What never changes in an order *)
Definition order_identity (o : OrderRow) :=
  (o_id o, o_user_id o, o_currency o, o_subtotal_vnd o, o_total_vnd o, o_payment_reference o,
   o_idempotency_key o, o_expires_at o, o_created_at o, o_bank o, o_environment o).

(** An order is untouched, or its version has grown and its status has followed
    permitted transitions. *)
Definition order_step (o o' : OrderRow) : Prop :=
  o' = o \/
  (o_version o < o_version o' /\ tc order_edge (o_status o) (o_status o') /\ order_identity o' = order_identity o).

#[export] Instance order_step_preorder : PreOrder order_step.
Proof.
  split; [by left|].
  intros a b c [->|(Hv & Hp & Hi)] [->|(Hv' & Hp' & Hi')]; [by left| by right | by right |].
  right. split_and!; [lia | by transitivity (o_status b) | congruence].
Qed.

(** One guarded update: the guard fixes the old status and the edge is permitted. *)
Lemma order_update_step (guard : OrderRow -> bool) f old new k :
  order_edge old new ->
  (forall o, guard o = true -> o_status o = old) ->
  (forall o, o_status (f o) = new /\ o_version (f o) = o_version o + 1 /\ order_identity (f o) = order_identity o) ->
  respects (evolves OrderRow order_step) (update_row k guard f).
Proof.
  intros He Hg Hf. apply respects_update_own; [apply _|]. intros o Ho _.
  destruct (Hf o) as (Hs & Hv & Hi). right. split_and!; [lia | | done].
  rewrite Hs, (Hg o Ho). by apply tc_once.
Qed.

Ltac guard_status := intros ?; rewrite ?andb_true_iff, ?bool_decide_eq_true; tauto.
Ltac order_update old new :=
  intros; autounfold with tx_queries;
  repeat (apply respects_bind; [apply _ | apply respects_clock; apply _ | intros ?]);
  apply (order_update_step _ _ old new); [vm_compute; reflexivity | guard_status | done].

Lemma ClaimOverduePendingOrders_step n b :
  respects (evolves OrderRow order_step) (ClaimOverduePendingOrders n b).
Proof.
  unfold ClaimOverduePendingOrders. tx_auto. apply respects_update_rows_own; [apply _|].
  intros o [Hs _]%andb_true_iff _. apply bool_decide_eq_true in Hs. right. simpl.
  split_and!; [lia | | done]. rewrite Hs. apply tc_once. by vm_compute.
Qed.

Lemma MarkOrderDeliveringGuarded_step t i v :
  respects (evolves OrderRow order_step) (MarkOrderDeliveringGuarded t i v).
Proof. order_update OrderStatusReserving OrderStatusDelivering. Qed.
#[export] Hint Resolve MarkOrderDeliveringGuarded_step : tx.

#[export] Instance preserved_orders : Preserved (evolves OrderRow order_step).
Proof.
  preserved_statements; lazymatch goal with
  | |- respects _ (CancelPendingOrderOwnedGuarded _ _ _ _) =>
      order_update OrderStatusPendingPayment OrderStatusCancelled
  | |- respects _ (ClaimOverduePendingOrders _ _) => apply ClaimOverduePendingOrders_step
  | |- respects _ (UpdateOrderStatusGuarded ?new _ ?old _) =>
      apply (order_update_step _ _ old new); [assumption | guard_status | done]
  | |- respects _ (MarkOrderPaidGuarded _ _ _) => order_update OrderStatusPendingPayment OrderStatusPaid
  | |- respects _ (MarkOrderDeliveredGuarded _ _ _) => order_update OrderStatusDelivering OrderStatusDelivered
  | |- respects _ (MarkOrderDeliveryFailedGuarded _) => order_update OrderStatusDelivering OrderStatusDeliveryFailed
  | |- _ => preserve
  end.
Qed.

(** ** Delivery jobs *)

Definition job_subject (j : OutboxRow) :=
  (j_id j, j_event_type j, j_aggregate_type j, j_aggregate_id j, j_dedup_key j, j_order_id j, j_chat_id j, j_created_at j).
Definition job_identity (j : OutboxRow) := (job_subject j, j_max_attempts j).

(** A worker may still act on the job. *)
Definition job_live (s : DeliveryJobStatus) : bool :=
  AutomaticallyClaimable s || bool_decide (s = DeliveryJobProcessing).

(** What a worker may do to a job: move it along the automatic transitions. *)
Definition job_step (j j' : OutboxRow) : Prop :=
  j' = j \/
  (job_live (j_status j) = true /\ j_version j < j_version j' /\ j_attempts j <= j_attempts j' /\
   rtc automatic_edge (j_status j) (j_status j') /\ job_identity j' = job_identity j).

#[export] Instance job_step_preorder : PreOrder job_step.
Proof.
  split; [by left|].
  intros a b c [->|(Hl & Hv & Ha & Hp & Hi)] [->|(Hl' & Hv' & Ha' & Hp' & Hi')];
    [by left| by right | by right |].
  right. split_and!; [done | lia | lia | by transitivity (j_status b) | congruence].
Qed.

(** A guarded update of one job: [old] and [new] are its statuses. *)
Lemma job_update_step (guard : OutboxRow -> bool) f old new k :
  job_live old = true -> rtc automatic_edge old new ->
  (forall j, guard j = true -> j_status j = old) ->
  (forall j, j_status (f j) = new \/ (old = new /\ j_status (f j) = j_status j)) ->
  (forall j, j_attempts (f j) = j_attempts j \/ j_attempts (f j) = j_attempts j + 1) ->
  (forall j, j_version (f j) = j_version j + 1 /\ job_identity (f j) = job_identity j) ->
  respects (evolves OutboxRow job_step) (update_row k guard f).
Proof.
  intros Hl He Hg Hs Ha Hf. apply respects_update_own; [apply _|]. intros j Hj _.
  destruct (Hf j) as (Hv & Hi). specialize (Ha j). right. specialize (Hg j Hj).
  rewrite Hg. split_and!; [done | lia | lia | | done].
  destruct (Hs j) as [->|[-> ->]]; [done|]. by rewrite Hg.
Qed.

Lemma in_stage_processing stage j : in_stage stage j = true -> j_status j = DeliveryJobProcessing.
Proof. unfold in_stage. by intros [?%bool_decide_eq_true _]%andb_true_iff. Qed.

Ltac job_guard :=
  intros ? Hguard; rewrite ?andb_true_iff in Hguard; destruct_and? Hguard; by eapply in_stage_processing.
Ltac job_update new :=
  intros; apply respects_under; [preserve|]; autounfold with tx_queries;
  apply (job_update_step _ _ DeliveryJobProcessing new);
  [ reflexivity | first [apply rtc_refl | apply rtc_once; vm_compute; reflexivity] | job_guard
  | intros ?; first [left; lazy; reflexivity | right; split; lazy; reflexivity]
  | intros ?; first [left; lazy; reflexivity | right; lazy; reflexivity]
  | intros ?; split; lazy; reflexivity ].

Lemma ClaimDeliveryJobs_step t w b :
  respects (under db_wf (evolves OutboxRow job_step)) (QDelivery.ClaimDeliveryJobs t w b).
Proof.
  intros env d us d' Hrun Hwf. split; [by eapply (pres_claim_jobs (Rel := keeps db_wf))|].
  unfold QDelivery.ClaimDeliveryJobs in Hrun.
  apply bind_Ok_inv in Hrun as (l & d1 & [-> Hsub]%select_unlocked_Ok & Hrun).
  apply bind_Ok_inv in Hrun as (rs & d2 & Hsel & Hrun).
  pose proof Hsel as (-> & _)%order_limit_Ok.
  destruct (selected_keys _ _ _ _ _ _ _ Hwf Hsub Hsel) as [Hnd Hin].
  eapply (update_rows_evolves _ _ _ _ _ _ _ _ Hnd); [|exact Hrun].
  intros k j Hk Hj _. destruct (Hin k j Hk Hj) as [Hp _]. unfold claimable_job in Hp.
  rewrite !andb_true_iff, orb_true_iff, !bool_decide_eq_true in Hp.
  right. simpl. destruct Hp as [[[_ Hs] _] _]. split_and!; [| lia | lia | | done].
  - by destruct Hs as [-> | ->].
  - destruct Hs as [-> | ->]; apply rtc_once; by vm_compute.
Qed.

Lemma MarkClaimedDeliveryFailure_step s t c d ca i w :
  respects (under db_wf (evolves OutboxRow job_step)) (MarkClaimedDeliveryFailure s t c d ca i w).
Proof.
  apply respects_under; [preserve|]. unfold MarkClaimedDeliveryFailure. destruct (claimed_failure_status s) eqn:Hs.
  - apply (job_update_step _ _ DeliveryJobProcessing s); [reflexivity | ..].
    + unfold claimed_failure_status in Hs. rewrite !orb_true_iff, !bool_decide_eq_true in Hs.
      destruct Hs as [[-> | ->] | ->]; apply rtc_once; by vm_compute.
    + job_guard.
    + intros j. left. lazy. reflexivity.
    + intros j. right. lazy. reflexivity.
    + intros j. split; lazy; reflexivity.
  - apply respects_update_own; [apply _|]. intros j Hg. by rewrite andb_false_r in Hg.
Qed.

#[export] Instance preserved_auto_jobs : PreservedAuto (under db_wf (evolves OutboxRow job_step)).
Proof.
  auto_statements; lazymatch goal with
  | |- respects _ (QDelivery.ClaimDeliveryJobs _ _ _) => apply ClaimDeliveryJobs_step
  | |- respects _ (MarkStaleDeliveryClaimRetryable _ _) => job_update DeliveryJobRetryableFailed
  | |- respects _ (MarkStaleDeliverySendAmbiguous _) => job_update DeliveryJobAmbiguous
  | |- respects _ (BeginDeliverySend _ _ _) => job_update DeliveryJobProcessing
  | |- respects _ (MarkDeliveryRetryable _ _ _ _ _) => job_update DeliveryJobRetryableFailed
  | |- respects _ (MarkClaimedDeliveryFailure _ _ _ _ _ _ _) => apply MarkClaimedDeliveryFailure_step
  | |- respects _ (MarkDeliveryPermanentFailed _ _ _ _ _) => job_update DeliveryJobPermanentFailed
  | |- respects _ (MarkDeliveryAmbiguous _ _ _ _ _) => job_update DeliveryJobAmbiguous
  | |- respects _ (MarkDeliveryCompleted _ _ _ _ _) => job_update DeliveryJobCompleted
  | |- _ => apply respects_under; [preserve | preserve]
  end.
Qed.

(** ... and with an administrator: a delivery is resumed or closed by hand, unless it is
    over. *)
Definition resolved_step (j j' : OutboxRow) : Prop :=
  j' = j \/
  (DeliveryJob_Terminal (j_status j) = false /\ j_version j < j_version j' /\ j_attempts j <= j_attempts j' /\
   rtc job_edge (j_status j) (j_status j') /\ job_subject j' = job_subject j /\ j_max_attempts j <= j_max_attempts j').

#[export] Instance resolved_step_preorder : PreOrder resolved_step.
Proof.
  split; [by left|].
  intros a b c [->|(Ht & Hv & Ha & Hp & Hi & Hm)] [->|(Ht' & Hv' & Ha' & Hp' & Hi' & Hm')];
    [by left | by right; split_and! | by right; split_and! |].
  right. split_and!; [done | lia | lia | by transitivity (j_status b) | congruence | lia].
Qed.

Lemma job_step_resolved j j' : job_step j j' -> resolved_step j j'.
Proof.
  intros [->|(Hl & Hv & Ha & Hp & Hi)]; [by left | right]. apply pair_equal_spec in Hi as [Hs Hm].
  split_and!; [by destruct (j_status j) | done | done | | exact Hs | lia].
  apply (rtc_subrel automatic_edge); [by left | done].
Qed.

Lemma resolve_by_hand_step guard f k :
  (forall j, guard j = true -> hand_edge (j_status j) (j_status (f j))) ->
  (forall j, j_attempts (f j) = j_attempts j /\ j_version (f j) = j_version j + 1 /\ job_subject (f j) = job_subject j /\
             j_max_attempts j <= j_max_attempts (f j)) ->
  respects (evolves OutboxRow resolved_step) (update_row k guard f).
Proof.
  intros Hg Hf. apply respects_update_own; [apply _|]. intros j Hj _. destruct (Hf j) as (Ha & Hv & Hs & Hm).
  right. split_and!; [| lia | lia | apply rtc_once; right; by apply Hg | done | done].
  destruct (Hg j Hj) as [[_ Hin]|[_ Hin]]; in_cases Hin; by rewrite Hin.
Qed.

Lemma preserved_auto_resolved : PreservedAuto (under db_wf (evolves OutboxRow resolved_step)).
Proof.
  apply (preserved_auto_mono (under db_wf (evolves OutboxRow job_step))); [|apply _].
  intros d d' Hd Hwf. destruct (Hd Hwf) as [Hwf' Hev]. split; [done|]. intros k j Hj.
  destruct (Hev k j Hj) as (j' & Hj' & Hs). exists j'. split; [done | by apply job_step_resolved].
Qed.

#[export] Instance preserved_jobs : Preserved (under db_wf (evolves OutboxRow resolved_step)).
Proof.
  split; [exact preserved_auto_resolved | intros ..]; (apply respects_under; [preserve|]); autounfold with tx_queries;
    apply resolve_by_hand_step; simpl.
  - intros j. rewrite !andb_true_iff, !orb_true_iff, !bool_decide_eq_true. intros [[_ Hs] _]. left.
    split; [done|]. destruct Hs as [[[-> | ->] | ->] | ->]; set_solver.
  - intros j. split_and!; [done..| lia].
  - intros j. rewrite !andb_true_iff, !orb_true_iff, !bool_decide_eq_true. intros [[_ Hs] _]. right.
    split; [done|]. destruct Hs as [-> | ->]; set_solver.
  - intros j. by split_and!.
Qed.

(** *** The job an administrator resolves

    A manual resolution concerns one job, and no other. *)

Definition resolved_to (k : Z) (new : DeliveryJobStatus) (j j' : OutboxRow) : Prop :=
  j' = j \/ (j_id j = k /\ j_id j' = k /\ j_status j' = new).

#[export] Instance resolved_to_preorder k new : PreOrder (resolved_to k new).
Proof.
  split; [by left|]. intros a b c [->|(Ha & Hb & Hs)] [->|(Hb' & Hc & Hs')]; [by left | by right | by right | by right].
Qed.

Abbreviation resolves k new := (under db_wf (evolves OutboxRow (resolved_to k new))).

Lemma manual_job_Ok k v env d j d' : manual_job k v env d = Ok j d' -> d' = d /\ rows OutboxRow d !! k = Some j.
Proof.
  intros (j0 & d1 & Hj%or_no_rows_inv & H)%bind_Ok_inv.
  apply bind_Ok_inv in H as (? & d2 & [_ ->]%guard_not_inv & [-> ->]%ret_Ok_inv).
  apply bind_Ok_inv in Hj as (j1 & d3 & [-> Hj]%get_row_Ok & H).
  by apply bind_Ok_inv in H as (? & d4 & [_ ->]%guard_not_inv & [-> ->]%ret_Ok_inv).
Qed.

Lemma respects_manual_job {A} Rel k v (f : OutboxRow -> Tx Database A) :
  (forall j, j_id j = k -> respects (under db_wf Rel) (f j)) -> respects (under db_wf Rel) (manual_job k v ≫= f).
Proof.
  intros Hf env d a d' H Hwf. apply bind_Ok_inv in H as (j & d1 & [-> Hj]%manual_job_Ok & H).
  eapply Hf; [|done..]. by apply (wf_key _ _ (wf_outbox _ Hwf)) in Hj.
Qed.

Lemma ManualRetryDeliveryJob_resolves n r a t i v :
  respects (resolves i DeliveryJobPending) (ManualRetryDeliveryJob n r a t i v).
Proof. autounfold with tx_queries. apply respects_update_keyed; [apply _ | preserve | intros j <- _; by right]. Qed.
Lemma ManualCompleteDeliveryJob_resolves m t r a i v :
  respects (resolves i DeliveryJobCompleted) (ManualCompleteDeliveryJob m t r a i v).
Proof. autounfold with tx_queries. apply respects_update_keyed; [apply _ | preserve | intros j <- _; by right]. Qed.
#[local] Hint Resolve ManualRetryDeliveryJob_resolves ManualCompleteDeliveryJob_resolves : tx.
#[local] Hint Extern 3 (respects (resolves _ _) _) => (apply respects_under; [solve [preserve] | solve [preserve]]) : tx.

Lemma retry_delivery_resolves u c t :
  respects (resolves (dc_job_id c) DeliveryJobPending) (retry_delivery_tx u c t).
Proof.
  unfold retry_delivery_tx. apply respects_bind; [apply _ | tx_auto | intros admin].
  apply respects_bind; [apply _ | tx_auto | intros ?]. apply respects_manual_job. intros j <-. tx_auto.
Qed.

Lemma complete_delivery_resolves u c t :
  respects (resolves (dc_job_id c) DeliveryJobCompleted) (complete_delivery_tx u c t).
Proof.
  unfold complete_delivery_tx. apply respects_bind; [apply _ | tx_auto | intros admin].
  apply respects_bind; [apply _ | tx_auto | intros ?]. apply respects_manual_job. intros j <-. tx_auto.
Qed.

(** The job an operation resolves by hand, and what becomes of it *)
Definition resolution (op : operation) : option (Z * DeliveryJobStatus) :=
  match op with
  | OpRetryDelivery _ command _ => Some (dc_job_id command, DeliveryJobPending)
  | OpCompleteDelivery _ command _ => Some (dc_job_id command, DeliveryJobCompleted)
  | _ => None
  end.

Lemma perform_by_hand op env d k new : resolution op = Some (k, new) -> resolves k new d (perform op env d).
Proof.
  destruct op; try discriminate; intros [= <- <-]; simpl; unfold RetryDelivery, CompleteDelivery; rewrite after_mapped;
    (apply after_transaction; [apply _ |]); [apply retry_delivery_resolves | apply complete_delivery_resolves].
Qed.

(** A step in which no administrator resolves this job by hand *)
Definition unresolved_step (k : Z) (d d' : Database) : Prop :=
  exists op env, fst <$> resolution op <> Some k /\ d' = perform op env d.

Lemma unresolved_job_step k d d' :
  rtc (unresolved_step k) d d' -> db_wf d -> forall j, rows OutboxRow d !! k = Some j ->
  exists j', rows OutboxRow d' !! k = Some j' /\ job_step j j'.
Proof.
  induction 1 as [d | d d1 d' (op & env & Hop & ->) _ IH]; intros Hwf j Hj; [by exists j|].
  assert (exists j1, rows OutboxRow (perform op env d) !! k = Some j1 /\ job_step j j1) as (j1 & Hj1 & Hs).
  { destruct (resolution op) as [[k' new]|] eqn:Hr.
    - destruct (perform_by_hand op env d k' new Hr Hwf) as [_ Hev]. destruct (Hev k j Hj) as (j1 & Hj1 & Hs).
      exists j1. split; [done|]. destruct Hs as [-> | (Hk & _)]; [done|].
      apply (wf_key _ _ (wf_outbox _ Hwf)) in Hj. simpl in *. congruence.
    - assert (by_hand op = false) as Hhand by (by destruct op).
      destruct (perform_auto_ok (under db_wf (evolves OutboxRow job_step)) op env d Hhand Hwf) as [_ Hev]. by apply Hev. }
  destruct (IH (perform_ok (keeps db_wf) op env d Hwf) j1 Hj1) as (j' & Hj' & Hs'). exists j'. split; [done | by transitivity j1].
Qed.

(** ** What holds of every history *)

(** In every history, whatever operations run, by whom, with which arguments and
    whichever transactions fail or lose their answer, the tables keep their
    constraints: unique keys, CHECK predicates and UNIQUE indexes. *)
Theorem schema_always_holds d d' : shop_steps d d' -> db_wf d -> db_wf d'.
Proof. intros Hs. by apply (shop_steps_ok (keeps db_wf)). Qed.

Lemma sale_steps : shop_steps shop delivered.
Proof.
  history.
Defined.

(** C19: an order is never lost, keeps its owner, amounts, reference, deadline and
    destination account, and its status only ever changes along
    [CanTransitionOrder], each change with a larger version. *)
Theorem orders_follow_the_lifecycle d d' k o :
  shop_steps d d' -> rows OrderRow d !! k = Some o ->
  exists o', rows OrderRow d' !! k = Some o' /\ order_identity o' = order_identity o /\
    (o' = o \/ (o_version o < o_version o' /\ tc order_edge (o_status o) (o_status o'))).
Proof.
  intros Hs Ho. destruct (shop_steps_ok (evolves OrderRow order_step) d d' Hs k o Ho) as (o' & Ho' & [->|(? & ? & ?)]); eauto 6.
Qed.

Lemma orders_follow_the_lifecycle_witness :
  exists o', rows OrderRow delivered !! 1 = Some o' /\ o_status o' = OrderStatusDelivered.
Proof.
  destruct (rows OrderRow ordered !! 1) as [o|] eqn:Ho; [|vm_compute in Ho; discriminate].
  destruct (orders_follow_the_lifecycle ordered delivered 1 o) as (o' & Ho' & _); [|exact Ho|].
  - history.
  - exists o'. split; [exact Ho'|]. vm_compute in Ho'. by injection Ho' as <-.
Defined.

(** A cancelled or refunded order is final: no operation, of a customer, a
    worker or a payment, changes any column of it again. *)
Theorem terminal_orders_never_change d d' k o :
  shop_steps d d' -> rows OrderRow d !! k = Some o -> IsTerminal (o_status o) = true ->
  rows OrderRow d' !! k = Some o.
Proof.
  intros Hs Ho Ht. destruct (shop_steps_ok (evolves OrderRow order_step) d d' Hs k o Ho) as (o' & Ho' & [->|(_ & Hp & _)]); [done|].
  assert (Hnil : orderTransitions (o_status o) = []).
  { unfold IsTerminal in Ht. rewrite orb_true_iff, !bool_decide_eq_true in Ht. by destruct Ht as [-> | ->]. }
  inversion Hp as [? ? He|? ? ? He]; subst; apply order_edge_targets in He; rewrite Hnil in He;
    by apply not_elem_of_nil in He.
Qed.

Definition cancelled_shop : Database :=
  perform (OpCancelOrder (mkCancelOrderCommand 7001 1 1 (mkRequestMeta "req-9" 102))) (calm 1050) ordered.

(** C20: in every history a delivery job stays, keeps its order, chat and key, moves only
    along the automatic transitions and those by which an administrator resolves it, never
    exceeds its attempts, and once completed or cancelled never changes again.  Where no
    administrator resolves this job by hand -- whatever else administrators do -- it moves
    along the automatic transitions of [CanTransitionDelivery] alone, and one that is
    ambiguous, failed for good or under review stays as it is: only by hand is it resent. *)
Theorem jobs_follow_the_automatic_machine d d' k j :
  shop_steps d d' -> db_wf d -> rows OutboxRow d !! k = Some j ->
  exists j', rows OutboxRow d' !! k = Some j' /\ job_subject j' = job_subject j /\
    rtc job_edge (j_status j) (j_status j') /\
    j_attempts j <= j_attempts j' <= j_max_attempts j' /\
    (DeliveryJob_Terminal (j_status j) = true -> j' = j) /\
    (rtc (unresolved_step k) d d' ->
       rtc automatic_edge (j_status j) (j_status j') /\ j_max_attempts j' = j_max_attempts j /\
       (job_live (j_status j) = false -> j' = j)).
Proof.
  intros Hs Hwf Hj. destruct (shop_steps_ok (under db_wf (evolves OutboxRow resolved_step)) d d' Hs Hwf) as [Hwf' Hev].
  destruct (Hev k j Hj) as (j' & Hj' & Hstep). exists j'. split; [done|].
  pose proof (wf_check _ _ (wf_outbox _ Hwf') k j' Hj') as Hc. simpl in Hc. unfold outbox_events_check in Hc.
  assert (Hmax : j_attempts j' <= j_max_attempts j') by (rewrite !andb_true_iff in Hc; destruct_and! Hc; lia).
  assert (Hauto : rtc (unresolved_step k) d d' ->
    rtc automatic_edge (j_status j) (j_status j') /\ j_max_attempts j' = j_max_attempts j /\
    (job_live (j_status j) = false -> j' = j)).
  { intros Hrun. destruct (unresolved_job_step k d d' Hrun Hwf j Hj) as (j1 & Hj1 & Ha). rewrite Hj' in Hj1. injection Hj1 as <-.
    destruct Ha as [-> | (Hl & _ & _ & Hp & Hi)]; [done|]. split_and!; [done | | congruence].
    unfold job_identity in Hi. congruence. }
  destruct Hstep as [-> | (Ht & _ & Ha & Hp & Hi & _)]; [by split_and!; try lia|].
  split_and!; [done | done | lia | lia | congruence | done].
Qed.

Lemma performs_unresolved k op env d : fst <$> resolution op <> Some k -> rtc (unresolved_step k) d (perform op env d).
Proof. intros Hop. apply rtc_once. by exists op, env. Qed.

Lemma jobs_follow_the_automatic_machine_witness :
  exists j', rows OutboxRow delivered !! 1 = Some j' /\ j_attempts j' <= 5 /\
    rtc automatic_edge DeliveryJobPending (j_status j').
Proof.
  destruct (rows OutboxRow paid !! 1) as [j|] eqn:Hj; [|vm_compute in Hj; discriminate].
  destruct (jobs_follow_the_automatic_machine paid delivered 1 j) as (j' & Hj' & _ & _ & Ha & _ & Hauto);
    [history | decide_wf | exact Hj |].
  destruct Hauto as (Hp & Hm & _).
  - unfold delivered, sending, claimed_job. do 3 (etransitivity; [|apply performs_unresolved; discriminate]). apply rtc_refl.
  - exists j'. split; [exact Hj'|]. vm_compute in Hj. injection Hj as <-. simpl in Hp, Hm, Ha. split; [lia | exact Hp].
Defined.
