(* ===== verification/Stock.v ===== *)
(** * Inventory items over time

    An item is free, held by one order, sold to one order or taken off sale.  Every
    change of an item counts one version up and takes exactly one [item_edge]: it is
    held only when it was free, released or sold only for the order that held it until
    then, taken off sale and put back only while nobody holds it; and a sold item stays
    as it is. *)

From S2P Require Import Prelude Domain Schema Tx Tables Models QOrders QInventory QPayments QWallet QUsers.
From S2P Require Import QCatalog QBanks QDelivery UpdateStore AdminStore InventoryStore DeliveryStore PaymentStore.
From S2P Require Import WalletStore.
From S2P Require Import OrderService OrderStore PaymentEvents Steps Demo Lifecycle.

Inductive ItemState := Free | Held (order_id : Z) | SoldTo (order_id : Z) | Off.

Definition item_state (i : InventoryRow) : ItemState :=
  match i_status i, i_reserved_order_id i, i_sold_order_id i with
  | InventoryStatusAvailable, _, _ => Free
  | InventoryStatusReserved, Some o, _ => Held o
  | InventoryStatusSold, _, Some o => SoldTo o
  | _, _, _ => Off
  end.

Inductive item_edge : ItemState -> ItemState -> Prop :=
  | edge_reserve o : item_edge Free (Held o)
  | edge_release o : item_edge (Held o) Free
  | edge_sell o : item_edge (Held o) (SoldTo o)
  | edge_disable : item_edge Free Off
  | edge_enable : item_edge Off Free.

(** The goods themselves never change. *)
Definition item_identity (i : InventoryRow) :=
  (i_id i, i_product_id i, i_payload i, i_key_id i, i_nonce i, i_format i, i_key_version i, i_fingerprint i,
   i_imported_by i, i_created_at i).

(** The item has changed [n] times, each time along one edge. *)
Definition moved (n : nat) (i i' : InventoryRow) : Prop :=
  i_version i' = i_version i + Z.of_nat n /\ nsteps item_edge n (item_state i) (item_state i') /\
  item_identity i' = item_identity i /\ (n = O -> i' = i).

Definition item_step (i i' : InventoryRow) : Prop := exists n, moved n i i'.

Lemma moved_nothing i : moved 0 i i.
Proof. split_and!; [lia | constructor | done | done]. Qed.

Lemma moved_more n m a b c : moved n a b -> moved m b c -> moved (n + m) a c.
Proof.
  intros (Hv & Hp & Hi & Hz) (Hv' & Hp' & Hi' & Hz'). split_and!; [lia | by eapply nsteps_trans | congruence |].
  intros H0. rewrite Hz' by lia. apply Hz. lia.
Qed.

#[export] Instance item_step_preorder : PreOrder item_step.
Proof.
  split; [intros i; exists O; apply moved_nothing|].
  intros a b c [n Hn] [m Hm]. exists (n + m)%nat. by eapply moved_more.
Qed.

(** One statement, one edge, one version *)
Lemma one_move i i' :
  i_version i' = i_version i + 1 -> item_edge (item_state i) (item_state i') -> item_identity i' = item_identity i ->
  item_step i i'.
Proof. intros Hv He Hi. exists 1%nat. split_and!; [lia | by apply nsteps_once | done | done]. Qed.

Lemma reserve_step o t i : i_status i = InventoryStatusAvailable -> item_step i (reserve_item o t i).
Proof.
  intros Hs. apply one_move; [done | | done]. unfold item_state. rewrite Hs. constructor.
Qed.

Lemma reserved_state o i : reserved_for o i = true -> item_state i = Held o.
Proof.
  unfold reserved_for, item_state. rewrite andb_true_iff, !bool_decide_eq_true. by intros [-> ->].
Qed.

Lemma release_step o i : reserved_for o i = true -> item_step i (release_item i).
Proof.
  intros Hr. apply one_move; [done | | done]. rewrite (reserved_state o i Hr). constructor.
Qed.

Lemma sell_step o i : reserved_for o i = true -> item_step i (sell_item o i).
Proof.
  intros Hr. apply one_move; [done | | done]. rewrite (reserved_state o i Hr). constructor.
Qed.

(** ** The statements that move items *)

Lemma claim_selection_Ok product quantity env d l d' :
  db_wf d -> claim_selection product quantity env d = Ok l d' ->
  d' = d /\ 0 <= quantity /\ Z.of_nat (length l) <= quantity /\ NoDup (map i_id l) /\
  (forall k i, k ∈ map i_id l -> rows InventoryRow d !! k = Some i -> claimable d product i = true).
Proof.
  intros Hwf Hrun. unfold claim_selection in Hrun.
  apply bind_Ok_inv in Hrun as (d0 & d1 & Hread & Hrun). injection Hread as <- <-.
  apply bind_Ok_inv in Hrun as (c & d1 & [-> Hsub]%select_unlocked_Ok & Hrun).
  pose proof Hrun as (-> & Hq & Hl)%order_limit_Ok.
  destruct (selected_keys _ _ _ _ _ _ _ Hwf Hsub Hrun) as [Hnd Hin].
  split_and!; [done | done | | done | ].
  - rewrite Hl, length_take. lia.
  - intros k i Hk Hi. by apply (Hin k i Hk Hi).
Qed.

Lemma ClaimAvailableInventory_step o t p q :
  respects (under db_wf (evolves InventoryRow item_step)) (ClaimAvailableInventory o t p q).
Proof.
  intros env d ids d' Hrun Hwf. split; [by eapply (pres_claim_available (Rel := keeps db_wf))|].
  unfold ClaimAvailableInventory in Hrun.
  apply bind_Ok_inv in Hrun as (l & d1 & Hsel & Hrun).
  apply (claim_selection_Ok _ _ _ _ _ _ Hwf) in Hsel as (-> & _ & _ & Hnd & Hin).
  apply bind_Ok_inv in Hrun as (us & d2 & Hu & [_ <-]%ret_Ok_inv).
  eapply (update_rows_evolves _ _ _ _ _ _ _ _ Hnd); [|exact Hu].
  intros k i Hk Hi _. apply reserve_step. specialize (Hin k i Hk Hi). unfold claimable in Hin.
  rewrite !andb_true_iff, !bool_decide_eq_true in Hin. tauto.
Qed.

Lemma ClaimExactAvailableInventory_step o t p q :
  respects (under db_wf (evolves InventoryRow item_step)) (ClaimExactAvailableInventory o t p q).
Proof.
  intros env d ids d' Hrun Hwf. split; [by eapply (pres_claim_exact (Rel := keeps db_wf))|].
  unfold ClaimExactAvailableInventory in Hrun.
  apply bind_Ok_inv in Hrun as (l & d1 & Hsel & Hrun).
  apply (claim_selection_Ok _ _ _ _ _ _ Hwf) in Hsel as (-> & _ & _ & Hnd & Hin).
  destruct (_ =? q); apply bind_Ok_inv in Hrun as (us & d2 & Hu & [_ <-]%ret_Ok_inv).
  - eapply (update_rows_evolves _ _ _ _ _ _ _ _ Hnd); [|exact Hu].
    intros k i Hk Hi _. apply reserve_step. specialize (Hin k i Hk Hi). unfold claimable in Hin.
    rewrite !andb_true_iff, !bool_decide_eq_true in Hin. tauto.
  - injection Hu as _ <-. reflexivity.
Qed.

(** Each item held for an order is held through one mapping. *)
Lemma NoDup_held_items o d : db_wf d -> NoDup (held_items o d).
Proof.
  intros Hwf. unfold held_items. apply NoDup_select_by; [done|].
  unfold holds_reserved. intros m m' Hm Hm' Heq. rewrite !andb_true_iff in Hm, Hm'.
  destruct Hm as [[Hm _] _], Hm' as [[Hm' _] _]. simpl. unfold mappings_clash.
  rewrite Heq, Z.eqb_refl. replace (m_order_id m =? m_order_id m') with true by lia. done.
Qed.

Lemma held_items_reserved o d k i :
  k ∈ held_items o d -> rows InventoryRow d !! k = Some i -> reserved_for o i = true.
Proof.
  intros (m & -> & [Hm _]%elem_of_select)%list_elem_of_fmap Hi.
  unfold holds_reserved in Hm. rewrite Hi, !andb_true_iff in Hm. tauto.
Qed.

Lemma MarkExactReservedInventorySold_step o n :
  respects (under db_wf (evolves InventoryRow item_step)) (MarkExactReservedInventorySold o n).
Proof.
  intros env d ids d' Hrun Hwf. split; [by eapply (pres_sold (Rel := keeps db_wf))|].
  unfold MarkExactReservedInventorySold in Hrun.
  apply bind_Ok_inv in Hrun as (l & d1 & Hread & Hrun). injection Hread as <- <-.
  destruct (_ =? n); apply bind_Ok_inv in Hrun as (us & d2 & Hu & [_ <-]%ret_Ok_inv).
  - refine (update_rows_evolves _ _ _ _ _ _ _ _ _ _ Hu).
    + rewrite merge_sort_Permutation. by apply NoDup_held_items.
    + intros k i Hk Hi _. rewrite merge_sort_Permutation in Hk.
      apply sell_step. by eapply held_items_reserved.
  - injection Hu as _ <-. reflexivity.
Qed.

Lemma ReleaseReservedInventoryByOrder_step o :
  respects (under db_wf (evolves InventoryRow item_step)) (ReleaseReservedInventoryByOrder o).
Proof.
  apply respects_under; [preserve|].
  unfold ReleaseReservedInventoryByOrder. tx_auto. apply respects_update_rows_own; [apply _|].
  intros i Hi _. by eapply release_step.
Qed.

Lemma DisableAvailableInventoryItem_step r i v :
  respects (evolves InventoryRow item_step) (DisableAvailableInventoryItem r i v).
Proof.
  apply respects_update_own; [apply _|]. intros x [Hs _]%andb_true_iff _. apply bool_decide_eq_true in Hs.
  apply one_move; [done | | done]. unfold item_state. rewrite Hs. constructor.
Qed.

Lemma EnableDisabledInventoryItem_step i v :
  respects (evolves InventoryRow item_step) (EnableDisabledInventoryItem i v).
Proof.
  apply respects_update_own; [apply _|]. intros x [Hs _]%andb_true_iff _. apply bool_decide_eq_true in Hs.
  apply one_move; [done | | done]. unfold item_state. rewrite Hs. constructor.
Qed.
#[export] Hint Resolve DisableAvailableInventoryItem_step EnableDisabledInventoryItem_step : tx.

#[export] Instance preserved_items : Preserved (under db_wf (evolves InventoryRow item_step)).
Proof.
  preserved_statements; lazymatch goal with
  | |- respects _ (ClaimAvailableInventory _ _ _ _) => apply ClaimAvailableInventory_step
  | |- respects _ (ClaimExactAvailableInventory _ _ _ _) => apply ClaimExactAvailableInventory_step
  | |- respects _ (MarkExactReservedInventorySold _ _) => apply MarkExactReservedInventorySold_step
  | |- respects _ (ReleaseReservedInventoryByOrder _) => apply ReleaseReservedInventoryByOrder_step
  | |- _ => apply respects_under; [preserve | preserve]
  end.
Qed.

(** ** What holds of every history *)

(** C14: an item of stock is never lost and its contents never change.  Its version
    counts its changes, and each of them is one of the edges: it becomes held by an
    order only when it was free, it is released or sold only out of the hands of the
    order that holds it, and sold to that order; it is taken off sale only when free.
    So an order never takes over or receives an item that another one holds, and once
    an item is sold to an order nothing changes it again. *)
Theorem items_are_sold_once d d' k i :
  shop_steps d d' -> db_wf d -> rows InventoryRow d !! k = Some i ->
  exists i' n, rows InventoryRow d' !! k = Some i' /\ item_identity i' = item_identity i /\
    i_version i' = i_version i + Z.of_nat n /\ nsteps item_edge n (item_state i) (item_state i') /\
    (n = O -> i' = i) /\
    (forall o, item_state i = SoldTo o -> i' = i).
Proof.
  intros Hs Hwf Hi.
  destruct (shop_steps_ok (under db_wf (evolves InventoryRow item_step)) d d' Hs Hwf) as [_ Hev].
  destruct (Hev k i Hi) as (i' & Hi' & n & Hv & Hp & Hid & Hz). exists i', n. split_and!; [done..|].
  intros o Ho. rewrite Ho in Hp. apply Hz. inversion Hp as [|? ? ? ? He]; [done | inversion He].
Qed.

Lemma items_are_sold_once_witness :
  exists i', rows InventoryRow delivered !! 1 = Some i' /\ item_state i' = SoldTo 1 /\
    nsteps item_edge 2 Free (item_state i').
Proof.
  destruct (rows InventoryRow shop !! 1) as [i|] eqn:Hi; [|vm_compute in Hi; discriminate].
  destruct (items_are_sold_once shop delivered 1 i) as (i' & n & Hi' & _ & Hv & Hp & _); [exact sale_steps | exact shop_wf | exact Hi |].
  exists i'. split; [exact Hi'|]. vm_compute in Hi. injection Hi as <-. vm_compute in Hi'. injection Hi' as <-.
  split; [reflexivity|]. change (3 = 1 + Z.of_nat n) in Hv. replace n with 2%nat in Hp by lia. exact Hp.
Defined.
