(* ===== verification/Secrets.v ===== *)
(** * Secrets from import to delivery

    What an administrator imports is what a worker decrypts: through encryption under
    the current key, the row of the item, whatever happens to the shop in between, and
    decryption by a process whose ring still holds the key. *)

From S2P Require Import Prelude Text Domain Schema Tx Tables Models AdminModels QOrders QInventory QPayments.
From S2P Require Import QWallet QUsers.
From S2P Require Import QCatalog QBanks QDelivery UpdateStore AdminStore CatalogStore DeliveryStore AdminService.
From S2P Require Import InventoryAdmin Ciphers.
From S2P Require Import Steps Demo Lifecycle Stock.

(** ** The rows of an import *)

(** The row holds what the item is encrypted to, for the product. *)
Definition holds_item (product : Z) (i : InventoryRow) (item : EncryptedInventoryPayload) : Prop :=
  i_product_id i = product /\ i_payload i = ep_ciphertext item /\ i_nonce i = Some (ep_nonce item) /\
  i_format i = aes_format /\ i_key_version i = ep_key_version item /\ i_fingerprint i = ep_fingerprint item.

(** An item of the product with that fingerprint is in stock. *)
Definition known (product : Z) (fingerprint : Bytes) (d : Database) : Prop :=
  exists k i, rows InventoryRow d !! k = Some i /\ i_product_id i = product /\ i_fingerprint i = fingerprint.

(** Nothing that was in stock is gone or changed. *)
Definition stock_grows (d d' : Database) : Prop := rows InventoryRow d ⊆ rows InventoryRow d'.

#[export] Instance stock_grows_preorder : PreOrder stock_grows.
Proof. unfold stock_grows. split; [intros d; done|]. intros a b c Hab Hbc. by etransitivity. Qed.

Lemma known_grows product fingerprint d d' : stock_grows d d' -> known product fingerprint d -> known product fingerprint d'.
Proof. intros Hd (k & i & Hi & ? & ?). exists k, i. split_and!; [by eapply lookup_weaken | done..]. Qed.

(** One item: its fingerprint is known already, or it is put under a new key. *)
Lemma import_item_Ok admin_id product result item env d r d' :
  import_item admin_id product result item env d = Ok r d' ->
  ir_rejected r = ir_rejected result /\ known product (ep_fingerprint item) d' /\
  ((d' = d /\ ir_inserted r = ir_inserted result /\ ir_duplicates r = ir_duplicates result + 1) \/
   (ir_inserted r = ir_inserted result + 1 /\ ir_duplicates r = ir_duplicates result /\
    exists id i, rows InventoryRow d !! id = None /\ holds_item product i item /\
      rows InventoryRow d' = <[id := i]> (rows InventoryRow d))).
Proof.
  unfold import_item. intros (u & d1 & Hu & Hrun)%bind_Ok_inv.
  assert (d1 = d) as -> by (unfold guard_not in Hu; case_match; [done | by apply ret_Ok_inv in Hu as [_ ->]]).
  apply bind_Ok_inv in Hrun as (inserted & d2 & Ht & [<- <-]%ret_Ok_inv).
  unfold try_row, InsertEncryptedInventoryItem, mbind, Tx_bind, clock in Ht. cbn in Ht.
  destruct (insert_row_unless _ _ _ _) as [i d3|e] eqn:E; cbn in Ht.
  - injection Ht as <- <-. apply insert_row_unless_Ok in E as (_ & (Hi & Hfree & Hrows & _)%insert_row_Ok).
    rewrite Hi in Hrows. split_and!; [done | | right].
    + eexists _, _. rewrite Hrows, lookup_insert_eq. by split_and!.
    + split_and!; [done..|]. eexists _, _. split_and!; [exact Hfree | | exact Hrows]. by split_and!.
  - destruct e; simplify_eq. cbn. unfold insert_row_unless in E. destruct (negb _); [done|].
    destruct (select _ d2) as [|i l] eqn:Hl.
    { unfold insert_row, insert_row_at in E. repeat case_match; done. }
    assert (i ∈ select (fun i => (i_product_id i =? product) && bool_decide (i_fingerprint i = ep_fingerprint item)) d2)
      as [Hi [k Hk]]%elem_of_select by (rewrite Hl; by left).
    apply andb_true_iff in Hi as [Hp Hf%bool_decide_eq_true]. split_and!; [done | | by left].
    exists k, i. split_and!; [done | lia | done].
Qed.

(** All of them: the new rows hold those that were inserted, in their order. *)
Lemma import_items_Ok admin_id product lines (protected : Bytes -> EncryptedInventoryPayload -> Prop) items :
  Forall2 protected lines items -> forall result env d r d',
  fold_each items result (import_item admin_id product) env d = Ok r d' ->
  exists ids imported,
    ir_inserted r = ir_inserted result + Z.of_nat (length ids) /\
    ir_inserted r + ir_duplicates r = ir_inserted result + ir_duplicates result + Z.of_nat (length lines) /\
    ir_rejected r = ir_rejected result /\ NoDup ids /\
    (forall k, k ∈ ids <-> rows InventoryRow d !! k = None /\ is_Some (rows InventoryRow d' !! k)) /\
    sublist imported lines /\ stock_grows d d' /\
    Forall2 (fun id line => exists item i, protected line item /\ rows InventoryRow d' !! id = Some i /\ holds_item product i item)
      ids imported /\
    Forall (fun line => exists item, protected line item /\ known product (ep_fingerprint item) d') lines.
Proof.
  induction 1 as [|line item lines items Hline _ IH]; intros result env d r d' Hrun.
  - cbn [fold_each] in Hrun. apply ret_Ok_inv in Hrun as [-> ->]. exists [], []. simpl. split_and!; try done; try lia; try by constructor; try reflexivity.
    intros k. split; [by intros ?%elem_of_nil|]. intros [-> [? ?]]. done.
  - cbn [fold_each] in Hrun. apply bind_Ok_inv in Hrun as (r1 & d1 & (Hrej & Hknown & Hone)%import_item_Ok & Hrun).
    apply IH in Hrun as (ids & imported & Hins & Hsum & Hr & Hnd & Hids & Hsub & Hgrows & Hall & Hfps).
    assert (Hlines : Forall (fun line => exists item, protected line item /\ known product (ep_fingerprint item) d') (line :: lines)).
    { constructor; [|done]. exists item. split; [done | by eapply known_grows]. }
    destruct Hone as [(-> & Hi & Hd) | (Hi & Hd & id & i & Hfree & Hholds & Hrows)].
    + exists ids, imported. simpl. split_and!; try done; [lia | lia | congruence | by constructor].
    + assert (rows InventoryRow d' !! id = Some i) as Hrow
        by (eapply lookup_weaken; [|exact Hgrows]; by rewrite Hrows, lookup_insert_eq).
      exists (id :: ids), (line :: imported). simpl. split_and!; try done; [lia | lia | congruence | | | by constructor | |].
      * constructor; [|done]. intros [Hn _]%Hids. by rewrite Hrows, lookup_insert_eq in Hn.
      * intros k. rewrite elem_of_cons, Hids, Hrows. destruct (decide (k = id)) as [->|Hne].
        -- rewrite lookup_insert_eq, Hrow. split; [by eauto | by left].
        -- rewrite lookup_insert_ne by done. split; [by intros [?|?] | by right].
      * unfold stock_grows in *. etransitivity; [|exact Hgrows]. rewrite Hrows. by apply insert_subseteq.
      * constructor; [by exists item, i | done].
Qed.

(** ** The operation *)

Lemma protect_items_Ok protect product lines n items :
  InventoryAdminService.protect_items protect n product lines = Some items ->
  Forall2 (fun line item => exists n, protect n product line = inr item) lines items.
Proof.
  revert n items. induction lines as [|line lines IH]; intros n items; simpl; [by intros [= <-]|].
  destruct (protect n product line) as [|item] eqn:Hp; [done|].
  destruct (InventoryAdminService.protect_items protect (S n) product lines) as [rest|] eqn:Hr; simpl; [|done].
  intros [= <-]. constructor; [by exists n | by eapply IH].
Qed.

Lemma Authorize_stays telegramID mutation envs d n a d' n' :
  AdminService.Authorize telegramID mutation envs (d, n) = (inr a, (d', n')) -> d' = d.
Proof.
  unfold AdminService.Authorize. case_match; [done|]. intros (found & [d1 n1] & Hrun & Hk)%script_bind_inv.
  assert (d1 = d) as ->.
  { unfold run_result in Hrun. cbn in Hrun. destruct (AuthorizeAdmin telegramID (envs n) d) as [r1 s1] eqn:E.
    assert (readonly (authorizeAdmin telegramID)) as Hro by (unfold readonly; tx_auto).
    injection Hrun as _ <- _. symmetry. revert E. apply (respects_transaction eq). unfold AuthorizeAdmin, autocommit. exact Hro. }
  repeat case_match; try discriminate. by injection Hk.
Qed.

#[local] Ltac frames :=
  lazymatch goal with |- ?m ?env ?d = Ok ?a ?d' -> _ =>
    let H := fresh in assert (respects (same_table InventoryRow) m) as H; [preserve | exact (H env d a d')] end.

(** What a successful import does to the stock is what its items do. *)
Lemma import_inventory_Ok admin session product items requested rejected meta env d r d' :
  ImportInventory admin session product items requested rejected meta env d = (inr r, d') ->
  exists d1 r1 d2, rows InventoryRow d1 = rows InventoryRow d /\ rows InventoryRow d' = rows InventoryRow d2 /\
    fold_each items (mkInventoryImportResult product requested 0 0 rejected 0) (import_item (adm_id admin) product) env d1 = Ok r1 d2 /\
    ir_inserted r = ir_inserted r1 /\ ir_duplicates r = ir_duplicates r1 /\ ir_rejected r = ir_rejected r1.
Proof.
  intros Hrun. unfold ImportInventory, map_action_error in Hrun.
  destruct (WithinTransaction _ env d) as [[e|r0] d0] eqn:E; simplify_eq. apply transaction_ok_inv in E.
  unfold import_inventory_tx in E. apply bind_Ok_inv in E as (? & d1 & H1 & E).
  apply bind_Ok_inv in E as (p & d1' & H2 & E). apply bind_Ok_inv in E as (r1 & d2 & Hfold & E). cbv zeta in E.
  apply bind_Ok_inv in E as (? & d3 & H3 & E). apply bind_Ok_inv in E as (? & d4 & H4 & [<- <-]%ret_Ok_inv).
  assert (same_table InventoryRow d d1) as E1 by (revert H1; unfold begin_change; frames).
  assert (same_table InventoryRow d1 d1') as E2 by (revert H2; unfold stocked_product; frames).
  assert (same_table InventoryRow d2 d3) as E3 by (revert H3; frames).
  assert (same_table InventoryRow d3 d4) as E4 by (revert H4; frames).
  unfold same_table in *. exists d1', r1, d2. split_and!; [congruence | congruence | exact Hfold | done..].
Qed.

(** ** Import, history, decryption *)

(** A process with the key ring decrypts the item to that text. *)
Definition reveals `{Crypto} (ring : Cipher) (i : InventoryRow) (text : Bytes) : Prop :=
  let e := encrypted_item i in
  InventoryCipher.Decrypt ring false (ed_product_id e)
    (mkEncryptedInventoryPayload (ed_ciphertext e) (ed_nonce e) [] (ed_key_version e) (ed_format e)) = inr text.

Section Recovery.
Context `{Crypto} `{!CryptoLaws _} (keys : gmap Z Bytes) (current : Z) (ring : Cipher) (randoms : nat -> Bytes).
Context (Hring : InventoryCipher.NewKeyring keys current = inr ring).

(** The line was encrypted to the item by the process that imports. *)
Definition encrypted_to (product : Z) (line : Bytes) (item : EncryptedInventoryPayload) : Prop :=
  exists n, InventoryCipher.Protect ring false (randoms n) product line = inr item.

Lemma encrypted_fingerprint product line item : encrypted_to product line item ->
  exists key, ci_keys ring !! current = Some key /\
    ep_fingerprint item = InventoryCipher.keyedFingerprint (dk_fingerprint key) product line.
Proof.
  intros [n Hp]. pose proof Hring as (Hcur & _)%new_ring_ok. unfold InventoryCipher.Protect in Hp. rewrite Hcur in Hp.
  destruct (_ || _); [done|]. destruct (ci_keys ring !! current) as [key|]; [|done].
  destruct (newGCM _); [|done]. destruct (read_full _ _); [|done]. injection Hp as <-. by exists key.
Qed.

(** A row that holds the item, even after a later history, reveals the line to every
    ring that has the key. *)
Lemma held_item_reveals keys' current' ring' product line item i i' :
  InventoryCipher.NewKeyring keys' current' = inr ring' -> keys' !! current = keys !! current ->
  encrypted_to product line item -> holds_item product i item -> item_identity i' = item_identity i ->
  i_product_id i' = product /\ reveals ring' i' line.
Proof.
  intros Hring' Hsame [n Hprotect] (Hp & Hc & Hn & Hf & Hv & _) Hid.
  destruct (inventory_recovered _ _ _ _ _ _ _ _ _ _ Hring Hring' Hsame Hprotect) as (_ & _ & Hdec).
  injection Hid as _ Hp' Hc' _ Hn' Hf' Hv' _ _ _. assert (ep_format item = aes_format) as Hformat
    by (clear -Hprotect; unfold InventoryCipher.Protect in Hprotect; repeat case_match; by simplify_eq).
  split; [congruence|]. unfold reveals, encrypted_item. cbn -[InventoryCipher.Decrypt].
  rewrite Hp', Hc', Hn', Hf', Hv', Hp, Hc, Hn, Hf, Hv, <- Hformat. apply Hdec.
Qed.
End Recovery.

Lemma Import_Ok limits protect telegramID session product raw meta envs d n r d' n' :
  InventoryAdminService.Import limits protect telegramID session product raw meta envs (d, n) = (inr r, (d', n')) ->
  exists admin lines rejected items env, ParseInventoryImport raw limits = inr (lines, rejected) /\
    InventoryAdminService.protect_items protect 0 product lines = Some items /\
    ImportInventory admin session product items (Z.of_nat (length items)) rejected meta env d = (inr r, d').
Proof.
  unfold InventoryAdminService.Import. case_match; [done|]. intros (admin & [d1 n1] & Ha & Hk)%script_bind_inv.
  apply Authorize_stays in Ha as ->. destruct (ParseInventoryImport raw limits) as [|[lines rejected]]; [done|].
  destruct (InventoryAdminService.protect_items _ _ _ _) as [items|] eqn:Hp; [|done]. apply run_inv in Hk. eauto 8.
Qed.

Lemma later_item d d' k i : shop_steps d d' -> db_wf d -> rows InventoryRow d !! k = Some i ->
  exists i', rows InventoryRow d' !! k = Some i' /\ item_identity i' = item_identity i.
Proof.
  intros Hs Hwf Hi. destruct (shop_steps_ok (under db_wf (evolves InventoryRow item_step)) d d' Hs Hwf) as [_ Hev].
  destruct (Hev k i Hi) as (i' & Hi' & n & _ & _ & Hid & _). by exists i'.
Qed.

(** C15: when an import succeeds, the items it has added to the stock are as many as it
    says it inserted, one for each imported line that was not a duplicate; and after any
    later history of the shop each of them is still there, for the product of the import,
    and is decrypted to exactly its line by any process whose ring still holds the key it
    was encrypted under, whatever that process's own current key is.  The other lines
    are those it says were duplicates: for every line of the text an item of the product
    with the line's fingerprint is in stock. *)
Theorem imported_secrets_are_recovered `{Crypto} `{!CryptoLaws _}
    keys current ring keys' current' ring' randoms limits telegramID session product raw meta envs d n r d' n' d'' :
  InventoryCipher.NewKeyring keys current = inr ring -> InventoryCipher.NewKeyring keys' current' = inr ring' ->
  keys' !! current = keys !! current -> db_wf d ->
  InventoryAdminService.Import limits (fun n => InventoryCipher.Protect ring false (randoms n))
    telegramID session product raw meta envs (d, n) = (inr r, (d', n')) ->
  shop_steps d' d'' ->
  exists lines rejected ids imported,
    ParseInventoryImport raw limits = inr (lines, rejected) /\
    ir_inserted r = Z.of_nat (length ids) /\ ir_inserted r + ir_duplicates r = Z.of_nat (length lines) /\
    ir_rejected r = rejected /\ NoDup ids /\
    (forall k, k ∈ ids <-> rows InventoryRow d !! k = None /\ is_Some (rows InventoryRow d' !! k)) /\
    sublist imported lines /\
    Forall2 (fun id line => exists i, rows InventoryRow d'' !! id = Some i /\ i_product_id i = product /\ reveals ring' i line)
      ids imported /\
    Forall (fun line => exists key k i, ci_keys ring !! current = Some key /\
      rows InventoryRow d'' !! k = Some i /\ i_product_id i = product /\
      i_fingerprint i = InventoryCipher.keyedFingerprint (dk_fingerprint key) product line) lines.
Proof.
  intros Hring Hring' Hsame Hwf Hrun Hs.
  apply Import_Ok in Hrun as (admin & lines & rejected & items & env & Hparse & Hp%protect_items_Ok & Himport).
  assert (db_wf d') as Hwf'.
  { apply (shop_steps_ok (keeps db_wf) d d'); [|done]. apply rtc_once.
    exists (OpImportInventory admin session product items (Z.of_nat (length items)) rejected meta), env.
    simpl. unfold after. by rewrite Himport. }
  apply import_inventory_Ok in Himport as (d1 & r1 & d2 & E1 & E2 & Hfold & -> & -> & ->).
  apply (import_items_Ok _ product lines (encrypted_to ring randoms product)) in Hfold
    as (ids & imported & Hins & Hsum & Hrej & Hnd & Hids & Hsub & _ & Hall & Hfps); [|exact Hp].
  exists lines, rejected, ids, imported. simpl in Hins, Hsum. rewrite E1, <- E2 in Hids. split_and!; try done.
  - eapply Forall2_impl; [exact Hall|]. intros id line (item & i & Henc & Hi & Hholds). rewrite <- E2 in Hi.
    destruct (later_item _ _ _ _ Hs Hwf' Hi) as (i' & Hi' & Hid). exists i'. split; [done|]. exact (held_item_reveals keys current ring randoms Hring keys' current' ring' _ _ _ _ _ Hring' Hsame Henc Hholds Hid).
  - eapply Forall_impl; [exact Hfps|]. intros line (item & Henc & k & i & Hi & Hprod & Hf). rewrite <- E2 in Hi.
    destruct (encrypted_fingerprint keys current ring randoms Hring _ _ _ Henc) as (key & Hkey & Hfp).
    destruct (later_item _ _ _ _ Hs Hwf' Hi) as (i' & Hi' & Hid). exists key, k, i'.
    injection Hid as _ Hp' _ _ _ _ _ Hf' _ _. split_and!; [done | done | congruence | congruence].
Qed.

(** A cryptography with the laws: the plaintext with a tag of its context *)
Definition tag (key nonce aad : Bytes) : Bytes := take 16 (key ++ nonce ++ aad ++ replicate 16 0)%list.
#[export] Instance open_crypto : Crypto := {
  hkdf_key _ _ n := if 0 <=? n then Some (replicate (Z.to_nat n) 7) else None;
  gcm_seal key nonce plaintext aad := (plaintext ++ tag key nonce aad)%list;
  gcm_open key nonce ciphertext aad :=
    let n := (length ciphertext - 16)%nat in
    if decide (drop n ciphertext = tag key nonce aad) then Some (take n ciphertext) else None;
  hmac_sha256 _ message := take 32 (rev message ++ replicate 32 0)%list }.

#[export] Instance open_crypto_laws : CryptoLaws open_crypto.
Proof.
  assert (forall k n a, length (tag k n a) = 16%nat) as Htag.
  { intros k n a. unfold tag. rewrite length_take, !length_app, length_replicate. lia. }
  split; simpl.
  - intros _ _ n Hn. destruct (Z.leb_spec 0 n); [by eexists|lia].
  - intros _ _ n k. destruct (Z.leb_spec 0 n); [|done]. intros [= <-]. rewrite length_replicate. lia.
  - intros k n p a. rewrite length_app, Htag, Nat.add_sub. rewrite drop_app_length, take_app_length.
    by rewrite decide_True.
  - intros k n p a. by rewrite length_app, Htag.
  - intros k m. rewrite length_take. apply Nat.min_l. rewrite length_app. simpl length. lia.
Qed.

Definition first_keys : gmap Z Bytes := one_key (repeat 1 32) 1.
Definition rotated_keys : gmap Z Bytes := <[2 := repeat 2 32]> first_keys.

(** Two accounts, one of them twice, and an empty line *)
Definition secret : Bytes := codes "user:password".
Definition another_secret : Bytes := codes "user:letmein".
Definition import_text : Bytes := (secret ++ [10] ++ another_secret ++ [13; 10; 10] ++ secret)%list.

Definition keeper_admin : Admin := mkAdmin 1 2 9001 "owner" true UserStatusActive.
Definition importing : Database :=
  perform (OpStartSession keeper_admin SessionInventoryImport "{}" 5000 (mkRequestMeta "req-6" 101)) (calm 80) shop.
Definition import_session : AdminSession :=
  match rows AdminSessionRow importing !! 1 with Some r => mapSession r | None => mkAdminSession 0 0 "" "" 0 0 end.

Definition import_secrets (ring : Cipher) : (Error + InventoryImportResult) * (Database * nat) :=
  InventoryAdminService.Import (mkInventoryImportLimits 10 100 1000)
    (fun n => InventoryCipher.Protect ring false (repeat (Z.of_nat n) 12)) 9001 import_session 1 import_text
    (mkRequestMeta "req-7" 102) (fun _ => calm 90) (importing, 0%nat).
Definition restocked : Database :=
  match InventoryCipher.NewKeyring first_keys 1 with inr ring => (import_secrets ring).2.1 | inl _ => shop end.
Definition resold : Database := perform (OpCreateOrder config order_two) (calm 100) restocked.

Example secrets_are_imported :
  match InventoryCipher.NewKeyring first_keys 1 with
  | inr ring => match (import_secrets ring).1 with
                | inr r => (ir_inserted r, ir_duplicates r, ir_rejected r) = (2, 1, 1)
                | inl _ => False
                end
  | inl _ => False
  end.
Proof. vm_compute. reflexivity. Qed.

(** After a rotation of the keys and an order *)
Lemma imported_secrets_are_recovered_witness :
  exists ids imported, length ids = 2%nat /\
    match InventoryCipher.NewKeyring rotated_keys 2 with
    | inr ring => Forall2 (fun id line => exists i, rows InventoryRow resold !! id = Some i /\ i_product_id i = 1 /\ reveals ring i line)
                    ids imported
    | inl _ => False
    end.
Proof.
  destruct (InventoryCipher.NewKeyring first_keys 1) as [?|ring] eqn:Hring; [vm_compute in Hring; discriminate|].
  destruct (InventoryCipher.NewKeyring rotated_keys 2) as [?|ring'] eqn:Hring'; [vm_compute in Hring'; discriminate|].
  destruct (import_secrets ring) as [[e|r] [d' n']] eqn:Hrun;
    [vm_compute in Hring; injection Hring as <-; vm_compute in Hrun; discriminate|].
  assert (restocked = d' /\ ir_inserted r = 2) as [Hd Hr].
  { unfold restocked. rewrite Hring, Hrun. split; [reflexivity|].
    pose proof secrets_are_imported as Hs. rewrite Hring, Hrun in Hs. cbn in Hs. congruence. }
  destruct (imported_secrets_are_recovered first_keys 1 ring rotated_keys 2 ring'
    (fun n => repeat (Z.of_nat n) 12) (mkInventoryImportLimits 10 100 1000) 9001 import_session 1 import_text
    (mkRequestMeta "req-7" 102) (fun _ => calm 90) importing 0%nat r d' n' resold Hring Hring')
    as (lines & rejected & ids & imported & _ & Hins & _ & _ & _ & _ & _ & Hall & _);
    [vm_compute; reflexivity | | exact Hrun | rewrite <- Hd; apply performs |].
  - apply (shop_steps_ok (keeps db_wf) shop); [apply performs | exact shop_wf].
  - exists ids, imported. split; [lia | exact Hall].
Defined.
