(* ===== verification/Specification.v ===== *)
(** * The shop refines an abstract machine

    What the shop promises about its orders, its stock and its delivery jobs, without
    tables, columns or transactions: a register of things, each of which arrives in
    one state and then moves along permitted edges.  Every history of the shop is a
    history of that machine ([shop_refines_the_specification]). *)

From S2P Require Import Prelude Domain Schema Tx Tables Models QOrders QInventory QPayments QWallet QUsers.
From S2P Require Import QCatalog QBanks QDelivery UpdateStore AdminStore InventoryStore DeliveryStore PaymentStore.
From S2P Require Import WalletStore.
From S2P Require Import OrderService OrderStore PaymentEvents Steps Demo Lifecycle Stock.

(** ** Registers *)

(** Something new arrives as [born]; something known moves along an edge. *)
Inductive register_step {V} (born : V) (edge : V -> V -> Prop) : gmap Z V -> gmap Z V -> Prop :=
  | arrives m k : m !! k = None -> register_step born edge m (<[k := born]> m)
  | moves m k a b : m !! k = Some a -> edge a b -> register_step born edge m (<[k := b]> m).

Lemma register_moves {V} (born : V) edge m k a b :
  m !! k = Some a -> rtc edge a b -> rtc (register_step born edge) m (<[k := b]> m).
Proof.
  intros Hk Hab. revert m Hk. induction Hab as [a|a a' b Hstep _ IH]; intros m Hk.
  - by rewrite insert_id.
  - apply rtc_l with (<[k := a']> m); [by eapply moves|].
    rewrite <- (insert_insert_eq m k b a'). apply IH. by rewrite lookup_insert_eq.
Qed.

(** What a register may become, seen one key at a time *)
Definition grows {V} (born : V) (edge : V -> V -> Prop) (m m' : gmap Z V) : Prop :=
  forall k, match m !! k, m' !! k with
            | Some a, Some b => rtc edge a b
            | None, Some b => rtc edge born b
            | Some _, None => False
            | None, None => True
            end.

Lemma grows_steps_union {V} (born : V) edge m' m :
  (forall k b, m' !! k = Some b -> rtc edge (default born (m !! k)) b) ->
  rtc (register_step born edge) m (m' ∪ m).
Proof.
  induction m' as [|k b m' Hk IH] using map_ind; intros Hm; [by rewrite (left_id_L ∅ (∪))|].
  rewrite <- insert_union_l. transitivity (m' ∪ m).
  - apply IH. intros k' b' Hb'. apply Hm. rewrite lookup_insert_ne; [done|]. intros ->. congruence.
  - specialize (Hm k b (lookup_insert_eq _ _ _)).
    assert (Hlook : (m' ∪ m) !! k = m !! k) by (by rewrite lookup_union_r).
    destruct (m !! k) as [a|] eqn:Ha; simpl in Hm.
    + by eapply register_moves; [rewrite Hlook|].
    + eapply rtc_l; [apply (arrives born edge (m' ∪ m) k); by rewrite Hlook|].
      rewrite <- (insert_insert_eq (m' ∪ m) k b born). eapply register_moves; [by rewrite lookup_insert_eq | done].
Qed.

Lemma grows_steps {V} (born : V) edge m m' : grows born edge m m' -> rtc (register_step born edge) m m'.
Proof.
  intros Hg. assert (m' = m' ∪ m) as ->.
  { apply map_eq. intros k. specialize (Hg k). rewrite lookup_union.
    destruct (m !! k), (m' !! k); simpl; done. }
  apply grows_steps_union. intros k b Hb. specialize (Hg k). rewrite Hb in Hg. by destruct (m !! k).
Qed.

(** ** The abstract shop *)

Record Shop := mkShop { sh_orders : gmap Z OrderStatus; sh_stock : gmap Z ItemState; sh_jobs : gmap Z DeliveryJobStatus }.

Inductive specified_step : Shop -> Shop -> Prop :=
  | order_moves o o' s j :
      register_step OrderStatusPendingPayment order_edge o o' -> specified_step (mkShop o s j) (mkShop o' s j)
  | item_moves o s s' j :
      register_step Free item_edge s s' -> specified_step (mkShop o s j) (mkShop o s' j)
  | job_moves o s j j' :
      register_step DeliveryJobPending job_edge j j' -> specified_step (mkShop o s j) (mkShop o s j').

(** What the abstract shop sees of the database *)
Definition shop_of (d : Database) : Shop :=
  mkShop (o_status <$> rows OrderRow d) (item_state <$> rows InventoryRow d) (j_status <$> rows OutboxRow d).

Lemma rtc_lift {A B} (R : A -> A -> Prop) (S : B -> B -> Prop) (f : A -> B) x y :
  (forall a b, R a b -> S (f a) (f b)) -> rtc R x y -> rtc S (f x) (f y).
Proof. intros Hf. induction 1; [done|]. eapply rtc_l; eauto. Qed.

Lemma specified_steps o o' s s' j j' :
  grows OrderStatusPendingPayment order_edge o o' -> grows Free item_edge s s' ->
  grows DeliveryJobPending job_edge j j' ->
  rtc specified_step (mkShop o s j) (mkShop o' s' j').
Proof.
  intros Ho%grows_steps Hs%grows_steps Hj%grows_steps.
  transitivity (mkShop o' s j).
  { apply (rtc_lift (register_step OrderStatusPendingPayment order_edge) specified_step (fun o => mkShop o s j)); [|done].
    intros; by constructor. }
  transitivity (mkShop o' s' j).
  { apply (rtc_lift (register_step Free item_edge) specified_step (fun s => mkShop o' s j)); [|done].
    intros; by constructor. }
  apply (rtc_lift (register_step DeliveryJobPending job_edge) specified_step (mkShop o' s')); [|done].
  intros; by constructor.
Qed.

(** ** How the rows of a table develop: known rows evolve, new ones are well born *)

Section Develops.
Context {R : Type} `{TableLaws R} (E : R -> R -> Prop) `{!PreOrder E} (I : R -> Prop).

Definition develops (d d' : Database) : Prop :=
  evolves R E d d' /\ forall k r', rows R d' !! k = Some r' -> rows R d !! k = None -> I r'.

Class Inherited : Prop := inherited a b : I a -> E a b -> I b.
Context `{!Inherited}.

#[export] Instance develops_preorder : PreOrder develops.
Proof.
  split.
  - intros d. split; [reflexivity|]. intros k r' Hr' Hn. congruence.
  - intros d1 d2 d3 [He12 Hb12] [He23 Hb23]. split; [by transitivity d2|].
    intros k r3 Hr3 Hn. destruct (rows R d2 !! k) as [r2|] eqn:Hr2; [|by eapply Hb23].
    destruct (He23 k r2 Hr2) as (r & Hr & HE). rewrite Hr3 in Hr. injection Hr as <-.
    eapply inherited; [|exact HE]. by eapply Hb12.
Qed.

Lemma respects_insert_develops mk : (forall k, I (mk k)) -> respects develops (insert_row (R := R) mk).
Proof.
  intros Hmk env d r d' Hi. split; [by eapply (respects_insert_own E mk)|].
  apply insert_row_Ok in Hi as (-> & _ & Hrows & _). intros k r'. rewrite Hrows.
  intros [[_ <-]|[_ ?]]%lookup_insert_Some ?; [apply Hmk | congruence].
Qed.

Lemma respects_insert_nothing_develops mk : (forall k, I (mk k)) -> respects develops (insert_row_or_nothing (R := R) mk).
Proof. intros Hmk env d r d' ?%insert_row_or_nothing_Ok. by eapply respects_insert_develops. Qed.

Lemma respects_insert_unless_develops conflict mk :
  (forall k, I (mk k)) -> respects develops (insert_row_unless (R := R) conflict mk).
Proof. intros Hmk env d r d' [_ ?]%insert_row_unless_Ok. by eapply respects_insert_develops. Qed.

(** A statement that inserts no row *)
Lemma develops_evolves {A} (m : Tx Database A) :
  respects (evolves R E) m -> respects (derived R (fun _ => tt)) m -> respects develops m.
Proof.
  intros He Hd env d a d' Hrun. split; [by eapply He|].
  intros k r' Hr' Hn. destruct (Hd _ _ _ _ Hrun k r' Hr') as (r & Hr & _). congruence.
Qed.

(** The same under the constraints of the schema *)
Lemma develops_evolves_wf {A} (m : Tx Database A) :
  respects (under db_wf (evolves R E)) m -> respects (derived R (fun _ => tt)) m -> respects (under db_wf develops) m.
Proof.
  intros He Hd env d a d' Hrun Hwf. destruct (He _ _ _ _ Hrun Hwf) as [Hwf' Hev].
  split; [done|]. split; [done|].
  intros k r' Hr' Hn. destruct (Hd _ _ _ _ Hrun k r' Hr') as (r & Hr & _). congruence.
Qed.

(** From the rows to the register *)
Lemma develops_grows {V} (f : R -> V) (born : V) edge d d' :
  (forall a b, E a b -> rtc edge (f a) (f b)) -> (forall r, I r -> rtc edge born (f r)) ->
  develops d d' -> grows born edge (f <$> rows R d) (f <$> rows R d').
Proof.
  intros HE HI [Hev Hborn] k. rewrite !lookup_fmap.
  destruct (rows R d !! k) as [r|] eqn:Hr; simpl.
  - destruct (Hev k r Hr) as (r' & -> & He). simpl. by apply HE.
  - destruct (rows R d' !! k) as [r'|] eqn:Hr'; simpl; [|done]. apply HI. by eapply Hborn.
Qed.
End Develops.

#[export] Instance develops_unaffected V W `{TableLaws V} `{Table W} E I `{!PreOrder E} `{!Frame V W} :
  Unaffected (develops E I (R := V)) W.
Proof.
  intros t d. split; [by apply evolves_unaffected|]. intros k r'. rewrite rows_frame. congruence.
Qed.

(** ** The three tables *)

Definition order_born (o : OrderRow) : Prop := order_path OrderStatusPendingPayment (o_status o).
Definition item_born (i : InventoryRow) : Prop := rtc item_edge Free (item_state i).
Definition job_born (j : OutboxRow) : Prop := rtc job_edge DeliveryJobPending (j_status j).

Lemma order_step_path o o' : order_step o o' -> order_path (o_status o) (o_status o').
Proof. intros [-> | (_ & Hp & _)]; [done | by apply tc_rtc]. Qed.
Lemma item_step_path i i' : item_step i i' -> rtc item_edge (item_state i) (item_state i').
Proof. intros (n & _ & Hp & _). apply rtc_nsteps. by exists n. Qed.
Lemma resolved_step_path j j' : resolved_step j j' -> rtc job_edge (j_status j) (j_status j').
Proof. by intros [-> | (_ & _ & _ & Hp & _)]. Qed.

#[export] Instance order_born_inherited : Inherited order_step order_born.
Proof. intros a b Ha Hab. unfold order_born in *. etransitivity; [exact Ha|]. by apply order_step_path. Qed.
#[export] Instance item_born_inherited : Inherited item_step item_born.
Proof. intros a b Ha Hab. unfold item_born in *. etransitivity; [exact Ha|]. by apply item_step_path. Qed.
#[export] Instance job_born_inherited : Inherited resolved_step job_born.
Proof. intros a b Ha Hab. unfold job_born in *. etransitivity; [exact Ha|]. by apply resolved_step_path. Qed.

#[local] Hint Extern 1 (respects (derived _ _) (update_row _ _ _)) => (by apply respects_update_derived) : tx.
#[local] Hint Extern 1 (respects (derived _ _) (update_rows _ _ _)) => (by apply respects_update_rows_derived) : tx.

Lemma CreatePendingOrder_born u s t r k e b env :
  respects (develops order_step order_born) (CreatePendingOrderWithBank u s t r k e b env).
Proof.
  apply respects_bind; [apply _ | apply respects_clock; apply _ | intros now].
  apply respects_insert_nothing_develops; [apply _|]. intros id. apply rtc_refl.
Qed.

#[export] Instance preserved_orders_born : Preserved (develops order_step order_born).
Proof.
  preserved_statements; first
    [ apply CreatePendingOrder_born | apply develops_evolves; [solve [eauto with tx nocore] | solve [preserve]] ].
Qed.

Lemma InsertEncryptedInventoryItem_born p pl k n kv f a :
  respects (develops item_step item_born) (InsertEncryptedInventoryItem p pl k n kv f a).
Proof.
  apply respects_bind; [apply _ | apply respects_clock; apply _ | intros now].
  apply respects_bind; [apply _ | | intros ?; apply respects_ret; apply _].
  apply respects_insert_unless_develops; [apply _|]. intros id. apply rtc_refl.
Qed.

#[export] Instance preserved_items_born : Preserved (under db_wf (develops item_step item_born)).
Proof.
  preserved_statements; first
    [ apply respects_under; [preserve | apply InsertEncryptedInventoryItem_born]
    | apply develops_evolves_wf; [solve [eauto with tx nocore] | solve [preserve]] ].
Qed.

Lemma InsertDeliveryJob_born o n t c : respects (develops resolved_step job_born) (InsertDeliveryJob o n t c).
Proof.
  apply respects_bind; [apply _ | apply respects_clock; apply _ | intros now].
  apply respects_insert_unless_develops; [apply _|]. intros id. apply rtc_refl.
Qed.
#[local] Hint Resolve InsertDeliveryJob_born : tx.

#[export] Instance preserved_jobs_born : Preserved (under db_wf (develops resolved_step job_born)).
Proof.
  preserved_statements; first
    [ apply develops_evolves_wf; [solve [eauto with tx nocore] | solve [preserve]]
    | apply respects_under; preserve ].
Qed.

(** ** Refinement *)

(** C13: every history of the shop, whatever runs and whatever fails, is a history of
    the abstract shop: orders arrive pending and move along the order lifecycle, items
    of stock arrive free and move along [item_edge], delivery jobs arrive pending and
    move along [job_edge], a worker's or an administrator's; nothing ever disappears. *)
Theorem shop_refines_the_specification d d' :
  shop_steps d d' -> db_wf d -> rtc specified_step (shop_of d) (shop_of d').
Proof.
  intros Hs Hwf. apply specified_steps.
  - eapply (develops_grows order_step order_born); [apply order_step_path | done | by apply (shop_steps_ok _)].
  - eapply (develops_grows item_step item_born); [apply item_step_path | done|].
    by apply (shop_steps_ok (under db_wf (develops item_step item_born)) d d' Hs).
  - eapply (develops_grows resolved_step job_born); [apply resolved_step_path | done|].
    by apply (shop_steps_ok (under db_wf (develops resolved_step job_born)) d d' Hs).
Qed.

Lemma shop_refines_the_specification_witness :
  rtc specified_step (mkShop ∅ {[1 := Free; 2 := Free; 3 := Free]} ∅)
    (mkShop {[1 := OrderStatusDelivered]} {[1 := SoldTo 1; 2 := SoldTo 1; 3 := Free]} {[1 := DeliveryJobCompleted]}).
Proof.
  change (rtc specified_step (shop_of shop) (shop_of delivered)).
  apply shop_refines_the_specification; [exact sale_steps | exact shop_wf].
Defined.
