(* ===== verification/Checkpoints.v ===== *)
(** * What reconciliation guarantees

    The checkpoint of an account never moves past a page of transactions that was not
    ingested, a pass over an account reads a bounded number of pages, and a job whose
    lease was taken over can no longer move the checkpoint. *)

From S2P Require Import Text Prelude Domain Schema Tx Tables Models QOrders QInventory QPayments QWallet QUsers.
From S2P Require Import QCatalog QBanks QDelivery UpdateStore AdminStore InventoryStore DeliveryStore PaymentStore.
From S2P Require Import WalletStore.
From S2P Require Import OrderService OrderStore PaymentReference PaymentEvents Providers Program Reconciliation.
From S2P Require Import Steps Demo Lifecycle.

(** ** The calls of one account *)

Section Account.
Context (j : ReconciliationJob) (account : ProviderAccount).
Abbreviation trace := (list (called reconcile_answer)).

(** The transaction was ingested (for the first time or again). *)
Definition ingested (event : NormalizedPaymentEvent) (c : called reconcile_answer) : Prop :=
  exists result, c = did (CallIngest (stamp account event)) (inr result).

Definition is_advance (c : called reconcile_answer) : Prop :=
  match projT1 c with CallAdvance _ _ _ _ => True | _ => False end.
Definition is_fetch (c : called reconcile_answer) : bool :=
  match projT1 c with CallFetch _ _ => true | _ => false end.
Definition fetches (t : trace) : nat := length (filter (fun c => is_fetch c = true) t).

Definition page_request (cursor : string) : ListTransactionsRequest :=
  mkListTransactionsRequest (pc_id account) (pc_identity account) (pc_environment account) cursor (rj_page_size j).

(** The calls before an advance end with the fetch of a page and the ingestion of
    all its transactions; the advance is to the cursor of that page. *)
Definition page_was_ingested (before : trace) (cursor : string) : Prop :=
  exists earlier start page calls,
    before = (earlier ++ did (CallFetch (pc_provider account) (page_request start)) (inr page) :: calls)%list /\
    Forall2 ingested (tg_transactions page) calls /\ cursor = next_cursor start page.

Definition guarded (t : trace) : Prop :=
  forall before after checkpoint cursor last_transaction last_occurred_at x,
    t = (before ++ did (CallAdvance checkpoint cursor last_transaction last_occurred_at) x :: after)%list ->
    page_was_ingested before cursor.

Lemma ingest_all_runs summary last_id last_at events t summary' read :
  runs (ingest_all account summary last_id last_at events) t (summary', read) ->
  Forall (fun c => ~ is_advance c) t /\ fetches t = 0%nat /\
  match read with inr _ => Forall2 ingested events t | inl _ => True end.
Proof.
  revert summary last_id last_at t. induction events as [|event events IH]; intros summary last_id last_at t.
  - intros [-> [= -> ->]]. split_and!; [constructor | done | constructor].
  - intros (x & t' & -> & Ht). destruct x as [e|result]; simpl in Ht.
    + destruct Ht as [-> [= -> ->]]. split_and!; [by constructor; [intros []|constructor] | done | done].
    + apply IH in Ht as (Ha & Hf & Hr). split_and!; [constructor; [by intros [] | done] | done |].
      destruct read; [done|]. constructor; [by exists result | done].
Qed.

(** A trace without advances and fetches *)
Definition quiet (t : trace) : Prop := Forall (fun c => ~ is_advance c) t /\ fetches t = 0%nat.

Lemma failing_runs summary checkpoint e t r : runs (failing summary checkpoint e) t r -> quiet t.
Proof. intros (x & t' & -> & -> & _). split; [by repeat constructor; intros [] | done]. Qed.

Lemma completing_runs summary checkpoint t r : runs (completing summary checkpoint) t r -> quiet t.
Proof.
  intros (now & t' & -> & x & t'' & -> & Ht). simpl in Ht.
  assert (quiet t'') as [Ha Hf].
  { destruct x as [e|[[]|]]; try by eapply failing_runs. destruct Ht as [-> _]. by split; [constructor|]. }
  split; [by repeat constructor; try intros []; eauto | done].
Qed.

Lemma quiet_guarded t : quiet t -> guarded t.
Proof.
  intros [Ha _] before after checkpoint cursor last_id last_at x ->.
  apply Forall_app in Ha as [_ Ha]. inversion_clear Ha as [|? ? Hx _]. by destruct Hx.
Qed.

Lemma page_was_ingested_later prefix before cursor :
  page_was_ingested before cursor -> page_was_ingested (prefix ++ before) cursor.
Proof.
  intros (earlier & start & page & calls & -> & Hc & ->).
  exists (prefix ++ earlier)%list, start, page, calls. by rewrite (assoc_L (++)).
Qed.

(** A page that was ingested, the advance past it, and guarded calls after that *)
Lemma page_guarded start page calls checkpoint last_id last_at x rest :
  Forall2 ingested (tg_transactions page) calls -> Forall (fun c => ~ is_advance c) calls -> guarded rest ->
  guarded (did (CallFetch (pc_provider account) (page_request start)) (inr page) :: calls ++
           did (CallAdvance checkpoint (next_cursor start page) last_id last_at) x :: rest)%list.
Proof.
  intros Hing Hcalls Hrest before after checkpoint' cursor last_id' last_at' x' Heq.
  set (fetch := did (CallFetch (pc_provider account) (page_request start)) (inr page) : called reconcile_answer) in *.
  destruct (app_split_at is_advance (fetch :: calls)
              (did (CallAdvance checkpoint (next_cursor start page) last_id last_at) x :: rest)%list before after
              (did (CallAdvance checkpoint' cursor last_id' last_at') x')) as (before' & -> & Hin).
  - by rewrite <- Heq.
  - constructor; [by intros [] | done].
  - done.
  - destruct before' as [|b before']; simpl in Hin.
    + apply (f_equal (fun l => match l with c :: _ => Some (projT1 c) | [] => None end)) in Hin.
      injection Hin as _ <- _ _. exists [], start, page, calls. split_and!; [by rewrite app_nil_r | done | done].
    + injection Hin as _ ->.
      replace ((fetch :: calls) ++ b :: before')%list with ((fetch :: calls ++ [b]) ++ before')%list
        by (simpl; by rewrite <- (assoc_L (++))).
      apply page_was_ingested_later. by eapply Hrest.
Qed.

Lemma fetches_app t t' : fetches (t ++ t') = (fetches t + fetches t')%nat.
Proof. unfold fetches. by rewrite filter_app, length_app. Qed.

Lemma quiet_app c t : ~ is_advance c -> is_fetch c = false -> quiet t -> quiet (c :: t).
Proof. intros Hc Hf [Ha Ht]. split; [by constructor | by unfold fetches; rewrite filter_cons_False by congruence]. Qed.

Lemma pages_runs n summary checkpoint cursor t r :
  runs (pages j account n summary checkpoint cursor) t r -> guarded t /\ (fetches t <= n)%nat.
Proof.
  revert summary checkpoint cursor t. induction n as [|n IH]; intros summary checkpoint cursor t.
  { intros Ht%completing_runs. split; [by apply quiet_guarded | destruct Ht; lia]. }
  intros (x & t' & -> & Ht).
  assert (Hfetch : forall rest, fetches (did (CallFetch (pc_provider account) (page_request cursor)) x :: rest) = S (fetches rest))
    by done.
  assert (Hquiet : forall rest, Forall (fun c => ~ is_advance c) rest -> fetches rest = 0%nat ->
            guarded (did (CallFetch (pc_provider account) (page_request cursor)) x :: rest) /\
            (fetches (did (CallFetch (pc_provider account) (page_request cursor)) x :: rest) <= S n)%nat).
  { intros rest Ha Hf. split; [|rewrite Hfetch; lia].
    intros before after checkpoint' cursor' last_id last_at x' Heq. exfalso.
    assert (Hall : Forall (fun c => ~ is_advance c) (before ++ did (CallAdvance checkpoint' cursor' last_id last_at) x' :: after)%list).
    { rewrite <- Heq. constructor; [by intros [] | done]. }
    apply Forall_app in Hall as [_ Hall]. inversion_clear Hall as [|? ? Hx _]. by apply Hx. }
  destruct x as [e|page]; [apply failing_runs in Ht as [Ha Hf]; by apply Hquiet|]. simpl in Ht.
  destruct (malformed cursor page); [apply failing_runs in Ht as [Ha Hf]; by apply Hquiet|].
  apply runs_bind in Ht as ([summary' read] & t1 & t2 & -> & Hing & Ht).
  apply ingest_all_runs in Hing as (Ha1 & Hf1 & Hread).
  destruct read as [e|[last_id last_at]].
  { apply failing_runs in Ht as [Ha Hf]. apply Hquiet; [by apply Forall_app | rewrite fetches_app; lia]. }
  destruct Ht as (x & t3 & -> & Ht).
  assert (Hrest : guarded t3 /\ (fetches t3 <= n)%nat).
  { destruct x as [e|[checkpoint'|]]; cbn beta iota in Ht.
    - apply failing_runs in Ht. split; [by apply quiet_guarded | destruct Ht; lia].
    - destruct (negb (tg_has_more page)); [|by eapply IH].
      apply completing_runs in Ht. split; [by apply quiet_guarded | destruct Ht; lia].
    - apply failing_runs in Ht. split; [by apply quiet_guarded | destruct Ht; lia]. }
  destruct Hrest as [Hg Hf]. split; [by apply page_guarded|].
  rewrite Hfetch, fetches_app, Hf1. simpl. change (fetches (did (CallAdvance checkpoint (next_cursor cursor page) last_id last_at) x :: t3)) with (fetches t3). lia.
Qed.

Lemma reconcileAccount_runs t r :
  runs (reconcileAccount j account) t r -> guarded t /\ (fetches t <= Z.to_nat (rj_max_pages j))%nat.
Proof.
  intros (x & t1 & -> & Ht).
  assert (Hpre : forall c t, ~ is_advance c -> is_fetch c = false -> guarded t /\ (fetches t <= Z.to_nat (rj_max_pages j))%nat ->
            guarded (c :: t) /\ (fetches (c :: t) <= Z.to_nat (rj_max_pages j))%nat).
  { intros c t Hc Hf [Hg Hn]. split; [|unfold fetches; by rewrite filter_cons_False by congruence].
    intros before after checkpoint cursor last_id last_at x' Heq.
    destruct before as [|b before]; simpl in Heq.
    - apply (f_equal (fun l => match l with c' :: _ => is_advance c' | [] => False end)) in Heq. destruct Hc. by rewrite Heq.
    - injection Heq as -> Heq. apply (page_was_ingested_later [b]). by eapply Hg. }
  assert (Hnil : guarded [] /\ (fetches [] <= Z.to_nat (rj_max_pages j))%nat).
  { split; [apply quiet_guarded; by split | apply Nat.le_0_l]. }
  apply Hpre; [by intros [] | done |]. destruct x as [e|checkpoint]; cbn beta iota in Ht; [by destruct Ht as [-> _]|].
  destruct Ht as (now & t2 & -> & x & t3 & -> & Ht).
  apply Hpre; [by intros [] | done |]. apply Hpre; [by intros [] | done |].
  destruct x as [e|[claimed|]]; cbn beta iota in Ht; [by destruct Ht as [-> _] | by eapply pages_runs | by destruct Ht as [-> _]].
Qed.

(** C38: in every run over an account, whatever the store, the provider and the
    ingestion answer, the checkpoint is advanced only to the cursor of a page that the
    provider has just returned and all of whose transactions, in order, have just been
    ingested without an error: no transaction is ever skipped. *)
Theorem cursors_move_only_past_ingested_pages t r before after checkpoint cursor last_transaction last_occurred_at x :
  runs (reconcileAccount j account) t r ->
  t = (before ++ did (CallAdvance checkpoint cursor last_transaction last_occurred_at) x :: after)%list ->
  page_was_ingested before cursor.
Proof. intros [Hg _]%reconcileAccount_runs Ht. by eapply Hg. Qed.

(** C40: a pass over an account always ends, whatever it is answered, and asks the
    provider for at most [maxPages] pages. *)
Theorem reconciliation_reads_a_bounded_number_of_pages (outside : nat -> forall c, reconcile_answer c) :
  exists t r, run_trace outside 0 (reconcileAccount j account) = (t, r) /\ runs (reconcileAccount j account) t r /\
    (fetches t <= Z.to_nat (rj_max_pages j))%nat.
Proof.
  pose proof (run_trace_runs outside 0 (reconcileAccount j account)) as Hr.
  destruct (run_trace _ _ _) as [t r]. exists t, r. split_and!; [done | done |]. by apply reconcileAccount_runs in Hr as [_ Hf].
Qed.
End Account.

(** A provider with two pages of one transaction each *)
Definition one_page (cursor : string) : TransactionPage :=
  if str_eqb cursor "" then mkTransactionPage [notice] "p1" true else mkTransactionPage [notice] "p2" false.
Definition leased (version : Z) (cursor : string) : ProviderCheckpoint := mkProviderCheckpoint 1 1 cursor "" 0 "w1" version.
Definition two_pages (n : nat) (c : reconcile_call) : reconcile_answer c :=
  match c with
  | CallAccounts => inr []
  | CallEnsure _ => inr (leased 1 "")
  | CallClaimCheckpoint _ _ _ _ => inr (Some (leased 2 ""))
  | CallFetch _ request => inr (one_page (lt_cursor request))
  | CallIngest _ => inr (mkPaymentEventIngestionResult 1 false)
  | CallAdvance checkpoint cursor _ _ => inr (Some (leased (ck_version checkpoint + 1) cursor))
  | CallComplete _ _ => inr (Some tt)
  | CallFail _ _ => inr (Some tt)
  | CallNow => 1000
  end.
Definition reader : ReconciliationJob := mkReconciliationJob ∅ "w1" 5 100 10 60.
Definition read_account : ProviderAccount := mkProviderAccount 1 "acb" "production" "999" 1.

Lemma cursors_move_only_past_ingested_pages_witness :
  let t := (run_trace two_pages 0 (reconcileAccount reader read_account)).1 in
  exists before x, take 9 t = (before ++ [did (CallAdvance (leased 3 "p1") "p2" "txn-1" 1100) x])%list /\
    page_was_ingested reader read_account before "p2".
Proof.
  intros t. eexists (take 8 t), _. split; [vm_compute; reflexivity|].
  eapply (cursors_move_only_past_ingested_pages reader read_account t _ (take 8 t) (drop 9 t) (leased 3 "p1") "p2" "txn-1" 1100).
  - apply (run_trace_runs two_pages 0).
  - vm_compute. reflexivity.
Defined.

(** ** Leases *)

(** A checkpoint row only changes with a larger version. *)
Definition checkpoint_step (c c' : CheckpointRow) : Prop := c' = c \/ cp_version c < cp_version c'.

#[export] Instance checkpoint_step_preorder : PreOrder checkpoint_step.
Proof.
  split; [by left|]. intros a b c [->|Hab] [->|Hbc]; [by left | by right | by right | right; lia].
Qed.

Ltac checkpoint_update :=
  intros; autounfold with tx_queries; apply respects_update_own; [apply _|]; intros ? _ _; right; simpl; lia.

Lemma EnsurePaymentProviderCheckpoint_step i : respects (evolves CheckpointRow checkpoint_step) (EnsurePaymentProviderCheckpoint i).
Proof. apply respects_upsert_own; [apply _|]. by left. Qed.

#[export] Instance preserved_checkpoints : Preserved (evolves CheckpointRow checkpoint_step).
Proof.
  preserved_statements; first [apply EnsurePaymentProviderCheckpoint_step | checkpoint_update | preserve].
Qed.

(** A job whose checkpoint is older than the row cannot move it. *)
Lemma stale_checkpoint_dead checkpoint cursor last_id last_at env d c :
  rows CheckpointRow d !! ck_id checkpoint = Some c -> ck_version checkpoint < cp_version c ->
  (exists r, AdvanceProviderCheckpoint checkpoint cursor last_id last_at env d = (r, d) /\ forall ck, r <> inr (Some ck)).
Proof.
  intros Hc Hv. unfold AdvanceProviderCheckpoint, autocommit, WithinTransaction.
  destruct (env_begin env); [|by eexists|by eexists].
  unfold mbind, Tx_bind, try_row, AdvancePaymentProviderCheckpoint, update_row. rewrite Hc.
  unfold lease_held. rewrite (proj2 (Z.eqb_neq _ _)) by lia. simpl.
  destruct (env_commit env); by eexists.
Qed.

Lemma ClaimProviderCheckpoint_Ok id owner attempted_at expires_at env d ck d' c :
  rows CheckpointRow d !! id = Some c ->
  ClaimProviderCheckpoint id owner attempted_at expires_at env d = (inr (Some ck), d') ->
  (cp_lease_owner c = None \/ exists t, cp_lease_expires_at c = Some t /\ t <= attempted_at) /\
  exists c', rows CheckpointRow d' !! id = Some c' /\ cp_version c' = cp_version c + 1 /\
    ck = mapProviderCheckpoint c' /\ cp_lease_owner c' = optionalText owner /\ cp_lease_expires_at c' = Some expires_at.
Proof.
  intros Hc. unfold ClaimProviderCheckpoint, autocommit, WithinTransaction, mbind, Tx_bind, try_row,
    ClaimPaymentProviderCheckpoint, update_row. rewrite Hc.
  destruct (env_begin env); try discriminate.
  destruct (is_none (cp_lease_owner c) || _) eqn:Hg; [|simpl; by destruct (env_commit env)].
  destruct (write_row id _ env d) as [c' d1|[]] eqn:Hw; simpl; try discriminate; [|by destruct (env_commit env)].
  destruct (env_commit env); try discriminate. intros [= <- <-].
  apply write_row_Ok in Hw as (-> & -> & _). split.
  - apply orb_true_iff in Hg as [Hg|Hg]; [left; by destruct (cp_lease_owner c) | right].
    destruct (cp_lease_expires_at c) as [t|]; [|done]. exists t. split; [done | lia].
  - eexists. rewrite rows_put, lookup_insert_eq. by split_and!.
Qed.

(** C39: the checkpoint of an account is leased to one job at a time.  A claim only
    succeeds on a free or expired lease, and from then on, in every history, a job
    that still holds an earlier lease of the checkpoint cannot advance it: its advance
    is refused and changes nothing. *)
Theorem leases_are_exclusive id owner attempted_at expires_at env d c ck d1 d' old cursor last_id last_at env' :
  rows CheckpointRow d !! id = Some c ->
  ClaimProviderCheckpoint id owner attempted_at expires_at env d = (inr (Some ck), d1) ->
  shop_steps d1 d' -> ck_id old = id -> ck_version old <= cp_version c ->
  (cp_lease_owner c = None \/ exists t, cp_lease_expires_at c = Some t /\ t <= attempted_at) /\
  exists r, AdvanceProviderCheckpoint old cursor last_id last_at env' d' = (r, d') /\ forall ck', r <> inr (Some ck').
Proof.
  intros Hc Hclaim Hs <- Hold.
  destruct (ClaimProviderCheckpoint_Ok _ _ _ _ _ _ _ _ _ Hc Hclaim) as (Hfree & c1 & Hc1 & Hv1 & _).
  split; [done|].
  destruct (shop_steps_ok (evolves CheckpointRow checkpoint_step) d1 d' Hs _ _ Hc1) as (c' & Hc' & Hstep).
  eapply stale_checkpoint_dead; [exact Hc'|]. destruct Hstep as [-> | ?]; lia.
Qed.

Definition opened : Database := perform (OpEnsureCheckpoint 1) (calm 900) shop.
Definition leased_to_w1 : Database := perform (OpClaimCheckpoint 1 "w1" 1000 1060) (calm 1000) opened.

Lemma leases_are_exclusive_witness :
  exists ck d1, ClaimProviderCheckpoint 1 "w2" 1100 1160 (calm 1100) leased_to_w1 = (inr (Some ck), d1) /\
    exists r, AdvanceProviderCheckpoint (leased 2 "") "p1" "txn-1" 1100 (calm 1120) d1 = (r, d1) /\ forall ck', r <> inr (Some ck').
Proof.
  destruct (rows CheckpointRow leased_to_w1 !! 1) as [c|] eqn:Hc; [|vm_compute in Hc; discriminate].
  destruct (ClaimProviderCheckpoint 1 "w2" 1100 1160 (calm 1100) leased_to_w1) as [[e|[ck|]] d1] eqn:Hclaim;
    [vm_compute in Hclaim; discriminate | | vm_compute in Hclaim; discriminate].
  exists ck, d1. split; [done|].
  destruct (leases_are_exclusive 1 "w2" 1100 1160 (calm 1100) leased_to_w1 c ck d1 d1 (leased 2 "") "p1" "txn-1" 1100 (calm 1120)
              Hc Hclaim (rtc_refl _ _) eq_refl) as [_ Hdead]; [|exact Hdead].
  vm_compute in Hc. injection Hc as <-. vm_compute. discriminate.
Defined.
