(* ===== verification/Notifications.v ===== *)
(** * What a notification may do

    The signed provider accepts exactly the authentic, fresh and well-formed
    notifications, what it accepts is fit for ingestion, and a provider that gets a
    positive acknowledgement can rely on the notification being stored. *)

From Stdlib Require Import Ascii.
From S2P Require Import Text Prelude Domain Schema Tx Tables Models QOrders QInventory QPayments QWallet QUsers.
From S2P Require Import UpdateStore PaymentStore PaymentReference PaymentEvents Providers Webhooks Demo.

Section Signed.
Context (HMAC : Bytes -> Bytes -> Bytes) (Sum256 : Bytes -> Bytes).
Context (unmarshal : Bytes -> option signedJSONPayload) (sanitize : signedJSONPayload -> option SanitizedMetadata).
Context (s : SignedJSON).
Abbreviation verify := (VerifyAndNormalize HMAC Sum256 unmarshal sanitize s).

(** The body carries the HMAC of itself under the shared secret. *)
Definition signed_by (secret : Bytes) (headers : string -> string) (body : Bytes) : Prop :=
  hex_decode (TrimSpace (headers signatureHeader)) = Some (HMAC secret body) /\ length (HMAC secret body) = 32%nat.

Definition fresh (headers : string -> string) (payload : signedJSONPayload) (now : Time) : Prop :=
  ParseInt 64 (TrimSpace (headers timestampHeader)) = Some (sp_timestamp payload) /\
  Z.abs (now - unix_time (sp_timestamp payload)) <= sj_tolerance s.

Lemma authentic_spec headers body : authentic HMAC s headers body = true <-> signed_by (sj_secret s) headers body.
Proof.
  unfold authentic, signed_by. destruct (hex_decode _) as [provided|]; [|split; [done | by intros []]].
  rewrite andb_true_iff, Nat.eqb_eq, bool_decide_eq_true. split.
  - by intros [Hl ->].
  - by intros [[= ->] Hl].
Qed.

Lemma outsideTolerance_spec now t tolerance :
  0 <= tolerance < int64_max -> outsideTolerance now t tolerance = false <-> Z.abs (now - t) <= tolerance.
Proof.
  unfold outsideTolerance, time_sub, int64_max, int64_min. intros Ht.
  rewrite orb_false_iff, !Z.ltb_ge. lia.
Qed.

(** C36: a signed notification is accepted exactly when it is signed with the shared
    secret over exactly its body, its signed timestamp is the one of its header and
    within the tolerance of the clock, and its payload is valid; the event then says
    what the payload says. *)
Theorem signed_notifications_are_verified headers body now event :
  0 <= sj_tolerance s < int64_max ->
  verify headers body now = inr event <->
  exists payload metadata,
    signed_by (sj_secret s) headers body /\ unmarshal body = Some payload /\ fresh headers payload now /\
    validPayload payload = true /\ sanitize payload = Some metadata /\ event = signed_event Sum256 s payload body metadata.
Proof.
  intros Htol. unfold VerifyAndNormalize, fresh. split.
  - destruct (authentic HMAC s headers body) eqn:Ha; simpl; [|discriminate].
    apply authentic_spec in Ha.
    destruct (ParseInt 64 _) as [ts|]; [|discriminate]. destruct (unmarshal body) as [payload|] eqn:Hu; [|discriminate].
    destruct (negb (sp_timestamp payload =? ts) || _) eqn:Ho; [discriminate|].
    apply orb_false_iff in Ho as [Hts%negb_false_iff%Z.eqb_eq Ho%(outsideTolerance_spec _ _ _ Htol)].
    destruct (validPayload payload) eqn:Hv; simpl; [|discriminate]. destruct (sanitize payload) as [metadata|] eqn:Hm; [|discriminate].
    intros [= <-]. subst ts. exists payload, metadata. by split_and!.
  - intros (payload & metadata & Ha%authentic_spec & -> & (-> & Ho) & Hv & Hm & ->). rewrite Ha. simpl.
    rewrite Z.eqb_refl, (proj2 (outsideTolerance_spec _ _ _ Htol) Ho), Hv, Hm. done.
Qed.

Lemma trimmed_spec n t : trimmed n t = true -> TrimSpace t = t /\ str_eqb t "" = false.
Proof.
  unfold trimmed. rewrite !andb_true_iff, negb_true_iff. by intros [[?%str_eqb_eq ?] _].
Qed.

(** C37: what the provider accepts always passes the checks of the ingestion: a
    verified notification is never refused as malformed afterwards. *)
Theorem verified_notifications_are_fit_for_ingestion (sha : string -> Bytes) (Format : Time -> string) headers body now event maxAttempts :
  (forall b, length (sha b) = 32%nat) -> (forall b, length (Sum256 b) = 32%nat) ->
  (forall p m, sanitize p = Some m -> sm_valid m = true) ->
  validEnvironment (sj_environment s) = true -> 0 < maxAttempts ->
  verify headers body now = inr event ->
  invalid_event (normalizePaymentEvent sha Format event) maxAttempts = false.
Proof.
  intros Hsha Hsum Hvalid Henv Hmax. unfold VerifyAndNormalize.
  destruct (negb (authentic _ _ _ _)); [discriminate|]. destruct (ParseInt 64 _); [|discriminate].
  destruct (unmarshal body) as [p|]; [|discriminate]. destruct (negb (sp_timestamp p =? _) || _); [discriminate|].
  destruct (validPayload p) eqn:Hv; [|discriminate]. simpl. destruct (sanitize p) as [m|] eqn:Hm; [|discriminate].
  intros [= <-]. apply Hvalid in Hm. unfold validPayload in Hv. rewrite !andb_true_iff in Hv.
  destruct Hv as [[[[[[[[[Hid Htx] Hty] _] Hdir] Hcontent] _] Hamount] Hcur] Hocc].
  apply trimmed_spec in Hid as [Hid Hid'], Htx as [Htx Htx'], Hcontent as [Hc Hc'].
  apply str_eqb_eq in Hty, Hcur. apply negb_true_iff in Hocc. apply bool_decide_eq_true in Henv, Hdir.
  unfold normalizePaymentEvent, invalid_event.
  cbn -[TrimSpace ToUpper ToLower or_default str_eqb paymentBusinessFingerprint validPaymentEnvironment validPaymentSource time_is_zero].
  unfold paymentBusinessFingerprint. rewrite Hid, Htx, Hc, Hid', Htx', Hty, Hcur, Hocc, Hsum, Hsha, Hm.
  unfold or_default at 1. rewrite Hc', Hc', (proj2 (Z.leb_gt _ _)) by lia. rewrite (proj2 (Z.leb_gt maxAttempts 0)) by lia.
  in_cases Henv; in_cases Hdir; rewrite Henv, Hdir; reflexivity.
Qed.
End Signed.

(** ** Webhooks *)

Section Webhook.
Context (ParseMediaType : string -> option string) (CanonicalHeaderKey : string -> string).
Context (sha : string -> Bytes) (Format : Time -> string) (maxAttempts : Z) (registry : Registry).
Abbreviation ingest := (Ingest sha Format maxAttempts).
Abbreviation handler := (PaymentWebhook_Handler ParseMediaType CanonicalHeaderKey registry ingest).

(** The stored row of the event: that of the same notification, or of the same
    transaction *)
Definition stored (event : NormalizedPaymentEvent) (d : Database) : Prop :=
  exists k r, rows PaymentEventRow d !! k = Some r /\ ev_provider r = ne_provider event /\
    (ev_external_event_id r = ne_external_event_id event \/
     ev_environment r = ne_environment event /\ ev_transaction_id r = optionalText (ne_transaction_id event)).

Lemma insert_event_stored event n env d r d' :
  insert_event_tx event n env d = Ok r d' -> stored event d'.
Proof.
  unfold insert_event_tx. intros Hrun. apply bind_Ok_inv in Hrun as (inserted & d1 & Hins & Hrun).
  apply try_row_inv in Hins as [(row & -> & Hins)|(-> & -> & _)].
  - apply ret_Ok_inv in Hrun as [_ <-]. unfold QPayments.InsertPaymentEvent in Hins.
    apply bind_Ok_inv in Hins as (now & d0 & _ & Hins).
    apply insert_row_or_nothing_Ok, insert_row_Ok in Hins as (-> & _ & Hrows & _).
    eexists _, _. rewrite Hrows, lookup_insert_eq. split; [reflexivity|]. split; [reflexivity | left; reflexivity].
  - apply bind_Ok_inv in Hrun as (found & d1 & Hfound & Hrun).
    apply bind_Ok_inv in Hrun as (row & d2 & Hrow & Hrun). apply ret_Ok_inv in Hrun as [_ <-].
    apply try_row_inv in Hfound as [(row' & -> & Hf)|(-> & -> & _)].
    + apply ret_Ok_inv in Hrow as [_ <-]. unfold GetPaymentEventByProviderEventID in Hf. apply find_row_Ok in Hf as (-> & Hp & k & Hk).
      apply andb_true_iff in Hp as [Hp%str_eqb_eq He%str_eqb_eq]. exists k, row'.
      split; [exact Hk|]. split; [exact Hp|]. left. exact He.
    + unfold GetPaymentEventByProviderTransactionID in Hrow. apply find_row_Ok in Hrow as (-> & Hp & k & Hk).
      rewrite !andb_true_iff in Hp. destruct Hp as [[Hp%str_eqb_eq He%str_eqb_eq] Ht].
      exists k, row. split; [exact Hk|]. split; [exact Hp|]. right. split; [exact He|].
      unfold opt_eqb in Ht. destruct (ev_transaction_id row), (optionalText _); try done.
      by apply bool_decide_eq_true in Ht as ->.
Qed.

Lemma Ingest_stored event envs d n result d' n' :
  ingest event envs (d, n) = (inr result, (d', n')) -> stored (normalizePaymentEvent sha Format event) d'.
Proof.
  unfold Ingest. destruct (invalid_event _ _); [discriminate|]. intros Hrun.
  apply script_bind_inv in Hrun as ([record inserted] & [d1 n1] & Hins & Hrun).
  apply run_inv, transaction_ok_inv, insert_event_stored in Hins. cbn beta iota zeta in Hrun.
  destruct (negb inserted && _).
  - apply script_bind_inv in Hrun as (? & ? & _ & Hrun). discriminate Hrun.
  - injection Hrun as <- <- <-. exact Hins.
Qed.

Lemma refused_status e : hr_status (rejected e) = 400 \/ hr_status (rejected e) = 401.
Proof. unfold rejected. destruct e; simpl; auto. Qed.

Lemma failed_status e : hr_status (ingestion_failed e) = 409 \/ hr_status (ingestion_failed e) = 503.
Proof. unfold ingestion_failed. destruct e; simpl; auto. Qed.

Lemma acknowledged_status ack duplicate :
  hr_status (acknowledge ParseMediaType CanonicalHeaderKey ack duplicate) = 503 \/
  200 <= hr_status (acknowledge ParseMediaType CanonicalHeaderKey ack duplicate) < 300.
Proof.
  unfold acknowledge. destruct (validateProviderAcknowledgement _ _ ack) eqn:Hack; simpl; [right | by left].
  unfold validateProviderAcknowledgement in Hack. rewrite !andb_true_iff, !negb_true_iff, !orb_false_iff in Hack. lia.
Qed.

(** What the handler does, whatever ingests the events: it refuses, or it hands a
    verified event over and answers with what came of it. *)
Lemma handler_inv (ingests : NormalizedPaymentEvent -> Script Database PaymentEventIngestionResult)
    name content_type headers body now envs sn response sn' :
  PaymentWebhook_Handler ParseMediaType CanonicalHeaderKey registry ingests name content_type headers body now envs sn
    = (inr response, sn') ->
  (sn' = sn /\ hr_status response ∈ [400; 401; 404; 413; 415]) \/
  exists webhook raw ack event,
    GetWebhookProvider registry name = inr webhook /\ body = BodyRead_ok raw /\
    webhook (mkWebhookRequest headers raw now) now = (ack, inr event) /\
    ((exists e, ingests event envs sn = (inl e, sn') /\ response = ingestion_failed e) \/
     (exists result, ingests event envs sn = (inr result, sn') /\
        response = acknowledge ParseMediaType CanonicalHeaderKey ack (in_duplicate result))).
Proof.
  unfold PaymentWebhook_Handler. intros Hrun.
  destruct (GetWebhookProvider registry name) as [e|webhook]; [injection Hrun as <- <-; left; split; [done | set_solver]|].
  destruct (negb (json_content _ _)); [injection Hrun as <- <-; left; split; [done | set_solver]|].
  destruct body as [raw| |]; [|injection Hrun as <- <-; left; split; [done | set_solver] ..].
  destruct (webhook _ now) as [ack [e|event]] eqn:Hv.
  { injection Hrun as <- <-. left. split; [done|]. destruct (refused_status e) as [-> | ->]; set_solver. }
  right. exists webhook, raw, ack, event. apply script_bind_inv in Hrun as (result & sn1 & Hi & Hrun).
  injection Hrun as <- <-. unfold script_result in Hi. destruct (ingests event envs sn) as [[e|r] sn2]; injection Hi as <- <-; eauto 10.
Qed.

(** C35: a provider that is answered with a success can forget the notification: it
    was verified, and the event, or the same transaction from before, is stored.  A
    notification that is refused (400, 401, 404, 413, 415) changes nothing. *)
Theorem acknowledged_notifications_are_stored name content_type headers body now envs d n response d' n' :
  handler name content_type headers body now envs (d, n) = (inr response, (d', n')) ->
  (200 <= hr_status response < 300 ->
     exists webhook raw ack event,
       GetWebhookProvider registry name = inr webhook /\ body = BodyRead_ok raw /\
       webhook (mkWebhookRequest headers raw now) now = (ack, inr event) /\
       stored (normalizePaymentEvent sha Format event) d') /\
  (hr_status response ∈ [400; 401; 404; 413; 415] -> d' = d).
Proof.
  intros [[[= -> _] Hst]|(webhook & raw & ack & event & Hw & Hb & Hv & [(e & _ & ->)|(result & Hi & ->)])]%handler_inv.
  - split; [|done]. intros Hok. exfalso. in_cases Hst; lia.
  - split; [|intros Hst]; destruct (failed_status e) as [He|He]; rewrite He in *; [lia.. | in_cases Hst; lia | in_cases Hst; lia].
  - apply Ingest_stored in Hi. split; [intros _; by exists webhook, raw, ack, event|].
    intros Hst. exfalso. destruct (acknowledged_status ack (in_duplicate result)) as [Ha|Ha]; in_cases Hst; lia.
Qed.
End Webhook.

(** ** A signed notification

    A checksum stands for HMAC and SHA-256, and the decoder knows one document. *)

Definition checksum (b : Bytes) : Bytes := take 32 (b ++ repeat 0 32)%list.
Definition mac (secret body : Bytes) : Bytes := checksum (secret ++ body)%list.
Lemma length_checksum b : length (checksum b) = 32%nat.
Proof. unfold checksum. rewrite length_take, length_app, repeat_length. lia. Qed.

Definition signer : SignedJSON := mkSignedJSON (codes "k") 300000000000 "test" true.
Definition document : Bytes := codes "{}".
Definition document_payload : signedJSONPayload :=
  mkSignedJSONPayload "ext-9" "txn-9" "payment.received" "DH0" "inbound" "DH0 thanks" "shop" "" 100000 "VND" 5
    (unix_time 4) "0011223344".
Definition decode_document (body : Bytes) : option signedJSONPayload :=
  if bool_decide (body = document) then Some document_payload else None.
Definition keep_metadata (p : signedJSONPayload) : option SanitizedMetadata :=
  Some (mkSanitizedMetadata true (Some (mkStoredPaymentMetadata (sp_reference p) (sp_amount p) (sp_currency p) (sp_occurred_at p)))).
Definition signed_headers (name : string) : string :=
  if str_eqb name signatureHeader then ("6b7b7d" ++ String.concat "" (repeat "00"%string 29))%string
  else if str_eqb name timestampHeader then "5" else "".
Definition signer_webhook : Provider := signed_provider mac checksum decode_document keep_metadata signer.
Definition posted_event : NormalizedPaymentEvent :=
  signed_event checksum signer document_payload document (mkSanitizedMetadata true (Some (mkStoredPaymentMetadata "DH0" 100000 "VND" (unix_time 4)))).
Definition media_type (t : string) : option string := Some t.
Definition canonical (t : string) : string := t.

Lemma signed_notifications_are_verified_witness :
  exists payload metadata,
    signed_by mac (sj_secret signer) signed_headers document /\ decode_document document = Some payload /\
    fresh signer signed_headers payload (unix_time 6) /\ validPayload payload = true /\
    keep_metadata payload = Some metadata /\ posted_event = signed_event checksum signer payload document metadata.
Proof.
  apply (signed_notifications_are_verified mac checksum decode_document keep_metadata signer signed_headers document
           (unix_time 6) posted_event); [vm_compute; split; [discriminate | reflexivity] | vm_compute; reflexivity].
Defined.

Lemma verified_notifications_are_fit_for_ingestion_witness :
  invalid_event (normalizePaymentEvent (fun t => checksum (codes t)) (fun _ => ""%string) posted_event) 5 = false.
Proof.
  apply (verified_notifications_are_fit_for_ingestion mac checksum decode_document keep_metadata signer
           (fun t => checksum (codes t)) (fun _ => ""%string) signed_headers document (unix_time 6) posted_event 5);
    [intros b; apply length_checksum | apply length_checksum | intros p m [= <-]; reflexivity | vm_compute; reflexivity
    | lia | vm_compute; reflexivity].
Defined.

Definition post : (Error + Response) * (Database * nat) :=
  PaymentWebhook_Handler media_type canonical {[SignedJSONProvider := signer_webhook]}
    (Ingest (fun t => checksum (codes t)) (fun _ => ""%string) 5) SignedJSONProvider "application/json" signed_headers
    (BodyRead_ok document) (unix_time 6) (fun _ => calm 1200) (ordered, O).

Lemma acknowledged_notifications_are_stored_witness :
  exists webhook raw ack event,
    GetWebhookProvider {[SignedJSONProvider := signer_webhook]} SignedJSONProvider = inr webhook /\
    BodyRead_ok document = BodyRead_ok raw /\
    webhook (mkWebhookRequest signed_headers raw (unix_time 6)) (unix_time 6) = (ack, inr event) /\
    stored (normalizePaymentEvent (fun t => checksum (codes t)) (fun _ => ""%string) event) post.2.1.
Proof.
  refine (proj1 (acknowledged_notifications_are_stored media_type canonical (fun t => checksum (codes t)) (fun _ => ""%string) 5
    {[SignedJSONProvider := signer_webhook]} SignedJSONProvider "application/json" signed_headers (BodyRead_ok document)
    (unix_time 6) (fun _ => calm 1200) ordered O (mkResponse 202 "application/json" (accepted_body false)
       [("Content-Type"%string, "application/json"%string)]) post.2.1 post.2.2 _) _).
  - vm_compute. reflexivity.
  - simpl. lia.
Defined.
