(* ===== verification/Ledger.v ===== *)
(** * The books: wallets and logs

    A wallet's balance is at every moment the sum of its ledger entries: the only
    statements that change a balance run in the same transaction as the entry that
    explains the change.  The ledger, the order history, the audit log, the
    payments and their allocations are append-only. *)

From S2P Require Import Prelude Domain Schema Tx Tables Models QOrders QInventory QPayments QWallet QUsers.
From S2P Require Import QCatalog QBanks QDelivery UpdateStore AdminStore InventoryStore DeliveryStore PaymentStore.
From S2P Require Import WalletStore.
From S2P Require Import OrderService OrderStore PaymentEvents Steps Demo Lifecycle.

Definition ledger_total (account : Z) (d : Database) : Z :=
  map_fold (fun _ e n => (if le_account_id e =? account then le_amount_vnd e else 0) + n) 0 (rows LedgerRow d).

Lemma ledger_total_insert account d d' k e :
  rows LedgerRow d !! k = None -> rows LedgerRow d' = <[k := e]> (rows LedgerRow d) ->
  ledger_total account d' = (if le_account_id e =? account then le_amount_vnd e else 0) + ledger_total account d.
Proof.
  intros Hk Heq. unfold ledger_total. rewrite Heq. rewrite map_fold_insert_L; [done | intros; lia | done].
Qed.

Lemma ledger_total_ext account d d' :
  rows LedgerRow d' = rows LedgerRow d -> ledger_total account d' = ledger_total account d.
Proof. unfold ledger_total. by intros ->. Qed.

Lemma ledger_total_none account d :
  (forall k e, rows LedgerRow d !! k = Some e -> le_account_id e <> account) -> ledger_total account d = 0.
Proof.
  unfold ledger_total. generalize (rows LedgerRow d). intros m.
  induction m as [|k e m Hk Hf IH] using map_first_key_ind; intros Hall; [by rewrite map_fold_empty|].
  rewrite map_fold_insert_L; [|intros; lia | done].
  destruct (le_account_id e =? account) eqn:E.
  - apply Z.eqb_eq in E. by destruct (Hall k e); [rewrite lookup_insert_eq|].
  - rewrite IH; [done|]. intros k' e' Hk'. apply (Hall k'). rewrite lookup_insert_ne; [done|].
    intros ->. congruence.
Qed.

Record wallet_ok (d : Database) : Prop := {
  balance_is_total k w : rows WalletRow d !! k = Some w -> w_balance_vnd w = ledger_total k d;
  entry_has_account k e : rows LedgerRow d !! k = Some e -> is_Some (rows WalletRow d !! le_account_id e) }.

#[export] Instance wallet_ok_independent W `{Table W} `{!Frame WalletRow W} `{!Frame LedgerRow W} :
  Independent wallet_ok W.
Proof.
  intros t d [Hb Ha]. split; rewrite ?rows_frame.
  - intros k w Hk. rewrite (ledger_total_ext _ d); [auto | apply rows_frame].
  - exact Ha.
Qed.

(** A row written over itself changes nothing. *)
Lemma put_row_same {R} `{TableLaws R} k (r : R) d : rows R d !! k = Some r -> rows R (put_row k r d) = rows R d.
Proof. intros Hk. rewrite rows_put. by apply insert_id. Qed.

Lemma EnsureWalletAccount_ok u : respects (under db_wf (keeps wallet_ok)) (EnsureWalletAccount u).
Proof.
  apply respects_under; [preserve|]. intros env d w d' Hrun [Hb Ha]. unfold EnsureWalletAccount in Hrun.
  apply upsert_row_Ok in Hrun as [(w0 & _ & (w1 & Hw1 & _ & _ & -> & _)%update_row_Ok) | [_ Hi]].
  - assert (Hrows := put_row_same _ _ _ Hw1).
    assert (Hl : rows LedgerRow (put_row (row_key w0) w1 d) = rows LedgerRow d) by apply rows_frame.
    split.
    + intros k w2. rewrite Hrows, (ledger_total_ext _ _ _ Hl). apply Hb.
    + intros k e. rewrite Hrows, Hl. apply Ha.
  - apply insert_row_Ok in Hi as (-> & Hn & Hrows & (t & ->) & _).
    assert (Hl : rows LedgerRow (tbl_set t d) = rows LedgerRow d) by apply rows_frame.
    split.
    + intros k w2. rewrite Hrows, (ledger_total_ext _ _ _ Hl).
      intros [[<- <-]|[_ Hw]]%lookup_insert_Some; [|by apply Hb]. simpl. symmetry.
      apply ledger_total_none. intros k e He Heq. destruct (Ha k e He) as [w Hw]. congruence.
    + intros k e. rewrite Hrows, Hl. intros (w & Hw)%Ha.
      destruct (decide (next_key (R := WalletRow) d = le_account_id e)) as [->|?];
        [rewrite lookup_insert_eq | rewrite lookup_insert_ne]; eauto.
Qed.

(** A balance moves by the amount of the ledger entry written with it. *)
Lemma UpdateWalletBalance_Ok a k env d w' d' :
  UpdateWalletBalance a k env d = Ok w' d' ->
  exists w, rows WalletRow d !! k = Some w /\ w_status w = WalletActive /\ in_int64 (w_balance_vnd w + a) = true /\
    0 <= w_balance_vnd w + a /\ w' = credit_wallet a w /\ d' = put_row k w' d.
Proof.
  unfold UpdateWalletBalance. intros Hrun.
  apply bind_Ok_inv in Hrun as (w & d1 & [-> Hw]%get_row_Ok & Hrun).
  apply bind_Ok_inv in Hrun as ([] & d1 & [Hs ->]%guard_not_inv & Hrun).
  apply bind_Ok_inv in Hrun as ([] & d1 & [Hr ->]%guard_not_inv & Hrun).
  apply update_row_Ok in Hrun as (w1 & Hw1 & Hg & -> & -> & _).
  rewrite Hw in Hw1. injection Hw1 as <-. exists w.
  apply negb_false_iff in Hs, Hr. apply bool_decide_eq_true in Hs.
  apply andb_true_iff in Hg as [_ Hg]. split_and!; (done || lia).
Qed.

Lemma movement_ok a k w' ty bal rt ri key env d d1 e d2 :
  UpdateWalletBalance a k env d = Ok w' d1 ->
  InsertWalletLedgerEntry k ty a bal rt ri key env d1 = Ok e d2 ->
  wallet_ok d -> wallet_ok d2.
Proof.
  intros (w & Hw & _ & _ & _ & -> & ->)%UpdateWalletBalance_Ok Hi [Hb Ha].
  unfold InsertWalletLedgerEntry in Hi. apply insert_row_Ok in Hi as (-> & Hn & Hrows & (t & ->) & _).
  assert (Hwal : rows WalletRow (tbl_set t (put_row k (credit_wallet a w) d))
                 = <[k := credit_wallet a w]> (rows WalletRow d)) by (rewrite rows_frame; apply rows_put).
  assert (Hl0 : rows LedgerRow (put_row k (credit_wallet a w) d) = rows LedgerRow d) by apply rows_frame.
  split.
  - intros k' w'. rewrite Hwal. rewrite (ledger_total_insert _ _ _ _ _ Hn Hrows). simpl.
    rewrite (ledger_total_ext _ _ _ Hl0).
    intros [[<- <-]|[Hne Hw']]%lookup_insert_Some.
    + rewrite Z.eqb_refl. simpl. rewrite (Hb k w Hw). lia.
    + rewrite (proj2 (Z.eqb_neq _ _) Hne). by rewrite (Hb k' w' Hw').
  - intros k' e. rewrite Hrows, Hwal, Hl0. intros [[_ <-]|[_ He]]%lookup_insert_Some.
    + simpl. rewrite lookup_insert_eq. eauto.
    + destruct (Ha k' e He) as [w1 Hw1].
      destruct (decide (k = le_account_id e)) as [->|?];
        [rewrite lookup_insert_eq | rewrite lookup_insert_ne]; eauto.
Qed.

Lemma credit_topup_ok c tp p : respects (under db_wf (keeps wallet_ok)) (credit_topup c tp p).
Proof.
  apply respects_under; [preserve|]. intros env d [] d' Hrun Hok. unfold credit_topup in Hrun.
  apply bind_Ok_inv in Hrun as (w & d1 & [-> _]%get_row_Ok & Hrun).
  apply bind_Ok_inv in Hrun as (w' & d1 & Hu & Hrun).
  apply bind_Ok_inv in Hrun as (e & d2 & Hi & [_ <-]%ret_Ok_inv). by eapply movement_ok.
Qed.

Lemma debit_order_ok c w o : respects (under db_wf (keeps wallet_ok)) (debit_order c w o).
Proof.
  apply respects_under; [preserve|]. intros env d w' d' Hrun Hok. unfold debit_order in Hrun.
  apply bind_Ok_inv in Hrun as (w1 & d1 & Hu%or_no_rows_inv & Hrun).
  apply bind_Ok_inv in Hrun as (e & d2 & Hi & [_ <-]%ret_Ok_inv). by eapply movement_ok.
Qed.

Lemma adjust_balance_ok c a w : respects (under db_wf (keeps wallet_ok)) (adjust_balance c a w).
Proof.
  apply respects_under; [preserve|]. intros env d r d' Hrun Hok. unfold adjust_balance in Hrun.
  apply bind_Ok_inv in Hrun as (w1 & d1 & Hu%or_no_rows_inv & Hrun).
  apply bind_Ok_inv in Hrun as (e & d2 & Hi & [_ <-]%ret_Ok_inv). by eapply movement_ok.
Qed.

#[export] Hint Resolve EnsureWalletAccount_ok credit_topup_ok debit_order_ok adjust_balance_ok : tx.

#[export] Instance preserved_wallets : Preserved (under db_wf (keeps wallet_ok)).
Proof.
  preserved_statements; first
    [ apply EnsureWalletAccount_ok | apply credit_topup_ok | apply debit_order_ok | apply adjust_balance_ok
    | apply respects_under; preserve ].
Qed.

(** ** Append-only tables *)

#[export] Instance preserved_ledger : Preserved (append_only LedgerRow).
Proof. preserved_statements; preserve. Qed.
#[export] Instance preserved_history : Preserved (append_only OrderHistoryRow).
Proof. preserved_statements; preserve. Qed.
#[export] Instance preserved_audit : Preserved (append_only AuditRow).
Proof. preserved_statements; preserve. Qed.
#[export] Instance preserved_payments : Preserved (append_only PaymentRow).
Proof. preserved_statements; preserve. Qed.
#[export] Instance preserved_allocations : Preserved (append_only AllocationRow).
Proof. preserved_statements; preserve. Qed.
#[export] Instance preserved_order_items : Preserved (append_only OrderItemRow).
Proof. preserved_statements; preserve. Qed.
#[export] Instance preserved_attempts : Preserved (append_only AttemptRow).
Proof. preserved_statements; preserve. Qed.

(** ** What holds of every history *)

(** C17: in every history the balance of every wallet is the sum of the amounts of
    its ledger entries, and it is never negative: no money appears in or leaves a
    wallet without an entry that says so. *)
Theorem balance_is_the_sum_of_the_ledger d d' k w :
  shop_steps d d' -> db_wf d -> wallet_ok d -> rows WalletRow d' !! k = Some w ->
  w_balance_vnd w = ledger_total k d' /\ 0 <= w_balance_vnd w.
Proof.
  intros Hs Hwf Hok Hw.
  destruct (shop_steps_ok (under db_wf (keeps wallet_ok)) d d' Hs Hwf) as [Hwf' Hok'].
  split; [by apply (balance_is_total d' (Hok' Hok))|].
  pose proof (wf_check _ _ (wf_wallets _ Hwf') k w Hw) as Hc. simpl in Hc. unfold wallet_accounts_check in Hc.
  apply andb_true_iff in Hc as [Hc _]. lia.
Qed.

Lemma shop_wallets_ok : wallet_ok shop.
Proof. split; intros k r Hr; vm_compute in Hr; discriminate. Qed.

Lemma balance_is_the_sum_of_the_ledger_witness : ledger_total 1 wallet_paid = 50000.
Proof.
  destruct (rows WalletRow wallet_paid !! 1) as [w|] eqn:Hw; [|vm_compute in Hw; discriminate].
  destruct (balance_is_the_sum_of_the_ledger shop wallet_paid 1 w) as [Hb _];
    [history | exact shop_wf | exact shop_wallets_ok | exact Hw |].
  rewrite <- Hb. vm_compute in Hw. by injection Hw as <-.
Defined.

(** C26: nothing that was written to the books is ever rewritten or erased: ledger
    entries, order history, audit entries, payments, allocations, order items and
    delivery attempts are in every later state exactly as they were written. *)
Theorem books_are_append_only d d' :
  shop_steps d d' ->
  rows LedgerRow d ⊆ rows LedgerRow d' /\ rows OrderHistoryRow d ⊆ rows OrderHistoryRow d' /\
  rows AuditRow d ⊆ rows AuditRow d' /\ rows PaymentRow d ⊆ rows PaymentRow d' /\
  rows AllocationRow d ⊆ rows AllocationRow d' /\ rows OrderItemRow d ⊆ rows OrderItemRow d' /\
  rows AttemptRow d ⊆ rows AttemptRow d'.
Proof.
  intros Hs.
  assert (Hsub : forall R (HT : Table R), append_only R d d' -> rows R d ⊆ rows R d').
  { intros R HT Hev. apply map_subseteq_spec. intros k r Hr. by destruct (Hev k r Hr) as (r' & Hr' & <-). }
  split_and!; apply Hsub; by apply (shop_steps_ok _).
Qed.

Lemma books_are_append_only_witness : rows LedgerRow funded ⊆ rows LedgerRow wallet_paid.
Proof. refine (proj1 (books_are_append_only funded wallet_paid _)). history. Defined.
