(* ===== verification/Decisions.v ===== *)
(** * Decisions that stand

    Three more state machines over every history: a Telegram update that was
    processed stays processed; a payment event that was decided (completed, sent to
    review or given up) stays decided, with the evidence it came with; a top-up
    leaves [pending] once. *)

From S2P Require Import Prelude Domain Schema Tx Tables Models QOrders QInventory QPayments QWallet QUsers.
From S2P Require Import QCatalog QBanks QDelivery UpdateStore AdminStore InventoryStore DeliveryStore PaymentStore.
From S2P Require Import WalletStore.
From S2P Require Import OrderService OrderStore PaymentEvents Steps Demo Lifecycle.

(** A row is untouched, or it was open and what identifies it is kept. *)
Section Settling.
Context {R I : Type} (open : R -> bool) (identity : R -> I) (measure : R -> Z).

Definition settling (r r' : R) : Prop :=
  r' = r \/ (open r = true /\ identity r' = identity r /\ measure r <= measure r').

#[export] Instance settling_preorder : PreOrder settling.
Proof.
  split; [by left|].
  intros a b c [->|(Ho & Hi & Hm)] [->|(Ho' & Hi' & Hm')]; [by left | by right | by right |].
  right. split_and!; [done | congruence | lia].
Qed.

Lemma settling_intro r r' : open r = true -> identity r' = identity r -> measure r <= measure r' -> settling r r'.
Proof. by right. Qed.
End Settling.

(** ** Update receipts *)

Definition receipt_open (r : ReceiptRow) : bool := negb (bool_decide (rt_status r = ReceiptCompleted)).
Definition receipt_identity (r : ReceiptRow) := (rt_update_id r, rt_update_type r).
Definition receipt_step : ReceiptRow -> ReceiptRow -> Prop := settling receipt_open receipt_identity rt_attempts.

Lemma receipt_update k guard f :
  (forall r, guard r = true -> receipt_open r = true) ->
  (forall r, receipt_identity (f r) = receipt_identity r /\ rt_attempts r <= rt_attempts (f r)) ->
  respects (evolves ReceiptRow receipt_step) (update_row k guard f).
Proof.
  intros Hg Hf. apply respects_update_own; [apply _|]. intros r Hr _.
  destruct (Hf r). by apply settling_intro; [apply Hg| |].
Qed.

Lemma processing_is_open (r : ReceiptRow) :
  bool_decide (rt_status r = ReceiptProcessing) = true -> receipt_open r = true.
Proof. unfold receipt_open. rewrite bool_decide_eq_true. by intros ->. Qed.

Lemma startable_is_open t r : startable t r = true -> receipt_open r = true.
Proof. unfold startable, receipt_open. by destruct (rt_status r). Qed.

Ltac receipt_update guard :=
  intros; autounfold with tx_queries;
  apply respects_bind; [apply _ | apply respects_clock; apply _ | intros ?];
  apply receipt_update; [apply guard | intros ?; split; [reflexivity | simpl; lia]].

#[export] Instance preserved_receipts : Preserved (evolves ReceiptRow receipt_step).
Proof.
  preserved_statements; lazymatch goal with
  | |- respects _ (StartTelegramUpdateProcessing _ _) => receipt_update startable_is_open
  | |- respects _ (CompleteTelegramUpdateReceipt _) => receipt_update processing_is_open
  | |- respects _ (FailTelegramUpdateReceipt _ _) => receipt_update processing_is_open
  | |- _ => preserve
  end.
Qed.

(** ** Payment events *)

Definition event_open (e : PaymentEventRow) : bool :=
  bool_decide (ev_status e = EventReceived) || bool_decide (ev_status e = EventProcessing).
(** The evidence, as it was received *)
Definition event_identity (e : PaymentEventRow) :=
  (ev_id e, ev_provider e, ev_external_event_id e, ev_transaction_id e, ev_event_type e, ev_payload_hash e,
   ev_payload e, ev_environment e, ev_source e, ev_direction e, ev_content e, ev_destination e,
   ev_provider_account e, ev_fingerprint e, ev_max_attempts e, ev_received_at e).
Definition event_step : PaymentEventRow -> PaymentEventRow -> Prop := settling event_open event_identity ev_attempts.

Lemma event_update k guard f :
  (forall e, guard e = true -> event_open e = true) ->
  (forall e, event_identity (f e) = event_identity e /\ ev_attempts e <= ev_attempts (f e)) ->
  respects (evolves PaymentEventRow event_step) (update_row k guard f).
Proof.
  intros Hg Hf. apply respects_update_own; [apply _|]. intros e He _.
  destruct (Hf e). by apply settling_intro; [apply Hg| |].
Qed.

Ltac event_update :=
  intros; apply respects_under; [preserve|]; autounfold with tx_queries; apply event_update;
  [ intros ?; unfold event_open; rewrite ?andb_true_iff; intros; destruct_and?;
    rewrite ?orb_true_iff in *; tauto
  | intros ?; split; [lazy; reflexivity | simpl; lia] ].

Lemma ClaimPaymentEvents_step n s b :
  respects (under db_wf (evolves PaymentEventRow event_step)) (QPayments.ClaimPaymentEvents n s b).
Proof.
  intros env d us d' Hrun Hwf. split; [by eapply (pres_claim_events (Rel := keeps db_wf))|].
  unfold QPayments.ClaimPaymentEvents in Hrun.
  apply bind_Ok_inv in Hrun as (l & d1 & [-> Hsub]%select_unlocked_Ok & Hrun).
  apply bind_Ok_inv in Hrun as (rs & d2 & Hsel & Hrun).
  pose proof Hsel as (-> & _)%order_limit_Ok.
  destruct (selected_keys _ _ _ _ _ _ _ Hwf Hsub Hsel) as [Hnd Hin].
  refine (update_rows_evolves _ _ _ _ _ _ _ _ Hnd _ Hrun).
  intros k e Hk He _. destruct (Hin k e Hk He) as [Hp _]. unfold claimable_event in Hp.
  apply settling_intro; [| lazy; reflexivity | simpl; lia].
  unfold event_open. rewrite !andb_true_iff, !orb_true_iff, !andb_true_iff in *. tauto.
Qed.

#[export] Instance preserved_events : Preserved (under db_wf (evolves PaymentEventRow event_step)).
Proof.
  preserved_statements; lazymatch goal with
  | |- respects _ (QPayments.ClaimPaymentEvents _ _ _) => apply ClaimPaymentEvents_step
  | |- respects _ (QPayments.CompletePaymentEvent _ _ _ _ _ _ _) => event_update
  | |- respects _ (QPayments.SchedulePaymentEventRetry _ _ _ _ _) => event_update
  | |- respects _ (MarkPaymentEventReviewedBeforeAcceptance _ _ _ _) => event_update
  | |- respects _ (QPayments.CompleteIgnoredPaymentEvent _ _ _ _) => event_update
  | |- respects _ (AttachPaymentEventProviderAccount _ _) => event_update
  | |- _ => apply respects_under; [preserve | preserve]
  end.
Qed.

(** ** Top-ups *)

Definition topup_open (t : TopupRow) : bool :=
  bool_decide (tp_status t = TopupPending) || bool_decide (tp_status t = TopupExpired).
Definition topup_identity (t : TopupRow) :=
  (tp_id t, tp_user_id t, tp_wallet_account_id t, tp_amount_vnd t, tp_currency t, tp_reference t,
   tp_idempotency_key t, tp_expires_at t, tp_bank_account_id t, tp_bank t, tp_environment t).
Definition topup_step : TopupRow -> TopupRow -> Prop := settling topup_open topup_identity tp_version.

Ltac topup_update :=
  intros; autounfold with tx_queries; apply respects_update_own; [apply _|];
  intros ? ? _; apply settling_intro;
  [ unfold topup_open; rewrite ?andb_true_iff, ?orb_true_iff in *; tauto | lazy; reflexivity | simpl; lia ].

#[export] Instance preserved_topups : Preserved (evolves TopupRow topup_step).
Proof. preserved_statements; first [topup_update | preserve]. Qed.

(** ** Claiming an update *)

(** What a claim of an update answers, from the receipt that is stored *)
Definition claim_decision (receipt : option ReceiptRow) (stale_before : Time) : UpdateClaim :=
  match receipt with
  | None => UpdateClaimed
  | Some r =>
      match rt_status r with
      | ReceiptCompleted => UpdateDuplicateCompleted
      | ReceiptProcessing =>
          match rt_started_at r with
          | Some t => if stale_before <? t then UpdateDuplicateProcessing else UpdateClaimed
          | None => UpdateDuplicateProcessing
          end
      | _ => UpdateClaimed
      end
  end.

Lemma receipt_conflicts k (r : ReceiptRow) d : conflicts k r d = false.
Proof. by apply conflicts_false. Qed.

Definition claimed_receipt (now : Time) (r : ReceiptRow) : ReceiptRow :=
  mkReceiptRow (rt_update_id r) (rt_update_type r) ReceiptProcessing (rt_attempts r + 1) (Some now) None None.

Lemma start_processing_Ok u sb env d r :
  rows ReceiptRow d !! u = Some r -> startable sb r = true -> update_receipts_check r = true ->
  StartTelegramUpdateProcessing u sb env d
  = Ok (claimed_receipt (env_clock env) r) (put_row u (claimed_receipt (env_clock env) r) d).
Proof.
  intros Hr Hs Hc. unfold StartTelegramUpdateProcessing. erewrite bind_Ok by reflexivity.
  unfold update_row. rewrite Hr, Hs. unfold write_row. rewrite receipt_conflicts.
  replace (row_check _) with true; [reflexivity|]. symmetry.
  unfold update_receipts_check in *. simpl in *. unfold update_receipts_check. simpl.
  rewrite !andb_true_iff in Hc. destruct_and! Hc. repeat (apply andb_true_iff; split); try done; lia.
Qed.

(** The receipt the claim works on: the stored one, or a fresh one *)
Lemma insert_receipt_Ok u t env d :
  0 <= u -> nonblank t = true ->
  exists n d1, InsertTelegramUpdateReceipt u t env d = Ok n d1 /\
    rows ReceiptRow d1 = match rows ReceiptRow d !! u with
                         | Some _ => rows ReceiptRow d
                         | None => <[u := mkReceiptRow u t ReceiptReceived 0 None None None]> (rows ReceiptRow d)
                         end.
Proof.
  intros Hu Ht. unfold InsertTelegramUpdateReceipt, insert_row_at. simpl.
  replace (update_receipts_check _) with true; last first.
  { unfold update_receipts_check. simpl. rewrite Ht, (proj2 (Z.leb_le 0 u) Hu). done. }
  simpl. rewrite receipt_conflicts. destruct (rows ReceiptRow d !! u); simpl; eexists _, _; split; reflexivity.
Qed.

Lemma startable_decision r sb :
  startable sb r = true <-> claim_decision (Some r) sb = UpdateClaimed.
Proof.
  unfold startable, claim_decision. destruct (rt_status r); try done.
  destruct (rt_started_at r) as [t|]; [|done].
  destruct (Z.ltb_spec sb t), (Z.leb_spec t sb); try done; lia.
Qed.

Lemma claim_update_decides u t sb env d :
  tbl_wf ReceiptRow d -> 0 <= u -> nonblank t = true ->
  exists d', claim_update_tx u t sb env d = Ok (claim_decision (rows ReceiptRow d !! u) sb) d' /\
    rows ReceiptRow d' !! u =
      match claim_decision (rows ReceiptRow d !! u) sb with
      | UpdateClaimed =>
          Some (claimed_receipt (env_clock env)
                  (default (mkReceiptRow u t ReceiptReceived 0 None None None) (rows ReceiptRow d !! u)))
      | _ => rows ReceiptRow d !! u
      end.
Proof.
  intros Hwf Hu Ht. destruct (insert_receipt_Ok u t env d Hu Ht) as (n & d1 & Hins & Hrows).
  set (r := default (mkReceiptRow u t ReceiptReceived 0 None None None) (rows ReceiptRow d !! u)).
  assert (Hr1 : rows ReceiptRow d1 !! u = Some r).
  { unfold r. rewrite Hrows. destruct (rows ReceiptRow d !! u) eqn:E; [done | apply lookup_insert_eq]. }
  assert (Hdec : claim_decision (rows ReceiptRow d !! u) sb = claim_decision (Some r) sb).
  { unfold r. by destruct (rows ReceiptRow d !! u). }
  assert (Hc : update_receipts_check r = true).
  { unfold r. destruct (rows ReceiptRow d !! u) as [r0|] eqn:E; [by apply (wf_check _ _ Hwf u r0)|].
    unfold update_receipts_check. simpl. by rewrite Ht, (proj2 (Z.leb_le 0 u) Hu). }
  assert (Hsame : claim_decision (Some r) sb <> UpdateClaimed -> rows ReceiptRow d !! u = Some r).
  { unfold r. destruct (rows ReceiptRow d !! u); [done|]. by intros []. }
  rewrite Hdec. unfold claim_update_tx. erewrite bind_Ok by exact Hins.
  erewrite bind_Ok; last first. { unfold LockTelegramUpdateReceipt, get_row. rewrite Hr1. reflexivity. }
  destruct (startable sb r) eqn:Hst.
  - pose proof (start_processing_Ok u sb env d1 r Hr1 Hst Hc) as Hstart.
    pose proof (proj1 (startable_decision r sb) Hst) as Hcl. rewrite Hcl.
    exists (put_row u (claimed_receipt (env_clock env) r) d1). split; [|rewrite rows_put; apply lookup_insert_eq].
    assert (Htry : try_row (StartTelegramUpdateProcessing u sb) env d1
                   = Ok (Some (claimed_receipt (env_clock env) r)) (put_row u (claimed_receipt (env_clock env) r) d1))
      by (unfold try_row; by rewrite Hstart).
    unfold startable in Hst. destruct (rt_status r) eqn:Es; try done; simpl; try by erewrite bind_Ok by exact Htry.
    destruct (rt_started_at r) as [t0|]; [|done]. simpl. unfold time_after.
    replace (sb <? t0) with false by lia. by erewrite bind_Ok by exact Htry.
  - assert (Hno : claim_decision (Some r) sb <> UpdateClaimed) by (rewrite <- startable_decision; congruence).
    exists d1. rewrite Hr1, (Hsame Hno).
    assert (Htry : try_row (StartTelegramUpdateProcessing u sb) env d1 = Ok None d1).
    { unfold try_row, StartTelegramUpdateProcessing. erewrite bind_Ok by reflexivity.
      unfold update_row. by rewrite Hr1, Hst. }
    unfold claim_decision in *. destruct (rt_status r) eqn:Es; simpl; try done.
    destruct (rt_started_at r) as [t0|]; simpl; unfold time_after; [destruct (sb <? t0); try done|];
      by erewrite bind_Ok by exact Htry.
Qed.

(** A settled row is found unchanged in every later state. *)
Lemma settled_forever {R I} `{Table R} (open : R -> bool) (identity : R -> I) (measure : R -> Z) d d' k r :
  evolves R (settling open identity measure) d d' -> rows R d !! k = Some r -> open r = false ->
  rows R d' !! k = Some r.
Proof.
  intros Hev Hr Ho. destruct (Hev k r Hr) as (r' & Hr' & [->|(Ho' & _)]); [done | congruence].
Qed.

Lemma completed_not_claimed u t sb env d r c d' :
  rows ReceiptRow d !! u = Some r -> rt_status r = ReceiptCompleted ->
  claim_update_tx u t sb env d = Ok c d' -> c = UpdateDuplicateCompleted /\ rows ReceiptRow d' !! u = Some r.
Proof.
  intros Hr Hs Hrun. unfold claim_update_tx in Hrun.
  apply bind_Ok_inv in Hrun as (n & d1 & Hins & Hrun).
  assert (Hr1 : rows ReceiptRow d1 !! u = Some r).
  { eapply (settled_forever receipt_open receipt_identity rt_attempts); [|exact Hr | by unfold receipt_open; rewrite Hs].
    by eapply (pres_insert_receipt (Rel := evolves ReceiptRow receipt_step)). }
  apply bind_Ok_inv in Hrun as (r1 & d2 & [-> Hr2]%get_row_Ok & Hrun).
  rewrite Hr1 in Hr2. injection Hr2 as <-. rewrite Hs in Hrun.
  apply ret_Ok_inv in Hrun as [<- <-]. done.
Qed.

(** ** What holds of every history *)

(** C23: a claim of a Telegram update answers from the stored receipt alone: a new,
    a failed or an abandoned update is claimed and its receipt restarted with one
    more attempt, an update another worker is processing or has completed is a
    duplicate and its receipt is left alone. *)
Theorem ClaimUpdate_decides u t sb env d :
  tbl_wf ReceiptRow d -> 0 <= u -> nonblank t = true -> env_begin env = Connected -> env_commit env = CommitOk ->
  exists d', ClaimUpdate u t sb env d = (inr (claim_decision (rows ReceiptRow d !! u) sb), d') /\
    rows ReceiptRow d' !! u =
      match claim_decision (rows ReceiptRow d !! u) sb with
      | UpdateClaimed =>
          Some (claimed_receipt (env_clock env)
                  (default (mkReceiptRow u t ReceiptReceived 0 None None None) (rows ReceiptRow d !! u)))
      | _ => rows ReceiptRow d !! u
      end.
Proof.
  intros Hwf Hu Ht Hb Hc. destruct (claim_update_decides u t sb env d Hwf Hu Ht) as (d' & Hrun & Hrow).
  exists d'. split; [|exact Hrow]. unfold ClaimUpdate, WithinTransaction. by rewrite Hb, Hrun, Hc.
Qed.

Lemma ClaimUpdate_decides_witness :
  exists d', ClaimUpdate 101 "message" 0 (calm 5) shop = (inr UpdateDuplicateProcessing, d').
Proof.
  destruct (ClaimUpdate_decides 101 "message" 0 (calm 5) shop) as (d' & Hc & _);
    [apply (wf_receipts _ shop_wf) | lia | reflexivity | reflexivity | reflexivity |].
  exists d'. exact Hc.
Defined.

(** An update that was completed once is never processed again: its receipt is
    final, and whatever happened since, no later claim of it succeeds. *)
Theorem completed_updates_are_never_reclaimed d d' u t sb env r :
  shop_steps d d' -> rows ReceiptRow d !! u = Some r -> rt_status r = ReceiptCompleted ->
  rows ReceiptRow d' !! u = Some r /\ (ClaimUpdate u t sb env d').1 <> inr UpdateClaimed.
Proof.
  intros Hs Hr Hc.
  assert (Hr' : rows ReceiptRow d' !! u = Some r).
  { eapply (settled_forever receipt_open receipt_identity rt_attempts); [|exact Hr | by unfold receipt_open; rewrite Hc].
    by apply (shop_steps_ok (evolves ReceiptRow receipt_step)). }
  split; [done|]. unfold ClaimUpdate, WithinTransaction.
  destruct (env_begin env); [| done ..]. destruct (claim_update_tx u t sb env d') as [c d1|e] eqn:E; [|done].
  destruct (completed_not_claimed _ _ _ _ _ _ _ _ Hr' Hc E) as [-> _]. by destruct (env_commit env).
Qed.

(** C24: a payment event keeps for ever the evidence it arrived with, is tried at
    most [max_attempts] times, and once it is completed, sent to review or given up
    it is never reopened. *)
Theorem payment_events_are_decided_once d d' k e :
  shop_steps d d' -> db_wf d -> rows PaymentEventRow d !! k = Some e ->
  exists e', rows PaymentEventRow d' !! k = Some e' /\ event_identity e' = event_identity e /\
    ev_attempts e <= ev_attempts e' <= ev_max_attempts e /\ (event_open e = false -> e' = e).
Proof.
  intros Hs Hwf He.
  destruct (shop_steps_ok (under db_wf (evolves PaymentEventRow event_step)) d d' Hs Hwf) as [Hwf' Hev].
  destruct (Hev k e He) as (e' & He' & Hst). exists e'. split; [done|].
  pose proof (wf_check _ _ (wf_events _ Hwf') k e' He') as Hc. simpl in Hc. unfold payment_events_check in Hc.
  assert (ev_attempts e' <= ev_max_attempts e') by (rewrite !andb_true_iff in Hc; destruct_and! Hc; lia).
  destruct Hst as [-> | (Ho & Hi & Hm)]; [by split_and!; try lia|].
  assert (ev_max_attempts e' = ev_max_attempts e) by (unfold event_identity in Hi; congruence).
  split_and!; [done | lia | lia | congruence].
Qed.

Lemma payment_events_are_decided_once_witness :
  exists e', rows PaymentEventRow event_paid !! 1 = Some e' /\ ev_attempts e' <= 5.
Proof.
  assert (exists e, rows PaymentEventRow notified !! 1 = Some e /\ ev_max_attempts e = 5) as (e & He & Hm)
    by (eexists; split; [vm_compute; reflexivity | reflexivity]).
  assert (Hwf : db_wf notified) by decide_wf.
  assert (Hs : shop_steps notified event_paid) by history.
  destruct (payment_events_are_decided_once notified event_paid 1 e Hs Hwf He) as (e' & He' & _ & Ha & _).
  exists e'. split; [exact He'|]. lia.
Defined.

(** C25: a top-up keeps its wallet, amount and reference, and once it is credited
    nothing changes it again: it is credited at most once. *)
Theorem topups_are_credited_once d d' k t :
  shop_steps d d' -> rows TopupRow d !! k = Some t ->
  exists t', rows TopupRow d' !! k = Some t' /\ topup_identity t' = topup_identity t /\
    (tp_status t = TopupCredited -> t' = t).
Proof.
  intros Hs Ht. destruct (shop_steps_ok (evolves TopupRow topup_step) d d' Hs k t Ht) as (t' & Ht' & Hst).
  exists t'. split; [done|]. destruct Hst as [-> | (Ho & Hi & _)]; [done|]. split; [done|].
  intros Hc. unfold topup_open in Ho. by rewrite Hc in Ho.
Qed.

Lemma topups_are_credited_once_witness :
  exists t', rows TopupRow wallet_paid !! 1 = Some t' /\ tp_status t' = TopupCredited.
Proof.
  destruct (rows TopupRow funded !! 1) as [t|] eqn:Ht; [|vm_compute in Ht; discriminate].
  destruct (topups_are_credited_once funded wallet_paid 1 t) as (t' & Ht' & _ & Hc); [history | exact Ht |].
  exists t'. split; [exact Ht'|]. assert (tp_status t = TopupCredited) as Hs by (vm_compute in Ht; by injection Ht as <-).
  by rewrite (Hc Hs).
Defined.
