(* ===== verification/Settlement.v ===== *)
(** * What accepting a payment does

    The postconditions of [AcceptPayment] and [PayOrderWithWallet]: the claim of
    stock is all or nothing, an accepted order payment leaves the order delivering
    with exactly its quantity held and one pending delivery job, an accepted top-up
    moves exactly its amount, a payment that is not accepted moves neither goods nor
    money, and a decided event is decided once. *)

From S2P Require Import Prelude Domain Schema Tx Tables Models QOrders QInventory QPayments QWallet QUsers.
From S2P Require Import QCatalog QBanks QDelivery UpdateStore AdminStore InventoryStore DeliveryStore PaymentStore.
From S2P Require Import WalletStore.
From S2P Require Import OrderService OrderStore PaymentEvents Steps Demo Lifecycle Stock Ledger Decisions.

(** One step of an inversion of a run *)
Ltac run_bind H x d1 Hx :=
  apply bind_Ok_inv in H as (x & d1 & Hx & H).
Ltac run_read H := apply bind_Ok_inv in H as (? & ? & ?Hread & H); injection Hread as <- <-.
Ltac run_guard H Hg :=
  let u := fresh in let d := fresh in
  apply bind_Ok_inv in H as (u & d & Hg & H); apply guard_not_inv in Hg as [Hg ->].

(** Frames: what a statement leaves alone is found unchanged after it. *)
Lemma frame_after {R} `{Table R} {A} (m : Tx Database A) env d a d' :
  respects (same_table R) m -> m env d = Ok a d' -> rows R d' = rows R d.
Proof. intros Hm Hrun. by apply (Hm env d a d'). Qed.

Ltac table_frame := eapply frame_after; [|eassumption]; preserve.

Lemma wf_after {A} (m : Tx Database A) env d a d' :
  respects (keeps db_wf) m -> m env d = Ok a d' -> db_wf d -> db_wf d'.
Proof. intros Hm Hrun. by apply (Hm env d a d'). Qed.

Ltac step_wf Hrun Hwf :=
  lazymatch type of Hrun with
  | _ = Ok _ ?d' =>
      let Hwf' := fresh in
      assert (db_wf d') as Hwf' by (eapply wf_after; [|exact Hrun | exact Hwf]; preserve);
      clear Hwf; rename Hwf' into Hwf
  end.

(** The frames a statement satisfies among the tables that matter here, and going
    back along them *)
Ltac keep E R :=
  lazymatch type of E with
  | _ = Ok _ ?d' =>
      lazymatch type of E with
      | _ ?d = _ => assert (rows R d' = rows R d) by table_frame
      end
  end.
Ltac kept E := try keep E OutboxRow; try keep E OrderRow; try keep E WalletRow.
Ltac follow :=
  repeat match goal with
  | H : rows ?R ?d' = rows ?R ?d |- context [rows ?R ?d'] => rewrite H
  | H : rows ?R ?d' = <[_ := _]> _ |- context [rows ?R ?d'] => rewrite H
  end.

(** One statement of a run: its outcome, the constraints after it, its frames *)
Ltac run_step H x d E Hwf := run_bind H x d E; step_wf E Hwf; kept E.

(** ** The claim of stock *)

Lemma omap_all {A B} (f : A -> option B) (l : list A) :
  (forall a, a ∈ l -> is_Some (f a)) -> length (omap f l) = length l.
Proof.
  induction l as [|a l IH]; intros Hf; [done|]. csimpl.
  destruct (Hf a) as [b Hb]; [left|]. rewrite Hb. simpl. f_equal. apply IH. intros a' ?. apply Hf. by right.
Qed.

Lemma claim_selection_rows product quantity env d l d' :
  db_wf d -> claim_selection product quantity env d = Ok l d' ->
  forall k, k ∈ map i_id l -> is_Some (rows InventoryRow d !! k).
Proof.
  intros Hwf Hrun. unfold claim_selection in Hrun. run_read Hrun.
  run_bind Hrun c d1 Hc. apply select_unlocked_Ok in Hc as [-> Hsub].
  apply order_limit_Ok in Hrun as (_ & _ & ->).
  intros k (i & -> & Hi%elem_of_take_sorted)%list_elem_of_fmap.
  assert (Hs : i ∈ select (claimable d product) d) by (by eapply elem_of_sublist).
  apply elem_of_select in Hs as [_ [k Hk]].
  assert (i_id i = k) as -> by (exact (wf_key _ _ (wf_inventory _ Hwf) k i Hk)). eauto.
Qed.

(** All or nothing: exactly the requested number of free items become held by the
    order, or no item changes. *)
Lemma claim_exact_Ok o t p q env d ids d' :
  db_wf d -> ClaimExactAvailableInventory o t p q env d = Ok ids d' ->
  (Z.of_nat (length ids) = q /\ NoDup ids /\
   (forall k, rows InventoryRow d' !! k =
      (fun i => if bool_decide (k ∈ ids) then reserve_item o t i else i) <$> rows InventoryRow d !! k) /\
   (forall k i, k ∈ ids -> rows InventoryRow d !! k = Some i -> claimable d p i = true)) \/
  (ids = [] /\ d' = d /\ q <> 0).
Proof.
  intros Hwf Hrun. unfold ClaimExactAvailableInventory in Hrun. run_bind Hrun l d1 Hsel.
  pose proof (claim_selection_rows _ _ _ _ _ _ Hwf Hsel) as Hex.
  apply (claim_selection_Ok _ _ _ _ _ _ Hwf) in Hsel as (-> & _ & Hle & Hnd & Hin).
  destruct (Z.eqb_spec (Z.of_nat (length l)) q) as [Hq|Hq]; run_bind Hrun us d2 Hu;
    apply ret_Ok_inv in Hrun as [<- <-].
  - left. apply update_rows_Ok in Hu as (Hrows & Hus & _); [|done].
    assert (Hids : map i_id us = map i_id l).
    { rewrite Hus. clear -Hex Hwf. induction (map i_id l) as [|k ks IH]; [done|]. csimpl.
      destruct (Hex k) as [i Hi]; [left|]. rewrite Hi. csimpl. f_equal.
      - exact (wf_key _ _ (wf_inventory _ Hwf) k i Hi).
      - apply IH. intros k' Hk'. apply Hex. by right. }
    rewrite Hids. split_and!; [by rewrite length_map | done | | done].
    intros k. rewrite Hrows. destruct (rows InventoryRow d !! k); [|done]. simpl. by rewrite andb_true_r.
  - right. injection Hu as <- <-. split_and!; [done | done | lia].
Qed.

(** ** The hand-off to delivery *)

Lemma insert_job_Ok o m t c env d j d' :
  InsertDeliveryJob o m t c env d = Ok j d' ->
  rows OutboxRow d !! j_id j = None /\ rows OutboxRow d' = <[j_id j := j]> (rows OutboxRow d) /\
  j_status j = DeliveryJobPending /\ j_order_id j = Some o /\ j_chat_id j = Some c /\
  j_attempts j = 0 /\ j_max_attempts j = m /\ j_next_attempt_at j = t /\ j_event_type j = delivery_event_type /\
  (exists t' : Tbl OutboxRow, d' = tbl_set t' d).
Proof.
  unfold InsertDeliveryJob. intros Hrun. run_bind Hrun now d1 Hnow. injection Hnow as <- <-.
  apply insert_row_unless_Ok in Hrun as (_ & Hrun).
  apply insert_row_Ok in Hrun as (-> & Hn & Hrows & Ht & _).
  simpl. by split_and!.
Qed.

(** A hand-off that inserts the job: the order was reserving and holds exactly the
    quantity of its item; it is now delivering, and its job is pending. *)
Lemma handoff_Ok k t m at_ a q env d d' :
  db_wf d -> createDeliveryHandoffWithinTransaction k t m at_ a q env d = Ok true d' ->
  exists o u it j, rows OrderRow d !! k = Some o /\ o_status o = OrderStatusReserving /\
    rows User d !! o_user_id o = Some u /\
    head (select (fun it => oi_order_id it =? k) d) = Some it /\ 0 < oi_quantity it /\
    Z.of_nat (length (held_items k d)) = oi_quantity it /\
    rows OrderRow d' = <[k := o <| o_status := OrderStatusDelivering |> <| o_delivery_started_at := Some t |>
                                <| o_version := o_version o + 1 |>]> (rows OrderRow d) /\
    rows OutboxRow d' = <[j_id j := j]> (rows OutboxRow d) /\ rows OutboxRow d !! j_id j = None /\
    j_status j = DeliveryJobPending /\ j_order_id j = Some k /\ j_event_type j = delivery_event_type /\
    j_chat_id j = Some (u_telegram_user_id u) /\ (0 < j_id j /\ j_attempts j = 0 /\ 0 < j_max_attempts j /\ j_next_attempt_at j = t) /\
    rows InventoryRow d' = rows InventoryRow d /\ rows MappingRow d' = rows MappingRow d /\
    rows OrderItemRow d' = rows OrderItemRow d /\ rows User d' = rows User d.
Proof.
  intros Hwf. unfold createDeliveryHandoffWithinTransaction. intros Hrun. run_guard Hrun Hg.
  run_bind Hrun row d1 Hrow. unfold LockOrderForDeliveryHandoff in Hrow.
  run_bind Hrow o d2 Ho. apply get_row_Ok in Ho as [-> Ho].
  run_bind Hrow u d2 Hu. apply get_row_Ok in Hu as [-> Hu].
  run_bind Hrow it d2 Hit. apply find_row_first in Hit as [-> Hit].
  apply ret_Ok_inv in Hrow as [<- <-].
  assert (o_id o = k) as Hid by exact (wf_key _ _ (wf_orders _ Hwf) k o Ho).
  destruct (bool_decide (o_status o = OrderStatusDelivering)).
  { run_bind Hrun x d2 Hx. discriminate Hrun. }
  run_guard Hrun Hst. run_read Hrun. run_guard Hrun Hc.
  rewrite !orb_false_iff, !negb_false_iff in Hst. destruct Hst as [[Hst _] Hq].
  apply bool_decide_eq_true in Hst. apply negb_false_iff in Hc.
  run_bind Hrun job d1 Hjob. apply try_row_inv in Hjob as [(j & -> & Hj) | (-> & -> & _)]; last first.
  { run_bind Hrun x d2 Hx. discriminate Hrun. }
  apply insert_job_Ok in Hj as (Hnone & Hjob & Hs & Hoid & Hcid & Hatt & Hmax & Hdue & Hty & (t' & ->)).
  run_bind Hrun o' d2 Hup. unfold MarkOrderDeliveringGuarded in Hup.
  apply update_row_Ok in Hup as (o1 & Ho1 & _ & -> & -> & _).
  assert (Hord : rows OrderRow (tbl_set t' d) = rows OrderRow d) by apply rows_frame.
  rewrite Hid, Hord, Ho in Ho1. injection Ho1 as <-.
  assert (0 < j_id j) as Hpos.
  { pose proof Hrun as Hr. apply bind_Ok_inv in Hr as (h & d3 & _ & Hr). destruct (audit_actor _ _).
    apply bind_Ok_inv in Hr as (r & d4 & Ha & _). unfold InsertAuditLog in Ha. apply insert_row_Ok in Ha as (-> & _ & _ & _ & Hcheck & _).
    simpl in Hcheck. unfold audit_logs_check in Hcheck. simpl in Hcheck. rewrite !andb_true_iff in Hcheck. destruct_and! Hcheck. lia. }
  match type of Hrun with ?m env ?s = _ => set (s2 := s) in *; set (rest := m) in * end.
  assert (Hframe : forall R (HT : Table R) `{!Frame R OrderHistoryRow} `{!Frame R AuditRow},
    rows R d' = rows R s2).
  { intros R HT F1 F2. eapply frame_after; [|exact Hrun]. subst rest. unfold audit_actor. preserve. }
  exists o, u, it, j. rewrite Hid in *.
  split_and!; try done; try lia.
  - rewrite (Hframe OrderRow _ _ _). unfold s2. by rewrite rows_put, Hord, Hid.
  - rewrite (Hframe OutboxRow _ _ _), <- Hjob. unfold s2, put_row. apply rows_frame.
  - rewrite (Hframe InventoryRow _ _ _). unfold s2, put_row. by rewrite !rows_frame.
  - rewrite (Hframe MappingRow _ _ _). unfold s2, put_row. by rewrite !rows_frame.
  - rewrite (Hframe OrderItemRow _ _ _). unfold s2, put_row. by rewrite !rows_frame.
  - rewrite (Hframe User _ _ _). unfold s2, put_row. by rewrite !rows_frame.
Qed.

(** Otherwise nothing changes. *)
Lemma handoff_idle k t m at_ a q env d d' :
  createDeliveryHandoffWithinTransaction k t m at_ a q env d = Ok false d' -> d' = d.
Proof.
  unfold createDeliveryHandoffWithinTransaction. intros Hrun. run_guard Hrun Hg.
  run_bind Hrun row d1 Hrow. unfold LockOrderForDeliveryHandoff in Hrow.
  run_bind Hrow o d2 Ho. apply get_row_Ok in Ho as [-> Ho].
  run_bind Hrow u d2 Hu. apply get_row_Ok in Hu as [-> Hu].
  run_bind Hrow it d2 Hit. apply find_row_Ok in Hit as (-> & _).
  apply ret_Ok_inv in Hrow as [<- <-].
  destruct (bool_decide (o_status o = OrderStatusDelivering)).
  { run_bind Hrun x d2 Hx. unfold GetDeliveryJobByOrder in Hx. apply find_row_Ok in Hx as (-> & _). by injection Hrun. }
  run_guard Hrun Hst. run_read Hrun. run_guard Hrun Hc.
  run_bind Hrun job d1 Hjob. apply try_row_inv in Hjob as [(j & -> & Hj) | (-> & -> & _)].
  - run_bind Hrun o' d2 Hup. run_bind Hrun h d3 Hh. destruct (audit_actor _ _).
    run_bind Hrun au d4 Hau. discriminate Hrun.
  - run_bind Hrun x d2 Hx. unfold GetDeliveryJobByOrder in Hx. apply find_row_Ok in Hx as (-> & _). by injection Hrun.
Qed.

(** No delivery job of the order exists, so the hand-off inserts one. *)
Lemma handoff_inserts k t m at_ a q env d b d' o :
  createDeliveryHandoffWithinTransaction k t m at_ a q env d = Ok b d' ->
  rows OrderRow d !! k = Some o -> o_status o = OrderStatusReserving -> o_id o = k ->
  (forall kj j, rows OutboxRow d !! kj = Some j -> is_job_of k j = false) -> b = true.
Proof.
  intros Hrun Ho Hs Hid Hno. destruct b; [done|]. exfalso.
  unfold createDeliveryHandoffWithinTransaction in Hrun. run_guard Hrun Hg.
  run_bind Hrun row d1 Hrow. unfold LockOrderForDeliveryHandoff in Hrow.
  run_bind Hrow o1 d2 Ho1. apply get_row_Ok in Ho1 as [-> Ho1]. rewrite Ho in Ho1. injection Ho1 as <-.
  run_bind Hrow u d2 Hu. apply get_row_Ok in Hu as [-> Hu].
  run_bind Hrow it d2 Hit. apply find_row_Ok in Hit as (-> & _).
  apply ret_Ok_inv in Hrow as [<- <-]. rewrite Hs in Hrun. simpl in Hrun.
  run_guard Hrun Hst. run_read Hrun. run_guard Hrun Hc.
  run_bind Hrun job d1 Hjob. apply try_row_inv in Hjob as [(j & -> & Hj) | (-> & -> & _)].
  - run_bind Hrun o' d2 Hup. run_bind Hrun h d3 Hh. destruct (audit_actor _ _).
    run_bind Hrun au d4 Hau. discriminate Hrun.
  - run_bind Hrun x d2 Hx. unfold GetDeliveryJobByOrder in Hx. apply find_row_Ok in Hx as (_ & Hx & [kj Hkj]).
    specialize (Hno kj x Hkj). congruence.
Qed.

(** ** Jobs belong to orders that were handed over *)

Definition handed_over (s : OrderStatus) : bool :=
  bool_decide (s = OrderStatusDelivering) || bool_decide (s = OrderStatusDelivered)
  || bool_decide (s = OrderStatusDeliveryFailed) || bool_decide (s = OrderStatusRefunded).

(** Every delivery job is that of an order that reached delivery. *)
Definition jobs_started (d : Database) : Prop :=
  forall kj j k, rows OutboxRow d !! kj = Some j -> j_order_id j = Some k ->
  exists o, rows OrderRow d !! k = Some o /\ handed_over (o_status o) = true.

Lemma handed_over_edge s s' : order_edge s s' -> handed_over s = true -> handed_over s' = true.
Proof.
  intros He%order_edge_targets Hs. unfold handed_over in Hs. rewrite !orb_true_iff, !bool_decide_eq_true in Hs.
  destruct Hs as [[[-> | ->] | ->] | ->]; simpl in He; repeat (apply elem_of_cons in He as [-> | He]; [done|]);
    by apply not_elem_of_nil in He.
Qed.

Lemma handed_over_step o o' : order_step o o' -> handed_over (o_status o) = true -> handed_over (o_status o') = true.
Proof.
  intros [-> | (_ & Hp & _)]; [done|]. induction Hp; eauto using handed_over_edge.
Qed.

Lemma keeps_jobs_started {A} (m : Tx Database A) :
  respects (keeps db_wf) m -> respects (evolves OrderRow order_step) m -> respects (derived OutboxRow j_order_id) m ->
  respects (under db_wf (keeps jobs_started)) m.
Proof.
  intros Hwf Ho Hj. apply respects_under; [done|]. intros env d a d' Hrun Hd kj j' k Hj' Hk.
  destruct (Hj _ _ _ _ Hrun kj j' Hj') as (j & Hj0 & Heq).
  destruct (Hd kj j k Hj0) as (o & Hok & Hs); [congruence|].
  destruct (Ho _ _ _ _ Hrun k o Hok) as (o' & Ho' & Hst). eauto using handed_over_step.
Qed.

Lemma handoff_keeps_jobs_started k t m at_ a q :
  respects (under db_wf (keeps jobs_started)) (createDeliveryHandoffWithinTransaction k t m at_ a q).
Proof.
  intros env d b d' Hrun Hwf. split; [by eapply (pres_handoff (Rel := keeps db_wf))|]. intros Hd.
  destruct b; [|by apply handoff_idle in Hrun as ->].
  apply handoff_Ok in Hrun as (o & u & it & j & Ho & Hs & _ & _ & _ & _ & HO & HJ & _ & _ & Hjo & _); [|done].
  intros kj j' k'. rewrite HJ, HO. intros [[<- <-]|[_ Hj']]%lookup_insert_Some Hk.
  - rewrite Hjo in Hk. injection Hk as <-. rewrite lookup_insert_eq. eauto.
  - destruct (Hd kj j' k' Hj' Hk) as (o' & Ho' & Hh).
    destruct (decide (k' = k)) as [->|Hne]; [rewrite lookup_insert_eq | rewrite lookup_insert_ne by done]; eauto.
Qed.

#[export] Instance preserved_jobs_started : Preserved (under db_wf (keeps jobs_started)).
Proof.
  preserved_statements; first
    [ apply handoff_keeps_jobs_started
    | intros; apply keeps_jobs_started; [solve [eauto with tx nocore] .. | preserve] ].
Qed.

(** ** Settling an order payment *)


Lemma mark_paid_Ok t k v env d o' d' :
  MarkOrderPaidGuarded t k v env d = Ok o' d' ->
  exists o, rows OrderRow d !! k = Some o /\ o_status o = OrderStatusPendingPayment /\ o_version o = v /\
    o' = o <| o_status := OrderStatusPaid |> <| o_paid_at := Some t |> <| o_version := o_version o + 1 |> /\
    rows OrderRow d' = <[k := o']> (rows OrderRow d).
Proof.
  intros (o & Ho & Hg & -> & -> & _)%update_row_Ok. exists o.
  rewrite andb_true_iff, bool_decide_eq_true in Hg. destruct Hg.
  split_and!; [done | done | lia | done | by rewrite rows_put].
Qed.

Lemma update_status_Ok new k old v env d o' d' :
  UpdateOrderStatusGuarded new k old v env d = Ok o' d' ->
  exists o, rows OrderRow d !! k = Some o /\ o_status o = old /\ o_version o = v /\
    o' = o <| o_status := new |> <| o_version := o_version o + 1 |> /\
    rows OrderRow d' = <[k := o']> (rows OrderRow d).
Proof.
  intros (o & Ho & Hg & -> & -> & _)%update_row_Ok. exists o.
  rewrite andb_true_iff, bool_decide_eq_true in Hg. destruct Hg.
  split_and!; [done | done | lia | done | by rewrite rows_put].
Qed.

Lemma insert_allocation_Ok p ty t a env d al d' :
  InsertPaymentAllocation p ty t a env d = Ok al d' ->
  rows AllocationRow d' !! al_id al = Some al /\ al_payment_id al = p /\ al_target_type al = ty /\
  al_target_id al = t /\ al_amount_vnd al = a.
Proof.
  unfold InsertPaymentAllocation. intros (-> & _ & Hrows & _)%insert_row_Ok. rewrite Hrows. simpl. by rewrite lookup_insert_eq.
Qed.

(** The order was paid and is on its way: it is delivering, exactly the quantity of
    its item is held for it, and one pending job, due at once and not attempted yet,
    will deliver it to the customer's chat; the payment is allocated to it in full. *)
Definition order_under_way (k : Z) (paid_at : Time) (payment_id amount : Z) (d : Database) : Prop :=
  (exists o, rows OrderRow d !! k = Some o /\ o_status o = OrderStatusDelivering /\ o_paid_at o = Some paid_at) /\
  (exists it, head (select (fun it => oi_order_id it =? k) d) = Some it /\ 0 < oi_quantity it /\
     Z.of_nat (length (held_items k d)) = oi_quantity it) /\
  (exists kj j o u, 0 < kj /\ rows OutboxRow d !! kj = Some j /\ j_order_id j = Some k /\ j_status j = DeliveryJobPending /\
     j_event_type j = delivery_event_type /\ (j_attempts j = 0 /\ 0 < j_max_attempts j /\ j_next_attempt_at j = paid_at) /\
     rows OrderRow d !! k = Some o /\ rows User d !! o_user_id o = Some u /\ j_chat_id j = Some (u_telegram_user_id u)) /\
  (exists ka al, rows AllocationRow d !! ka = Some al /\ al_payment_id al = payment_id /\
     al_target_type al = "order"%string /\ al_target_id al = k /\ al_amount_vnd al = amount).

Definition no_job (k : Z) (d : Database) : Prop :=
  forall kj j, rows OutboxRow d !! kj = Some j -> is_job_of k j = false.

(** From a reserving order to one under way: the part the two payment methods share *)
Lemma under_way k t pid amount m at_ a q o env d1 d2 d3 al b :
  db_wf d1 -> InsertPaymentAllocation pid "order" k amount env d1 = Ok al d2 ->
  createDeliveryHandoffWithinTransaction k t m at_ a q env d2 = Ok b d3 ->
  rows OrderRow d1 !! k = Some o -> o_status o = OrderStatusReserving -> o_paid_at o = Some t -> no_job k d1 ->
  order_under_way k t pid amount d3.
Proof.
  intros Hwf Hal Hh Ho Hs Hp Hno.
  assert (Hwf2 : db_wf d2) by (by step_wf Hal Hwf).
  assert (HO : rows OrderRow d2 = rows OrderRow d1) by table_frame.
  assert (HJ : rows OutboxRow d2 = rows OutboxRow d1) by table_frame.
  assert (HA : rows AllocationRow d3 = rows AllocationRow d2).
  { eapply frame_after; [|exact Hh]. unfold createDeliveryHandoffWithinTransaction, audit_actor. preserve. }
  assert (b = true) as ->.
  { eapply handoff_inserts; [exact Hh | by rewrite HO | done | | unfold no_job; by rewrite HJ].
    by apply (wf_key _ _ (wf_orders _ Hwf)). }
  apply handoff_Ok in Hh as (o1 & u & it & j & Ho1 & _ & Hu & Hit & Hq & Hheld & HO3 & HJ3 & _ & Hjs & Hjo & Hjt & Hjc & Hjd & HI3 & HM3 & HT3 & HU3);
    [|done].
  apply insert_allocation_Ok in Hal as (Hal & ? & ? & ? & ?).
  rewrite HO, Ho in Ho1. injection Ho1 as <-. split_and!.
  - eexists. rewrite HO3, lookup_insert_eq. by split_and!.
  - exists it. unfold held_items, holds_reserved, select in *. by rewrite HI3, HM3, HT3.
  - exists (j_id j), j. eexists _, u. rewrite HJ3, HO3, HU3, !lookup_insert_eq. destruct_and! Hjd. by split_and!.
  - exists (al_id al), al. by rewrite HA.
Qed.

#[export] Instance under_way_independent k t p a W `{Table W} `{!Frame OrderRow W} `{!Frame InventoryRow W}
  `{!Frame MappingRow W} `{!Frame OutboxRow W} `{!Frame AllocationRow W} `{!Frame OrderItemRow W} `{!Frame User W} :
  Independent (order_under_way k t p a) W.
Proof.
  intros tt d Hd. unfold order_under_way, held_items, holds_reserved, select in *.
  by rewrite !rows_frame.
Qed.

Lemma under_way_after {A} (m : Tx Database A) k t p a env d x d' :
  respects (keeps (order_under_way k t p a)) m -> m env d = Ok x d' ->
  order_under_way k t p a d -> order_under_way k t p a d'.
Proof. intros Hm Hrun. by apply (Hm env d x d'). Qed.

(** A payment sent to review is reported as such. *)
Lemma recordPaymentReview_decision c p o r t res env d res' d' :
  recordPaymentReview c p o r t res env d = Ok res' d' -> res_decision res' = "review"%string.
Proof.
  unfold recordPaymentReview. intros Hrun. run_bind Hrun x d1 Hx. run_bind Hrun y d2 Hy. run_bind Hrun z d3 Hz.
  injection Hrun as <- _. by repeat case_match.
Qed.

(** Drops the statements before the last one *)
Ltac run_skip H := repeat (apply bind_Ok_inv in H as (? & ? & _ & H)).

Lemma settle_order_target c o it pay t ttl n res0 env d res d' :
  settle_order c o it pay t ttl n res0 env d = Ok res d' -> res_decision res = "accepted"%string ->
  res_target res = res_target res0.
Proof.
  unfold settle_order. intros Hrun Hdec. run_skip Hrun. destruct (negb _).
  - do 2 (apply bind_Ok_inv in Hrun as (? & ? & _ & Hrun)). apply recordPaymentReview_decision in Hrun. congruence.
  - run_skip Hrun. by injection Hrun as <- _.
Qed.

Lemma settle_order_accepted command o it pay at_ ttl n res0 env d res d' :
  db_wf d -> rows OrderRow d !! o_id o = Some o -> no_job (o_id o) d ->
  settle_order command o it pay at_ ttl n res0 env d = Ok res d' -> res_decision res = "accepted"%string ->
  order_under_way (o_id o) at_ (pay_id pay) (ap_amount command) d' /\ res_order_id res = res_order_id res0 /\
  res_payment_id res = pay_id pay.
Proof.
  intros Hwf Ho Hno Hrun Hdec. unfold settle_order in Hrun.
  run_step Hrun po d1 Hpaid Hwf. apply mark_paid_Ok in Hpaid as (o1 & Ho1 & _ & _ & -> & HO1).
  rewrite Ho in Ho1. injection Ho1 as <-.
  run_step Hrun h1 d2 Hh1 Hwf.
  run_step Hrun ro d3 Hres Hwf. apply update_status_Ok in Hres as (o2 & Ho2 & _ & _ & -> & HO3).
  revert Ho2. follow. rewrite lookup_insert_eq. intros [= <-].
  run_step Hrun h2 d4 Hh2 Hwf. run_step Hrun ids d5 Hclaim Hwf.
  destruct (negb _).
  { do 2 (apply bind_Ok_inv in Hrun as (? & ? & _ & Hrun)). apply recordPaymentReview_decision in Hrun. congruence. }
  run_step Hrun u d6 Hmap Hwf.
  run_bind Hrun al d7 Hal. run_bind Hrun b d8 Hh.
  assert (Hway : order_under_way (o_id o) at_ (pay_id pay) (ap_amount command) d8).
  { eapply under_way; [exact Hwf | exact Hal | exact Hh | | | |].
    - follow. by rewrite lookup_insert_eq.
    - done.
    - done.
    - unfold no_job. by follow. }
  run_bind Hrun ev d9 Hev.
  apply (under_way_after (A := _)) with (2 := Hev) in Hway; [|unfold completePaymentEvent; preserve].
  run_bind Hrun au d10 Hau.
  apply (under_way_after (A := _)) with (2 := Hau) in Hway; [|preserve].
  injection Hrun as <- <-. done.
Qed.

(** ** The branches of an acceptance *)

(** What has to hold of an order for a payment to settle it *)
Definition payable (c : AcceptPaymentCommand) (accepted_at : Time) (o : OrderRow) : Prop :=
  o_status o = OrderStatusPendingPayment /\ o_total_vnd o = ap_amount c /\ o_currency o = ap_currency c /\
  accepted_at < o_expires_at o /\ o_environment o = ap_environment c /\
  (0 < ap_mapping_id c -> fst <$> o_bank o = Some (ap_bank_account_id c)).

Lemma right_destination e b c :
  wrong_destination e b c = false ->
  e = ap_environment c /\ (0 < ap_mapping_id c -> b = Some (ap_bank_account_id c)).
Proof.
  unfold wrong_destination. rewrite orb_false_iff, negb_false_iff, str_eqb_eq. intros [-> Hb].
  split; [done|]. intros Hm. replace (0 <? ap_mapping_id c) with true in Hb by lia. simpl in Hb.
  destruct b as [b|]; [|done]. apply negb_false_iff, Z.eqb_eq in Hb. congruence.
Qed.

Lemma clean_order_is_payable o c t : order_review_reason o c t = ""%string -> payable c t o.
Proof.
  unfold order_review_reason, orderReviewReason, payable, time_after. intros H.
  destruct (Z.eqb_spec (o_total_vnd o) (ap_amount c)); simpl in H; [|done].
  destruct (str_eqb (o_currency o) (ap_currency c)) eqn:Hc; simpl in H; [|done]. apply str_eqb_eq in Hc.
  destruct (_ || _ || _) eqn:Hl in H; [done|]. rewrite !orb_false_iff, negb_false_iff in Hl.
  destruct (bool_decide (o_status o = OrderStatusPendingPayment)) eqn:Hs; simpl in H; [|done].
  apply bool_decide_eq_true in Hs.
  destruct (wrong_destination _ _ _) eqn:Hd; [done|]. apply right_destination in Hd as [? ?].
  split_and!; (done || lia).
Qed.

Lemma handleExistingPayment_decision c e t res env d res' d' :
  handleExistingPayment c e t res env d = Ok res' d' ->
  res_decision res' = "duplicate"%string \/ res_decision res' = "review"%string.
Proof.
  unfold handleExistingPayment. intros Hrun. case_match.
  { right. by eapply recordPaymentReview_decision. }
  run_bind Hrun o d1 Ho. destruct o as [al|].
  - run_bind Hrun x d2 Hx. injection Hrun as <- _. left. by repeat case_match.
  - right. by eapply recordPaymentReview_decision.
Qed.

Lemma recordTopupReview_decision c p tp r t res env d res' d' :
  recordTopupReview c p tp r t res env d = Ok res' d' -> res_decision res' = "review"%string.
Proof.
  unfold recordTopupReview. intros Hrun. run_bind Hrun x d1 Hx. run_bind Hrun y d2 Hy. run_bind Hrun z d3 Hz.
  by injection Hrun as <- _.
Qed.

(** The two ways a payment is accepted *)
Inductive acceptance (c : AcceptPaymentCommand) (t : Time) (ttl : Duration) (n : Z) (env : Env) (d d' : Database)
    (res : PaymentAcceptanceResult) : Prop :=
  | accept_order o it pay d1 :
      (exists k, rows OrderRow d !! k = Some o) -> o_payment_reference o = ap_reference c -> payable c t o ->
      insertOrderPayment c o PaymentStatusConfirmed t env d = Ok pay d1 ->
      settle_order c o it pay t ttl n
        (zero_result <| res_target := "order"%string |> <| res_order_id := o_id o |>) env d1 = Ok res d' ->
      acceptance c t ttl n env d d' res
  | accept_topup tp :
      (exists k, rows TopupRow d !! k = Some tp) -> tp_reference tp = ap_reference c ->
      acceptWalletTopupPayment c tp t zero_result env d = Ok res d' ->
      acceptance c t ttl n env d d' res.

Lemma find_order_reference r env d o it d' :
  LockOrderByPaymentReference r env d = Ok (o, it) d' ->
  d' = d /\ o_payment_reference o = r /\ exists k, rows OrderRow d !! k = Some o.
Proof.
  unfold LockOrderByPaymentReference. intros Hrun.
  run_bind Hrun o1 d1 Ho. apply find_row_Ok in Ho as (-> & Hr & Hk). run_read Hrun.
  run_bind Hrun it1 d1 Hi. destruct (first_item _ _); [|discriminate].
  injection Hi as <- <-. injection Hrun as <- <- <-. apply str_eqb_eq in Hr. done.
Qed.

Lemma accepted_inv c t ttl n env d res d' :
  acceptPaymentWithinTransaction c t ttl n env d = Ok res d' -> res_decision res = "accepted"%string ->
  acceptance c t ttl n env d d' res.
Proof.
  intros Hrun Hdec.
  assert (Hroute : route_payment c t ttl n zero_result env d = Ok res d').
  { unfold acceptPaymentWithinTransaction in Hrun. case_match; [|done].
    run_bind Hrun ev d1 Hev. apply get_row_Ok in Hev as [-> Hev].
    destruct (ev_status ev); try discriminate; [done | ..]; injection Hrun as <- _; done. }
  clear Hrun. rename Hroute into Hrun. unfold route_payment in Hrun.
  run_bind Hrun old d1 Hex. apply try_row_inv in Hex as [(e & -> & _) | (-> & -> & _)].
  { apply handleExistingPayment_decision in Hrun as [?|?]; congruence. }
  run_read Hrun. case_match; [apply recordPaymentReview_decision in Hrun; congruence|].
  run_bind Hrun o d1 Ho. apply try_row_inv in Ho as [([o1 it] & -> & Ho) | (-> & -> & _)].
  - apply find_order_reference in Ho as (-> & Hr & Hk). unfold accept_order_payment in Hrun.
    destruct (str_eqb _ "") eqn:Hreason; simpl in Hrun; last first.
    { run_bind Hrun p d1 Hp. apply recordPaymentReview_decision in Hrun. congruence. }
    apply str_eqb_eq, clean_order_is_payable in Hreason.
    run_bind Hrun p d1 Hp. apply try_row_inv in Hp as [(p1 & -> & Hp) | (-> & -> & _)]; last first.
    { run_bind Hrun e d1 He. apply handleExistingPayment_decision in Hrun as [?|?]; congruence. }
    by eapply accept_order.
  - run_bind Hrun tp d1 Htp. apply try_row_inv in Htp as [(tp1 & -> & Htp) | (-> & -> & _)].
    + unfold LockWalletTopupByReference in Htp. apply find_row_Ok in Htp as (-> & Hr & Hk).
      apply str_eqb_eq in Hr. by eapply accept_topup.
    + apply recordPaymentReview_decision in Hrun. congruence.
Qed.

Lemma no_job_before_handover k o d :
  jobs_started d -> rows OrderRow d !! k = Some o -> handed_over (o_status o) = false -> no_job k d.
Proof.
  intros Hd Ho Hh kj j Hj. unfold is_job_of. destruct (str_eqb _ _); [|done]. simpl.
  apply bool_decide_eq_false. intros Hk. destruct (Hd kj j k Hj Hk) as (o' & Ho' & Hs). congruence.
Qed.

Lemma insert_payment_Ok oid u pu pr tx r a en st c t env d p d' :
  InsertPayment oid u pu pr tx r a en st c t env d = Ok p d' ->
  rows PaymentRow d' !! pay_id p = Some p /\ rows PaymentRow d !! pay_id p = None /\
  p = mkPaymentRow (pay_id p) oid u pu pr tx r a "VND" st c t en.
Proof.
  unfold InsertPayment. intros Hrun%insert_row_or_nothing_Ok.
  apply insert_row_Ok in Hrun as (-> & Hn & Hrows & _). rewrite Hrows. simpl. by rewrite lookup_insert_eq.
Qed.

(** What an accepted top-up changes *)
Lemma accepted_topup_inv c tp t res0 env d res d' :
  acceptWalletTopupPayment c tp t res0 env d = Ok res d' -> res_decision res = "accepted"%string ->
  topup_review_reason tp c t = ""%string /\ res_target res = "wallet_topup"%string /\ res_topup_id res = tp_id tp /\
  exists pay d1 d2, InsertPayment None (tp_user_id tp) "wallet_topup" (ap_provider c)
      (optionalText (ap_transaction_id c)) (ap_reference c) (ap_amount c) (ap_environment c)
      PaymentStatusConfirmed (Some t) (ap_occurred_at c) env d = Ok pay d1 /\
    credit_topup c tp (pay_id pay) env d1 = Ok tt d2 /\ res_payment_id res = pay_id pay /\
    exists tp' al d3 d4, MarkWalletTopupCredited t (tp_id tp) (tp_version tp) env d2 = Ok tp' d3 /\
      InsertPaymentAllocation (pay_id pay) "wallet_topup" (tp_id tp) (ap_amount c) env d3 = Ok al d4 /\
      (completePaymentEvent (ap_event_id c) EventCompleted 0 (tp_id tp) t "" "";;
       insertPaymentAudit c (pay_id pay) 0 "accepted" "wallet_topup") env d4 = Ok tt d'.
Proof.
  intros Hrun Hdec. unfold acceptWalletTopupPayment in Hrun.
  destruct (str_eqb (topup_review_reason tp c t) "") eqn:Hreason; simpl in Hrun;
    run_bind Hrun p d1 Hp; apply try_row_inv in Hp as [(pay & -> & Hp) | (-> & -> & _)].
  - apply str_eqb_eq in Hreason.
    run_bind Hrun u d2 Hcr. destruct u. run_bind Hrun tp' d3 Htp. run_bind Hrun al d4 Hal.
    run_bind Hrun u5 d5 Hev. destruct u5. run_bind Hrun u6 d6 Hau. destruct u6.
    injection Hrun as <- <-. simpl. split_and!; [done.. |].
    exists pay, d1, d2. split_and!; [done.. |]. exists tp', al, d3, d4. split_and!; [done.. |].
    by erewrite bind_Ok.
  - run_bind Hrun e d1 He. apply handleExistingPayment_decision in Hrun as [?|?]; congruence.
  - run_bind Hrun u d2 Hm. apply recordTopupReview_decision in Hrun. congruence.
  - run_bind Hrun e d1 He. apply handleExistingPayment_decision in Hrun as [?|?]; congruence.
Qed.

Lemma acceptance_target c t ttl n env d d' res :
  acceptance c t ttl n env d d' res -> res_decision res = "accepted"%string -> res_target res = "order"%string ->
  exists o it pay d1, (exists k, rows OrderRow d !! k = Some o) /\ o_payment_reference o = ap_reference c /\
    payable c t o /\ insertOrderPayment c o PaymentStatusConfirmed t env d = Ok pay d1 /\
    settle_order c o it pay t ttl n
      (zero_result <| res_target := "order"%string |> <| res_order_id := o_id o |>) env d1 = Ok res d'.
Proof.
  intros [o it pay d1 | tp Htp Hr Hrun] Hdec Hty; [by eexists _, _, _, _|].
  apply accepted_topup_inv in Hrun as (_ & Ht & _); [congruence | done].
Qed.

Lemma acceptance_transaction c t ttl n env d res d' :
  AcceptPayment c t ttl n env d = (inr res, d') ->
  acceptPaymentWithinTransaction c t ttl (configuredDeliveryMaxAttempts n) env d = Ok res d'.
Proof. apply transaction_ok_inv. Qed.

(** ** Deciding an event *)

(** The event is completed or under review. *)
Definition event_settled (id : Z) (d : Database) : Prop :=
  exists e, rows PaymentEventRow d !! id = Some e /\ (ev_status e = EventCompleted \/ ev_status e = EventReview).

#[export] Instance event_settled_independent id W `{Table W} `{!Frame PaymentEventRow W} :
  Independent (event_settled id) W.
Proof. intros t d. unfold event_settled. by rewrite rows_frame. Qed.

(** Every run of [m] that returns leaves the event settled. *)
Definition settles {A} (id : Z) (m : Tx Database A) : Prop :=
  forall env d a d', m env d = Ok a d' -> event_settled id d'.

Lemma settles_last {A B} id (m : Tx Database A) (k : A -> Tx Database B) :
  (forall a, settles id (k a)) -> settles id (m ≫= k).
Proof. intros Hk env d b d' Hrun. run_bind Hrun a d1 Ha. by eapply Hk. Qed.

Lemma settles_first {A B} id (m : Tx Database A) (k : A -> Tx Database B) :
  settles id m -> (forall a, respects (keeps (event_settled id)) (k a)) -> settles id (m ≫= k).
Proof. intros Hm Hk env d b d' Hrun. run_bind Hrun a d1 Ha. apply (Hk a _ _ _ _ Hrun). by eapply Hm. Qed.

Lemma settles_throw {A} id e : settles id (throw (A := A) e).
Proof. intros env d a d' Hrun. discriminate. Qed.

Lemma completePaymentEvent_settles id st o tp t c dt :
  0 < id -> st = EventCompleted \/ st = EventReview -> settles id (completePaymentEvent id st o tp t c dt).
Proof.
  intros Hid Hst env d [] d' Hrun. unfold completePaymentEvent in Hrun.
  replace (id <=? 0) with false in Hrun by lia. run_bind Hrun e d1 He. injection Hrun as <-.
  apply update_row_Ok in He as (e0 & _ & _ & -> & -> & _). eexists. by rewrite rows_put, lookup_insert_eq.
Qed.

(** Finds the [completePaymentEvent] of a branch: what follows it keeps the event settled. *)
Ltac settling :=
  repeat first
    [ apply settles_throw
    | apply settles_first; [solve [apply completePaymentEvent_settles; [assumption | tauto]] | intros ?; preserve]
    | apply settles_last; intros ?
    | match goal with |- settles _ (match ?x with _ => _ end) => destruct x end ].

Lemma recordPaymentReview_settles c p o r t res : 0 < ap_event_id c -> settles (ap_event_id c) (recordPaymentReview c p o r t res).
Proof. intros Hid. unfold recordPaymentReview. settling. Qed.

Lemma handleExistingPayment_settles c e t res : 0 < ap_event_id c -> settles (ap_event_id c) (handleExistingPayment c e t res).
Proof.
  intros Hid. unfold handleExistingPayment. cbv zeta. case_match; [by apply recordPaymentReview_settles|].
  apply settles_last. intros [al|]; [settling | by apply recordPaymentReview_settles].
Qed.

Lemma topup_settles c tp t res : 0 < ap_event_id c -> settles (ap_event_id c) (acceptWalletTopupPayment c tp t res).
Proof.
  intros Hid. unfold acceptWalletTopupPayment. cbv zeta. apply settles_last. intros [p|].
  - case_match; [unfold recordTopupReview; settling|]. do 3 (apply settles_last; intros ?). settling.
  - apply settles_last. intros e. by apply handleExistingPayment_settles.
Qed.

Lemma settle_order_settles c o it p t ttl n res : 0 < ap_event_id c -> settles (ap_event_id c) (settle_order c o it p t ttl n res).
Proof.
  intros Hid. unfold settle_order. cbv zeta. do 5 (apply settles_last; intros ?). case_match.
  - do 2 (apply settles_last; intros ?). by apply recordPaymentReview_settles.
  - do 3 (apply settles_last; intros ?). settling.
Qed.

Lemma route_payment_settles c t ttl n res : 0 < ap_event_id c -> settles (ap_event_id c) (route_payment c t ttl n res).
Proof.
  intros Hid. unfold route_payment, accept_order_payment. cbv zeta.
  apply settles_last. intros [e|]; [by apply handleExistingPayment_settles|].
  apply settles_last. intros count. case_match; [by apply recordPaymentReview_settles|].
  apply settles_last. intros [[o it]|].
  - case_match; [apply settles_last; intros p; by apply recordPaymentReview_settles|].
    apply settles_last. intros [p|]; [by apply settle_order_settles|].
    apply settles_last. intros e. by apply handleExistingPayment_settles.
  - apply settles_last. intros [tp|]; [by apply topup_settles | by apply recordPaymentReview_settles].
Qed.

Lemma accept_settles c t ttl n : 0 < ap_event_id c -> settles (ap_event_id c) (acceptPaymentWithinTransaction c t ttl n).
Proof.
  intros Hid env d res d' Hrun. unfold acceptPaymentWithinTransaction in Hrun.
  replace (0 <? ap_event_id c) with true in Hrun by lia.
  run_bind Hrun e d1 He. apply get_row_Ok in He as [-> He].
  destruct (ev_status e) eqn:Hs; try discriminate; [by eapply route_payment_settles | ..];
    injection Hrun as _ <-; exists e; auto.
Qed.

(** ** Theorems *)

(** C1: a payment accepted for an order was for exactly that order: the reference,
    the amount, the currency, the environment and the receiving account are its own
    and it arrived in time.  Afterwards the order is delivering, exactly its quantity
    of stock is held for it, one pending job will deliver it, the payment is
    allocated to it in full, and the confirmed payment is on record. *)
Theorem accepted_order_payment_is_under_way c t ttl n env d res d' :
  db_wf d -> jobs_started d -> AcceptPayment c t ttl n env d = (inr res, d') ->
  res_decision res = "accepted"%string -> res_target res = "order"%string ->
  exists o pay, rows OrderRow d !! res_order_id res = Some o /\ o_payment_reference o = ap_reference c /\
    payable c t o /\ order_under_way (res_order_id res) t (res_payment_id res) (ap_amount c) d' /\
    rows PaymentRow d' !! res_payment_id res = Some pay /\ pay_status pay = PaymentStatusConfirmed /\
    pay_order_id pay = Some (res_order_id res) /\ pay_amount_vnd pay = ap_amount c.
Proof.
  intros Hwf Hd Hrun%acceptance_transaction Hdec Hty.
  apply accepted_inv in Hrun; [|done].
  apply acceptance_target in Hrun as (o & it & pay & d1 & (k & Hk) & Hr & Hpay & Hins & Hrun); [|done..].
  assert (o_id o = k) as Hid by exact (wf_key _ _ (wf_orders _ Hwf) k o Hk).
  pose proof Hpay as (Hst & _).
  assert (HO : rows OrderRow d1 = rows OrderRow d) by (unfold insertOrderPayment in Hins; table_frame).
  assert (HJ : rows OutboxRow d1 = rows OutboxRow d) by (unfold insertOrderPayment in Hins; table_frame).
  assert (Hwf1 : db_wf d1) by (unfold insertOrderPayment in Hins; by step_wf Hins Hwf).
  pose proof Hrun as Hset. apply settle_order_accepted in Hset as (Hway & Hoid & Hpid); [|done | | |done].
  - simpl in Hoid. rewrite Hoid, Hpid, Hid in *.
    apply insert_payment_Ok in Hins as (Hp & _ & Heq). exists o, pay. split_and!; try done.
    + destruct (settle_order_ok (append_only PaymentRow) c o it pay t ttl _ _ _ _ _ _ Hrun _ _ Hp) as (p' & ? & ->).
      done.
    + by rewrite Heq.
    + rewrite Heq. simpl. by rewrite Hid.
    + by rewrite Heq.
  - by rewrite HO, Hid.
  - unfold no_job. rewrite HJ, Hid. eapply no_job_before_handover; [done..|]. by rewrite Hst.
Qed.

Lemma credit_topup_Ok c tp pid env d d' :
  credit_topup c tp pid env d = Ok tt d' -> db_wf d ->
  exists w e, rows WalletRow d !! tp_wallet_account_id tp = Some w /\ w_status w = WalletActive /\
    rows WalletRow d' = <[tp_wallet_account_id tp := credit_wallet (ap_amount c) w]> (rows WalletRow d) /\
    rows LedgerRow d !! le_id e = None /\ rows LedgerRow d' = <[le_id e := e]> (rows LedgerRow d) /\
    le_account_id e = tp_wallet_account_id tp /\ le_amount_vnd e = ap_amount c /\
    le_entry_type e = WalletEntryTypeCredit /\ le_balance_after_vnd e = w_balance_vnd w + ap_amount c.
Proof.
  intros Hrun Hwf. unfold credit_topup in Hrun. run_bind Hrun w d1 Hw. apply get_row_Ok in Hw as [-> Hw].
  assert (w_id w = tp_wallet_account_id tp) as Hid by exact (wf_key _ _ (wf_wallets _ Hwf) _ w Hw).
  run_bind Hrun w' d1 Hu. apply UpdateWalletBalance_Ok in Hu as (w1 & Hw1 & Hs & _ & _ & -> & ->).
  rewrite Hid, Hw in Hw1. injection Hw1 as <-.
  run_bind Hrun e d2 He. injection Hrun as <-.
  unfold InsertWalletLedgerEntry in He. apply insert_row_Ok in He as (-> & Hn & Hrows & (t & ->) & _).
  assert (HL : rows LedgerRow (put_row (w_id w) (credit_wallet (ap_amount c) w) d) = rows LedgerRow d) by apply rows_frame.
  rewrite HL in *. match type of Hrows with _ = <[_ := ?e]> _ => exists w, e end.
  split_and!; try done. by rewrite rows_frame, rows_put, Hid.
Qed.

Lemma clean_topup tp c t :
  topup_review_reason tp c t = ""%string ->
  tp_status tp = TopupPending /\ tp_amount_vnd tp = ap_amount c /\ tp_currency tp = ap_currency c /\
  t < tp_expires_at tp /\ tp_environment tp = ap_environment c.
Proof.
  unfold topup_review_reason, time_after. intros H.
  destruct (wrong_destination _ _ _) eqn:Hd; [done|]. apply right_destination in Hd as [? _].
  destruct (Z.eqb_spec (tp_amount_vnd tp) (ap_amount c)); simpl in H; [|done].
  destruct (str_eqb (tp_currency tp) (ap_currency c)) eqn:Hc; simpl in H; [|done]. apply str_eqb_eq in Hc.
  destruct (_ || _) eqn:Hl in H; [done|]. rewrite orb_false_iff, !negb_false_iff in Hl.
  destruct Hl as [Hs%bool_decide_eq_true ?]. split_and!; (done || lia).
Qed.

(** C18: a payment accepted for a wallet top-up was for exactly that pending top-up,
    in time; the wallet's balance grows by exactly its amount, one ledger entry with
    the new balance records it, the top-up is credited, and no order, item of stock
    or delivery job changes. *)
Theorem accepted_topup_credits_the_wallet c t ttl n env d res d' :
  db_wf d -> AcceptPayment c t ttl n env d = (inr res, d') ->
  res_decision res = "accepted"%string -> res_target res = "wallet_topup"%string ->
  exists tp w e, rows TopupRow d !! res_topup_id res = Some tp /\ tp_reference tp = ap_reference c /\
    tp_status tp = TopupPending /\ tp_amount_vnd tp = ap_amount c /\ t < tp_expires_at tp /\
    tp_status <$> rows TopupRow d' !! res_topup_id res = Some TopupCredited /\
    rows WalletRow d !! tp_wallet_account_id tp = Some w /\
    rows WalletRow d' = <[tp_wallet_account_id tp := credit_wallet (ap_amount c) w]> (rows WalletRow d) /\
    rows LedgerRow d' = <[le_id e := e]> (rows LedgerRow d) /\ le_account_id e = tp_wallet_account_id tp /\
    le_amount_vnd e = ap_amount c /\ le_balance_after_vnd e = w_balance_vnd w + ap_amount c /\
    rows OrderRow d' = rows OrderRow d /\ rows InventoryRow d' = rows InventoryRow d /\
    rows OutboxRow d' = rows OutboxRow d.
Proof.
  intros Hwf Hrun%acceptance_transaction Hdec Hty.
  apply accepted_inv in Hrun; [|done]. destruct Hrun as [o it pay d1 (k & Hk) Hr Hpay Hins Hrun | tp (k & Hk) Hr Hrun].
  { apply settle_order_target in Hrun; [|done]. by rewrite Hty in Hrun. }
  assert (tp_id tp = k) as Hid by exact (wf_key _ _ (wf_topups _ Hwf) k tp Hk).
  apply accepted_topup_inv in Hrun
    as (Hclean & _ & Htid & pay & d1 & d2 & Hins & Hcr & _ & tp' & al & d3 & d4 & Hmark & Hal & Hrest); [|done].
  assert (Hwf1 : db_wf d1) by (by step_wf Hins Hwf).
  assert (HW1 : rows WalletRow d1 = rows WalletRow d) by table_frame.
  assert (HL1 : rows LedgerRow d1 = rows LedgerRow d) by table_frame.
  assert (Hother : forall R (HT : Table R) `{!Frame R PaymentRow} `{!Frame R WalletRow} `{!Frame R LedgerRow}
      `{!Frame R TopupRow} `{!Frame R AllocationRow} `{!Frame R PaymentEventRow} `{!Frame R AuditRow},
      rows R d' = rows R d).
  { intros R HT F1 F2 F3 F4 F5 F6 F7.
    assert (rows R d1 = rows R d) as <- by table_frame.
    assert (rows R d2 = rows R d1) as <- by table_frame.
    assert (rows R d3 = rows R d2) as <- by table_frame.
    assert (rows R d4 = rows R d3) as <- by table_frame.
    eapply frame_after; [|exact Hrest]. unfold completePaymentEvent. preserve. }
  apply clean_topup in Hclean as (Hs & Ha & _ & Ht & _).
  apply credit_topup_Ok in Hcr as (w & e & Hw & _ & HW2 & _ & HL2 & ? & ? & _ & ?); [|done].
  assert (HW : rows WalletRow d' = rows WalletRow d2).
  { assert (rows WalletRow d3 = rows WalletRow d2) as <- by table_frame.
    assert (rows WalletRow d4 = rows WalletRow d3) as <- by table_frame.
    eapply frame_after; [|exact Hrest]. unfold completePaymentEvent. preserve. }
  assert (HL : rows LedgerRow d' = rows LedgerRow d2).
  { assert (rows LedgerRow d3 = rows LedgerRow d2) as <- by table_frame.
    assert (rows LedgerRow d4 = rows LedgerRow d3) as <- by table_frame.
    eapply frame_after; [|exact Hrest]. unfold completePaymentEvent. preserve. }
  assert (HT : rows TopupRow d' = rows TopupRow d3).
  { assert (rows TopupRow d4 = rows TopupRow d3) as <- by table_frame.
    eapply frame_after; [|exact Hrest]. unfold completePaymentEvent. preserve. }
  apply update_row_Ok in Hmark as (tp0 & _ & _ & -> & -> & _).
  exists tp, w, e. rewrite Htid, Hid in *.
  split_and!; try done; try (by apply (Hother _ _)); try congruence.
  rewrite HT, rows_put. by rewrite lookup_insert_eq.
Qed.

(** ** Payments that are not accepted *)

(** Neither goods nor money nor deliveries moved. *)
Definition nothing_moved (d d' : Database) : Prop :=
  rows InventoryRow d' = rows InventoryRow d /\ rows MappingRow d' = rows MappingRow d /\
  rows WalletRow d' = rows WalletRow d /\ rows LedgerRow d' = rows LedgerRow d /\
  rows OutboxRow d' = rows OutboxRow d.

#[export] Instance nothing_moved_preorder : PreOrder nothing_moved.
Proof. unfold nothing_moved. split; [done|]. intros d1 d2 d3 H12 H23. destruct_and!. split_and!; congruence. Qed.

#[export] Instance nothing_moved_unaffected W `{Table W} `{!Frame InventoryRow W} `{!Frame MappingRow W}
  `{!Frame WalletRow W} `{!Frame LedgerRow W} `{!Frame OutboxRow W} : Unaffected nothing_moved W.
Proof. intros t d. unfold nothing_moved. by rewrite !rows_frame. Qed.

Lemma moved_after {A} (m : Tx Database A) env d a d' :
  respects nothing_moved m -> m env d = Ok a d' -> nothing_moved d d'.
Proof. intros Hm. by apply Hm. Qed.

Ltac moved_by Hrun :=
  eapply moved_after; [|exact Hrun];
  unfold handleExistingPayment, recordPaymentReview, recordTopupReview, insertOrderPayment, completePaymentEvent; preserve.

Lemma settle_order_unaccepted c o it pay t ttl n res0 env d res d' :
  db_wf d -> settle_order c o it pay t ttl n res0 env d = Ok res d' -> res_decision res <> "accepted"%string ->
  nothing_moved d d' /\ o_status <$> rows OrderRow d' !! o_id o = Some OrderStatusOutOfStock.
Proof.
  intros Hwf Hrun Hdec. unfold settle_order in Hrun.
  run_bind Hrun po d1 R1. assert (nothing_moved d d1) by moved_by R1. step_wf R1 Hwf.
  run_bind Hrun h1 d2 R2. assert (nothing_moved d1 d2) by moved_by R2. step_wf R2 Hwf.
  run_bind Hrun ro d3 R3. assert (nothing_moved d2 d3) by moved_by R3. step_wf R3 Hwf.
  run_bind Hrun h2 d4 R4. assert (nothing_moved d3 d4) by moved_by R4. step_wf R4 Hwf.
  run_bind Hrun ids d5 R5.
  destruct (Z.eqb_spec (Z.of_nat (length ids)) (oi_quantity it)) as [|Hne]; simpl in Hrun.
  { run_skip Hrun. injection Hrun as <- _. done. }
  apply claim_exact_Ok in R5 as [(? & _)|(-> & -> & _)]; [done | | done].
  run_bind Hrun oo d6 R6. assert (nothing_moved d4 d6) by moved_by R6.
  apply update_status_Ok in R6 as (o6 & _ & _ & _ & -> & HO6).
  run_bind Hrun h3 d7 R7. assert (nothing_moved d6 d7) by moved_by R7.
  assert (HO7 : rows OrderRow d7 = rows OrderRow d6) by table_frame.
  assert (HO : rows OrderRow d' = rows OrderRow d7)
    by (eapply frame_after; [|exact Hrun]; unfold recordPaymentReview, completePaymentEvent; preserve).
  split; [|by rewrite HO, HO7, HO6, lookup_insert_eq].
  do 6 (etransitivity; [eassumption|]). moved_by Hrun.
Qed.

Lemma topup_unaccepted c tp t res0 env d res d' :
  acceptWalletTopupPayment c tp t res0 env d = Ok res d' -> res_decision res <> "accepted"%string ->
  nothing_moved d d'.
Proof.
  intros Hrun Hdec. unfold acceptWalletTopupPayment in Hrun.
  run_bind Hrun p d1 Hp. etransitivity; [moved_by Hp|].
  destruct p as [pay|].
  - destruct (str_eqb _ ""); simpl in Hrun; [|moved_by Hrun].
    run_skip Hrun. injection Hrun as <- _. done.
  - run_bind Hrun e d2 He. etransitivity; [moved_by He | moved_by Hrun].
Qed.

Lemma route_unaccepted c t ttl n env d res d' :
  db_wf d -> route_payment c t ttl n zero_result env d = Ok res d' -> res_decision res <> "accepted"%string ->
  nothing_moved d d'.
Proof.
  intros Hwf Hrun Hdec. unfold route_payment in Hrun.
  run_bind Hrun old d1 Hex. apply try_row_inv in Hex as [(e & -> & He) | (-> & -> & _)].
  { etransitivity; [moved_by He | moved_by Hrun]. }
  run_read Hrun. case_match; [moved_by Hrun|].
  run_bind Hrun o d1 Ho. apply try_row_inv in Ho as [([o1 it] & -> & Ho) | (-> & -> & _)].
  - apply find_order_reference in Ho as (-> & _). unfold accept_order_payment in Hrun.
    case_match; [moved_by Hrun|].
    run_bind Hrun p d1 Hp. assert (nothing_moved d d1) by moved_by Hp.
    apply try_row_inv in Hp as [(p1 & -> & Hp) | (-> & -> & _)].
    + unfold insertOrderPayment in Hp. step_wf Hp Hwf.
      etransitivity; [eassumption|]. by eapply settle_order_unaccepted.
    + run_bind Hrun e d1 He. etransitivity; [moved_by He | moved_by Hrun].
  - run_bind Hrun tp d1 Htp. assert (nothing_moved d d1) by moved_by Htp. etransitivity; [eassumption|].
    destruct tp; [by eapply topup_unaccepted | moved_by Hrun].
Qed.

(** C4: a payment that is not accepted (a duplicate, or one sent to review because
    of its amount, currency, account, deadline, reference or missing stock) moves
    neither goods nor money: no item of stock, no reservation, no wallet balance, no
    ledger entry and no delivery job changes. *)
Theorem unaccepted_payments_move_nothing c t ttl n env d res d' :
  db_wf d -> AcceptPayment c t ttl n env d = (inr res, d') -> res_decision res <> "accepted"%string ->
  nothing_moved d d'.
Proof.
  intros Hwf Hrun%acceptance_transaction Hdec. unfold acceptPaymentWithinTransaction in Hrun.
  case_match; [|by eapply route_unaccepted].
  run_bind Hrun ev d1 Hev. apply get_row_Ok in Hev as [-> Hev].
  destruct (ev_status ev); try discriminate; [by eapply route_unaccepted | ..]; by injection Hrun as _ <-.
Qed.

(** C3: accepting the payment of an event is idempotent.  Once it has returned, the
    event is settled for ever, and whatever happens afterwards, accepting a payment
    for the same event again answers "duplicate" and changes nothing. *)
Theorem accepting_an_event_is_idempotent c c' t t' ttl ttl' n n' env env' d d1 d2 res :
  0 < ap_event_id c -> ap_event_id c' = ap_event_id c -> db_wf d1 ->
  AcceptPayment c t ttl n env d = (inr res, d1) -> shop_steps d1 d2 ->
  env_begin env' = Connected -> env_commit env' = CommitOk ->
  AcceptPayment c' t' ttl' n' env' d2 = (inr (zero_result <| res_decision := "duplicate"%string |>), d2).
Proof.
  intros Hid Heq Hwf Hrun%acceptance_transaction Hs Hb Hc.
  apply accept_settles in Hrun as (e & He & Hst); [|done].
  assert (He2 : rows PaymentEventRow d2 !! ap_event_id c = Some e).
  { eapply (settled_forever event_open event_identity ev_attempts); [|exact He|].
    - by apply (shop_steps_ok (under db_wf (evolves PaymentEventRow event_step)) d1 d2).
    - unfold event_open. by destruct Hst as [-> | ->]. }
  unfold AcceptPayment, WithinTransaction. rewrite Hb, Hc. unfold acceptPaymentWithinTransaction.
  rewrite Heq. replace (0 <? ap_event_id c) with true by lia.
  erewrite bind_Ok; last first. { unfold LockPaymentEvent, get_row. rewrite He2. reflexivity. }
  by destruct Hst as [-> | ->].
Qed.

Lemma accepting_an_event_is_idempotent_witness :
  AcceptPayment event_transfer 1500 600 [5] (calm 1500) delivered_notice
  = (inr (zero_result <| res_decision := "duplicate"%string |>), delivered_notice).
Proof.
  assert (exists res, AcceptPayment event_transfer 1200 600 [5] (calm 1200) claimed_notice = (inr res, event_paid))
    as (res & Hres) by (eexists; vm_compute; reflexivity).
  refine (accepting_an_event_is_idempotent event_transfer event_transfer _ _ _ _ _ _ _ _ _ event_paid _ _ _ _ _ Hres _ _ _);
    [reflexivity | reflexivity | decide_wf | history | reflexivity | reflexivity].
Defined.

(** Where nothing was delivered yet, every job is that of an order under way. *)
Lemma no_jobs_started d : rows OutboxRow d = ∅ -> jobs_started d.
Proof. intros He kj j k. by rewrite He, lookup_empty. Qed.

Lemma accepted_order_payment_is_under_way_witness : exists pid, order_under_way 1 1200 pid 100000 paid.
Proof.
  assert (exists res, AcceptPayment transfer 1200 600 [5] (calm 1200) ordered = (inr res, paid) /\
            res_decision res = "accepted"%string /\ res_target res = "order"%string /\ res_order_id res = 1)
    as (res & Hrun & Hdec & Hty & Hid) by (eexists; split; [vm_compute; reflexivity | done]).
  assert (Hwf : db_wf ordered) by decide_wf.
  assert (Hj : jobs_started ordered) by (apply no_jobs_started; vm_compute; reflexivity).
  destruct (accepted_order_payment_is_under_way _ _ _ _ _ _ _ _ Hwf Hj Hrun Hdec Hty)
    as (o & pay & _ & _ & _ & Hway & _).
  rewrite Hid in Hway. exists (res_payment_id res). exact Hway.
Defined.

Lemma accepted_topup_credits_the_wallet_witness :
  exists k w, rows WalletRow funded = <[k := credit_wallet 150000 w]> (rows WalletRow topup_requested).
Proof.
  assert (exists res, AcceptPayment topup_transfer 1200 600 [5] (calm 1200) topup_requested = (inr res, funded) /\
            res_decision res = "accepted"%string /\ res_target res = "wallet_topup"%string)
    as (res & Hrun & Hdec & Hty) by (eexists; split; [vm_compute; reflexivity | done]).
  assert (Hwf : db_wf topup_requested) by decide_wf.
  destruct (accepted_topup_credits_the_wallet _ _ _ _ _ _ _ _ Hwf Hrun Hdec Hty)
    as (tp & w & e & _ & _ & _ & _ & _ & _ & _ & Hw & _).
  exists (tp_wallet_account_id tp), w. exact Hw.
Defined.

(** The same order, paid with the wrong amount *)
Definition short_transfer : AcceptPaymentCommand := transfer <| ap_amount := 99999 |>.
Definition short_paid : Database := perform (OpAcceptPayment short_transfer 1200 600 [5]) (calm 1200) ordered.

Lemma unaccepted_payments_move_nothing_witness : nothing_moved ordered short_paid.
Proof.
  assert (exists res, AcceptPayment short_transfer 1200 600 [5] (calm 1200) ordered = (inr res, short_paid) /\
            res_decision res = "review"%string)
    as (res & Hrun & Hdec) by (eexists; split; [vm_compute; reflexivity | done]).
  assert (Hwf : db_wf ordered) by decide_wf.
  apply (unaccepted_payments_move_nothing _ _ _ _ _ _ _ _ Hwf Hrun). by rewrite Hdec.
Defined.

(** C22: in every history, whatever fails or is retried, a delivery job exists only
    for an order that was paid and handed over: its order is delivering, delivered,
    failed in delivery or refunded, never still to be paid, cancelled or expired. *)
Theorem only_handed_over_orders_have_jobs d d' kj j k :
  shop_steps d d' -> db_wf d -> jobs_started d -> rows OutboxRow d' !! kj = Some j -> j_order_id j = Some k ->
  exists o, rows OrderRow d' !! k = Some o /\ handed_over (o_status o) = true.
Proof.
  intros Hs Hwf Hj Hrow Hk.
  destruct (shop_steps_ok (under db_wf (keeps jobs_started)) d d' Hs Hwf) as [_ Hkeep].
  exact (Hkeep Hj kj j k Hrow Hk).
Qed.

Lemma only_handed_over_orders_have_jobs_witness :
  exists o, rows OrderRow delivered !! 1 = Some o /\ handed_over (o_status o) = true.
Proof.
  assert (exists j, rows OutboxRow delivered !! 1 = Some j /\ j_order_id j = Some 1) as (j & Hj & Hk)
    by (eexists; split; [vm_compute; reflexivity | reflexivity]).
  apply (only_handed_over_orders_have_jobs shop delivered 1 j 1); [exact sale_steps | exact shop_wf | | exact Hj | exact Hk].
  apply no_jobs_started. vm_compute. reflexivity.
Defined.
