(* ===== verification/Acceptance.v ===== *)
(** * Matching transfers settle orders

    The other direction of [Settlement]: when the store answers, a transfer that carries
    the reference, the amount, the currency and the account of a pending order in time is
    accepted as soon as enough of the product is in stock, and the order is under way. *)

From S2P Require Import Prelude Text Domain Schema Tx Tables Models QOrders QInventory QPayments QWallet QUsers.
From S2P Require Import QCatalog QBanks QDelivery UpdateStore AdminStore InventoryStore DeliveryStore PaymentStore.
From S2P Require Import WalletStore OrderService OrderStore PaymentEvents Steps Demo Lifecycle Stock Ledger.
From S2P Require Import Decisions Settlement.

(** What follows from a statement that has succeeded: the constraints and the sequences *)
Ltac went E Hwf Hseq :=
  step_wf E Hwf;
  lazymatch type of E with
  | _ = Ok _ ?d' =>
      let Hseq' := fresh in
      assert (sequenced d') as Hseq' by
        (lazymatch type of E with ?m _ _ = _ =>
           refine ((_ : respects (keeps sequenced) m) _ _ _ _ E Hseq); preserve end);
      clear Hseq; rename Hseq' into Hseq
  end.

(** ** Insertions *)

Section Insertions.
Context {R : Type} `{TableLaws R} `{!Sequenced R}.

Lemma insert_or_nothing_succeeds (mk : Z -> R) env d :
  sequenced d -> row_check (mk (next_key d)) = true ->
  (forall k r, rows R d !! k = Some r -> row_clash (mk (next_key d)) r = false) ->
  exists d', insert_row_or_nothing mk env d = Ok (mk (next_key d)) d' /\ rows R d' = <[next_key d := mk (next_key d)]> (rows R d).
Proof.
  intros Hs Hc Hx. destruct (insert_fresh_succeeds mk env d (sequenced_ahead _ Hs) Hc Hx) as (d' & Hi & Hr & _).
  exists d'. split; [|done]. unfold insert_row_or_nothing. by rewrite Hi.
Qed.

Lemma insert_unless_succeeds conflict (mk : Z -> R) env d :
  sequenced d -> row_check (mk (next_key d)) = true -> (forall k r, rows R d !! k = Some r -> conflict r = false) ->
  (forall k r, rows R d !! k = Some r -> row_clash (mk (next_key d)) r = false) ->
  exists d', insert_row_unless conflict mk env d = Ok (mk (next_key d)) d' /\ rows R d' = <[next_key d := mk (next_key d)]> (rows R d).
Proof.
  intros Hs Hc Hno Hx. destruct (insert_fresh_succeeds mk env d (sequenced_ahead _ Hs) Hc Hx) as (d' & Hi & Hr & _).
  exists d'. split; [|done]. unfold insert_row_unless. rewrite Hc. simpl.
  destruct (select conflict d) as [|r l] eqn:Hsel; [done|].
  assert (r ∈ select conflict d) as [Hr' (k & Hk)]%elem_of_select by (rewrite Hsel; left). by rewrite (Hno k r Hk) in Hr'.
Qed.

(** What a selection gains by a new row *)
Lemma select_insert (p : R -> bool) k r d d' :
  rows R d !! k = None -> rows R d' = <[k := r]> (rows R d) ->
  select p d' ≡ₚ (if p r then [r] else []) ++ select p d.
Proof.
  intros Hn Hr. unfold select. rewrite Hr, map_to_list_insert by done. cbn [fmap list_fmap snd]. rewrite filter_cons.
  destruct (p r); [rewrite decide_True | rewrite decide_False]; done.
Qed.
End Insertions.

(** ** The records of a decision *)

(** An actor that history and audit accept *)
Definition fit_actor (a : PaymentActor) : bool :=
  actor_valid (pact_type a)
  && (let '(t, i) := audit_actor (pact_type a) (optionalInt8 (pact_id a)) in
      actor_valid t && if str_eqb t "system" then is_none i else is_some i).

Lemma optionalInt8_check n : opt_check (fun z => 0 <? z) (optionalInt8 n) = true.
Proof. unfold optionalInt8. by destruct (0 <? n) eqn:E. Qed.

Lemma optionalInt8_positive n z : optionalInt8 n = Some z -> (0 <? z) = true.
Proof. unfold optionalInt8. by destruct (0 <? n) eqn:E; [intros [= <-]|]. Qed.

Lemma history_succeeds oid from to reason at_ ai req env d :
  sequenced d -> Order.IsValid from = true -> Order.IsValid to = true -> actor_valid at_ = true ->
  exists h d', InsertOrderStatusHistory oid (Some from) to (optionalText reason) at_ ai (optionalText req) env d = Ok h d'.
Proof.
  intros Hs Hf Ht Ha.
  destruct (insert_fresh_succeeds (R := OrderHistoryRow)
    (fun id => mkOrderHistoryRow id oid (Some from) to (optionalText reason) at_ ai (optionalText req)) env d)
    as (d' & Hi & _); [exact (sequenced_ahead _ Hs) | | done | by eexists _, d'].
  simpl. unfold order_history_check. simpl. by rewrite Hf, Ht, Ha, !optional_text_nonblank.
Qed.

Lemma payment_history_succeeds c oid from to reason env d :
  sequenced d -> Order.IsValid from = true -> Order.IsValid to = true -> fit_actor (ap_actor c) = true ->
  exists d', insertPaymentOrderHistory c oid from to reason env d = Ok tt d'.
Proof.
  intros Hs Hf Ht [Ha _]%andb_true_iff. unfold insertPaymentOrderHistory.
  destruct (history_succeeds oid from to reason (pact_type (ap_actor c)) (optionalInt8 (pact_id (ap_actor c)))
    (ap_request_id c) env d Hs Hf Ht Ha) as (h & d' & Hh). exists d'. by erewrite bind_Ok by exact Hh.
Qed.

Lemma audit_succeeds a action rt ri before after req env d :
  sequenced d -> fit_actor a = true -> nonblank action = true -> nonblank rt = true ->
  opt_check (fun z => 0 <? z) ri = true ->
  exists r d', (let '(t, i) := audit_actor (pact_type a) (optionalInt8 (pact_id a)) in
    InsertAuditLog t i action rt ri before after (optionalText req) None) env d = Ok r d'.
Proof.
  intros Hs Ha Hact Hrt Hri. unfold fit_actor in Ha. apply andb_true_iff in Ha as [_ Ha].
  destruct (audit_actor _ _) as [t i] eqn:E.
  destruct (insert_fresh_succeeds (R := AuditRow)
    (fun id => mkAuditRow id t i action rt ri before after (optionalText req) None) env d)
    as (d' & Hi & _); [exact (sequenced_ahead _ Hs) | | done | by eexists _, d'].
  apply andb_true_iff in Ha as [Ht Hi]. simpl. unfold audit_logs_check. simpl.
  rewrite Ht, Hact, Hrt, Hri, optional_text_nonblank, !andb_true_r. simpl.
  destruct (str_eqb t "system"); [done|]. destruct i as [z|]; [|done].
  unfold audit_actor in E. destruct (str_eqb _ _); [by injection E|]. injection E as _ E. by eapply optionalInt8_positive.
Qed.

Lemma payment_audit_succeeds c pid oid decision reason env d :
  sequenced d -> fit_actor (ap_actor c) = true -> exists d', insertPaymentAudit c pid oid decision reason env d = Ok tt d'.
Proof.
  intros Hs Ha. unfold insertPaymentAudit.
  destruct (audit_succeeds (ap_actor c) "payment.acceptance_decided" "payment" (optionalInt8 pid) None
    (Some (JObj [("payment_id", JInt pid); ("order_id", JInt oid); ("decision", JStr decision); ("reason", JStr reason)]))
    (ap_request_id c) env d Hs Ha eq_refl eq_refl (optionalInt8_check pid)) as (r & d' & Hr).
  exists d'. destruct (audit_actor _ _). by erewrite bind_Ok by exact Hr.
Qed.

(** ** The stock *)

Lemma reserve_item_check k t i : inventory_items_check i = true -> i_status i = InventoryStatusAvailable ->
  inventory_items_check (reserve_item k t i) = true.
Proof.
  unfold inventory_items_check, reserve_item. intros Hc Hs.
  cbn -[nonblank str_eqb opt_check Z.ltb Z.add Nat.eqb Nat.leb Nat.ltb length InventoryStatus_IsValid].
  rewrite Hs in Hc. rewrite !andb_true_iff in *. destruct_and! Hc.
  split_and!; first [assumption | reflexivity | lia].
Qed.

(** What a claim may take: the free items of the product whose rows nobody else locks *)
Definition in_stock (env : Env) (d : Database) (product : Z) : list InventoryRow :=
  filter (fun i => env_locked env LockInventory (i_id i) = false) (select (claimable d product) d).

Lemma stock_claim_succeeds k t p q env d :
  db_wf d -> 0 <= q <= Z.of_nat (length (in_stock env d p)) ->
  exists ids d', ClaimExactAvailableInventory k t p q env d = Ok ids d' /\ Z.of_nat (length ids) = q /\
    forall id, id ∈ ids -> is_Some (rows InventoryRow d !! id).
Proof.
  intros Hwf Hq. set (l := take (Z.to_nat q) (merge_sort (ordered_by by_creation) (in_stock env d p))).
  assert (Hsel : claim_selection p q env d = Ok l d).
  { unfold claim_selection. erewrite bind_Ok by reflexivity. erewrite bind_Ok by reflexivity.
    unfold order_limit. rewrite (proj2 (Z.ltb_ge q 0)) by lia. reflexivity. }
  assert (Hl : Z.of_nat (length l) = q).
  { unfold l. rewrite length_take, merge_sort_Permutation. lia. }
  pose proof (claim_selection_rows _ _ _ _ _ _ Hwf Hsel) as Hex.
  pose proof (claim_selection_Ok _ _ _ _ _ _ Hwf Hsel) as (_ & _ & _ & Hnd & Hin).
  destruct (update_rows_succeed (map i_id l) (fun _ => true) (reserve_item k t) env d) as (rs & d' & Hu & Hlen); try done.
  - exact (wf_inventory _ Hwf).
  - intros k' Hk'. destruct (Hex k' Hk') as [i Hi]. exists i. split_and!; [exact Hi | done |].
    apply reserve_item_check; [exact (wf_check _ _ (wf_inventory _ Hwf) _ _ Hi)|].
    specialize (Hin k' i Hk' Hi). unfold claimable in Hin. rewrite !andb_true_iff, !bool_decide_eq_true in Hin. tauto.
  - exists (map i_id rs), d'. split; [|split; [by rewrite length_map, Hlen, length_map|]]; last first.
    { apply update_rows_Ok in Hu as (_ & -> & _); [|done]. intros id (i & -> & Hi)%list_elem_of_fmap.
      apply list_elem_of_omap in Hi as (k' & Hk' & Hi). destruct (rows InventoryRow d !! k') as [i0|] eqn:Hi0; [|done].
      simpl in Hi. injection Hi as <-. simpl. by rewrite (wf_key _ _ (wf_inventory _ Hwf) _ _ Hi0 : i_id i0 = _), Hi0. }
    unfold ClaimExactAvailableInventory. erewrite bind_Ok by exact Hsel. cbv zeta. rewrite Hl, Z.eqb_refl.
    by erewrite bind_Ok by exact Hu.
Qed.

(** ** The mappings *)

Definition active_of (k : Z) (m : MappingRow) : bool := (m_order_id m =? k) && bool_decide (m_status m = MappingActive).

Lemma map_items_succeed k oi ids env d :
  NoDup ids -> sequenced d ->
  (forall r m, rows MappingRow d !! r = Some m -> m_inventory_item_id m ∈ ids -> m_order_id m <> k /\ m_status m <> MappingActive) ->
  exists d', map_items k oi ids env d = Ok tt d' /\
    map m_inventory_item_id (select (active_of k) d') ≡ₚ ids ++ map m_inventory_item_id (select (active_of k) d).
Proof.
  unfold map_items. intros Hnd. revert d. induction Hnd as [|id ids Hid Hnd IH]; intros d Hseq Hfree; [by exists d|].
  destruct (insert_fresh_succeeds (R := MappingRow) (fun rowid => mkMappingRow rowid k oi id MappingActive None None) env d)
    as (d1 & Hi & Hrows & _); [exact (sequenced_ahead _ Hseq) | done | |].
  { intros r m Hm. simpl. unfold mappings_clash. simpl. destruct (Z.eqb_spec id (m_inventory_item_id m)) as [He|]; [|done].
    destruct (Hfree r m Hm) as [H1 H2]; [rewrite <- He; by left|]. simpl.
    rewrite (proj2 (Z.eqb_neq _ _)) by congruence. by apply bool_decide_eq_false_2. }
  pose proof (insert_row_sequenced _ _ _ _ _ Hi Hseq) as Hseq1.
  assert (rows MappingRow d !! next_key (R := MappingRow) d = None) as Hn
    by (apply (sequenced_ahead (R := MappingRow) _ Hseq); unfold next_key; lia).
  destruct (IH d1 Hseq1) as (d' & Hd' & Hperm).
  - intros r m. rewrite Hrows. intros [[<- <-]|[_ Hm]]%lookup_insert_Some Hin; [done|].
    apply (Hfree r m Hm). by right.
  - exists d'. split.
    + cbn [for_each]. unfold InsertOrderInventoryMapping at 1. erewrite bind_Ok by (by erewrite bind_Ok by exact Hi). exact Hd'.
    + rewrite Hperm. rewrite (select_insert (active_of k) _ _ _ _ Hn Hrows). unfold active_of at 1. simpl.
      rewrite Z.eqb_refl. simpl. by rewrite <- Permutation_middle.
Qed.

Lemma filter_agree {A} (p q : A -> bool) (l : list A) :
  (forall a, a ∈ l -> p a = q a) -> filter (fun a => p a = true) l = filter (fun a => q a = true) l.
Proof.
  induction l as [|a l IH]; intros Hpq; [done|]. rewrite !filter_cons, (Hpq a) by (by left).
  rewrite IH by (intros b Hb; apply Hpq; by right). done.
Qed.

Lemma unmapped_inactive d id r m :
  unmapped d id = true -> rows MappingRow d !! r = Some m -> m_inventory_item_id m = id -> m_status m <> MappingActive.
Proof.
  unfold unmapped. rewrite forallb_forall. intros Hall Hm Hid Hs.
  assert (m ∈ select (fun _ => true) d) as Hin%list_elem_of_In by (apply elem_of_select; eauto).
  specialize (Hall m Hin). by rewrite Hid, Z.eqb_refl, Hs in Hall.
Qed.

(** Items held are those of active mappings, when all of these are reserved for the order. *)
Lemma held_items_active k d :
  (forall r m, rows MappingRow d !! r = Some m -> active_of k m = true ->
     exists i, rows InventoryRow d !! m_inventory_item_id m = Some i /\ reserved_for k i = true) ->
  held_items k d = map m_inventory_item_id (select (active_of k) d).
Proof.
  intros Hall. unfold held_items. f_equal. unfold select. apply filter_agree.
  intros m ([r m'] & -> & Hm%elem_of_map_to_list)%list_elem_of_fmap. simpl.
  unfold holds_reserved. fold (active_of k m'). specialize (Hall r m' Hm).
  destruct (active_of k m'); [|done]. destruct Hall as (i & -> & ->); done.
Qed.

(** ** The order *)

(** A status an order passes through carries no date the schema asks for. *)
Lemma order_check_moved o o' :
  orders_check o = true -> Order.IsValid (o_status o') = true -> o_status o' <> OrderStatusDelivered ->
  o_status o' <> OrderStatusCancelled -> o_version o' = o_version o + 1 ->
  (o_currency o', o_subtotal_vnd o', o_total_vnd o', o_payment_reference o', o_idempotency_key o', o_bank o', o_environment o')
  = (o_currency o, o_subtotal_vnd o, o_total_vnd o, o_payment_reference o, o_idempotency_key o, o_bank o, o_environment o) ->
  orders_check o' = true.
Proof.
  unfold orders_check. intros Hc Hv Hd Hca Hver [= -> -> -> -> -> -> ->]. rewrite Hv, Hver.
  rewrite (bool_decide_eq_false_2 _ Hd), (bool_decide_eq_false_2 _ Hca). rewrite !andb_true_iff in *. destruct_and! Hc.
  split_and!; first [assumption | reflexivity | lia].
Qed.

Lemma move_order k (guard : OrderRow -> bool) f env d o :
  db_wf d -> rows OrderRow d !! k = Some o -> guard o = true ->
  Order.IsValid (o_status (f o)) = true -> o_status (f o) <> OrderStatusDelivered ->
  o_status (f o) <> OrderStatusCancelled -> o_version (f o) = o_version o + 1 -> order_identity (f o) = order_identity o ->
  update_row k guard f env d = Ok (f o) (put_row k (f o) d).
Proof.
  intros Hwf Ho Hg Hv Hd Hca Hver Hid. unfold order_identity in Hid. injection Hid as ? Hu ? ? ? Hr Hk ? ? ? ?.
  apply update_row_succeeds; [exact (wf_orders _ Hwf) | done | done | |].
  - eapply order_check_moved; [exact (wf_check _ _ (wf_orders _ Hwf) _ _ Ho) | done..|]. congruence.
  - intros r'. simpl. unfold orders_clash. by rewrite Hu, Hr, Hk.
Qed.

(** ** The hand-off *)

Lemma insert_job_succeeds k m t chat env d :
  sequenced d -> 0 < k -> 0 < m -> 0 < chat -> no_job k d ->
  (forall kj j, rows OutboxRow d !! kj = Some j -> j_dedup_key j <> delivery_dedup_key k) ->
  exists j d', InsertDeliveryJob k m t chat env d = Ok j d'.
Proof.
  intros Hs Hk Hm Hc Hno Hkey. unfold InsertDeliveryJob. erewrite bind_Ok by reflexivity.
  match goal with |- context [insert_row_unless ?c ?mk _ _] =>
    destruct (insert_unless_succeeds c mk env d Hs) as (d' & Hi & _); [| | | by eexists _, d'] end.
  - simpl. unfold outbox_events_check. cbn -[Z.ltb Z.leb nonblank delivery_dedup_key].
    rewrite (bool_decide_eq_true_2 (Some k = Some k)) by done.
    rewrite !(proj2 (Z.ltb_lt _ _)) by done. rewrite (proj2 (Z.leb_le 0 m)) by lia. reflexivity.
  - intros kj j Hj. unfold str_eqb. apply bool_decide_eq_false_2. by eapply Hkey.
  - intros kj j Hj. apply orb_false_iff. split.
    + unfold str_eqb. apply bool_decide_eq_false_2. intros He. by eapply Hkey.
    + specialize (Hno kj j Hj). unfold is_job_of in Hno. apply andb_false_iff.
      destruct (decide (j_order_id j = Some k)) as [He|He].
      * left. rewrite (bool_decide_eq_true_2 _ He), andb_true_r in Hno. apply andb_false_iff. right.
        unfold active_delivery_job. by rewrite Hno.
      * right. cbn [j_order_id]. unfold opt_eqb. destruct (j_order_id j); [|done].
        apply bool_decide_eq_false_2. congruence.
Qed.

Lemma handoff_succeeds k o u it t m a q env d :
  db_wf d -> sequenced d -> 0 < k -> 0 < m -> rows OrderRow d !! k = Some o -> o_status o = OrderStatusReserving ->
  rows User d !! o_user_id o = Some u -> select (fun it => oi_order_id it =? k) d = [it] ->
  Z.of_nat (length (held_items k d)) = oi_quantity it -> no_job k d ->
  (forall kj j, rows OutboxRow d !! kj = Some j -> j_dedup_key j <> delivery_dedup_key k) -> fit_actor a = true ->
  exists d', createDeliveryHandoffWithinTransaction k t m (pact_type a) (pact_id a) q env d = Ok true d'.
Proof.
  intros Hwf Hseq Hk Hm Ho Hs Hu Hit Hheld Hno Hkey Ha.
  pose proof (wf_key _ _ (wf_orders _ Hwf) _ _ Ho : o_id o = k) as Hid.
  assert (0 < u_telegram_user_id u) as Ht.
  { pose proof (wf_check _ _ (wf_users _ Hwf) _ _ Hu) as Hc. simpl in Hc. unfold users_check in Hc.
    rewrite !andb_true_iff in Hc. destruct_and! Hc. lia. }
  assert (0 < oi_quantity it) as Hq.
  { assert (it ∈ select (fun it => oi_order_id it =? k) d) as [_ (ki & Hki)]%elem_of_select by (rewrite Hit; left).
    pose proof (wf_check _ _ (wf_items _ Hwf) _ _ Hki) as Hc. simpl in Hc. unfold order_items_check in Hc.
    rewrite !andb_true_iff in Hc. destruct_and! Hc. lia. }
  destruct (insert_job_succeeds k m t (u_telegram_user_id u) env d Hseq Hk Hm Ht Hno Hkey) as (j & d1 & Hj).
  assert (HO : rows OrderRow d1 = rows OrderRow d) by table_frame.
  pose proof Hwf as Hwf1. pose proof Hseq as Hseq1. went Hj Hwf1 Hseq1.
  assert (Hmove : MarkOrderDeliveringGuarded t k (o_version o) env d1 = Ok _ _)
    by (apply move_order with (o := o); [done | by rewrite HO | by rewrite Hs, Z.eqb_refl | done..]).
  match type of Hmove with _ = Ok _ ?x => set (d2 := x) in * end.
  pose proof Hwf1 as Hwf2. pose proof Hseq1 as Hseq2. went Hmove Hwf2 Hseq2.
  pose proof Ha as Ha'. apply andb_true_iff in Ha' as [Hact _].
  destruct (history_succeeds k OrderStatusReserving OrderStatusDelivering "delivery_job_created" (pact_type a)
    (optionalInt8 (pact_id a)) q env d2 Hseq2 eq_refl eq_refl Hact) as (h & d3 & Hh).
  pose proof Hwf2 as Hwf3. pose proof Hseq2 as Hseq3. went Hh Hwf3 Hseq3.
  destruct (audit_succeeds a "delivery.job_created" "delivery_job" (Some (j_id j)) None
    (Some (JObj [("delivery_job_id", JInt (j_id j)); ("order_id", JInt k);
                 ("status", JStr (OrderStatus_string OrderStatusDelivering));
                 ("inventory_count", JInt (Z.of_nat (length (held_items k d))))])) q env d3 Hseq3 Ha eq_refl eq_refl) as (r & d4 & Hr).
  { simpl. unfold InsertDeliveryJob in Hj. run_bind Hj now d0 Hnow. injection Hnow as <- <-.
    apply insert_row_unless_Ok in Hj as (_ & Hj). apply insert_row_Ok in Hj as (-> & _). simpl. unfold next_key.
    unfold sequenced in Hseq. apply Z.ltb_lt. destruct_and! Hseq. lia. }
  exists d4. unfold createDeliveryHandoffWithinTransaction.
  rewrite guard_passes by (rewrite !(proj2 (Z.leb_gt _ _)) by done; done).
  unfold LockOrderForDeliveryHandoff.
  erewrite bind_Ok.
  2:{ erewrite bind_Ok by (unfold get_row; rewrite Ho; reflexivity).
      erewrite bind_Ok by (unfold get_row; rewrite Hu; reflexivity).
      erewrite bind_Ok by (unfold find_row; rewrite Hit; reflexivity). reflexivity. }
  cbv beta iota. rewrite Hid, (bool_decide_eq_false_2 (o_status o = _)) by (by rewrite Hs).
  rewrite guard_passes by (rewrite Hs, !(proj2 (Z.leb_gt _ _)) by done; done).
  erewrite bind_Ok by reflexivity. rewrite Hheld in *. rewrite guard_passes by (by rewrite Z.eqb_refl).
  erewrite bind_Ok by (unfold try_row; rewrite Hj; reflexivity). cbv beta iota.
  erewrite bind_Ok by exact Hmove. erewrite bind_Ok by exact Hh.
  destruct (audit_actor _ _). erewrite bind_Ok by exact Hr. reflexivity.
Qed.

(** ** Settling *)

(** The event, if there is one, is being processed. *)
Definition event_open_for (c : AcceptPaymentCommand) (d : Database) : Prop :=
  0 < ap_event_id c -> exists e, rows PaymentEventRow d !! ap_event_id c = Some e /\ ev_status e = EventProcessing.

Lemma complete_event_succeeds c o tp t env d :
  db_wf d -> event_open_for c d ->
  exists d', completePaymentEvent (ap_event_id c) EventCompleted o tp t "" "" env d = Ok tt d'.
Proof.
  intros Hwf Hev. unfold completePaymentEvent. destruct (Z.leb_spec (ap_event_id c) 0) as [|Hpos]; [by exists d|].
  destruct (Hev Hpos) as (e & He & Hs).
  assert (Hcheck : forall p, payment_events_check (e <| ev_status := EventCompleted |> <| ev_related_order_id := optionalInt8 o |>
      <| ev_related_topup_id := optionalInt8 tp |> <| ev_processing_started_at := None |> <| ev_processed_at := Some p |>
      <| ev_error := None |> <| ev_error_code := None |>) = true).
  { intros p. pose proof (wf_check _ _ (wf_events _ Hwf) _ _ He) as Hc. simpl in Hc. unfold payment_events_check in *.
    cbn -[nonblank str_in opt_check Z.ltb Z.leb Nat.eqb Nat.leb length environment_valid String.length]. rewrite Hs in Hc.
    rewrite !andb_true_iff in *. destruct_and! Hc. split_and!; first [assumption | reflexivity]. }
  eexists. erewrite bind_Ok; [reflexivity|].
  apply update_row_succeeds with (r := e); [exact (wf_events _ Hwf) | done | by rewrite Hs | apply Hcheck | done].
Qed.

(** An order that nothing has touched since it was placed *)
Record untouched (k : Z) (d : Database) : Prop := {
  un_job : no_job k d;
  un_key kj j : rows OutboxRow d !! kj = Some j -> j_dedup_key j <> delivery_dedup_key k;
  un_mapping r m : rows MappingRow d !! r = Some m -> m_order_id m <> k;
  un_allocation r a : rows AllocationRow d !! r = Some a -> al_target_type a = "order"%string -> al_target_id a <> k }.

(** The tables that stay as they are over a statement *)
Ltac still E R :=
  lazymatch type of E with
  | ?m ?env ?d = Ok _ ?d' => try assert (rows R d' = rows R d) by (eapply (frame_after (R := R) m env d _ d'); [|exact E]; preserve)
  end.
Ltac stills E :=
  still E User; still E OrderItemRow; still E OrderRow; still E InventoryRow; still E MappingRow;
  still E AllocationRow; still E OutboxRow; still E PaymentEventRow.

(** One more statement of a run that goes on from [d] *)
Ltac next_statement E Hwf Hseq := stills E; went E Hwf Hseq.

Section Settles.
Context (c : AcceptPaymentCommand) (k : Z) (o : OrderRow) (u : User) (it : OrderItemRow) (env : Env).

Record ready (d : Database) : Prop := {
  rd_wf : db_wf d;
  rd_seq : sequenced d;
  rd_key : 0 < k;
  rd_order : rows OrderRow d !! k = Some o /\ o_status o = OrderStatusPendingPayment;
  rd_user : rows User d !! o_user_id o = Some u;
  rd_item : select (fun it => oi_order_id it =? k) d = [it];
  rd_untouched : untouched k d;
  rd_stock : oi_quantity it <= Z.of_nat (length (in_stock env d (oi_product_id it)));
  rd_actor : fit_actor (ap_actor c) = true;
  rd_event : event_open_for c d }.

Lemma settle_succeeds pay t ttl n res0 d :
  ready d -> 0 < n -> 0 < ap_amount c ->
  (forall r a, rows AllocationRow d !! r = Some a -> al_payment_id a <> pay_id pay) ->
  exists res d', settle_order c o it pay t ttl n res0 env d = Ok res d' /\ res_decision res = "accepted"%string.
Proof.
  intros Hd Hn Hamount Hfree. destruct (rd_order d Hd) as [Ho Hs]. destruct (rd_untouched d Hd) as [Hno Hkey Hmap Hal].
  pose proof (rd_wf d Hd) as Hwf. pose proof (rd_seq d Hd) as Hseq. pose proof (rd_actor d Hd) as Hact.
  pose proof (wf_key _ _ (wf_orders _ Hwf) _ _ Ho : o_id o = k) as Hid.
  assert (0 <= oi_quantity it) as Hq.
  { assert (it ∈ select (fun it => oi_order_id it =? k) d) as [_ (ki & Hki)]%elem_of_select by (rewrite (rd_item d Hd); left).
    pose proof (wf_check _ _ (wf_items _ Hwf) _ _ Hki) as Hc. simpl in Hc. unfold order_items_check in Hc.
    rewrite !andb_true_iff in Hc. destruct_and! Hc. lia. }
  assert (exists o1 d1, MarkOrderPaidGuarded t k (o_version o) env d = Ok o1 d1 /\
    rows OrderRow d1 = <[k := o1]> (rows OrderRow d) /\ o_status o1 = OrderStatusPaid /\ o_user_id o1 = o_user_id o) as (o1 & d1 & Hpaid & HO1 & Hs1 & Hu1).
  { eexists _, _. split; [apply move_order with (o := o); [done | done | by rewrite Hs, Z.eqb_refl | done..]|].
    split; [apply rows_put | done]. }
  next_statement Hpaid Hwf Hseq.
  destruct (payment_history_succeeds c k OrderStatusPendingPayment OrderStatusPaid "payment_accepted" env d1 Hseq eq_refl eq_refl Hact)
    as (d2 & Hh1). next_statement Hh1 Hwf Hseq.
  assert (Ho2 : rows OrderRow d2 !! k = Some o1) by (follow; by rewrite lookup_insert_eq).
  assert (exists o3 d3, UpdateOrderStatusGuarded OrderStatusReserving k OrderStatusPaid (o_version o1) env d2 = Ok o3 d3 /\
    rows OrderRow d3 = <[k := o3]> (rows OrderRow d2) /\ o_status o3 = OrderStatusReserving /\ o_user_id o3 = o_user_id o1) as (o3 & d3 & Hres & HO3 & Hs3 & Hu3).
  { eexists _, _. split; [apply move_order with (o := o1); [done | done | by rewrite Hs1, Z.eqb_refl | done..]|].
    split; [apply rows_put | done]. }
  next_statement Hres Hwf Hseq.
  destruct (payment_history_succeeds c k OrderStatusPaid OrderStatusReserving "inventory_claim_started" env d3 Hseq eq_refl eq_refl Hact)
    as (d4 & Hh2). next_statement Hh2 Hwf Hseq.
  assert (Hstock : in_stock env d4 (oi_product_id it) = in_stock env d (oi_product_id it)).
  { assert (rows InventoryRow d4 = rows InventoryRow d) as HI by by follow.
    assert (rows MappingRow d4 = rows MappingRow d) as HM by by follow.
    unfold in_stock, claimable, unmapped, select. by rewrite HI, HM. }
  destruct (stock_claim_succeeds k (t + ttl) (oi_product_id it) (oi_quantity it) env d4 Hwf) as (ids & d5 & Hclaim & Hlen & Hex).
  { rewrite Hstock. split; [done | exact (rd_stock d Hd)]. }
  pose proof Hwf as Hwf4. pose proof Hclaim as Hclaimed. apply (claim_exact_Ok _ _ _ _ _ _ _ _ Hwf) in Hclaimed.
  destruct Hclaimed as [(_ & Hnd & Hrows5 & Hfree5)|(-> & _ & Hne)]; [|simpl in Hlen; lia].
  next_statement Hclaim Hwf Hseq.
  destruct (map_items_succeed k (oi_id it) ids env d5 Hnd Hseq) as (d6 & Hmaps & Hactive).
  { intros r m Hm Hin. assert (rows MappingRow d !! r = Some m) as Hm0 by (revert Hm; by follow).
    split; [by eapply Hmap|]. destruct (Hex _ Hin) as [i Hi]. specialize (Hfree5 _ i Hin Hi).
    unfold claimable in Hfree5. apply andb_true_iff in Hfree5 as [_ Hun].
    rewrite (wf_key _ _ (wf_inventory _ Hwf4) _ _ Hi : i_id i = _) in Hun.
    eapply unmapped_inactive; [exact Hun | | reflexivity]. revert Hm0. by follow. }
  next_statement Hmaps Hwf Hseq.
  destruct (insert_fresh_succeeds (R := AllocationRow) (fun id => mkAllocationRow id (pay_id pay) "order" k (ap_amount c)) env d6)
    as (d7 & Hall & _); [exact (sequenced_ahead _ Hseq) | | |].
  { simpl. unfold payment_allocations_check. simpl. rewrite !(proj2 (Z.ltb_lt _ _)) by (done || exact (rd_key d Hd)). done. }
  { intros r a. follow. intros Ha. simpl. unfold allocations_clash. simpl.
    rewrite (proj2 (Z.eqb_neq _ _)) by (intros Hp; by eapply Hfree). simpl.
    destruct (str_eqb "order" (al_target_type a)) eqn:Ht; [|done]. apply str_eqb_eq in Ht. simpl.
    apply Z.eqb_neq. intros Hk. by eapply Hal. }
  assert (exists al, InsertPaymentAllocation (pay_id pay) "order" k (ap_amount c) env d6 = Ok al d7) as [al Hal7]
    by (eexists; exact Hall). clear Hall.
  next_statement Hal7 Hwf Hseq.
  assert (Ho7 : rows OrderRow d7 !! k = Some o3) by (follow; by rewrite lookup_insert_eq).
  assert (HM7 : rows MappingRow d7 = rows MappingRow d6) by done.
  assert (HI7 : rows InventoryRow d7 = rows InventoryRow d5) by by follow.
  assert (Hnone : select (active_of k) d5 = []).
  { apply elem_of_nil_inv. intros m [Hp (r & Hr)]%elem_of_select. apply (Hmap r m); [revert Hr; by follow|].
    unfold active_of in Hp. lia. }
  rewrite Hnone, app_nil_r in Hactive.
  assert (Hsel7 : select (active_of k) d7 = select (active_of k) d6) by (unfold select; by rewrite HM7).
  assert (Hheld : held_items k d7 ≡ₚ ids).
  { rewrite held_items_active; [by rewrite Hsel7|]. intros r m Hm Ha. rewrite HI7, Hrows5.
    assert (m_inventory_item_id m ∈ ids) as Hin.
    { rewrite <- Hactive. apply list_elem_of_fmap_2. rewrite <- Hsel7. apply elem_of_select. eauto. }
    destruct (Hex _ Hin) as [i Hi]. rewrite Hi. simpl. rewrite bool_decide_eq_true_2 by done. eexists. split; [done|].
    unfold reserved_for, reserve_item. simpl. by rewrite bool_decide_eq_true_2. }
  destruct (handoff_succeeds k o3 u it t n (ap_actor c) (ap_request_id c) env d7) as (d8 & Hhand); try done.
  - exact (rd_key d Hd).
  - rewrite Hu3, Hu1. follow. exact (rd_user d Hd).
  - assert (rows OrderItemRow d7 = rows OrderItemRow d) as HT by by follow. unfold select. rewrite HT. exact (rd_item d Hd).
  - by rewrite Hheld.
  - intros kj j. follow. apply Hno.
  - intros kj j. follow. apply Hkey.
  - next_statement Hhand Hwf Hseq.
    destruct (complete_event_succeeds c k 0 t env d8 Hwf) as (d9 & Hev).
    { intros Hpos. destruct (rd_event d Hd Hpos) as (e & He & Hes). exists e. split; [by follow | done]. }
    assert (respects (keeps sequenced) (completePaymentEvent (ap_event_id c) EventCompleted k 0 t "" "")) as Hkeep
      by (unfold completePaymentEvent; preserve).
    pose proof (Hkeep _ _ _ _ Hev Hseq) as Hseq9.
    destruct (payment_audit_succeeds c (pay_id pay) k "accepted" "" env d9 Hseq9 Hact) as (d10 & Haud).
    eexists _, d10. split.
    + unfold settle_order. cbv zeta. rewrite Hid.
      erewrite bind_Ok by exact Hpaid. erewrite bind_Ok by exact Hh1. erewrite bind_Ok by exact Hres.
      erewrite bind_Ok by exact Hh2. erewrite bind_Ok by exact Hclaim. rewrite Hlen, Z.eqb_refl. cbn [negb].
      erewrite bind_Ok by exact Hmaps. erewrite bind_Ok by exact Hal7. erewrite bind_Ok by exact Hhand.
      erewrite bind_Ok by exact Hev. erewrite bind_Ok by exact Haud. reflexivity.
    + done.
Qed.
End Settles.

(** ** Routing *)

Lemma ready_frame c k o u it env d d' :
  ready c k o u it env d -> db_wf d' -> sequenced d' -> rows User d' = rows User d -> rows OrderItemRow d' = rows OrderItemRow d ->
  rows OrderRow d' = rows OrderRow d -> rows InventoryRow d' = rows InventoryRow d -> rows MappingRow d' = rows MappingRow d ->
  rows AllocationRow d' = rows AllocationRow d -> rows OutboxRow d' = rows OutboxRow d ->
  rows PaymentEventRow d' = rows PaymentEventRow d -> ready c k o u it env d'.
Proof.
  intros [Hwf Hseq Hk Ho Hu Hit [Hno Hkey Hmap Hal] Hst Ha Hev] Hwf' Hseq' HU HT HO HI HM HA HJ HE.
  assert (in_stock env d' (oi_product_id it) = in_stock env d (oi_product_id it)) as Hs
    by (unfold in_stock, claimable, unmapped, select; by rewrite HI, HM).
  split; try done.
  - by rewrite HO.
  - by rewrite HU.
  - unfold select. by rewrite HT.
  - split; [intros ? ?; rewrite HJ; apply Hno | intros ? ?; rewrite HJ; apply Hkey | intros ? ?; rewrite HM; apply Hmap |
      intros ? ?; rewrite HA; apply Hal].
  - by rewrite Hs.
  - unfold event_open_for. by rewrite HE.
Qed.

(** The references of orders are unique. *)
Lemma order_of_reference d k o :
  db_wf d -> rows OrderRow d !! k = Some o ->
  select (fun o' => str_eqb (o_payment_reference o') (o_payment_reference o)) d = [o].
Proof.
  intros Hwf Ho. eapply select_single; [done | exact Ho | by apply str_eqb_eq |].
  intros k' r' Hr' Href. destruct (decide (k' = k)) as [|Hne]; [done|].
  pose proof (wf_clash _ _ (wf_orders _ Hwf) _ _ _ _ Hr' Ho Hne) as Hc. simpl in Hc. unfold orders_clash in Hc. by rewrite Href in Hc.
Qed.

Lemma single_item k it d : select (fun it => oi_order_id it =? k) d = [it] -> first_item k d = Some it.
Proof.
  intros Hit. unfold first_item, select_sorted. rewrite Hit.
  match goal with |- head ?l = _ => assert (l = [it]) as ->; [|done] end.
  apply Permutation_singleton_r. apply merge_sort_Permutation.
Qed.

Lemma payable_is_clean c t o : payable c t o -> order_review_reason o c t = ""%string.
Proof.
  intros (Hs & Htot & Hcur & Ht & Henv & Hb). unfold order_review_reason, orderReviewReason, wrong_destination, time_after.
  rewrite Htot, Z.eqb_refl, Hcur, (proj2 (str_eqb_eq _ _) eq_refl), Hs, (proj2 (Z.ltb_lt _ _) Ht). simpl.
  rewrite Henv, (proj2 (str_eqb_eq _ _) eq_refl). simpl. destruct (0 <? ap_mapping_id c) eqn:Hm; [|done].
  apply Z.ltb_lt in Hm. rewrite (Hb Hm). simpl. by rewrite Z.eqb_refl.
Qed.

(** What a new transfer has to be for its payment to be recorded *)
Record new_transfer (c : AcceptPaymentCommand) (d : Database) : Prop := {
  nt_amount : 0 < ap_amount c;
  nt_provider : nonblank (ap_provider c) = true;
  nt_topup k tp : rows TopupRow d !! k = Some tp -> tp_reference tp <> ap_reference c;
  nt_transaction k p : rows PaymentRow d !! k = Some p ->
    is_transaction (ap_provider c) (ap_environment c) (optionalText (ap_transaction_id c)) p = false;
  nt_allocations r a : rows AllocationRow d !! r = Some a -> al_payment_id a <= t_seq (tbl_get (R := PaymentRow) d) }.

Lemma insert_payment_succeeds c t o env d :
  db_wf d -> sequenced d -> rows OrderRow d !! o_id o = Some o -> o_payment_reference o = ap_reference c ->
  o_environment o = ap_environment c -> new_transfer c d ->
  exists pay d', insertOrderPayment c o PaymentStatusConfirmed t env d = Ok pay d' /\
    pay_id pay = next_key (R := PaymentRow) d.
Proof.
  intros Hwf Hseq Ho Href Henv [Ham Hpr _ Htx _]. unfold insertOrderPayment, InsertPayment. cbv zeta.
  pose proof (wf_check _ _ (wf_orders _ Hwf) _ _ Ho) as Hc. simpl in Hc. unfold orders_check in Hc.
  match goal with |- context [insert_row_or_nothing ?mk] =>
    destruct (insert_or_nothing_succeeds mk env d Hseq) as (d' & Hi & _); [| | by eexists _, d'] end.
  - simpl. unfold payments_check. cbn -[nonblank opt_check Z.ltb environment_valid str_in].
    rewrite Hpr, optional_text_nonblank, (proj2 (Z.ltb_lt _ _) Ham), <- Href, <- Henv. rewrite !andb_true_iff in *.
    destruct_and! Hc. split_and!; first [assumption | reflexivity].
  - intros k p Hp. specialize (Htx k p Hp). unfold is_transaction in Htx. simpl. unfold payments_clash. simpl.
    unfold str_eqb in *. rewrite opt_eqb_sym, !(bool_decide_sym (ap_provider c)), !(bool_decide_sym (ap_environment c)).
    rewrite <- Htx. destruct (opt_eqb _ _), (bool_decide _), (bool_decide _); done.
Qed.

Lemma route_succeeds c t ttl n o u it env d :
  ready c (o_id o) o u it env d -> o_payment_reference o = ap_reference c -> payable c t o -> new_transfer c d -> 0 < n ->
  exists res d', route_payment c t ttl n zero_result env d = Ok res d' /\ res_decision res = "accepted"%string /\
    res_order_id res = o_id o /\ order_under_way (o_id o) t (res_payment_id res) (ap_amount c) d'.
Proof.
  intros Hd Href Hpay Hnew Hn. pose proof (rd_wf _ _ _ _ _ _ _ Hd) as Hwf. pose proof (rd_seq _ _ _ _ _ _ _ Hd) as Hseq.
  destruct (rd_order _ _ _ _ _ _ _ Hd) as [Ho Hs].
  destruct (insert_payment_succeeds c t o env d Hwf Hseq Ho Href (proj1 (proj2 (proj2 (proj2 (proj2 Hpay))))) Hnew)
    as (pay & d1 & Hins & Hpid).
  pose proof Hins as Hins'. unfold insertOrderPayment in Hins'. pose proof Hwf as Hwf1. pose proof Hseq as Hseq1.
  next_statement Hins' Hwf1 Hseq1.
  assert (Hd1 : ready c (o_id o) o u it env d1) by (eapply ready_frame; [exact Hd | assumption ..]).
  destruct (settle_succeeds c (o_id o) o u it env pay t ttl n
    (zero_result <| res_target := "order"%string |> <| res_order_id := o_id o |>) d1 Hd1 Hn (nt_amount _ _ Hnew))
    as (res & d' & Hset & Hdec).
  { intros r a. follow. intros Ha Hp. apply (nt_allocations _ _ Hnew) in Ha. rewrite Hp, Hpid in Ha. unfold next_key in Ha. lia. }
  pose proof Hset as Haccepted.
  apply settle_order_accepted in Haccepted as (Hway & Hoid & Hpay');
    [|exact Hwf1 | exact (proj1 (rd_order _ _ _ _ _ _ _ Hd1)) | exact (un_job _ _ (rd_untouched _ _ _ _ _ _ _ Hd1)) | exact Hdec].
  exists res, d'. split; [|split; [done | split; [by rewrite Hoid | by rewrite Hpay']]].
  unfold route_payment. erewrite bind_Ok.
  2:{ unfold try_row, existing_payment, GetPaymentByProviderTransaction, find_row.
      rewrite select_none by exact (nt_transaction _ _ Hnew). reflexivity. }
  cbv beta iota. erewrite bind_Ok by reflexivity.
  assert (Hone : select (fun o' => str_eqb (o_payment_reference o') (ap_reference c)) d = [o])
    by (rewrite <- Href; by eapply order_of_reference).
  unfold count_rows. rewrite Hone, (select_none (R := TopupRow)).
  2:{ intros k tp Htp. unfold str_eqb. apply bool_decide_eq_false_2. exact (nt_topup _ _ Hnew k tp Htp). }
  change (1 <? Z.of_nat (length [o]) + Z.of_nat (length (@nil TopupRow))) with false. cbv iota.
  erewrite bind_Ok.
  2:{ unfold try_row, LockOrderByPaymentReference.
      erewrite bind_Ok by (unfold find_row; rewrite Hone; reflexivity). erewrite bind_Ok by reflexivity.
      rewrite (single_item _ _ _ (rd_item _ _ _ _ _ _ _ Hd)). reflexivity. }
  cbv beta iota. unfold accept_order_payment. cbv zeta. rewrite (payable_is_clean _ _ _ Hpay).
  change (negb (str_eqb "" "")) with false. cbv iota.
  erewrite bind_Ok by (unfold try_row; rewrite Hins; reflexivity). exact Hset.
Qed.

(** C2: As long as the store answers, a transfer that is new to the shop and carries the
    reference, the amount, the currency, the environment and the account of a pending
    order in time is accepted, if as many items of the product are free as were ordered:
    the order is delivering with its items held, one pending job and the payment
    allocated to it in full. *)
Theorem matching_transfers_settle_orders c t ttl ns o u it env d :
  answering env -> ready c (o_id o) o u it env d -> o_payment_reference o = ap_reference c -> payable c t o ->
  new_transfer c d ->
  exists res d', AcceptPayment c t ttl ns env d = (inr res, d') /\ res_decision res = "accepted"%string /\
    res_order_id res = o_id o /\ order_under_way (o_id o) t (res_payment_id res) (ap_amount c) d'.
Proof.
  intros Henv Hd Href Hpay Hnew.
  assert (0 < configuredDeliveryMaxAttempts ns) as Hn.
  { unfold configuredDeliveryMaxAttempts. destruct ns as [|v ns]; [done|]. destruct (0 <? v) eqn:Hv; [lia | done]. }
  destruct (route_succeeds c t ttl _ o u it env d Hd Href Hpay Hnew Hn) as (res & d' & Hrun & Hdec & Hoid & Hway).
  exists res, d'. split; [|done]. unfold AcceptPayment. apply transaction_succeeds; [done|].
  unfold acceptPaymentWithinTransaction. destruct (0 <? ap_event_id c) eqn:Hpos; [|exact Hrun].
  apply Z.ltb_lt in Hpos. destruct (rd_event _ _ _ _ _ _ _ Hd Hpos) as (e & He & Hes).
  erewrite bind_Ok by (unfold LockPaymentEvent, get_row; rewrite He; reflexivity). rewrite Hes. exact Hrun.
Qed.

(** ** The concrete shop accepts its transfer *)

Lemma ordered_ready : exists o u it,
  ready transfer 1 o u it (calm 1200) ordered /\ o_id o = 1 /\ o_payment_reference o = ap_reference transfer /\
  payable transfer 1200 o.
Proof.
  destruct (rows OrderRow ordered !! 1) as [o|] eqn:Ho; [|vm_compute in Ho; discriminate].
  destruct (rows User ordered !! 1) as [u|] eqn:Hu; [|vm_compute in Hu; discriminate].
  destruct (select (fun it => oi_order_id it =? 1) ordered) as [|it l] eqn:Hit; [vm_compute in Hit; discriminate|].
  exists o, u, it. pose proof Ho as Vo. pose proof Hit as Vit. vm_compute in Vo, Vit.
  injection Vo as <-. injection Vit as <- <-.
  split; [|split; [reflexivity | split; [reflexivity | split_and!; reflexivity || done]]].
  split; [decide_wf | apply sequenced_decide; vm_compute; reflexivity | lia | by split | exact Hu | exact Hit | |
    apply Z.leb_le; vm_compute; reflexivity | vm_compute; reflexivity | by intros ?].
  split.
  - intros kj j Hj. pose proof (rows_forall (R := OutboxRow) (fun j => negb (is_job_of 1 j)) ordered) as Hall.
    rewrite <- (negb_involutive (is_job_of 1 j)), (Hall ltac:(vm_compute; reflexivity) kj j Hj). done.
  - intros kj j Hj. pose proof (rows_forall (R := OutboxRow) (fun j => negb (str_eqb (j_dedup_key j) (delivery_dedup_key 1))) ordered) as Hall.
    specialize (Hall ltac:(vm_compute; reflexivity) kj j Hj). intros He. cbv beta in Hall. rewrite He in Hall. discriminate Hall.
  - intros r m Hm. pose proof (rows_forall (R := MappingRow) (fun m => negb (m_order_id m =? 1)) ordered) as Hall.
    specialize (Hall ltac:(vm_compute; reflexivity) r m Hm). cbv beta in Hall. lia.
  - intros r a Ha _. pose proof (rows_forall (R := AllocationRow) (fun a => negb (al_target_id a =? 1)) ordered) as Hall.
    specialize (Hall ltac:(vm_compute; reflexivity) r a Ha). cbv beta in Hall. lia.
Qed.

Lemma matching_transfers_settle_orders_witness : exists res d',
  AcceptPayment transfer 1200 600 [5] (calm 1200) ordered = (inr res, d') /\ res_decision res = "accepted"%string /\
  order_under_way 1 1200 (res_payment_id res) 100000 d'.
Proof.
  destruct ordered_ready as (o & u & it & Hd & Hid & Href & Hpay). rewrite <- Hid in Hd.
  destruct (matching_transfers_settle_orders transfer 1200 600 [5] o u it (calm 1200) ordered) as (res & d' & Hrun & Hdec & _ & Hway).
  - split; reflexivity.
  - exact Hd.
  - exact Href.
  - exact Hpay.
  - split; [reflexivity | reflexivity | | |].
    + intros k tp Htp. pose proof (rows_forall (R := TopupRow) (fun _ => false) ordered) as Hall.
      by specialize (Hall ltac:(vm_compute; reflexivity) k tp Htp).
    + intros k p Hp. pose proof (rows_forall (R := PaymentRow) (fun _ => false) ordered) as Hall.
      by specialize (Hall ltac:(vm_compute; reflexivity) k p Hp).
    + intros k a Ha. pose proof (rows_forall (R := AllocationRow) (fun _ => false) ordered) as Hall.
      by specialize (Hall ltac:(vm_compute; reflexivity) k a Ha).
  - exists res, d'. rewrite Hid in Hway. split; [exact Hrun | split; [exact Hdec | exact Hway]].
Defined.
