(* ===== verification/WalletPayment.v ===== *)
(** * Paying from the wallet

    The postcondition of [PayOrderWithWallet]: the owner's balance falls by exactly
    the order's total, never below zero, and the order is under way, all in one
    transaction. *)

From S2P Require Import Prelude Domain Schema Tx Tables Models QOrders QInventory QPayments QWallet QUsers.
From S2P Require Import QCatalog QBanks QDelivery UpdateStore AdminStore InventoryStore DeliveryStore PaymentStore.
From S2P Require Import WalletStore.
From S2P Require Import OrderService OrderStore PaymentEvents Steps Demo Lifecycle Stock Ledger Decisions.
From S2P Require Import Settlement.

Lemma wrap64_neg z : 0 <= z <= int64_max -> wrap64 (- z) = - z.
Proof. intros Hz. apply wrap64_id. unfold in_int64, int64_min, int64_max in *. lia. Qed.

Definition balance_of (k : Z) (d : Database) : Z := default 0 (w_balance_vnd <$> rows WalletRow d !! k).

Lemma ensure_wallet_Ok u env d w d' :
  db_wf d -> EnsureWalletAccount u env d = Ok w d' ->
  rows WalletRow d' !! w_id w = Some w /\ w_user_id w = u /\ w_balance_vnd w = balance_of (w_id w) d.
Proof.
  intros Hwf Hrun. unfold EnsureWalletAccount in Hrun.
  apply upsert_row_Ok in Hrun as [(w0 & Hw0 & (w1 & Hw1 & _ & -> & -> & _)%update_row_Ok) | [_ Hi]].
  - apply elem_of_select in Hw0 as [Hu [k Hk]].
    pose proof (wf_key _ _ (wf_wallets _ Hwf) k w0 Hk) as Hkey. rewrite Hkey, Hk in Hw1. injection Hw1 as <-.
    rewrite Hkey, rows_put. unfold balance_of. change (w_id w0) with (row_key w0). rewrite Hkey, lookup_insert_eq, Hk.
    split_and!; [done | lia | done].
  - apply insert_row_Ok in Hi as (-> & Hn & Hrows & _). simpl. unfold balance_of.
    rewrite Hrows, lookup_insert_eq, Hn. done.
Qed.

Lemma debit_order_Ok c w o env d w' d' :
  debit_order c w o env d = Ok w' d' -> rows WalletRow d !! w_id w = Some w ->
  0 <= o_total_vnd o <= int64_max ->
  o_total_vnd o <= w_balance_vnd w /\ w' = credit_wallet (- o_total_vnd o) w /\
  rows WalletRow d' !! w_id w = Some w'.
Proof.
  intros Hrun Hw Hb. unfold debit_order in Hrun. rewrite wrap64_neg in Hrun by done.
  run_bind Hrun w1 d1 Hu. apply or_no_rows_inv, UpdateWalletBalance_Ok in Hu as (w0 & Hw0 & _ & _ & Hnn & -> & ->).
  rewrite Hw in Hw0. injection Hw0 as <-.
  run_bind Hrun e d2 He. injection Hrun as <- <-.
  assert (Hfr : rows WalletRow d2 = rows WalletRow (put_row (w_id w) (credit_wallet (- o_total_vnd o) w) d)) by table_frame.
  split_and!; [lia | done |]. by rewrite Hfr, rows_put, lookup_insert_eq.
Qed.

(** The wallet payment of a pending order *)
Lemma settle_wallet_order_Ok c u o it t ttl n env d r d' :
  db_wf d -> jobs_started d -> rows OrderRow d !! o_id o = Some o -> o_status o = OrderStatusPendingPayment ->
  o_total_vnd o <= int64_max ->
  settle_wallet_order c u o it t ttl n env d = Ok r d' ->
  (exists k w', rows WalletRow d' !! k = Some w' /\ w_user_id w' = u_id u /\ 0 <= w_balance_vnd w' /\
     w_balance_vnd w' + o_total_vnd o = balance_of k d /\ wr_balance r = w_balance_vnd w') /\
  (exists pid, order_under_way (o_id o) t pid (o_total_vnd o) d').
Proof.
  intros Hwf Hd Ho Hs Hmax Hrun. unfold settle_wallet_order in Hrun.
  assert (Hno : no_job (o_id o) d) by (eapply no_job_before_handover; [done..| by rewrite Hs]).
  assert (Htot : 0 <= o_total_vnd o).
  { pose proof (wf_check _ _ (wf_orders _ Hwf) _ _ Ho) as Hc. simpl in Hc. unfold orders_check in Hc.
    rewrite !andb_true_iff in Hc. destruct_and! Hc. lia. }
  run_bind Hrun w d1 E1. pose proof (ensure_wallet_Ok _ _ _ _ _ Hwf E1) as (Hw & Hu & Hbal). step_wf E1 Hwf. kept E1.
  run_bind Hrun w2 d2 E2. apply get_row_Ok in E2 as [-> E2]. rewrite Hw in E2. injection E2 as <-.
  run_guard Hrun Hfunds. run_step Hrun ids d3 E3 Hwf. run_guard Hrun Hcount.
  run_step Hrun pay d4 E4 Hwf. run_step Hrun w' d5 E5 Hwf.
  apply debit_order_Ok in E5 as (Hle & Hw' & W5); [|by follow | lia].
  run_step Hrun po d6 E6 Hwf. apply mark_paid_Ok in E6 as (o6 & Ho6 & _ & _ & -> & O6).
  revert Ho6. follow. rewrite Ho. intros [= <-].
  run_step Hrun h1 d7 E7 Hwf.
  run_step Hrun ro d8 E8 Hwf. apply update_status_Ok in E8 as (o8 & Ho8 & _ & _ & -> & O8).
  revert Ho8. follow. rewrite lookup_insert_eq. intros [= <-].
  run_step Hrun h2 d9 E9 Hwf. run_step Hrun u10 d10 E10 Hwf.
  run_bind Hrun al d11 E11. kept E11. run_bind Hrun b d12 E12.
  assert (Hway : order_under_way (o_id o) t (pay_id pay) (o_total_vnd o) d12).
  { eapply under_way; [exact Hwf | exact E11 | exact E12 | | | |].
    - follow. by rewrite lookup_insert_eq.
    - done.
    - done.
    - unfold no_job. by follow. }
  assert (W12 : rows WalletRow d12 = rows WalletRow d11).
  { eapply frame_after; [|exact E12]. unfold createDeliveryHandoffWithinTransaction, audit_actor. preserve. }
  run_bind Hrun u13 d13 E13. kept E13.
  apply (under_way_after (A := _)) with (2 := E13) in Hway; [|preserve].
  injection Hrun as <- <-. split; [|by exists (pay_id pay)].
  exists (w_id w), w'. follow. rewrite Hw'. simpl. split_and!; try done; [congruence | lia | lia].
Qed.

Lemma find_owned_order k tid env d o it d' :
  LockOrderDetailOwnedByTelegramUser k tid env d = Ok (o, it) d' ->
  d' = d /\ rows OrderRow d !! k = Some o /\ owned_by d tid o = true.
Proof.
  unfold LockOrderDetailOwnedByTelegramUser. intros Hrun.
  run_bind Hrun o1 d1 Ho. apply get_row_Ok in Ho as [-> Ho]. run_read Hrun.
  run_guard Hrun Hown. apply negb_false_iff in Hown. run_read Hrun.
  run_bind Hrun it1 d1 Hi. destruct (first_item _ _); [|discriminate].
  injection Hi as <- <-. injection Hrun as <- <- <-. done.
Qed.

(** C5: when a customer pays an order from the wallet (and it is not a repetition),
    the order was the customer's own, pending and in time; the balance of the
    customer's wallet falls by exactly the order's total and stays non-negative; and
    the order is under way: delivering, with exactly its quantity held and one
    pending job. *)
Theorem wallet_payment_is_exact c t ttl n env d r d' :
  db_wf d -> jobs_started d -> (forall k o, rows OrderRow d !! k = Some o -> o_total_vnd o <= int64_max) ->
  PayOrderWithWallet c t ttl n env d = (inr r, d') -> wr_duplicate r = false ->
  exists o k w', rows OrderRow d !! wp_order_id c = Some o /\ owned_by d (wp_telegram_user_id c) o = true /\
    o_status o = OrderStatusPendingPayment /\ t < o_expires_at o /\
    rows WalletRow d' !! k = Some w' /\ 0 <= w_balance_vnd w' /\
    w_balance_vnd w' + o_total_vnd o = balance_of k d /\ wr_balance r = w_balance_vnd w' /\
    (exists u, rows User d !! w_user_id w' = Some u /\ u_telegram_user_id u = wp_telegram_user_id c) /\
    exists pid, order_under_way (wp_order_id c) t pid (o_total_vnd o) d'.
Proof.
  intros Hwf Hd Hmax Hrun Hdup. unfold PayOrderWithWallet, map_action_error in Hrun.
  destruct (WithinTransaction _ env d) as [[e|r0] d0] eqn:E; [done|]. injection Hrun as -> ->.
  apply transaction_ok_inv in E. rename E into Hrun. unfold pay_order_tx in Hrun.
  run_bind Hrun u d1 Hu. unfold lock_active_user in Hu.
  run_bind Hu u1 d2 Hu1. apply or_no_rows_inv in Hu1. unfold QUsers.LockUserByTelegramID in Hu1.
  apply find_row_Ok in Hu1 as (-> & Htid & [ku Hku]). run_guard Hu Hact. injection Hu as <- <-.
  run_bind Hrun row d1 Hrow. apply or_no_rows_inv in Hrow. destruct row as [o it].
  apply find_owned_order in Hrow as (-> & Ho & Hown).
  run_bind Hrun old d1 Hold. apply try_row_inv in Hold as [(p & -> & _) | (-> & -> & _)].
  { exfalso. run_skip Hrun. injection Hrun as <- _. done. }
  run_guard Hrun Hs. run_guard Hrun Ht. apply negb_false_iff, bool_decide_eq_true in Hs.
  apply negb_false_iff in Ht. unfold time_after in Ht.
  assert (o_id o = wp_order_id c) as Hid by exact (wf_key _ _ (wf_orders _ Hwf) _ o Ho).
  apply settle_wallet_order_Ok in Hrun as ((k & w' & Hw' & Hu & Hnn & Hbal & Hr) & pid & Hway);
    [|done | done | by rewrite Hid | done | by eapply Hmax].
  assert (u_id u1 = ku) as Hku' by exact (wf_key _ _ (wf_users _ Hwf) _ u1 Hku).
  rewrite Hid in *. exists o, k, w'. split_and!; try done; [lia | | by exists pid].
  exists u1. rewrite Hu, Hku'. split; [done | lia].
Qed.

Definition paying : Database := perform (OpClaimUpdate 103 "callback" 0) (calm 1390) funded_order.

Lemma wallet_payment_is_exact_witness :
  exists k w', rows WalletRow wallet_paid !! k = Some w' /\ w_balance_vnd w' + 100000 = balance_of k paying.
Proof.
  assert (Hwf : db_wf paying) by decide_wf.
  assert (Hj : jobs_started paying) by (intros kj j k Hj; vm_compute in Hj; discriminate).
  assert (Hmax : forall k o, rows OrderRow paying !! k = Some o -> o_total_vnd o <= int64_max).
  { intros k o Ho. apply Z.leb_le. revert k o Ho. apply (rows_forall (fun o => o_total_vnd o <=? int64_max)).
    vm_compute. reflexivity. }
  assert (exists r, PayOrderWithWallet wallet_payment 1400 600 [5] (calm 1400) paying = (inr r, wallet_paid) /\
            wr_duplicate r = false) as (r & Hr & Hdup)
    by (eexists; split; [vm_compute; reflexivity | reflexivity]).
  destruct (wallet_payment_is_exact _ _ _ _ _ _ _ _ Hwf Hj Hmax Hr Hdup)
    as (o & k & w' & Ho & _ & _ & _ & Hw & _ & Hb & _).
  assert (o_total_vnd o = 100000) as Ht by (vm_compute in Ho; by injection Ho as <-).
  exists k, w'. split; [exact Hw|]. by rewrite <- Ht.
Defined.
