(* ===== verification/Checkout.v ===== *)
(** * Placing and cancelling orders

    First the service against its interface: for every repository that satisfies
    [OrderTransactionLaws], a created order costs exactly price times quantity, and a
    cancellation only ever touches a pending order of the expected version.  Then the
    PostgreSQL repository satisfies the laws, and creation is idempotent in its key. *)

From S2P Require Import Prelude Domain Schema Tx Tables Models QOrders QInventory QPayments QWallet QUsers.
From S2P Require Import QCatalog QBanks QDelivery UpdateStore AdminStore InventoryStore DeliveryStore PaymentStore.
From S2P Require Import WalletStore.
From S2P Require Import OrderService OrderStore PaymentEvents Steps Demo Lifecycle Settlement WalletPayment.

(** ** Against the interface *)

Section Interface.
Context {S : Type} `{OrderTransaction S} `{!OrderTransactionLaws S}.

(** What a freshly created order says *)
Definition freshly_ordered (s : OrderConfig) (product : OrderProductRecord) (lineTotal : Z) (c : CreateOrderCommand)
    (expiresAt : Time) (o : OrderDetail) : Prop :=
  od_status o = OrderStatusPendingPayment /\ od_total o = lineTotal /\ od_subtotal o = lineTotal /\
  od_expires_at o = expiresAt /\
  (exists n, (n < paymentReferenceAttempts)%nat /\ references s n = inr (od_payment_reference o)) /\
  it_product_id (od_item o) = pr_id product /\ it_unit_price (od_item o) = pr_price product /\
  it_quantity (od_item o) = co_quantity c /\ it_line_total (od_item o) = lineTotal.

Lemma create_attempts_result s n i c user product total bank expires env d o d' :
  (i + n = paymentReferenceAttempts)%nat ->
  create_attempts s n i c user product total bank expires env d = Ok (o, false) d' ->
  freshly_ordered s product total c expires o.
Proof.
  revert i d. induction n as [|n IH]; intros i d Hi Hrun; [discriminate|]. simpl in Hrun.
  run_bind Hrun ref d1 Href. destruct (references s i) as [e|reference] eqn:Er; [discriminate|].
  injection Href as <- <-. run_bind Hrun ins d1 Hins. destruct ins as [order|].
  - apply insert_result in Hins as (_ & Hs & Hsub & Htot & Hr & Hexp).
    run_bind Hrun it d2 Hit. apply insert_item_result in Hit as (Hp & _ & Hpr & Hq & Hl).
    run_skip Hrun. injection Hrun as <- _. simpl in *.
    unfold freshly_ordered. simpl. split_and!; try done. exists i. split; [lia | congruence].
  - run_bind Hrun old d2 Hold. destruct old as [o1|].
    + run_skip Hrun. discriminate.
    + apply (IH (Datatypes.S i) d2); [lia | done].
Qed.

Lemma line_total_exact product q total :
  line_total product q = inr total -> total = pr_price product * q /\ 0 <= pr_price product /\ total <= int64_max.
Proof.
  unfold line_total. rewrite Money.Multiply_exact. unfold Money.Multiply_spec.
  destruct (Z.ltb_spec (pr_price product) 0); [done|].
  destruct (q <=? 0); [done|].
  destruct (Z.ltb_spec int64_max (pr_price product * q)); [done|]. intros [= <-]. done.
Qed.

Lemma create_order_result s c env d o d' :
  create_order_tx s c env d = Ok (o, false) d' ->
  exists product d1 d2, GetProductForOrderCreation (co_product_id c) env d1 = Ok product d2 /\
    pr_product_active product = true /\ pr_category_active product = true /\
    pr_delivery_type product = "inventory"%string /\
    pr_price product * co_quantity c <= int64_max /\
    freshly_ordered s product (pr_price product * co_quantity c) c (env_now env + expiry s) o.
Proof.
  intros Hrun. unfold create_order_tx in Hrun.
  run_bind Hrun user d1 Hu. run_guard Hrun Hact. run_bind Hrun old d2 Hold.
  destruct old as [o1|]; [run_skip Hrun; discriminate|].
  run_bind Hrun pr d3 Hp. apply map_error_inv in Hp.
  run_guard Hrun Hcat. run_guard Hrun Hprod.
  run_bind Hrun tot d4 Ht. destruct (line_total _ _) as [e|t] eqn:El; [discriminate|].
  injection Ht as <- <-. apply line_total_exact in El as (-> & _ & Hmax).
  run_bind Hrun avail d4 Hav. run_guard Hrun Hstock.
  run_bind Hrun bk d5 Hb. run_bind Hrun now d6 Hn. injection Hn as <- <-.
  apply create_attempts_result in Hrun; [|done].
  apply negb_false_iff in Hcat. apply orb_false_iff in Hprod as [Hpa Hty].
  apply negb_false_iff in Hpa, Hty. apply str_eqb_eq in Hty.
  exists pr. eexists _, _. by split_and!.
Qed.
End Interface.

(** C28: whatever repository the service runs on, an order it creates is for an active
    product of an active category, of a quantity between 1 and the limit; it is
    pending, its total is exactly the price times the quantity (which fits an int64),
    its reference is one of at most eight draws, and it expires after the configured
    time. *)
Theorem created_orders_cost_price_times_quantity {S} `{OrderTransactionLaws S} (s : OrderConfig) c env (d : S) r d' :
  Create s c env d = (inr r, d') -> cr_duplicate r = false ->
  1 <= co_quantity c <= maxQuantity s /\
  exists product d1 d2, GetProductForOrderCreation (co_product_id c) env d1 = Ok product d2 /\
    pr_product_active product = true /\ pr_category_active product = true /\
    pr_price product * co_quantity c <= int64_max /\
    freshly_ordered s product (pr_price product * co_quantity c) c (env_now env + expiry s) (cr_order r).
Proof.
  unfold Create. intros Hrun Hdup. destruct (_ || _ || _ || _ || _); [done|].
  destruct (Z.leb_spec (co_quantity c) 0); [done|]. destruct (_ || _) eqn:Hq in Hrun; [done|].
  apply orb_false_iff in Hq as [? Hq]. destruct (expiry s <=? 0); [done|].
  destruct (WithinTransaction _ env d) as [[e|[o dup]] d1] eqn:E; [done|].
  destruct (instruction s o) as [e|i]; [done|]. injection Hrun as <- <-. simpl in Hdup. subst dup.
  apply transaction_ok_inv, create_order_result in E as (p & d2 & d3 & Hp & ? & ? & _ & ? & Ho).
  split; [lia|]. exists p, d2, d3. by split_and!.
Qed.

(** ** The PostgreSQL repository *)

#[export] Instance PgOrderTransactionLaws : OrderTransactionLaws Database.
Proof.
  split.
  - intros k user version now env d od d' Hrun. simpl in Hrun. unfold PgOrder.CancelPendingOrder in Hrun.
    run_bind Hrun row d1 Hup. apply or_no_rows_inv in Hup. injection Hrun as <- _.
    unfold CancelPendingOrderOwnedGuarded in Hup. run_bind Hup t d2 Ht. injection Ht as _ <-.
    apply update_row_Ok in Hup as (o & _ & Hg & -> & _).
    rewrite !andb_true_iff in Hg. destruct Hg as [[[Hu _] Hnow] Hv]. simpl. split_and!; (done || lia).
  - intros input env d od d' Hrun. simpl in Hrun. unfold PgOrder.InsertPendingOrder in Hrun.
    run_bind Hrun row d1 Hins. injection Hrun as Hod <-. destruct row as [row|]; [|done]. injection Hod as <-.
    apply try_row_inv in Hins as [(r & [= <-] & Hins)|[? _]]; [|done].
    unfold CreatePendingOrderWithBank in Hins. run_bind Hins t d2 Ht. injection Ht as <- <-.
    apply insert_row_or_nothing_Ok, insert_row_Ok in Hins as (-> & _). done.
  - intros k item env d it d' Hrun. simpl in Hrun. unfold PgOrder.InsertOrderItem in Hrun.
    run_bind Hrun row d1 Hins. injection Hrun as <- _. unfold QOrders.InsertOrderItem in Hins.
    by apply insert_row_Ok in Hins as (-> & _).
Qed.

Lemma created_orders_cost_price_times_quantity_witness :
  exists r d1, Create config order_two (calm 1000) shop = (inr r, d1) /\ co_quantity order_two <= 5.
Proof.
  assert (exists r d1, Create config order_two (calm 1000) shop = (inr r, d1) /\ cr_duplicate r = false)
    as (r & d1 & Hr & Hdup) by (eexists _, _; split; [vm_compute; reflexivity | reflexivity]).
  exists r, d1. split; [exact Hr|].
  destruct (created_orders_cost_price_times_quantity _ _ _ _ _ _ Hr Hdup) as [[_ Hq] _]. exact Hq.
Defined.

Definition cancel_row (t : Time) (o : OrderRow) : OrderRow :=
  o <| o_status := OrderStatusCancelled |> <| o_cancelled_at := Some t |> <| o_version := o_version o + 1 |>.

(** C29: a customer can only cancel an own order: it is pending, has the version the
    customer saw and has not expired; the cancellation changes that order alone, and
    moves neither stock nor money.  Cancelling a cancelled order again changes no
    order. *)
Theorem customers_cancel_only_their_own_pending_orders c env d r d' :
  db_wf d -> Cancel c env d = (inr r, d') ->
  exists o, rows OrderRow d !! cc_order_id c = Some o /\ owned_by d (cc_telegram_user_id c) o = true /\
    nothing_moved d d' /\
    if cn_already_cancelled r then o_status o = OrderStatusCancelled /\ rows OrderRow d' = rows OrderRow d
    else o_status o = OrderStatusPendingPayment /\ o_version o = cc_expected_version c /\
         env_now env < o_expires_at o /\
         rows OrderRow d' = <[cc_order_id c := cancel_row (env_clock env) o]> (rows OrderRow d).
Proof.
  intros Hwf Hrun. unfold Cancel in Hrun. destruct (_ || _ || _ || _); [done|].
  apply transaction_ok_inv in Hrun.
  assert (Hmoved : nothing_moved d d') by (eapply moved_after; [|exact Hrun]; unfold cancel_order_tx; simpl; preserve).
  unfold cancel_order_tx in Hrun. simpl in Hrun.
  run_bind Hrun od d1 Hod. apply map_error_inv in Hod. unfold PgOrder.LockOrderOwnedByTelegramUser in Hod.
  run_bind Hod row d2 Hrow. apply or_no_rows_inv in Hrow. destruct row as [o it].
  apply find_owned_order in Hrow as (-> & Ho & Hown). injection Hod as <- <-.
  exists o. do 3 (split; [done|]). simpl in Hrun.
  destruct (bool_decide (o_status o = OrderStatusCancelled)) eqn:Hc.
  { apply bool_decide_eq_true in Hc. run_bind Hrun u d1 Hu. kept Hu. injection Hrun as <- <-. by split. }
  run_bind Hrun now d1 Hn. injection Hn as <- <-.
  run_guard Hrun Hexp. run_guard Hrun Hver. run_guard Hrun Htr.
  apply orb_false_iff in Hexp as [_ Hexp]. apply negb_false_iff in Hexp, Hver. unfold time_after in Hexp.
  assert (o_id o = cc_order_id c) as Hid by exact (wf_key _ _ (wf_orders _ Hwf) _ o Ho).
  run_bind Hrun updated d1 Hup. unfold PgOrder.CancelPendingOrder in Hup.
  run_bind Hup row d2 Hcas. apply or_no_rows_inv in Hcas. injection Hup as <- <-.
  unfold CancelPendingOrderOwnedGuarded in Hcas. run_bind Hcas t d3 Ht. injection Ht as <- <-.
  apply update_row_Ok in Hcas as (o1 & Ho1 & Hg & -> & -> & _). rewrite Hid, Ho in Ho1. injection Ho1 as <-.
  rewrite !andb_true_iff, bool_decide_eq_true in Hg. destruct Hg as [[[_ Hs] _] _].
  run_bind Hrun h d3 Hh. kept Hh. run_bind Hrun u d4 Hu. kept Hu. injection Hrun as <- <-. simpl.
  split_and!; [done | lia | lia |]. follow. by rewrite rows_put, Hid.
Qed.

Lemma customers_cancel_only_their_own_pending_orders_witness : nothing_moved ordered cancelled_shop.
Proof.
  assert (exists r, Cancel (mkCancelOrderCommand 7001 1 1 (mkRequestMeta "req-9" 102)) (calm 1050) ordered
            = (inr r, cancelled_shop)) as (r & Hr) by (eexists; vm_compute; reflexivity).
  assert (Hwf : db_wf ordered) by decide_wf.
  destruct (customers_cancel_only_their_own_pending_orders _ _ _ _ _ Hwf Hr) as (o & _ & _ & Hm & _). exact Hm.
Defined.

(** ** Creation is idempotent in its key *)

(** A user's identity never changes. *)
Definition same_user (u u' : User) : Prop :=
  u_id u' = u_id u /\ u_telegram_user_id u' = u_telegram_user_id u.
#[export] Instance same_user_preorder : PreOrder same_user.
Proof. unfold same_user. split; [done|]. intros a b c [] []. split; congruence. Qed.

Lemma UpsertTelegramUser_same t n d : respects (evolves User same_user) (UpsertTelegramUser t n d).
Proof.
  unfold UpsertTelegramUser. apply respects_bind; [apply _ | apply respects_clock; apply _ | intros now].
  apply respects_upsert_own; [apply _|]. by intros u _.
Qed.

#[export] Instance preserved_users : Preserved (evolves User same_user).
Proof. preserved_statements; first [apply UpsertTelegramUser_same | preserve]. Qed.

(** The order with this key of the customer with this Telegram id *)
Definition has_order (tid : Z) (key : string) (id : Z) (d : Database) : Prop :=
  exists ku u o, rows User d !! ku = Some u /\ u_telegram_user_id u = tid /\
    rows OrderRow d !! id = Some o /\ o_user_id o = u_id u /\ o_idempotency_key o = key.

Lemma has_order_later tid key id d d' : shop_steps d d' -> has_order tid key id d -> has_order tid key id d'.
Proof.
  intros Hs (ku & u & o & Hu & Ht & Ho & Hou & Hk).
  destruct (shop_steps_ok (evolves User same_user) d d' Hs ku u Hu) as (u' & Hu' & Hid & Htid).
  destruct (shop_steps_ok (evolves OrderRow order_step) d d' Hs id o Ho) as (o' & Ho' & Hst).
  exists ku, u', o'. assert (o_user_id o' = o_user_id o /\ o_idempotency_key o' = o_idempotency_key o) as [? ?].
  { destruct Hst as [-> | (_ & _ & Hi)]; [done|]. unfold order_identity in Hi. split; congruence. }
  split_and!; congruence.
Qed.

(** The key identifies the order. *)
Lemma has_order_unique tid key id id' d : db_wf d -> has_order tid key id d -> has_order tid key id' d -> id' = id.
Proof.
  intros Hwf (ku & u & o & Hu & Ht & Ho & Hou & Hk) (ku' & u' & o' & Hu' & Ht' & Ho' & Hou' & Hk').
  assert (ku' = ku) as ->.
  { destruct (decide (ku = ku')) as [|Hne]; [done|].
    pose proof (wf_clash _ _ (wf_users _ Hwf) ku ku' u u' Hu Hu' Hne) as Hc. simpl in Hc. lia. }
  assert (u' = u) as -> by congruence.
  destruct (decide (id = id')) as [|Hne]; [done|].
  pose proof (wf_clash _ _ (wf_orders _ Hwf) id id' o o' Ho Ho' Hne) as Hc. simpl in Hc. unfold orders_clash in Hc.
  apply orb_false_iff in Hc as [_ Hc]. rewrite Hou, Hou', Z.eqb_refl in Hc. simpl in Hc.
  apply bool_decide_eq_false in Hc. congruence.
Qed.

Lemma find_idempotent_Ok user key env d od d' :
  PgOrder.FindOrderByIdempotency user key env d = Ok od d' ->
  d' = d /\ exists k o, rows OrderRow d !! k = Some o /\ o_user_id o = user /\ o_idempotency_key o = key /\ od_id od = o_id o.
Proof.
  unfold PgOrder.FindOrderByIdempotency. intros Hrun. run_bind Hrun row d1 Hrow. apply or_no_rows_inv in Hrow.
  unfold FindOrderByUserIdempotency in Hrow. apply find_row_Ok in Hrow as (-> & Hp & k & Hk).
  injection Hrun as <- <-. split; [done|]. apply andb_true_iff in Hp as [Hu Hkey]. apply str_eqb_eq in Hkey.
  exists k, row. split_and!; (done || lia).
Qed.

Lemma insert_pending_Ok input env d od d' :
  PgOrder.InsertPendingOrder input env d = Ok (Some od) d' ->
  exists o, rows OrderRow d' !! od_id od = Some o /\ o_user_id o = po_user_id input /\
    o_idempotency_key o = po_idempotency_key input.
Proof.
  unfold PgOrder.InsertPendingOrder. intros Hrun. run_bind Hrun row d1 Hins. injection Hrun as Hod <-.
  destruct row as [row|]; [|done]. injection Hod as <-.
  apply try_row_inv in Hins as [(r & [= <-] & Hins)|[? _]]; [|done].
  unfold CreatePendingOrderWithBank in Hins. run_bind Hins t d2 Ht. injection Ht as <- <-.
  apply insert_row_or_nothing_Ok, insert_row_Ok in Hins as (-> & _ & Hrows & _).
  eexists. rewrite Hrows. simpl. by rewrite lookup_insert_eq.
Qed.

Lemma attempts_order s n i c user pr tot bk expires env d od dup d' :
  db_wf d -> create_attempts (S := Database) s n i c user pr tot bk expires env d = Ok (od, dup) d' ->
  exists o, rows OrderRow d' !! od_id od = Some o /\ o_user_id o = us_id user /\
    o_idempotency_key o = co_idempotency_key c /\ rows User d' = rows User d.
Proof.
  revert i d. induction n as [|n IH]; intros i d Hwf Hrun; [discriminate|]. simpl in Hrun.
  run_bind Hrun ref d1 Href. destruct (references s i) as [e|reference]; [discriminate|]. injection Href as <- <-.
  run_bind Hrun ins d1 Hins. assert (rows User d1 = rows User d) by table_frame. step_wf Hins Hwf.
  destruct ins as [order|].
  - apply insert_pending_Ok in Hins as (o & Ho & Hu & Hk). simpl in Hu, Hk.
    run_bind Hrun it d2 Hit. kept Hit. assert (rows User d2 = rows User d1) by table_frame.
    run_bind Hrun h d3 Hh. kept Hh. assert (rows User d3 = rows User d2) by table_frame.
    run_bind Hrun u d4 Hu4. kept Hu4. assert (rows User d4 = rows User d3) by table_frame.
    injection Hrun as <- _ <-. exists o. simpl. follow. by split_and!.
  - run_bind Hrun old d2 Hold. apply try_error_inv in Hold as [(o1 & -> & Hold) | (-> & -> & _)].
    + apply find_idempotent_Ok in Hold as (-> & k & o & Ho & Hu & Hk & Hid).
      run_bind Hrun u d3 Hu3. kept Hu3. assert (rows User d3 = rows User d1) by table_frame.
      injection Hrun as <- _ <-. exists o.
      rewrite Hid, (wf_key _ _ (wf_orders _ Hwf) k o Ho : o_id o = k). follow. by split_and!.
    + destruct (IH _ _ Hwf Hrun) as (o & ? & ? & ? & Hus). exists o. split_and!; congruence.
Qed.

Lemma locked_user_Ok tid env d user d' :
  PgOrder.LockUserByTelegramID tid env d = Ok user d' ->
  d' = d /\ exists k u, rows User d !! k = Some u /\ u_telegram_user_id u = tid /\ us_id user = u_id u.
Proof.
  unfold PgOrder.LockUserByTelegramID. intros Hrun. run_bind Hrun row d1 Hrow. apply or_no_rows_inv in Hrow.
  unfold LockUserForOrderCreation in Hrow. apply find_row_Ok in Hrow as (-> & Hp & k & Hk).
  injection Hrun as <- <-. split; [done|]. exists k, row. split_and!; (done || lia).
Qed.

(** The order a customer's key already names is found by the lookup. *)
Lemma find_idempotent_found tid key id k u env d :
  db_wf d -> rows User d !! k = Some u -> u_telegram_user_id u = tid -> has_order tid key id d ->
  try_error ErrOrderNotFound (PgOrder.FindOrderByIdempotency (u_id u) key) env d <> Ok None d.
Proof.
  intros Hwf Hu Ht (k' & u' & o & Hu' & Ht' & Ho & Hou & Hk) Hnone.
  assert (u' = u) as ->.
  { destruct (decide (k' = k)) as [->|Hne]; [congruence|].
    pose proof (wf_clash _ _ (wf_users _ Hwf) k' k u' u Hu' Hu Hne) as Hc. simpl in Hc. lia. }
  apply try_error_inv in Hnone as [(? & ? & _) | (_ & _ & Hf)]; [done|].
  unfold PgOrder.FindOrderByIdempotency, mbind, Tx_bind, or_no_rows, FindOrderByUserIdempotency in Hf.
  destruct (find_row _ env d) as [r d1|e] eqn:E; [done|]. apply find_row_Fail in E as [_ Hno].
  specialize (Hno id o Ho). rewrite Hou, Z.eqb_refl, Hk in Hno. simpl in Hno.
  apply not_true_iff_false in Hno. apply Hno. by apply str_eqb_eq.
Qed.

Lemma create_inv s c env d r d' :
  Create (S := Database) s c env d = (inr r, d') ->
  create_order_tx s c env d = Ok (cr_order r, cr_duplicate r) d'.
Proof.
  unfold Create. intros Hrun. destruct (_ || _ || _ || _ || _); [done|].
  destruct (_ <=? 0); [done|]. destruct (_ || _); [done|]. destruct (_ <=? 0); [done|].
  destruct (WithinTransaction _ env d) as [[e|[o dup]] d1] eqn:E; [done|].
  destruct (instruction s o); [done|]. injection Hrun as <- <-. by apply transaction_ok_inv in E.
Qed.

(** What a creation that returned leaves behind *)
Lemma create_order_leaves s c env d od dup d' :
  db_wf d -> create_order_tx (S := Database) s c env d = Ok (od, dup) d' ->
  has_order (co_telegram_user_id c) (co_idempotency_key c) (od_id od) d' /\
  (forall id, has_order (co_telegram_user_id c) (co_idempotency_key c) id d ->
     dup = true /\ od_id od = id /\ rows OrderRow d' = rows OrderRow d).
Proof.
  intros Hwf Hrun. unfold create_order_tx in Hrun. cbn -[create_attempts] in Hrun.
  run_bind Hrun user d1 Hu. apply map_error_inv, locked_user_Ok in Hu as (-> & ku & u & Hku & Ht & Hid).
  run_guard Hrun Hact. run_bind Hrun old d1 Hold. rewrite Hid in Hold. destruct old as [o1|].
  - apply try_error_inv in Hold as [(o2 & [= <-] & Hold) | [? _]]; [|done].
    apply find_idempotent_Ok in Hold as (-> & k & o & Ho & Hou & Hk & Hoid).
    assert (Hodk : od_id o1 = k) by (rewrite Hoid; exact (wf_key _ _ (wf_orders _ Hwf) k o Ho)).
    assert (Hhas : has_order (co_telegram_user_id c) (co_idempotency_key c) k d)
      by (exists ku, u, o; split_and!; congruence).
    run_bind Hrun u1 d1 Hc. kept Hc. assert (rows User d1 = rows User d) by table_frame.
    injection Hrun as <- <- <-. rewrite Hodk. split.
    + exists ku, u, o. follow. split_and!; congruence.
    + intros id Hid'. split_and!; [done | | done]. by eapply has_order_unique.
  - assert (d1 = d) as -> by (apply try_error_inv in Hold as [(? & ? & _)|(_ & ? & _)]; congruence).
    split; [|intros id Hhas; exfalso; eapply find_idempotent_found; eauto].
    run_bind Hrun pr d1 Hp. assert (rows User d1 = rows User d) by table_frame. step_wf Hp Hwf.
    run_guard Hrun Hcat. run_guard Hrun Hpr. run_bind Hrun tot d2 Htot.
    assert (rows User d2 = rows User d1) by table_frame. step_wf Htot Hwf.
    run_bind Hrun av d3 Hav. assert (rows User d3 = rows User d2) by table_frame. step_wf Hav Hwf.
    run_guard Hrun Hst. run_bind Hrun bk d4 Hb. assert (rows User d4 = rows User d3) by table_frame. step_wf Hb Hwf.
    run_bind Hrun now d5 Hn. injection Hn as <- <-.
    apply attempts_order in Hrun as (o & Ho & Hou & Hk & Hus); [|done].
    exists ku, u, o. split_and!; congruence.
Qed.

(** C27: once [Create] has returned an order for a customer's idempotency key, any
    later [Create] of that customer with that key, after whatever history and with
    whatever other fields, returns the same order as a duplicate and adds no order. *)
Theorem creation_is_idempotent_in_its_key s s' c c' env env' d d1 d2 d3 r r' :
  db_wf d -> Create s c env d = (inr r, d1) -> shop_steps d1 d2 -> Create s' c' env' d2 = (inr r', d3) ->
  co_telegram_user_id c' = co_telegram_user_id c -> co_idempotency_key c' = co_idempotency_key c ->
  cr_duplicate r' = true /\ od_id (cr_order r') = od_id (cr_order r) /\ rows OrderRow d3 = rows OrderRow d2.
Proof.
  intros Hwf H1 Hsteps H2 Ht Hk.
  assert (Hs1 : shop_steps d d1) by (apply rtc_once; exists (OpCreateOrder s c), env; unfold perform, after; by rewrite H1).
  assert (Hwf1 : db_wf d1) by by apply (shop_steps_ok (keeps db_wf) _ _ Hs1).
  apply create_inv in H1, H2.
  apply create_order_leaves in H1 as [Hhas _]; [|done].
  apply create_order_leaves in H2 as [_ Hdup]; [|by apply (shop_steps_ok (keeps db_wf) _ _ Hsteps)].
  rewrite Ht, Hk in Hdup. apply Hdup. by eapply has_order_later.
Qed.

Definition order_again : CreateOrderCommand := mkCreateOrderCommand 7001 1 1 1 "key-1" (mkRequestMeta "req-7" 102).

Lemma creation_is_idempotent_in_its_key_witness :
  exists r d, Create config order_again (calm 1400) delivered = (inr r, d) /\ cr_duplicate r = true /\
    od_id (cr_order r) = 1.
Proof.
  assert (exists r, Create config order_two (calm 1000) shop = (inr r, ordered) /\ od_id (cr_order r) = 1)
    as (r & H1 & Hid) by (eexists; split; [vm_compute; reflexivity | reflexivity]).
  assert (exists r' d, Create config order_again (calm 1400) delivered = (inr r', d)) as (r' & d & H2)
    by (eexists _, _; vm_compute; reflexivity).
  assert (Hs : shop_steps ordered delivered) by history.
  assert (Hthm := creation_is_idempotent_in_its_key config config order_two order_again (calm 1000) (calm 1400)
    shop ordered delivered d r r' shop_wf H1 Hs H2 eq_refl eq_refl).
  exists r', d. split; [exact H2|]. destruct Hthm as (Hd & Hi & _). split; [exact Hd|]. by rewrite Hi.
Defined.
