(* ===== verification/Parser.v ===== *)
(** * Commands and buttons

    [src/internal/telegram/parser.go]: the text commands and the callback data of
    inline buttons.  [None] is [ErrInvalidCallback]; the partly filled [Callback] that
    the Go functions return next to that error is never read. *)

From Stdlib Require Import Ascii.
From S2P Require Import Prelude Text Domain Schema.

Definition MaxCallbackDataBytes : Z := 64.

Record Command := mkCommand { cmd_name : string; cmd_payload : string }.

Definition ParseCommand (text : string) : option Command :=
  match Fields (TrimSpace text) with
  | [] => None
  | field :: rest =>
      match cut_byte "/"%char field with
      | None => None
      | Some name =>
          let name := ToLower (before_byte "@"%char name) in
          if str_eqb name "" then None
          else Some (mkCommand name (match rest with payload :: _ => payload | [] => ""%string end))
      end
  end.

Inductive CallbackAction :=
  | CallbackMenu | CallbackSupport | CallbackCategories | CallbackProducts | CallbackProductDetail
  | CallbackOrderQuantity | CallbackOrderBank | CallbackOrderConfirm | CallbackOrders | CallbackOrderView
  | CallbackOrderAskCancel | CallbackOrderCancel | CallbackOrderWalletAsk | CallbackOrderWalletPay
  | CallbackWalletTopupAmount | CallbackWalletTopupBank | CallbackWalletBalance
  | CallbackAdminCategories | CallbackAdminProducts
  | CallbackAdminCategoryNew | CallbackAdminCategoryEdit | CallbackAdminCategoryAskToggle | CallbackAdminCategoryToggle
  | CallbackAdminProductNew | CallbackAdminProductEdit | CallbackAdminProductAskToggle | CallbackAdminProductToggle
  | CallbackAdminInventory | CallbackAdminInventoryList | CallbackAdminInventoryImport
  | CallbackAdminInventoryAskToggle | CallbackAdminInventoryToggle
  | CallbackAdminBanks | CallbackAdminBankNew | CallbackAdminBankEdit | CallbackAdminBankAskToggle | CallbackAdminBankToggle
  | CallbackAdminPaymentReviews | CallbackAdminPaymentManual | CallbackAdminPaymentResolve | CallbackAdminWalletAdjustment
  | CallbackAdminDeliveries | CallbackAdminDeliveryDetail | CallbackAdminDeliveryRetry | CallbackAdminDeliveryComplete
  | CallbackAdminDeliveryConfirm | CallbackAdminDeliveryReconcile
  | CallbackAdminProviderHealth | CallbackAdminProviderAccounts | CallbackAdminProviderAccountNew
  | CallbackAdminProviderAccountAskToggle | CallbackAdminProviderAccountToggle | CallbackAdminCancel.

#[export] Instance CallbackAction_dec : EqDecision CallbackAction.
Proof. solve_decision. Defined.

Record Callback := mkCallback { cb_Action : CallbackAction; cb_Page : Z; cb_CategoryID : Z; cb_ProductID : Z;
    cb_BankAccountID : Z; cb_OrderID : Z; cb_FlowID : Z; cb_Quantity : Z; cb_InventoryID : Z; cb_RecordVersion : Z;
    cb_SessionID : Z; cb_SessionVersion : Z; cb_Active : bool; cb_AmountVND : Z; cb_ReviewID : Z;
    cb_DeliveryID : Z; cb_ProviderAccountID : Z }.
#[export] Instance Eta_Callback : Eta Callback := fun r =>
    mkCallback (cb_Action r) (cb_Page r) (cb_CategoryID r) (cb_ProductID r) (cb_BankAccountID r) (cb_OrderID r)
    (cb_FlowID r) (cb_Quantity r) (cb_InventoryID r) (cb_RecordVersion r) (cb_SessionID r) (cb_SessionVersion r)
    (cb_Active r) (cb_AmountVND r) (cb_ReviewID r) (cb_DeliveryID r) (cb_ProviderAccountID r).

(** [Callback{Action: action}] *)
Definition callback (action : CallbackAction) : Callback :=
  mkCallback action 0 0 0 0 0 0 0 0 0 0 0 false 0 0 0 0.

Definition positive (raw : string) : option Z :=
  match ParseInt 64 raw with Some value => if value <=? 0 then None else Some value | None => None end.
Definition nonNegative (raw : string) : option Z :=
  match ParseInt 32 raw with Some value => if value <? 0 then None else Some value | None => None end.
Definition positiveInt32 (raw : string) : option Z :=
  match ParseInt 32 raw with Some value => if value <=? 0 then None else Some value | None => None end.
Definition parseBoolBit (raw : string) : option bool :=
  if str_eqb raw "0" then Some false else if str_eqb raw "1" then Some true else None.

Definition exact (parts : list string) (count : nat) (callback : Callback) : option Callback :=
  if Nat.eqb (length parts) count then Some callback else None.
Definition parseNonNegative (parts : list string) (index count : nat) : option Z :=
  if Nat.eqb (length parts) count then nonNegative (nth index parts ""%string) else None.

Definition parse_page (parts : list string) (action : CallbackAction) : option Callback :=
  page ← parseNonNegative parts 3 4;
  Some ((callback action) <| cb_Page := page |>).

Definition parseOrderCallback (parts : list string) : option Callback :=
  if Nat.ltb (length parts) 3 then None else
  let sub := nth 2 parts ""%string in
  if str_eqb sub "qh" then exact parts 3 (callback CallbackAdminProviderHealth)
  else if str_eqb sub "ql" then parse_page parts CallbackAdminProviderAccounts
  else if str_eqb sub "qn" then exact parts 3 (callback CallbackAdminProviderAccountNew)
  else if str_eqb sub "qa" then
    match parts with
    | [_; _; _; p3; p4; p5] =>
        mappingID ← positive p3; version ← positive p4; active ← parseBoolBit p5;
        Some ((callback CallbackAdminProviderAccountAskToggle) <| cb_ProviderAccountID := mappingID |>
                <| cb_RecordVersion := version |> <| cb_Active := active |>)
    | _ => None
    end
  else if str_eqb sub "qt" then
    match parts with
    | [_; _; _; p3; p4; p5; p6; p7] =>
        sessionID ← positive p3; sessionVersion ← positive p4; mappingID ← positive p5; version ← positive p6;
        active ← parseBoolBit p7;
        Some ((callback CallbackAdminProviderAccountToggle) <| cb_SessionID := sessionID |>
                <| cb_SessionVersion := sessionVersion |> <| cb_ProviderAccountID := mappingID |>
                <| cb_RecordVersion := version |> <| cb_Active := active |>)
    | _ => None
    end
  else if str_eqb sub "q" then
    match parts with
    | [_; _; _; p3; p4] =>
        productID ← positive p3; quantity ← positiveInt32 p4;
        Some ((callback CallbackOrderQuantity) <| cb_ProductID := productID |> <| cb_Quantity := quantity |>)
    | _ => None
    end
  else if str_eqb sub "b" then
    match parts with
    | [_; _; _; p3; p4; p5] =>
        productID ← positive p3; quantity ← positiveInt32 p4; bankID ← positive p5;
        Some ((callback CallbackOrderBank) <| cb_ProductID := productID |> <| cb_Quantity := quantity |>
                <| cb_BankAccountID := bankID |>)
    | _ => None
    end
  else if str_eqb sub "c" then
    match parts with
    | [_; _; _; p3; p4; p5; p6] =>
        flowID ← positive p3; productID ← positive p4; quantity ← positiveInt32 p5; bankID ← positive p6;
        Some ((callback CallbackOrderConfirm) <| cb_FlowID := flowID |> <| cb_ProductID := productID |>
                <| cb_Quantity := quantity |> <| cb_BankAccountID := bankID |>)
    | _ => None
    end
  else if str_eqb sub "l" then parse_page parts CallbackOrders
  else if str_eqb sub "v" then
    match parts with
    | [_; _; _; p3] => orderID ← positive p3; Some ((callback CallbackOrderView) <| cb_OrderID := orderID |>)
    | _ => None
    end
  else if str_eqb sub "x" || str_eqb sub "k" then
    match parts with
    | [_; _; _; p3; p4] =>
        orderID ← positive p3; version ← positive p4;
        let action := if str_eqb sub "k" then CallbackOrderCancel else CallbackOrderAskCancel in
        Some ((callback action) <| cb_OrderID := orderID |> <| cb_RecordVersion := version |>)
    | _ => None
    end
  else if str_eqb sub "w" then
    match parts with
    | [_; _; _; p3] => orderID ← positive p3; Some ((callback CallbackOrderWalletAsk) <| cb_OrderID := orderID |>)
    | _ => None
    end
  else if str_eqb sub "y" then
    match parts with
    | [_; _; _; p3; p4] =>
        flowID ← positive p3; orderID ← positive p4;
        Some ((callback CallbackOrderWalletPay) <| cb_FlowID := flowID |> <| cb_OrderID := orderID |>)
    | _ => None
    end
  else None.

Definition parseWalletCallback (parts : list string) : option Callback :=
  if Nat.ltb (length parts) 3 then None else
  let sub := nth 2 parts ""%string in
  if str_eqb sub "v" then exact parts 3 (callback CallbackWalletBalance)
  else if str_eqb sub "a" then
    match parts with
    | [_; _; _; p3] => amount ← positive p3; Some ((callback CallbackWalletTopupAmount) <| cb_AmountVND := amount |>)
    | _ => None
    end
  else if str_eqb sub "b" then
    match parts with
    | [_; _; _; p3; p4; p5] =>
        flowID ← positive p3; amount ← positive p4; bankID ← positive p5;
        Some ((callback CallbackWalletTopupBank) <| cb_FlowID := flowID |> <| cb_AmountVND := amount |>
                <| cb_BankAccountID := bankID |>)
    | _ => None
    end
  else None.

(** The argument shapes that several admin buttons share: an id and its version, the
    same with a flag, and the confirmation of a session with both *)
Definition parse_id (parts : list string) (build : Z -> Callback) : option Callback :=
  match parts with
  | [_; _; _; p3] => id ← positive p3; Some (build id)
  | _ => None
  end.
Definition parse_versioned (parts : list string) (build : Z -> Z -> Callback) : option Callback :=
  match parts with
  | [_; _; _; p3; p4] => id ← positive p3; version ← positive p4; Some (build id version)
  | _ => None
  end.
Definition parse_flagged (parts : list string) (build : Z -> Z -> bool -> Callback) : option Callback :=
  match parts with
  | [_; _; _; p3; p4; p5] =>
      id ← positive p3; version ← positive p4; active ← parseBoolBit p5; Some (build id version active)
  | _ => None
  end.
Definition parse_confirmed (parts : list string) (build : Z -> Z -> bool -> Callback) : option Callback :=
  match parts with
  | [_; _; _; p3; p4; p5; p6; p7] =>
      sessionID ← positive p3; sessionVersion ← positive p4; id ← positive p5; version ← positive p6;
      active ← parseBoolBit p7;
      Some ((build id version active) <| cb_SessionID := sessionID |> <| cb_SessionVersion := sessionVersion |>)
  | _ => None
  end.

Definition on_delivery (action : CallbackAction) (id version : Z) : Callback :=
  (callback action) <| cb_DeliveryID := id |> <| cb_RecordVersion := version |>.
Definition on_session (action : CallbackAction) (id version : Z) : Callback :=
  (callback action) <| cb_SessionID := id |> <| cb_SessionVersion := version |>.
Definition on_bank (action : CallbackAction) (id version : Z) : Callback :=
  (callback action) <| cb_BankAccountID := id |> <| cb_RecordVersion := version |>.
Definition on_item (action : CallbackAction) (id version : Z) : Callback :=
  (callback action) <| cb_InventoryID := id |> <| cb_RecordVersion := version |>.
Definition on_category (action : CallbackAction) (id version : Z) : Callback :=
  (callback action) <| cb_CategoryID := id |> <| cb_RecordVersion := version |>.
Definition on_product (action : CallbackAction) (id version : Z) : Callback :=
  (callback action) <| cb_ProductID := id |> <| cb_RecordVersion := version |>.
Definition flagged (on : Z -> Z -> Callback) (id version : Z) (active : bool) : Callback :=
  (on id version) <| cb_Active := active |>.

Definition parseAdminCallback (parts : list string) : option Callback :=
  if Nat.ltb (length parts) 3 then None else
  let sub := nth 2 parts ""%string in
  if str_eqb sub "dl" then parse_page parts CallbackAdminDeliveries
  else if str_eqb sub "dd" then
    parse_id parts (fun id => (callback CallbackAdminDeliveryDetail) <| cb_DeliveryID := id |>)
  else if str_eqb sub "dr" || str_eqb sub "dm" then
    parse_versioned parts (on_delivery (if str_eqb sub "dm" then CallbackAdminDeliveryComplete else CallbackAdminDeliveryRetry))
  else if str_eqb sub "dc" then parse_versioned parts (on_session CallbackAdminDeliveryConfirm)
  else if str_eqb sub "dx" then exact parts 3 (callback CallbackAdminDeliveryReconcile)
  else if str_eqb sub "pm" then exact parts 3 (callback CallbackAdminPaymentManual)
  else if str_eqb sub "pr" then parse_page parts CallbackAdminPaymentReviews
  else if str_eqb sub "rr" then
    parse_id parts (fun id => (callback CallbackAdminPaymentResolve) <| cb_ReviewID := id |>)
  else if str_eqb sub "wa" then exact parts 3 (callback CallbackAdminWalletAdjustment)
  else if str_eqb sub "b" then parse_page parts CallbackAdminBanks
  else if str_eqb sub "bn" then exact parts 3 (callback CallbackAdminBankNew)
  else if str_eqb sub "be" then parse_versioned parts (on_bank CallbackAdminBankEdit)
  else if str_eqb sub "ba" then parse_flagged parts (flagged (on_bank CallbackAdminBankAskToggle))
  else if str_eqb sub "bt" then parse_confirmed parts (flagged (on_bank CallbackAdminBankToggle))
  else if str_eqb sub "c" || str_eqb sub "p" then
    parse_page parts (if str_eqb sub "p" then CallbackAdminProducts else CallbackAdminCategories)
  else if str_eqb sub "i" then parse_page parts CallbackAdminInventory
  else if str_eqb sub "il" then
    match parts with
    | [_; _; _; p3; p4] =>
        productID ← positive p3; page ← nonNegative p4;
        Some ((callback CallbackAdminInventoryList) <| cb_ProductID := productID |> <| cb_Page := page |>)
    | _ => None
    end
  else if str_eqb sub "ii" then
    parse_id parts (fun id => (callback CallbackAdminInventoryImport) <| cb_ProductID := id |>)
  else if str_eqb sub "is" then parse_flagged parts (flagged (on_item CallbackAdminInventoryAskToggle))
  else if str_eqb sub "it" then parse_confirmed parts (flagged (on_item CallbackAdminInventoryToggle))
  else if str_eqb sub "cn" then exact parts 3 (callback CallbackAdminCategoryNew)
  else if str_eqb sub "pn" then exact parts 3 (callback CallbackAdminProductNew)
  else if str_eqb sub "ce" || str_eqb sub "pe" then
    parse_versioned parts (if str_eqb sub "ce" then on_category CallbackAdminCategoryEdit else on_product CallbackAdminProductEdit)
  else if str_eqb sub "ca" || str_eqb sub "pa" then
    parse_flagged parts (flagged (if str_eqb sub "ca" then on_category CallbackAdminCategoryAskToggle
                                  else on_product CallbackAdminProductAskToggle))
  else if str_eqb sub "ct" || str_eqb sub "pt" then
    parse_confirmed parts (flagged (if str_eqb sub "ct" then on_category CallbackAdminCategoryToggle
                                    else on_product CallbackAdminProductToggle))
  else if str_eqb sub "x" then parse_versioned parts (on_session CallbackAdminCancel)
  else None.

(** The buttons of the catalog and the menus *)
Definition parse_menu (parts : list string) (section : string) : option Callback :=
  if str_eqb section "m" then exact parts 2 (callback CallbackMenu)
  else if str_eqb section "s" then exact parts 2 (callback CallbackSupport)
  else if str_eqb section "c" then
    page ← parseNonNegative parts 2 3; Some ((callback CallbackCategories) <| cb_Page := page |>)
  else if str_eqb section "p" then
    match parts with
    | [_; _; p2; p3] =>
        categoryID ← positive p2; page ← nonNegative p3;
        Some ((callback CallbackProducts) <| cb_CategoryID := categoryID |> <| cb_Page := page |>)
    | _ => None
    end
  else if str_eqb section "d" then
    match parts with
    | [_; _; p2; p3; p4] =>
        productID ← positive p2; categoryID ← positive p3; page ← nonNegative p4;
        Some ((callback CallbackProductDetail) <| cb_ProductID := productID |> <| cb_CategoryID := categoryID |>
                <| cb_Page := page |>)
    | _ => None
    end
  else if str_eqb section "o" then parseOrderCallback parts
  else if str_eqb section "w" then parseWalletCallback parts
  else if str_eqb section "a" then parseAdminCallback parts
  else None.

Definition ParseCallback (data : string) : option Callback :=
  if str_eqb data "" || (MaxCallbackDataBytes <? str_len data) || negb (utf8_valid (codes data)) then None
  else
    let parts := Split ":"%char data in
    match parts with
    | version :: section :: _ => if str_eqb version "v1" then parse_menu parts section else None
    | _ => None
    end.
