(* ===== verification/Callbacks.v ===== *)
(** * The button grammar

    A declarative grammar of the callback data (for each action its tags and its
    arguments), with a printer.  The hand-written parser of [Parser] reads back
    exactly what the grammar prints, and returns nothing else. *)

From Stdlib Require Import Ascii.
From S2P Require Import Prelude Text Domain Schema Parser.

(** ** The grammar *)

Inductive Argument :=
  | APage | ACategory | AProduct | ABank | AOrder | AFlow | AQuantity | AItem | AVersion | ASession
  | ASessionVersion | AActive | AAmount | AReview | ADelivery | AProviderAccount.

Definition bit (b : bool) : Z := if b then 1 else 0.

Definition get (a : Argument) (c : Callback) : Z :=
  match a with
  | APage => cb_Page c | ACategory => cb_CategoryID c | AProduct => cb_ProductID c | ABank => cb_BankAccountID c
  | AOrder => cb_OrderID c | AFlow => cb_FlowID c | AQuantity => cb_Quantity c | AItem => cb_InventoryID c
  | AVersion => cb_RecordVersion c | ASession => cb_SessionID c | ASessionVersion => cb_SessionVersion c
  | AActive => bit (cb_Active c) | AAmount => cb_AmountVND c | AReview => cb_ReviewID c
  | ADelivery => cb_DeliveryID c | AProviderAccount => cb_ProviderAccountID c
  end.

Definition put (a : Argument) (v : Z) (c : Callback) : Callback :=
  match a with
  | APage => c <| cb_Page := v |> | ACategory => c <| cb_CategoryID := v |> | AProduct => c <| cb_ProductID := v |>
  | ABank => c <| cb_BankAccountID := v |> | AOrder => c <| cb_OrderID := v |> | AFlow => c <| cb_FlowID := v |>
  | AQuantity => c <| cb_Quantity := v |> | AItem => c <| cb_InventoryID := v |>
  | AVersion => c <| cb_RecordVersion := v |> | ASession => c <| cb_SessionID := v |>
  | ASessionVersion => c <| cb_SessionVersion := v |> | AActive => c <| cb_Active := (v =? 1) |>
  | AAmount => c <| cb_AmountVND := v |> | AReview => c <| cb_ReviewID := v |>
  | ADelivery => c <| cb_DeliveryID := v |> | AProviderAccount => c <| cb_ProviderAccountID := v |>
  end.

(** The values an argument can have *)
Definition argument_ok (a : Argument) (v : Z) : bool :=
  match a with
  | APage => (0 <=? v) && (v <=? int32_max)
  | AQuantity => (0 <? v) && (v <=? int32_max)
  | AActive => (v =? 0) || (v =? 1)
  | _ => (0 <? v) && (v <=? int64_max)
  end.

Definition grammar (action : CallbackAction) : list string * list Argument :=
  let confirmed a := [ASession; ASessionVersion; a; AVersion; AActive] in
  match action with
  | CallbackMenu => (["m"], []) | CallbackSupport => (["s"], []) | CallbackCategories => (["c"], [APage])
  | CallbackProducts => (["p"], [ACategory; APage]) | CallbackProductDetail => (["d"], [AProduct; ACategory; APage])
  | CallbackOrderQuantity => (["o"; "q"], [AProduct; AQuantity])
  | CallbackOrderBank => (["o"; "b"], [AProduct; AQuantity; ABank])
  | CallbackOrderConfirm => (["o"; "c"], [AFlow; AProduct; AQuantity; ABank])
  | CallbackOrders => (["o"; "l"], [APage]) | CallbackOrderView => (["o"; "v"], [AOrder])
  | CallbackOrderAskCancel => (["o"; "x"], [AOrder; AVersion]) | CallbackOrderCancel => (["o"; "k"], [AOrder; AVersion])
  | CallbackOrderWalletAsk => (["o"; "w"], [AOrder]) | CallbackOrderWalletPay => (["o"; "y"], [AFlow; AOrder])
  | CallbackWalletTopupAmount => (["w"; "a"], [AAmount])
  | CallbackWalletTopupBank => (["w"; "b"], [AFlow; AAmount; ABank]) | CallbackWalletBalance => (["w"; "v"], [])
  | CallbackAdminCategories => (["a"; "c"], [APage]) | CallbackAdminProducts => (["a"; "p"], [APage])
  | CallbackAdminCategoryNew => (["a"; "cn"], []) | CallbackAdminCategoryEdit => (["a"; "ce"], [ACategory; AVersion])
  | CallbackAdminCategoryAskToggle => (["a"; "ca"], [ACategory; AVersion; AActive])
  | CallbackAdminCategoryToggle => (["a"; "ct"], confirmed ACategory)
  | CallbackAdminProductNew => (["a"; "pn"], []) | CallbackAdminProductEdit => (["a"; "pe"], [AProduct; AVersion])
  | CallbackAdminProductAskToggle => (["a"; "pa"], [AProduct; AVersion; AActive])
  | CallbackAdminProductToggle => (["a"; "pt"], confirmed AProduct)
  | CallbackAdminInventory => (["a"; "i"], [APage]) | CallbackAdminInventoryList => (["a"; "il"], [AProduct; APage])
  | CallbackAdminInventoryImport => (["a"; "ii"], [AProduct])
  | CallbackAdminInventoryAskToggle => (["a"; "is"], [AItem; AVersion; AActive])
  | CallbackAdminInventoryToggle => (["a"; "it"], confirmed AItem)
  | CallbackAdminBanks => (["a"; "b"], [APage]) | CallbackAdminBankNew => (["a"; "bn"], [])
  | CallbackAdminBankEdit => (["a"; "be"], [ABank; AVersion])
  | CallbackAdminBankAskToggle => (["a"; "ba"], [ABank; AVersion; AActive])
  | CallbackAdminBankToggle => (["a"; "bt"], confirmed ABank)
  | CallbackAdminPaymentReviews => (["a"; "pr"], [APage]) | CallbackAdminPaymentManual => (["a"; "pm"], [])
  | CallbackAdminPaymentResolve => (["a"; "rr"], [AReview]) | CallbackAdminWalletAdjustment => (["a"; "wa"], [])
  | CallbackAdminDeliveries => (["a"; "dl"], [APage]) | CallbackAdminDeliveryDetail => (["a"; "dd"], [ADelivery])
  | CallbackAdminDeliveryRetry => (["a"; "dr"], [ADelivery; AVersion])
  | CallbackAdminDeliveryComplete => (["a"; "dm"], [ADelivery; AVersion])
  | CallbackAdminDeliveryConfirm => (["a"; "dc"], [ASession; ASessionVersion])
  | CallbackAdminDeliveryReconcile => (["a"; "dx"], [])
  | CallbackAdminProviderHealth => (["o"; "qh"], []) | CallbackAdminProviderAccounts => (["o"; "ql"], [APage])
  | CallbackAdminProviderAccountNew => (["o"; "qn"], [])
  | CallbackAdminProviderAccountAskToggle => (["o"; "qa"], [AProviderAccount; AVersion; AActive])
  | CallbackAdminProviderAccountToggle => (["o"; "qt"], confirmed AProviderAccount)
  | CallbackAdminCancel => (["a"; "x"], [ASession; ASessionVersion])
  end.

(** A callback is well-formed when the arguments of its action are in range and it
    has no others. *)
Definition callback_ok (c : Callback) : Prop :=
  Forall (fun a => argument_ok a (get a c) = true) (grammar (cb_Action c)).2 /\
  c = foldr (fun a r => put a (get a c) r) (callback (cb_Action c)) (grammar (cb_Action c)).2.

Definition print_parts (c : Callback) : list string :=
  "v1"%string :: (grammar (cb_Action c)).1 ++ map (fun a => Z_dec (get a c)) (grammar (cb_Action c)).2.
Definition print (c : Callback) : string := Join ":" (print_parts c).

(** ** Arguments *)

Lemma positive_ok v : (0 <? v) && (v <=? int64_max) = true -> positive (Z_dec v) = Some v.
Proof.
  unfold int64_max. intros Hv. unfold positive. rewrite ParseInt_dec by (simpl; lia).
  by rewrite (proj2 (Z.leb_gt v 0)) by lia.
Qed.
Lemma nonNegative_ok v : (0 <=? v) && (v <=? int32_max) = true -> nonNegative (Z_dec v) = Some v.
Proof.
  unfold int32_max. intros Hv. unfold nonNegative. rewrite ParseInt_dec by (simpl; lia).
  by rewrite (proj2 (Z.ltb_ge v 0)) by lia.
Qed.
Lemma positiveInt32_ok v : (0 <? v) && (v <=? int32_max) = true -> positiveInt32 (Z_dec v) = Some v.
Proof.
  unfold int32_max. intros Hv. unfold positiveInt32. rewrite ParseInt_dec by (simpl; lia).
  by rewrite (proj2 (Z.leb_gt v 0)) by lia.
Qed.
Lemma parseBoolBit_ok b : parseBoolBit (Z_dec (bit b)) = Some b.
Proof. by destruct b. Qed.

Lemma positive_range raw v : positive raw = Some v -> (0 <? v) && (v <=? int64_max) = true.
Proof.
  unfold positive. destruct (ParseInt 64 raw) as [z|] eqn:E; [|done]. apply ParseInt_range in E.
  case_match; [done|]. intros [= <-]. unfold int64_max. simpl in E. lia.
Qed.
Lemma nonNegative_range raw v : nonNegative raw = Some v -> (0 <=? v) && (v <=? int32_max) = true.
Proof.
  unfold nonNegative. destruct (ParseInt 32 raw) as [z|] eqn:E; [|done]. apply ParseInt_range in E.
  case_match; [done|]. intros [= <-]. unfold int32_max. simpl in E. lia.
Qed.
Lemma positiveInt32_range raw v : positiveInt32 raw = Some v -> (0 <? v) && (v <=? int32_max) = true.
Proof.
  unfold positiveInt32. destruct (ParseInt 32 raw) as [z|] eqn:E; [|done]. apply ParseInt_range in E.
  case_match; [done|]. intros [= <-]. unfold int32_max. simpl in E. lia.
Qed.

(** ** Printing *)

Definition colon (a : ascii) : bool := Ascii.eqb a ":".

Lemma dec_free_colon z : free_of colon (Z_dec z) = true.
Proof. apply free_dec; [|done]. intros a. unfold colon. by destruct (Ascii.eqb_spec a ":"%char) as [->|]. Qed.

Lemma tags_free c : Forall (fun s => free_of colon s = true) (grammar (cb_Action c)).1.
Proof. destruct (cb_Action c); repeat constructor. Qed.

Lemma Split_print c : Split ":"%char (print c) = print_parts c.
Proof.
  apply Split_Join; [done|]. constructor; [done|]. apply Forall_app. split; [apply tags_free|].
  apply Forall_map, Forall_forall. intros a _. apply dec_free_colon.
Qed.

(** Printed data is ASCII. *)
Definition beyond_ascii (a : ascii) : bool := 128 <=? ascii_Z a.

Lemma utf8_ascii s : free_of beyond_ascii s = true -> utf8_valid (codes s) = true.
Proof.
  induction s as [|a s IH]; [done|]. rewrite free_of_cons, andb_true_iff. intros [Ha Hs].
  change (codes (String a s)) with (ascii_Z a :: codes s). cbn [utf8_valid].
  unfold beyond_ascii in Ha. rewrite (proj2 (Z.ltb_lt (ascii_Z a) 128)) by lia. auto.
Qed.

Lemma Join_free p sep parts : free_of p sep = true -> Forall (fun s => free_of p s = true) parts ->
  free_of p (Join sep parts) = true.
Proof.
  intros Hsep. induction 1 as [|s parts Hs Hall IH]; [done|]. destruct parts as [|t parts]; [done|].
  change (Join sep (s :: t :: parts)) with (s ++ sep ++ Join sep (t :: parts))%string. by rewrite !free_of_app, Hs, Hsep, IH.
Qed.

Lemma print_ascii c : utf8_valid (codes (print c)) = true.
Proof.
  apply utf8_ascii, Join_free; [done|]. constructor; [done|]. apply Forall_app. split.
  - destruct (cb_Action c); repeat constructor.
  - apply Forall_map, Forall_forall. intros a _. apply free_dec; [|done].
    intros b. unfold beyond_ascii, digit_of. intros Hb. case_match; [lia|done].
Qed.

Lemma print_nonempty c : str_eqb (print c) "" = false.
Proof. unfold print, print_parts. by destruct (cb_Action c). Qed.

(** ** The parser implements the grammar *)

(** Runs the parser on printed parts: the tags compute, the arguments are read back. *)
Ltac parse_printed :=
  cbn [grammar fst snd cb_Action] in *;
  repeat match goal with
  | H : Forall _ (_ :: _) |- _ => apply Forall_cons in H as [? H]
  | H : Forall _ [] |- _ => clear H
  end;
  cbn [argument_ok get] in *;
  cbv -[Z_dec positive nonNegative positiveInt32 parseBoolBit bit Z.leb Z.ltb Z.eqb andb orb];
  repeat (first [rewrite positive_ok by assumption | rewrite nonNegative_ok by assumption
               | rewrite positiveInt32_ok by assumption | rewrite parseBoolBit_ok];
          cbv -[Z_dec positive nonNegative positiveInt32 parseBoolBit bit Z.leb Z.ltb Z.eqb andb orb]).

Lemma parse_print c :
  callback_ok c -> str_len (print c) <= MaxCallbackDataBytes -> ParseCallback (print c) = Some c.
Proof.
  intros [Hargs Heq] Hlen. unfold ParseCallback.
  rewrite print_nonempty, print_ascii, (proj2 (Z.ltb_ge _ _)), Split_print by done.
  etransitivity; [|exact (f_equal Some (eq_sym Heq))]. clear Heq Hlen. unfold print_parts.
  destruct c as [action ? ? ? ? ? ? ? ? ? ? ? active ? ? ? ?]. destruct action; parse_printed; first [reflexivity | by destruct active].
Qed.

(** C32: the parser reads back every button that the grammar prints, as long as it fits
    Telegram's 64 bytes. *)
Theorem buttons_round_trip c :
  callback_ok c -> str_len (print c) <= MaxCallbackDataBytes -> ParseCallback (print c) = Some c.
Proof. apply parse_print. Qed.

(** The ways a parse can have succeeded *)
Ltac parsed H :=
  repeat match type of H with
  | None = Some _ => discriminate H
  | (if ?b then _ else _) = Some _ => destruct b
  | (match ?l with [] => _ | _ :: _ => _ end) = Some _ => destruct l
  | (_ ≫= _) = Some _ =>
      let x := fresh "v" in let Hx := fresh "Hv" in
      apply bind_Some in H as (x & Hx & H)
  end.

Ltac callback_formed :=
  repeat match goal with
  | H : positive _ = Some _ |- _ => apply positive_range in H
  | H : nonNegative _ = Some _ |- _ => apply nonNegative_range in H
  | H : positiveInt32 _ = Some _ |- _ => apply positiveInt32_range in H
  end;
  repeat match goal with |- context [if ?b then _ else _] => destruct b end;
  (split; [cbn [grammar fst snd cb_Action]; repeat (apply Forall_cons; split); try apply Forall_nil | ]);
  first [exact I | assumption | reflexivity | match goal with b : bool |- _ => destruct b; reflexivity end].

Lemma exact_inv parts n c r : exact parts n c = Some r -> r = c.
Proof. unfold exact. case_match; [|done]. by intros [= <-]. Qed.

Lemma page_inv parts i n v : parseNonNegative parts i n = Some v -> (0 <=? v) && (v <=? int32_max) = true.
Proof. unfold parseNonNegative. case_match; [|done]. apply nonNegative_range. Qed.

Lemma parse_page_ok parts action c :
  grammar action = ((grammar action).1, [APage]) -> parse_page parts action = Some c -> callback_ok c.
Proof.
  intros Hg H. unfold parse_page in H. apply bind_Some in H as (v & Hv%page_inv & [= <-]).
  unfold callback_ok. simpl cb_Action. rewrite Hg. split; [by constructor | done].
Qed.

Ltac parse_ok H :=
  parsed H;
  first [ apply exact_inv in H as ->; by split; [constructor|]
        | eapply parse_page_ok; [|exact H]; repeat case_match; reflexivity
        | injection H as <-; callback_formed
        | idtac ].

Lemma parseOrderCallback_ok parts c : parseOrderCallback parts = Some c -> callback_ok c.
Proof. unfold parseOrderCallback. intros H. parse_ok H. Qed.

Lemma parseWalletCallback_ok parts c : parseWalletCallback parts = Some c -> callback_ok c.
Proof. unfold parseWalletCallback. intros H. parse_ok H. Qed.

Lemma parseAdminCallback_ok parts c : parseAdminCallback parts = Some c -> callback_ok c.
Proof.
  unfold parseAdminCallback, parse_id, parse_versioned, parse_flagged, parse_confirmed, flagged,
    on_delivery, on_session, on_bank, on_item, on_category, on_product.
  intros H. parse_ok H.
Qed.

Lemma parse_menu_ok parts section c : parse_menu parts section = Some c -> callback_ok c.
Proof.
  unfold parse_menu. intros H. parsed H;
    first [by apply parseOrderCallback_ok in H | by apply parseWalletCallback_ok in H | by apply parseAdminCallback_ok in H
          | apply exact_inv in H as ->; by split; [constructor|] | idtac].
  all: try (apply page_inv in Hv); injection H as <-; callback_formed.
Qed.

(** ** Length *)

Lemma Join_len parts : str_len (Join ":" parts) <= foldr (fun p n => str_len p + 1 + n) 0 parts.
Proof.
  induction parts as [|p parts IH]; [done|]. destruct parts as [|q parts]; [simpl; lia|].
  change (Join ":" (p :: q :: parts)) with (p ++ ":" ++ Join ":" (q :: parts))%string.
  rewrite !str_len_app. change (str_len ":") with 1. cbn [foldr] in *. lia.
Qed.

(** The arguments are below a bound of twelve digits. *)
Definition small_ids (c : Callback) : Prop := Forall (fun a => get a c < 10 ^ 12) (grammar (cb_Action c)).2.

Lemma argument_len a c : argument_ok a (get a c) = true -> get a c < 10 ^ 12 -> 
  str_len (Z_dec (get a c)) <= match a with AActive => 1 | APage | AQuantity => 10 | _ => 12 end.
Proof.
  intros Hok Hlt. unfold argument_ok, int32_max in Hok. set (v := get a c) in *.
  assert (H12 : 0 <= v -> str_len (Z_dec v) <= 12) by (intros ?; apply (len_dec 12); lia).
  assert (H10 : 0 <= v < 10 ^ 10 -> str_len (Z_dec v) <= 10) by (intros ?; apply (len_dec 10); lia).
  assert (H1 : 0 <= v < 10 -> str_len (Z_dec v) <= 1) by (intros ?; apply (len_dec 1); lia).
  destruct a; first [apply H12; lia | apply H10; lia | apply H1; lia].
Qed.

(** C33: whatever the parser accepts is well-formed: every argument of its action is in
    its range (ids and versions positive, pages and quantities within an int32) and
    nothing else is set; so it is printed and read back as the same callback. *)
Theorem parsed_callbacks_are_well_formed data c :
  ParseCallback data = Some c ->
  callback_ok c /\ str_len data <= MaxCallbackDataBytes /\
  (str_len (print c) <= MaxCallbackDataBytes -> ParseCallback (print c) = Some c).
Proof.
  intros H. assert (Hok : callback_ok c /\ str_len data <= MaxCallbackDataBytes).
  { unfold ParseCallback in H. destruct (str_eqb data ""); [done|]. simpl in H.
    destruct (Z.ltb_spec MaxCallbackDataBytes (str_len data)); [done|]. split; [|done]. simpl in H.
    destruct (negb _); [done|]. destruct (Split _ data) as [|version [|section parts]]; [done..|].
    destruct (str_eqb version "v1"); [|done]. by apply parse_menu_ok in H. }
  destruct Hok. split_and!; [done..|]. by apply parse_print.
Qed.

(** Buttons whose numbers have at most twelve digits fit in Telegram's limit of 64
    bytes, so that they are read back.  (Not so in general: [huge_ids_do_not_fit].) *)
Theorem buttons_fit_while_ids_are_small c :
  callback_ok c -> small_ids c ->
  str_len (print c) <= MaxCallbackDataBytes /\ ParseCallback (print c) = Some c.
Proof.
  intros Hok Hsmall. assert (Hlen : str_len (print c) <= MaxCallbackDataBytes).
  { destruct Hok as [Hargs _]. unfold small_ids in Hsmall. etransitivity; [apply Join_len|].
    unfold print_parts, MaxCallbackDataBytes.
    assert (Hb : Forall (fun a => str_len (Z_dec (get a c)) <= match a with AActive => 1 | APage | AQuantity => 10 | _ => 12 end)
              (grammar (cb_Action c)).2).
    { apply Forall_forall. intros a Ha. rewrite Forall_forall in Hargs. rewrite Forall_forall in Hsmall.
      apply argument_len; [by apply Hargs | by apply Hsmall]. }
    clear Hargs Hsmall. destruct c as [action ? ? ? ? ? ? ? ? ? ? ? ? ? ? ? ?].
    destruct action; cbn [grammar fst snd cb_Action] in Hb |- *; rewrite ?Forall_cons in Hb; cbn [map app foldr];
      repeat match goal with |- context [str_len ?s] => lazymatch s with String _ _ => let n := eval vm_compute in (str_len s) in change (str_len s) with n end end; lia. }
  split; [done|]. by apply parse_print.
Qed.

(** ** At concrete buttons *)

Definition confirm_stock_toggle : Callback :=
  (callback CallbackAdminInventoryToggle) <| cb_SessionID := 41 |> <| cb_SessionVersion := 2 |>
    <| cb_InventoryID := 917 |> <| cb_RecordVersion := 3 |> <| cb_Active := true |>.

Lemma confirm_stock_toggle_ok : callback_ok confirm_stock_toggle.
Proof. split; [repeat constructor | reflexivity]. Qed.

Lemma buttons_round_trip_witness : ParseCallback "v1:a:it:41:2:917:3:1" = Some confirm_stock_toggle.
Proof. exact (buttons_round_trip confirm_stock_toggle confirm_stock_toggle_ok ltac:(vm_compute; discriminate)). Defined.

Lemma parsed_callbacks_are_well_formed_witness : exists c, ParseCallback "v1:o:q:+7:02" = Some c /\ callback_ok c.
Proof.
  assert (exists c, ParseCallback "v1:o:q:+7:02" = Some c) as (c & H) by (eexists; vm_compute; reflexivity).
  exists c. split; [exact H|]. exact (proj1 (parsed_callbacks_are_well_formed "v1:o:q:+7:02" c H)).
Defined.

(** Four numbers of nineteen digits do not fit: Telegram refuses such a keyboard. *)
Example huge_ids_do_not_fit :
  let n := 10 ^ 18 in
  str_len (print ((callback CallbackAdminInventoryToggle) <| cb_SessionID := n |> <| cb_SessionVersion := n |>
    <| cb_InventoryID := n |> <| cb_RecordVersion := n |>)) = 89.
Proof. vm_compute. reflexivity. Qed.
