(* ===== verification/View.v ===== *)
(** * What the bot shows

    [src/internal/telegram/view.go]: every screen as its HTML text and its keyboard.
    Rendering a time in a layout ([Local().Format], [UTC().Format]) is a parameter;
    everything else is text. *)

From Stdlib Require Import Ascii.
From S2P Require Import Prelude Text Domain Schema Models AdminModels.

Record Button := mkButton { bt_text : string; bt_data : string; bt_url : string }.
Abbreviation Keyboard := (list (list Button)).

Definition press (text data : string) : Button := mkButton text data "".
Definition open_url (text url : string) : Button := mkButton text "" url.

#[local] Open Scope string_scope.
#[local] Open Scope Z_scope.

Definition Escape (value : string) : string := EscapeString value.

(** [formatVND]: a dot before every group of three digits, counted from the right *)
Fixpoint format_loop (fuel : nat) (index : Z) (raw : string) : string :=
  match fuel with
  | O => raw
  | S fuel' =>
      if 0 <? index
      then format_loop fuel' (index - 3)
             (String.substring 0 (Z.to_nat index) raw ++ "." ++ String.substring (Z.to_nat index) (String.length raw) raw)
      else raw
  end.
Definition formatVND (value : Z) : string :=
  let raw := Z_dec value in format_loop (String.length raw) (str_len raw - 3) raw.

Definition navigationRows (format : Z -> string) (page : PageInfo) : Keyboard :=
  let row := ((if 0 <? pg_page page then [press "⬅️" (format (pg_page page - 1))] else [])
             ++ (if (0 <? pg_total_pages page) && (pg_page page + 1 <? pg_total_pages page)
                 then [press "➡️" (format (pg_page page + 1))] else []))%list in
  match row with [] => [] | _ => [row] end.

(** ** Customers *)

Definition MainMenuText (name : string) : string :=
  let name := if str_eqb (TrimSpace name) "" then "bạn" else name in
  cat ["Xin chào <b>"; Escape name; "</b>!"; nl; "Chọn một mục bên dưới:"].

Definition MainMenuKeyboard : Keyboard :=
  [[press "📦 Sản phẩm" "v1:c:0"]; [press "🧾 Đơn hàng" "v1:o:l:0"]; [press "💰 Số dư" "v1:w:v"]; [press "🆘 Hỗ trợ" "v1:s"]].

Definition CategoriesView (page : CategoryPage) : string * Keyboard :=
  ("<b>Danh mục sản phẩm</b>",
   map (fun c => [press (cat [cg_emoji c; " "; cg_name c]) (cat ["v1:p:"; Z_dec (cg_id c); ":0"])]) (cgp_items page)
   ++ navigationRows (fun p => cat ["v1:c:"; Z_dec p]) (cgp_page page) ++ [[press "⬅️ Menu" "v1:m"]])%list.

Definition ProductsView (categoryID : Z) (page : ProductPage) : string * Keyboard :=
  ("<b>Sản phẩm</b>",
   map (fun p => [press (cat [pd_name p; " — "; formatVND (pd_price p); " ₫"])
                   (cat ["v1:d:"; Z_dec (pd_id p); ":"; Z_dec categoryID; ":"; Z_dec (pg_page (pdp_page page))])]) (pdp_items page)
   ++ navigationRows (fun p => cat ["v1:p:"; Z_dec categoryID; ":"; Z_dec p]) (pdp_page page)
   ++ [[press "⬅️ Danh mục" "v1:c:0"]])%list.

Definition ProductView (product : Product) (categoryID page : Z) : string * Keyboard :=
  let description := Escape (pd_description product) in
  let description := if str_eqb description "" then "Chưa có mô tả." else description in
  let buy n := press (cat ["Mua "; n]) (cat ["v1:o:q:"; Z_dec (pd_id product); ":"; n]) in
  (cat ["<b>"; Escape (pd_name product); "</b>"; nl; description; nl; nl; "Giá: <b>"; formatVND (pd_price product); " ₫</b>"],
   [[buy "1"; buy "2"; buy "5"];
    [press "⬅️ Sản phẩm" (cat ["v1:p:"; Z_dec categoryID; ":"; Z_dec page])]]).

Definition BankSelectionView (productID quantity : Z) (banks : list BankAccountOption) : string * Keyboard :=
  (cat ["<b>Chọn tài khoản nhận</b>"; nl; "Số lượng: "; Z_dec quantity],
   map (fun b => [press (cat [bo_display_name b; " · ••••"; bo_last4 b])
                   (cat ["v1:o:b:"; Z_dec productID; ":"; Z_dec quantity; ":"; Z_dec (bo_id b)])]) banks
   ++ [[press "⬅️ Sản phẩm" "v1:c:0"]])%list.

Definition OrderConfirmView (flowID productID quantity : Z) (bank : BankAccountOption) : string * Keyboard :=
  (cat ["<b>Xác nhận tạo đơn</b>"; nl; "Sản phẩm #"; Z_dec productID; " · số lượng "; Z_dec quantity; nl; "Ngân hàng: ";
        Escape (bo_display_name bank); " · ••••"; Escape (bo_last4 bank); nl; nl;
        "Giá và trạng thái sẽ được kiểm tra lại trong giao dịch tạo đơn."],
   [[press "Xác nhận" (cat ["v1:o:c:"; Z_dec flowID; ":"; Z_dec productID; ":"; Z_dec quantity; ":"; Z_dec (bo_id bank)])]]).

Definition deliveryStatusLabel (status : OrderStatus) (deliveryStatus : string) : string :=
  if str_in deliveryStatus ["ambiguous"; "manual_review"] then "giao hàng đang được kiểm tra"
  else if str_eqb deliveryStatus "permanent_failed" then "giao hàng thất bại"
  else if str_in deliveryStatus ["pending"; "processing"; "retryable_failed"] then "đang giao hàng"
  else if str_eqb deliveryStatus "completed" then "đã giao hàng"
  else
    match status with
    | OrderStatusReserving => "đang chuẩn bị giao hàng"
    | OrderStatusDelivering => "đang giao hàng"
    | OrderStatusDelivered => "đã giao hàng"
    | OrderStatusDeliveryFailed => "giao hàng thất bại"
    | OrderStatusPendingPayment => "đang chờ thanh toán"
    | _ => OrderStatus_string status
    end.

Section Times.
(** [t.Local().Format(layout)] and [t.UTC().Format(layout)] *)
Context (local_format utc_format : string -> Time -> string).

Definition PaymentInstructionView (order : OrderDetail) (i : PaymentInstruction) : string * Keyboard :=
  (cat ["<b>Hướng dẫn chuyển khoản · đơn #"; Z_dec (od_id order); "</b>"; nl; "Trạng thái: <b>đang chờ thanh toán</b>"; nl;
        "Ngân hàng: "; Escape (pin_bank_display_name i); nl; "Số tài khoản: <code>"; Escape (pin_account_number i); "</code>"; nl;
        "Tên tài khoản: <b>"; Escape (pin_account_name i); "</b>"; nl; "Số tiền: <b>"; formatVND (pin_amount i); " ₫</b>"; nl;
        "Nội dung: <code>"; Escape (pin_transfer_content i); "</code>"; nl; "Hết hạn: ";
        local_format "02/01/2006 15:04:05" (pin_expires_at i); nl; nl;
        "Chỉ chuyển đúng số tiền và nội dung. QR là hướng dẫn, không chứng minh giao dịch đã được thanh toán."],
   [[open_url "Mở VietQR" (pin_image_url i)]; [press "Xem đơn" (cat ["v1:o:v:"; Z_dec (od_id order)])];
    [press "Danh sách đơn" "v1:o:l:0"]]).

Definition OrdersView (page : OrderPage) : string * Keyboard :=
  let line o := cat ["#"; Z_dec (os_id o); " · "; Escape (deliveryStatusLabel (os_status o) (os_delivery_status o)); " · ";
    Z_dec (os_quantity o); "x "; Escape (os_product_name o); " · "; formatVND (os_total o); " ₫ · ";
    local_format "02/01 15:04" (os_created_at o)] in
  (lines_of ("<b>Đơn hàng của bạn</b>" :: map line (op_items page)
     ++ match op_items page with [] => ["Chưa có đơn hàng."] | _ => [] end)%list,
   map (fun o => [press (cat ["Đơn #"; Z_dec (os_id o)]) (cat ["v1:o:v:"; Z_dec (os_id o)])]) (op_items page)
   ++ navigationRows (fun p => cat ["v1:o:l:"; Z_dec p]) (op_page page) ++ [[press "⬅️ Menu" "v1:m"]])%list.

Definition OrderDetailView (order : OrderDetail) (image_url : string) : string * Keyboard :=
  (cat ["<b>Đơn #"; Z_dec (od_id order); "</b>"; nl; Escape (it_name (od_item order)); " · số lượng ";
        Z_dec (it_quantity (od_item order)); nl; "Đơn giá: "; formatVND (it_unit_price (od_item order)); " ₫"; nl;
        "Tổng: <b>"; formatVND (od_total order); " ₫</b>"; nl; "Trạng thái: <b>";
        Escape (deliveryStatusLabel (od_status order) (od_delivery_status order)); "</b>"; nl; "Mã chuyển khoản: <code>";
        Escape (od_payment_reference order); "</code>"; nl; "Hết hạn: "; local_format "02/01/2006 15:04:05" (od_expires_at order)],
   (if bool_decide (od_status order = OrderStatusPendingPayment) && negb (str_eqb image_url "")
    then [[open_url "Mở VietQR" image_url];
          [press "Thanh toán bằng ví" (cat ["v1:o:w:"; Z_dec (od_id order)])];
          [press "Hủy đơn" (cat ["v1:o:x:"; Z_dec (od_id order); ":"; Z_dec (od_version order)])]]
    else []) ++ [[press "⬅️ Danh sách" "v1:o:l:0"]])%list.

Definition WalletTopupInstructionView (topup : WalletTopup) (i : PaymentInstruction) : string * Keyboard :=
  (cat ["<b>Hướng dẫn nạp ví</b>"; nl; "Ngân hàng: "; Escape (pin_bank_display_name i); nl; "Số tài khoản: <code>";
        Escape (pin_account_number i); "</code>"; nl; "Tên tài khoản: <b>"; Escape (pin_account_name i); "</b>"; nl;
        "Số tiền: <b>"; formatVND (wt_amount topup); " ₫</b>"; nl; "Nội dung: <code>"; Escape (wt_payment_reference topup);
        "</code>"; nl; "Hết hạn: "; local_format "02/01/2006 15:04:05" (wt_expires_at topup); nl; nl;
        "QR chỉ là hướng dẫn. Ví chỉ được cộng sau khi payment được chấp nhận."],
   [[open_url "Mở VietQR" (pin_image_url i)]; [press "Xem số dư" "v1:w:v"]]).

(** ** Wallets *)

Definition WalletBalanceView (account : WalletAccount) : string * Keyboard :=
  (cat ["<b>Số dư ví</b>"; nl; formatVND (wa_balance account); " ₫"],
   [[press "Nạp 50.000 ₫" "v1:w:a:50000"; press "Nạp 100.000 ₫" "v1:w:a:100000"];
    [press "Nạp 500.000 ₫" "v1:w:a:500000"]; [press "⬅️ Menu" "v1:m"]]).

Definition WalletTopupBankView (flowID amount : Z) (banks : list BankAccountOption) : string * Keyboard :=
  (cat ["<b>Chọn tài khoản nhận</b>"; nl; "Số tiền nạp: "; formatVND amount; " ₫"],
   map (fun b => [press (cat [bo_display_name b; " · ••••"; bo_last4 b])
                   (cat ["v1:w:b:"; Z_dec flowID; ":"; Z_dec amount; ":"; Z_dec (bo_id b)])]) banks
   ++ [[press "⬅️ Ví" "v1:w:a:50000"]])%list.

Definition WalletOrderConfirmationView (order : OrderDetail) (balance : WalletAccount) (flowID : Z) : string * Keyboard :=
  (cat ["Xác nhận dùng ví thanh toán đơn #"; Z_dec (od_id order); "?"; nl; "Tổng: "; formatVND (od_total order); " ₫"; nl;
        "Số dư: "; formatVND (wa_balance balance); " ₫"],
   [[press "Xác nhận" (cat ["v1:o:y:"; Z_dec flowID; ":"; Z_dec (od_id order)])];
    [press "Quay lại" (cat ["v1:o:v:"; Z_dec (od_id order)])]]).

Definition OrderCancelConfirmationView (orderID version : Z) : string * Keyboard :=
  (cat ["Xác nhận hủy đơn #"; Z_dec orderID; "?"],
   [[press "Xác nhận hủy" (cat ["v1:o:k:"; Z_dec orderID; ":"; Z_dec version])];
    [press "Quay lại" (cat ["v1:o:v:"; Z_dec orderID])]]).

(** ** Administrators *)

Definition AdminMenu : string * Keyboard :=
  ("<b>Quản trị cửa hàng</b>",
   [[press "Danh mục" "v1:a:c:0"]; [press "Sản phẩm" "v1:a:p:0"]; [press "Kho mã hóa" "v1:a:i:0"];
    [press "Tài khoản ngân hàng" "v1:a:b:0"]; [press "Payment reviews" "v1:a:pr:0"]; [press "Payment providers" "v1:a:qh"];
    [press "Manual confirm" "v1:a:pm"]; [press "Điều chỉnh ví" "v1:a:wa"]; [press "Delivery queue" "v1:a:dl:0"];
    [press "Delivery reconciliation" "v1:a:dx"]]).

Definition PaymentProviderHealthView (items : list PaymentProviderHealth) : string * Keyboard :=
  let RFC3339 := "2006-01-02T15:04:05Z07:00" in
  let line i :=
    let d := pph_descriptor i in
    let capabilities := ((if ppd_webhook d then ["webhook"] else []) ++ (if ppd_reconciliation d then ["reconciliation"] else []))%list in
    cat [nl; "<b>"; Escape (ppd_name d); "</b> · "; Escape (ppd_environment d); " · "; Escape (Join "+" capabilities); nl;
         "Mappings: "; Z_dec (pph_active_mappings i); " · pending: "; Z_dec (pph_pending_events i); " · reviews: ";
         Z_dec (pph_open_reviews i);
         if time_is_zero (pph_last_webhook_at i) then "" else cat [nl; "Last webhook: "; utc_format RFC3339 (pph_last_webhook_at i)];
         if time_is_zero (pph_last_success i) then "" else cat [nl; "Last reconciliation: "; utc_format RFC3339 (pph_last_success i)];
         if str_eqb (pph_last_error_code i) "" then "" else cat [nl; "Last error: <code>"; Escape (pph_last_error_code i); "</code>"]] in
  (lines_of ("<b>Payment provider health</b>" :: map line items
     ++ match items with [] => ["Chưa có provider được bật."] | _ => [] end)%list,
   [[press "Account mappings" "v1:a:ql:0"]; [press "⬅️ Admin" "v1:m"]]).

Definition PaymentProviderAccountsView (page : PaymentProviderAccountPage) : string * Keyboard :=
  let active i := str_eqb (ppa_status i) "active" in
  let line i := cat [if active i then "🟢" else "⚪"; " #"; Z_dec (ppa_id i); " · "; Escape (ppa_provider i); "/";
    Escape (ppa_environment i); " · "; Escape (ppa_masked_identity i); " → "; Escape (ppa_bank_display_name i); " ••••";
    Escape (ppa_bank_last4 i); " · v"; Z_dec (ppa_version i)] in
  let row i := [press (cat ["Bật/tắt #"; Z_dec (ppa_id i)])
    (cat ["v1:a:qa:"; Z_dec (ppa_id i); ":"; Z_dec (ppa_version i); ":"; Z_dec (if active i then 0 else 1)])] in
  (lines_of ("<b>Provider account mappings</b>" :: map line (ppp_items page)
     ++ match ppp_items page with [] => ["Chưa có mapping."] | _ => [] end)%list,
   [press "➕ Link account" "v1:a:qn"] :: map row (ppp_items page)
   ++ navigationRows (fun p => cat ["v1:a:ql:"; Z_dec p]) (ppp_page page) ++ [[press "⬅️ Provider health" "v1:a:qh"]])%list.

Definition DeliveryReviewsView (page : DeliveryReviewPage) : string * Keyboard :=
  let line i := cat ["Job #"; Z_dec (dv_id i); " · đơn #"; Z_dec (dv_order_id i); " · "; Escape (dv_status i); " · ";
    Z_dec (dv_attempts i); "/"; Z_dec (dv_max_attempts i); " attempts · "; Z_dec (dv_quantity i); "x "; Escape (dv_product_name i)] in
  (lines_of ("<b>Delivery queue</b>" :: map line (dvp_items page)
     ++ match dvp_items page with [] => ["Không có delivery job cần hiển thị."] | _ => [] end)%list,
   map (fun i => [press (cat ["Delivery #"; Z_dec (dv_id i)]) (cat ["v1:a:dd:"; Z_dec (dv_id i)])]) (dvp_items page)
   ++ navigationRows (fun p => cat ["v1:a:dl:"; Z_dec p]) (dvp_page page) ++ [[press "⬅️ Admin" "v1:m"]])%list.

Definition DeliveryDetailView (detail : DeliveryReviewDetail) : string * Keyboard :=
  let item := dvd_item detail in
  let attempt a := cat ["#"; Z_dec (dav_number a); " · "; Escape (dav_status a);
    if str_eqb (dav_error_code a) "" then "" else cat [" · "; Escape (dav_error_code a)];
    if 0 <? dav_message_id a then cat [" · message "; Z_dec (dav_message_id a)] else ""] in
  (lines_of ([cat ["<b>Delivery #"; Z_dec (dv_id item); "</b>"];
      cat ["Đơn #"; Z_dec (dv_order_id item); " · chat <code>"; Z_dec (dv_chat_id item); "</code>"];
      cat [Z_dec (dv_quantity item); "x "; Escape (dv_product_name item)];
      cat ["Trạng thái: <b>"; Escape (dv_status item); "</b> · attempt "; Z_dec (dv_attempts item); "/";
           Z_dec (dv_max_attempts item); " · version "; Z_dec (dv_version item)]]
     ++ (if 0 <? dv_message_id item then [cat ["Telegram message ID: <code>"; Z_dec (dv_message_id item); "</code>"]] else [])
     ++ (if str_eqb (dv_error_code item) "" then []
         else [cat ["Lỗi: <code>"; Escape (dv_error_code item); "</code> · "; Escape (dv_error_detail item)]])
     ++ [""; "<b>Attempt history</b>"] ++ map attempt (dvd_history detail)
     ++ match dvd_history detail with [] => ["Chưa có attempt."] | _ => [] end)%list,
   (if str_in (dv_status item) ["retryable_failed"; "permanent_failed"; "ambiguous"; "manual_review"]
    then [[press "Verified not delivered → retry" (cat ["v1:a:dr:"; Z_dec (dv_id item); ":"; Z_dec (dv_version item)])]] else [])
   ++ (if str_in (dv_status item) ["ambiguous"; "manual_review"]
       then [[press "Verified delivered" (cat ["v1:a:dm:"; Z_dec (dv_id item); ":"; Z_dec (dv_version item)])]] else [])
   ++ [[press "⬅️ Delivery queue" "v1:a:dl:0"]])%list.

Definition DeliveryReconciliationView (r : DeliveryReconciliation) : string * Keyboard :=
  (cat ["<b>Delivery reconciliation</b>"; nl; "Clean: <b>"; if Clean r then "true" else "false"; "</b>"; nl;
        "Delivering without job: "; Z_dec (rd_delivering_without_job r); nl;
        "Active job / wrong order: "; Z_dec (rd_active_job_wrong_order_state r); nl;
        "Completed job / order not delivered: "; Z_dec (rd_completed_job_order_not_delivered r); nl;
        "Delivered inventory mismatch: "; Z_dec (rd_delivered_inventory_mismatch r); nl;
        "Sold without completed job: "; Z_dec (rd_sold_without_completed_job r); nl;
        "Delivered with reserved inventory: "; Z_dec (rd_delivered_order_reserved_inventory r); nl;
        "Multiple active jobs: "; Z_dec (rd_multiple_active_jobs r); nl;
        "Stale processing: "; Z_dec (rd_stale_processing r); nl;
        "Ambiguous without review: "; Z_dec (rd_ambiguous_without_review r); nl;
        "Success evidence not completed: "; Z_dec (rd_success_evidence_not_completed r)],
   [[press "⬅️ Admin" "v1:m"]]).

Definition PaymentReviewsView (page : PaymentReviewPage) : string * Keyboard :=
  let line i := cat ["#"; Z_dec (pv_id i); " · "; Escape (pv_reason i); " · "; Escape (pv_provider i); "/";
    Escape (pv_environment i); "/"; Escape (pv_source i); " · "; formatVND (pv_amount i); " ₫ · "; Escape (pv_currency i);
    " · ref <code>"; Escape (pv_reference i); "</code> · tx "; Escape (pv_masked_transaction i); " · account ";
    Escape (pv_masked_destination i); " · ";
    if 0 <? pv_mapping_id i then cat ["mapping #"; Z_dec (pv_mapping_id i)] else "unmapped"] in
  (lines_of ("<b>Payment review queue</b>" :: map line (pvp_items page)
     ++ match pvp_items page with [] => ["Không có case đang mở."] | _ => [] end)%list,
   map (fun i => [press (cat ["Resolve #"; Z_dec (pv_id i)]) (cat ["v1:a:rr:"; Z_dec (pv_id i)])]) (pvp_items page)
   ++ navigationRows (fun p => cat ["v1:a:pr:"; Z_dec p]) (pvp_page page))%list.

Definition AdminBankAccountsView (page : RedactedBankAccountPage) : string * Keyboard :=
  let line b := let o := rb_option b in
    cat [if rb_active b then "🟢" else "⚪"; " #"; Z_dec (bo_id o); " · "; Escape (bo_display_name o); " · ••••";
         Escape (bo_last4 o); " · v"; Z_dec (bo_version o)] in
  let row b := let o := rb_option b in
    [press (cat ["Sửa "; bo_display_name o]) (cat ["v1:a:be:"; Z_dec (bo_id o); ":"; Z_dec (bo_version o)]);
     press "Bật/tắt" (cat ["v1:a:ba:"; Z_dec (bo_id o); ":"; Z_dec (bo_version o); ":"; Z_dec (if rb_active b then 0 else 1)])] in
  (lines_of ("<b>Tài khoản ngân hàng</b>" :: map line (rbp_items page))%list,
   [press "➕ Tạo tài khoản" "v1:a:bn"] :: map row (rbp_items page)
   ++ navigationRows (fun p => cat ["v1:a:b:"; Z_dec p]) (rbp_page page))%list.

Definition AdminInventoryOverviewView (page : InventoryOverviewPage) : string * Keyboard :=
  let line i := cat [nl; "<b>"; Escape (io_product_name i); "</b> (#"; Z_dec (io_product_id i); ")"; nl; "Có sẵn: ";
    Z_dec (io_available i); " · Đã giữ: "; Z_dec (io_reserved i); " · Đã bán: "; Z_dec (io_sold i); " · Tắt: ";
    Z_dec (io_disabled i); " · Tổng: "; Z_dec (io_total i)] in
  (lines_of ("<b>Tổng quan kho mã hóa</b>" :: map line (iop_items page)
     ++ match iop_items page with [] => [cat [nl; "Chưa có sản phẩm inventory."]] | _ => [] end)%list,
   map (fun i => [press (cat [io_product_name i; " ("; Z_dec (io_available i); "/"; Z_dec (io_total i); ")"])
                   (cat ["v1:a:il:"; Z_dec (io_product_id i); ":0"])]) (iop_items page)
   ++ navigationRows (fun p => cat ["v1:a:i:"; Z_dec p]) (iop_page page))%list.

Definition AdminInventoryItemsView (productID : Z) (page : RedactedInventoryPage) : string * Keyboard :=
  let line i := cat ["#"; Z_dec (ri_id i); " · "; Escape (InventoryStatus_string (ri_status i)); " · key v";
    Z_dec (ri_key_version i); " · version "; Z_dec (ri_version i);
    if time_is_zero (ri_created_at i) then "" else cat [" · "; utc_format "2006-01-02" (ri_created_at i)];
    if 0 <? ri_reserved_order_id i then cat [" · order #"; Z_dec (ri_reserved_order_id i)] else "";
    if time_is_zero (ri_reserved_until i) then "" else cat [" đến "; utc_format "2006-01-02 15:04Z" (ri_reserved_until i)]] in
  let row i := match ri_status i with
    | InventoryStatusAvailable =>
        [[press (cat ["Tắt #"; Z_dec (ri_id i)]) (cat ["v1:a:is:"; Z_dec (ri_id i); ":"; Z_dec (ri_version i); ":0"])]]
    | InventoryStatusDisabled =>
        [[press (cat ["Bật #"; Z_dec (ri_id i)]) (cat ["v1:a:is:"; Z_dec (ri_id i); ":"; Z_dec (ri_version i); ":1"])]]
    | _ => []
    end in
  (lines_of (cat ["<b>Inventory đã redacted</b> · sản phẩm #"; Z_dec productID] :: map line (rip_items page)
     ++ match rip_items page with [] => ["Chưa có item."] | _ => [] end)%list,
   [press "➕ Import stock" (cat ["v1:a:ii:"; Z_dec productID])] :: flat_map row (rip_items page)
   ++ navigationRows (fun p => cat ["v1:a:il:"; Z_dec productID; ":"; Z_dec p]) (rip_page page)
   ++ [[press "⬅️ Tổng quan" "v1:a:i:0"]])%list.

Definition AdminCategoriesView (page : CategoryPage) : string * Keyboard :=
  let row c :=
    [press (cat [if cg_active c then "🟢" else "⚪"; " "; cg_name c]) (cat ["v1:a:ce:"; Z_dec (cg_id c); ":"; Z_dec (cg_version c)]);
     press "Bật/tắt" (cat ["v1:a:ca:"; Z_dec (cg_id c); ":"; Z_dec (cg_version c); ":"; Z_dec (if cg_active c then 0 else 1)])] in
  ("<b>Danh mục quản trị</b>",
   [press "➕ Tạo danh mục" "v1:a:cn"] :: map row (cgp_items page)
   ++ navigationRows (fun p => cat ["v1:a:c:"; Z_dec p]) (cgp_page page))%list.

Definition AdminProductsView (page : ProductPage) : string * Keyboard :=
  let row p :=
    [press (cat [if pd_active p then "🟢" else "⚪"; " "; pd_name p]) (cat ["v1:a:pe:"; Z_dec (pd_id p); ":"; Z_dec (pd_version p)]);
     press "Bật/tắt" (cat ["v1:a:pa:"; Z_dec (pd_id p); ":"; Z_dec (pd_version p); ":"; Z_dec (if pd_active p then 0 else 1)])] in
  ("<b>Sản phẩm quản trị</b>",
   [press "➕ Tạo sản phẩm" "v1:a:pn"] :: map row (pdp_items page)
   ++ navigationRows (fun p => cat ["v1:a:p:"; Z_dec p]) (pdp_page page))%list.
End Times.
