(* ===== verification/Workflows.v ===== *)
(** * The administrator's conversations

    The part of [src/internal/telegram/router.go] that answers the texts of an open
    administrator session: each text is checked against the step the session is at,
    and either moves the session to its next step or makes the change it was opened
    for.  What a session keeps between two texts is a [workflowPayload]; turning it
    into the JSON that is stored and back ([json.Marshal], [jsonb],
    [json.Unmarshal]), and [time.Parse] are parameters. *)

From Stdlib Require Import Ascii.
From S2P Require Import Prelude Text Domain Schema Tx Tables Models AdminModels QOrders QInventory QPayments.
From S2P Require Import QWallet.
From S2P Require Import QUsers QDelivery UpdateStore AdminStore CatalogStore InventoryStore DeliveryStore.
From S2P Require Import PaymentStore.
From S2P Require Import WalletStore OrderService OrderStore AdminService WalletService InventoryAdmin BankAccounts.
From S2P Require Import PaymentAdmin ProviderAdmin DeliveryAdmin Parser View.

Record workflowPayload := mkworkflowPayload { wf_Step : string; wf_CategoryID : Z; wf_ProductID : Z; wf_RecordVersion : Z;
    wf_InventoryItemID : Z; wf_Active : bool; wf_Name : string; wf_Description : string; wf_SortOrder : Z;
    wf_PriceVND : Z; wf_BankAccountID : Z; wf_ReviewID : Z; wf_BankBIN : string; wf_BankName : string;
    wf_DisplayName : string; wf_AccountName : string; wf_DeliveryID : Z; wf_ProviderAccountID : Z;
    wf_TelegramMessageID : Z; wf_Reason : string }.
#[export] Instance Eta_workflowPayload : Eta workflowPayload := fun r =>
    mkworkflowPayload (wf_Step r) (wf_CategoryID r) (wf_ProductID r) (wf_RecordVersion r) (wf_InventoryItemID r)
    (wf_Active r) (wf_Name r) (wf_Description r) (wf_SortOrder r) (wf_PriceVND r) (wf_BankAccountID r) (wf_ReviewID r)
    (wf_BankBIN r) (wf_BankName r) (wf_DisplayName r) (wf_AccountName r) (wf_DeliveryID r) (wf_ProviderAccountID r)
    (wf_TelegramMessageID r) (wf_Reason r).
(** [workflowPayload{Step: step}] *)
Definition workflow (step : string) : workflowPayload :=
  mkworkflowPayload step 0 0 0 0 false "" "" 0 0 0 0 "" "" "" "" 0 0 0 "".

(** The services the router was built with, and what their collaborators outside the
    database answer while one update is processed. *)
Record Router := mkRouter {
  ro_catalog : Z;
  ro_sessionTTL : Duration;
  ro_limits : InventoryImportLimits;
  ro_inventory : Z;
  ro_protectItem : nat -> Z -> Bytes -> Error + EncryptedInventoryPayload;
  ro_banks : BankAccountService.Config;
  ro_protectAccount : string -> string -> Error + ProtectedBankAccountNumber;
  ro_orders : OrderConfig;
  ro_wallet : WalletService.Config;
  ro_payments : PaymentAdminService.Config;
  ro_deliveries : DeliveryAdminService.Config;
  ro_updatedAt : OutboxRow -> Time;
  ro_providers : option (list PaymentProviderDescriptor * Z);
  ro_text_le : string -> string -> bool;
  ro_sum256 : Bytes -> Bytes;
  ro_staleAfter : Duration;
  ro_supportContact : string;
  ro_marshal : workflowPayload -> string;
  ro_unmarshal : string -> option workflowPayload;
  ro_parse_time : string -> option Time;
  ro_local_format : string -> Time -> string;
  ro_utc_format : string -> Time -> string }.

(** What to answer once the update is recorded as processed.  [pl_completed]: a store
    operation has already recorded that. *)
Record responsePlan := mkResponsePlan { pl_chatID : Z; pl_messageID : Z; pl_text : string; pl_keyboard : Keyboard;
    pl_callbackID : string; pl_callbackText : string; pl_callbackAlert : bool; pl_edit : bool; pl_completed : bool }.
#[export] Instance Eta_responsePlan : Eta responsePlan := fun r =>
    mkResponsePlan (pl_chatID r) (pl_messageID r) (pl_text r) (pl_keyboard r) (pl_callbackID r) (pl_callbackText r)
    (pl_callbackAlert r) (pl_edit r) (pl_completed r).
Definition no_plan : responsePlan := mkResponsePlan 0 0 "" [] "" "" false false false.
(** [responsePlan{chatID: chatID, text: text, keyboard: keyboard}] *)
Definition reply (chatID : Z) (view : string * Keyboard) : responsePlan :=
  no_plan <| pl_chatID := chatID |> <| pl_text := view.1 |> <| pl_keyboard := view.2 |>.
(** [plan.text, plan.keyboard = view] *)
Definition show (plan : responsePlan) (view : string * Keyboard) : responsePlan :=
  plan <| pl_text := view.1 |> <| pl_keyboard := view.2 |>.
Definition completed_by_app (plan : responsePlan) : responsePlan := plan <| pl_completed := true |>.

Definition boolBit (value : bool) : Z := if value then 1 else 0.
Definition cancelKeyboard (session : AdminSession) : Keyboard :=
  [[press "Hủy" (cat ["v1:a:x:"; Z_dec (ss_id session); ":"; Z_dec (ss_version session)])]].

Section Sessions.
Context (rt : Router).

(** [r.admins.StartSession], [AdvanceSession] with the payload marshalled *)
Definition start_session (telegramID : Z) (state : string) (payload : workflowPayload) (meta : RequestMeta)
    : Script Database AdminSession :=
  AdminService.StartSession (ro_sessionTTL rt) telegramID state (Some (ro_marshal rt payload)) meta.
Definition advance_session (telegramID : Z) (session : AdminSession) (payload : workflowPayload) (meta : RequestMeta)
    : Script Database AdminSession :=
  AdminService.AdvanceSession (ro_sessionTTL rt) telegramID session (ss_state session) (Some (ro_marshal rt payload)) meta.

(** The session takes its next step, and its user is asked for the next text. *)
Definition ask_next (telegramID : Z) (session : AdminSession) (payload : workflowPayload) (meta : RequestMeta)
    (nextPrompt : string) (plan : responsePlan) : Script Database responsePlan :=
  next ← advance_session telegramID session payload meta;
  mret (show plan (nextPrompt, cancelKeyboard next)).

(** A text of 1 to [n] runes *)
Definition text_within (n : Z) (text : string) : bool := negb (str_eqb text "" || (n <? rune_count text)).
(** [strconv.ParseInt(text, 10, bits)] of a number that must be positive, or not negative *)
Definition positive_input (text : string) : option Z :=
  match ParseInt 64 text with Some n => if n <=? 0 then None else Some n | None => None end.
Definition sort_input (text : string) : option Z :=
  match ParseInt 32 text with Some n => if n <? 0 then None else Some n | None => None end.

(** ** Bank accounts *)

Definition bank_input (payload : workflowPayload) (number : string) : BankAccountInput :=
  mkBankAccountInput (wf_BankBIN payload) (wf_BankName payload) (wf_DisplayName payload) (wf_AccountName payload) number
    (wf_SortOrder payload) "".

(** The payload after a text that only answers a question, and the next question *)
Definition bank_step (payload : workflowPayload) (text : string) : option (Error + (workflowPayload * string)) :=
  let accept (ok : bool) (next : workflowPayload) (step prompt : string) : option (Error + (workflowPayload * string)) :=
    Some (if ok then inr (next <| wf_Step := step |>, prompt) else inl ErrInvalidInput) in
  if str_eqb (wf_Step payload) "bank_bin" then
    accept (str_len text =? 6) (payload <| wf_BankBIN := text |>) "bank_name" "Gửi tên ngân hàng."
  else if str_eqb (wf_Step payload) "bank_name" then
    accept (text_within 120 text) (payload <| wf_BankName := text |>) "display_name" "Gửi tên hiển thị."
  else if str_eqb (wf_Step payload) "display_name" then
    accept (text_within 120 text) (payload <| wf_DisplayName := text |>) "account_name" "Gửi tên chủ tài khoản."
  else if str_eqb (wf_Step payload) "account_name" then
    accept (text_within 160 text) (payload <| wf_AccountName := text |>) "sort_order" "Gửi thứ tự hiển thị (số nguyên không âm)."
  else if str_eqb (wf_Step payload) "sort_order" then
    Some (match sort_input text with
          | Some n => inr (payload <| wf_SortOrder := n |> <| wf_Step := "account_number"%string |>,
                "Gửi số tài khoản (chỉ chữ số). Nội dung này sẽ được mã hóa ngay và không lưu trong phiên."%string)
          | None => inl ErrInvalidInput end)
  else None.

Definition handleBankSessionText (telegramID : Z) (messageText : string) (session : AdminSession) (payload : workflowPayload)
    (meta : RequestMeta) (plan : responsePlan) : Script Database responsePlan :=
  let text := TrimSpace messageText in
  match bank_step payload text with
  | Some (inl e) => stop e
  | Some (inr (payload, nextPrompt)) => ask_next telegramID session payload meta nextPrompt plan
  | None =>
      if negb (str_eqb (wf_Step payload) "account_number") then stop ErrStaleVersion
      else if str_eqb (ss_state session) SessionBankCreate then
        bank ← BankAccountService.Create (ro_banks rt) (ro_protectAccount rt) telegramID session
                 (mkCreateBankAccountInput (bank_input payload text) meta);
        mret (plan <| pl_text := cat ["Đã tạo tài khoản: "; Escape (bo_display_name (rb_option bank))] |>)
      else
        bank ← BankAccountService.Update (ro_protectAccount rt) telegramID session
                 (mkUpdateBankAccountInput (wf_BankAccountID payload) (wf_RecordVersion payload) (bank_input payload text) meta);
        mret (plan <| pl_text := cat ["Đã cập nhật tài khoản: "; Escape (bo_display_name (rb_option bank))] |>)
  end.

(** ** Products *)

Definition create_product (telegramID : Z) (session : AdminSession) (payload : workflowPayload) (price : Z)
    (meta : RequestMeta) (plan : responsePlan) : Script Database responsePlan :=
  product ← AdminService.CreateProduct telegramID session
    (mkCreateProductInput (wf_CategoryID payload) (wf_Name payload) (cat ["product-"; Z_dec (meta_update_id meta)])
       (wf_Description payload) price meta);
  mret (plan <| pl_text := cat ["Đã tạo sản phẩm: "; Escape (pd_name product)] |>).

Definition update_product (telegramID : Z) (session : AdminSession) (payload : workflowPayload) (categoryID : Z)
    (meta : RequestMeta) (plan : responsePlan) : Script Database responsePlan :=
  product ← AdminService.UpdateProduct telegramID session
    (mkUpdateProductInput (wf_ProductID payload) (wf_RecordVersion payload) categoryID (wf_Name payload)
       (wf_Description payload) (wf_PriceVND payload) meta);
  mret (plan <| pl_text := cat ["Đã cập nhật sản phẩm: "; Escape (pd_name product)] |>).

(** The category is the first question for a new product and the last for an old one. *)
Definition handleProductSessionText (telegramID : Z) (messageText : string) (session : AdminSession) (payload : workflowPayload)
    (meta : RequestMeta) (plan : responsePlan) : Script Database responsePlan :=
  let text := TrimSpace messageText in
  let editing := str_eqb (ss_state session) SessionProductEdit in
  let next payload prompt := ask_next telegramID session payload meta prompt plan in
  if str_eqb (wf_Step payload) "category" then
    match positive_input text with
    | None => stop ErrInvalidInput
    | Some categoryID =>
        if editing then update_product telegramID session payload categoryID meta plan
        else next (payload <| wf_CategoryID := categoryID |> <| wf_Step := "name"%string |>) "Gửi tên sản phẩm."%string
    end
  else if str_eqb (wf_Step payload) "name" then
    if negb (text_within 160 text) then stop ErrInvalidInput
    else next (payload <| wf_Name := text |> <| wf_Step := "description"%string |>) "Gửi mô tả, hoặc dấu - để bỏ trống."%string
  else if str_eqb (wf_Step payload) "description" then
    if 2000 <? rune_count text then stop ErrInvalidInput
    else next ((if str_eqb text "-" then payload else payload <| wf_Description := text |>) <| wf_Step := "price"%string |>)
           "Gửi giá VND dạng số nguyên."%string
  else if str_eqb (wf_Step payload) "price" then
    match ParseMoneyInput text with
    | None => stop ErrInvalidInput
    | Some price =>
        let payload := payload <| wf_PriceVND := price |> in
        if editing then next (payload <| wf_Step := "category"%string |>) "Gửi ID danh mục mới."%string
        else create_product telegramID session payload price meta plan
    end
  else stop ErrStaleVersion.

(** ** Categories *)

Definition handle_category_text (telegramID : Z) (text : string) (session : AdminSession) (payload : workflowPayload)
    (meta : RequestMeta) (plan : responsePlan) : Script Database responsePlan :=
  if str_eqb (wf_Step payload) "name" then
    if negb (text_within 120 text) then stop ErrInvalidInput
    else ask_next telegramID session (payload <| wf_Name := text |> <| wf_Step := "sort"%string |>) meta
           "Gửi thứ tự hiển thị (số nguyên không âm)." plan
  else
    match sort_input text with
    | None => stop ErrInvalidInput
    | Some sortOrder =>
        if str_eqb (ss_state session) SessionCategoryCreate then
          category ← AdminService.CreateCategory telegramID session
            (mkCreateCategoryInput (wf_Name payload) (cat ["category-"; Z_dec (meta_update_id meta)]) sortOrder meta);
          mret (plan <| pl_text := cat ["Đã tạo danh mục: "; Escape (cg_name category)] |>)
        else
          category ← AdminService.UpdateCategory telegramID session
            (mkUpdateCategoryInput (wf_CategoryID payload) (wf_RecordVersion payload) (wf_Name payload) sortOrder meta);
          mret (plan <| pl_text := cat ["Đã cập nhật danh mục: "; Escape (cg_name category)] |>)
    end.

(** ** Deliveries *)

(** The reason of a retry, or the message and the reason that prove a delivery *)
Definition delivery_evidence (state : string) (payload : workflowPayload) (text : string) : option workflowPayload :=
  if str_eqb state SessionDeliveryRetry then
    if str_eqb (wf_Step payload) "reason" && text_within 1000 text then Some (payload <| wf_Reason := text |>) else None
  else
    match SplitN "|"%char 2 text with
    | [id; reason] =>
        if negb (str_eqb (wf_Step payload) "evidence") then None
        else
          match positive_input (TrimSpace id) with
          | Some messageID =>
              let reason := TrimSpace reason in
              if text_within 1000 reason then Some (payload <| wf_TelegramMessageID := messageID |> <| wf_Reason := reason |>)
              else None
          | None => None
          end
    | _ => None
    end.

Definition handle_delivery_text (telegramID : Z) (text : string) (session : AdminSession) (payload : workflowPayload)
    (meta : RequestMeta) (plan : responsePlan) : Script Database responsePlan :=
  if (wf_DeliveryID payload <=? 0) || (wf_RecordVersion payload <=? 0) || str_eqb (wf_Step payload) "confirm"
  then stop ErrStaleVersion
  else
    match delivery_evidence (ss_state session) payload text with
    | None => stop ErrInvalidInput
    | Some payload =>
        next ← advance_session telegramID session (payload <| wf_Step := "confirm"%string |>) meta;
        let label := if str_eqb (ss_state session) SessionDeliveryComplete then "Xác nhận evidence và mark delivered"
                     else "Xác nhận credential chưa được giao và cho worker retry" in
        let at_session prefix := cat [prefix; Z_dec (ss_id next); ":"; Z_dec (ss_version next)] in
        mret (show plan
          (cat ["<b>Xác nhận thao tác nhạy cảm</b>"; nl;
                "Delivery job sẽ được khóa và kiểm tra lại version/state trong transaction."],
           [[press label (at_session "v1:a:dc:")]; [press "Hủy" (at_session "v1:a:x:")]]))
    end.

(** ** Providers, stock, payments and wallets *)

Definition handle_provider_text (telegramID : Z) (text : string) (session : AdminSession) (payload : workflowPayload)
    (meta : RequestMeta) (plan : responsePlan) : Script Database responsePlan :=
  match ro_providers rt with
  | None => stop ErrStaleVersion
  | Some (configured, pageSize) =>
      if negb (str_eqb (wf_Step payload) "input") then stop ErrStaleVersion
      else
        match SplitN "|"%char 5 text with
        | [provider; environment; account; bank; confirmation] =>
            if negb (str_eqb (ToUpper (TrimSpace confirmation)) "CONFIRM") then stop ErrInvalidInput
            else
              match positive_input (TrimSpace bank) with
              | None => stop ErrInvalidInput
              | Some bankID =>
                  mapping ← PaymentProviderAdminService.CreateAccount (ro_sum256 rt) configured
                    (mkCreatePaymentProviderAccountCommand telegramID provider environment account bankID true session meta);
                  mret (plan <| pl_text := cat ["Đã link provider mapping #"; Z_dec (ppa_id mapping); ": ";
                    Escape (ppa_masked_identity mapping); " → bank #"; Z_dec (ppa_bank_id mapping); "."] |>)
              end
        | _ => stop ErrInvalidInput
        end
  end.

(** The whole message is imported, not its trimmed text. *)
Definition handle_import_text (telegramID : Z) (messageText : string) (session : AdminSession) (payload : workflowPayload)
    (meta : RequestMeta) (plan : responsePlan) : Script Database responsePlan :=
  if negb (str_eqb (wf_Step payload) "payload") || (wf_ProductID payload <=? 0) then stop ErrStaleVersion
  else
    result ← InventoryAdminService.Import (ro_limits rt) (ro_protectItem rt) telegramID session (wf_ProductID payload)
               (codes messageText) meta;
    mret (plan <| pl_text := cat ["Import hoàn tất: đã thêm "; Z_dec (ir_inserted result); ", trùng ";
            Z_dec (ir_duplicates result); ", bỏ qua "; Z_dec (ir_rejected result); "."] |>).

Definition handle_manual_payment_text (telegramID : Z) (text : string) (session : AdminSession) (meta : RequestMeta)
    (plan : responsePlan) : Script Database responsePlan :=
  match SplitN "|"%char 6 text with
  | [transaction; reference; amount; currency; occurred; note] =>
      match ParseInt 64 (TrimSpace amount), ro_parse_time rt (TrimSpace occurred) with
      | Some amount, Some occurredAt =>
          result ← PaymentAdminService.ManualConfirm (ro_payments rt)
            (mkManualPaymentCommand telegramID session (TrimSpace transaction) (TrimSpace reference) amount
               (TrimSpace currency) occurredAt (TrimSpace note) meta);
          mret (plan <| pl_text := cat ["Manual payment: "; res_decision result; " · target "; res_target result;
                  " · reason "; res_reason result] |>)
      | _, _ => stop ErrInvalidInput
      end
  | _ => stop ErrInvalidInput
  end.

Definition handle_review_text (telegramID : Z) (text : string) (session : AdminSession) (payload : workflowPayload)
    (meta : RequestMeta) (plan : responsePlan) : Script Database responsePlan :=
  if (wf_ReviewID payload <=? 0) || str_eqb text "" then stop ErrInvalidInput
  else
    result ← PaymentAdminService.ResolveReview
      (mkResolvePaymentReviewCommand telegramID (wf_ReviewID payload) "resolved" text session meta);
    mret (plan <| pl_text := cat ["Đã resolve review #"; Z_dec (pv_id result); ". Không thực hiện refund network."] |>).

Definition handle_adjustment_text (telegramID : Z) (text : string) (session : AdminSession) (meta : RequestMeta)
    (plan : responsePlan) : Script Database responsePlan :=
  match SplitN "|"%char 5 text with
  | [target; operation; amount; reason; key] =>
      let operation := ToLower (TrimSpace operation) in
      match ParseInt 64 (TrimSpace target), ParseInt 64 (TrimSpace amount) with
      | Some targetID, Some amount =>
          if negb (str_in operation ["credit"; "debit"]) then stop ErrInvalidInput
          else
            account ← run (WalletService.Adjust
              (mkWalletAdjustmentCommand telegramID targetID amount (str_eqb operation "debit") (TrimSpace reason)
                 (TrimSpace key) session meta));
            mret (plan <| pl_text := cat ["Đã điều chỉnh ví. Số dư mới: "; formatVND (wa_balance account); " ₫"] |>)
      | _, _ => stop ErrInvalidInput
      end
  | _ => stop ErrInvalidInput
  end.

(** Every step of a session is recorded as processed by the store. *)
Definition handleSessionText (updateID : Z) (requestID : string) (telegramID chatID : Z) (messageText : string)
    (session : AdminSession) : Script Database responsePlan :=
  match ro_unmarshal rt (ss_payload session) with
  | None => stop ErrInvalidInput
  | Some payload =>
      let text := TrimSpace messageText in
      let meta := mkRequestMeta requestID updateID in
      let plan := completed_by_app (no_plan <| pl_chatID := chatID |>) in
      let state := ss_state session in
      if str_eqb state SessionProviderAccountCreate then handle_provider_text telegramID text session payload meta plan
      else if str_in state [SessionDeliveryRetry; SessionDeliveryComplete] then
        handle_delivery_text telegramID text session payload meta plan
      else if str_eqb state SessionInventoryImport then handle_import_text telegramID messageText session payload meta plan
      else if str_in state [SessionCategoryCreate; SessionCategoryEdit] then
        handle_category_text telegramID text session payload meta plan
      else if str_in state [SessionProductCreate; SessionProductEdit] then
        handleProductSessionText telegramID messageText session payload meta plan
      else if str_in state [SessionBankCreate; SessionBankEdit] then
        handleBankSessionText telegramID messageText session payload meta plan
      else if str_eqb state SessionPaymentManual then handle_manual_payment_text telegramID text session meta plan
      else if str_eqb state SessionPaymentReview then handle_review_text telegramID text session payload meta plan
      else if str_eqb state SessionWalletAdjustment then handle_adjustment_text telegramID text session meta plan
      else stop ErrStaleVersion
  end.
End Sessions.
