(* ===== verification/Router.v ===== *)
(** * The router

    [src/internal/telegram/router.go]: what the bot does with an update.  An update is
    claimed, dispatched to a command, a button or the open session of an
    administrator, recorded as processed, and answered.  The library's update type is
    reduced to the fields the router reads; what Telegram answers to the messages is
    only logged and has no effect.  The services are those that [cmd/api/main.go] wires;
    of them only the provider administration may be absent.  Metrics and logs are left
    out. *)

From Stdlib Require Import Ascii.
From S2P Require Import Prelude Text Domain Schema Tx Tables Models AdminModels QOrders QInventory QPayments.
From S2P Require Import QWallet.
From S2P Require Import QUsers QDelivery UpdateStore AdminStore CatalogStore InventoryStore DeliveryStore.
From S2P Require Import PaymentStore.
From S2P Require Import WalletStore OrderService OrderStore AdminService WalletService InventoryAdmin BankAccounts.
From S2P Require Import PaymentAdmin ProviderAdmin DeliveryAdmin Parser View Workflows.

(** ** Updates and answers *)

Record TgUser := mkTgUser { tg_ID : Z; tg_IsBot : bool; tg_Username : string; tg_FirstName : string; tg_LastName : string }.
Record TgMessage := mkTgMessage { tm_From : option TgUser; tm_ChatID : Z; tm_Text : string }.
(** The message a button belongs to, whether it is still accessible or not *)
Record TgCallbackQuery := mkTgCallbackQuery { tq_ID : string; tq_From : TgUser; tq_Message : option (Z * Z); tq_Data : string }.
Record TgUpdate := mkTgUpdate { up_ID : Z; up_Message : option TgMessage; up_CallbackQuery : option TgCallbackQuery;
    up_edited : bool }.

Definition ClassifyUpdate (update : TgUpdate) : string :=
  if is_some (up_Message update) then "message"
  else if is_some (up_CallbackQuery update) then "callback_query"
  else if up_edited update then "edited_message"
  else "unknown".

(** The calls of the [Messenger] *)
Inductive Answer :=
  | AnswerCallback (callbackID text : string) (alert : bool)
  | EditMessage (chatID messageID : Z) (text : string) (keyboard : Keyboard)
  | SendMessage (chatID : Z) (text : string) (keyboard : Keyboard).

Definition errorCode (e : Error) : string :=
  match e with
  | ErrInvalidInput | ErrInvalidInventoryPayload => "invalid_input"
  | ErrImportLimitExceeded => "limit_exceeded"
  | ErrInventoryNotFound => "not_found"
  | ErrInvalidInventoryState | ErrInventoryUnavailable => "stale"
  | ErrForbidden | ErrUnauthorized => "forbidden"
  | ErrNotFound => "not_found"
  | ErrSessionExpired => "session_expired"
  | ErrStaleVersion => "stale"
  | ErrConflict => "conflict"
  | ErrInvalidQuantity | ErrQuantityLimitExceeded => "invalid_quantity"
  | ErrInsufficientInventory => "insufficient_inventory"
  | ErrOrderNotFound | ErrOrderNotOwned | ErrBankAccountNotFound => "not_found"
  | ErrOrderExpired | ErrInvalidOrderState | ErrBankAccountInactive => "stale"
  | _ => "internal_error"
  end.

Definition userError (e : Error) : string :=
  let code := errorCode e in
  if str_eqb code "invalid_input" then "Dữ liệu không hợp lệ."
  else if str_eqb code "forbidden" then "Bạn không có quyền thực hiện thao tác này."
  else if str_eqb code "not_found" then "Không tìm thấy dữ liệu."
  else if str_eqb code "session_expired" then "Phiên thao tác đã hết hạn."
  else if str_eqb code "stale" then "Thao tác đã cũ, vui lòng mở lại menu."
  else if str_eqb code "conflict" then "Dữ liệu đã tồn tại hoặc vừa thay đổi."
  else if str_eqb code "limit_exceeded" then "Dữ liệu import vượt giới hạn cho phép."
  else if str_eqb code "invalid_quantity" then "Số lượng không hợp lệ."
  else if str_eqb code "insufficient_inventory" then "Sản phẩm hiện không đủ số lượng khả dụng."
  else "Có lỗi xảy ra, vui lòng thử lại.".

Definition activeBankOption (items : list BankAccountOption) (id : Z) : option BankAccountOption :=
  head (filter (fun b => bo_id b = id) items).
Definition profileFromUser (user : TgUser) : TelegramProfile :=
  mkTelegramProfile (tg_ID user) (tg_Username user) (tg_FirstName user) (tg_LastName user).

Section Router.
Context (rt : Router).

(** *** The services, as the router calls them *)

Abbreviation orders_list := (OrderStore.List (ro_orders rt)).
Abbreviation orders_get := (OrderStore.Get (ro_orders rt)).
Abbreviation orders_create := (Create (ro_orders rt)).
Abbreviation wallet_balance := WalletService.Balance.
Abbreviation wallet_create_topup :=
  (WalletService.CreateTopup (ro_wallet rt) (references (ro_orders rt) 0) (decrypt (ro_orders rt)) (generate (ro_orders rt))).
Abbreviation banks_list := (BankAccountService.ListActive (ro_banks rt)).

(** The view of an order is given the address of its QR code, if any. *)
Definition image_of (instruction : option PaymentInstruction) : string :=
  match instruction with Some i => pin_image_url i | None => ""%string end.
Definition order_view (found : OrderDetail * option PaymentInstruction) : string * Keyboard :=
  OrderDetailView (ro_local_format rt) found.1 (image_of found.2).

(** *** Buttons of customers *)

Definition support_text : string := cat ["Hỗ trợ: <b>"; Escape (ro_supportContact rt); "</b>"].

Definition ask_cancel (telegramID : Z) (c : Callback) (plan : responsePlan) : Script Database responsePlan :=
  found ← run (orders_get telegramID (cb_OrderID c));
  let order := found.1 in
  if negb (bool_decide (od_status order = OrderStatusPendingPayment)) || negb (od_version order =? cb_RecordVersion c)
  then stop ErrInvalidOrderState
  else mret (show plan (OrderCancelConfirmationView (od_id order) (od_version order))).

Definition ask_wallet (telegramID : Z) (c : Callback) (meta : RequestMeta) (plan : responsePlan) : Script Database responsePlan :=
  found ← run (orders_get telegramID (cb_OrderID c));
  let order := found.1 in
  if negb (bool_decide (od_status order = OrderStatusPendingPayment)) then stop ErrInvalidOrderState
  else
    account ← run (wallet_balance telegramID);
    mret (show plan (WalletOrderConfirmationView order account (meta_update_id meta))).

Definition choose_bank (c : Callback) (meta : RequestMeta) (plan : responsePlan) : Script Database responsePlan :=
  banks ← banks_list;
  match activeBankOption banks (cb_BankAccountID c) with
  | None => stop ErrBankAccountInactive
  | Some bank => mret (show plan (OrderConfirmView (meta_update_id meta) (cb_ProductID c) (cb_Quantity c) bank))
  end.

Definition with_banks (view : list BankAccountOption -> string * Keyboard) (plan : responsePlan) : Script Database responsePlan :=
  banks ← banks_list;
  match banks with
  | [] => stop ErrBankAccountNotFound
  | _ => mret (show plan (view banks))
  end.

Definition confirm_order (telegramID : Z) (c : Callback) (meta : RequestMeta) (plan : responsePlan) : Script Database responsePlan :=
  result ← run (orders_create (mkCreateOrderCommand telegramID (cb_ProductID c) (cb_BankAccountID c) (cb_Quantity c)
                  (cat ["telegram-order-flow:"; Z_dec (cb_FlowID c)]) meta));
  mret (completed_by_app (show plan (PaymentInstructionView (ro_local_format rt) (cr_order result) (cr_instruction result)))).

Definition cancel_order (telegramID : Z) (c : Callback) (meta : RequestMeta) (plan : responsePlan) : Script Database responsePlan :=
  result ← run (Cancel (mkCancelOrderCommand telegramID (cb_OrderID c) (cb_RecordVersion c) meta));
  mret (completed_by_app (show plan (cat ["Đã hủy đơn #"; Z_dec (od_id (cn_order result)); "."],
          [[press "Danh sách đơn" "v1:o:l:0"]]))).

Definition pay_order (telegramID : Z) (c : Callback) (meta : RequestMeta) (plan : responsePlan) : Script Database responsePlan :=
  result ← run (WalletService.PayOrder (ro_wallet rt)
    (mkWalletOrderPaymentCommand telegramID (cb_OrderID c) (cat ["telegram-wallet-order:"; Z_dec (cb_FlowID c)]) meta));
  mret (completed_by_app (show plan
    (cat ["Đã thanh toán đơn #"; Z_dec (wr_order_id result); " bằng ví. Số dư còn lại: "; formatVND (wr_balance result);
          " ₫. Đơn đang giữ hàng để chờ giao."],
     [[press "Xem đơn" (cat ["v1:o:v:"; Z_dec (wr_order_id result)])]]))).

Definition create_topup (telegramID : Z) (c : Callback) (meta : RequestMeta) (plan : responsePlan) : Script Database responsePlan :=
  result ← run (wallet_create_topup (mkCreateWalletTopupCommand telegramID (cb_AmountVND c) (cb_BankAccountID c)
                  (cat ["telegram-wallet-topup:"; Z_dec (cb_FlowID c)]) meta ""));
  let '(topup, instruction, _) := result in
  mret (completed_by_app (show plan (WalletTopupInstructionView (ro_local_format rt) topup instruction))).

(** *** Buttons of administrators *)

(** A workflow starts with a session and, mostly, a question for its user. *)
Definition begin_workflow (telegramID : Z) (state : string) (payload : workflowPayload) (meta : RequestMeta)
    (view : AdminSession -> string * Keyboard) (plan : responsePlan) : Script Database responsePlan :=
  session ← start_session rt telegramID state payload meta;
  mret (completed_by_app (show plan (view session))).
Definition question (text : string) (session : AdminSession) : string * Keyboard := (text, cancelKeyboard session).
(** A change that needs a confirmation: the button carries the session and the change. *)
Definition confirmation (text code : string) (id version : Z) (active : bool) (session : AdminSession) : string * Keyboard :=
  (text, [[press "Xác nhận" (cat ["v1:a:"; code; ":"; Z_dec (ss_id session); ":"; Z_dec (ss_version session); ":"; Z_dec id;
                                 ":"; Z_dec version; ":"; Z_dec (boolBit active)])]]).

(** The session that a confirming button carries *)
Definition carried_session (telegramID : Z) (c : Callback) : Script Database AdminSession :=
  admin ← AdminService.Authorize telegramID true;
  mret (mkAdminSession (cb_SessionID c) (adm_id admin) "" "" 0 (cb_SessionVersion c)).

Definition confirm_delivery (telegramID : Z) (c : Callback) (meta : RequestMeta) (plan : responsePlan)
    : Script Database responsePlan :=
  session ← AdminService.LoadSession telegramID;
  if negb (ss_id session =? cb_SessionID c) || negb (ss_version session =? cb_SessionVersion c) then stop ErrStaleVersion
  else
    match ro_unmarshal rt (ss_payload session) with
    | None => stop ErrInvalidInput
    | Some payload =>
        if negb (str_eqb (wf_Step payload) "confirm") || (wf_DeliveryID payload <=? 0) || (wf_RecordVersion payload <=? 0)
        then stop ErrStaleVersion
        else
          let command := mkDeliveryResolutionCommand telegramID (wf_DeliveryID payload) (wf_RecordVersion payload)
                           (wf_TelegramMessageID payload) (wf_Reason payload) session meta in
          if str_eqb (ss_state session) SessionDeliveryRetry then
            job ← DeliveryAdminService.Retry (ro_updatedAt rt) command;
            mret (completed_by_app (show plan (cat ["Delivery #"; Z_dec (dv_id job); " đã được xếp lại vào worker queue."], [])))
          else if str_eqb (ss_state session) SessionDeliveryComplete then
            job ← DeliveryAdminService.Complete (ro_updatedAt rt) command;
            mret (completed_by_app (show plan (cat ["Delivery #"; Z_dec (dv_id job); " đã được xác nhận delivered từ evidence."], [])))
          else stop ErrStaleVersion
    end.

(** The list of products is what the code shows here: its branch for the two lists is
    inside this case. *)
Definition wallet_adjustment (telegramID : Z) (c : Callback) (meta : RequestMeta) (plan : responsePlan)
    : Script Database responsePlan :=
  plan ← begin_workflow telegramID SessionWalletAdjustment (workflow "adjustment") meta
           (question "Gửi: telegram_user_id|credit/debit|amount_vnd|reason|idempotency_key") plan;
  if bool_decide (cb_Action c = CallbackAdminCategories) then
    page ← CatalogService.ListAdminCategories (ro_catalog rt) (cb_Page c);
    mret (show plan (AdminCategoriesView page))
  else
    page ← CatalogService.ListAdminProducts (ro_catalog rt) (cb_Page c);
    mret (show plan (AdminProductsView page)).

(** The provider administration, if there is one *)
Definition with_providers (act : list PaymentProviderDescriptor -> Z -> Script Database responsePlan) : Script Database responsePlan :=
  match ro_providers rt with Some (configured, pageSize) => act configured pageSize | None => stop ErrNotFound end.

Definition toggle_provider (telegramID : Z) (c : Callback) (meta : RequestMeta) (plan : responsePlan)
    : Script Database responsePlan :=
  session ← carried_session telegramID c;
  mapping ← PaymentProviderAdminService.SetAccountActive
    (mkSetPaymentProviderAccountStatusCommand telegramID (cb_ProviderAccountID c) (cb_RecordVersion c) (cb_Active c) true session meta);
  mret (completed_by_app (plan <| pl_text := cat ["Đã cập nhật provider mapping #"; Z_dec (ppa_id mapping); " thành ";
    Escape (ppa_status mapping); "."] |>)).

Definition toggle_bank (telegramID : Z) (c : Callback) (meta : RequestMeta) (plan : responsePlan) : Script Database responsePlan :=
  session ← carried_session telegramID c;
  bank ← BankAccountService.SetActive telegramID session
    (mkSetBankAccountActiveInput (cb_BankAccountID c) (cb_RecordVersion c) (cb_Active c) meta);
  mret (completed_by_app (show plan (cat ["Đã cập nhật tài khoản: "; Escape (bo_display_name (rb_option bank))], []))).

Definition toggle_item (telegramID : Z) (c : Callback) (meta : RequestMeta) (plan : responsePlan) : Script Database responsePlan :=
  session ← carried_session telegramID c;
  item ← InventoryAdminService.SetItemEnabled telegramID session (cb_InventoryID c) (cb_RecordVersion c) (cb_Active c) meta;
  mret (completed_by_app (show plan (cat ["Đã cập nhật inventory item #"; Z_dec (ri_id item); " thành ";
    Escape (InventoryStatus_string (ri_status item)); "."], []))).

Definition toggle_category (telegramID : Z) (c : Callback) (meta : RequestMeta) (plan : responsePlan) : Script Database responsePlan :=
  session ← carried_session telegramID c;
  category ← AdminService.SetCategoryActive telegramID session
    (mkSetCategoryActiveInput (cb_CategoryID c) (cb_RecordVersion c) (cb_Active c) meta);
  mret (completed_by_app (show plan (cat ["Đã cập nhật danh mục: "; Escape (cg_name category)], []))).

Definition toggle_product (telegramID : Z) (c : Callback) (meta : RequestMeta) (plan : responsePlan) : Script Database responsePlan :=
  session ← carried_session telegramID c;
  product ← AdminService.SetProductActive telegramID session
    (mkSetProductActiveInput (cb_ProductID c) (cb_RecordVersion c) (cb_Active c) meta);
  mret (completed_by_app (show plan (cat ["Đã cập nhật sản phẩm: "; Escape (pd_name product)], []))).

Definition cancel_session (telegramID : Z) (c : Callback) (meta : RequestMeta) (plan : responsePlan) : Script Database responsePlan :=
  session ← carried_session telegramID c;
  AdminService.CancelSession telegramID session meta ≫= fun _ =>
  mret (completed_by_app (show plan ("Đã hủy thao tác."%string, []))).

Definition routeCallback (telegramID : Z) (c : Callback) (meta : RequestMeta) (plan : responsePlan) : Script Database responsePlan :=
  let at_record (step : string) := (workflow step) <| wf_RecordVersion := cb_RecordVersion c |> in
  match cb_Action c with
  | CallbackMenu => mret (show plan (MainMenuText "bạn", MainMenuKeyboard))
  | CallbackSupport => mret (show plan (support_text, [[press "⬅️ Menu" "v1:m"]]))
  | CallbackCategories =>
      page ← CatalogService.ListCategories (ro_catalog rt) (cb_Page c);
      mret (show plan (CategoriesView page))
  | CallbackProducts =>
      page ← CatalogService.ListProducts (ro_catalog rt) (cb_CategoryID c) (cb_Page c);
      mret (show plan (ProductsView (cb_CategoryID c) page))
  | CallbackProductDetail =>
      product ← CatalogService.GetProduct (cb_ProductID c);
      mret (show plan (ProductView product (cb_CategoryID c) (cb_Page c)))
  | CallbackOrderQuantity => with_banks (BankSelectionView (cb_ProductID c) (cb_Quantity c)) plan
  | CallbackOrderBank => choose_bank c meta plan
  | CallbackOrderConfirm => confirm_order telegramID c meta plan
  | CallbackOrders =>
      page ← run (orders_list telegramID (cb_Page c));
      mret (show plan (OrdersView (ro_local_format rt) page))
  | CallbackOrderView =>
      found ← run (orders_get telegramID (cb_OrderID c));
      mret (show plan (order_view found))
  | CallbackOrderAskCancel => ask_cancel telegramID c plan
  | CallbackOrderCancel => cancel_order telegramID c meta plan
  | CallbackOrderWalletAsk => ask_wallet telegramID c meta plan
  | CallbackOrderWalletPay => pay_order telegramID c meta plan
  | CallbackWalletBalance =>
      account ← run (wallet_balance telegramID);
      mret (show plan (WalletBalanceView account))
  | CallbackWalletTopupAmount => with_banks (WalletTopupBankView (meta_update_id meta) (cb_AmountVND c)) plan
  | CallbackWalletTopupBank => create_topup telegramID c meta plan
  | CallbackAdminCategories | CallbackAdminProducts =>
      AdminService.Authorize telegramID false ≫= fun _ => mret plan
  | CallbackAdminPaymentReviews =>
      page ← PaymentAdminService.ListReviews (ro_payments rt) telegramID (cb_Page c);
      mret (show plan (PaymentReviewsView page))
  | CallbackAdminDeliveries =>
      page ← DeliveryAdminService.List (ro_updatedAt rt) (ro_deliveries rt) telegramID (cb_Page c);
      mret (show plan (DeliveryReviewsView page))
  | CallbackAdminDeliveryDetail =>
      detail ← DeliveryAdminService.Get (ro_updatedAt rt) telegramID (cb_DeliveryID c);
      mret (show plan (DeliveryDetailView detail))
  | CallbackAdminDeliveryRetry =>
      begin_workflow telegramID SessionDeliveryRetry ((at_record "reason") <| wf_DeliveryID := cb_DeliveryID c |>) meta
        (question "Chỉ tiếp tục sau khi đã xác minh credential chưa được giao. Gửi lý do/evidence kiểm tra.") plan
  | CallbackAdminDeliveryComplete =>
      begin_workflow telegramID SessionDeliveryComplete ((at_record "evidence") <| wf_DeliveryID := cb_DeliveryID c |>) meta
        (question "Gửi Telegram message ID và lý do xác minh theo dạng: message_id|reason") plan
  | CallbackAdminDeliveryConfirm => confirm_delivery telegramID c meta plan
  | CallbackAdminDeliveryReconcile =>
      report ← DeliveryAdminService.Reconcile (ro_deliveries rt) telegramID;
      mret (show plan (DeliveryReconciliationView report))
  | CallbackAdminPaymentManual =>
      begin_workflow telegramID SessionPaymentManual (workflow "payment") meta
        (question "Gửi: transaction_id|reference|amount_vnd|currency|occurred_at_RFC3339|note") plan
  | CallbackAdminPaymentResolve =>
      begin_workflow telegramID SessionPaymentReview ((workflow "resolution") <| wf_ReviewID := cb_ReviewID c |>) meta
        (question "Gửi ghi chú resolution. Case sẽ được đánh dấu resolved; không có refund network.") plan
  | CallbackAdminWalletAdjustment => wallet_adjustment telegramID c meta plan
  | CallbackAdminInventory =>
      page ← InventoryAdminService.ListOverview (ro_inventory rt) telegramID (cb_Page c);
      mret (show plan (AdminInventoryOverviewView page))
  | CallbackAdminBanks =>
      page ← BankAccountService.ListAdmin (ro_banks rt) telegramID (cb_Page c);
      mret (show plan (AdminBankAccountsView page))
  | CallbackAdminProviderHealth =>
      with_providers (fun configured _ =>
        items ← PaymentProviderAdminService.Health configured telegramID;
        mret (show plan (PaymentProviderHealthView (ro_utc_format rt) items)))
  | CallbackAdminProviderAccounts =>
      with_providers (fun _ pageSize =>
        page ← PaymentProviderAdminService.ListAccounts (ro_text_le rt) pageSize telegramID (cb_Page c);
        mret (show plan (PaymentProviderAccountsView page)))
  | CallbackAdminProviderAccountNew =>
      with_providers (fun _ _ =>
        begin_workflow telegramID SessionProviderAccountCreate (workflow "input") meta
          (question (cat ["Gửi: provider|environment|external_account_identity|local_bank_account_id|CONFIRM"; nl;
                          "Giá trị identity sẽ không được hiển thị lại đầy đủ."])) plan)
  | CallbackAdminProviderAccountAskToggle =>
      with_providers (fun _ _ =>
        begin_workflow telegramID SessionProviderAccountToggle
          ((at_record "confirm") <| wf_ProviderAccountID := cb_ProviderAccountID c |> <| wf_Active := cb_Active c |>) meta
          (confirmation "Xác nhận đổi trạng thái provider account mapping?" "qt" (cb_ProviderAccountID c) (cb_RecordVersion c)
             (cb_Active c)) plan)
  | CallbackAdminProviderAccountToggle => with_providers (fun _ _ => toggle_provider telegramID c meta plan)
  | CallbackAdminBankNew =>
      begin_workflow telegramID SessionBankCreate (workflow "bank_bin") meta (question "Gửi mã BIN ngân hàng gồm 6 chữ số.") plan
  | CallbackAdminBankEdit =>
      begin_workflow telegramID SessionBankEdit ((at_record "bank_bin") <| wf_BankAccountID := cb_BankAccountID c |>) meta
        (question "Gửi mã BIN ngân hàng mới gồm 6 chữ số.") plan
  | CallbackAdminBankAskToggle =>
      begin_workflow telegramID SessionBankToggle
        ((at_record "confirm") <| wf_BankAccountID := cb_BankAccountID c |> <| wf_Active := cb_Active c |>) meta
        (confirmation "Xác nhận đổi trạng thái tài khoản ngân hàng?" "bt" (cb_BankAccountID c) (cb_RecordVersion c) (cb_Active c)) plan
  | CallbackAdminBankToggle => toggle_bank telegramID c meta plan
  | CallbackAdminInventoryList =>
      page ← InventoryAdminService.ListItems (ro_inventory rt) telegramID (cb_ProductID c) (cb_Page c);
      mret (show plan (AdminInventoryItemsView (ro_utc_format rt) (cb_ProductID c) page))
  | CallbackAdminInventoryImport =>
      begin_workflow telegramID SessionInventoryImport ((workflow "payload") <| wf_ProductID := cb_ProductID c |>) meta
        (question "Gửi inventory, mỗi dòng là một item. Nội dung sẽ không được hiển thị lại.") plan
  | CallbackAdminInventoryAskToggle =>
      begin_workflow telegramID SessionInventoryToggle
        ((at_record "confirm") <| wf_InventoryItemID := cb_InventoryID c |> <| wf_Active := cb_Active c |>) meta
        (confirmation (cat ["Xác nhận "; if cb_Active c then "bật" else "tắt"; " inventory item #"; Z_dec (cb_InventoryID c); "?"])
           "it" (cb_InventoryID c) (cb_RecordVersion c) (cb_Active c)) plan
  | CallbackAdminInventoryToggle => toggle_item telegramID c meta plan
  | CallbackAdminCategoryNew =>
      begin_workflow telegramID SessionCategoryCreate (workflow "name") meta (question "Gửi tên danh mục mới.") plan
  | CallbackAdminCategoryEdit =>
      begin_workflow telegramID SessionCategoryEdit ((at_record "name") <| wf_CategoryID := cb_CategoryID c |>) meta
        (question "Gửi tên danh mục mới.") plan
  | CallbackAdminCategoryAskToggle =>
      begin_workflow telegramID SessionCategoryToggle ((at_record "confirm") <| wf_CategoryID := cb_CategoryID c |>) meta
        (confirmation "Xác nhận đổi trạng thái danh mục?" "ct" (cb_CategoryID c) (cb_RecordVersion c) (cb_Active c)) plan
  | CallbackAdminCategoryToggle => toggle_category telegramID c meta plan
  | CallbackAdminProductNew =>
      begin_workflow telegramID SessionProductCreate (workflow "category") meta (question "Gửi ID danh mục cho sản phẩm.") plan
  | CallbackAdminProductEdit =>
      begin_workflow telegramID SessionProductEdit ((at_record "name") <| wf_ProductID := cb_ProductID c |>) meta
        (question "Gửi tên sản phẩm mới.") plan
  | CallbackAdminProductAskToggle =>
      begin_workflow telegramID SessionProductToggle ((at_record "confirm") <| wf_ProductID := cb_ProductID c |>) meta
        (confirmation "Xác nhận đổi trạng thái sản phẩm?" "pt" (cb_ProductID c) (cb_RecordVersion c) (cb_Active c)) plan
  | CallbackAdminProductToggle => toggle_product telegramID c meta plan
  | CallbackAdminCancel => cancel_session telegramID c meta plan
  end.

(** *** Commands and messages *)

Definition unsupported : string * Keyboard := ("Lệnh chưa được hỗ trợ. Dùng /menu để mở menu."%string, []).

Definition handleCommand (updateID chatID : Z) (from : TgUser) (user : AppUser) (command : Command) : Script Database responsePlan :=
  let name := cmd_name command in
  let payload := cmd_payload command in
  let telegramID := us_telegram_user_id user in
  if str_in name ["start"; "menu"] then mret (reply chatID (MainMenuText (us_display_name user), MainMenuKeyboard))
  else if str_eqb name "products" then
    page ← CatalogService.ListCategories (ro_catalog rt) 0;
    mret (reply chatID (CategoriesView page))
  else if str_eqb name "orders" then
    page ← run (orders_list telegramID 0);
    mret (reply chatID (OrdersView (ro_local_format rt) page))
  else if str_eqb name "balance" then
    account ← run (wallet_balance telegramID);
    mret (reply chatID (WalletBalanceView account))
  else if str_eqb name "nap" then
    if str_eqb payload "" then
      account ← run (wallet_balance telegramID);
      let '(text, keyboard) := WalletBalanceView account in
      mret (reply chatID (cat [text; nl; nl; "Chọn số tiền muốn nạp."], keyboard))
    else
      match positive_input payload with
      | None => stop ErrInvalidWalletAmount
      | Some amount =>
          banks ← banks_list;
          mret (reply chatID (WalletTopupBankView updateID amount banks))
      end
  else if str_eqb name "order" then
    match positive_input payload with
    | None => stop ErrInvalidInput
    | Some orderID =>
        found ← run (orders_get telegramID orderID);
        mret (reply chatID (order_view found))
    end
  else if str_eqb name "support" then mret (reply chatID (support_text, []))
  else if str_eqb name "myid" then
    mret (reply chatID (cat ["Telegram ID của bạn: <code>"; Z_dec telegramID; "</code>"], []))
  else if str_eqb name "admin" then
    authorized ← script_result (AdminService.Authorize (tg_ID from) false);
    mret (reply chatID (match authorized with
                        | inl _ => ("Bạn không có quyền sử dụng chức năng này."%string, [])
                        | inr _ => AdminMenu
                        end))
  else mret (reply chatID unsupported).

(** A text that is no command belongs to the open session of its sender, if any. *)
Definition handleMessage (updateID : Z) (requestID : string) (message : TgMessage) : Script Database responsePlan :=
  match tm_From message with
  | None => mret no_plan
  | Some from =>
      let chatID := tm_ChatID message in
      if tg_IsBot from || (chatID =? 0) then mret no_plan
      else
        synced ← script_result (UserService.Sync (profileFromUser from));
        match synced with
        | inl ErrUserBlocked => mret (reply chatID ("Tài khoản không thể sử dụng chức năng này."%string, []))
        | inl e => stop e
        | inr user =>
            match ParseCommand (tm_Text message) with
            | Some command => handleCommand updateID chatID from user command
            | None =>
                if str_eqb (tm_Text message) "" then mret (reply chatID unsupported)
                else
                  loaded ← script_result (AdminService.LoadSession (tg_ID from));
                  match loaded with
                  | inr session => handleSessionText rt updateID requestID (tg_ID from) chatID (tm_Text message) session
                  | inl _ => mret (reply chatID unsupported)
                  end
            end
        end
  end.

Definition alert (plan : responsePlan) (text : string) : responsePlan :=
  plan <| pl_callbackText := text |> <| pl_callbackAlert := true |>.

Definition handleCallback (updateID : Z) (requestID : string) (query : TgCallbackQuery) : Script Database responsePlan :=
  let '(chatID, messageID) := default (0, 0) (tq_Message query) in
  let plan := no_plan <| pl_chatID := chatID |> <| pl_messageID := messageID |> <| pl_callbackID := tq_ID query |>
                <| pl_edit := negb (chatID =? 0) && negb (messageID =? 0) |> in
  let from := tq_From query in
  if tg_IsBot from || (tg_ID from <=? 0) then mret (plan <| pl_callbackText := "Không hợp lệ."%string |>)
  else
    synced ← script_result (UserService.Sync (profileFromUser from));
    match synced with
    | inl ErrUserBlocked => mret (alert plan "Tài khoản không thể sử dụng chức năng này.")
    | inl e => stop e
    | inr _ =>
        match ParseCallback (tq_Data query) with
        | None => mret (alert plan "Thao tác không hợp lệ.")
        | Some c => routeCallback (tg_ID from) c (mkRequestMeta requestID updateID) plan
        end
    end.

Definition dispatch (update : TgUpdate) (requestID : string) : Script Database responsePlan :=
  match up_Message update, up_CallbackQuery update with
  | Some message, _ => handleMessage (up_ID update) requestID message
  | None, Some query => handleCallback (up_ID update) requestID query
  | None, None => mret no_plan
  end.

(** *** Processing *)

Definition executePlan (plan : responsePlan) : list Answer :=
  ((if str_eqb (pl_callbackID plan) "" then []
    else [AnswerCallback (pl_callbackID plan) (pl_callbackText plan) (pl_callbackAlert plan)])
   ++ (if str_eqb (pl_text plan) "" || (pl_chatID plan =? 0) then []
       else if pl_edit plan then [EditMessage (pl_chatID plan) (pl_messageID plan) (pl_text plan) (pl_keyboard plan)]
       else [SendMessage (pl_chatID plan) (pl_text plan) (pl_keyboard plan)]))%list.

Definition answerDuplicateCallback (update : TgUpdate) (text : string) : list Answer :=
  match up_CallbackQuery update with
  | Some query => if str_eqb (tq_ID query) "" then [] else [AnswerCallback (tq_ID query) text false]
  | None => []
  end.

(** [Process]: the error it returns, if any, and what it tells Telegram *)
Definition Process (update : TgUpdate) (requestID : string) : Script Database (option Error * list Answer) :=
  if up_ID update <? 0 then mret (Some ErrInvalidInput, [])
  else
    claim ← run_result (UpdateService.Claim (ro_staleAfter rt) (up_ID update) (ClassifyUpdate update));
    match claim with
    | inl e => mret (Some e, answerDuplicateCallback update "Vui lòng thử lại.")
    | inr UpdateClaimed =>
        planned ← script_result (dispatch update requestID);
        match planned with
        | inl e =>
            run_result (UpdateService.FailWith (up_ID update) (errorCode e)) ≫= fun _ =>
            mret (Some e, answerDuplicateCallback update (userError e))
        | inr plan =>
            if pl_completed plan then mret (None, executePlan plan)
            else
              completed ← run_result (UpdateService.Complete (up_ID update));
              match completed with
              | inl e =>
                  run_result (UpdateService.FailWith (up_ID update) "receipt_completion_failed") ≫= fun _ =>
                  mret (Some e, [])
              | inr _ => mret (None, executePlan plan)
              end
        end
    | inr _ => mret (None, answerDuplicateCallback update "Đã xử lý.")
    end.
End Router.
