(* ===== verification/Scripts.v ===== *)
(** * What scripts do to the state

    The services and the router are scripts: actions on the store in a row.  A script
    has its [effects] bounded by a relation when all its actions have; what an
    administrator alone may do comes after a check that [guards] it.  Every service
    is treated once, for a relation that the operations of the shop respect and for
    two kinds of senders: those who may perform all operations, and customers, whom
    the checks stop before an operation that is not theirs. *)

From S2P Require Import Prelude Text Domain Schema Tx Tables Models AdminModels QOrders QInventory QPayments.
From S2P Require Import QWallet.
From S2P Require Import QUsers QCatalog QBanks QDelivery QReports UpdateStore AdminStore CatalogStore InventoryStore.
From S2P Require Import DeliveryStore PaymentStore WalletStore OrderService OrderStore AdminService WalletService.
From S2P Require Import InventoryAdmin BankAccounts PaymentAdmin ProviderAdmin DeliveryAdmin Steps.

Section Effects.
Context {S : Type} (I : S -> Prop) (Rel : S -> S -> Prop) `{!PreOrder Rel}.

Definition acts {A} (a : Action S A) : Prop :=
  forall env s, I s -> I (after a env s) /\ Rel s (after a env s).

Definition effects {A} (m : Script S A) : Prop :=
  forall envs s n r s' n', I s -> m envs (s, n) = (r, (s', n')) -> I s' /\ Rel s s'.

(** A script that returns only when [P] holds *)
Definition guards (P : Prop) {A} (m : Script S A) : Prop :=
  forall envs s n a sn', I s -> m envs (s, n) = (inr a, sn') -> P.

Lemma effects_ret {A} (a : A) : effects (mret a).
Proof. intros envs s n r s' n' Hs Heq. injection Heq as _ <- _. by split. Qed.

Lemma effects_stop {A} e : effects (stop (A := A) e).
Proof. intros envs s n r s' n' Hs Heq. injection Heq as _ <- _. by split. Qed.

Lemma effects_now : effects now_script.
Proof. intros envs s n r s' n' Hs Heq. injection Heq as _ <- _. by split. Qed.

Lemma effects_bind {A B} (m : Script S A) (k : A -> Script S B) :
  effects m -> (forall a, effects (k a)) -> effects (m ≫= k).
Proof.
  intros Hm Hk envs s n r s' n' Hs Heq. unfold mbind, Script_bind in Heq.
  destruct (m envs (s, n)) as [[e|a] [s1 n1]] eqn:E; destruct (Hm _ _ _ _ _ _ Hs E) as [Hs1 H1].
  - injection Heq as _ <- _. by split.
  - destruct (Hk _ _ _ _ _ _ _ Hs1 Heq) as [Hs' H2]. split; [done|]. by transitivity s1.
Qed.

(** After a check only what it lets through matters. *)
Lemma effects_guarded {A B} (P : Prop) (m : Script S A) (k : A -> Script S B) :
  guards P m -> effects m -> (P -> forall a, effects (k a)) -> effects (m ≫= k).
Proof.
  intros Hg Hm Hk envs s n r s' n' Hs Heq. unfold mbind, Script_bind in Heq.
  destruct (m envs (s, n)) as [[e|a] [s1 n1]] eqn:E; destruct (Hm _ _ _ _ _ _ Hs E) as [Hs1 H1].
  - injection Heq as _ <- _. by split.
  - destruct (Hk (Hg _ _ _ _ _ Hs E) _ _ _ _ _ _ _ Hs1 Heq) as [Hs' H2]. split; [done|]. by transitivity s1.
Qed.

Lemma effects_run {A} (a : Action S A) : acts a -> effects (run a).
Proof.
  intros Ha envs s n r s' n' Hs Heq. apply run_inv in Heq.
  specialize (Ha (envs n) s Hs). unfold after in Ha. by rewrite Heq in Ha.
Qed.

Lemma effects_run_result {A} (a : Action S A) : acts a -> effects (run_result a).
Proof.
  intros Ha envs s n r s' n' Hs Heq. unfold run_result in Heq. cbn in Heq.
  specialize (Ha (envs n) s Hs). unfold after in Ha. destruct (a (envs n) s) as [r0 s0].
  by injection Heq as _ <- _.
Qed.

Lemma effects_script_result {A} (m : Script S A) : effects m -> effects (script_result m).
Proof.
  intros Hm envs s n r s' n' Hs Heq. unfold script_result in Heq.
  destruct (m envs (s, n)) as [r0 [s0 n0]] eqn:E. injection Heq as _ <- _. by eapply Hm.
Qed.

Lemma effects_script_guarded {A B} (P : Prop) (m : Script S A) (k : Error + A -> Script S B) :
  guards P m -> effects m -> (forall e, effects (k (inl e))) -> (P -> forall a, effects (k (inr a))) ->
  effects (script_result m ≫= k).
Proof.
  intros Hg Hm Hl Hr envs s n r s' n' Hs Heq. unfold mbind, Script_bind, script_result in Heq.
  destruct (m envs (s, n)) as [[e|a] [s1 n1]] eqn:E; destruct (Hm _ _ _ _ _ _ Hs E) as [Hs1 H1].
  - destruct (Hl _ _ _ _ _ _ _ Hs1 Heq) as [Hs' H2]. split; [done|]. by transitivity s1.
  - destruct (Hr (Hg _ _ _ _ _ Hs E) _ _ _ _ _ _ _ Hs1 Heq) as [Hs' H2]. split; [done|]. by transitivity s1.
Qed.

Lemma acts_reject {A} e : acts (reject (A := A) e).
Proof. intros env s Hs. by split. Qed.

Lemma acts_readonly {A} (m : Tx S A) : readonly m -> acts (WithinTransaction m).
Proof.
  intros Hm env s Hs. unfold after. destruct (WithinTransaction m env s) as [r s'] eqn:E.
  apply (respects_transaction eq) in E; [|done]. by subst s'.
Qed.

Lemma guards_bind {A B} P (m : Script S A) (k : A -> Script S B) : guards P m -> guards P (m ≫= k).
Proof.
  intros Hg envs s n b [s' n'] Hs Heq. apply script_bind_inv in Heq as (a & [s1 n1] & E & _). by eapply Hg.
Qed.
End Effects.

Create HintDb script discriminated.
#[export] Hint Constants Opaque : script.
#[export] Hint Resolve effects_ret effects_stop effects_now : script.

(** Take a script apart; [act] is what proves the bounds of its actions. *)
Ltac script_step act :=
  lazymatch goal with
  | |- forall _, _ => intros ?
  | |- effects _ _ (mret _) => apply effects_ret; apply _
  | |- effects _ _ (stop _) => apply effects_stop; apply _
  | |- effects _ _ now_script => apply effects_now; apply _
  | |- effects _ _ (match ?x with _ => _ end) => destruct x
  | |- effects _ _ (run _) => apply effects_run; act
  | |- effects _ _ (run_result _) => apply effects_run_result; act
  | |- _ => first
      [ solve [eauto with script nocore]
      | lazymatch goal with
        | |- effects _ _ (script_result _) => apply effects_script_result
        | |- effects _ _ (_ ≫= _) => apply effects_bind; [apply _ | |]
        end ]
  end.

(** ** The services *)

(** What a sender may do: the operations of customers stay within the relation; the
    others do when the sender is [trusted], and otherwise he is stopped. *)
Record Clearance (I : Database -> Prop) (Rel : Database -> Database -> Prop) (trusted : Prop) (sender : Z) : Prop := {
  clear_operation op env d : by_customer op = true \/ trusted -> I d -> I (perform op env d) /\ Rel d (perform op env d);
  clear_guard mutation : guards I trusted (AdminService.Authorize sender mutation) }.

(** The operation that an action of the store is *)
Ltac operation_of a :=
  lazymatch a with
  | ClaimUpdate ?u ?t ?s => constr:(OpClaimUpdate u t s)
  | UpdateStore.CompleteUpdate ?u => constr:(OpCompleteUpdate u)
  | FailUpdate ?u ?c => constr:(OpFailUpdate u c)
  | AdminStore.StartSession ?a ?s ?p ?e ?m => constr:(OpStartSession a s p e m)
  | AdminStore.AdvanceSession ?a ?s ?st ?p ?e ?m => constr:(OpAdvanceSession a s st p e m)
  | AdminStore.CancelSession ?a ?s ?m => constr:(OpCancelSession a s m)
  | Create ?s ?c => constr:(OpCreateOrder s c)
  | Cancel ?c => constr:(OpCancelOrder c)
  | ManualAcceptPayment ?c ?t ?ttl ?n => constr:(OpManualAccept c t ttl n)
  | PaymentAdmin.ResolvePaymentReview ?c => constr:(OpResolveReview c)
  | ProviderAdmin.CreatePaymentProviderAccount ?a ?s ?c ?f => constr:(OpCreateProviderAccount a s c f)
  | SetPaymentProviderAccountStatus ?a ?s ?c => constr:(OpSetProviderAccount a s c)
  | CatalogStore.CreateCategory ?a ?s ?i => constr:(OpCreateCategory a s i)
  | CatalogStore.UpdateCategory ?a ?s ?i => constr:(OpUpdateCategory a s i)
  | CatalogStore.SetCategoryActive ?a ?s ?i => constr:(OpSetCategoryActive a s i)
  | CatalogStore.CreateProduct ?a ?s ?i => constr:(OpCreateProduct a s i)
  | CatalogStore.UpdateProduct ?a ?s ?i => constr:(OpUpdateProduct a s i)
  | CatalogStore.SetProductActive ?a ?s ?i => constr:(OpSetProductActive a s i)
  | ImportInventory ?a ?s ?p ?l ?n ?r ?m => constr:(OpImportInventory a s p l n r m)
  | SetInventoryItemEnabled ?a ?s ?i ?v ?e ?m => constr:(OpSetItemEnabled a s i v e m)
  | CreateBankAccount ?a ?s ?i ?p => constr:(OpCreateBank a s i p)
  | UpdateBankAccount ?a ?s ?i ?p => constr:(OpUpdateBank a s i p)
  | SetBankAccountActive ?a ?s ?i => constr:(OpSetBankActive a s i)
  | RetryDelivery ?u ?c ?t => constr:(OpRetryDelivery u c t)
  | CompleteDelivery ?u ?c ?t => constr:(OpCompleteDelivery u c t)
  end.

Section Services.
Context (I : Database -> Prop) (Rel : Database -> Database -> Prop) (trusted : Prop) (sender : Z).

(** An action that is an operation *)
Lemma acts_operation {A} (a : Action Database A) op :
  Clearance I Rel trusted sender -> perform op = after a -> by_customer op = true \/ trusted -> acts I Rel a.
Proof. intros Hclear Heq Hop env d Hd. rewrite <- Heq. by apply (clear_operation _ _ _ _ Hclear). Qed.
End Services.

Ltac act :=
  lazymatch goal with
  | H : Clearance ?I ?Rel ?t ?s |- acts ?I ?Rel ?a =>
      let op := operation_of a in
      apply (acts_operation I Rel t s a op H); [reflexivity | first [by left | by right]]
  end.
Ltac bounded := first [solve [eauto with script nocore] | act].
(** Take a script apart. *)
Ltac script := repeat (cbv zeta; script_step bounded).
(** What follows the authorization of the sender is done by one who is trusted. *)
Ltac authorized := eapply effects_guarded; [apply _ | solve [eauto with script nocore] | solve [eauto with script nocore] | intros ?; script].
Ltac service := repeat first [progress cbv zeta | case_match; [apply effects_stop; apply _|] | authorized | progress script].

Section Actions.
Context (I : Database -> Prop) (Rel : Database -> Database -> Prop) `{!PreOrder Rel}.
Context (trusted : Prop) (sender : Z) (Hclear : Clearance I Rel trusted sender).
Abbreviation acts := (acts I Rel).
Abbreviation effects := (effects I Rel).

(** *** Readers *)

Ltac reads := apply acts_readonly; [apply _ |]; unfold readonly; tx_auto.

Lemma acts_AuthorizeAdmin t : acts (AuthorizeAdmin t).
Proof. reads. Qed.
Lemma acts_GetActiveSession t : acts (GetActiveSession t).
Proof. reads. Qed.
Lemma acts_ListActiveCategories o l : acts (ListActiveCategories o l).
Proof. reads. Qed.
Lemma acts_ListActiveProducts c o l : acts (ListActiveProducts c o l).
Proof. reads. Qed.
Lemma acts_GetActiveProduct p : acts (GetActiveProduct p).
Proof. reads. Qed.
Lemma acts_ListAdminCategories o l : acts (ListAdminCategories o l).
Proof. reads. Qed.
Lemma acts_ListAdminProducts o l : acts (ListAdminProducts o l).
Proof. reads. Qed.
Lemma acts_ListInventoryOverview a o l : acts (ListInventoryOverview a o l).
Proof. unfold ListInventoryOverview, list_overview_tx. reads. Qed.
Lemma acts_ListRedactedInventory a p o l : acts (ListRedactedInventory a p o l).
Proof. unfold ListRedactedInventory, list_redacted_tx. reads. Qed.
Lemma acts_ListActiveBankAccounts e : acts (ListActiveBankAccounts e).
Proof. reads. Qed.
Lemma acts_ListAdminBankAccounts o l : acts (ListAdminBankAccounts o l).
Proof. reads. Qed.
Lemma acts_ListPaymentReviews t o l : acts (ListPaymentReviews t o l).
Proof. reads. Qed.
Lemma acts_ListPaymentProviderAccounts le o l : acts (PaymentProviderAdminService.ListPaymentProviderAccounts le o l).
Proof. reads. Qed.
Lemma acts_GetPaymentProviderHealth p e : acts (ProviderAdmin.GetPaymentProviderHealth p e).
Proof. reads. Qed.
Lemma acts_ListDeliveryReviews u t o l : acts (ListDeliveryReviews u t o l).
Proof. reads. Qed.
Lemma acts_GetDeliveryReview u t j : acts (GetDeliveryReview u t j).
Proof. reads. Qed.
Lemma acts_ReconcileDeliveryForAdmin t s : acts (ReconcileDeliveryForAdmin t s).
Proof. reads. Qed.
Lemma acts_DeliveryQueueDepthForAdmin t : acts (DeliveryQueueDepthForAdmin t).
Proof. reads. Qed.

(** *** Actions with checks of their own *)

Lemma acts_ListOrders t o l : acts (ListOrdersOwnedByTelegramUser t o l).
Proof. unfold ListOrdersOwnedByTelegramUser. reads. Qed.
Lemma acts_GetOrder t o : acts (GetOrderOwnedByTelegramUser t o).
Proof. unfold GetOrderOwnedByTelegramUser. reads. Qed.

(** An action that post-processes what another returns has its effects. *)
Lemma acts_same {A B} (a : Action Database A) (b : Action Database B) :
  (forall env d, after a env d = d \/ after a env d = after b env d) -> acts b -> acts a.
Proof.
  intros Heq Hb env d Hd. destruct (Heq env d) as [-> | ->]; [by split | by apply Hb].
Qed.

Lemma acts_orders_list s t p : acts (OrderStore.List s t p).
Proof.
  apply (acts_same _ (ListOrdersOwnedByTelegramUser t (wrap32 (wrap64 (p * pageSize s))) (wrap32 (pageSize s)))); [|apply acts_ListOrders]. intros env d. unfold after, OrderStore.List.
  destruct (_ || _); [by left|right]. by destruct (ListOrdersOwnedByTelegramUser _ _ _ env d) as [[?|[? ?]] ?].
Qed.
Lemma acts_orders_get s t o : acts (OrderStore.Get s t o).
Proof.
  apply (acts_same _ (GetOrderOwnedByTelegramUser t o)); [|apply acts_GetOrder]. intros env d. unfold after, OrderStore.Get.
  destruct (_ || _); [by left|right]. destruct (GetOrderOwnedByTelegramUser _ _ env d) as [[?|?] ?]; [done|].
  destruct (_ =? _); [done|]. by destruct (instruction _ _).
Qed.
Lemma acts_balance t : acts (WalletService.Balance t).
Proof.
  unfold WalletService.Balance. destruct (t <=? 0); [apply acts_reject; apply _|].
  apply (acts_operation _ _ _ _ _ (OpEnsureWallet t) Hclear); [reflexivity | by left].
Qed.
Lemma acts_create_topup s ref dec gen c : acts (WalletService.CreateTopup s ref dec gen c).
Proof.
  intros env d Hd. unfold after, WalletService.CreateTopup.
  destruct (negb _); [by split|]. destruct ref as [e|reference]; [by split|].
  match goal with |- context [CreateWalletTopup ?c ?r ?t env d] =>
    pose proof (clear_operation _ _ _ _ Hclear (OpCreateTopup c r t) env d (or_introl eq_refl) Hd) as H end.
  simpl in H. unfold after in H. destruct (CreateWalletTopup _ _ _ env d) as [[e|[tp dup]] d']; [done|].
  by destruct (WalletService.topup_instruction _ _ _).
Qed.
Lemma acts_pay_order s c : acts (WalletService.PayOrder s c).
Proof.
  intros env d Hd. unfold after, WalletService.PayOrder. destruct (_ || _); [by split|].
  exact (clear_operation _ _ _ _ Hclear (OpPayOrder c (env_now env) _ _) env d (or_introl eq_refl) Hd).
Qed.
Lemma acts_adjust c : trusted -> acts (WalletService.Adjust c).
Proof.
  intros Ht env d Hd. unfold after, WalletService.Adjust. cbv zeta. destruct (_ || _); [by split|].
  exact (clear_operation _ _ _ _ Hclear (OpAdjustWallet _ (env_now env)) env d (or_intror Ht) Hd).
Qed.
Lemma acts_upsert p : acts (CatalogStore.UpsertTelegramUser p).
Proof.
  intros env d Hd.
  pose proof (clear_operation _ _ _ _ Hclear
    (OpUpsertUser (tpf_telegram_user_id p) (optionalText (tpf_username p))
       (optionalText (TrimSpace (tpf_first_name p ++ " " ++ tpf_last_name p)%string))) env d (or_introl eq_refl) Hd) as H.
  unfold perform, after, autocommit, WithinTransaction in H.
  unfold after, CatalogStore.UpsertTelegramUser, autocommit, WithinTransaction. cbv zeta.
  unfold mbind, Tx_bind. destruct (env_begin env); [|done..].
  destruct (QUsers.UpsertTelegramUser _ _ _ env d) as [u d1|e]; [|done]. by destruct (env_commit env).
Qed.
Lemma acts_claim s u t : acts (UpdateService.Claim s u t).
Proof.
  intros env d Hd. unfold after, UpdateService.Claim. destruct (_ || _); [by split|].
  exact (clear_operation _ _ _ _ Hclear (OpClaimUpdate u t _) env d (or_introl eq_refl) Hd).
Qed.
Lemma acts_complete u : acts (UpdateService.Complete u).
Proof. apply (acts_operation _ _ _ _ _ (OpCompleteUpdate u) Hclear); [reflexivity | by left]. Qed.
Lemma acts_fail u c : acts (UpdateService.FailWith u c).
Proof.
  unfold UpdateService.FailWith. cbv zeta.
  match goal with |- acts (FailUpdate u ?c) => apply (acts_operation _ _ _ _ _ (OpFailUpdate u c) Hclear); [reflexivity | by left] end.
Qed.

#[local] Hint Resolve acts_AuthorizeAdmin acts_GetActiveSession acts_ListActiveCategories acts_ListActiveProducts
  acts_GetActiveProduct acts_ListAdminCategories acts_ListAdminProducts acts_ListInventoryOverview
  acts_ListRedactedInventory acts_ListActiveBankAccounts acts_ListAdminBankAccounts acts_ListPaymentReviews
  acts_ListPaymentProviderAccounts acts_GetPaymentProviderHealth acts_ListDeliveryReviews acts_GetDeliveryReview
  acts_ReconcileDeliveryForAdmin acts_DeliveryQueueDepthForAdmin acts_orders_list acts_orders_get acts_balance
  acts_create_topup acts_pay_order acts_adjust acts_upsert acts_claim acts_complete acts_fail : script.

(** *** Scripts *)

Lemma Authorize_effects t m : effects (AdminService.Authorize t m).
Proof. unfold AdminService.Authorize. script. Qed.
Lemma Authorize_guards m : guards I trusted (AdminService.Authorize sender m).
Proof. apply (clear_guard _ _ _ _ Hclear). Qed.
#[local] Hint Resolve Authorize_effects Authorize_guards : script.

Lemma LoadSession_effects t : effects (AdminService.LoadSession t).
Proof. unfold AdminService.LoadSession. script. Qed.
Lemma LoadSession_guards : guards I trusted (AdminService.LoadSession sender).
Proof. unfold AdminService.LoadSession. apply guards_bind, Authorize_guards. Qed.

Lemma Sync_effects p : effects (UserService.Sync p).
Proof. unfold UserService.Sync. script. Qed.

Lemma change_effects {A} b (store : Admin -> Action Database A) :
  (trusted -> forall a, acts (store a)) -> effects (AdminService.change b sender store).
Proof. intros Hs. unfold AdminService.change. service. Qed.

Lemma StartSession_effects ttl state p m : effects (AdminService.StartSession ttl sender state p m).
Proof. unfold AdminService.StartSession, AdminService.with_deadline. service. Qed.
Lemma AdvanceSession_effects ttl s state p m : effects (AdminService.AdvanceSession ttl sender s state p m).
Proof. unfold AdminService.AdvanceSession, AdminService.with_deadline. service. Qed.
Lemma CancelSession_effects s m : effects (AdminService.CancelSession sender s m).
Proof. unfold AdminService.CancelSession. service. Qed.
#[local] Hint Resolve LoadSession_effects Sync_effects change_effects StartSession_effects AdvanceSession_effects
  CancelSession_effects : script.
Ltac a_change := cbv zeta; apply change_effects; intros; act.

Lemma CreateCategory_effects s i : effects (AdminService.CreateCategory sender s i).
Proof. unfold AdminService.CreateCategory. a_change. Qed.
Lemma UpdateCategory_effects s i : effects (AdminService.UpdateCategory sender s i).
Proof. unfold AdminService.UpdateCategory. a_change. Qed.
Lemma SetCategoryActive_effects s i : effects (AdminService.SetCategoryActive sender s i).
Proof. unfold AdminService.SetCategoryActive. a_change. Qed.
Lemma CreateProduct_effects s i : effects (AdminService.CreateProduct sender s i).
Proof. unfold AdminService.CreateProduct. a_change. Qed.
Lemma UpdateProduct_effects s i : effects (AdminService.UpdateProduct sender s i).
Proof. unfold AdminService.UpdateProduct. a_change. Qed.
Lemma SetProductActive_effects s i : effects (AdminService.SetProductActive sender s i).
Proof. unfold AdminService.SetProductActive. a_change. Qed.
Lemma SetBankActive_effects s i : effects (BankAccountService.SetActive sender s i).
Proof. unfold BankAccountService.SetActive. a_change. Qed.
Lemma CreateBank_effects c pr s i : effects (BankAccountService.Create c pr sender s i).
Proof. unfold BankAccountService.Create. service. Qed.
Lemma UpdateBank_effects pr s i : effects (BankAccountService.Update pr sender s i).
Proof. unfold BankAccountService.Update. service. Qed.
Lemma Import_effects l pr s p raw m : effects (InventoryAdminService.Import l pr sender s p raw m).
Proof. unfold InventoryAdminService.Import. service. Qed.
Lemma SetItemEnabled_effects s i v e m : effects (InventoryAdminService.SetItemEnabled sender s i v e m).
Proof. unfold InventoryAdminService.SetItemEnabled. service. Qed.
Lemma CreateAccount_effects h l c : cpa_admin_telegram_id c = sender ->
  effects (PaymentProviderAdminService.CreateAccount h l c).
Proof.
  intros Hs. unfold PaymentProviderAdminService.CreateAccount. cbv zeta.
  change (cpa_admin_telegram_id (PaymentProviderAdminService.normalize_account c)) with (cpa_admin_telegram_id c).
  rewrite Hs. a_change.
Qed.
Lemma SetAccountActive_effects c : spa_admin_telegram_id c = sender ->
  effects (PaymentProviderAdminService.SetAccountActive c).
Proof. intros Hs. unfold PaymentProviderAdminService.SetAccountActive. rewrite Hs. a_change. Qed.

(** Those that the store authorizes are reached only through a session. *)
Lemma ManualConfirm_effects s c : trusted -> effects (PaymentAdminService.ManualConfirm s c).
Proof. intros Ht. unfold PaymentAdminService.ManualConfirm. script. Qed.
Lemma ResolveReview_effects c : trusted -> effects (PaymentAdminService.ResolveReview c).
Proof. intros Ht. unfold PaymentAdminService.ResolveReview. script. Qed.
Lemma Retry_effects u c : trusted -> effects (DeliveryAdminService.Retry u c).
Proof. intros Ht. unfold DeliveryAdminService.Retry. script. Qed.
Lemma Complete_effects u c : trusted -> effects (DeliveryAdminService.Complete u c).
Proof. intros Ht. unfold DeliveryAdminService.Complete. script. Qed.

(** Readers *)
Lemma paged_effects {A B} n p (l : Z -> Z -> Action Database (A * Z)) (build : A -> PageInfo -> B) :
  (forall x y, acts (l x y)) -> effects (CatalogService.paged n p l build).
Proof. intros Hl. unfold CatalogService.paged. script. Qed.
Lemma ListCategories_effects n p : effects (CatalogService.ListCategories n p).
Proof. apply paged_effects, acts_ListActiveCategories. Qed.
Lemma ListProducts_effects n c p : effects (CatalogService.ListProducts n c p).
Proof. unfold CatalogService.ListProducts. script. apply paged_effects, acts_ListActiveProducts. Qed.
Lemma GetProduct_effects p : effects (CatalogService.GetProduct p).
Proof. unfold CatalogService.GetProduct. script. Qed.
Lemma ListAdminCategories_effects n p : effects (CatalogService.ListAdminCategories n p).
Proof. apply paged_effects, acts_ListAdminCategories. Qed.
Lemma ListAdminProducts_effects n p : effects (CatalogService.ListAdminProducts n p).
Proof. apply paged_effects, acts_ListAdminProducts. Qed.
Lemma inventory_paged_effects {A B} n t p (l : Admin -> Z -> Z -> Action Database (A * Z)) (build : A -> PageInfo -> B) :
  (forall a x y, acts (l a x y)) -> effects (InventoryAdminService.paged n t p l build).
Proof. intros Hl. unfold InventoryAdminService.paged. script. Qed.
Lemma ListOverview_effects n t p : effects (InventoryAdminService.ListOverview n t p).
Proof. apply inventory_paged_effects, acts_ListInventoryOverview. Qed.
Lemma ListItems_effects n t i p : effects (InventoryAdminService.ListItems n t i p).
Proof. unfold InventoryAdminService.ListItems. script. apply inventory_paged_effects. intros. apply acts_ListRedactedInventory. Qed.
Lemma ListActive_effects s : effects (BankAccountService.ListActive s).
Proof. unfold BankAccountService.ListActive. script. Qed.
Lemma ListAdmin_effects s t p : effects (BankAccountService.ListAdmin s t p).
Proof. unfold BankAccountService.ListAdmin. script. Qed.
Lemma ListReviews_effects s t p : effects (PaymentAdminService.ListReviews s t p).
Proof. unfold PaymentAdminService.ListReviews. script. Qed.
Lemma ListAccounts_effects le n t p : effects (PaymentProviderAdminService.ListAccounts le n t p).
Proof. unfold PaymentProviderAdminService.ListAccounts. script. Qed.
Lemma health_of_effects l : effects (PaymentProviderAdminService.health_of l).
Proof. induction l; simpl; script. Qed.
Lemma Health_effects l t : effects (PaymentProviderAdminService.Health l t).
Proof. pose proof health_of_effects. unfold PaymentProviderAdminService.Health. script. Qed.
Lemma Reconcile_effects s t : effects (DeliveryAdminService.Reconcile s t).
Proof. unfold DeliveryAdminService.Reconcile. script. Qed.
Lemma List_effects u s t p : effects (DeliveryAdminService.List u s t p).
Proof. unfold DeliveryAdminService.List. script. Qed.
Lemma Get_effects u t j : effects (DeliveryAdminService.Get u t j).
Proof. unfold DeliveryAdminService.Get. script. Qed.
End Actions.

#[export] Hint Extern 1 (_ = _) => reflexivity : script.
#[export] Hint Resolve acts_AuthorizeAdmin acts_GetActiveSession acts_ListActiveCategories acts_ListActiveProducts
  acts_GetActiveProduct acts_ListAdminCategories acts_ListAdminProducts acts_ListInventoryOverview
  acts_ListRedactedInventory acts_ListActiveBankAccounts acts_ListAdminBankAccounts
  acts_ListPaymentReviews acts_ListPaymentProviderAccounts acts_GetPaymentProviderHealth
  acts_ListDeliveryReviews acts_GetDeliveryReview acts_ReconcileDeliveryForAdmin
  acts_DeliveryQueueDepthForAdmin acts_ListOrders acts_GetOrder acts_orders_list acts_orders_get
  acts_balance acts_create_topup acts_pay_order acts_adjust acts_upsert acts_claim acts_complete
  acts_fail Authorize_effects Authorize_guards LoadSession_effects LoadSession_guards Sync_effects
  change_effects StartSession_effects AdvanceSession_effects CancelSession_effects CreateCategory_effects
  UpdateCategory_effects SetCategoryActive_effects CreateProduct_effects UpdateProduct_effects
  SetProductActive_effects SetBankActive_effects CreateBank_effects UpdateBank_effects Import_effects
  SetItemEnabled_effects CreateAccount_effects SetAccountActive_effects ManualConfirm_effects
  ResolveReview_effects Retry_effects Complete_effects ListCategories_effects ListProducts_effects
  GetProduct_effects ListAdminCategories_effects ListAdminProducts_effects ListOverview_effects
  ListItems_effects ListActive_effects ListAdmin_effects ListReviews_effects ListAccounts_effects
  health_of_effects Health_effects Reconcile_effects List_effects Get_effects : script.
