(* ===== verification/History.v ===== *)
(** * What an update does to the shop

    The effects of the router, for any clearance of its sender.  Two of its uses: the
    processing of an update is a history of the shop, so that what holds in every
    history holds whatever the users of the bot send; and an update of somebody who
    is not an administrator leaves all that administrators administer as it was. *)

From S2P Require Import Prelude Text Domain Schema Tx Tables Models AdminModels QOrders QInventory QPayments.
From S2P Require Import QWallet.
From S2P Require Import QUsers QCatalog QBanks QDelivery QReports UpdateStore AdminStore CatalogStore InventoryStore.
From S2P Require Import DeliveryStore PaymentStore WalletStore OrderService OrderStore AdminService WalletService.
From S2P Require Import InventoryAdmin BankAccounts PaymentAdmin ProviderAdmin DeliveryAdmin Steps Scripts.
From S2P Require Import Lifecycle Checkout Parser View Workflows Router Demo.

#[local] Hint Extern 0 (Clearance _ _ _ _) => eassumption : script.

Ltac routed := service; eauto with script nocore.

Section Effects.
Context (I : Database -> Prop) (Rel : Database -> Database -> Prop) `{!PreOrder Rel}.
Context (trusted : Prop) (sender : Z) (Hclear : Clearance I Rel trusted sender) (rt : Workflows.Router).
Abbreviation effects := (effects I Rel).


Lemma start_session_effects state p m : effects (start_session rt sender state p m).
Proof. unfold start_session. routed. Qed.
Lemma advance_session_effects s p m : effects (advance_session rt sender s p m).
Proof. unfold advance_session. routed. Qed.
#[local] Hint Resolve start_session_effects advance_session_effects : script.
Lemma ask_next_effects s p m q plan : effects (ask_next rt sender s p m q plan).
Proof. unfold ask_next. routed. Qed.
#[local] Hint Resolve ask_next_effects : script.

(** *** The conversations of an administrator *)

Section Trusted.
Context (Htrusted : trusted).

Lemma bank_text_effects t s p m plan : effects (handleBankSessionText rt sender t s p m plan).
Proof. unfold handleBankSessionText. routed. Qed.
Lemma product_text_effects t s p m plan : effects (handleProductSessionText rt sender t s p m plan).
Proof. unfold handleProductSessionText, create_product, update_product. routed. Qed.
Lemma category_text_effects t s p m plan : effects (handle_category_text rt sender t s p m plan).
Proof. unfold handle_category_text. routed. Qed.
Lemma delivery_text_effects t s p m plan : effects (handle_delivery_text rt sender t s p m plan).
Proof. unfold handle_delivery_text. routed. Qed.
Lemma provider_text_effects t s p m plan : effects (handle_provider_text rt sender t s p m plan).
Proof. unfold handle_provider_text. routed. Qed.
Lemma import_text_effects t s p m plan : effects (handle_import_text rt sender t s p m plan).
Proof. unfold handle_import_text. routed. Qed.
Lemma manual_payment_text_effects t s m plan : effects (handle_manual_payment_text rt sender t s m plan).
Proof. unfold handle_manual_payment_text. routed. Qed.
Lemma review_text_effects t s p m plan : effects (handle_review_text sender t s p m plan).
Proof. unfold handle_review_text. routed. Qed.
Lemma adjustment_text_effects t s m plan : effects (handle_adjustment_text sender t s m plan).
Proof. unfold handle_adjustment_text. routed. Qed.
#[local] Hint Resolve bank_text_effects product_text_effects category_text_effects delivery_text_effects
  provider_text_effects import_text_effects manual_payment_text_effects review_text_effects adjustment_text_effects : script.

Lemma handleSessionText_effects u q c t s : effects (handleSessionText rt u q sender c t s).
Proof. unfold handleSessionText. routed. Qed.
End Trusted.

(** *** Buttons *)

Lemma begin_workflow_effects state p m view plan : effects (begin_workflow rt sender state p m view plan).
Proof. unfold begin_workflow. routed. Qed.
Lemma carried_session_effects c : effects (carried_session sender c).
Proof. unfold carried_session. routed. Qed.
Lemma with_providers_effects act : (forall l n, effects (act l n)) -> effects (with_providers rt act).
Proof. intros Hact. unfold with_providers. routed. Qed.
#[local] Hint Resolve begin_workflow_effects carried_session_effects : script.

(** A delivery is confirmed only within a session, which only an administrator has. *)
Lemma confirm_delivery_effects c m plan : effects (confirm_delivery rt sender c m plan).
Proof.
  unfold confirm_delivery. eapply effects_guarded; [apply _ | eapply LoadSession_guards; eassumption
    | solve [eauto with script nocore] | intros ?; routed].
Qed.
#[local] Hint Resolve confirm_delivery_effects : script.

Lemma routeCallback_effects c m plan : effects (routeCallback rt sender c m plan).
Proof.
  unfold routeCallback. cbv zeta. destruct (cb_Action c);
    try (apply with_providers_effects; intros);
    unfold with_banks, choose_bank, confirm_order, ask_cancel, cancel_order, ask_wallet, pay_order, Router.create_topup,
      wallet_adjustment, toggle_provider, toggle_bank, toggle_item, toggle_category, toggle_product, cancel_session;
    routed.
Qed.

(** *** Messages and updates *)

Lemma handleCommand_effects u c from user cmd : effects (handleCommand rt u c from user cmd).
Proof. unfold handleCommand. routed. Qed.
#[local] Hint Resolve routeCallback_effects handleCommand_effects : script.

Lemma handleMessage_effects u q message :
  (forall from, tm_From message = Some from -> tg_ID from = sender) -> effects (handleMessage rt u q message).
Proof.
  intros Hsender. unfold handleMessage. destruct (tm_From message) as [from|]; [|routed].
  rewrite (Hsender from eq_refl). cbv zeta. case_match; [routed|].
  eapply effects_bind; [apply _ | routed |]. intros [e|user]; [destruct e; routed|].
  destruct (ParseCommand (tm_Text message)) as [command|]; [routed|]. destruct (str_eqb (tm_Text message) ""); [routed|].
  eapply effects_script_guarded; [apply _ | eapply LoadSession_guards; eassumption | routed | intros; routed |].
  intros Ht session. by apply handleSessionText_effects.
Qed.

Lemma handleCallback_effects u q query : tg_ID (tq_From query) = sender -> effects (handleCallback rt u q query).
Proof.
  intros Hsender. unfold handleCallback. destruct (default (0, 0) (tq_Message query)) as [chat message]. cbv zeta.
  rewrite Hsender. case_match; [routed|].
  eapply effects_bind; [apply _ | routed |]. intros [e|user]; [destruct e; routed | routed].
Qed.
End Effects.

(** Who an update comes from *)
Definition sender_of (update : TgUpdate) : option Z :=
  match up_Message update, up_CallbackQuery update with
  | Some message, _ => tg_ID <$> tm_From message
  | None, Some query => Some (tg_ID (tq_From query))
  | None, None => None
  end.

Lemma Process_effects I Rel `{!PreOrder Rel} trusted rt update q :
  Clearance I Rel trusted (default 0 (sender_of update)) ->
  effects I Rel (Process rt update q).
Proof.
  intros Hc. unfold Process. case_match; [routed|].
  eapply effects_bind; [apply _ | routed |]. intros [e|[]]; [routed | | routed | routed].
  eapply effects_bind; [apply _ | | intros; routed]. apply effects_script_result. unfold dispatch, sender_of in *.
  destruct (up_Message update) as [message|]; [|destruct (up_CallbackQuery update) as [query|]; [|routed]].
  - eapply handleMessage_effects; [apply _ | exact Hc |]. intros from Hf. by rewrite Hf.
  - eapply handleCallback_effects; [apply _ | exact Hc | done].
Qed.

(** ** An update is a history of the shop *)

Lemma shop_clearance sender : Clearance (fun _ => True) shop_steps True sender.
Proof.
  split; [|done]. intros op env d _ _. split; [done|]. apply rtc_once. by exists op, env.
Qed.

(** ** Only administrators administer *)

(** What the administrators of the shop and its jobs look after *)
Definition administration (d : Database) :=
  (rows AdminRow d, rows AdminSessionRow d, rows CategoryRow d, rows ProductRow d, rows BankAccountRow d,
   rows ReviewCaseRow d, rows ProviderAccountRow d, rows CheckpointRow d, rows PaymentEventRow d, rows AttemptRow d).
Definition administered_alike (d d' : Database) : Prop := administration d' = administration d.
#[export] Instance administered_preorder : PreOrder administered_alike.
Proof. unfold administered_alike. split; [done|]. intros x y z Hxy Hyz. by rewrite Hyz. Qed.
#[local] Hint Extern 0 (Unaffected administered_alike _) => (intros ? ?; reflexivity) : typeclass_instances.

#[export] Instance customers_do_not_administer : PreservedCustomer administered_alike.
Proof. split; preserve. Qed.

(** Nobody with this Telegram id is an administrator, and every administrator is a user. *)
Definition no_administrator (tid : Z) (d : Database) : Prop :=
  forall k a, rows AdminRow d !! k = Some a ->
    exists u, rows User d !! ad_user_id a = Some u /\ u_telegram_user_id u <> tid.

Definition outsider (tid : Z) (d : Database) : Prop := db_wf d /\ no_administrator tid d.

Lemma outsider_step tid op env d :
  by_customer op = true -> outsider tid d -> outsider tid (perform op env d) /\ administered_alike d (perform op env d).
Proof.
  intros Hop [Hwf Hno]. pose proof (perform_customer_ok administered_alike op env d Hop) as Hadm.
  split; [split|exact Hadm]; [exact (perform_ok (keeps db_wf) op env d Hwf)|].
  intros k a Ha. assert (rows AdminRow (perform op env d) = rows AdminRow d) as Heq by (unfold administered_alike, administration in Hadm; congruence).
  rewrite Heq in Ha. destruct (Hno k a Ha) as (u & Hu & Ht).
  destruct (perform_ok (evolves User same_user) op env d _ _ Hu) as (u' & Hu' & _ & Ht').
  exists u'. split; [done | congruence].
Qed.

Lemma outsider_authorize tid env d a d' :
  outsider tid d -> AuthorizeAdmin tid env d = (inr a, d') -> False.
Proof.
  intros [Hwf Hno] Hrun. apply transaction_ok_inv in Hrun. unfold authorizeAdmin in Hrun.
  apply bind_Ok_inv in Hrun as ([ad u] & d1 & Hget%or_no_rows_inv & _).
  unfold GetAdminAuthorizationByTelegramID in Hget.
  apply bind_Ok_inv in Hget as (u0 & d2 & (-> & Htid & ku & Hu)%find_row_Ok & Hget).
  apply bind_Ok_inv in Hget as (a0 & d3 & (-> & Hid & ka & Ha)%find_row_Ok & _).
  destruct (Hno ka a0 Ha) as (u1 & Hu1 & Hne). apply Z.eqb_eq in Hid, Htid.
  assert (ku = u_id u0) as -> by (symmetry; exact (wf_key User d (db_table d Hwf) ku u0 Hu)).
  rewrite Hid in Hu1. rewrite Hu in Hu1. congruence.
Qed.

Lemma outsider_clearance tid : Clearance (outsider tid) administered_alike False tid.
Proof.
  split.
  - intros op env d [Hop|[]] Hd. by apply outsider_step.
  - intros m envs d n a [d' n'] Hd Hrun. unfold AdminService.Authorize in Hrun.
    destruct (tid <=? 0); [discriminate|].
    apply script_bind_inv in Hrun as (found & [d1 n1] & Hfound & Hrun). unfold run_result in Hfound. cbn in Hfound.
    destruct (AuthorizeAdmin tid (envs n) d) as [[e|adm] d2] eqn:E; injection Hfound as <- _ _.
    + by destruct e.
    + by eapply outsider_authorize.
Qed.

(** C8: An update that does not come from an administrator, whatever button or text it
    carries, changes no administrator, session, category, product, bank account, review
    case, provider account, checkpoint, payment event or delivery attempt. *)
Theorem only_administrators_administer rt update q envs d n r d' n' tid :
  db_wf d -> sender_of update = Some tid -> no_administrator tid d ->
  Process rt update q envs (d, n) = (r, (d', n')) ->
  administration d' = administration d.
Proof.
  intros Hwf Hs Hno Hrun.
  refine (proj2 (Process_effects (outsider tid) administered_alike False rt update q _ envs d n r d' n' _ Hrun)).
  - rewrite Hs. apply outsider_clearance.
  - by split.
Qed.

(** ** Examples *)

(** A router over the shop of [Demo] *)
Definition front : Workflows.Router :=
  Workflows.mkRouter 10 600 (mkInventoryImportLimits 1000 100 100) 10 (fun _ _ _ => inl ErrEncryptionFailed)
    (BankAccountService.mkConfig 10 "production") (fun _ _ => inl ErrEncryptionFailed) config
    (WalletService.mkConfig 1000 1000000 900 600 5 "production") (PaymentAdminService.mkConfig 10 600 5)
    (DeliveryAdminService.mkConfig 10 300 false) j_created_at None (fun _ _ => true) (fun b => b) 300 "@shop"
    (fun _ => "{}"%string) (fun _ => None) (fun _ => None) (fun _ _ => ""%string) (fun _ _ => ""%string).

Definition pressed (id : Z) (from : TgUser) (data : string) : TgUpdate :=
  mkTgUpdate id None (Some (mkTgCallbackQuery "cb" from (Some (7001, 5)) data)) false.
Definition lan : TgUser := mkTgUser 7001 false "lan" "Lan" "".
(** The customer confirms an order, and presses the button of a new category. *)
Definition order_button : TgUpdate := pressed 201 lan "v1:o:c:201:1:2:1".
Definition category_button : TgUpdate := pressed 202 lan "v1:a:cn".
Definition minutes (n : nat) : Env := calm (1000 + 60 * Z.of_nat n).

Lemma lan_is_no_administrator : no_administrator 7001 shop.
Proof.
  intros k a Ha. exists keeper. split; [|done].
  pose proof (rows_forall (fun a => ad_user_id a =? 2) shop eq_refl k a Ha) as ->%Z.eqb_eq. reflexivity.
Qed.

Lemma only_administrators_administer_witness : exists d n answers,
  Process front category_button "q" minutes (shop, 0%nat) = (inr (Some ErrForbidden, answers), (d, n)) /\
  administration d = administration shop.
Proof.
  eexists _, _, _. split; [vm_compute; reflexivity|].
  eapply (only_administrators_administer front category_button "q" minutes shop 0 _ _ _ 7001 shop_wf).
  - reflexivity.
  - apply lan_is_no_administrator.
  - vm_compute. reflexivity.
Defined.
