(* ===== verification/Updates.v ===== *)
(** * Updates are processed once

    What a plan of the router that is already recorded as processed has recorded, and
    that an update whose processing succeeded changes nothing more. *)

From S2P Require Import Prelude Text Domain Schema Tx Tables Models AdminModels QOrders QInventory QPayments.
From S2P Require Import QWallet.
From S2P Require Import QUsers QCatalog QBanks QDelivery QReports UpdateStore AdminStore CatalogStore InventoryStore.
From S2P Require Import DeliveryStore PaymentStore WalletStore OrderService OrderStore AdminService WalletService.
From S2P Require Import InventoryAdmin BankAccounts PaymentAdmin ProviderAdmin DeliveryAdmin PaymentEvents.
From S2P Require Import Steps Scripts.
From S2P Require Import Lifecycle Decisions Parser View Workflows Router History Demo.

Definition receipt_done (u : Z) (d : Database) : Prop :=
  exists r, rows ReceiptRow d !! u = Some r /\ rt_status r = ReceiptCompleted.

Lemma receipt_done_later u d d' : evolves ReceiptRow receipt_step d d' -> receipt_done u d -> receipt_done u d'.
Proof.
  intros Hev (r & Hr & Hs). exists r. split; [|done].
  eapply (settled_forever receipt_open receipt_identity rt_attempts); [exact Hev | exact Hr |].
  unfold receipt_open. by rewrite Hs.
Qed.

(** ** Transactions that record their update *)

Definition completes (u : Z) {A} (m : Tx Database A) : Prop :=
  forall env d a d', m env d = Ok a d' -> receipt_done u d'.

Section Completes.
Context (u : Z).

Lemma completes_receipt : completes u (completeReceipt u).
Proof.
  intros env d a d' Hrun. unfold completeReceipt in Hrun.
  apply bind_Ok_inv in Hrun as (r & d1 & Hc%or_no_rows_inv & [_ <-]%ret_Ok_inv).
  unfold CompleteTelegramUpdateReceipt in Hc. apply bind_Ok_inv in Hc as (now & d2 & [= _ <-] & Hu).
  apply update_row_Ok in Hu as (r0 & _ & _ & _ & -> & _).
  eexists. rewrite rows_put, lookup_insert_eq. by split.
Qed.

Lemma completes_throw {A} e : completes u (throw (A := A) e).
Proof. by intros env d a d' Hrun. Qed.

Lemma completes_bind_r {A B} (m : Tx Database A) (k : A -> Tx Database B) :
  (forall a, completes u (k a)) -> completes u (m ≫= k).
Proof. intros Hk env d b d' (a & d1 & _ & Hrun)%bind_Ok_inv. by eapply Hk. Qed.

Lemma completes_bind_l {A B} (m : Tx Database A) (k : A -> Tx Database B) :
  completes u m -> (forall a, respects (evolves ReceiptRow receipt_step) (k a)) -> completes u (m ≫= k).
Proof.
  intros Hm Hk env d b d' (a & d1 & Hrun & Hb)%bind_Ok_inv.
  eapply receipt_done_later; [by eapply Hk | by eapply Hm].
Qed.
End Completes.

Ltac completing :=
  repeat lazymatch goal with
  | |- forall _, _ => intros ?
  | |- completes _ (completeReceipt _) => apply completes_receipt
  | |- completes _ (throw _) => apply completes_throw
  | |- completes _ (end_change _ _ _) => unfold end_change
  | |- completes _ (match ?x with _ => _ end) => destruct x
  | |- completes _ (mbind _ (completeReceipt _)) => apply completes_bind_l; [apply completes_receipt | intros; tx_auto]
  | |- completes _ (mbind _ (OrderService.CompleteUpdate _)) => apply completes_bind_l; [apply completes_receipt | intros; tx_auto]
  | |- completes _ (mbind _ (end_change _ _ _)) => apply completes_bind_l; [unfold end_change | intros; tx_auto]
  | |- completes _ (mbind _ _) => apply completes_bind_r
  | |- completes _ _ => progress cbv zeta
  end.

Lemma create_category_completes a s i : completes (meta_update_id (cci_meta i)) (create_category_tx a s i).
Proof. unfold create_category_tx. completing. Qed.
Lemma update_category_completes a s i : completes (meta_update_id (uci_meta i)) (update_category_tx a s i).
Proof. unfold update_category_tx. completing. Qed.
Lemma set_category_completes a s i : completes (meta_update_id (sci_meta i)) (set_category_active_tx a s i).
Proof. unfold set_category_active_tx. completing. Qed.
Lemma create_product_completes a s i : completes (meta_update_id (cpi_meta i)) (create_product_tx a s i).
Proof. unfold create_product_tx. completing. Qed.
Lemma update_product_completes a s i : completes (meta_update_id (upi_meta i)) (update_product_tx a s i).
Proof. unfold update_product_tx. completing. Qed.
Lemma set_product_completes a s i : completes (meta_update_id (spi_meta i)) (set_product_active_tx a s i).
Proof. unfold set_product_active_tx. completing. Qed.
Lemma import_completes a s p l n r m : completes (meta_update_id m) (import_inventory_tx a s p l n r m).
Proof. unfold import_inventory_tx. completing. Qed.
Lemma set_item_completes a s i v e m : completes (meta_update_id m) (set_item_enabled_tx a s i v e m).
Proof. unfold set_item_enabled_tx. completing. Qed.
Lemma create_bank_completes a s i p : completes (meta_update_id (cbi_meta i)) (create_bank_tx a s i p).
Proof. unfold create_bank_tx. completing. Qed.
Lemma update_bank_completes a s i p : completes (meta_update_id (ubi_meta i)) (update_bank_tx a s i p).
Proof. unfold update_bank_tx. completing. Qed.
Lemma set_bank_completes a s i : completes (meta_update_id (sbi_meta i)) (set_bank_active_tx a s i).
Proof. unfold set_bank_active_tx. completing. Qed.
Lemma manual_accept_completes c t ttl n : completes (meta_update_id (mp_meta c)) (manual_accept_tx c t ttl n).
Proof. unfold manual_accept_tx. completing. Qed.
Lemma resolve_review_completes c : completes (meta_update_id (rp_meta c)) (resolve_review_tx c).
Proof. unfold resolve_review_tx. completing. Qed.
Lemma create_account_completes a s c f : completes (meta_update_id (cpa_meta c)) (create_provider_account_tx a s c f).
Proof. unfold create_provider_account_tx. completing. Qed.
Lemma set_account_completes a s c : completes (meta_update_id (spa_meta c)) (set_provider_account_tx a s c).
Proof. unfold set_provider_account_tx. completing. Qed.
Lemma retry_completes v c t : completes (meta_update_id (dc_meta c)) (retry_delivery_tx v c t).
Proof. unfold retry_delivery_tx. completing. Qed.
Lemma complete_delivery_completes v c t : completes (meta_update_id (dc_meta c)) (complete_delivery_tx v c t).
Proof. unfold complete_delivery_tx. completing. Qed.
Lemma adjust_wallet_completes c t : completes (meta_update_id (wj_meta c)) (adjust_wallet_tx c t).
Proof. unfold adjust_wallet_tx. completing. Qed.
Lemma create_topup_completes c e r t : completes (meta_update_id (ct_meta c)) (create_topup_tx c e r t).
Proof. unfold create_topup_tx. completing. Qed.
Lemma pay_order_completes c t ttl n : completes (meta_update_id (wp_meta c)) (pay_order_tx c t ttl n).
Proof. unfold pay_order_tx, settle_wallet_order. completing. Qed.

(** The interface of the order service completes the receipt in the same way. *)
Lemma create_attempts_completes s n attempt c user product total bank expires :
  completes (meta_update_id (co_meta c))
    (create_attempts (S := Database) s n attempt c user product total bank expires).
Proof.
  revert attempt. induction n as [|n IH]; intros attempt; simpl; [apply completes_throw|]. completing. apply IH.
Qed.
Lemma create_order_completes s c : completes (meta_update_id (co_meta c)) (create_order_tx (S := Database) s c).
Proof. unfold create_order_tx. completing. apply create_attempts_completes. Qed.
Lemma cancel_order_completes c : completes (meta_update_id (cc_meta c)) (cancel_order_tx (S := Database) c).
Proof. unfold cancel_order_tx. completing. Qed.

(** ** Actions and scripts that record their update *)

Definition act_completes (u : Z) {A} (a : Action Database A) : Prop :=
  forall env d x d', a env d = (inr x, d') -> receipt_done u d'.
Definition finishes (u : Z) {A} (m : Script Database A) : Prop :=
  forall envs s n x s' n', m envs (s, n) = (inr x, (s', n')) -> receipt_done u s'.
(** A plan that claims to be recorded is. *)
Definition records (u : Z) (m : Script Database responsePlan) : Prop :=
  forall envs s n p s' n', m envs (s, n) = (inr p, (s', n')) -> pl_completed p = true -> receipt_done u s'.

(** Anything keeps a completed receipt: the services are histories of the shop. *)
Abbreviation keeps_receipts m := (effects (fun _ => True) (evolves ReceiptRow receipt_step) m).

Lemma receipts_clearance sender : Clearance (fun _ => True) (evolves ReceiptRow receipt_step) True sender.
Proof. split; [|done]. intros op env d _ _. split; [done|]. apply perform_ok; apply _. Qed.

Section Scripts.
Context (u : Z).

Lemma act_completes_tx {A} u' (m : Tx Database A) : completes u' m -> u' = u -> act_completes u (WithinTransaction m).
Proof. intros Hm <- env d x d' Hrun%transaction_ok_inv. by eapply Hm. Qed.
Lemma act_completes_mapped {A} f (a : Action Database A) : act_completes u a -> act_completes u (map_action_error f a).
Proof.
  intros Ha env d x d' Hrun. unfold map_action_error in Hrun. destruct (a env d) as [[e|y] d1] eqn:E; [done|].
  injection Hrun as _ <-. by eapply Ha.
Qed.

Lemma finishes_run {A} (a : Action Database A) : act_completes u a -> finishes u (run a).
Proof. intros Ha envs s n x s' n' Hrun%run_inv. by eapply Ha. Qed.
Lemma act_completes_at {A} u' (a : Action Database A) : act_completes u' a -> u' = u -> act_completes u a.
Proof. by intros Ha <-. Qed.
Lemma finishes_at {A} u' (m : Script Database A) : finishes u' m -> u' = u -> finishes u m.
Proof. by intros Hm <-. Qed.
Lemma finishes_stop {A} e : finishes u (stop (A := A) e).
Proof. by intros envs s n x s' n' Hrun. Qed.
Lemma finishes_bind_r {A B} (m : Script Database A) (k : A -> Script Database B) :
  (forall a, finishes u (k a)) -> finishes u (m ≫= k).
Proof. intros Hk envs s n x s' n' (a & [s1 n1] & _ & Hrun)%script_bind_inv. by eapply Hk. Qed.
Lemma finishes_bind_l {A B} (m : Script Database A) (k : A -> Script Database B) :
  finishes u m -> (forall a, keeps_receipts (k a)) -> finishes u (m ≫= k).
Proof.
  intros Hm Hk envs s n x s' n' (a & [s1 n1] & Hrun & Hb)%script_bind_inv.
  destruct (Hk a _ _ _ _ _ _ Logic.I Hb) as [_ Hev]. eapply receipt_done_later; [exact Hev | by eapply Hm].
Qed.

Lemma records_finishes m : finishes u m -> records u m.
Proof. intros Hm envs s n p s' n' Hrun _. by eapply Hm. Qed.
Lemma records_ret plan : pl_completed plan = false -> records u (mret plan).
Proof. intros Hp envs s n p s' n' Hrun Hc. injection Hrun as <- _ _. congruence. Qed.
Lemma records_bind {A} (m : Script Database A) k : (forall a, records u (k a)) -> records u (m ≫= k).
Proof. intros Hk envs s n p s' n' (a & [s1 n1] & _ & Hrun)%script_bind_inv. by eapply Hk. Qed.
End Scripts.

Create HintDb finishing discriminated.
#[export] Hint Constants Opaque : finishing.

Ltac finishing :=
  cbv zeta;
  lazymatch goal with
  | |- forall _, _ => intros ?; finishing
  | |- finishes _ (match ?x with _ => _ end) => destruct x; finishing
  | |- finishes _ (stop _) => apply finishes_stop
  | |- finishes _ (run _) => apply finishes_run; finishing
  | |- finishes _ (_ ≫= _) => first
      [ apply finishes_bind_l; [solve [finishing] | script]
      | apply finishes_bind_r; finishing ]
  | |- act_completes _ (map_action_error _ _) => apply act_completes_mapped; finishing
  | |- act_completes _ (WithinTransaction _) => eapply act_completes_tx; [finishing | reflexivity]
  | |- finishes _ _ => eapply finishes_at; [solve [eauto with finishing nocore] | reflexivity]
  | |- act_completes _ _ => eapply act_completes_at; [solve [eauto with finishing nocore] | reflexivity]
  | |- _ => solve [eauto with finishing nocore]
  end.
Ltac recording :=
  cbv zeta;
  lazymatch goal with
  | |- forall _, _ => intros ?; recording
  | |- records _ (match ?x with _ => _ end) => destruct x; recording
  | |- records _ (mret _) => apply records_ret; first [assumption | reflexivity]
  | |- records _ (stop _) => apply records_finishes, finishes_stop
  | |- records _ (_ ≫= _) => first
      [ apply records_finishes; solve [finishing]
      | apply records_bind; recording ]
  | |- records _ _ => first [apply records_finishes; solve [finishing] | solve [eauto with finishing nocore]]
  | |- _ => solve [eauto with finishing nocore]
  end.

#[export] Hint Resolve create_category_completes update_category_completes set_category_completes create_product_completes
  update_product_completes set_product_completes import_completes set_item_completes create_bank_completes
  update_bank_completes set_bank_completes manual_accept_completes resolve_review_completes create_account_completes
  set_account_completes retry_completes complete_delivery_completes adjust_wallet_completes create_topup_completes
  pay_order_completes create_order_completes cancel_order_completes : finishing.

(** *** The services *)

(** Expose the transaction of a store operation. *)
Ltac stored :=
  unfold AdminStore.StartSession, AdminStore.AdvanceSession, AdminStore.CancelSession, CatalogStore.CreateCategory,
    CatalogStore.UpdateCategory, CatalogStore.SetCategoryActive, CatalogStore.CreateProduct, CatalogStore.UpdateProduct,
    CatalogStore.SetProductActive, ImportInventory, SetInventoryItemEnabled, CreateBankAccount, UpdateBankAccount,
    SetBankAccountActive, ManualAcceptPayment, PaymentAdmin.ResolvePaymentReview,
    ProviderAdmin.CreatePaymentProviderAccount, SetPaymentProviderAccountStatus, RetryDelivery, CompleteDelivery.
Ltac finished := stored; finishing.

Section Services.
Context (t : Z).

Lemma start_session_tx_completes a s p e m :
  act_completes (meta_update_id m) (AdminStore.StartSession a s p e m).
Proof. unfold AdminStore.StartSession. eapply act_completes_mapped, act_completes_tx; [completing | reflexivity]. Qed.
Lemma advance_session_tx_completes a s st p e m :
  act_completes (meta_update_id m) (AdminStore.AdvanceSession a s st p e m).
Proof. unfold AdminStore.AdvanceSession. eapply act_completes_tx; [completing | reflexivity]. Qed.
Lemma cancel_session_tx_completes a s m : act_completes (meta_update_id m) (AdminStore.CancelSession a s m).
Proof. unfold AdminStore.CancelSession. eapply act_completes_tx; [completing | reflexivity]. Qed.
#[local] Hint Resolve start_session_tx_completes advance_session_tx_completes cancel_session_tx_completes : finishing.

Lemma StartSession_finishes ttl s p m : finishes (meta_update_id m) (AdminService.StartSession ttl t s p m).
Proof. unfold AdminService.StartSession, AdminService.with_deadline. finishing. Qed.
Lemma AdvanceSession_finishes ttl s st p m : finishes (meta_update_id m) (AdminService.AdvanceSession ttl t s st p m).
Proof. unfold AdminService.AdvanceSession, AdminService.with_deadline. finishing. Qed.
Lemma CancelSession_finishes s m : finishes (meta_update_id m) (AdminService.CancelSession t s m).
Proof. unfold AdminService.CancelSession. finishing. Qed.
Lemma CreateCategory_finishes s i : finishes (meta_update_id (cci_meta i)) (AdminService.CreateCategory t s i).
Proof. unfold AdminService.CreateCategory, AdminService.change. finished. Qed.
Lemma UpdateCategory_finishes s i : finishes (meta_update_id (uci_meta i)) (AdminService.UpdateCategory t s i).
Proof. unfold AdminService.UpdateCategory, AdminService.change. finished. Qed.
Lemma SetCategoryActive_finishes s i : finishes (meta_update_id (sci_meta i)) (AdminService.SetCategoryActive t s i).
Proof. unfold AdminService.SetCategoryActive, AdminService.change. finished. Qed.
Lemma CreateProduct_finishes s i : finishes (meta_update_id (cpi_meta i)) (AdminService.CreateProduct t s i).
Proof. unfold AdminService.CreateProduct, AdminService.change. finished. Qed.
Lemma UpdateProduct_finishes s i : finishes (meta_update_id (upi_meta i)) (AdminService.UpdateProduct t s i).
Proof. unfold AdminService.UpdateProduct, AdminService.change. finished. Qed.
Lemma SetProductActive_finishes s i : finishes (meta_update_id (spi_meta i)) (AdminService.SetProductActive t s i).
Proof. unfold AdminService.SetProductActive, AdminService.change. finished. Qed.
Lemma CreateBank_finishes c pr s i : finishes (meta_update_id (cbi_meta i)) (BankAccountService.Create c pr t s i).
Proof. unfold BankAccountService.Create. finished. Qed.
Lemma UpdateBank_finishes pr s i : finishes (meta_update_id (ubi_meta i)) (BankAccountService.Update pr t s i).
Proof. unfold BankAccountService.Update. finished. Qed.
Lemma SetBankActive_finishes s i : finishes (meta_update_id (sbi_meta i)) (BankAccountService.SetActive t s i).
Proof. unfold BankAccountService.SetActive, AdminService.change. finished. Qed.
Lemma Import_finishes l pr s p raw m : finishes (meta_update_id m) (InventoryAdminService.Import l pr t s p raw m).
Proof. unfold InventoryAdminService.Import. finished. Qed.
Lemma SetItemEnabled_finishes s i v e m :
  finishes (meta_update_id m) (InventoryAdminService.SetItemEnabled t s i v e m).
Proof. unfold InventoryAdminService.SetItemEnabled. finished. Qed.
Lemma CreateAccount_finishes h l c : finishes (meta_update_id (cpa_meta c)) (PaymentProviderAdminService.CreateAccount h l c).
Proof. unfold PaymentProviderAdminService.CreateAccount, AdminService.change. finished. Qed.
Lemma SetAccountActive_finishes c : finishes (meta_update_id (spa_meta c)) (PaymentProviderAdminService.SetAccountActive c).
Proof. unfold PaymentProviderAdminService.SetAccountActive, AdminService.change. finished. Qed.
Lemma ManualConfirm_finishes s c : finishes (meta_update_id (mp_meta c)) (PaymentAdminService.ManualConfirm s c).
Proof. unfold PaymentAdminService.ManualConfirm. finished. Qed.
Lemma ResolveReview_finishes c : finishes (meta_update_id (rp_meta c)) (PaymentAdminService.ResolveReview c).
Proof. unfold PaymentAdminService.ResolveReview. finished. Qed.
Lemma Retry_finishes v c : finishes (meta_update_id (dc_meta c)) (DeliveryAdminService.Retry v c).
Proof. unfold DeliveryAdminService.Retry. finished. Qed.
Lemma Complete_finishes v c : finishes (meta_update_id (dc_meta c)) (DeliveryAdminService.Complete v c).
Proof. unfold DeliveryAdminService.Complete. finished. Qed.
End Services.

(** *** Actions of customers *)

Lemma create_order_act s c : act_completes (meta_update_id (co_meta c)) (Create (S := Database) s c).
Proof.
  intros env d x d' Hrun. unfold Create in Hrun. repeat (case_match; [discriminate|]).
  destruct (WithinTransaction (create_order_tx s c) env d) as [[e|[o dup]] d1] eqn:E; [done|].
  destruct (instruction s o); [done|]. injection Hrun as _ <-.
  apply transaction_ok_inv in E. by eapply create_order_completes.
Qed.
Lemma cancel_order_act c : act_completes (meta_update_id (cc_meta c)) (Cancel (S := Database) c).
Proof.
  intros env d x d' Hrun. unfold Cancel in Hrun. case_match; [discriminate|].
  apply transaction_ok_inv in Hrun. by eapply cancel_order_completes.
Qed.
Lemma pay_order_act s c : act_completes (meta_update_id (wp_meta c)) (WalletService.PayOrder s c).
Proof.
  intros env d x d' Hrun. unfold WalletService.PayOrder in Hrun. case_match; [discriminate|].
  revert Hrun. unfold PayOrderWithWallet. intros Hrun.
  eapply act_completes_mapped; [|exact Hrun]. eapply act_completes_tx; [apply pay_order_completes | reflexivity].
Qed.
Lemma adjust_act c : act_completes (meta_update_id (wj_meta c)) (WalletService.Adjust c).
Proof.
  intros env d x d' Hrun. unfold WalletService.Adjust in Hrun. cbv zeta in Hrun. case_match; [discriminate|].
  unfold AdjustWallet in Hrun.
  eapply act_completes_mapped; [|exact Hrun]. eapply act_completes_tx; [apply adjust_wallet_completes | reflexivity].
Qed.
Lemma create_topup_act s ref dec gen c :
  act_completes (meta_update_id (ct_meta c)) (WalletService.CreateTopup s ref dec gen c).
Proof.
  intros env d x d' Hrun. unfold WalletService.CreateTopup in Hrun. case_match; [discriminate|].
  destruct ref as [e|reference]; [discriminate|]. cbv zeta in Hrun. unfold CreateWalletTopup in Hrun. cbv zeta in Hrun.
  destruct (WithinTransaction _ env d) as [[e|[tp dup]] d1] eqn:E; [done|].
  destruct (WalletService.topup_instruction _ _ _); [done|]. injection Hrun as _ <-.
  apply transaction_ok_inv in E. by apply create_topup_completes in E.
Qed.

#[export] Hint Resolve StartSession_finishes AdvanceSession_finishes CancelSession_finishes CreateCategory_finishes
  UpdateCategory_finishes SetCategoryActive_finishes CreateProduct_finishes UpdateProduct_finishes SetProductActive_finishes
  CreateBank_finishes UpdateBank_finishes SetBankActive_finishes Import_finishes SetItemEnabled_finishes
  CreateAccount_finishes SetAccountActive_finishes ManualConfirm_finishes ResolveReview_finishes Retry_finishes
  Complete_finishes create_order_act cancel_order_act pay_order_act adjust_act create_topup_act : finishing.

(** ** The router *)

#[local] Hint Extern 0 (PreOrder _) => apply _ : script.
#[local] Hint Extern 0 (Clearance _ (evolves ReceiptRow receipt_step) _ _) => apply receipts_clearance : script.

Section Router.
Context (rt : Workflows.Router) (t : Z).

Lemma start_session_finishes state p m : finishes (meta_update_id m) (start_session rt t state p m).
Proof. unfold start_session. finishing. Qed.
Lemma advance_session_finishes s p m : finishes (meta_update_id m) (advance_session rt t s p m).
Proof. unfold advance_session. finishing. Qed.
#[local] Hint Resolve start_session_finishes advance_session_finishes : finishing.
Lemma ask_next_finishes s p m q plan : finishes (meta_update_id m) (ask_next rt t s p m q plan).
Proof. unfold ask_next. finishing. Qed.
Lemma begin_workflow_finishes state p m v plan : finishes (meta_update_id m) (begin_workflow rt t state p m v plan).
Proof. unfold begin_workflow. finishing. Qed.
#[local] Hint Resolve ask_next_finishes begin_workflow_finishes : finishing.

Lemma bank_text_finishes x s p m plan : finishes (meta_update_id m) (handleBankSessionText rt t x s p m plan).
Proof. unfold handleBankSessionText. finishing. Qed.
Lemma product_text_finishes x s p m plan : finishes (meta_update_id m) (handleProductSessionText rt t x s p m plan).
Proof. unfold handleProductSessionText, create_product, update_product. finishing. Qed.
Lemma category_text_finishes x s p m plan : finishes (meta_update_id m) (handle_category_text rt t x s p m plan).
Proof. unfold handle_category_text. finishing. Qed.
Lemma delivery_text_finishes x s p m plan : finishes (meta_update_id m) (handle_delivery_text rt t x s p m plan).
Proof. unfold handle_delivery_text. finishing. Qed.
Lemma provider_text_finishes x s p m plan : finishes (meta_update_id m) (handle_provider_text rt t x s p m plan).
Proof. unfold handle_provider_text. finishing. Qed.
Lemma import_text_finishes x s p m plan : finishes (meta_update_id m) (handle_import_text rt t x s p m plan).
Proof. unfold handle_import_text. finishing. Qed.
Lemma manual_payment_text_finishes x s m plan : finishes (meta_update_id m) (handle_manual_payment_text rt t x s m plan).
Proof. unfold handle_manual_payment_text. finishing. Qed.
Lemma review_text_finishes x s p m plan : finishes (meta_update_id m) (handle_review_text t x s p m plan).
Proof. unfold handle_review_text. finishing. Qed.
Lemma adjustment_text_finishes x s m plan : finishes (meta_update_id m) (handle_adjustment_text t x s m plan).
Proof. unfold handle_adjustment_text. finishing. Qed.
#[local] Hint Resolve bank_text_finishes product_text_finishes category_text_finishes delivery_text_finishes
  provider_text_finishes import_text_finishes manual_payment_text_finishes review_text_finishes
  adjustment_text_finishes : finishing.

(** Every text of a session is recorded by the store. *)
Lemma handleSessionText_finishes u q c x s : finishes u (handleSessionText rt u q t c x s).
Proof. unfold handleSessionText. finishing. Qed.
#[local] Hint Resolve handleSessionText_finishes : finishing.

Lemma routeCallback_records c m plan : pl_completed plan = false -> records (meta_update_id m) (routeCallback rt t c m plan).
Proof.
  intros Hplan. unfold routeCallback, with_providers. cbv zeta. destruct (cb_Action c);
    unfold with_banks, choose_bank, confirm_order, ask_cancel, cancel_order, ask_wallet, pay_order, Router.create_topup,
      confirm_delivery, wallet_adjustment, toggle_provider, toggle_bank, toggle_item, toggle_category, toggle_product,
      cancel_session; recording.
Qed.

Lemma handleCommand_records u c from user cmd : records u (handleCommand rt u c from user cmd).
Proof. unfold handleCommand. recording. Qed.
#[local] Hint Resolve handleCommand_records : finishing.
End Router.
#[export] Hint Resolve handleSessionText_finishes handleCommand_records : finishing.

Lemma handleMessage_records rt u q message : records u (handleMessage rt u q message).
Proof. unfold handleMessage. recording. Qed.

Lemma handleCallback_records rt u q query : records u (handleCallback rt u q query).
Proof.
  unfold handleCallback. destruct (default _ _) as [chat message]. cbv zeta. case_match; [recording|].
  apply records_bind. intros [e|user]; [destruct e; recording|].
  destruct (ParseCallback (tq_Data query)) as [c|]; [|recording].
  apply (routeCallback_records rt _ c (mkRequestMeta q u)). reflexivity.
Qed.

Lemma dispatch_records rt update q : records (up_ID update) (dispatch rt update q).
Proof.
  unfold dispatch. destruct (up_Message update); [apply handleMessage_records|].
  destruct (up_CallbackQuery update); [apply handleCallback_records | recording].
Qed.

(** ** Claims that are refused *)

Lemma insert_receipt_inv u t env d n d1 :
  InsertTelegramUpdateReceipt u t env d = Ok n d1 ->
  d1 = d \/ rows ReceiptRow d1 !! u = Some (mkReceiptRow u t ReceiptReceived 0 None None None).
Proof.
  unfold InsertTelegramUpdateReceipt. destruct (insert_row_at _ _ env d) as [r d0|e] eqn:E.
  - intros [= _ <-]. right. apply insert_row_at_Ok in E as (_ & -> & _). rewrite rows_set. apply lookup_insert_eq.
  - destruct e; try discriminate. destruct state; try discriminate. intros [= _ <-]. by left.
Qed.

(** The attempt to start a receipt that was just locked *)
Lemma start_inv u sb env d r o d' :
  rows ReceiptRow d !! u = Some r -> try_row (StartTelegramUpdateProcessing u sb) env d = Ok o d' ->
  o = None -> d' = d /\ startable sb r = false.
Proof.
  intros Hr Hrun ->. apply try_row_inv in Hrun as [(a & [=] & _) | (_ & -> & Hfail)]. split; [done|].
  unfold StartTelegramUpdateProcessing in Hfail. erewrite bind_Ok in Hfail by reflexivity.
  by eapply update_row_no_rows.
Qed.

(** A claim that is refused changes nothing: the receipt is another's, or completed. *)
Lemma claim_refused u t sb env d c d' :
  claim_update_tx u t sb env d = Ok c d' -> c <> UpdateClaimed ->
  d' = d /\ exists r, rows ReceiptRow d !! u = Some r /\
    rt_status r = match c with UpdateDuplicateCompleted => ReceiptCompleted | _ => ReceiptProcessing end.
Proof.
  unfold claim_update_tx. intros Hrun Hc.
  apply bind_Ok_inv in Hrun as (n & d1 & Hins%insert_receipt_inv & Hrun).
  apply bind_Ok_inv in Hrun as (r & d2 & [-> Hr]%get_row_Ok & Hrun).
  assert (Hold : rt_status r <> ReceiptReceived -> d1 = d).
  { intros Hs. destruct Hins as [-> | Hr']; [done|]. rewrite Hr in Hr'. by injection Hr' as ->. }
  assert (Hstart : forall k, (started ← try_row (StartTelegramUpdateProcessing u sb);
     mret (match started with Some _ => UpdateClaimed | None => k end)) env d1 = Ok c d' ->
     d' = d1 /\ c = k /\ startable sb r = false).
  { intros k (o & d2 & Htry & [<- <-]%ret_Ok_inv)%bind_Ok_inv. destruct o; [done|].
    by destruct (start_inv _ _ _ _ _ _ _ Hr Htry eq_refl) as [-> Hno]. }
  unfold startable in Hstart. destruct (rt_status r) eqn:Es.
  - by apply Hstart in Hrun as (_ & _ & ?).
  - pose proof (Hold ltac:(done)) as ->.
    enough (d' = d /\ c = UpdateDuplicateProcessing) as [-> ->] by eauto.
    destruct (bool_decide _ && _); [by apply ret_Ok_inv in Hrun as [<- <-] | by apply Hstart in Hrun as (-> & -> & _)].
  - pose proof (Hold ltac:(done)) as ->. apply ret_Ok_inv in Hrun as [<- <-]. eauto.
  - by apply Hstart in Hrun as (_ & _ & ?).
Qed.

(** Nothing is left of an attempt to claim an update that is done. *)
Lemma done_not_claimed sa u t env d r d' :
  receipt_done u d -> UpdateService.Claim sa u t env d = (r, d') ->
  d' = d /\ r <> inr UpdateClaimed.
Proof.
  intros (rt & Hr & Hs) Hrun. unfold UpdateService.Claim in Hrun. case_match.
  { unfold reject in Hrun. by injection Hrun as <- <-. }
  unfold ClaimUpdate, WithinTransaction in Hrun. destruct (env_begin env); [|by injection Hrun as <- <-..].
  destruct (claim_update_tx _ _ _ env d) as [c d1|e] eqn:E; [|by injection Hrun as <- <-].
  assert (c = UpdateDuplicateCompleted) as -> by (by eapply completed_not_claimed).
  destruct (claim_refused _ _ _ _ _ _ _ E ltac:(done)) as [-> _]. by destruct (env_commit env); injection Hrun as <- <-.
Qed.

(** ** Processing *)

(** Answers that are no messages: they only end the waiting of a pressed button. *)
Definition no_message (a : Answer) : bool := match a with AnswerCallback _ _ _ => true | _ => false end.

Lemma duplicate_no_message update text : Forall (fun a => no_message a = true) (answerDuplicateCallback update text).
Proof. unfold answerDuplicateCallback. repeat case_match; by repeat constructor. Qed.

Lemma done_not_processed rt update q envs d n r d' n' :
  receipt_done (up_ID update) d -> Process rt update q envs (d, n) = (r, (d', n')) ->
  d' = d /\ forall e answers, r = inr (e, answers) -> Forall (fun a => no_message a = true) answers.
Proof.
  intros Hdone Hrun. unfold Process in Hrun. case_match.
  { injection Hrun as <- <- _. split; [done|]. by intros e a [= _ <-]. }
  unfold mbind, Script_bind, run_result in Hrun. cbn [fst snd] in Hrun.
  destruct (UpdateService.Claim _ _ _ (envs n) d) as [c d1] eqn:E.
  destruct (done_not_claimed _ _ _ _ _ _ _ Hdone E) as [-> Hc].
  destruct c as [e|[]]; [|done|..]; injection Hrun as <- <- _; (split; [done|]); intros e' a [= _ <-];
    apply duplicate_no_message.
Qed.

(** What a processing without an error has done *)
Lemma processed_inv rt update q envs d n answers d' n' :
  Process rt update q envs (d, n) = (inr (None, answers), (d', n')) ->
  receipt_done (up_ID update) d' \/
  (d' = d /\ Forall (fun a => no_message a = true) answers /\
   exists r, rows ReceiptRow d !! up_ID update = Some r /\ rt_status r = ReceiptProcessing).
Proof.
  intros Hrun. unfold Process in Hrun. case_match; [discriminate|].
  apply script_bind_inv in Hrun as (c & [d1 n1] & Hclaim & Hrun).
  unfold run_result in Hclaim. cbn [fst snd] in Hclaim.
  destruct (UpdateService.Claim _ _ _ (envs n) d) as [c0 d0] eqn:E. injection Hclaim as -> -> _.
  assert (Hrefused : forall k, c = inr k -> k <> UpdateClaimed -> d1 = d /\ exists r, rows ReceiptRow d !! up_ID update = Some r /\
    rt_status r = match k with UpdateDuplicateCompleted => ReceiptCompleted | _ => ReceiptProcessing end).
  { intros k -> Hk. unfold UpdateService.Claim in E. case_match; [discriminate|].
    apply transaction_ok_inv in E. by eapply claim_refused. }
  destruct c as [e|[]].
  - discriminate.
  - clear E Hrefused. apply script_bind_inv in Hrun as (planned & [d2 n2] & Hplan & Hrun).
    unfold script_result in Hplan. destruct (dispatch _ _ _ _ _) as [p sn] eqn:E. injection Hplan as -> ->.
    destruct planned as [e|plan].
    { apply script_bind_inv in Hrun as (f & [d3 n3] & _ & Hrun). discriminate. }
    left. destruct (pl_completed plan) eqn:Ec.
    { injection Hrun as _ <- _. by eapply dispatch_records. }
    apply script_bind_inv in Hrun as (done & [d3 n3] & Hdone & Hrun).
    destruct done as [e|[]].
    { apply script_bind_inv in Hrun as (f & [d4 n4] & _ & Hrun). discriminate. }
    injection Hrun as _ <- _. unfold run_result in Hdone. cbn [fst snd] in Hdone.
    destruct (UpdateService.Complete _ _ _) as [c0 d0] eqn:Ed. injection Hdone as -> -> _.
    apply transaction_ok_inv in Ed. by eapply completes_receipt.
  - injection Hrun as <- <- _. destruct (Hrefused _ eq_refl ltac:(done)) as [-> Hr]. by left.
  - injection Hrun as <- <- _. destruct (Hrefused _ eq_refl ltac:(done)) as [-> Hr]. right.
    split_and!; [done | apply duplicate_no_message | done].
Qed.

(** C9: Once an update has been processed without an error, its receipt is completed
    (unless another worker is processing it, and then nothing happened and nobody was
    sent a message); and after any further history, whoever processes an update of the
    same id changes nothing and sends no message. *)
Theorem updates_are_processed_once rt update q envs d n answers d1 n1 :
  Process rt update q envs (d, n) = (inr (None, answers), (d1, n1)) ->
  (d1 = d /\ Forall (fun a => no_message a = true) answers /\
   exists r, rows ReceiptRow d !! up_ID update = Some r /\ rt_status r = ReceiptProcessing) \/
  (receipt_done (up_ID update) d1 /\
   forall d2 rt' update' q' envs' n2 r d3 n3,
     shop_steps d1 d2 -> up_ID update' = up_ID update -> Process rt' update' q' envs' (d2, n2) = (r, (d3, n3)) ->
     d3 = d2 /\ forall e messages, r = inr (e, messages) -> Forall (fun a => no_message a = true) messages).
Proof.
  intros [Hdone|Hother]%processed_inv; [right|by left]. split; [done|].
  intros d2 rt' update' q' envs' n2 r d3 n3 Hs Hid Hrun. eapply done_not_processed; [|exact Hrun].
  rewrite Hid. eapply receipt_done_later; [|exact Hdone]. by apply (shop_steps_ok (evolves ReceiptRow receipt_step)).
Qed.

(** The order of [order_button] is placed once, however often the button is delivered. *)
Lemma updates_are_processed_once_witness : exists d1 n1 answers,
  Process front order_button "q" minutes (shop, 0%nat) = (inr (None, answers), (d1, n1)) /\
  (Process front order_button "again" (fun _ => calm 9000) (d1, 0%nat)).2.1 = d1.
Proof.
  eexists _, _, _. split; [vm_compute; reflexivity|].
  destruct (updates_are_processed_once front order_button "q" minutes shop 0 _ _ _ ltac:(vm_compute; reflexivity))
    as [(_ & _ & r & Hr & _) | [_ Hagain]]; [exfalso; vm_compute in Hr; discriminate|].
  match goal with |- (Process _ _ _ _ (?d, _)).2.1 = _ =>
    destruct (Process front order_button "again" (fun _ => calm 9000) (d, 0%nat)) as [r [d3 n3]] eqn:E end.
  exact (proj1 (Hagain _ front order_button _ _ _ _ _ _ (rtc_refl _ _) eq_refl E)).
Defined.
