(* ===== verification/Progress.v ===== *)
(** * The bot makes progress

    Safety says what cannot happen; here is what does: when the store answers, an
    active customer who presses the button that confirms the cancellation of an order,
    while the order is pending and unexpired and as he saw it, has cancelled it. *)

From Stdlib Require Import Ascii.
From S2P Require Import Prelude Text Domain Schema Tx Tables Models AdminModels QOrders QInventory QPayments.
From S2P Require Import QWallet.
From S2P Require Import QUsers QCatalog QBanks QDelivery QReports UpdateStore AdminStore CatalogStore InventoryStore.
From S2P Require Import DeliveryStore PaymentStore WalletStore OrderService OrderStore AdminService WalletService.
From S2P Require Import InventoryAdmin BankAccounts PaymentAdmin ProviderAdmin DeliveryAdmin PaymentEvents.
From S2P Require Import Steps Scripts.
From S2P Require Import Lifecycle Decisions Checkout Parser Callbacks View Workflows Router History Updates.
From S2P Require Import Demo.

(** ** The transaction *)

(** An order of the customer that can still be cancelled *)
Record cancellable (tid oid : Z) (now : Time) (o : OrderRow) (d : Database) : Prop := {
  cb_row : rows OrderRow d !! oid = Some o;
  cb_owned : owned_by d tid o = true;
  cb_item : first_item oid d <> None;
  cb_pending : o_status o = OrderStatusPendingPayment;
  cb_in_time : now < o_expires_at o;
  cb_fresh : rows OrderHistoryRow d !! next_key (R := OrderHistoryRow) d = None }.

Lemma complete_receipt_succeeds u env d r :
  tbl_wf ReceiptRow d -> rows ReceiptRow d !! u = Some r -> rt_status r = ReceiptProcessing ->
  exists r' : ReceiptRow, completeReceipt u env d = Ok tt (put_row u r' d).
Proof.
  intros Hwf Hr Hs. pose proof (wf_check _ _ Hwf u r Hr) as Hc. simpl in Hc.
  eexists. unfold completeReceipt, CompleteTelegramUpdateReceipt, or_no_rows.
  unfold mbind at 1, Tx_bind at 1. erewrite bind_Ok by reflexivity.
  rewrite (update_row_succeeds _ _ _ _ _ r Hwf Hr); [reflexivity | by rewrite Hs | | done].
  unfold update_receipts_check in *. simpl. unfold update_receipts_check. rewrite Hs in Hc. simpl in *.
  rewrite !andb_true_iff in Hc |- *. destruct_and! Hc. by destruct (rt_started_at r).
Qed.

Section Cancel.
Context (tid oid : Z) (now : Time) (o : OrderRow) (d : Database).
Context (Hwf : db_wf d) (Hc : cancellable tid oid now o d).

Lemma order_key : o_id o = oid.
Proof. exact (wf_key _ _ (wf_orders _ Hwf) _ _ (cb_row _ _ _ _ _ Hc)). Qed.

Lemma lock_own_order env : exists item,
  PgOrder.LockOrderOwnedByTelegramUser tid oid env d = Ok (mapLockedOrderDetail (o, item)) d.
Proof.
  destruct (first_item oid d) as [item|] eqn:Ei; [|by destruct (cb_item _ _ _ _ _ Hc)]. exists item.
  unfold PgOrder.LockOrderOwnedByTelegramUser, or_no_rows, LockOrderDetailOwnedByTelegramUser, get_row.
  unfold mbind, Tx_bind. rewrite (cb_row _ _ _ _ _ Hc). cbn [read]. unfold read.
  rewrite (cb_owned _ _ _ _ _ Hc). cbn. rewrite order_key, Ei. reflexivity.
Qed.

Lemma cancel_own_order env : now = env_now env ->
  PgOrder.CancelPendingOrder oid (o_user_id o) (o_version o) now env d
  = Ok (mapOrder (cancel_row (env_clock env) o)) (put_row oid (cancel_row (env_clock env) o) d).
Proof.
  intros Hnow. pose proof (wf_check _ _ (wf_orders _ Hwf) _ _ (cb_row _ _ _ _ _ Hc)) as Hcheck. simpl in Hcheck.
  unfold PgOrder.CancelPendingOrder, or_no_rows, CancelPendingOrderOwnedGuarded.
  unfold mbind at 1, Tx_bind at 1. erewrite bind_Ok by reflexivity.
  rewrite (update_row_succeeds _ _ _ _ _ o (wf_orders _ Hwf) (cb_row _ _ _ _ _ Hc)); [reflexivity | | | done].
  - rewrite (cb_pending _ _ _ _ _ Hc), !Z.eqb_refl. simpl. rewrite andb_true_r. apply Z.ltb_lt, (cb_in_time _ _ _ _ _ Hc).
  - unfold row_check in *. simpl in *. unfold orders_check in *. simpl. rewrite !andb_true_iff in *.
    destruct_and! Hcheck. split_and!; try done. lia.
Qed.

Lemma record_cancellation env q :
  exists d', PgOrder.InsertOrderHistory oid (Some OrderStatusPendingPayment) OrderStatusCancelled "customer_cancelled"
    "user" (o_user_id o) q env (put_row oid (cancel_row (env_clock env) o) d) = Ok tt d' /\
    exists t : Tbl OrderHistoryRow, d' = tbl_set t (put_row oid (cancel_row (env_clock env) o) d).
Proof.
  unfold PgOrder.InsertOrderHistory, InsertOrderStatusHistory. cbv zeta.
  match goal with |- context [insert_row ?mk] => destruct (insert_row_succeeds mk env (put_row oid (cancel_row (env_clock env) o) d))
    as (d' & Hins & Ht) end.
  - exact (cb_fresh _ _ _ _ _ Hc).
  - simpl. unfold order_history_check. simpl. apply optional_text_nonblank.
  - done.
  - exists d'. split; [|exact Ht]. by erewrite bind_Ok by exact Hins.
Qed.
End Cancel.

(** A cancellation by the owner, in time and of the version he saw, succeeds. *)
Lemma cancel_order_succeeds c env d o r :
  db_wf d -> cancellable (cc_telegram_user_id c) (cc_order_id c) (env_now env) o d ->
  cc_expected_version c = o_version o ->
  rows ReceiptRow d !! meta_update_id (cc_meta c) = Some r -> rt_status r = ReceiptProcessing ->
  exists res d', cancel_order_tx (S := Database) c env d = Ok res d' /\
    od_id (cn_order res) = cc_order_id c /\
    rows OrderRow d' !! cc_order_id c = Some (cancel_row (env_clock env) o).
Proof.
  intros Hwf Hc Hv Hrec Hproc. pose proof (order_key _ _ _ _ _ Hwf Hc) as Hid.
  destruct (lock_own_order _ _ _ _ _ Hwf Hc env) as (item & Hlock).
  destruct (record_cancellation _ _ _ _ _ Hc env (meta_request_id (cc_meta c))) as (d2 & Hhist & t & Ht).
  destruct (complete_receipt_succeeds (meta_update_id (cc_meta c)) env d2 r) as (r' & Hdone); [| | done |].
  { subst d2. eapply tbl_wf_ext; [|exact (wf_receipts _ Hwf)]. reflexivity. }
  { by subst d2. }
  unfold cancel_order_tx. cbn [LockOrderOwnedByTelegramUser CancelPendingOrder InsertOrderHistory OrderService.CompleteUpdate PgOrderTransaction].
  erewrite bind_Ok by (unfold map_error; rewrite Hlock; reflexivity).
  change (od_status (mapLockedOrderDetail (o, item))) with (o_status o).
  rewrite (cb_pending _ _ _ _ _ Hc). cbn [bool_decide]. rewrite bool_decide_eq_false_2 by done.
  erewrite bind_Ok by reflexivity.
  change (od_expires_at (mapLockedOrderDetail (o, item))) with (o_expires_at o).
  change (od_version (mapLockedOrderDetail (o, item))) with (o_version o).
  change (od_id (mapLockedOrderDetail (o, item))) with (o_id o).
  change (od_user_id (mapLockedOrderDetail (o, item))) with (o_user_id o).
  pose proof (cb_in_time _ _ _ _ _ Hc) as Htime.
  rewrite guard_passes by (unfold time_after; rewrite (proj2 (Z.ltb_lt _ _) Htime); reflexivity).
  rewrite guard_passes by (rewrite Hv, Z.eqb_refl; reflexivity).
  rewrite guard_passes by reflexivity.
  rewrite Hid. erewrite bind_Ok by (by apply (cancel_own_order _ _ _ _ _ Hwf Hc)).
  erewrite bind_Ok by exact Hhist. erewrite bind_Ok by exact Hdone.
  eexists _, _. split; [reflexivity|]. split; [exact Hid|].
  subst d2. unfold put_row at 1. rewrite !rows_frame, rows_put. apply lookup_insert_eq.
Qed.

(** ** The whole processing *)

(** Before the update is dispatched: the claim and the synchronisation of the user
    leave the orders alone. *)
Definition same_orders (d d' : Database) : Prop :=
  tbl_get (R := OrderRow) d' = tbl_get d /\ tbl_get (R := OrderItemRow) d' = tbl_get d /\
  tbl_get (R := OrderHistoryRow) d' = tbl_get d.
#[export] Instance same_orders_preorder : PreOrder same_orders.
Proof. unfold same_orders. split; [done|]. intros x y z (? & ? & ?) (? & ? & ?). split_and!; congruence. Qed.
#[local] Hint Extern 0 (Unaffected same_orders _) => (intros ? ?; by split_and!) : typeclass_instances.

Lemma claim_same_orders u t sb : respects same_orders (claim_update_tx u t sb).
Proof. unfold claim_update_tx. preserve. Qed.
Lemma claim_same_users u t sb : respects (same_table User) (claim_update_tx u t sb).
Proof. unfold claim_update_tx. preserve. Qed.
Lemma upsert_same_receipts t u n : respects (same_table ReceiptRow) (QUsers.UpsertTelegramUser t u n).
Proof. preserve. Qed.
Lemma upsert_same_orders t u n : respects same_orders (QUsers.UpsertTelegramUser t u n).
Proof. preserve. Qed.

Definition active_user (tid : Z) (d : Database) : Prop :=
  exists k u, rows User d !! k = Some u /\ u_telegram_user_id u = tid /\ u_status u = UserStatusActive.

(** An update that may be processed is claimed. *)
Lemma claim_succeeds sa u ty env d :
  answering env -> db_wf d -> 0 <= u -> str_eqb (TrimSpace ty) "" = false -> nonblank ty = true ->
  claim_decision (rows ReceiptRow d !! u) (env_now env - sa) = UpdateClaimed ->
  exists d' r, UpdateService.Claim sa u ty env d = (inr UpdateClaimed, d') /\ db_wf d' /\ same_orders d d' /\
    rows User d' = rows User d /\ rows ReceiptRow d' !! u = Some r /\ rt_status r = ReceiptProcessing.
Proof.
  intros Henv Hwf Hu Hty Hnb Hdec.
  destruct (claim_update_decides u ty (env_now env - sa) env d (wf_receipts _ Hwf) Hu Hnb) as (d' & Hrun & Hr).
  rewrite Hdec in Hrun, Hr. exists d'. eexists. split_and!; [| | | | exact Hr | done].
  - unfold UpdateService.Claim. rewrite Hty, (proj2 (Z.ltb_ge u 0) Hu). simpl. by apply transaction_succeeds.
  - exact (claim_update_ok (keeps db_wf) u ty _ env d _ d' Hrun Hwf).
  - exact (claim_same_orders _ _ _ env d _ d' Hrun).
  - exact (claim_same_users _ _ _ env d _ d' Hrun).
Qed.

Lemma coalesce_nonblank a b :
  opt_check nonblank a = true -> opt_check nonblank b = true -> opt_check nonblank (coalesce a b) = true.
Proof. by destruct a. Qed.

(** A user who is known and active is synchronised. *)
Lemma upsert_succeeds tid name display env d :
  db_wf d -> 0 < tid -> active_user tid d ->
  exists u d', QUsers.UpsertTelegramUser tid (optionalText name) (optionalText display) env d = Ok u d' /\
    u_status u = UserStatusActive.
Proof.
  intros Hwf Htid (k & u & Hu & Ht & Hs). pose proof (wf_check _ _ (wf_users _ Hwf) k u Hu) as Hc. simpl in Hc.
  unfold QUsers.UpsertTelegramUser. erewrite bind_Ok by reflexivity. unfold upsert_row.
  replace (row_check _) with true; last first.
  { symmetry. simpl. unfold users_check. simpl. rewrite !optional_text_nonblank, (proj2 (Z.ltb_lt _ _) Htid). done. }
  simpl negb. cbv iota.
  destruct (select _ d) as [|u1 l] eqn:Esel.
  { exfalso. assert (u ∈ select (fun u => u_telegram_user_id u =? tid) d) as Hin
      by (apply elem_of_select; split; [by apply Z.eqb_eq | by exists k]). rewrite Esel in Hin. by apply not_elem_of_nil in Hin. }
  assert (Hu1 : u1 ∈ select (fun u => u_telegram_user_id u =? tid) d) by (rewrite Esel; left).
  apply elem_of_select in Hu1 as [Ht1%Z.eqb_eq (k1 & Hu1)].
  assert (k1 = k) as ->.
  { destruct (decide (k1 = k)) as [|Hne]; [done|]. pose proof (wf_clash _ _ (wf_users _ Hwf) _ _ _ _ Hu1 Hu Hne) as Hx.
    simpl in Hx. lia. }
  rewrite Hu in Hu1. injection Hu1 as <-.
  rewrite (wf_key _ _ (wf_users _ Hwf) _ _ Hu).
  rewrite (update_row_succeeds _ _ _ _ _ u (wf_users _ Hwf) Hu); [eauto | done | | done].
  simpl. unfold users_check in *. simpl. rewrite !andb_true_iff in *. destruct_and! Hc.
  split_and!; [done..| |]; by apply coalesce_nonblank; [apply optional_text_nonblank|].
Qed.

Lemma sync_succeeds profile envs d n :
  answering (envs n) -> db_wf d -> 0 < tpf_telegram_user_id profile -> active_user (tpf_telegram_user_id profile) d ->
  exists d' user, UserService.Sync profile envs (d, n) = (inr user, (d', S n)) /\ db_wf d' /\ same_orders d d' /\
    rows ReceiptRow d' = rows ReceiptRow d /\
    forall tid o, owned_by d tid o = true -> owned_by d' tid o = true.
Proof.
  intros Henv Hwf Htid Hact.
  destruct (upsert_succeeds _ (TrimSpace (tpf_username profile))
    (TrimSpace (TrimSpace (tpf_first_name profile) ++ " " ++ TrimSpace (tpf_last_name profile)))%string (envs n) d Hwf Htid Hact)
    as (u & d' & Hup & Hs).
  exists d', (mapUser u). split_and!.
  - unfold UserService.Sync. rewrite (proj2 (Z.leb_gt _ _) Htid).
    unfold mbind, Script_bind, run. cbn [fst snd].
    unfold CatalogStore.UpsertTelegramUser, autocommit. cbv zeta. cbn [tpf_telegram_user_id tpf_username tpf_first_name tpf_last_name].
    erewrite (transaction_succeeds _ (envs n) d (mapUser u) d' Henv); last first.
    { by erewrite bind_Ok by exact Hup. }
    change (us_status (mapUser u)) with (u_status u). by rewrite Hs.
  - exact (pres_upsert_user (Rel := keeps db_wf) _ _ _ _ _ _ _ Hup Hwf).
  - exact (upsert_same_orders _ _ _ _ _ _ _ Hup).
  - exact (upsert_same_receipts _ _ _ _ _ _ _ Hup).
  - intros tid o. unfold owned_by. destruct (rows User d !! o_user_id o) as [v|] eqn:Ev; [|done].
    destruct (UpsertTelegramUser_same _ _ _ _ _ _ _ Hup _ _ Ev) as (v' & Hv' & _ & Ht). by rewrite Hv', Ht.
Qed.

(** The button of [OrderCancelConfirmationView] *)
Definition cancel_button (orderID version : Z) : string := cat ["v1:o:k:"; Z_dec orderID; ":"; Z_dec version].
Definition cancel_callback (orderID version : Z) : Callback :=
  (callback CallbackOrderCancel) <| cb_OrderID := orderID |> <| cb_RecordVersion := version |>.

Lemma cancel_button_shown orderID version :
  exists text keyboard, (OrderCancelConfirmationView orderID version).2 = [[press text (cancel_button orderID version)]; keyboard].
Proof. eauto. Qed.

Lemma append_nil_r s : (s ++ "")%string = s.
Proof. induction s as [|a s IH]; [done|]. exact (f_equal (String a) IH). Qed.

Lemma cancel_button_printed orderID version : cancel_button orderID version = print (cancel_callback orderID version).
Proof. unfold cancel_button, cat. simpl. by rewrite append_nil_r. Qed.

Lemma cancel_button_parsed orderID version :
  0 < orderID <= int64_max -> 0 < version <= int64_max ->
  ParseCallback (cancel_button orderID version) = Some (cancel_callback orderID version).
Proof.
  intros Ho Hv. rewrite cancel_button_printed. apply parse_print.
  - split; [|reflexivity]. repeat constructor; simpl; lia.
  - assert (Hl : forall z, 0 < z <= int64_max -> str_len (Z_dec z) <= 19).
    { intros z Hz. apply (len_dec 19); unfold int64_max in Hz; lia. }
    pose proof (Hl _ Ho). pose proof (Hl _ Hv). rewrite <- cancel_button_printed. unfold cancel_button, cat. cbn [foldr].
    rewrite !str_len_app. unfold MaxCallbackDataBytes. change (str_len "v1:o:k:") with 7. change (str_len ":") with 1.
    change (str_len "") with 0. lia.
Qed.

Lemma script_result_succeeds {A B} (m : Script Database A) (k : Error + A -> Script Database B) envs sn r sn' :
  m envs sn = (r, sn') -> (script_result m ≫= k) envs sn = k r envs sn'.
Proof. intros Hm. unfold mbind, Script_bind, script_result. by rewrite Hm. Qed.

Lemma run_result_succeeds {A B} (a : Action Database A) (k : Error + A -> Script Database B) envs d n r d' :
  a (envs n) d = (r, d') -> (run_result a ≫= k) envs (d, n) = k r envs (d', S n).
Proof. intros Ha. unfold mbind, Script_bind, run_result. cbn [fst snd]. by rewrite Ha. Qed.

Lemma run_succeeds {A B} (a : Action Database A) (k : A -> Script Database B) envs d n x d' :
  a (envs n) d = (inr x, d') -> (run a ≫= k) envs (d, n) = k x envs (d', S n).
Proof. intros Ha. unfold mbind, Script_bind, run. cbn [fst snd]. by rewrite Ha. Qed.

Lemma cancellable_later tid oid now o d d' :
  same_orders d d' -> (owned_by d tid o = true -> owned_by d' tid o = true) ->
  cancellable tid oid now o d -> cancellable tid oid now o d'.
Proof.
  intros (Ho & Hi & Hh) Hown [H1 H2 H3 H4 H5 H6]. split; [| by apply Hown | | done | done |].
  - unfold rows in *. by rewrite Ho.
  - unfold first_item, select_sorted, select, rows in *. by rewrite Hi.
  - unfold next_key, rows in *. by rewrite Hh.
Qed.

Lemma owned_by_ext d d' tid o : rows User d' = rows User d -> owned_by d' tid o = owned_by d tid o.
Proof. unfold owned_by. by intros ->. Qed.

(** The press of the button and the state it finds: the update is new (or may be
    retried), its sender is an active user, the order is his. *)
Record cancel_pressed (rt : Workflows.Router) (update : TgUpdate) (query : TgCallbackQuery) (chat message oid : Z)
    (o : OrderRow) (start cancelling : Env) (d : Database) : Prop := {
  cp_id : 0 < up_ID update;
  cp_update : up_Message update = None /\ up_CallbackQuery update = Some query;
  cp_message : tq_Message query = Some (chat, message) /\ chat <> 0 /\ message <> 0;
  cp_sender : tg_IsBot (tq_From query) = false /\ 0 < tg_ID (tq_From query) /\ active_user (tg_ID (tq_From query)) d;
  cp_data : tq_Data query = cancel_button oid (o_version o) /\ 0 < oid <= int64_max /\ 0 < o_version o <= int64_max;
  cp_claimable : claim_decision (rows ReceiptRow d !! up_ID update) (env_now start - ro_staleAfter rt) = UpdateClaimed;
  cp_order : cancellable (tg_ID (tq_From query)) oid (env_now cancelling) o d }.

Definition cancelled_text (oid : Z) : string := cat ["Đã hủy đơn #"; Z_dec oid; "."].
Definition orders_keyboard : Keyboard := [[press "Danh sách đơn" "v1:o:l:0"]].

(** C12: As long as the store answers, a customer who confirms the cancellation of an own
    order that is pending, unexpired and unchanged since he saw it has cancelled it: his
    update is processed without an error, the order is cancelled, and his message shows
    so. *)
Theorem cancel_button_cancels rt update q envs d n query chat message oid o :
  db_wf d -> (forall i, answering (envs i)) ->
  cancel_pressed rt update query chat message oid o (envs n) (envs (2 + n)%nat) d ->
  exists answers d' n', Process rt update q envs (d, n) = (inr (None, answers), (d', n')) /\
    rows OrderRow d' !! oid = Some (cancel_row (env_clock (envs (2 + n)%nat)) o) /\
    EditMessage chat message (cancelled_text oid) orders_keyboard ∈ answers.
Proof.
  intros Hwf Henv [Hid [Hmsg Hquery] (Hm & Hchat & Hmess) (Hbot & Htid & Hact) (Hdata & Hoid & Hver) Hclaim Hcb].
  destruct (claim_succeeds (ro_staleAfter rt) (up_ID update) (ClassifyUpdate update) (envs n) d)
    as (d1 & r & Hc & Hwf1 & Hso1 & Hu1 & Hr & Hproc); [done | done | lia | | | done |].
  { unfold ClassifyUpdate. by rewrite Hmsg, Hquery. }
  { unfold ClassifyUpdate. by rewrite Hmsg, Hquery. }
  destruct (sync_succeeds (profileFromUser (tq_From query)) envs d1 (S n)) as (d2 & user & Hs & Hwf2 & Hso2 & Hr2 & Hown); [done..| |].
  { destruct Hact as (k & u & Hk & Hrest). exists k, u. by rewrite Hu1. }
  assert (Hc2 : cancellable (tg_ID (tq_From query)) oid (env_now (envs (2 + n)%nat)) o d2).
  { eapply cancellable_later; [| |exact Hcb]; [by transitivity d1|]. intros Ho. apply Hown. by rewrite (owned_by_ext d). }
  destruct (cancel_order_succeeds (mkCancelOrderCommand (tg_ID (tq_From query)) oid (o_version o) (mkRequestMeta q (up_ID update)))
    (envs (2 + n)%nat) d2 o r Hwf2 Hc2 eq_refl) as (res & d3 & Hcancel & Hres & Hrow); [by rewrite Hr2 | done |].
  assert (Hdispatch : exists plan, dispatch rt update q envs (d1, S n) = (inr plan, (d3, (3 + n)%nat)) /\
    pl_completed plan = true /\ EditMessage chat message (cancelled_text oid) orders_keyboard ∈ executePlan plan).
  { unfold dispatch. rewrite Hmsg, Hquery. unfold handleCallback. rewrite Hm. change (default (0, 0) (Some (chat, message))) with (chat, message). cbv zeta iota beta.
    rewrite Hbot, (proj2 (Z.leb_gt _ _) Htid). cbn [orb].
    erewrite script_result_succeeds by exact Hs. cbv beta iota. rewrite Hdata, cancel_button_parsed by done.
    match goal with |- context [routeCallback _ _ _ _ ?p] => set (plan := p) end.
    change (routeCallback rt (tg_ID (tq_From query)) (cancel_callback oid (o_version o)) (mkRequestMeta q (up_ID update)) plan)
      with (Router.cancel_order (tg_ID (tq_From query)) (cancel_callback oid (o_version o)) (mkRequestMeta q (up_ID update)) plan).
    unfold Router.cancel_order.
    change (cb_OrderID (cancel_callback oid (o_version o))) with oid.
    change (cb_RecordVersion (cancel_callback oid (o_version o))) with (o_version o).
    erewrite run_succeeds; last first.
    { unfold Cancel. cbn [cc_telegram_user_id cc_order_id cc_expected_version cc_meta meta_update_id].
      rewrite !(proj2 (Z.leb_gt _ _)) by lia. cbn [orb]. by apply transaction_succeeds. }
    eexists. split; [reflexivity|]. split; [reflexivity|]. rewrite Hres.
    unfold executePlan. apply elem_of_app. right. unfold plan. cbn. fold (cancelled_text oid).
    rewrite (proj2 (Z.eqb_neq _ _) Hchat), (proj2 (Z.eqb_neq _ _) Hmess). by apply list_elem_of_singleton. }
  destruct Hdispatch as (plan & Hd & Hcompleted & Hin).
  exists (executePlan plan), d3, (3 + n)%nat. split; [|by split].
  unfold Process. rewrite (proj2 (Z.ltb_ge _ _)) by lia. erewrite run_result_succeeds by exact Hc. cbv iota beta.
  erewrite script_result_succeeds by exact Hd. cbv iota beta. by rewrite Hcompleted.
Qed.

(** ** Example: the order of [Demo] is cancelled *)

Definition cancel_update : TgUpdate := pressed 301 lan "v1:o:k:1:1".

Lemma cancel_button_cancels_witness : exists answers d n,
  Process front cancel_update "q" (fun _ => calm 1100) (ordered, 0%nat) = (inr (None, answers), (d, n)) /\
  o_status <$> rows OrderRow d !! 1 = Some OrderStatusCancelled.
Proof.
  assert (Hwf : db_wf ordered) by decide_wf.
  assert (exists o, rows OrderRow ordered !! 1 = Some o /\ o_status o = OrderStatusPendingPayment /\ 1100 < o_expires_at o /\
    o_version o = 1 /\ owned_by ordered 7001 o = true) as (o & Ho & Hp & Ht & Hv & Hown)
    by (eexists; split; [vm_compute; reflexivity | split_and!; reflexivity]).
  destruct (cancel_button_cancels front cancel_update "q" (fun _ => calm 1100) ordered 0
    (mkTgCallbackQuery "cb" lan (Some (7001, 5)) "v1:o:k:1:1") 7001 5 1 o Hwf) as (answers & d & n & Hrun & Hrow & _).
  - intros i. split; reflexivity.
  - split; [reflexivity | split; reflexivity | split; [reflexivity | split; discriminate] | | | reflexivity | ].
    + split; [reflexivity|]. split; [reflexivity|]. exists 1, buyer. split_and!; vm_compute; reflexivity.
    + rewrite Hv. split; [reflexivity|]. unfold int64_max. lia.
    + split; [exact Ho | exact Hown | vm_compute; discriminate | exact Hp | exact Ht | vm_compute; reflexivity].
  - exists answers, d, n. split; [exact Hrun|]. by rewrite Hrow.
Defined.
