(* ===== verification/DeliveryService.v ===== *)
(** * The delivery worker

    [src/internal/app/delivery_service.go].  A pass of the worker is a program whose
    calls are those of the Go interfaces [DeliveryRepository], [InventoryCipher] and
    [DeliverySender], the clock and the random source.  A call to the sender carries,
    beside the request, the attempt it is made for: nothing depends on it, and the
    properties speak about it.  Metrics and the clearing of plaintext buffers have no
    effect on the state and are left out. *)

From Stdlib Require Import SpecFloat.
From S2P Require Import Prelude Text Domain Strconv Schema Tx Models AdminModels Program.

Record DeliverySendRequest := mkDeliverySendRequest { sq_chat_id : Z; sq_text : string }.

Record DeliverySendError := mkDeliverySendError { se_class : DeliveryResultClass; se_code : string;
    se_summary : string; se_http_status : Z; se_telegram_error_code : Z; se_retry_after : Duration }.

(** The error a sender returns: a [*DeliverySendError], or any other *)
Inductive SendFailure := SendClassified (e : DeliverySendError) | SendUnclassified.

Record DeliveryRetryPolicy := mkDeliveryRetryPolicy { rp_base : Duration; rp_max : Duration;
    rp_jitter_ratio : spec_float; rp_max_attempts : Z }.

Record DeliveryJob := mkDeliveryJob { dj_policy : DeliveryRetryPolicy; dj_batch_size : Z; dj_lease : Duration;
    dj_stale_scan_interval : Duration; dj_job_timeout : Duration; dj_message_limit : Z; dj_support : string;
    dj_worker_id : string }.

Definition NewDeliveryJob (policy : DeliveryRetryPolicy) (batchSize : Z) (lease jobTimeout : Duration)
    (messageLimit : Z) (support workerID : string) : DeliveryJob :=
  mkDeliveryJob policy batchSize lease lease jobTimeout messageLimit (TrimSpace support) (TrimSpace workerID).

Definition WithStaleScanInterval (j : DeliveryJob) (interval : Duration) : DeliveryJob :=
  if 0 <? interval
  then mkDeliveryJob (dj_policy j) (dj_batch_size j) (dj_lease j) interval (dj_job_timeout j)
         (dj_message_limit j) (dj_support j) (dj_worker_id j)
  else j.

(** ** Calls *)

Inductive delivery_call :=
  | CallBackfill (now : Time) (batch_size max_attempts : Z)
  | CallRecoverStale (now stale_before : Time) (batch_size : Z)
  | CallClaim (now : Time) (worker_id : string) (batch_size : Z)
  | CallLoad (job_id : Z) (worker_id : string)
  | CallBegin (job_id : Z) (worker_id : string) (attempted_at : Time)
  | CallSuccess (job_id : Z) (worker_id : string) (success : DeliverySuccess)
  | CallFailure (job_id : Z) (worker_id : string) (failure : DeliveryFailure)
  | CallClaimedFailure (job_id : Z) (worker_id : string) (failure : DeliveryFailure)
  | CallPreserve (job_id : Z) (success : DeliverySuccess) (reason : string)
  | CallDecrypt (product_id : Z) (payload : EncryptedInventoryPayload)
  | CallSend (attempt : DeliveryAttempt) (request : DeliverySendRequest)
  | CallClock
  | CallRandom.

Definition delivery_answer (c : delivery_call) : Type :=
  match c with
  | CallBackfill _ _ _ => Error + Z
  | CallRecoverStale _ _ _ => Error + DeliveryRecoveryResult
  | CallClaim _ _ _ => Error + list DeliveryWorkItem
  | CallLoad _ _ => Error + (DeliveryEnvelope * list EncryptedDeliveryItem)
  | CallBegin _ _ _ => Error + DeliveryAttempt
  | CallSuccess _ _ _ | CallFailure _ _ _ | CallClaimedFailure _ _ _ | CallPreserve _ _ _ => Error + unit
  | CallDecrypt _ _ => Error + Bytes
  | CallSend _ _ => SendFailure + DeliverySendResult
  | CallClock => Time
  | CallRandom => spec_float
  end.

Abbreviation Worker := (Prog delivery_answer).

(** ** The retry delay *)

(** [float64(policy.Base) * math.Pow(2, float64(exponent))]: the power is exact *)
Definition backoff (base attempt : Z) : spec_float :=
  let attempt := if attempt <? 1 then 1 else attempt in
  let exponent := attempt - 1 in
  let exponent := if 30 <? exponent then 30 else exponent in
  f64_mul (f64_of_Z base) (f64_of_Z (2 ^ exponent)).

Definition DeliveryRetryDelay (policy : DeliveryRetryPolicy) (attempt : Z) (retryAfter : Duration)
    (random : spec_float) : Duration :=
  let delay := backoff (rp_base policy) attempt in
  let delay := if SFltb (f64_of_Z (rp_max policy)) delay then f64_of_Z (rp_max policy) else delay in
  let jitter := f64_mul (f64_sub (f64_mul random (f64_of_Z 2)) (f64_of_Z 1)) (rp_jitter_ratio policy) in
  let delay := f64_mul delay (f64_add (f64_of_Z 1) jitter) in
  let half := f64_div (f64_of_Z (rp_base policy)) (f64_of_Z 2) in
  let delay := if SFltb delay half then half else delay in
  let result := f64_trunc delay in
  if result <? retryAfter then retryAfter else result.

(** ** Failures *)

Definition classifyDeliveryFailure (err : SendFailure) (attempt : Z) (policy : DeliveryRetryPolicy) (now : Time)
    (random : spec_float) : DeliveryFailure :=
  let '(class, code, summary, http, telegram, retryAfter) :=
    match err with
    | SendClassified e => (se_class e, TrimSpace (se_code e), TrimSpace (se_summary e), se_http_status e,
                           se_telegram_error_code e, se_retry_after e)
    | SendUnclassified => (DeliveryResultAmbiguous, "unclassified_transport_error"%string,
                           "Telegram send outcome is unknown"%string, 0, 0, 0)
    end in
  let code := if str_eqb code "" then "delivery_send_failed"%string else code in
  let summary := if str_eqb summary "" then "Telegram delivery failed"%string else summary in
  if bool_decide (class = DeliveryResultRetryable) then
    if rp_max_attempts policy <=? attempt
    then mkDeliveryFailure DeliveryResultPermanent "attempts_exhausted" "delivery attempts exhausted"
           http telegram retryAfter 0 now
    else mkDeliveryFailure class code summary http telegram retryAfter
           (now + DeliveryRetryDelay policy attempt retryAfter random) now
  else mkDeliveryFailure class code summary http telegram retryAfter 0 now.

(** ** The message *)

Fixpoint message_lines (index : Z) (payloads : list Bytes) : option (list string) :=
  match payloads with
  | [] => Some []
  | payload :: payloads =>
      if match payload with [] => true | _ => false end || negb (utf8_valid payload) then None
      else
        rest ← message_lines (index + 1) payloads;
        Some (cat [Z_dec (index + 1); ". <code>"; EscapeString (bytes_string payload); "</code>"; nl] :: rest)
  end.

Definition BuildDeliveryMessage (envelope : DeliveryEnvelope) (payloads : list Bytes) (support : string)
    (maxBytes : Z) : Error + string :=
  if (de_order_id envelope <=? 0) || (de_quantity envelope <=? 0)
     || negb (Z.of_nat (length payloads) =? de_quantity envelope) || (maxBytes <=? 0)
  then inl ErrDeliveryInventoryMismatch
  else
    match message_lines 0 payloads with
    | None => inl ErrInvalidInventoryPayload
    | Some items =>
        let message := cat
          ([cat ["<b>Giao hàng · đơn #"; Z_dec (de_order_id envelope); "</b>"; nl; "Sản phẩm: <b>";
                 EscapeString (de_product_name envelope); "</b>"; nl; "Số lượng: "; Z_dec (de_quantity envelope); nl; nl]]
           ++ items
           ++ [nl; "Hãy lưu thông tin ở nơi an toàn và không chia sẻ cho người khác."%string]
           ++ (if str_eqb (TrimSpace support) "" then []
               else [nl; "Hỗ trợ: "%string; EscapeString (TrimSpace support)]))%list in
        if maxBytes <? str_len message then inl ErrDeliveryMessageTooLarge else inr message
    end.

(** ** One job

    [None] is success; the errors are those that [RunOnce] returns. *)

Definition validate (j : DeliveryJob) : bool :=
  negb ((dj_batch_size j <=? 0) || (dj_lease j <=? 0) || (dj_stale_scan_interval j <=? 0)
        || (dj_job_timeout j <=? 0) || (dj_message_limit j <=? 0) || str_eqb (dj_worker_id j) ""
        || (rp_base (dj_policy j) <=? 0) || (rp_max (dj_policy j) <? rp_base (dj_policy j))
        || (rp_max_attempts (dj_policy j) <=? 0)
        || SFltb (rp_jitter_ratio (dj_policy j)) (f64_of_Z 0) || SFltb (f64_of_Z 1) (rp_jitter_ratio (dj_policy j))).

Section Job.
Context (j : DeliveryJob).

Definition failBeforeSend (job : DeliveryWorkItem) (code : string) (cause : Error) : Worker (option Error) :=
  failed_at ← ask CallClock;
  failure ←
    (if bool_decide (cause = ErrContext) then
       now ← ask CallClock;
       random ← ask CallRandom;
       mret (mkDeliveryFailure DeliveryResultRetryable "cancelled_before_send" "delivery stopped before Telegram send"
               0 0 0 (now + DeliveryRetryDelay (dj_policy j) (wrap32 (wi_attempts job + 1)) 0 random) failed_at)
     else
       mret (mkDeliveryFailure DeliveryResultPermanent code "delivery validation failed before Telegram send"
               0 0 0 0 failed_at));
  result ← ask (CallClaimedFailure (wi_id job) (dj_worker_id j) failure);
  mret (match result with inl e => Some e | inr _ => None end).

Fixpoint decrypt_items (items : list EncryptedDeliveryItem) (plaintext : list Bytes) : Worker (Error + list Bytes) :=
  match items with
  | [] => mret (inr plaintext)
  | item :: items =>
      value ← ask (CallDecrypt (ed_product_id item)
        (mkEncryptedInventoryPayload (ed_ciphertext item) (ed_nonce item) [] (ed_key_version item) (ed_format item)));
      match value with
      | inl e => mret (inl e)
      | inr value => decrypt_items items (plaintext ++ [value])%list
      end
  end.

(** What follows a send whose outcome is not a trusted success *)
Definition report_failure (job : DeliveryWorkItem) (attempt : DeliveryAttempt) (err : SendFailure) : Worker (option Error) :=
  now ← ask CallClock;
  random ← ask CallRandom;
  result ← ask (CallFailure (wi_id job) (dj_worker_id j)
                  (classifyDeliveryFailure err (dt_number attempt) (dj_policy j) now random));
  mret (match result with inl e => Some e | inr _ => None end).

Definition report_success (job : DeliveryWorkItem) (sent : DeliverySendResult) : Worker (option Error) :=
  now ← ask CallClock;
  let success := mkDeliverySuccess sent now in
  result ← ask (CallSuccess (wi_id job) (dj_worker_id j) success);
  match result with
  | inl e =>
      ask (CallPreserve (wi_id job) success "database_finalize_failed") ≫= fun _ =>
      mret (Some e)
  | inr _ => mret None
  end.

Definition invalid_evidence : SendFailure :=
  SendClassified (mkDeliverySendError DeliveryResultAmbiguous "invalid_success_evidence"
    "Telegram success response lacked trusted evidence" 0 0 0).

Definition report (job : DeliveryWorkItem) (envelope : DeliveryEnvelope) (attempt : DeliveryAttempt)
    (outcome : SendFailure + DeliverySendResult) : Worker (option Error) :=
  match outcome with
  | inl err => report_failure job attempt err
  | inr sent =>
      if negb (sr_chat_id sent =? de_chat_id envelope) || (sr_message_id sent <=? 0)
      then report_failure job attempt invalid_evidence
      else report_success job sent
  end.

(** The send, once the attempt is recorded *)
Definition send_message (job : DeliveryWorkItem) (envelope : DeliveryEnvelope) (message : string) : Worker (option Error) :=
  now ← ask CallClock;
  begun ← ask (CallBegin (wi_id job) (dj_worker_id j) now);
  match begun with
  | inl e => mret (Some e)
  | inr attempt =>
      outcome ← ask (CallSend attempt (mkDeliverySendRequest (de_chat_id envelope) message));
      report job envelope attempt outcome
  end.

Definition process (job : DeliveryWorkItem) : Worker (option Error) :=
  loaded ← ask (CallLoad (wi_id job) (dj_worker_id j));
  match loaded with
  | inl e => failBeforeSend job "delivery_invariant_failed" e
  | inr (envelope, encrypted) =>
      decrypted ← decrypt_items encrypted [];
      match decrypted with
      | inl e => failBeforeSend job "inventory_decryption_failed" e
      | inr plaintext =>
          match BuildDeliveryMessage envelope plaintext (dj_support j) (dj_message_limit j) with
          | inl e => failBeforeSend job "delivery_message_invalid" e
          | inr message => send_message job envelope message
          end
      end
  end.

Fixpoint process_all (jobs : list DeliveryWorkItem) : Worker (option Error) :=
  match jobs with
  | [] => mret None
  | job :: jobs =>
      result ← process job;
      match result with
      | Some e => mret (Some e)
      | None => process_all jobs
      end
  end.

(** One pass: the count of claimed jobs, the error if any, and the new
    [lastStaleScan] of the worker *)
Record Pass := mkPass { ps_count : Z; ps_error : option Error; ps_last_scan : Time }.

Definition scan_stale (now lastStaleScan : Time) : Worker (Error + Time) :=
  if time_is_zero lastStaleScan || (dj_stale_scan_interval j <=? time_sub now lastStaleScan) then
    recovered ← ask (CallRecoverStale now (now - dj_lease j) (dj_batch_size j));
    mret (match recovered with inl e => inl e | inr _ => inr now end)
  else mret (inr lastStaleScan).

(** The jobs that are due, one after another *)
Definition process_due (now lastStaleScan : Time) : Worker Pass :=
  claimed ← ask (CallClaim now (dj_worker_id j) (dj_batch_size j));
  match claimed with
  | inl e => mret (mkPass 0 (Some e) lastStaleScan)
  | inr jobs =>
      result ← process_all jobs;
      mret (mkPass (Z.of_nat (length jobs)) result lastStaleScan)
  end.

Definition RunOnce (lastStaleScan : Time) : Worker Pass :=
  if negb (validate j) then mret (mkPass 0 (Some ErrInvalidInput) lastStaleScan)
  else
    now ← ask CallClock;
    created ← ask (CallBackfill now (dj_batch_size j) (rp_max_attempts (dj_policy j)));
    match created with
    | inl e => mret (mkPass 0 (Some e) lastStaleScan)
    | inr _ =>
        scanned ← scan_stale now lastStaleScan;
        match scanned with
        | inl e => mret (mkPass 0 (Some e) lastStaleScan)
        | inr lastStaleScan => process_due now lastStaleScan
        end
    end.
End Job.
