(* ===== verification/Workers.v ===== *)
(** * Delivery workers running together

    Any number of worker processes, each in the middle of some pass of
    [DeliveryJob.RunOnce], next to everything else that happens in the shop.  A step
    is one call of one worker, one operation of anybody else, the administrator's
    manual resolutions among them, or a worker that starts a pass or dies.  What a
    worker may do between its calls is stated as a protocol ([obeys]), and [RunOnce]
    obeys it. *)

From S2P Require Import Prelude Domain Schema Tx Tables Models AdminModels QDelivery DeliveryStore DeliveryAdmin.
From S2P Require Import Steps.
From S2P Require Import Program DeliveryService.

(** ** The world of the workers *)

(** A message given to Telegram, for which attempt, and what came back *)
Record SendRecord := mkSendRecord { sn_attempt : DeliveryAttempt; sn_request : DeliverySendRequest;
    sn_outcome : SendFailure + DeliverySendResult }.

Record World := mkWorld { wd_db : Database; wd_sends : list SendRecord }.

(** What the outside decides about one call *)
Record Outside := mkOutside {
  out_env : Env;
  out_random : SpecFloat.spec_float;
  out_decrypt : Z -> EncryptedInventoryPayload -> Error + Bytes;
  out_send : DeliverySendRequest -> SendFailure + DeliverySendResult }.

Definition in_store {A} (a : Action Database A) (out : Outside) (w : World) : (Error + A) * World :=
  let '(r, d) := a (out_env out) (wd_db w) in (r, mkWorld d (wd_sends w)).

Definition reply (out : Outside) (c : delivery_call) (w : World) : delivery_answer c * World :=
  match c as c return delivery_answer c * World with
  | CallBackfill now b m => in_store (BackfillDeliveryJobs now b m) out w
  | CallRecoverStale now before b => in_store (RecoverStaleDeliveryJobs now before b) out w
  | CallClaim now worker b => in_store (DeliveryStore.ClaimDeliveryJobs now worker b) out w
  | CallLoad job worker => in_store (LoadClaimedDelivery job worker) out w
  | CallBegin job worker t => in_store (BeginDeliveryAttempt job worker t) out w
  | CallSuccess job worker success => in_store (FinalizeDeliverySuccess job worker success) out w
  | CallFailure job worker failure => in_store (FinalizeDeliveryFailure job worker failure) out w
  | CallClaimedFailure job worker failure => in_store (FinalizeClaimedDeliveryFailure job worker failure) out w
  | CallPreserve job success reason => in_store (PreserveAmbiguousSuccess job success reason) out w
  | CallDecrypt product payload => (out_decrypt out product payload, w)
  | CallSend attempt request =>
      let outcome := out_send out request in
      (outcome, mkWorld (wd_db w) (wd_sends w ++ [mkSendRecord attempt request outcome]))
  | CallClock => (env_now (out_env out), w)
  | CallRandom => (out_random out, w)
  end.

(** ** Systems *)

Record System := mkSystem { sy_world : World; sy_workers : gmap string (Worker Pass) }.

(** The job an operation puts back in the queue by hand: an administrator's retry of a
    delivery that no worker would have taken up again by itself *)
Definition reopened_by_hand (op : operation) (d d' : Database) : list Z :=
  match op with
  | OpRetryDelivery _ command _ =>
      match rows OutboxRow d !! dc_job_id command, rows OutboxRow d' !! dc_job_id command with
      | Some j, Some j' =>
          if negb (AutomaticallyClaimable (j_status j)) && bool_decide (j_status j' = DeliveryJobPending)
          then [dc_job_id command] else []
      | _, _ => []
      end
  | _ => []
  end.

(** One step, and the jobs that are put back in the queue by hand in it.  [answers]
    restricts what the outside may say, as the cipher a worker was started with always
    says the same. *)
Inductive system_act (answers : Outside -> Prop) : list Z -> System -> System -> Prop :=
  | worker_starts w workers j lastStaleScan :
      workers !! dj_worker_id j = None ->
      system_act answers [] (mkSystem w workers)
        (mkSystem w (<[dj_worker_id j := RunOnce j lastStaleScan]> workers))
  | worker_calls w workers id c k out :
      workers !! id = Some (Ask c k) -> answers out ->
      system_act answers [] (mkSystem w workers)
        (mkSystem (reply out c w).2 (<[id := k (reply out c w).1]> workers))
  | worker_stops w workers id :
      system_act answers [] (mkSystem w workers) (mkSystem w (delete id workers))
  | others_act w workers op env :
      of_the_holder op = false ->
      system_act answers (reopened_by_hand op (wd_db w) (perform op env (wd_db w))) (mkSystem w workers)
        (mkSystem (mkWorld (perform op env (wd_db w)) (wd_sends w)) workers).

(** Any number of steps, with all jobs that were put back by hand on the way, in order *)
Inductive system_run (answers : Outside -> Prop) : list Z -> System -> System -> Prop :=
  | run_rests s : system_run answers [] s s
  | run_acts reopened more s s1 s2 :
      system_run answers reopened s s1 -> system_act answers more s1 s2 ->
      system_run answers (reopened ++ more) s s2.

Definition system_step_with (answers : Outside -> Prop) (s s' : System) : Prop :=
  exists reopened, system_act answers reopened s s'.
Abbreviation system_step := (system_step_with (fun _ => True)).
Abbreviation system_steps := (rtc system_step).

Lemma system_run_steps answers reopened s s' :
  system_run answers reopened s s' -> rtc (system_step_with answers) s s'.
Proof. induction 1 as [|? more]; [reflexivity|]. eapply rtc_r; [done | by exists more]. Qed.

Lemma system_steps_run answers s s' :
  rtc (system_step_with answers) s s' -> exists reopened, system_run answers reopened s s'.
Proof.
  revert s'. apply (rtc_ind_r (fun s' => exists reopened, system_run answers reopened s s')); [exists []; constructor|].
  intros s1 s2 _ [more Hact] [reopened Hrun]. exists (reopened ++ more)%list. by econstructor.
Qed.

(** ** The protocol of one worker

    Where a worker stands: it has nothing under way, has recorded the start of an
    attempt, or has made the send and knows whether it failed for certain. *)

Inductive Standing := Idle | Begun (attempt : DeliveryAttempt) | Sent (job : Z) (failed : bool).

(** Telegram has certainly not delivered the message. *)
Definition definitely_failed (outcome : SendFailure + DeliverySendResult) : bool :=
  match outcome with
  | inl (SendClassified e) => bool_decide (se_class e = DeliveryResultRetryable)
  | _ => false
  end.

Definition after_begin (answer : Error + DeliveryAttempt) : Standing :=
  match answer with inl _ => Idle | inr attempt => Begun attempt end.

(** A program obeys the protocol from a standing: it sends only for the attempt it
    has just begun, and asks for a retry only after a certain failure of that send.
    [workerID] is its name, [Q] what holds when it returns. *)
Fixpoint obeys {A} (workerID : string) (Q : Standing -> A -> Prop) (at_ : Standing) (p : Worker A) : Prop :=
  match p with
  | Ret a => Q at_ a
  | Ask c k =>
      match c as c return (delivery_answer c -> Worker A) -> Prop with
      | CallBackfill _ _ _ => fun k => at_ = Idle /\ forall x, obeys workerID Q at_ (k x)
      | CallRecoverStale _ _ _ => fun k => at_ = Idle /\ forall x, obeys workerID Q at_ (k x)
      | CallClaim _ worker _ => fun k => worker = workerID /\ at_ = Idle /\ forall x, obeys workerID Q at_ (k x)
      | CallLoad _ worker => fun k => worker = workerID /\ at_ = Idle /\ forall x, obeys workerID Q at_ (k x)
      | CallClaimedFailure _ worker _ =>
          fun k => worker = workerID /\ at_ = Idle /\ forall x, obeys workerID Q at_ (k x)
      | CallBegin job worker _ => fun k =>
          worker = workerID /\ at_ = Idle /\
          forall x, (forall attempt, x = inr attempt -> dt_job_id attempt = job) ->
                    obeys workerID Q (after_begin x) (k x)
      | CallSend attempt _ => fun k =>
          at_ = Begun attempt /\ forall x, obeys workerID Q (Sent (dt_job_id attempt) (definitely_failed x)) (k x)
      | CallFailure job worker failure => fun k =>
          worker = workerID /\
          (exists failed, at_ = Sent job failed /\ (df_class failure = DeliveryResultRetryable -> failed = true)) /\
          forall x, obeys workerID Q Idle (k x)
      | CallSuccess job worker _ => fun k =>
          worker = workerID /\ (exists failed, at_ = Sent job failed) /\ forall x, obeys workerID Q Idle (k x)
      | CallPreserve _ _ _ => fun k => forall x, obeys workerID Q at_ (k x)
      | CallDecrypt _ _ => fun k => forall x, obeys workerID Q at_ (k x)
      | CallClock => fun k => forall x, obeys workerID Q at_ (k x)
      | CallRandom => fun k => forall x, obeys workerID Q at_ (k x)
      end k
  end.

Lemma obeys_bind {A B} w (R : Standing -> B -> Prop) (p : Worker A) (f : A -> Worker B) at_ :
  obeys w (fun at_ a => obeys w R at_ (f a)) at_ p -> obeys w R at_ (p ≫= f).
Proof.
  revert at_. induction p as [a|c k IH]; intros at_; [done|].
  destruct c; simpl; intuition eauto.
Qed.

Lemma obeys_weaken {A} w (Q R : Standing -> A -> Prop) (p : Worker A) at_ :
  (forall at_ a, Q at_ a -> R at_ a) -> obeys w Q at_ p -> obeys w R at_ p.
Proof.
  intros HQR. revert at_. induction p as [a|c k IH]; intros at_; [apply HQR|].
  destruct c; simpl; intuition eauto.
Qed.

Definition idle {A} (at_ : Standing) (_ : A) : Prop := at_ = Idle.

Section Obedience.
Context (j : DeliveryJob).
Abbreviation follows := (obeys (dj_worker_id j) idle).

Lemma failBeforeSend_obeys job code cause : follows Idle (failBeforeSend j job code cause).
Proof. unfold failBeforeSend. case_bool_decide; simpl; by repeat split. Qed.

Lemma decrypt_items_obeys items plaintext : follows Idle (decrypt_items items plaintext).
Proof.
  revert plaintext. induction items as [|item items IH]; intros plaintext; [done|].
  simpl. intros [e|value]; [done | apply IH].
Qed.

Lemma classify_retryable err attempt policy now random :
  df_class (classifyDeliveryFailure err attempt policy now random) = DeliveryResultRetryable ->
  definitely_failed (inl err) = true.
Proof.
  unfold classifyDeliveryFailure. destruct err as [e|]; [|done]. simpl.
  by case_bool_decide.
Qed.

Lemma report_obeys job envelope attempt outcome :
  dt_job_id attempt = wi_id job ->
  follows (Sent (dt_job_id attempt) (definitely_failed outcome)) (report j job envelope attempt outcome).
Proof.
  intros ->. destruct outcome as [err|sent]; simpl.
  - intros now random. split; [done|]. split; [|done].
    eexists. split; [done|]. apply classify_retryable.
  - destruct (negb _ || _); simpl.
    + intros now random. split; [done|]. split; [|done]. eexists. split; [done|].
      done.
    + intros now. split; [done|]. split; [eauto|]. by intros [e|].
Qed.

Lemma send_message_obeys job envelope message : follows Idle (send_message j job envelope message).
Proof.
  simpl. intros now. split_and!; [done..|]. intros [e|attempt] Hx; [done|]. specialize (Hx attempt eq_refl). simpl.
  split; [done|]. intros outcome. by apply report_obeys.
Qed.

Lemma process_obeys job : follows Idle (process j job).
Proof.
  simpl. split_and!; [done..|]. intros [e|[envelope encrypted]]; [apply failBeforeSend_obeys|].
  apply obeys_bind. eapply obeys_weaken; [|apply decrypt_items_obeys].
  intros at_ [e|plaintext] ->; [apply failBeforeSend_obeys|].
  case_match; [apply failBeforeSend_obeys | apply send_message_obeys].
Qed.

Lemma process_all_obeys jobs : follows Idle (process_all j jobs).
Proof.
  induction jobs as [|job jobs IH]; [done|]. cbn [process_all].
  apply obeys_bind. eapply obeys_weaken; [|apply process_obeys]. by intros at_ [e|] ->.
Qed.

Lemma scan_stale_obeys now lastStaleScan : follows Idle (scan_stale j now lastStaleScan).
Proof. unfold scan_stale. by case_match. Qed.

Lemma process_due_obeys now lastStaleScan : follows Idle (process_due j now lastStaleScan).
Proof.
  simpl. split_and!; [done..|]. intros [e|jobs]; [done|].
  apply obeys_bind. eapply obeys_weaken; [|apply process_all_obeys]. by intros at_ r ->.
Qed.

Lemma RunOnce_obeys lastStaleScan : follows Idle (RunOnce j lastStaleScan).
Proof.
  unfold RunOnce. destruct (negb (validate j)); [done|]. simpl. intros now.
  split; [done|]. intros [e|created]; [done|]. apply obeys_bind.
  eapply obeys_weaken; [|apply scan_stale_obeys]. intros at_ [e|scan] ->; [done | apply process_due_obeys].
Qed.
End Obedience.
