(* ===== verification/AtMostOnce.v ===== *)
(** * Deliveries are made at most once

    In every execution of any number of delivery workers next to everything else in
    the shop ([system_run]), once a message of a job may have reached the customer
    -- it was confirmed, or its outcome is not known -- no message of that job is
    ever sent again by a worker, unless an administrator puts the job back in the
    queue by hand: then it has one more message to spend. *)

From S2P Require Import Prelude Domain Schema Tx Tables Models AdminModels QOrders QInventory QPayments QWallet.
From S2P Require Import QCatalog QBanks QUsers QDelivery UpdateStore AdminStore InventoryStore DeliveryStore.
From S2P Require Import PaymentStore WalletStore.
From S2P Require Import OrderService OrderStore PaymentEvents Steps Demo Lifecycle Program DeliveryService.
From S2P Require Import AdminService DeliveryAdmin Workers.
From stdpp Require Import functions.

#[local] Open Scope Z_scope.

(** ** Jobs that may be sent (again) *)

Definition resendable (j : OutboxRow) : bool :=
  AutomaticallyClaimable (j_status j)
  || (bool_decide (j_status j = DeliveryJobProcessing) && negb (bool_decide (j_stage j = Some StageSending))).

(** A job does not become resendable, unless it is the excepted one. *)
Definition calm_job (except : option Z) (j j' : OutboxRow) : Prop :=
  j_id j' = j_id j /\ (except <> Some (j_id j) -> resendable j' = true -> resendable j = true).

#[export] Instance calm_job_preorder x : PreOrder (calm_job x).
Proof.
  split; [by intros j|]. intros a b c [Hb Hab] [Hc Hbc]. split; [congruence|].
  rewrite Hb in Hbc. auto.
Qed.

Abbreviation calm_db x := (under db_wf (evolves OutboxRow (calm_job x))).

Ltac job_calm :=
  intros; autounfold with tx_queries; apply respects_update_keyed; [apply _ | preserve |];
  intros ? <-; rewrite ?andb_true_iff; intros; destruct_and?;
  split; [reflexivity | intros; unfold resendable, in_stage in *; simpl in *;
    rewrite ?andb_true_iff, ?bool_decide_eq_true in *; destruct_and?; simplify_eq;
    repeat match goal with H : j_status _ = _ |- _ => rewrite H in * | H : j_stage _ = _ |- _ => rewrite H in * end; try done].

Section Calm.
Context (x : option Z).

Lemma ClaimDeliveryJobs_calm t w b : respects (calm_db x) (QDelivery.ClaimDeliveryJobs t w b).
Proof.
  intros env d us d' Hrun Hwf. split; [by eapply (pres_claim_jobs (Rel := keeps db_wf))|].
  unfold QDelivery.ClaimDeliveryJobs in Hrun.
  apply bind_Ok_inv in Hrun as (l & d1 & [-> Hsub]%select_unlocked_Ok & Hrun).
  apply bind_Ok_inv in Hrun as (rs & d2 & Hsel & Hrun).
  pose proof Hsel as (-> & _)%order_limit_Ok.
  destruct (selected_keys _ _ _ _ _ _ _ Hwf Hsub Hsel) as [Hnd Hin].
  eapply (update_rows_evolves _ _ _ _ _ _ _ _ Hnd); [|exact Hrun].
  intros k j Hk Hj _. destruct (Hin k j Hk Hj) as [Hp _]. unfold claimable_job in Hp.
  rewrite !andb_true_iff, orb_true_iff, !bool_decide_eq_true in Hp.
  split; [done|]. intros _ _. unfold resendable. destruct Hp as [[[_ Hs] _] _]. by destruct Hs as [-> | ->].
Qed.

Lemma MarkStaleDeliveryClaimRetryable_calm t i : respects (calm_db x) (MarkStaleDeliveryClaimRetryable t i).
Proof. job_calm. Qed.
Lemma MarkStaleDeliverySendAmbiguous_calm i : respects (calm_db x) (MarkStaleDeliverySendAmbiguous i).
Proof. job_calm. Qed.
Lemma BeginDeliverySend_calm t i w : respects (calm_db x) (BeginDeliverySend t i w).
Proof. job_calm. Qed.
Lemma MarkClaimedDeliveryFailure_calm s t c d ca i w :
  respects (calm_db x) (MarkClaimedDeliveryFailure s t c d ca i w).
Proof. job_calm. Qed.
Lemma MarkDeliveryPermanentFailed_calm c d t i w : respects (calm_db x) (MarkDeliveryPermanentFailed c d t i w).
Proof. job_calm. Qed.
Lemma MarkDeliveryAmbiguous_calm m t c d i : respects (calm_db x) (MarkDeliveryAmbiguous m t c d i).
Proof. job_calm. Qed.
Lemma MarkDeliveryCompleted_calm m s t i w : respects (calm_db x) (MarkDeliveryCompleted m s t i w).
Proof. job_calm. Qed.
End Calm.

(** The one statement that makes a job resendable after its send has begun *)
Lemma MarkDeliveryRetryable_calm t c d i w : respects (calm_db (Some i)) (MarkDeliveryRetryable t c d i w).
Proof. job_calm. Qed.

#[export] Instance shared_calm x : PreservedShared (calm_db x).
Proof.
  shared_statements; intros; lazymatch goal with
  | |- respects _ (QDelivery.ClaimDeliveryJobs _ _ _) => apply ClaimDeliveryJobs_calm
  | |- respects _ (MarkStaleDeliveryClaimRetryable _ _) => apply MarkStaleDeliveryClaimRetryable_calm
  | |- respects _ (MarkStaleDeliverySendAmbiguous _) => apply MarkStaleDeliverySendAmbiguous_calm
  | |- _ => apply respects_under; [preserve | preserve]
  end.
Qed.

#[local] Hint Resolve BeginDeliverySend_calm MarkClaimedDeliveryFailure_calm MarkDeliveryPermanentFailed_calm
  MarkDeliveryAmbiguous_calm MarkDeliveryCompleted_calm MarkDeliveryRetryable_calm : tx.

(** ** The calls of a worker *)

Section Calls.
Context (x : option Z).

Lemma begin_attempt_calm job worker t : respects (calm_db x) (begin_attempt_tx job worker t).
Proof. unfold begin_attempt_tx. tx_auto. Qed.
Lemma finalize_success_calm job worker success : respects (calm_db x) (finalize_success_tx job worker success).
Proof. unfold finalize_success_tx. tx_auto. Qed.
Lemma finalize_claimed_failure_calm job worker failure :
  respects (calm_db x) (finalize_claimed_failure_tx job worker failure).
Proof. unfold finalize_claimed_failure_tx. tx_auto. Qed.
Lemma preserve_ambiguous_calm job success reason : respects (calm_db x) (preserve_ambiguous_tx job success reason).
Proof. unfold preserve_ambiguous_tx. tx_auto. Qed.
End Calls.

(** A report of a failure makes at most its own job resendable, and that only when
    the failure was certain. *)
Definition retried (job : Z) (failure : DeliveryFailure) : option Z :=
  if bool_decide (df_class failure = DeliveryResultRetryable) then Some job else None.

Lemma LockDeliveryJob_Ok k env d j d' :
  LockDeliveryJob k env d = Ok j d' -> d' = d /\ rows OutboxRow d !! k = Some j.
Proof.
  intros H. apply bind_Ok_inv in H as (j0 & d1 & [-> Hj]%get_row_Ok & H).
  apply bind_Ok_inv in H as ([] & d2 & Hg & [-> <-]%ret_Ok_inv).
  unfold guard_not in Hg. case_match; [done|]. by apply ret_Ok_inv in Hg as [_ <-].
Qed.

Lemma respects_locked_job {A} Rel k (f : OutboxRow -> Tx Database A) :
  (forall j, j_id j = k -> respects (under db_wf Rel) (f j)) ->
  respects (under db_wf Rel) (LockDeliveryJob k ≫= f).
Proof.
  intros Hf env d a d' H Hwf. apply bind_Ok_inv in H as (j & d1 & [-> Hj]%LockDeliveryJob_Ok & H).
  eapply Hf; [|done..]. by apply (wf_key _ _ (wf_outbox _ Hwf)) in Hj.
Qed.

Lemma finalize_failure_calm job worker failure :
  respects (calm_db (retried job failure)) (finalize_failure_tx job worker failure).
Proof.
  apply respects_locked_job. intros j <-. unfold retried.
  destruct (df_class failure) eqn:Hc; case_bool_decide; try done; tx_auto.
Qed.

(** A job is open while a worker may (again) take it up; one that is not in the queue
    yet counts as open. *)
Definition opened (k : Z) (d : Database) : nat :=
  match rows OutboxRow d !! k with Some j => if resendable j then 1 else 0 | None => 1 end.

Lemma opened_bounded k d : (opened k d <= 1)%nat.
Proof. unfold opened. repeat case_match; lia. Qed.

Lemma calm_opened x k d d' : calm_db x d d' -> db_wf d -> x <> Some k -> (opened k d' <= opened k d)%nat.
Proof.
  intros Hcalm Hwf Hx. destruct (Hcalm Hwf) as [_ Hev]. unfold opened at 2.
  destruct (rows OutboxRow d !! k) as [j|] eqn:Hj; [|apply opened_bounded].
  destruct (Hev k j Hj) as (j' & Hj' & Hid & Hres). unfold opened. rewrite Hj'.
  apply (wf_key _ _ (wf_outbox _ Hwf)) in Hj. simpl in Hj. rewrite Hj in Hres.
  destruct (resendable j'); [|lia]. by rewrite Hres.
Qed.

Lemma attempt_keeps_jobs o j n s h te ra c m ec eco ed st fi :
  respects (same_table OutboxRow) (InsertDeliveryAttemptEvent o j n s h te ra c m ec eco ed st fi).
Proof. tx_auto. Qed.

(** The attempt begins on a job that was open, and closes it. *)
Lemma begun_closes job worker t env d attempt d' :
  db_wf d -> BeginDeliveryAttempt job worker t env d = (inr attempt, d') ->
  dt_job_id attempt = job /\ opened job d = 1%nat /\ opened job d' = 0%nat.
Proof.
  intros Hwf H%transaction_ok_inv.
  apply bind_Ok_inv in H as (j & d1 & Hb%or_no_rows_inv & H).
  apply bind_Ok_inv in H as (a & d2 & Hi%attempt_keeps_jobs & [<- <-]%ret_Ok_inv).
  apply update_row_Ok in Hb as (r & Hr & Hg & Hj & -> & _). rewrite <- Hj in Hi.
  unfold in_stage in Hg. rewrite !andb_true_iff, !bool_decide_eq_true in Hg. destruct Hg as [[[Hs Hst] _] _].
  split_and!.
  - rewrite Hj. by apply (wf_key _ _ (wf_outbox _ Hwf)) in Hr.
  - unfold opened, resendable. by rewrite Hr, Hs, Hst.
  - unfold opened. rewrite Hi, rows_put, lookup_insert_eq, Hj. unfold resendable. simpl. by rewrite Hs.
Qed.

(** ** What administrators reopen *)

(** An operation of anybody but the worker that holds the job opens it only by hand. *)
Lemma others_open op env d k :
  db_wf d -> of_the_holder op = false ->
  (opened k (perform op env d) <= opened k d + count_occ Z.eq_dec (reopened_by_hand op d (perform op env d)) k)%nat.
Proof.
  intros Hwf Hop. destruct (resolution op) as [[k' new]|] eqn:Hr.
  - destruct (perform_by_hand op env d k' new Hr Hwf) as [_ Hev]. unfold opened at 2.
    destruct (rows OutboxRow d !! k) as [j|] eqn:Hj; [|pose proof (opened_bounded k (perform op env d)); lia].
    destruct (Hev k j Hj) as (j' & Hj' & [-> | (Hk & _ & Hnew)]); [unfold opened; rewrite Hj'; lia|].
    apply (wf_key _ _ (wf_outbox _ Hwf)) in Hj as Hid. simpl in Hid. replace k' with k in * by congruence.
    unfold opened. rewrite Hj'. destruct (resendable j) eqn:Hres; [case_match; lia|].
    destruct op; try discriminate; injection Hr as Hr <-; [|unfold resendable; rewrite Hnew; simpl; lia].
    unfold reopened_by_hand. rewrite Hr, Hj, Hj', Hnew. apply orb_false_iff in Hres as [-> _]. cbn.
    rewrite bool_decide_true by done. rewrite count_occ_cons_eq by done. case_match; lia.
  - assert (calm_db None d (perform op env d)) as Hcalm by (apply perform_shared_ok; [apply _ .. | done | by destruct op]).
    pose proof (calm_opened None k _ _ Hcalm Hwf ltac:(done)). lia.
Qed.

(** ** Where the workers stand *)

(** The job of which a worker may still cause another send: the one it is about to make,
    or the retry of one that failed *)
Definition may_send (at_ : Standing) : option Z :=
  match at_ with
  | Idle | Sent _ false => None
  | Begun attempt => Some (dt_job_id attempt)
  | Sent k true => Some k
  end.

Definition is_sending (k : Z) (at_ : Standing) : nat := if decide (may_send at_ = Some k) then 1 else 0.

(** How many workers may still cause a send of the job *)
Definition sending (k : Z) (standing : gmap string Standing) : nat :=
  size (filter (fun x : string * Standing => may_send x.2 = Some k) standing).

Lemma sending_insert k id at_ standing :
  sending k (<[id := at_]> standing) = (is_sending k at_ + sending k (delete id standing))%nat.
Proof.
  unfold sending, is_sending. rewrite map_filter_insert. simpl. destruct (decide _); [|done].
  rewrite <- insert_delete_eq, map_size_insert_None; [|by rewrite lookup_delete_eq]. by rewrite map_filter_delete.
Qed.

Lemma sending_lookup k id at_ standing : standing !! id = Some at_ ->
  sending k standing = (is_sending k at_ + sending k (delete id standing))%nat.
Proof. intros Hid. rewrite <- (insert_id standing id at_) at 1 by done. apply sending_insert. Qed.

Lemma sending_delete_le k id standing : (sending k (delete id standing) <= sending k standing)%nat.
Proof.
  destruct (standing !! id) as [at_|] eqn:Hid; [rewrite (sending_lookup k id at_ standing Hid); lia|].
  by rewrite delete_id.
Qed.

(** ** The invariant of a system *)

(** A message of the job that may have reached the customer *)
Definition may_have_arrived (k : Z) (send : SendRecord) : bool :=
  (dt_job_id (sn_attempt send) =? k) && negb (definitely_failed (sn_outcome send)).

Definition arrivals (k : Z) (sends : list SendRecord) : nat := length (List.filter (may_have_arrived k) sends).

Lemma arrivals_app k sends sends' : arrivals k (sends ++ sends') = (arrivals k sends + arrivals k sends')%nat.
Proof. unfold arrivals. by rewrite List.filter_app, length_app. Qed.

Abbreviation times k reopened := (count_occ Z.eq_dec reopened k).

(** A job has one message to spend, and one more each time it is reopened by hand: it is
    spent on messages that may have arrived, on workers that may still send it, and kept
    while the job is open. *)
Record safe (reopened : list Z) (s : System) (standing : gmap string Standing) : Prop := {
  safe_wf : db_wf (wd_db (sy_world s));
  safe_obeys id p : sy_workers s !! id = Some p -> exists at_, standing !! id = Some at_ /\ obeys id idle at_ p;
  safe_budget k :
    (arrivals k (wd_sends (sy_world s)) + sending k standing + opened k (wd_db (sy_world s)) <= 1 + times k reopened)%nat;
  safe_log before later after : wd_sends (sy_world s) = (before ++ later :: after)%list ->
    (arrivals (dt_job_id (sn_attempt later)) before <= times (dt_job_id (sn_attempt later)) reopened)%nat }.

(** The workers after one of them has gone on *)
Lemma goes_on (workers : gmap string (Worker Pass)) (standing : gmap string Standing) id p' at_' :
  (forall id p, workers !! id = Some p -> exists at_, standing !! id = Some at_ /\ obeys id idle at_ p) ->
  obeys id idle at_' p' ->
  forall id0 p, <[id := p']> workers !! id0 = Some p ->
    exists at_, <[id := at_']> standing !! id0 = Some at_ /\ obeys id0 idle at_ p.
Proof.
  intros Ho Hp id0 p [[<- <-]|[Hne Hid]]%lookup_insert_Some.
  - exists at_'. by rewrite lookup_insert_eq.
  - rewrite lookup_insert_ne by done. by apply Ho.
Qed.

Section Moves.
Context (reopened : list Z) (w : World) (workers : gmap string (Worker Pass)) (standing : gmap string Standing).
Context (id : string) (at_ : Standing).
Context (Hsafe : safe reopened (mkSystem w workers) standing) (Hat : standing !! id = Some at_).

(** The world moves, and one worker goes on: it keeps its standing or gives it up,
    and the job that may have become open again was its own. *)
Lemma safe_moves p' at_' x d' :
  calm_db x (wd_db w) d' -> (forall k, x = Some k -> may_send at_ = Some k /\ at_' = Idle) ->
  at_' = Idle \/ at_' = at_ -> obeys id idle at_' p' ->
  safe reopened (mkSystem (mkWorld d' (wd_sends w)) (<[id := p']> workers)) (<[id := at_']> standing).
Proof.
  intros Hcalm Hx Hat' Hobeys. destruct Hsafe as [Hwf Ho Hb Hl]. simpl in *. split; simpl.
  - by destruct (Hcalm Hwf).
  - by apply goes_on.
  - intros k. specialize (Hb k). rewrite (sending_lookup k id at_) in Hb by done. rewrite sending_insert.
    destruct (decide (x = Some k)) as [Hk|Hk].
    + destruct (Hx k Hk) as [Hm ->]. pose proof (opened_bounded k d').
      unfold is_sending in *. rewrite decide_True in Hb by done. simpl. lia.
    + pose proof (calm_opened _ _ _ _ Hcalm Hwf Hk). destruct Hat' as [-> | ->]; [unfold is_sending at 1; simpl|]; lia.
  - exact Hl.
Qed.

(** A worker begins an attempt. *)
Lemma safe_begins p' attempt d' :
  at_ = Idle -> calm_db None (wd_db w) d' ->
  opened (dt_job_id attempt) (wd_db w) = 1%nat -> opened (dt_job_id attempt) d' = 0%nat ->
  obeys id idle (Begun attempt) p' ->
  safe reopened (mkSystem (mkWorld d' (wd_sends w)) (<[id := p']> workers)) (<[id := Begun attempt]> standing).
Proof.
  intros Hidle Hcalm Hopen Hclosed Hobeys. destruct Hsafe as [Hwf Ho Hb Hl]. simpl in *. split; simpl.
  - by destruct (Hcalm Hwf).
  - by apply goes_on.
  - intros k. specialize (Hb k). rewrite (sending_lookup k id at_) in Hb by done. rewrite sending_insert.
    pose proof (calm_opened None k _ _ Hcalm Hwf ltac:(done)).
    unfold is_sending at 1. simpl. case_decide as Hk; [injection Hk as <-|]; lia.
  - exact Hl.
Qed.

(** A worker sends. *)
Lemma safe_sends p' attempt request outcome :
  at_ = Begun attempt ->
  obeys id idle (Sent (dt_job_id attempt) (definitely_failed outcome)) p' ->
  safe reopened (mkSystem (mkWorld (wd_db w) (wd_sends w ++ [mkSendRecord attempt request outcome])) (<[id := p']> workers))
    (<[id := Sent (dt_job_id attempt) (definitely_failed outcome)]> standing).
Proof.
  intros Hbegun Hobeys. destruct Hsafe as [Hwf Ho Hb Hl]. simpl in *.
  assert (Hone : is_sending (dt_job_id attempt) at_ = 1%nat) by (unfold is_sending; rewrite Hbegun; simpl; by rewrite decide_True).
  split; simpl; [done | by apply goes_on | |].
  - intros k. specialize (Hb k). rewrite (sending_lookup k id at_) in Hb by done. rewrite sending_insert, arrivals_app.
    unfold arrivals at 2, may_have_arrived, is_sending at 1. simpl.
    destruct (Z.eqb_spec (dt_job_id attempt) k) as [<-|Hne].
    + rewrite Hone in Hb. destruct (definitely_failed outcome); simpl; [rewrite decide_True by done|]; lia.
    + simpl. destruct (definitely_failed outcome); [rewrite decide_False by congruence|]; simpl; lia.
  - intros before later after Heq.
    destruct after as [|last after _] using rev_ind.
    + apply app_inj_tail in Heq as [<- <-]. simpl. specialize (Hb (dt_job_id attempt)).
      rewrite (sending_lookup _ id at_) in Hb by done. lia.
    + rewrite app_comm_cons, app_assoc in Heq. apply app_inj_tail in Heq as [Heq _]. by eapply Hl.
Qed.
End Moves.

(** A worker that is absent starts a pass. *)
Lemma safe_starts reopened w workers standing j lastStaleScan :
  safe reopened (mkSystem w workers) standing ->
  safe reopened (mkSystem w (<[dj_worker_id j := RunOnce j lastStaleScan]> workers)) (<[dj_worker_id j := Idle]> standing).
Proof.
  intros [Hwf Ho Hb Hl]. simpl in *. split; simpl; [done | apply goes_on; [done | apply RunOnce_obeys] | | done].
  intros k. specialize (Hb k). rewrite sending_insert. pose proof (sending_delete_le k (dj_worker_id j) standing).
  unfold is_sending. simpl. lia.
Qed.

(** Dropping a worker, wherever it stands *)
Lemma safe_stops reopened w workers standing id :
  safe reopened (mkSystem w workers) standing -> safe reopened (mkSystem w (delete id workers)) standing.
Proof. intros [Hwf Ho Hb Hl]. split; [done | | done | done]. simpl in *. intros id' p [_ Hp]%lookup_delete_Some. by apply Ho. Qed.

Lemma load_claimed_calm x job worker : respects (calm_db x) (load_claimed_tx job worker).
Proof. unfold load_claimed_tx. tx_auto. Qed.

(** One call of a worker *)
Lemma safe_calls reopened w workers standing id c k out :
  safe reopened (mkSystem w workers) standing -> workers !! id = Some (Ask c k) ->
  exists standing', safe reopened (mkSystem (reply out c w).2 (<[id := k (reply out c w).1]> workers)) standing'.
Proof.
  intros Hsafe Hid. destruct (safe_obeys _ _ _ Hsafe id _ Hid) as (at_ & Hat & Hob).
  destruct w as [d sends].
  assert (Hmoves : forall p' at_' x d',
    calm_db x d d' -> (forall k, x = Some k -> may_send at_ = Some k /\ at_' = Idle) ->
    at_' = Idle \/ at_' = at_ -> obeys id idle at_' p' ->
    exists standing', safe reopened (mkSystem (mkWorld d' sends) (<[id := p']> workers)) standing').
  { intros p' at_' x d' H1 H2 H3 H4. eexists. by eapply (safe_moves reopened (mkWorld d sends)). }
  assert (Hstay : forall p', obeys id idle at_ p' ->
    exists standing', safe reopened (mkSystem (mkWorld d sends) (<[id := p']> workers)) standing').
  { intros p' Hp. eapply (Hmoves p' at_ None d); [reflexivity | done | by right | done]. }
  (* a transaction that keeps every job calm, after which the worker goes on where it stands *)
  assert (Hcalm : forall A (m : Tx Database A) r d' p',
    WithinTransaction m (out_env out) d = (r, d') -> respects (calm_db None) m -> obeys id idle at_ p' ->
    exists standing', safe reopened (mkSystem (mkWorld d' sends) (<[id := p']> workers)) standing').
  { intros A m r d' p' Hr Hm Hp. eapply (Hmoves p' at_ None d'); [|done|by right|done].
    by eapply respects_transaction; [apply _ | exact Hm | exact Hr]. }
  destruct c; simpl in Hob |- *; unfold in_store;
    repeat match goal with |- context [let '(_, _) := ?a in _] => destruct a as [r d'] eqn:Hr end; simpl;
    try (by apply Hstay).
  - destruct Hob as (_ & Hob). eapply Hcalm; [exact Hr | apply backfill_ok; apply _ | apply Hob].
  - destruct Hob as (_ & Hob). eapply Hcalm; [exact Hr | apply recover_stale_ok; apply _ | apply Hob].
  - destruct Hob as (_ & _ & Hob). eapply Hcalm; [exact Hr | apply claim_delivery_ok; apply _ | apply Hob].
  - destruct Hob as (_ & _ & Hob). eapply Hcalm; [exact Hr | apply load_claimed_calm | apply Hob].
  - destruct Hob as (-> & Hidle & Hob). destruct r as [e|attempt].
    + eapply Hcalm; [exact Hr | apply begin_attempt_calm | rewrite Hidle; by apply (Hob (inl e))].
    + destruct (begun_closes _ _ _ _ _ _ _ (safe_wf _ _ _ Hsafe) Hr) as (Hjob & Hopen & Hclosed).
      rewrite <- Hjob in Hopen, Hclosed.
      eexists. eapply (safe_begins reopened (mkWorld d sends)); [done | exact Hat | done | | done | done |].
      * eapply respects_transaction; [apply _ | apply begin_attempt_calm | exact Hr].
      * apply (Hob (inr attempt)). by intros ? [= <-].
  - destruct Hob as (-> & (failed & Hsent) & Hob).
    eapply (Hmoves _ Idle None d'); [|done|by left|apply Hob].
    eapply respects_transaction; [apply _ | apply finalize_success_calm | exact Hr].
  - destruct Hob as (-> & (failed & Hsent & Hfailed) & Hob).
    eapply (Hmoves _ Idle (retried job_id failure) d'); [| |by left|apply Hob].
    + eapply respects_transaction; [apply _ | apply finalize_failure_calm | exact Hr].
    + unfold retried. intros k'. case_bool_decide as Hc; [|done]. intros [= <-].
      split; [|done]. rewrite Hsent. by rewrite Hfailed.
  - destruct Hob as (_ & _ & Hob). eapply Hcalm; [exact Hr | apply finalize_claimed_failure_calm | apply Hob].
  - eapply Hcalm; [exact Hr | apply preserve_ambiguous_calm | apply Hob].
  - destruct Hob as (Hbegun & Hob). eexists. by eapply (safe_sends reopened (mkWorld d sends)).
Qed.

(** An operation of anybody else *)
Lemma safe_others reopened w workers standing op env :
  safe reopened (mkSystem w workers) standing -> of_the_holder op = false ->
  safe (reopened ++ reopened_by_hand op (wd_db w) (perform op env (wd_db w)))
    (mkSystem (mkWorld (perform op env (wd_db w)) (wd_sends w)) workers) standing.
Proof.
  intros [Hwf Ho Hb Hl] Hop. simpl in *. split; simpl; [by apply (perform_ok (keeps db_wf)) | done | intros k | intros ???].
  - specialize (Hb k). pose proof (others_open op env (wd_db w) k Hwf Hop). rewrite count_occ_app. lia.
  - intros Heq. apply Hl in Heq. rewrite count_occ_app. lia.
Qed.

Lemma system_act_safe answers reopened more s s' standing :
  system_act answers more s s' -> safe reopened s standing -> exists standing', safe (reopened ++ more) s' standing'.
Proof.
  intros [w workers j scan Hnone | w workers id c k out Hid _ | w workers id | w workers op env Hop] Hsafe;
    rewrite ?app_nil_r.
  - eexists. by apply safe_starts.
  - by eapply safe_calls.
  - eexists. by apply safe_stops.
  - eexists. by apply safe_others.
Qed.

(** The shop before any worker has run *)
Definition fresh_system (d : Database) : System := mkSystem (mkWorld d []) ∅.

Lemma fresh_safe d : db_wf d -> safe [] (fresh_system d) ∅.
Proof.
  intros Hwf. split; simpl; [done | done | intros k | by intros [|? ?]].
  pose proof (opened_bounded k d). unfold sending. rewrite map_filter_empty, map_size_empty. unfold arrivals. simpl. lia.
Qed.

Lemma reachable_safe answers d reopened s :
  db_wf d -> system_run answers reopened (fresh_system d) s -> exists standing, safe reopened s standing.
Proof.
  intros Hwf Hrun. remember (fresh_system d) as s0 eqn:Hs0. induction Hrun as [|? ? ? ? ? _ IH Hact]; subst.
  - eexists. by apply fresh_safe.
  - destruct (IH eq_refl) as [standing Hsafe]. by eapply system_act_safe.
Qed.

(** ** When a message was sent *)

Abbreviation sends s := (wd_sends (sy_world s)).

Lemma act_sends answers more s s' : system_act answers more s s' ->
  sends s' = sends s \/ (more = [] /\ exists send, sends s' = (sends s ++ [send])%list).
Proof.
  intros [w workers j scan _ | w workers id c k out _ _ | w workers id | w workers op env _]; [by left | | by left | by left].
  destruct c; simpl; unfold in_store;
    try (left; repeat match goal with |- context [let '(_, _) := ?a in _] => destruct a end; done).
  right. split; [done|]. eexists. reflexivity.
Qed.

(** Every message on the log was sent by a step of the execution, with what was sent
    before it on the log, and reopenings before and after it. *)
Lemma sent_at answers s0 reopened s : system_run answers reopened s0 s -> sends s0 = [] ->
  forall before later after, sends s = (before ++ later :: after)%list ->
  exists earlier rest s1 s2, reopened = (earlier ++ rest)%list /\ system_run answers earlier s0 s1 /\ sends s1 = before /\
    system_act answers [] s1 s2 /\ sends s2 = (before ++ [later])%list /\ system_run answers rest s2 s.
Proof.
  induction 1 as [s|l more s s1 s2 Hrun IH Hact]; intros Hnone before later after Heq; [rewrite Hnone in Heq; by destruct before|].
  assert (forall after', sends s1 = (before ++ later :: after')%list -> exists earlier rest sa sb, (l ++ more)%list = (earlier ++ rest)%list /\
    system_run answers earlier s sa /\ sends sa = before /\ system_act answers [] sa sb /\ sends sb = (before ++ [later])%list /\
    system_run answers rest sb s2) as Hbefore.
  { intros after' Hs1. destruct (IH Hnone _ _ _ Hs1) as (earlier & rest & sa & sb & -> & H1 & H2 & H3 & H4 & H5).
    exists earlier, (rest ++ more)%list, sa, sb. split_and!; try done; [by rewrite app_assoc | by econstructor]. }
  destruct (act_sends _ _ _ _ Hact) as [Hsame | (-> & send & Hsend)]; [rewrite Hsame in Heq; by eapply Hbefore|].
  rewrite Hsend in Heq. destruct after as [|last after _] using rev_ind.
  - apply app_inj_tail in Heq as [Hs1 ->]. exists l, [], s1, s2. rewrite !app_nil_r.
    split_and!; try done; [by rewrite Hsend, Hs1 | constructor].
  - rewrite app_comm_cons, app_assoc in Heq. apply app_inj_tail in Heq as [Hs1 _]. by eapply Hbefore.
Qed.

Lemma no_arrival k reopened log : (arrivals k log <= times k reopened)%nat -> k ∉ reopened ->
  forall send, send ∈ log -> dt_job_id (sn_attempt send) = k -> definitely_failed (sn_outcome send) = true.
Proof.
  intros Hle Hnever send Hsend Hk. rewrite list_elem_of_In in Hnever. apply (count_occ_not_In Z.eq_dec) in Hnever.
  rewrite Hnever in Hle. destruct (definitely_failed (sn_outcome send)) eqn:Hf; [done|].
  assert (send ∈ List.filter (may_have_arrived k) log) as Hin.
  { apply list_elem_of_In, List.filter_In. split; [by apply list_elem_of_In|]. unfold may_have_arrived. by rewrite Hf, Hk, Z.eqb_refl. }
  unfold arrivals in Hle. destruct (List.filter _ log); [by apply not_elem_of_nil in Hin | simpl in Hle; lia].
Qed.

(** C6: in every execution, with any number of workers that may be interrupted, killed or
    restarted between any two of their calls, next to any operations of anybody else,
    manual resolutions by administrators included: at the step at which a message of a
    delivery job is sent, at most as many messages of that job may have reached the
    customer as administrators have, until then, put the job back in the queue by hand.
    So the goods of a job that was never reopened by hand are sent again only after
    Telegram certainly did not deliver them, and once they were delivered, or may have
    been, no worker ever sends them again. *)
Theorem deliveries_are_made_at_most_once d s reopened before later after :
  db_wf d -> system_run (fun _ => True) reopened (fresh_system d) s ->
  wd_sends (sy_world s) = (before ++ later :: after)%list ->
  let k := dt_job_id (sn_attempt later) in
  exists earlier rest s1 s2, reopened = (earlier ++ rest)%list /\
    system_run (fun _ => True) earlier (fresh_system d) s1 /\ wd_sends (sy_world s1) = before /\
    system_act (fun _ => True) [] s1 s2 /\ wd_sends (sy_world s2) = (before ++ [later])%list /\
    system_run (fun _ => True) rest s2 s /\
    (arrivals k before <= count_occ Z.eq_dec earlier k)%nat /\
    (k ∉ earlier -> forall send, send ∈ before -> dt_job_id (sn_attempt send) = k -> definitely_failed (sn_outcome send) = true).
Proof.
  intros Hwf Hrun Hsends k.
  destruct (sent_at _ _ _ _ Hrun eq_refl _ _ _ Hsends) as (earlier & rest & s1 & s2 & -> & Hearlier & Hs1 & Hact & Hs2 & Hrest).
  destruct (reachable_safe _ d _ s2 Hwf (run_acts _ _ _ _ _ _ Hearlier Hact)) as [standing Hsafe]. rewrite app_nil_r in Hsafe.
  pose proof (safe_log _ _ _ Hsafe before later [] Hs2) as Hle.
  exists earlier, rest, s1, s2. split_and!; try done. by apply no_arrival.
Qed.

(** ** At a concrete execution *)

(** A worker that is alone runs its pass to the end. *)
Definition pass_alone (j : DeliveryJob) (lastStaleScan : Time) (outs : nat -> Outside) (w : World) : World :=
  (run_prog (fun n => reply (outs n)) (RunOnce j lastStaleScan) 0 w).2.

Lemma system_run_trans answers l1 l2 s s1 s2 :
  system_run answers l1 s s1 -> system_run answers l2 s1 s2 -> system_run answers (l1 ++ l2) s s2.
Proof.
  intros H1 H2. induction H2 as [|l more s1 s2 s3 _ IH Hact]; [by rewrite app_nil_r|].
  rewrite app_assoc. econstructor; [by apply IH | done].
Qed.

Lemma system_run_once answers more s s' : system_act answers more s s' -> system_run answers more s s'.
Proof. intros Hact. apply (run_acts answers [] more s s s'); [constructor | done]. Qed.

Lemma worker_runs (answers : Outside -> Prop) outs id (p : Worker Pass) n w workers :
  (forall n, answers (outs n)) -> workers !! id = Some p ->
  system_run answers [] (mkSystem w workers)
    (mkSystem (run_prog (fun n => reply (outs n)) p n w).2
       (<[id := Ret (run_prog (fun n => reply (outs n)) p n w).1.1]> workers)).
Proof.
  intros Houts. revert n w workers. induction p as [a|c k IH]; intros n w workers Hid; simpl.
  - rewrite insert_id by done. constructor.
  - apply (system_run_trans _ [] [] _ (mkSystem (reply (outs n) c w).2 (<[id := k (reply (outs n) c w).1]> workers)));
      [apply system_run_once; by apply worker_calls|].
    destruct (reply (outs n) c w) as [x w'] eqn:Hr. simpl.
    specialize (IH x (S n) w' (<[id := k x]> workers) (lookup_insert_eq _ _ _)).
    by rewrite insert_insert_eq in IH.
Qed.

Lemma pass_alone_runs (answers : Outside -> Prop) j lastStaleScan outs w :
  (forall n, answers (outs n)) ->
  system_run answers [] (mkSystem w ∅) (mkSystem (pass_alone j lastStaleScan outs w) ∅).
Proof.
  intros Houts. set (id := dj_worker_id j).
  apply (system_run_trans _ [] [] _ (mkSystem w (<[id := RunOnce j lastStaleScan]> ∅)));
    [by apply system_run_once, worker_starts|].
  eapply (system_run_trans _ [] []).
  - apply (worker_runs answers outs id (RunOnce j lastStaleScan) 0); [done | apply lookup_insert_eq].
  - pose proof (worker_stops answers (pass_alone j lastStaleScan outs w)
      (<[id := Ret (run_prog (fun n => reply (outs n)) (RunOnce j lastStaleScan) 0 w).1.1]> ∅) id) as Hstop.
    rewrite delete_insert_eq, delete_empty in Hstop. rewrite insert_insert_eq. by apply system_run_once.
Qed.

Definition courier : DeliveryJob :=
  NewDeliveryJob (mkDeliveryRetryPolicy 1000 60000 (Strconv.f64_of_Z 0) 5) 10 5000 5000 4096 "" "w1".

Definition rate_limited : SendFailure :=
  SendClassified (mkDeliverySendError DeliveryResultRetryable "rate_limited" "Telegram requested a delayed retry" 429 429 100).

Definition outside (now : Time) (answer : SendFailure + DeliverySendResult) (n : nat) : Outside :=
  mkOutside (calm now) (Strconv.f64_of_Z 0) (fun _ _ => inr (bytes 3 75)) (fun _ => answer).

Definition after_failure : World := pass_alone courier 0 (outside 1300 (inl rate_limited)) (mkWorld paid []).
Definition after_success : World :=
  pass_alone courier 1300 (outside 3000 (inr (mkDeliverySendResult 7001 55 3000 "sendMessage"))) after_failure.

Example the_goods_arrive :
  (map (fun s => (dt_job_id (sn_attempt s), dt_number (sn_attempt s), definitely_failed (sn_outcome s))) (wd_sends after_success),
   o_status <$> rows OrderRow (wd_db after_success) !! 1, j_status <$> rows OutboxRow (wd_db after_failure) !! 1)
  = ([(1, 1, true); (1, 2, false)], Some OrderStatusDelivered, Some DeliveryJobRetryableFailed).
Proof. vm_compute. reflexivity. Qed.

(** An operation of somebody else, in between *)
Definition meanwhile (op : operation) (now : Time) (w : World) : World := mkWorld (perform op (calm now) (wd_db w)) (wd_sends w).

Lemma meanwhile_runs answers op now w reopened :
  of_the_holder op = false -> reopened_by_hand op (wd_db w) (wd_db (meanwhile op now w)) = reopened ->
  system_run answers reopened (mkSystem w ∅) (mkSystem (meanwhile op now w) ∅).
Proof. intros Hop <-. by apply system_run_once, others_act. Qed.

(** Telegram's answer is lost; an administrator verifies that nothing arrived, and has
    the goods sent again. *)
Definition after_doubt : World := pass_alone courier 1300 (outside 3000 (inl SendUnclassified)) after_failure.
Definition claim_request : operation := OpClaimUpdate 103 "message" 0.
Definition start_retry : operation :=
  OpStartSession (mkAdmin 1 2 9001 "owner" true UserStatusActive) SessionDeliveryRetry "{}" 9000 (mkRequestMeta "req-6" 102).
Definition asking : World := meanwhile start_retry 3100 (meanwhile claim_request 3090 after_doubt).
Definition retry_by_hand : operation :=
  OpRetryDelivery (fun _ => 3200)
    (mkDeliveryResolutionCommand 9001 1 (from_option j_version 0 (rows OutboxRow (wd_db asking) !! 1)) 0 "nothing arrived"
       (match rows AdminSessionRow (wd_db asking) !! 1 with Some r => mapSession r | None => mkAdminSession 0 0 "" "" 0 0 end)
       (mkRequestMeta "req-7" 103)) 3200.
Definition reopened_shop : World := meanwhile retry_by_hand 3200 asking.
Definition after_retry : World :=
  pass_alone courier 3000 (outside 3300 (inr (mkDeliverySendResult 7001 56 3300 "sendMessage"))) reopened_shop.

Example the_goods_are_sent_again_by_hand :
  (map (fun s => (dt_job_id (sn_attempt s), definitely_failed (sn_outcome s))) (wd_sends after_retry),
   reopened_by_hand retry_by_hand (wd_db asking) (wd_db reopened_shop),
   o_status <$> rows OrderRow (wd_db after_retry) !! 1)
  = ([(1, true); (1, false); (1, false)], [1], Some OrderStatusDelivered).
Proof. vm_compute. reflexivity. Qed.

Lemma reopened_shop_runs answers : system_run answers [1] (mkSystem after_doubt ∅) (mkSystem reopened_shop ∅).
Proof.
  apply (system_run_trans _ [] [1] _ (mkSystem asking ∅)).
  - apply (system_run_trans _ [] [] _ (mkSystem (meanwhile claim_request 3090 after_doubt) ∅));
      (apply meanwhile_runs; [reflexivity | vm_compute; reflexivity]).
  - apply meanwhile_runs; [reflexivity | vm_compute; reflexivity].
Qed.

Lemma deliveries_are_made_at_most_once_witness :
  (exists first second, wd_sends after_success = [first; second] /\ definitely_failed (sn_outcome first) = true) /\
  (exists sends last earlier, wd_sends after_retry = (sends ++ [last])%list /\ arrivals 1 sends = 1%nat /\
     (arrivals 1 sends <= count_occ Z.eq_dec earlier 1%Z)%nat).
Proof.
  assert (db_wf paid) as Hwf by decide_wf.
  assert (system_run (fun _ => True) [] (fresh_system paid) (mkSystem after_failure ∅)) as Hfailure by by apply pass_alone_runs.
  split.
  - assert (exists first second, wd_sends after_success = [first; second] /\
      dt_job_id (sn_attempt second) = dt_job_id (sn_attempt first)) as (first & second & Hsends & Hsame)
      by (eexists _, _; split; [vm_compute; reflexivity | reflexivity]).
    exists first, second. split; [exact Hsends|].
    destruct (deliveries_are_made_at_most_once paid (mkSystem after_success ∅) [] [first] second [] Hwf)
      as (earlier & rest & s1 & s2 & Hnone & _ & _ & _ & _ & _ & _ & Hfailed);
      [apply (system_run_trans _ [] [] _ _ _ Hfailure); by apply pass_alone_runs | exact Hsends|].
    destruct earlier; [|discriminate]. apply Hfailed; [apply not_elem_of_nil | by left | by rewrite Hsame].
  - assert (exists first second last, wd_sends after_retry = ([first; second] ++ [last])%list /\ dt_job_id (sn_attempt last) = 1 /\
      arrivals 1 [first; second] = 1%nat) as (first & second & last & Hsends & Hjob & Hone)
      by (eexists _, _, _; split; [vm_compute; reflexivity | split; reflexivity]).
    destruct (deliveries_are_made_at_most_once paid (mkSystem after_retry ∅) [1] [first; second] last [] Hwf)
      as (earlier & rest & s1 & s2 & _ & _ & _ & _ & _ & _ & Hle & _);
      [apply (system_run_trans _ [] [1] _ _ _ Hfailure), (system_run_trans _ [] [1] _ (mkSystem after_doubt ∅));
         [by apply pass_alone_runs | apply (system_run_trans _ [1] [] _ _ _ (reopened_shop_runs _)); by apply pass_alone_runs]
      | exact Hsends|].
    rewrite Hjob in Hle. exists [first; second], last, earlier. split_and!; [exact Hsends | exact Hone | exact Hle].
Defined.
