(* ===== verification/Fulfilment.v ===== *)
(** * Paid orders are delivered

    When the store answers, the content of the items decrypts and fits a message, and
    Telegram accepts the message, a delivery that a worker has claimed arrives: the
    customer gets the goods once, the order is delivered and its items are sold to it.
    So does, in one pass of a worker, what the acceptance of a payment leaves under way
    ([order_under_way], the conclusion of [Settlement], [Acceptance] and [WalletPayment]). *)

From Stdlib Require Import Ascii.
From S2P Require Import Prelude Text Domain Schema Tx Tables Models AdminModels QOrders QInventory QDelivery.
From S2P Require Import QUsers.
From S2P Require Import UpdateStore InventoryStore DeliveryStore Steps Lifecycle Stock Program DeliveryService.
From S2P Require Import Workers.
From S2P Require Import Demo.
From S2P Require Import AtMostOnce Settlement.

(** ** The items a delivery takes *)

Definition delivered_items (oid : Z) (d : Database) : list InventoryRow :=
  omap (fun m => rows InventoryRow d !! m_inventory_item_id m)
    (select_sorted (holds_reserved d oid)
       (fun a b => lex_le (m_order_item_id a, m_inventory_item_id a) (m_order_item_id b, m_inventory_item_id b)) d).

Section Held.
Context (oid : Z) (d : Database) (Hwf : db_wf d).

Lemma held_item m : holds_reserved d oid m = true ->
  exists i, rows InventoryRow d !! m_inventory_item_id m = Some i /\ reserved_for oid i = true.
Proof.
  unfold holds_reserved. rewrite !andb_true_iff. intros [_ Hi].
  destruct (rows InventoryRow d !! m_inventory_item_id m) as [i|]; [by exists i | done].
Qed.

Lemma held_row k : k ∈ held_items oid d -> exists i, rows InventoryRow d !! k = Some i /\ reserved_for oid i = true.
Proof. intros (m & -> & [Hm _]%elem_of_select)%list_elem_of_fmap. by apply held_item. Qed.

(** They are the items held, one for one, ... *)
Lemma delivered_items_ids : map i_id (delivered_items oid d) ≡ₚ held_items oid d.
Proof.
  unfold delivered_items, held_items, select_sorted.
  transitivity (map m_inventory_item_id (merge_sort (ordered_by (fun a b : MappingRow =>
    lex_le (m_order_item_id a, m_inventory_item_id a) (m_order_item_id b, m_inventory_item_id b))) (select (holds_reserved d oid) d)));
    [|by rewrite merge_sort_Permutation].
  match goal with |- ?a ≡ₚ ?b => enough (a = b) as -> by done end. assert (Forall (fun m => holds_reserved d oid m = true) (merge_sort (ordered_by (fun a b : MappingRow =>
    lex_le (m_order_item_id a, m_inventory_item_id a) (m_order_item_id b, m_inventory_item_id b))) (select (holds_reserved d oid) d))) as Hall.
  { apply Forall_forall. intros m Hm. rewrite merge_sort_Permutation in Hm. by apply elem_of_select in Hm as [Hm _]. }
  induction Hall as [|m l Hm _ IH]; [done|]. apply held_item in Hm as (i & Hi & _). csimpl. rewrite Hi. csimpl.
  rewrite IH. by rewrite (wf_key _ _ (wf_inventory _ Hwf) _ _ Hi : i_id i = _).
Qed.

(** ... as they stand in the inventory. *)
Lemma delivered_item i : i ∈ delivered_items oid d ->
  i_id i ∈ held_items oid d /\ rows InventoryRow d !! i_id i = Some i /\ reserved_for oid i = true.
Proof.
  intros Hi. assert (i_id i ∈ held_items oid d) as Hk by (rewrite <- delivered_items_ids; by apply list_elem_of_fmap_2).
  split; [done|]. destruct (held_row _ Hk) as (i' & Hi' & Hr).
  unfold delivered_items in Hi. apply list_elem_of_omap in Hi as (m & _ & Hm).
  pose proof (wf_key _ _ (wf_inventory _ Hwf) _ _ Hm : i_id i = _) as Hid. rewrite Hid in Hi'. rewrite Hm in Hi'.
  injection Hi' as <-. by rewrite Hid.
Qed.
End Held.

(** ** The delivery in the store *)

(** A job in a stage, held by a worker, with its order, its customer and as many
    items as were ordered *)
Record in_delivery (stage : ProcessingStage) (worker : string) (kj oid : Z) (j : OutboxRow) (o : OrderRow) (u : User)
    (it : OrderItemRow) (d : Database) : Prop := {
  id_wf : db_wf d;
  id_worker : optionalText worker = Some worker;
  id_key : 0 < kj;
  id_job : rows OutboxRow d !! kj = Some j;
  id_held : in_stage stage j = true /\ j_locked_by j = Some worker /\ j_event_type j = delivery_event_type;
  id_of : j_order_id j = Some oid /\ j_chat_id j = Some (u_telegram_user_id u);
  id_order : rows OrderRow d !! oid = Some o /\ o_status o = OrderStatusDelivering;
  id_user : rows User d !! o_user_id o = Some u;
  id_item : head (select (fun it => oi_order_id it =? oid) d) = Some it;
  id_count : Z.of_nat (length (held_items oid d)) = oi_quantity it;
  id_ahead : ahead AttemptRow d /\ ahead OrderHistoryRow d /\ ahead AuditRow d }.

Arguments id_wf {_ _ _ _ _ _ _ _ _}.
Arguments id_worker {_ _ _ _ _ _ _ _ _}.
Arguments id_key {_ _ _ _ _ _ _ _ _}.
Arguments id_job {_ _ _ _ _ _ _ _ _}.
Arguments id_held {_ _ _ _ _ _ _ _ _}.
Arguments id_of {_ _ _ _ _ _ _ _ _}.
Arguments id_order {_ _ _ _ _ _ _ _ _}.
Arguments id_user {_ _ _ _ _ _ _ _ _}.
Arguments id_item {_ _ _ _ _ _ _ _ _}.
Arguments id_count {_ _ _ _ _ _ _ _ _}.
Arguments id_ahead {_ _ _ _ _ _ _ _ _}.

Section Delivery.
Context {stage : ProcessingStage} {worker : string} {kj oid : Z} {j : OutboxRow} {o : OrderRow} {u : User}
  {it : OrderItemRow} {d : Database}.
Context (Hd : in_delivery stage worker kj oid j o u it d).

Lemma job_key : j_id j = kj.
Proof. exact (wf_key _ _ (wf_outbox _ (id_wf Hd)) _ _ (id_job Hd)). Qed.
Lemma delivered_order_key : o_id o = oid.
Proof. exact (wf_key _ _ (wf_orders _ (id_wf Hd)) _ _ (proj1 (id_order Hd))). Qed.

Lemma lock_job env : LockDeliveryJob kj env d = Ok j d.
Proof.
  unfold LockDeliveryJob, mbind, Tx_bind, get_row. rewrite (id_job Hd).
  destruct (id_held Hd) as (_ & _ & ->). reflexivity.
Qed.

Lemma find_item env : find_row (fun it => oi_order_id it =? oid) env d = Ok it d.
Proof.
  unfold find_row. pose proof (id_item Hd) as Hi.
  destruct (select _ d); [done|]. by injection Hi as ->.
Qed.

Lemma handoff_order env : LockOrderForDeliveryHandoff oid env d = Ok (o, u, it) d.
Proof.
  unfold LockOrderForDeliveryHandoff. unfold mbind at 1, Tx_bind at 1, get_row at 1. rewrite (proj1 (id_order Hd)).
  unfold mbind at 1, Tx_bind at 1, get_row at 1. rewrite (id_user Hd).
  by erewrite bind_Ok by apply find_item.
Qed.

Lemma delivery_envelope env : LoadDeliveryEnvelope kj env d = Ok (j, o, u, it) d.
Proof.
  unfold LoadDeliveryEnvelope. erewrite bind_Ok by apply lock_job.
  destruct (id_of Hd) as [-> _]. erewrite bind_Ok by reflexivity.
  unfold mbind at 1, Tx_bind at 1, get_row at 1. rewrite (proj1 (id_order Hd)).
  unfold mbind at 1, Tx_bind at 1, get_row at 1. rewrite (id_user Hd).
  rewrite delivered_order_key. by erewrite bind_Ok by apply find_item.
Qed.

Lemma owned : owned_by_worker worker j = true.
Proof.
  unfold owned_by_worker. destruct (id_held Hd) as (_ & -> & _). apply str_eqb_eq. reflexivity.
Qed.

Lemma delivered_items_held :
  Z.of_nat (length (delivered_items oid d)) = oi_quantity it /\ forallb (reserved_for oid) (delivered_items oid d) = true.
Proof.
  pose proof (delivered_items_ids oid d (id_wf Hd)) as Hids. split.
  - rewrite <- (id_count Hd). f_equal. by rewrite <- Hids, length_map.
  - apply forallb_forall. intros i Hi%list_elem_of_In. by apply (delivered_item oid d (id_wf Hd)).
Qed.

Lemma quantity_positive : 0 < oi_quantity it.
Proof.
  pose proof (id_item Hd) as Hi. apply head_Some_elem_of in Hi. apply elem_of_select in Hi as [_ (k & Hk)].
  pose proof (wf_check _ _ (wf_items _ (id_wf Hd)) _ _ Hk) as Hc. simpl in Hc.
  unfold order_items_check in Hc. rewrite !andb_true_iff in Hc. destruct_and! Hc. lia.
Qed.
End Delivery.
(** *** Loading *)

Definition envelope_of (kj oid : Z) (j : OutboxRow) (u : User) (it : OrderItemRow) : DeliveryEnvelope :=
  mkDeliveryEnvelope kj oid (u_telegram_user_id u) (u_telegram_user_id u) (oi_product_name it) (oi_quantity it)
    (j_attempts j) (j_max_attempts j).

Lemma load_succeeds worker kj oid j o u it d env :
  in_delivery StageClaimed worker kj oid j o u it d ->
  load_claimed_tx kj worker env d = Ok (envelope_of kj oid j u it, map encrypted_item (delivered_items oid d)) d.
Proof.
  intros Hd. destruct (delivered_items_held Hd) as [Hlen Hall]. pose proof (quantity_positive Hd) as Hq.
  destruct (id_of Hd) as [Ho Hc]. destruct (id_held Hd) as (Hs & _ & _).
  unfold in_stage in Hs. apply andb_true_iff in Hs as [Hs Hst].
  unfold load_claimed_tx. erewrite bind_Ok by (unfold or_no_rows; rewrite (delivery_envelope Hd); reflexivity).
  cbv beta iota. rewrite guard_passes; last first.
  { rewrite Hs, Hst, (owned Hd), (proj2 (id_order Hd)), Ho, Hc, !bool_decide_eq_true_2, (proj2 (Z.leb_gt _ _) Hq) by done.
    reflexivity. }
  rewrite Ho, Hc. simpl int_or_zero. erewrite bind_Ok by reflexivity. cbv beta.
  change (omap _ _) with (delivered_items oid d).
  rewrite guard_passes by (rewrite Hlen, Z.eqb_refl; reflexivity). rewrite guard_passes by (rewrite Hall; reflexivity).
  by rewrite (job_key Hd).
Qed.

(** *** The start of the attempt *)

(** The job's row while its message is sent *)
Definition sending_row (t : Time) (j : OutboxRow) : OutboxRow :=
  j <| j_stage := Some StageSending |> <| j_send_attempted_at := Some t |>
    <| j_attempts := j_attempts j + 1 |> <| j_version := j_version j + 1 |>.

(** No attempt of the job but the started ones of its number or earlier ones *)
Definition attempts_until (kj n : Z) (statuses : list string) (d : Database) : Prop :=
  forall k a, rows AttemptRow d !! k = Some a -> da_job_id a = Some kj ->
    da_attempt_number a < n \/ (da_attempt_number a = n /\ In (da_status a) statuses).

Lemma sending_check t j : in_stage StageClaimed j = true -> j_attempts j < j_max_attempts j ->
  j_event_type j = delivery_event_type ->
  outbox_events_check j = true -> outbox_events_check (sending_row t j) = true.
Proof.
  unfold in_stage. intros Hs Hl Ht Hc. apply andb_true_iff in Hs as [Hs _]. apply bool_decide_eq_true in Hs.
  unfold outbox_events_check, sending_row in *.
  cbn -[nonblank str_eqb delivery_event_type str_in opt_check is_some is_none Z.ltb Z.leb Z.add DeliveryJobStatus_IsValid] in *.
  rewrite Ht in *. rewrite Hs in *.
  change (bool_decide (DeliveryJobProcessing = DeliveryJobProcessing)) with true in *.
  change (str_eqb delivery_event_type delivery_event_type) with true in *. cbv iota in *.
  rewrite !andb_true_iff in *. destruct_and! Hc.
  split_and!; first [assumption | reflexivity | lia].
Qed.

(** A delivery goes on when only its job and the books were written. *)
Lemma in_delivery_goes_on {stage worker kj oid j o u it d} stage' j' d' :
  in_delivery stage worker kj oid j o u it d -> db_wf d' ->
  rows OutboxRow d' !! kj = Some j' -> in_stage stage' j' = true ->
  (j_locked_by j', j_event_type j', j_order_id j', j_chat_id j') = (j_locked_by j, j_event_type j, j_order_id j, j_chat_id j) ->
  rows OrderRow d' = rows OrderRow d -> rows User d' = rows User d -> rows OrderItemRow d' = rows OrderItemRow d ->
  rows InventoryRow d' = rows InventoryRow d -> rows MappingRow d' = rows MappingRow d ->
  ahead AttemptRow d' /\ ahead OrderHistoryRow d' /\ ahead AuditRow d' ->
  in_delivery stage' worker kj oid j' o u it d' /\ delivered_items oid d' = delivered_items oid d /\
  held_items oid d' = held_items oid d.
Proof.
  intros [Hwf Hw Hk Hj (Hst & Hby & Hty) (Hof & Hchat) [Ho Hos] Hu Hit Hcount Hah] Hwf' Hj' Hst' [= E1 E2 E3 E4] HO HU HI HV HM Ha.
  assert (forall p, select (R := MappingRow) p d' = select p d) as HsM by (intros p; unfold select; by rewrite HM).
  assert (holds_reserved d' oid = holds_reserved d oid) as Hh by (unfold holds_reserved; by rewrite HV).
  assert (held_items oid d' = held_items oid d) as Hheld by (unfold held_items; by rewrite Hh, HsM).
  split; [|split; [unfold delivered_items, select_sorted; by rewrite Hh, HsM, HV | exact Hheld]].
  split; [exact Hwf' | exact Hw | exact Hk | exact Hj' | | | | | | |exact Ha].
  - by rewrite E1, E2.
  - by rewrite E3, E4.
  - by rewrite HO.
  - by rewrite HU.
  - unfold select. rewrite HI. exact Hit.
  - by rewrite Hheld.
Qed.

Lemma begin_succeeds {worker kj oid j o u it d} t env :
  in_delivery StageClaimed worker kj oid j o u it d -> j_attempts j < j_max_attempts j ->
  (forall k a, rows AttemptRow d !! k = Some a -> da_job_id a = Some kj -> da_attempt_number a <= j_attempts j) ->
  exists d', begin_attempt_tx kj worker t env d = Ok (mkDeliveryAttempt (j_attempts j + 1) kj oid) d' /\
    in_delivery StageSending worker kj oid (sending_row t j) o u it d' /\ held_items oid d' = held_items oid d /\
    forall k a, rows AttemptRow d' !! k = Some a -> da_job_id a = Some kj ->
      da_attempt_number a = j_attempts j + 1 -> da_status a = "started"%string.
Proof.
  intros Hd Hleft Hold. pose proof (id_wf Hd) as Hwf. pose proof (id_job Hd) as Hj.
  destruct (id_held Hd) as (Hst & Hby & Hty). destruct (id_of Hd) as [Hof Hchat].
  destruct (id_ahead Hd) as (Ha & Hh & Hu).
  pose proof (wf_check _ _ (wf_outbox _ Hwf) _ _ Hj) as Hc. simpl in Hc.
  assert (0 <= j_attempts j) as Hpos by (unfold outbox_events_check in Hc; rewrite !andb_true_iff in Hc; destruct_and! Hc; lia).
  set (d1 := put_row kj (sending_row t j) d).
  assert (Hbegin : BeginDeliverySend t kj (optionalText worker) env d = Ok (sending_row t j) d1).
  { unfold BeginDeliverySend. apply (update_row_succeeds _ _ _ _ _ j (wf_outbox _ Hwf) Hj).
    - rewrite Hst, Hby, (id_worker Hd), (proj2 (Z.ltb_lt _ _) Hleft). unfold opt_eqb. simpl.
      by rewrite bool_decide_eq_true_2.
    - by apply sending_check.
    - intros r' Hr'. unfold in_stage in Hst. apply andb_true_iff in Hst as [Hs%bool_decide_eq_true _].
      simpl in *. unfold outbox_clash, active_delivery_job in *. exact Hr'. }
  destruct (insert_fresh_succeeds (R := AttemptRow) (fun id => mkAttemptRow id oid (Some kj) (j_attempts j + 1) "started"
    None None None None None None None None t None) env d1) as (d' & Hins & Hrows & Ha' & tb & Hd').
  { by apply (ahead_other (R := AttemptRow)). }
  { simpl. unfold delivery_attempts_check. cbn -[Z.ltb Z.add]. rewrite (proj2 (Z.ltb_lt _ _)) by lia. reflexivity. }
  { intros k a Hk. unfold d1 in Hk. unfold put_row in Hk. rewrite rows_frame in Hk. simpl.
    destruct (da_job_id a) as [z|] eqn:Ez; [|done]. simpl. destruct (decide (kj = z)) as [<-|Hne]; [|by rewrite bool_decide_eq_false_2].
    specialize (Hold k a Hk Ez). rewrite bool_decide_eq_true_2 by done.
    rewrite (proj2 (Z.eqb_neq _ _)) by lia. reflexivity. }
  assert (Hrun : begin_attempt_tx kj worker t env d = Ok (mkDeliveryAttempt (j_attempts j + 1) kj oid) d').
  { unfold begin_attempt_tx. erewrite bind_Ok by (unfold or_no_rows; rewrite Hbegin; reflexivity).
    unfold InsertDeliveryAttemptEvent. simpl. rewrite Hof, (job_key Hd). simpl.
    by erewrite bind_Ok by exact Hins. }
  exists d'. split; [exact Hrun|].
  destruct (in_delivery_goes_on StageSending (sending_row t j) d' Hd) as (Hd1 & _ & Hheld);
    try (subst d'; unfold d1, put_row; by rewrite !rows_frame).
  { exact (begin_attempt_ok (keeps db_wf) kj worker t env d _ d' Hrun Hwf). }
  { subst d'. unfold d1. rewrite rows_frame, rows_put. apply lookup_insert_eq. }
  { unfold in_stage in *. apply andb_true_iff in Hst as [Hs _]. simpl. by rewrite Hs. }
  { done. }
  { split; [exact Ha'|]. subst d'. unfold d1, put_row. split; by repeat apply ahead_other. }
  split; [exact Hd1|]. split; [exact Hheld|]. intros k a Hk Hja Hn. rewrite Hrows in Hk.
  apply lookup_insert_Some in Hk as [[<- <-]|[_ Hk]]; [done|]. unfold d1, put_row in Hk. rewrite rows_frame in Hk.
  specialize (Hold k a Hk Hja). lia.
Qed.

(** *** The success is recorded *)

Lemma sold_check k i : reserved_for k i = true -> inventory_items_check i = true -> inventory_items_check (sell_item k i) = true.
Proof.
  unfold reserved_for. rewrite andb_true_iff, !bool_decide_eq_true. intros [_ Hs] Hc. unfold inventory_items_check, sell_item in *.
  cbn -[nonblank str_eqb aes_format Nat.ltb Nat.leb Nat.eqb opt_check is_some is_none Z.ltb Z.add InventoryStatus_IsValid] in *.
  rewrite Hs in Hc. rewrite !andb_true_iff in *. destruct_and! Hc. split_and!; first [assumption | reflexivity | lia].
Qed.

Section Sale.
Context {stage : ProcessingStage} {worker : string} {kj oid : Z} {j : OutboxRow} {o : OrderRow} {u : User}
  {it : OrderItemRow} {d : Database} (Hd : in_delivery stage worker kj oid j o u it d).

Lemma sale_succeeds env : exists ids d',
  MarkExactReservedInventorySold oid (oi_quantity it) env d = Ok ids d' /\ Z.of_nat (length ids) = oi_quantity it /\
  (forall k, k ∈ held_items oid d -> exists i, rows InventoryRow d' !! k = Some (sell_item oid i)) /\
  (d' = d \/ exists t : Tbl InventoryRow, d' = tbl_set t d).
Proof.
  pose proof (merge_sort_Permutation Z.le (held_items oid d)) as Hperm.
  assert (NoDup (merge_sort Z.le (held_items oid d))) as Hnd by (rewrite Hperm; apply NoDup_held_items, (id_wf Hd)).
  destruct (update_rows_succeed (merge_sort Z.le (held_items oid d)) (fun _ => true) (sell_item oid) env d) as (rs & d' & Hu & Hl).
  - exact (wf_inventory _ (id_wf Hd)).
  - exact Hnd.
  - done.
  - done.
  - intros k Hk. rewrite Hperm in Hk. destruct (held_row _ _ k Hk) as (i & Hi & Hr). exists i. split_and!; [exact Hi | done |].
    apply sold_check; [exact Hr|]. exact (wf_check _ _ (wf_inventory _ (id_wf Hd)) _ _ Hi).
  - exists (map i_id rs), d'. split_and!.
    + unfold MarkExactReservedInventorySold. erewrite bind_Ok by reflexivity. cbv zeta.
      rewrite Hperm, (id_count Hd), Z.eqb_refl. by erewrite bind_Ok by exact Hu.
    + rewrite length_map, Hl, Hperm. exact (id_count Hd).
    + intros k Hk. apply update_rows_Ok in Hu as (Hrows & _ & _); [|exact Hnd]. destruct (held_row _ _ k Hk) as (i & Hi & _).
      exists i. rewrite Hrows, Hi. simpl. rewrite bool_decide_eq_true_2 by (by rewrite Hperm). done.
    + by apply update_rows_Ok in Hu as (_ & _ & Hset).
Qed.
End Sale.

(** The job's and the order's row at the end *)
Definition arrived_row (message sent completed : Z) (j : OutboxRow) : OutboxRow :=
  leave_processing DeliveryJobCompleted j
    <| j_message_id := Some message |> <| j_sent_at := Some sent |>
    <| j_error_code := None |> <| j_error_detail := None |> <| j_completed_at := Some completed |>.
Definition delivered_order (t : Time) (o : OrderRow) : OrderRow :=
  o <| o_status := OrderStatusDelivered |> <| o_delivered_at := Some t |> <| o_version := o_version o + 1 |>.

Lemma arrived_check message sent completed j :
  0 < message -> in_stage StageSending j = true -> j_event_type j = delivery_event_type ->
  outbox_events_check j = true -> outbox_events_check (arrived_row message sent completed j) = true.
Proof.
  unfold in_stage. intros Hm Hs Ht Hc. apply andb_true_iff in Hs as [Hs _]. apply bool_decide_eq_true in Hs.
  unfold outbox_events_check, arrived_row, leave_processing in *.
  cbn -[nonblank str_eqb delivery_event_type str_in opt_check Z.ltb Z.leb Z.add DeliveryJobStatus_IsValid] in *.
  rewrite Ht in *. rewrite Hs in *.
  change (bool_decide (DeliveryJobProcessing = DeliveryJobProcessing)) with true in *.
  change (bool_decide (DeliveryJobCompleted = DeliveryJobProcessing)) with false in *.
  change (str_eqb delivery_event_type delivery_event_type) with true in *. cbv iota in *.
  rewrite !andb_true_iff in *. destruct_and! Hc. split_and!; first [assumption | reflexivity | lia].
Qed.

Lemma delivered_order_check t o : orders_check o = true -> orders_check (delivered_order t o) = true.
Proof.
  unfold orders_check, delivered_order. cbn -[nonblank str_eqb opt_check environment_valid Z.ltb Z.leb Z.add Order.IsValid].
  rewrite !andb_true_iff. intros Hc. destruct_and! Hc. split_and!; first [assumption | reflexivity | lia].
Qed.

(** The records of a success *)
Lemma record_success {worker kj oid j o u it d} env d1 result completed :
  in_delivery StageSending worker kj oid j o u it d ->
  sr_chat_id result = u_telegram_user_id u -> 0 < sr_message_id result -> 0 < j_attempts j ->
  ahead AttemptRow d1 /\ ahead OrderHistoryRow d1 /\ ahead AuditRow d1 ->
  (forall k a, rows AttemptRow d1 !! k = Some a -> da_job_id a = Some kj -> da_attempt_number a = j_attempts j ->
     da_status a = "started"%string) ->
  exists d2 d3 d4 a h,
    insertDeliveryAttempt j "succeeded" completed no_failure result env d1 = Ok a d2 /\
    InsertOrderStatusHistory oid (Some OrderStatusDelivering) OrderStatusDelivered
      (optionalText "telegram_delivery_confirmed") "system" None (optionalText (job_request_id kj)) env d2 = Ok h d3 /\
    insertDeliveryAudit kj oid "delivery.completed" "system" 0 "telegram_success" "" env d3 = Ok tt d4 /\
    rows OrderRow d4 = rows OrderRow d1 /\ rows OutboxRow d4 = rows OutboxRow d1 /\ rows InventoryRow d4 = rows InventoryRow d1.
Proof.
  intros Hd Hchat Hm Hn (Ha & Hh & Hu) Hold.
  assert (0 < u_telegram_user_id u) as Ht.
  { pose proof (wf_check _ _ (wf_users _ (id_wf Hd)) _ _ (id_user Hd)) as Hc. simpl in Hc. unfold users_check in Hc.
    rewrite !andb_true_iff in Hc. destruct_and! Hc. lia. }
  destruct (id_of Hd) as [Hof _].
  destruct (insert_fresh_succeeds (R := AttemptRow) (fun id => mkAttemptRow id oid (Some kj) (j_attempts j) "succeeded"
    None None None (Some (sr_chat_id result)) (Some (sr_message_id result)) None None None
    (default completed (j_send_attempted_at j)) (Some completed)) env d1 Ha) as (d2 & H2 & _ & _ & t2 & E2).
  { simpl. unfold delivery_attempts_check. cbn -[Z.ltb]. rewrite Hchat, !(proj2 (Z.ltb_lt _ _)) by lia. reflexivity. }
  { intros k a Hk. simpl. destruct (da_job_id a) as [z|] eqn:Ez; [|done]. simpl.
    destruct (decide (kj = z)) as [<-|Hne]; [|by rewrite bool_decide_eq_false_2]. rewrite bool_decide_eq_true_2 by done.
    destruct (Z.eqb_spec (j_attempts j) (da_attempt_number a)) as [Heq|]; [|done].
    by rewrite (Hold k a Hk Ez (eq_sym Heq)). }
  destruct (insert_fresh_succeeds (R := OrderHistoryRow) (fun id => mkOrderHistoryRow id oid (Some OrderStatusDelivering)
    OrderStatusDelivered (optionalText "telegram_delivery_confirmed") "system" None (optionalText (job_request_id kj))) env d2)
    as (d3 & H3 & _ & _ & t3 & E3).
  { subst d2. by apply ahead_other. }
  { simpl. unfold order_history_check. rewrite !andb_true_iff. split_and!; try reflexivity. apply optional_text_nonblank. }
  { done. }
  destruct (insert_fresh_succeeds (R := AuditRow) (fun id => mkAuditRow id "system" None "delivery.completed" "delivery_job" (Some kj) None
    (Some (JObj [("delivery_job_id", JInt kj); ("order_id", JInt oid); ("reason", JStr "telegram_success")])) None None) env d3)
    as (d4 & H4 & _ & _ & t4 & E4).
  { subst d3 d2. by repeat apply ahead_other. }
  { simpl. unfold audit_logs_check. cbn -[Z.ltb nonblank]. rewrite (proj2 (Z.ltb_lt _ _) (id_key Hd)). reflexivity. }
  { done. }
  exists d2, d3, d4. eexists _, _. split; [|split; [exact H3 | split]].
  - unfold insertDeliveryAttempt, InsertDeliveryAttemptEvent. rewrite Hof, (job_key Hd).
    unfold optionalInt8. rewrite Hchat in *. rewrite !(proj2 (Z.ltb_lt _ _)) by lia. exact H2.
  - unfold insertDeliveryAudit, QUsers.InsertAuditLog. by erewrite bind_Ok by exact H4.
  - subst d4 d3 d2. by rewrite !rows_frame.
Qed.

Lemma finalize_succeeds {worker kj oid j o u it d} result completed env :
  in_delivery StageSending worker kj oid j o u it d ->
  sr_chat_id result = u_telegram_user_id u -> 0 < sr_message_id result -> 0 < j_attempts j ->
  (forall k a, rows AttemptRow d !! k = Some a -> da_job_id a = Some kj -> da_attempt_number a = j_attempts j ->
     da_status a = "started"%string) ->
  exists d', finalize_success_tx kj worker (mkDeliverySuccess result completed) env d = Ok tt d' /\
    rows OutboxRow d' !! kj = Some (arrived_row (sr_message_id result) (sr_sent_at result) completed j) /\
    rows OrderRow d' !! oid = Some (delivered_order completed o) /\
    forall k, k ∈ held_items oid d -> exists i, rows InventoryRow d' !! k = Some (sell_item oid i).
Proof.
  intros Hd Hchat Hm Hn Hold. pose proof (id_wf Hd) as Hwf.
  destruct (id_held Hd) as (Hst & Hby & Hty). destruct (id_of Hd) as [Hof Hjc]. destruct (id_order Hd) as [Ho Hos].
  assert (Hproc : bool_decide (j_status j = DeliveryJobProcessing) = true /\ bool_decide (j_stage j = Some StageSending) = true)
    by (unfold in_stage in Hst; by apply andb_true_iff in Hst).
  destruct (sale_succeeds Hd env) as (ids & d1 & Hsale & Hids & Hsold & Hd1).
  assert (HO1 : rows OrderRow d1 = rows OrderRow d /\ rows OutboxRow d1 = rows OutboxRow d /\ tbl_get (R := AttemptRow) d1 = tbl_get d
    /\ (ahead AttemptRow d1 /\ ahead OrderHistoryRow d1 /\ ahead AuditRow d1)).
  { destruct (id_ahead Hd) as (H1 & H2 & H3). destruct Hd1 as [->|[t ->]]; [done|].
    split_and!; first [by rewrite !rows_frame | by apply ahead_other | reflexivity]. }
  destruct HO1 as (HO1 & HJ1 & HA1 & Hahead1).
  set (d2 := put_row oid (delivered_order completed o) d1).
  assert (Hdel : MarkOrderDeliveredGuarded completed oid (o_version o) env d1 = Ok (delivered_order completed o) d2).
  { assert (tbl_wf OrderRow d1) as Hw1 by (eapply tbl_wf_ext; [|exact (wf_orders _ Hwf)]; by rewrite HO1).
    apply (update_row_succeeds _ _ _ _ _ o Hw1); [by rewrite HO1 | by rewrite Hos, Z.eqb_refl | | done].
    apply delivered_order_check. exact (wf_check _ _ (wf_orders _ Hwf) _ _ Ho). }
  set (jf := arrived_row (sr_message_id result) (sr_sent_at result) completed j). set (d3 := put_row kj jf d2).
  assert (Hdone : MarkDeliveryCompleted (sr_message_id result) (sr_sent_at result) completed kj (optionalText worker) env d2 = Ok jf d3).
  { assert (rows OutboxRow d2 = rows OutboxRow d) as HJ2 by (unfold d2, put_row; by rewrite rows_frame, HJ1).
    assert (tbl_wf OutboxRow d2) as Hw2 by (eapply tbl_wf_ext; [|exact (wf_outbox _ Hwf)]; by rewrite HJ2).
    refine (update_row_succeeds kj _ (arrived_row (sr_message_id result) (sr_sent_at result) completed) env d2 j Hw2 _ _ _ _).
    - rewrite HJ2. exact (id_job Hd).
    - rewrite Hst, Hby, (id_worker Hd). unfold opt_eqb. simpl. by rewrite bool_decide_eq_true_2.
    - apply arrived_check; [done..|]. exact (wf_check _ _ (wf_outbox _ Hwf) _ _ (id_job Hd)).
    - intros r'. simpl. unfold outbox_clash. rewrite !orb_false_iff. intros [Hk _]. split; [exact Hk|].
      unfold active_delivery_job. simpl. by rewrite andb_false_r. }
  destruct (record_success env d3 result completed Hd Hchat Hm Hn) as (d4 & d5 & d6 & a & h & H4 & H5 & H6 & HO6 & HJ6 & HV6).
  { destruct Hahead1 as (Q1 & Q2 & Q3). unfold d3, d2, put_row. split_and!; by repeat apply ahead_other. }
  { intros k a Hk. apply (Hold k a). unfold d3, d2, put_row in Hk. rewrite !rows_frame in Hk. unfold rows in *. by rewrite <- HA1. }
  exists d6. split; [|split; [|split]].
  - unfold finalize_success_tx. cbv zeta. erewrite bind_Ok by apply (lock_job Hd).
    destruct Hproc as [Hp Hs]. rewrite bool_decide_eq_false_2 by (apply bool_decide_eq_true in Hp; by rewrite Hp).
    rewrite guard_passes by (unfold holds_job; by rewrite Hp, Hs, (owned Hd)).
    rewrite Hof. simpl int_or_zero. erewrite bind_Ok by apply (handoff_order Hd). cbv beta iota.
    rewrite Hjc. simpl int_or_zero. cbn [ds_result ds_completed_at].
    rewrite guard_passes by (rewrite Hos, Hchat, Z.eqb_refl, (proj2 (Z.leb_gt _ _) Hm); reflexivity).
    rewrite (delivered_order_key Hd). erewrite bind_Ok by exact Hsale.
    rewrite guard_passes by (rewrite Hids, Z.eqb_refl; reflexivity).
    erewrite bind_Ok by exact Hdel. rewrite (job_key Hd). erewrite bind_Ok by exact Hdone.
    erewrite bind_Ok by exact H4. by erewrite bind_Ok by exact H5.
  - rewrite HJ6. unfold d3. rewrite rows_put. apply lookup_insert_eq.
  - rewrite HO6. unfold d3, d2, put_row. rewrite rows_frame. fold (put_row oid (delivered_order completed o) d1). rewrite rows_put. apply lookup_insert_eq.
  - intros k Hk. rewrite HV6. unfold d3, d2, put_row. rewrite !rows_frame. by apply Hsold.
Qed.

(** ** The worker's part *)

Definition payload_of (e : EncryptedDeliveryItem) : EncryptedInventoryPayload :=
  mkEncryptedInventoryPayload (ed_ciphertext e) (ed_nonce e) [] (ed_key_version e) (ed_format e).

Section Worker.
Context (outs : nat -> Outside) (dj : DeliveryJob) (job : DeliveryWorkItem).
Abbreviation runs_to p n w := (run_prog (fun step => reply (outs step)) p n w).

(** The items decrypt to these texts whenever they are asked for. *)
Definition decrypts (items : list EncryptedDeliveryItem) (texts : list Bytes) : Prop :=
  Forall2 (fun e text => forall n, out_decrypt (outs n) (ed_product_id e) (payload_of e) = inr text) items texts.

Lemma decrypt_runs items texts acc n w :
  decrypts items texts -> exists n', runs_to (decrypt_items items acc) n w = (inr (acc ++ texts)%list, n', w).
Proof.
  intros Hall. revert acc n. induction Hall as [|e text items texts He _ IH]; intros acc n.
  - exists n. by rewrite app_nil_r.
  - specialize (He n). unfold payload_of in He. simpl. rewrite He. destruct (IH (acc ++ [text])%list (S n)) as [n' ->].
    exists n'. by rewrite <- app_assoc.
Qed.

Lemma load_runs (w : World) (n : nat) oid j o u it
    (f : delivery_answer (CallLoad (wi_id job) (dj_worker_id dj)) -> Worker (option Error)) :
  in_delivery StageClaimed (dj_worker_id dj) (wi_id job) oid j o u it (wd_db w) -> answering (out_env (outs n)) ->
  runs_to (Ask (CallLoad (wi_id job) (dj_worker_id dj)) f) n w =
    runs_to (f (inr (envelope_of (wi_id job) oid j u it, map encrypted_item (delivered_items oid (wd_db w))))) (S n) w.
Proof.
  intros Hd Henv. cbn [run_prog reply]. unfold in_store.
  rewrite (transaction_succeeds _ _ _ _ _ Henv (load_succeeds _ _ _ _ _ _ _ _ _ Hd) : LoadClaimedDelivery _ _ _ _ = _).
  by destruct w.
Qed.

Lemma send_runs oid j o u it w n message sent :
  in_delivery StageClaimed (dj_worker_id dj) (wi_id job) oid j o u it (wd_db w) -> j_attempts j < j_max_attempts j ->
  (forall k a, rows AttemptRow (wd_db w) !! k = Some a -> da_job_id a = Some (wi_id job) -> da_attempt_number a <= j_attempts j) ->
  (forall n, answering (out_env (outs n))) ->
  out_send (outs (2 + n)%nat) (mkDeliverySendRequest (u_telegram_user_id u) message) = inr sent ->
  sr_chat_id sent = u_telegram_user_id u -> 0 < sr_message_id sent ->
  exists n' d', runs_to (send_message dj job (envelope_of (wi_id job) oid j u it) message) n w =
      (None, n', mkWorld d' (wd_sends w ++ [mkSendRecord (mkDeliveryAttempt (j_attempts j + 1) (wi_id job) oid)
                   (mkDeliverySendRequest (u_telegram_user_id u) message) (inr sent)])) /\
    j_status <$> rows OutboxRow d' !! wi_id job = Some DeliveryJobCompleted /\
    o_status <$> rows OrderRow d' !! oid = Some OrderStatusDelivered /\
    forall k, k ∈ held_items oid (wd_db w) -> exists i, rows InventoryRow d' !! k = Some (sell_item oid i).
Proof.
  intros Hd Hleft Hold Henv Hsend Hchat Hm. destruct w as [d sends]. simpl wd_db in *. simpl wd_sends.
  assert (0 <= j_attempts j) as Hpos.
  { pose proof (wf_check _ _ (wf_outbox _ (id_wf Hd)) _ _ (id_job Hd)) as Hc. simpl in Hc. unfold outbox_events_check in Hc.
    rewrite !andb_true_iff in Hc. destruct_and! Hc. lia. }
  destruct (begin_succeeds (env_now (out_env (outs n))) (out_env (outs (S n))) Hd Hleft Hold) as (d1 & Hbegin & Hd1 & Hheld & Hnew).
  destruct (finalize_succeeds sent (env_now (out_env (outs (S (S (S n)))))) (out_env (outs (S (S (S (S n)))))) Hd1 Hchat Hm)
    as (d2 & Hfin & HJ & HO & HV); [simpl; lia | exact Hnew |].
  unfold send_message. cbn [ask mbind Prog_bind prog_bind run_prog reply]. unfold in_store at 1. cbn [wd_db wd_sends].
  unfold BeginDeliveryAttempt. rewrite (transaction_succeeds _ _ _ _ _ (Henv (S n)) Hbegin).
  cbn [run_prog reply prog_bind wd_db wd_sends de_chat_id envelope_of]. change (2 + n)%nat with (S (S n)) in Hsend. rewrite Hsend.
  unfold report. cbn [de_chat_id envelope_of]. rewrite Hchat, Z.eqb_refl, (proj2 (Z.leb_gt _ _) Hm). cbn [negb orb].
  unfold report_success. cbn [ask mbind Prog_bind prog_bind run_prog reply]. unfold in_store. cbn [wd_db wd_sends].
  unfold FinalizeDeliverySuccess. rewrite (transaction_succeeds _ _ _ _ _ (Henv _) Hfin).
  cbn [run_prog]. eexists _, d2. split; [reflexivity|]. rewrite HJ, HO. split_and!; [done..|]. intros k Hk.
  apply HV. by rewrite Hheld.
Qed.

(** As long as the store answers, a delivery that a worker has claimed arrives when
    the order is delivering with as many items held for it as were ordered, the items
    decrypt and fit a message, and Telegram accepts it: the pass ends without an error,
    exactly one message with the content of the items has gone to the customer, the job
    is completed, the order delivered and each of the items sold to it. *)
Theorem claimed_deliveries_arrive oid j o u it w n texts message :
  in_delivery StageClaimed (dj_worker_id dj) (wi_id job) oid j o u it (wd_db w) -> j_attempts j < j_max_attempts j ->
  (forall k a, rows AttemptRow (wd_db w) !! k = Some a -> da_job_id a = Some (wi_id job) -> da_attempt_number a <= j_attempts j) ->
  (forall n, answering (out_env (outs n))) ->
  decrypts (map encrypted_item (delivered_items oid (wd_db w))) texts ->
  BuildDeliveryMessage (envelope_of (wi_id job) oid j u it) texts (dj_support dj) (dj_message_limit dj) = inr message ->
  (forall n, exists sent, out_send (outs n) (mkDeliverySendRequest (u_telegram_user_id u) message) = inr sent /\
     sr_chat_id sent = u_telegram_user_id u /\ 0 < sr_message_id sent) ->
  exists n' d' sent,
    run_prog (fun n => reply (outs n)) (process dj job) n w =
      (None, n', mkWorld d' (wd_sends w ++ [mkSendRecord (mkDeliveryAttempt (j_attempts j + 1) (wi_id job) oid)
                   (mkDeliverySendRequest (u_telegram_user_id u) message) (inr sent)])) /\
    j_status <$> rows OutboxRow d' !! wi_id job = Some DeliveryJobCompleted /\
    o_status <$> rows OrderRow d' !! oid = Some OrderStatusDelivered /\
    forall i, i ∈ delivered_items oid (wd_db w) -> exists i', rows InventoryRow d' !! i_id i = Some i' /\
      i_status i' = InventoryStatusSold /\ i_sold_order_id i' = Some oid.
Proof.
  intros Hd Hleft Hold Henv Hdec Hmsg Hsend.
  destruct (decrypt_runs _ _ [] (S n) w Hdec) as [n1 Hdecr].
  destruct (Hsend (2 + n1)%nat) as (sent & Hs & Hchat & Hm).
  destruct (send_runs oid j o u it w n1 message sent Hd Hleft Hold Henv Hs Hchat Hm) as (n2 & d' & Hrun & HJ & HO & HV).
  exists n2, d', sent. split; [|split; [exact HJ | split; [exact HO|]]].
  - unfold process. etrans; [exact (load_runs w n oid j o u it _ Hd (Henv n))|]. cbv beta iota.
    rewrite run_prog_bind, Hdecr. cbn [fst snd]. rewrite app_nil_l, Hmsg. exact Hrun.
  - intros i Hi. destruct (HV (i_id i)) as (i0 & Hi0); [by apply (delivered_item _ _ (id_wf Hd))|]. by exists (sell_item oid i0).
Qed.
End Worker.

(** ** A pass of the worker *)

Section Idle.
Context (env : Env) (d : Database).

Lemma select_unlocked_none {R} `{Table R} lk (p : R -> bool) :
  (forall k r, rows R d !! k = Some r -> p r = false) -> select_unlocked lk p env d = Ok [] d.
Proof. intros Hno. unfold select_unlocked. by rewrite select_none. Qed.

Lemma order_limit_short {R} (le : R -> R -> bool) b l : 0 < b -> (length l <= 1)%nat -> order_limit le b l env d = Ok l d.
Proof.
  intros Hb Hl. unfold order_limit. rewrite (proj2 (Z.ltb_ge _ _)) by lia.
  assert (merge_sort (ordered_by le) l = l) as ->; [|by rewrite take_ge by lia].
  pose proof (merge_sort_Permutation (ordered_by le) l) as Hp. destruct l as [|a [|c l]]; [| |simpl in Hl; lia].
  - by apply Permutation_nil_r.
  - by apply Permutation_singleton_r.
Qed.

Lemma backfill_idle now b m : 0 < b ->
  (forall k o, rows OrderRow d !! k = Some o -> needs_backfill d o = false) -> backfill_tx now b m env d = Ok 0 d.
Proof.
  intros Hb Hno. unfold backfill_tx. rewrite (bind_Ok _ _ _ _ [] d); [reflexivity|].
  unfold ListDeliveryBackfillOrderIDs. erewrite bind_Ok by reflexivity. erewrite bind_Ok by by apply select_unlocked_none.
  by erewrite bind_Ok by (apply order_limit_short; simpl; lia).
Qed.

Lemma recover_idle now before b : 0 < b ->
  (forall k j, rows OutboxRow d !! k = Some j -> is_stale before j = false) ->
  recover_stale_tx now before b env d = Ok (mkDeliveryRecoveryResult 0 0) d.
Proof.
  intros Hb Hno. unfold recover_stale_tx. rewrite (bind_Ok _ _ _ _ [] d); [reflexivity|].
  unfold LockStaleDeliveryJobs. erewrite bind_Ok by by apply select_unlocked_none.
  apply order_limit_short; simpl; lia.
Qed.
End Idle.

(** There is nothing for a pass to do but to deliver this order. *)
Record only_to_deliver (now stale_before : Time) (oid : Z) (d : Database) : Prop := {
  ot_backfill k o : rows OrderRow d !! k = Some o -> needs_backfill d o = false;
  ot_stale k j : rows OutboxRow d !! k = Some j -> is_stale stale_before j = false;
  ot_due k j : rows OutboxRow d !! k = Some j -> claimable_job now j = true -> j_order_id j = Some oid }.

Arguments ot_backfill {_ _ _ _}.
Arguments ot_stale {_ _ _ _}.
Arguments ot_due {_ _ _ _}.

Lemma claim_check now worker j :
  claimable_job now j = true -> optionalText worker = Some worker -> outbox_events_check j = true ->
  outbox_events_check (claim_job now (Some worker) j) = true.
Proof.
  intros Hcl Hw Hc. unfold claimable_job in Hcl. rewrite !andb_true_iff in Hcl. destruct Hcl as [[[Hty Hst] _] _].
  pose proof (optional_text_nonblank worker) as Hn. rewrite Hw in Hn. simpl in Hn.
  unfold outbox_events_check, claim_job in *.
  cbn -[nonblank str_eqb delivery_event_type str_in opt_check is_some is_none Z.ltb Z.leb Z.add DeliveryJobStatus_IsValid] in *.
  rewrite Hty in *. rewrite orb_true_iff, !bool_decide_eq_true in Hst. destruct Hst as [Hst|Hst]; rewrite Hst in *.
  all: change (bool_decide (DeliveryJobProcessing = DeliveryJobProcessing)) with true; cbv iota.
  all: rewrite !andb_true_iff in *; destruct_and! Hc; rewrite Hn; split_and!; first [assumption | reflexivity | lia].
Qed.

Lemma claimable_active now j : claimable_job now j = true -> active_delivery_job j = true.
Proof.
  unfold claimable_job, active_delivery_job. rewrite !andb_true_iff, orb_true_iff, !bool_decide_eq_true.
  by intros [[[-> [-> | ->]] _] _].
Qed.

Lemma job_claim_succeeds now before worker b env oid t pid amount d :
  db_wf d -> sequenced d -> order_under_way oid t pid amount d -> t <= now -> only_to_deliver now before oid d ->
  (forall k, env_locked env LockOutbox k = false) -> 0 < b -> optionalText worker = Some worker ->
  exists kj j o u it d', claim_delivery_tx now worker b env d = Ok [work_item j] d' /\ wi_id (work_item j) = kj /\
    in_delivery StageClaimed worker kj oid j o u it d' /\ (j_attempts j = 0 /\ 0 < j_max_attempts j) /\
    (exists j0, rows OutboxRow d !! kj = Some j0 /\ j_order_id j0 = Some oid) /\
    rows OrderRow d !! oid = Some o /\ rows User d !! o_user_id o = Some u /\
    head (select (fun it => oi_order_id it =? oid) d) = Some it /\
    delivered_items oid d' = delivered_items oid d /\ rows AttemptRow d' = rows AttemptRow d.
Proof.
  intros Hwf Hseq ((o & Ho & Hos & _) & (it & Hit & _ & Hheld) & (kj & j & o' & u & Hk & Hj & Hof & Hst & Hty & (Ha & Hmax & Hnext) & Ho' & Hu & Hchat) & _)
    Hnow Hall Hfree Hb Hw.
  rewrite Ho in Ho'. injection Ho' as <-.
  assert (claimable_job now j = true) as Hcl.
  { unfold claimable_job. rewrite Hty, Hst, Hnext, Ha, (proj2 (Z.leb_le _ _) Hnow), (proj2 (Z.ltb_lt _ _) Hmax). reflexivity. }
  pose proof (wf_key _ _ (wf_outbox _ Hwf) _ _ Hj : j_id j = kj) as Hid.
  assert (select (claimable_job now) d = [j]) as Hsel.
  { eapply select_single; [done | exact Hj | exact Hcl |]. intros k' r' Hr' Hp. destruct (decide (k' = kj)) as [|Hne]; [done|].
    pose proof (wf_clash _ _ (wf_outbox _ Hwf) _ _ _ _ Hr' Hj Hne) as Hc. simpl in Hc. unfold outbox_clash in Hc.
    rewrite (claimable_active _ _ Hcl), (claimable_active _ _ Hp), (ot_due Hall _ _ Hr' Hp), Hof in Hc. unfold opt_eqb in Hc.
    by rewrite bool_decide_eq_true_2, orb_true_r in Hc. }
  set (j' := claim_job now (Some worker) j). set (d' := put_row kj j' d).
  assert (update_row kj (fun _ => true) (claim_job now (Some worker)) env d = Ok j' d') as Hup.
  { apply update_row_succeeds; [exact (wf_outbox _ Hwf) | exact Hj | done | |].
    - apply claim_check; [done.. |]. exact (wf_check _ _ (wf_outbox _ Hwf) _ _ Hj).
    - intros r. simpl. unfold outbox_clash. rewrite (claimable_active _ _ Hcl). unfold claim_job, active_delivery_job. simpl.
      rewrite Hty. done. }
  assert (claim_delivery_tx now worker b env d = Ok [work_item j'] d') as Hrun.
  { unfold claim_delivery_tx. rewrite (bind_Ok _ _ _ _ [j'] d'); [reflexivity|]. unfold QDelivery.ClaimDeliveryJobs.
    rewrite (bind_Ok _ _ _ _ [j] d).
    2:{ unfold select_unlocked. rewrite Hsel, filter_cons, decide_True by apply Hfree. reflexivity. }
    rewrite (bind_Ok _ _ _ _ [j] d) by (apply order_limit_short; simpl; lia).
    cbn [map update_rows]. rewrite Hw, Hid. erewrite bind_Ok by (unfold try_row; rewrite Hup; reflexivity). reflexivity. }
  pose proof (update_row_sequenced _ _ _ _ _ _ _ Hup Hseq) as Hseq'.
  assert (db_wf d') as Hwf' by (by step_wf Hup Hwf).
  assert (forall R (HT : Table R), Frame R OutboxRow -> rows R d' = rows R d) as Hframe by (intros; apply rows_frame).
  assert (held_items oid d' = held_items oid d /\ delivered_items oid d' = delivered_items oid d) as [Hh Hdel].
  { unfold held_items, delivered_items, select_sorted, select, holds_reserved. by rewrite !Hframe by apply _. }
  exists kj, j', o, u, it, d'. split; [exact Hrun|]. split; [exact Hid|]. split.
  { split; [exact Hwf' | exact Hw | exact Hk | unfold d'; rewrite rows_put; apply lookup_insert_eq | done | done | | | | |].
    - by rewrite Hframe by apply _.
    - by rewrite Hframe by apply _.
    - unfold select. by rewrite Hframe by apply _.
    - by rewrite Hh.
    - unfold sequenced in Hseq'. tauto. }
  split_and!; [done | done | by exists j | done | done | done | done | by apply Hframe].
Qed.

Section Pass.
Context (outs : nat -> Outside) (dj : DeliveryJob).
Context (Houts : forall m, answering (out_env (outs m)) /\ forall k, env_locked (out_env (outs m)) LockOutbox k = false).
Context (Hvalid : validate dj = true).
Abbreviation runs_to p n w := (run_prog (fun step => reply (outs step)) p n w).

Lemma batch_positive : 0 < dj_batch_size dj.
Proof. revert Hvalid. unfold validate. rewrite negb_true_iff, !orb_false_iff. intros Hv. destruct_and! Hv. lia. Qed.

Lemma scan_runs now last n w oid :
  only_to_deliver now (now - dj_lease dj) oid (wd_db w) ->
  exists scanned n', runs_to (scan_stale dj now last) n w = (inr scanned, n', w).
Proof.
  intros Hall. unfold scan_stale. destruct (_ || _); [|by eexists _, _].
  cbn [ask mbind Prog_bind prog_bind run_prog reply]. unfold in_store, RecoverStaleDeliveryJobs.
  rewrite (transaction_succeeds _ _ _ _ _ (proj1 (Houts n)) (recover_idle _ _ _ _ _ batch_positive (ot_stale Hall))).
  destruct w. by eexists _, _.
Qed.

(** C11: As long as the store answers and no job is locked by another transaction, an
    order that is under way, however it was paid, is delivered by the next pass of a
    worker that finds nothing else to do, when its items decrypt and fit a message and
    Telegram accepts it: the pass ends without an error, one message with the content of
    the items, the first attempt for the order, has gone to the customer and no other,
    the job is completed, the order delivered and each of the items sold to it. *)
Theorem orders_under_way_are_delivered last n w oid t pid amount o u it texts message :
  db_wf (wd_db w) -> sequenced (wd_db w) -> order_under_way oid t pid amount (wd_db w) ->
  rows OrderRow (wd_db w) !! oid = Some o -> rows User (wd_db w) !! o_user_id o = Some u ->
  head (select (fun it => oi_order_id it =? oid) (wd_db w)) = Some it ->
  (forall k a kj j, rows AttemptRow (wd_db w) !! k = Some a -> da_job_id a = Some kj ->
     rows OutboxRow (wd_db w) !! kj = Some j -> j_order_id j <> Some oid) ->
  optionalText (dj_worker_id dj) = Some (dj_worker_id dj) ->
  t <= env_now (out_env (outs n)) ->
  only_to_deliver (env_now (out_env (outs n))) (env_now (out_env (outs n)) - dj_lease dj) oid (wd_db w) ->
  decrypts outs (map encrypted_item (delivered_items oid (wd_db w))) texts ->
  (forall kj j, BuildDeliveryMessage (envelope_of kj oid j u it) texts (dj_support dj) (dj_message_limit dj) = inr message) ->
  (forall m, exists sent, out_send (outs m) (mkDeliverySendRequest (u_telegram_user_id u) message) = inr sent /\
     sr_chat_id sent = u_telegram_user_id u /\ 0 < sr_message_id sent) ->
  exists scanned n' d' kj sent,
    runs_to (RunOnce dj last) n w =
      (mkPass 1 None scanned, n',
       mkWorld d' (wd_sends w ++ [mkSendRecord (mkDeliveryAttempt 1 kj oid)
                                    (mkDeliverySendRequest (u_telegram_user_id u) message) (inr sent)])) /\
    j_status <$> rows OutboxRow d' !! kj = Some DeliveryJobCompleted /\
    o_status <$> rows OrderRow d' !! oid = Some OrderStatusDelivered /\
    forall i, i ∈ delivered_items oid (wd_db w) -> exists i', rows InventoryRow d' !! i_id i = Some i' /\
      i_status i' = InventoryStatusSold /\ i_sold_order_id i' = Some oid.
Proof.
  intros Hwf Hseq Hway Ho Hu Hit Hfresh Hname Ht Hall Hdec Hmsg Hsend. pose proof batch_positive as Hb.
  set (now := env_now (out_env (outs n))) in *.
  destruct (scan_runs now last (S (S n)) w oid Hall) as (scanned & n1 & Hscan).
  destruct w as [d sends]. cbn [wd_db wd_sends] in *.
  destruct (job_claim_succeeds now _ (dj_worker_id dj) (dj_batch_size dj) (out_env (outs n1)) oid t pid amount d Hwf Hseq Hway Ht Hall
    (proj2 (Houts n1)) Hb Hname)
    as (kj & j & o' & u' & it' & d1 & Hclaim & Hkj & Hd & (Ha & Hmax) & (j0 & Hj0 & Hof) & Ho' & Hu' & Hit' & Hdel & Hatt).
  rewrite Ho in Ho'. injection Ho' as <-. rewrite Hu in Hu'. injection Hu' as <-. rewrite Hit in Hit'. injection Hit' as <-.
  subst kj.
  destruct (claimed_deliveries_arrive outs dj (work_item j) oid j o u it (mkWorld d1 sends) (S n1) texts message Hd)
    as (n2 & d2 & sent & Hrun & HJ & HO & HV).
  - lia.
  - cbn [wd_db]. rewrite Hatt. intros k a Hk Hka. by destruct (Hfresh k a _ _ Hk Hka Hj0).
  - intros m. apply Houts.
  - cbn [wd_db]. by rewrite Hdel.
  - apply Hmsg.
  - exact Hsend.
  - cbn [wd_db wd_sends] in *. exists scanned, n2, d2, (wi_id (work_item j)), sent. split_and!; [|exact HJ | exact HO | by rewrite <- Hdel].
    rewrite Ha in Hrun. unfold RunOnce. rewrite Hvalid. cbn [negb ask mbind Prog_bind prog_bind run_prog reply]. fold now.
    unfold in_store at 1, BackfillDeliveryJobs. cbn [wd_db wd_sends].
    rewrite (transaction_succeeds _ _ _ _ _ (proj1 (Houts (S n))) (backfill_idle _ _ _ _ _ Hb (ot_backfill Hall))).
    change (prog_bind ?f ?p) with (p ≫= f). rewrite run_prog_bind, Hscan. cbn [fst snd].
    unfold process_due. cbn [ask mbind Prog_bind prog_bind run_prog reply]. unfold in_store, DeliveryStore.ClaimDeliveryJobs, autocommit.
    cbn [wd_db wd_sends]. rewrite (transaction_succeeds _ _ _ _ _ (proj1 (Houts n1)) Hclaim).
    cbn [process_all]. change (prog_bind ?f ?p) with (p ≫= f). rewrite !run_prog_bind, Hrun. reflexivity.
Qed.
End Pass.

(** ** The concrete shop delivers *)

Definition steady (n : nat) : Outside :=
  mkOutside (calm 1310) (Strconv.f64_of_Z 0) (fun _ _ => inr (bytes 3 75)) (fun _ => inr (mkDeliverySendResult 7001 55 1320 "sendMessage")).

Definition rows_of_one : option (OrderRow * User * OrderItemRow * OutboxRow * AllocationRow) :=
  match rows OrderRow paid !! 1, rows User paid !! 1, head (select (fun it => oi_order_id it =? 1) paid),
        rows OutboxRow paid !! 1, rows AllocationRow paid !! 1 with
  | Some o, Some u, Some it, Some j, Some a => Some (o, u, it, j, a)
  | _, _, _, _, _ => None
  end.

(** Its paid order is under way, and the message is ready to be written. *)
Lemma paid_under_way : exists pid o u it,
  order_under_way 1 1200 pid 100000 paid /\ rows OrderRow paid !! 1 = Some o /\ rows User paid !! o_user_id o = Some u /\
  head (select (fun it => oi_order_id it =? 1) paid) = Some it /\ u_telegram_user_id u = 7001 /\
  exists message, forall kj j,
    BuildDeliveryMessage (envelope_of kj 1 j u it) [bytes 3 75; bytes 3 75] (dj_support courier) (dj_message_limit courier) = inr message.
Proof.
  assert (exists o u it j a, rows_of_one = Some (o, u, it, j, a)) as (o & u & it & j & a & Hrows)
    by (eexists _, _, _, _, _; vm_compute; reflexivity).
  exists (al_payment_id a), o, u, it. revert Hrows. unfold rows_of_one.
  destruct (rows OrderRow paid !! 1) as [o0|] eqn:Ho; [|done].
  destruct (rows User paid !! 1) as [u0|] eqn:Hu; [|done].
  destruct (head _) as [it0|] eqn:Hit; [|done].
  destruct (rows OutboxRow paid !! 1) as [j0|] eqn:Hj; [|done].
  destruct (rows AllocationRow paid !! 1) as [a0|] eqn:Ha; [|done]. intros [= <- <- <- <- <-].
  pose proof Ho as Vo. pose proof Hu as Vu. pose proof Hit as Vit. pose proof Hj as Vj. pose proof Ha as Va.
  vm_compute in Vo, Vu, Vit, Vj, Va. injection Vo as <-. injection Vu as <-. injection Vit as <-. injection Vj as <-. injection Va as <-.
  split_and!; [|reflexivity | exact Hu | reflexivity | reflexivity | eexists; intros ? ?; vm_compute; reflexivity].
  split; [eexists; split; [exact Ho | split; reflexivity]|]. split; [eexists; split; [exact Hit | split; vm_compute; reflexivity]|]. split.
  - eexists 1, _, _, _. split; [lia|]. split; [exact Hj|]. split_and!; [reflexivity.. | exact Ho | exact Hu | reflexivity].
  - eexists 1, _. split; [exact Ha|]. split_and!; reflexivity.
Qed.

Lemma only_the_paid_order : only_to_deliver 1310 (1310 - dj_lease courier) 1 paid.
Proof.
  split; intros k r Hr.
  - apply negb_true_iff. refine (rows_forall (fun o => negb (needs_backfill paid o)) paid _ k r Hr). vm_compute. reflexivity.
  - apply negb_true_iff. refine (rows_forall (fun j => negb (is_stale (1310 - dj_lease courier) j)) paid _ k r Hr). vm_compute. reflexivity.
  - intros _. refine (bool_decide_eq_true_1 _ (rows_forall (fun j => bool_decide (j_order_id j = Some 1)) paid _ k r Hr)). vm_compute. reflexivity.
Qed.

Lemma orders_under_way_are_delivered_witness : exists scanned n' d' kj sent message,
  run_prog (fun n => reply (steady n)) (RunOnce courier 0) 0 (mkWorld paid []) =
    (mkPass 1 None scanned, n', mkWorld d' [mkSendRecord (mkDeliveryAttempt 1 kj 1) (mkDeliverySendRequest 7001 message) (inr sent)]) /\
  o_status <$> rows OrderRow d' !! 1 = Some OrderStatusDelivered.
Proof.
  destruct paid_under_way as (pid & o & u & it & Hway & Ho & Hu & Hit & Hc & message & Hmsg).
  destruct (orders_under_way_are_delivered steady courier (fun _ => conj (conj eq_refl eq_refl) (fun _ => eq_refl)) eq_refl
    0 0 (mkWorld paid []) 1 1200 pid 100000 o u it [bytes 3 75; bytes 3 75] message)
    as (scanned & n' & d' & kj & sent & Hrun & _ & HO & _); cbn [wd_db wd_sends].
  - decide_wf.
  - apply sequenced_decide. vm_compute. reflexivity.
  - exact Hway.
  - exact Ho.
  - exact Hu.
  - exact Hit.
  - intros k a kj j Hk. assert (map_to_list (rows AttemptRow paid) = []) as Hnone by (vm_compute; reflexivity).
    apply elem_of_map_to_list in Hk. rewrite Hnone in Hk. destruct (not_elem_of_nil _ Hk).
  - vm_compute. reflexivity.
  - vm_compute. discriminate.
  - exact only_the_paid_order.
  - unfold decrypts. vm_compute delivered_items. repeat constructor.
  - exact Hmsg.
  - intros n. exists (mkDeliverySendResult 7001 55 1320 "sendMessage"). rewrite Hc. split_and!; reflexivity.
  - exists scanned, n', d', kj, sent, message. rewrite Hc in Hrun. split; [exact Hrun | exact HO].
Defined.
