(* ===== verification/Addressed.v ===== *)
(** * Goods go to the customer who ordered them

    What a worker says to Telegram is made from what it has loaded: in every execution of
    any number of workers next to everything else, each message goes to the chat of the
    owner of the order of its job, and carries what the cipher says of exactly as many
    items as were ordered, all of them held for that order when the job was loaded.  Who
    reads the message finds exactly those items in it ([Reading]). *)

From Stdlib Require Import Ascii.
From S2P Require Import Prelude Text Domain Schema Tx Tables Models AdminModels QOrders QInventory QDelivery.
From S2P Require Import DeliveryStore Steps Stock Demo Program DeliveryService Workers AtMostOnce Fulfilment.

(** ** What a worker has loaded *)

Record Loaded := mkLoaded { ld_job : Z; ld_envelope : DeliveryEnvelope; ld_items : list EncryptedDeliveryItem }.

(** The store, in the state [d], answers a load so. *)
Definition loadable (d : Database) (l : Loaded) : Prop :=
  exists worker env d', LoadClaimedDelivery (ld_job l) worker env d = (inr (ld_envelope l, ld_items l), d').

Section Sincere.
Context (dec : Z -> EncryptedInventoryPayload -> Error + Bytes).

(** The cipher of every worker is [dec]. *)
Definition deciphers (out : Outside) : Prop := forall product payload, out_decrypt out product payload = dec product payload.

(** The message of an attempt says what was loaded for its job, to the chat loaded. *)
Definition justified (l : Loaded) (attempt : DeliveryAttempt) (request : DeliverySendRequest) : Prop :=
  dt_job_id attempt = ld_job l /\ sq_chat_id request = de_chat_id (ld_envelope l) /\
  exists texts support limit,
    Forall2 (fun item text => dec (ed_product_id item) (payload_of item) = inr text) (ld_items l) texts /\
    BuildDeliveryMessage (ld_envelope l) texts support limit = inr (sq_text request).

Definition after_load (job : Z) (answer : Error + (DeliveryEnvelope * list EncryptedDeliveryItem)) (was : option Loaded)
    : option Loaded :=
  match answer with inl _ => was | inr (envelope, items) => Some (mkLoaded job envelope items) end.

(** A program that only sends what is justified by what it has loaded; [Q] is what holds
    when it returns. *)
Fixpoint sincere {A} (Q : option Loaded -> A -> Prop) (l : option Loaded) (p : Worker A) : Prop :=
  match p with
  | Ret a => Q l a
  | Ask c k =>
      match c as c return (delivery_answer c -> Worker A) -> Prop with
      | CallLoad job _ => fun k => forall x, sincere Q (after_load job x l) (k x)
      | CallDecrypt product payload => fun k => sincere Q l (k (dec product payload))
      | CallBegin job _ _ => fun k =>
          forall x, (forall attempt, x = inr attempt -> dt_job_id attempt = job) -> sincere Q l (k x)
      | CallSend attempt request => fun k =>
          (exists l', l = Some l' /\ justified l' attempt request) /\ forall x, sincere Q l (k x)
      | CallBackfill _ _ _ => fun k => forall x, sincere Q l (k x)
      | CallRecoverStale _ _ _ => fun k => forall x, sincere Q l (k x)
      | CallClaim _ _ _ => fun k => forall x, sincere Q l (k x)
      | CallClaimedFailure _ _ _ => fun k => forall x, sincere Q l (k x)
      | CallFailure _ _ _ => fun k => forall x, sincere Q l (k x)
      | CallSuccess _ _ _ => fun k => forall x, sincere Q l (k x)
      | CallPreserve _ _ _ => fun k => forall x, sincere Q l (k x)
      | CallClock => fun k => forall x, sincere Q l (k x)
      | CallRandom => fun k => forall x, sincere Q l (k x)
      end k
  end.

Lemma sincere_bind {A B} (R : option Loaded -> B -> Prop) (p : Worker A) (f : A -> Worker B) l :
  sincere (fun l a => sincere R l (f a)) l p -> sincere R l (p ≫= f).
Proof.
  revert l. induction p as [a|c k IH]; intros l; [done|]. destruct c; simpl; intuition eauto.
Qed.

Lemma sincere_weaken {A} (Q R : option Loaded -> A -> Prop) (p : Worker A) l :
  (forall l a, Q l a -> R l a) -> sincere Q l p -> sincere R l p.
Proof.
  intros HQR. revert l. induction p as [a|c k IH]; intros l; [apply HQR|]. destruct c; simpl; intuition eauto.
Qed.

Definition whatever {A} (_ : option Loaded) (_ : A) : Prop := True.

Section Job.
Context (j : DeliveryJob).
Abbreviation speaks := (sincere whatever).

Lemma failBeforeSend_sincere l job code cause : speaks l (failBeforeSend j job code cause).
Proof. unfold failBeforeSend. by case_bool_decide. Qed.

Lemma decrypt_items_sincere l items done_ texts :
  Forall2 (fun item text => dec (ed_product_id item) (payload_of item) = inr text) done_ texts ->
  sincere (fun l' r => l' = l /\ forall texts, r = inr texts ->
      Forall2 (fun item text => dec (ed_product_id item) (payload_of item) = inr text) (done_ ++ items) texts)
    l (decrypt_items items texts).
Proof.
  revert done_ texts. induction items as [|item items IH]; intros done_ texts Hdone; simpl.
  - split; [done|]. intros ? [= <-]. by rewrite app_nil_r.
  - fold (payload_of item). destruct (dec _ _) as [e|text] eqn:He; [done|].
    rewrite cons_middle, app_assoc. apply IH. by apply Forall2_app; [|repeat constructor].
Qed.

Lemma report_sincere l job envelope attempt outcome : speaks l (report j job envelope attempt outcome).
Proof.
  destruct outcome as [err|sent]; simpl; [done|]. destruct (_ || _); simpl; [done|]. by intros now [e|].
Qed.

Lemma send_message_sincere l job envelope encrypted texts message :
  l = Some (mkLoaded (wi_id job) envelope encrypted) ->
  Forall2 (fun item text => dec (ed_product_id item) (payload_of item) = inr text) encrypted texts ->
  BuildDeliveryMessage envelope texts (dj_support j) (dj_message_limit j) = inr message ->
  speaks l (send_message j job envelope message).
Proof.
  intros -> Htexts Hmsg. simpl. intros now [e|attempt] Hx; [done|]. specialize (Hx attempt eq_refl). simpl. split.
  - eexists. split; [done|]. split_and!; [done..|]. by exists texts, (dj_support j), (dj_message_limit j).
  - intros outcome. apply report_sincere.
Qed.

Lemma process_sincere l job : speaks l (process j job).
Proof.
  simpl. intros [e|[envelope encrypted]]; [apply failBeforeSend_sincere|]. simpl.
  apply sincere_bind. eapply sincere_weaken; [|by apply (decrypt_items_sincere _ _ [] [])].
  intros l' [e|texts] [-> Htexts]; [apply failBeforeSend_sincere|]. simpl in Htexts.
  case_match eqn:Hmsg; [apply failBeforeSend_sincere|].
  by eapply send_message_sincere; [|apply Htexts|].
Qed.

Lemma process_all_sincere l jobs : speaks l (process_all j jobs).
Proof.
  revert l. induction jobs as [|job jobs IH]; intros l; [done|]. cbn [process_all].
  apply sincere_bind. eapply sincere_weaken; [|apply process_sincere]. by intros l' [e|] _.
Qed.

Lemma process_due_sincere l now lastStaleScan : speaks l (process_due j now lastStaleScan).
Proof.
  simpl. intros [e|jobs]; [done|]. apply sincere_bind.
  eapply sincere_weaken; [|apply process_all_sincere]. by intros l' r _.
Qed.

Lemma RunOnce_sincere l lastStaleScan : speaks l (RunOnce j lastStaleScan).
Proof.
  unfold RunOnce. destruct (negb (validate j)); [done|]. simpl. intros now [e|created]; [done|].
  apply sincere_bind. unfold scan_stale. case_match; [intros [e|r]; [done|]|]; exact (process_due_sincere _ _ _).
Qed.
End Job.
End Sincere.

(** ** What can be loaded *)

(** A job of an order that is being delivered, addressed to the order's owner, with the
    goods that are held for it: each of them once, as many as were ordered *)
Record holds_goods (d : Database) (l : Loaded) (o : OrderRow) (u : User) (it : OrderItemRow) (items : list InventoryRow) : Prop := {
  hg_job : exists j, rows OutboxRow d !! ld_job l = Some j /\ j_order_id j = Some (o_id o) /\
    j_chat_id j = Some (u_telegram_user_id u);
  hg_order : rows OrderRow d !! o_id o = Some o /\ o_status o = OrderStatusDelivering;
  hg_owner : rows User d !! o_user_id o = Some u;
  hg_envelope : de_chat_id (ld_envelope l) = u_telegram_user_id u /\ de_order_id (ld_envelope l) = o_id o /\
    de_quantity (ld_envelope l) = oi_quantity it;
  hg_item : oi_order_id it = o_id o /\ Z.of_nat (length items) = oi_quantity it /\ 0 < oi_quantity it;
  hg_items : NoDup (map i_id items) /\
    forall i, i ∈ items -> rows InventoryRow d !! i_id i = Some i /\ reserved_for (o_id o) i = true;
  hg_loaded : ld_items l = map encrypted_item items }.

Lemma joined_Ok {A} (x : option A) env d a d' : joined x env (d : Database) = Ok a d' -> x = Some a /\ d' = d.
Proof. unfold joined. destruct x; [intros [= <- <-]; done | done]. Qed.

Lemma LoadDeliveryEnvelope_Ok k env d j o u it d' :
  db_wf d -> LoadDeliveryEnvelope k env d = Ok (j, o, u, it) d' ->
  d' = d /\ rows OutboxRow d !! k = Some j /\ j_order_id j = Some (o_id o) /\ rows OrderRow d !! o_id o = Some o /\
  rows User d !! o_user_id o = Some u /\ oi_order_id it = o_id o.
Proof.
  intros Hwf H. apply bind_Ok_inv in H as (j0 & ? & [-> Hj]%LockDeliveryJob_Ok & H).
  apply bind_Ok_inv in H as (oid & ? & [Hoid ->]%joined_Ok & H).
  apply bind_Ok_inv in H as (o0 & ? & [-> Ho]%get_row_Ok & H).
  apply bind_Ok_inv in H as (u0 & ? & [-> Hu]%get_row_Ok & H).
  apply bind_Ok_inv in H as (it0 & ? & (-> & Hit & _)%find_row_Ok & H).
  apply ret_Ok_inv in H as [H <-]. injection H as -> -> -> ->.
  pose proof (wf_key _ _ (wf_orders _ Hwf) _ _ Ho : o_id o = _) as Hid. subst oid.
  split_and!; try done. lia.
Qed.

Lemma load_holds_goods d l : db_wf d -> loadable d l -> exists o u it items, holds_goods d l o u it items.
Proof.
  intros Hwf (worker & env & d' & H%transaction_ok_inv).
  apply bind_Ok_inv in H as ([[[j o] u] it] & ? & Hrow%or_no_rows_inv & H).
  apply (LoadDeliveryEnvelope_Ok _ _ _ _ _ _ _ _ Hwf) in Hrow as (-> & Hj & Hjo & Ho & Hu & Hit).
  apply bind_Ok_inv in H as ([] & ? & [Hg ->]%guard_not_inv & H).
  rewrite !orb_false_iff, !negb_false_iff, !bool_decide_eq_true in Hg.
  destruct Hg as [[[[[[[Hs Hst] Hw] Hos] _] _] Hchat] Hq].
  rewrite Hjo, Hchat in H. cbn [int_or_zero] in H.
  apply bind_Ok_inv in H as (items & ? & Hitems & H). injection Hitems as <- <-.
  change (omap _ _) with (delivered_items (o_id o) d) in H.
  apply bind_Ok_inv in H as ([] & ? & [Hlen ->]%guard_not_inv & H).
  apply bind_Ok_inv in H as ([] & ? & [_ ->]%guard_not_inv & H).
  apply ret_Ok_inv in H as [H _]. injection H as Henv Hits.
  exists o, u, it, (delivered_items (o_id o) d). split.
  - by exists j.
  - done.
  - done.
  - by rewrite <- Henv.
  - split_and!; [done | | lia]. apply negb_false_iff in Hlen. lia.
  - split; [rewrite delivered_items_ids by done; by apply NoDup_held_items|]. intros i Hi. by apply (delivered_item _ _ Hwf) in Hi as (_ & ? & ?).
  - by rewrite <- Hits.
Qed.

(** ** Every execution *)

Section Executions.
Context (dec : Z -> EncryptedInventoryPayload -> Error + Bytes) (s0 : System).
Abbreviation steps := (rtc (system_step_with (deciphers dec))).

(** It was loadable at some point on the way. *)
Definition was_loaded (s : System) (l : Loaded) : Prop :=
  exists s1, steps s0 s1 /\ steps s1 s /\ loadable (wd_db (sy_world s1)) l.

Lemma was_loaded_step s s' l : system_step_with (deciphers dec) s s' -> was_loaded s l -> was_loaded s' l.
Proof. intros Hs (s1 & H1 & H2 & Hl). exists s1. split_and!; [done | by eapply rtc_r | done]. Qed.

Record informed (s : System) (know : string -> option Loaded) : Prop := {
  inf_programs id p : sy_workers s !! id = Some p -> sincere dec whatever (know id) p;
  inf_loaded id l : know id = Some l -> was_loaded s l;
  inf_sends send : send ∈ wd_sends (sy_world s) ->
    exists l, was_loaded s l /\ justified dec l (sn_attempt send) (sn_request send) }.

(** One worker goes on with the same knowledge, and nothing new is sent. *)
Lemma informed_moves s s' know id p :
  system_step_with (deciphers dec) s s' -> informed s know ->
  sy_workers s' = <[id := p]> (sy_workers s) -> wd_sends (sy_world s') = wd_sends (sy_world s) ->
  sincere dec whatever (know id) p -> informed s' know.
Proof.
  intros Hs [Hp Hl Hsend] Hw He Hsin. split.
  - intros id' p'. rewrite Hw. intros [[<- <-]|[_ ?]]%lookup_insert_Some; [done | by apply Hp].
  - intros id' l Hk. by eapply was_loaded_step, Hl.
  - intros send. rewrite He. intros (l & Hw' & Hj)%Hsend. exists l. split; [by eapply was_loaded_step | done].
Qed.

Lemma informed_calls w workers id c k out know :
  db_wf (wd_db w) -> steps s0 (mkSystem w workers) -> informed (mkSystem w workers) know ->
  workers !! id = Some (Ask c k) -> deciphers dec out ->
  exists know', informed (mkSystem (reply out c w).2 (<[id := k (reply out c w).1]> workers)) know'.
Proof.
  intros Hwf Hsteps Hinf Hid Hdec. pose proof (inf_programs _ _ Hinf id _ Hid) as Hsin.
  assert (Hstep : system_step_with (deciphers dec) (mkSystem w workers)
    (mkSystem (reply out c w).2 (<[id := k (reply out c w).1]> workers))) by (exists []; by apply worker_calls).
  destruct w as [d sends].
  assert (Hstay : sincere dec whatever (know id) (k (reply out c (mkWorld d sends)).1) ->
    wd_sends (reply out c (mkWorld d sends)).2 = sends ->
    exists know', informed (mkSystem (reply out c (mkWorld d sends)).2 (<[id := k (reply out c (mkWorld d sends)).1]> workers)) know').
  { intros Hk Hsame. exists know. by eapply (informed_moves _ _ know id). }
  destruct c; simpl in Hsin; simpl in Hstay, Hstep |- *; unfold in_store in *;
    repeat match goal with |- context [let '(_, _) := ?a in _] => destruct a as [r d'] eqn:Hr end; simpl in *;
    try (by apply Hstay; [apply Hsin | done]).
  - (* the load *)
    specialize (Hsin r). destruct r as [e|[envelope items]]; [by apply Hstay|]. simpl in Hsin.
    set (l := mkLoaded job_id envelope items) in *.
    exists (fun id' => if decide (id' = id) then Some l else know id'). split; simpl.
    + intros id' p [[<- <-]|[Hne Hp]]%lookup_insert_Some; [by rewrite decide_True|].
      rewrite decide_False by done. by apply (inf_programs _ _ Hinf).
    + intros id' l'. case_decide; [intros [= <-] | intros Hk; by eapply was_loaded_step, inf_loaded].
      eexists. split_and!; [exact Hsteps | by apply rtc_once |]. by exists worker_id, (out_env out), d'.
    + intros send Hin. apply (inf_sends _ _ Hinf) in Hin as (l' & Hl' & Hj). exists l'.
      split; [by eapply was_loaded_step | done].
  - apply Hstay; [|done]. apply Hsin. intros attempt ->. by apply (begun_closes _ _ _ _ _ _ _ Hwf) in Hr as [? _].
  - apply Hstay; [|done]. by rewrite Hdec.
  - (* the send *)
    destruct Hsin as [(l & Hl & Hj) Hsin]. exists know. split; simpl.
    + intros id' p [[<- <-]|[Hne Hp]]%lookup_insert_Some; [apply Hsin | by apply (inf_programs _ _ Hinf)].
    + intros id' l' Hk. by eapply was_loaded_step, inf_loaded.
    + intros send [Hin | ->%list_elem_of_singleton]%elem_of_app.
      * apply (inf_sends _ _ Hinf) in Hin as (l' & Hl' & Hj'). exists l'. split; [by eapply was_loaded_step | done].
      * exists l. split; [by eapply was_loaded_step, inf_loaded | done].
Qed.

Lemma informed_step s s' know :
  db_wf (wd_db (sy_world s)) -> steps s0 s -> system_step_with (deciphers dec) s s' -> informed s know ->
  exists know', informed s' know'.
Proof.
  intros Hwf Hsteps Hs Hinf. pose proof Hs as Hs'.
  destruct Hs as [reopened Hact]. destruct Hact as [w workers j scan Hnone | w workers id c k out Hid Hdec | w workers id | w workers op env Hop].
  - exists know. eapply (informed_moves _ _ know (dj_worker_id j)); [done..|]. apply RunOnce_sincere.
  - by eapply informed_calls.
  - exists know. destruct Hinf as [Hp Hl Hsend]. split; simpl.
    + intros id' p [_ ?]%lookup_delete_Some. by apply Hp.
    + intros id' l Hk. by eapply was_loaded_step, Hl.
    + intros send (l & Hw & Hj)%Hsend. exists l. split; [by eapply was_loaded_step | done].
  - exists know. destruct Hinf as [Hp Hl Hsend]. split; simpl; [done | |].
    + intros id' l Hk. by eapply was_loaded_step, Hl.
    + intros send (l & Hw & Hj)%Hsend. exists l. split; [by eapply was_loaded_step | done].
Qed.
End Executions.

Lemma reachable_wf answers d s : db_wf d -> rtc (system_step_with answers) (fresh_system d) s -> db_wf (wd_db (sy_world s)).
Proof.
  intros Hwf [reopened Hrun]%system_steps_run. destruct (reachable_safe _ _ _ _ Hwf Hrun) as [standing Hsafe].
  exact (safe_wf _ _ _ Hsafe).
Qed.

Lemma reachable_informed dec d s :
  db_wf d -> rtc (system_step_with (deciphers dec)) (fresh_system d) s -> exists know, informed dec (fresh_system d) s know.
Proof.
  intros Hwf. revert s. apply (rtc_ind_r (fun s => exists know, informed dec (fresh_system d) s know)).
  - exists (fun _ => None). split; simpl; try done. by intros send ?%elem_of_nil.
  - intros s s' Hsteps Hstep [know Hinf]. eapply informed_step; [|exact Hsteps | exact Hstep | exact Hinf]. by eapply reachable_wf.
Qed.

(** C7: in every execution of workers that decipher with the same cipher, however they
    are interrupted and whatever else happens in the shop, deliveries that administrators
    resolve by hand included: a message of a delivery job goes to the chat of the owner
    of its order, and says, order and product named, what the cipher makes of exactly as
    many items as were ordered, each of them once and all of them held for that order
    when the worker loaded the job. *)
Theorem goods_go_to_their_buyer dec d s send :
  db_wf d -> rtc (system_step_with (deciphers dec)) (fresh_system d) s -> send ∈ wd_sends (sy_world s) ->
  exists s1 l o u it items texts support limit,
    rtc (system_step_with (deciphers dec)) (fresh_system d) s1 /\ rtc (system_step_with (deciphers dec)) s1 s /\
    ld_job l = dt_job_id (sn_attempt send) /\ holds_goods (wd_db (sy_world s1)) l o u it items /\
    sq_chat_id (sn_request send) = u_telegram_user_id u /\
    Forall2 (fun i text => dec (i_product_id i) (payload_of (encrypted_item i)) = inr text) items texts /\
    BuildDeliveryMessage (ld_envelope l) texts support limit = inr (sq_text (sn_request send)).
Proof.
  intros Hwf Hsteps Hin. destruct (reachable_informed dec d s Hwf Hsteps) as [know Hinf].
  destruct (inf_sends _ _ _ _ Hinf send Hin) as (l & (s1 & H1 & H2 & Hl) & Hj & Hchat & texts & support & limit & Htexts & Hmsg).
  destruct (load_holds_goods _ _ (reachable_wf _ d s1 Hwf H1) Hl) as (o & u & it & items & Hg).
  exists s1, l, o, u, it, items, texts, support, limit. split_and!; try done.
  - rewrite Hchat. exact (proj1 (hg_envelope _ _ _ _ _ _ Hg)).
  - rewrite (hg_loaded _ _ _ _ _ _ Hg), Forall2_fmap_l in Htexts. exact Htexts.
Qed.

(** The message that is sent after an administrator has had the goods sent again *)
Lemma goods_go_to_their_buyer_witness : exists send l support limit,
  send ∈ wd_sends after_retry /\ ld_job l = 1 /\
  BuildDeliveryMessage (ld_envelope l) (replicate (length (ld_items l)) (bytes 3 75)) support limit = inr (sq_text (sn_request send)).
Proof.
  assert (exists first second third, wd_sends after_retry = [first; second; third] /\ dt_job_id (sn_attempt third) = 1)
    as (first & second & third & Hsends & Hjob) by (eexists _, _, _; split; [vm_compute; reflexivity | reflexivity]).
  assert (third ∈ wd_sends after_retry) as Hin by (rewrite Hsends; by right; right; left).
  destruct (goods_go_to_their_buyer (fun _ _ => inr (bytes 3 75)) paid (mkSystem after_retry ∅) third)
    as (s1 & l & o & u & it & items & texts & support & limit & _ & _ & Hl & Hg & _ & Htexts & Hmsg).
  - decide_wf.
  - transitivity (mkSystem after_failure ∅); [eapply system_run_steps, pass_alone_runs; intros n product payload; reflexivity|].
    transitivity (mkSystem after_doubt ∅); [eapply system_run_steps, pass_alone_runs; intros n product payload; reflexivity|].
    transitivity (mkSystem reopened_shop ∅); [eapply system_run_steps, reopened_shop_runs|].
    eapply system_run_steps, pass_alone_runs. intros n product payload. reflexivity.
  - exact Hin.
  - exists third, l, support, limit. split; [exact Hin | split; [congruence|]]. rewrite <- Hmsg.
    rewrite (hg_loaded _ _ _ _ _ _ Hg), length_map. f_equal. clear -Htexts.
    induction Htexts as [|i text items texts Ht _ IH]; [reflexivity|]. cbn [length replicate]. rewrite IH. by injection Ht as <-.
Defined.

(** ** What the customer reads

    A client that shows the message takes what stands between the tags of code and
    replaces its entities. *)

Module Reading.

Fixpoint starts (tag s : string) : bool :=
  match tag with
  | EmptyString => true
  | String a tag => match s with String b s => Ascii.eqb a b && starts tag s | EmptyString => false end
  end.

(** [skip] characters of a tag or an entity have been taken already. *)
Fixpoint unescape (skip : nat) (s : string) : string :=
  match s with
  | EmptyString => EmptyString
  | String a s' =>
      match skip with
      | S skip => unescape skip s'
      | O =>
          if starts "&amp;" s then String "&"%char (unescape 4 s')
          else if starts "&lt;" s then String "<"%char (unescape 3 s')
          else if starts "&gt;" s then String ">"%char (unescape 3 s')
          else if starts "&#39;" s then String "'"%char (unescape 4 s')
          else if starts "&#34;" s then String "034"%char (unescape 4 s')
          else String a (unescape 0 s')
      end
  end.

(** The texts between <code> and </code>; [inside] is the one being read. *)
Fixpoint code_blocks (skip : nat) (inside : option string) (s : string) : list string :=
  match s with
  | EmptyString => []
  | String a s' =>
      match skip, inside with
      | S skip, _ => code_blocks skip inside s'
      | O, None => if starts "<code>" s then code_blocks 5 (Some EmptyString) s' else code_blocks 0 None s'
      | O, Some text =>
          if starts "</code>" s then text :: code_blocks 6 None s'
          else code_blocks 0 (Some (text ++ String a EmptyString)%string) s'
      end
  end.

Definition shown (message : string) : list string := map (unescape 0) (code_blocks 0 None message).

(** *** Escaped text *)

Definition angle (a : Ascii.ascii) : bool := Ascii.eqb a "<"%char.

Lemma prefix_other a b s p : Ascii.eqb b a = false -> starts (String b p) (String a s) = false.
Proof. intros Hab. cbn. by rewrite Hab. Qed.

Lemma unescape_escaped s : unescape 0 (EscapeString s) = s.
Proof.
  induction s as [|a s IH]; [done|]. cbn [EscapeString]. unfold escape_char.
  repeat match goal with |- context [if Ascii.eqb a ?c then _ else _] =>
    destruct (Ascii.eqb_spec a c) as [->|]; [exact (f_equal (String c) IH)|] end.
  destruct (Z.eqb_spec (ascii_Z a) 34) as [Ha|_].
  - assert (a = "034"%char) as -> by (apply (f_equal (fun z => Ascii.ascii_of_nat (Z.to_nat z))) in Ha;
      unfold ascii_Z in Ha; by rewrite Nat2Z.id, Ascii.ascii_nat_embedding in Ha).
    exact (f_equal (String "034"%char) IH).
  - rewrite str_app_cons. cbn [unescape]. rewrite !prefix_other by (apply Ascii.eqb_neq; congruence). exact (f_equal (String a) IH).
Qed.

Lemma escaped_has_no_tag s : free_of angle (EscapeString s) = true.
Proof.
  induction s as [|a s IH]; [done|]. cbn [EscapeString]. rewrite free_of_app, IH, andb_true_r. unfold escape_char.
  repeat (case_match; [done|]). rewrite free_of_cons. unfold angle. by rewrite H1.
Qed.

(** *** Text outside and inside of the tags *)

(** The text holds no block, whatever follows it. *)
Definition plain (s : string) : Prop := forall t, code_blocks 0 None (s ++ t) = code_blocks 0 None t.

Lemma plain_free s : free_of angle s = true -> plain s.
Proof.
  induction s as [|a s IH]; intros Hs t; [done|]. rewrite free_of_cons in Hs. apply andb_true_iff in Hs as [Ha%negb_true_iff Hs].
  rewrite str_app_cons. cbn [code_blocks]. rewrite prefix_other; [by apply IH|].
  unfold angle in Ha. apply Ascii.eqb_neq in Ha. by apply Ascii.eqb_neq.
Qed.

Lemma plain_escaped s : plain (EscapeString s).
Proof. apply plain_free, escaped_has_no_tag. Qed.

Lemma plain_cat parts : Forall plain parts -> plain (cat parts).
Proof.
  induction 1 as [|p parts Hp _ IH]; intros t; [done|]. cbn [cat foldr]. fold (cat parts).
  rewrite str_app_assoc, Hp. apply IH.
Qed.

(** A block is read to its end. *)
Lemma block_read acc s t : free_of angle s = true ->
  code_blocks 0 (Some acc) (s ++ "</code>" ++ t) = (acc ++ s)%string :: code_blocks 0 None t.
Proof.
  revert acc. induction s as [|a s IH]; intros acc Hs; [by rewrite str_app_nil|].
  rewrite free_of_cons in Hs. apply andb_true_iff in Hs as [Ha%negb_true_iff Hs].
  rewrite str_app_cons. cbn [code_blocks]. rewrite prefix_other by (unfold angle in Ha; apply Ascii.eqb_neq in Ha; by apply Ascii.eqb_neq).
  rewrite IH by done. by rewrite str_app_assoc.
Qed.

Lemma line_read number text t : free_of angle text = true -> plain number ->
  code_blocks 0 None ((number ++ ". <code>" ++ text ++ "</code>" ++ nl ++ "") ++ t) = text :: code_blocks 0 None t.
Proof.
  intros Htext Hn. rewrite !str_app_assoc. rewrite Hn.
  change (code_blocks 0 None (". <code>" ++ ?x)) with (code_blocks 0 (Some ""%string) x).
  rewrite block_read by done. reflexivity.
Qed.

Lemma cat_cons p parts : cat (p :: parts) = (p ++ cat parts)%string.
Proof. done. Qed.
Lemma cat_app parts parts' : cat (parts ++ parts') = (cat parts ++ cat parts')%string.
Proof. induction parts as [|p parts IH]; [done|]. cbn [cat foldr app]. fold (cat parts) (cat (parts ++ parts')). by rewrite str_app_assoc, <- IH. Qed.

Lemma plain_number z : plain (Z_dec z).
Proof. apply plain_free, free_dec; [by intros a ->%Ascii.eqb_eq | done]. Qed.

Lemma lines_read index payloads lines t : message_lines index payloads = Some lines ->
  code_blocks 0 None (cat lines ++ t) = (map EscapeString (map bytes_string payloads) ++ code_blocks 0 None t)%list.
Proof.
  revert index lines. induction payloads as [|payload payloads IH]; intros index lines; cbn [message_lines]; [by intros [= <-]|].
  destruct (_ || _); [done|]. destruct (message_lines (index + 1) payloads) as [rest|] eqn:Hrest; [|done].
  intros [= <-]. rewrite cat_cons, str_app_assoc.
  rewrite line_read by (apply escaped_has_no_tag || apply plain_number). by rewrite (IH _ _ Hrest).
Qed.

Lemma header_plain order product quantity :
  plain (cat ["<b>Giao hàng · đơn #"; Z_dec order; "</b>"; nl; "Sản phẩm: <b>"; EscapeString product; "</b>"; nl;
              "Số lượng: "; Z_dec quantity; nl; nl]).
Proof.
  apply plain_cat. repeat apply Forall_cons_2; try apply Forall_nil_2;
    first [apply plain_number | apply plain_escaped | intros t; reflexivity].
Qed.

Lemma footer_read support :
  code_blocks 0 None (cat ([nl; "Hãy lưu thông tin ở nơi an toàn và không chia sẻ cho người khác."%string] ++
    (if str_eqb (TrimSpace support) "" then [] else [nl; "Hỗ trợ: "%string; EscapeString (TrimSpace support)]))) = [].
Proof.
  rewrite <- (str_app_nil (cat _)). apply (plain_cat (_ ++ _)). apply Forall_app. split; [|case_match; [by constructor|]];
    repeat apply Forall_cons_2; try apply Forall_nil_2; first [apply plain_escaped | intros t; reflexivity].
Qed.

(** C21: a delivery message fits the limit of its length and shows exactly the goods:
    whatever bytes the items, the name of the product and the contact of the support
    consist of, who takes what stands between the tags of code and replaces its entities
    reads the items, each of them whole and unchanged, in their order, and nothing else. *)
Theorem delivered_goods_are_readable envelope payloads support limit message :
  BuildDeliveryMessage envelope payloads support limit = inr message ->
  str_len message <= limit /\ shown message = map bytes_string payloads.
Proof.
  unfold BuildDeliveryMessage. destruct (_ || _); [done|]. destruct (message_lines 0 payloads) as [items|] eqn:Hitems; [|done].
  cbv zeta. destruct (limit <? _) eqn:Hfits; [done|]. apply Z.ltb_ge in Hfits. injection 1 as <-. split; [exact Hfits|]. clear Hfits.
  unfold shown. match goal with |- context [cat (items ++ ?footer)] =>
    transitivity (map (unescape 0) (code_blocks 0 None (cat (items ++ footer)))); [f_equal; apply header_plain|] end.
  rewrite cat_app, (lines_read 0 payloads items _ Hitems). pose proof (footer_read support) as Hfooter. cbn [app] in Hfooter.
  rewrite Hfooter, app_nil_r, map_map. rewrite <- (map_id (map bytes_string payloads)) at 2.
  apply map_ext. intros s. apply unescape_escaped.
Qed.

(** Goods that look like markup *)
Definition tricky : list Bytes := [codes "</code>1. <code>&lt;"; codes "user:'p&amp;<b>'"].

Lemma delivered_goods_are_readable_witness : exists message,
  BuildDeliveryMessage (mkDeliveryEnvelope 1 1 7001 7001 "</b><code>card</code>" 2 1 5) tricky "@shop <help>" 4096 = inr message /\
  shown message = ["</code>1. <code>&lt;"; "user:'p&amp;<b>'"]%string.
Proof.
  destruct (BuildDeliveryMessage (mkDeliveryEnvelope 1 1 7001 7001 "</b><code>card</code>" 2 1 5) tricky "@shop <help>" 4096) as [e|message] eqn:Hm;
    [vm_compute in Hm; discriminate|].
  exists message. split; [reflexivity|].
  exact (proj2 (delivered_goods_are_readable _ _ _ _ _ Hm)).
Defined.
End Reading.
