(* ===== verification/DeliveryClient.v ===== *)
(** * Sending a delivery to Telegram

    [src/internal/telegram/delivery_client.go]: what one HTTP exchange with the Bot
    API says about a message.  The exchange itself (net/http) and the decoding of
    its body (encoding/json) are inputs; the error of encoding a request of one
    integer and two strings cannot occur and is left out. *)

From S2P Require Import Prelude Text Domain Schema Models DeliveryService.

#[local] Open Scope Z_scope.

Record deliveryAPIResponse := mkDeliveryAPIResponse { dr_ok : bool; dr_error_code : Z; dr_description : string;
    dr_retry_after : Z; dr_message_id : Z; dr_date : Z; dr_chat_id : Z }.

(** How [http.Client.Do] and reading the body end.  [wrote] is what the trace saw: the
    request had been written. *)
Inductive Exchange :=
  | DoFailed (wrote : bool)
  | Responded (status : Z) (read_error : bool) (body : Bytes).

Definition deliveryError (class : DeliveryResultClass) (code summary : string) (httpStatus telegramCode : Z)
    (retryAfter : Duration) : DeliverySendError :=
  mkDeliverySendError class code summary httpStatus telegramCode retryAfter.

Definition classifyDeliveryAPIResponse (httpStatus : Z) (response : deliveryAPIResponse) : DeliverySendError :=
  let errorCode := if dr_error_code response =? 0 then wrap32 httpStatus else dr_error_code response in
  let answer class code summary retryAfter := deliveryError class code summary (wrap32 httpStatus) errorCode retryAfter in
  if (httpStatus =? 429) || (errorCode =? 429) then
    answer DeliveryResultRetryable "rate_limited"%string "Telegram requested a delayed retry"%string
      (wrap64 (dr_retry_after response * 1000000000))
  else if (500 <=? httpStatus) || (500 <=? errorCode) then
    answer DeliveryResultRetryable "server_error"%string "Telegram returned a temporary server error"%string 0
  else
    let description := ToLower (dr_description response) in
    if Contains description "bot was blocked" || Contains description "bot blocked" then
      answer DeliveryResultPermanent "bot_blocked"%string "recipient blocked the bot"%string 0
    else if Contains description "chat not found" then
      answer DeliveryResultPermanent "chat_not_found"%string "recipient chat was not found"%string 0
    else if (httpStatus =? 403) || (errorCode =? 403) then
      answer DeliveryResultPermanent "forbidden"%string "Telegram rejected the recipient"%string 0
    else if (httpStatus =? 401) || (errorCode =? 401) then
      answer DeliveryResultPermanent "unauthorized"%string "Telegram rejected bot authorization"%string 0
    else if (httpStatus =? 400) || (errorCode =? 400) then
      answer DeliveryResultPermanent "invalid_message"%string "Telegram rejected the delivery message"%string 0
    else answer DeliveryResultAmbiguous "unclassified_response"%string
           "Telegram response did not prove delivery outcome"%string 0.

Section Client.
(** [json.Unmarshal] of a response body *)
Context (unmarshal : Bytes -> option deliveryAPIResponse).
(** The client's limit on response bodies, and whether its URL parses *)
Context (responseLimit : Z) (endpoint_valid : bool).

Definition read_response (status : Z) (read_error : bool) (body : Bytes) (request : DeliverySendRequest)
    (now : Time) : DeliverySendError + DeliverySendResult :=
  let unverified := inl (deliveryError DeliveryResultAmbiguous "invalid_response"
                           "Telegram response could not be verified" (wrap32 status) 0 0) in
  if read_error || (responseLimit <? Z.of_nat (length body)) then unverified
  else
    match unmarshal body with
    | None => unverified
    | Some payload =>
        if dr_ok payload then
          if (status <? 200) || (300 <=? status) || (dr_message_id payload <=? 0)
             || negb (dr_chat_id payload =? sq_chat_id request)
          then inl (deliveryError DeliveryResultAmbiguous "invalid_success" "Telegram success evidence is incomplete"
                      (wrap32 status) (dr_error_code payload) 0)
          else inr (mkDeliverySendResult (dr_chat_id payload) (dr_message_id payload)
                      (if 0 <? dr_date payload then unix_time (dr_date payload) else now) "sendMessage")
        else inl (classifyDeliveryAPIResponse status payload)
    end.

Definition SendDelivery (context_done : bool) (request : DeliverySendRequest) (exchange : Exchange) (now : Time)
    : DeliverySendError + DeliverySendResult :=
  if context_done then
    inl (deliveryError DeliveryResultRetryable "cancelled_before_send" "request cancelled before Telegram send" 0 0 0)
  else if (sq_chat_id request <=? 0) || str_eqb (sq_text request) "" then
    inl (deliveryError DeliveryResultPermanent "invalid_message" "delivery request is invalid" 0 0 0)
  else if negb endpoint_valid then
    inl (deliveryError DeliveryResultPermanent "invalid_endpoint" "Telegram endpoint is invalid" 0 0 0)
  else
    match exchange with
    | DoFailed wrote =>
        inl (if wrote : bool
             then deliveryError DeliveryResultAmbiguous "transport_after_write" "Telegram send outcome is unknown" 0 0 0
             else deliveryError DeliveryResultRetryable "connect_failed" "Telegram request was not written" 0 0 0)
    | Responded status read_error body => read_response status read_error body request now
    end.

(** ** What the outcome means *)

(** Telegram cannot have received the request. *)
Definition not_received (context_done : bool) (request : DeliverySendRequest) (exchange : Exchange) : Prop :=
  context_done = true \/ sq_chat_id request <= 0 \/ sq_text request = EmptyString \/ endpoint_valid = false \/
  exchange = DoFailed false.

(** Telegram answered that it refuses the message. *)
Definition refused (exchange : Exchange) (status : Z) (payload : deliveryAPIResponse) : Prop :=
  exists body, exchange = Responded status false body /\ Z.of_nat (length body) <= responseLimit /\
    unmarshal body = Some payload /\ dr_ok payload = false.

Definition temporary (status : Z) (payload : deliveryAPIResponse) : Prop :=
  status = 429 \/ 500 <= status \/ dr_error_code payload = 429 \/ 500 <= dr_error_code payload.

Lemma classify_retryable_temporary status payload :
  -2147483648 <= status <= 2147483647 ->
  se_class (classifyDeliveryAPIResponse status payload) = DeliveryResultRetryable -> temporary status payload.
Proof.
  intros Hrange. unfold classifyDeliveryAPIResponse, temporary. rewrite wrap32_id by done.
  intros H. repeat (case_match; simpl in H; try discriminate H); lia.
Qed.

(** C34: what the outcome of a send means.  A success is backed by Telegram's own
    positive answer about a message in the requested chat.  A failure that allows a
    retry means that Telegram never got the request, or answered that it refuses it
    for now (429 or 5xx); a permanent failure that it never got the request or refused it.  As soon
    as the request was written and no readable answer came back, the outcome is
    ambiguous. *)
Theorem send_outcomes_are_backed_by_evidence context_done request exchange now :
  match exchange with Responded status _ _ => 100 <= status <= 999 | _ => True end ->
  match SendDelivery context_done request exchange now with
  | inr result =>
      exists status body payload, exchange = Responded status false body /\ unmarshal body = Some payload /\
        dr_ok payload = true /\ 200 <= status < 300 /\ sr_chat_id result = sq_chat_id request /\
        sr_message_id result = dr_message_id payload /\ 0 < sr_message_id result
  | inl e =>
      (se_class e = DeliveryResultRetryable ->
         not_received context_done request exchange \/
         exists status payload, refused exchange status payload /\ temporary status payload) /\
      (se_class e = DeliveryResultPermanent ->
         not_received context_done request exchange \/ exists status payload, refused exchange status payload) /\
      (~ not_received context_done request exchange ->
         (forall status payload, ~ refused exchange status payload) -> se_class e = DeliveryResultAmbiguous)
  end.
Proof.
  intros Hstatus. unfold SendDelivery, not_received.
  destruct context_done; [simpl; intuition congruence|].
  destruct (Z.leb_spec (sq_chat_id request) 0); [simpl; intuition lia|]. simpl.
  destruct (str_eqb (sq_text request) "") eqn:Htext; [apply str_eqb_eq in Htext; simpl; intuition congruence|].
  destruct endpoint_valid eqn:Hend; [|simpl; intuition congruence]. simpl.
  destruct exchange as [wrote|status read_error body]; [destruct wrote; simpl; intuition congruence|].
  unfold read_response.
  destruct read_error; [simpl; intuition congruence|]. simpl.
  destruct (Z.ltb_spec responseLimit (Z.of_nat (length body))); [simpl; intuition congruence|].
  destruct (unmarshal body) as [payload|] eqn:Hpayload; [|simpl; intuition congruence].
  destruct (dr_ok payload) eqn:Hok.
  - destruct (_ || negb _) eqn:Hc; [simpl; intuition congruence|].
    rewrite !orb_false_iff, negb_false_iff in Hc. exists status, body, payload. simpl. split_and!; done || lia.
  - assert (Hrefused : refused (Responded status false body) status payload) by (exists body; done).
    split_and!.
    + intros Hr%classify_retryable_temporary; [|lia]. right. by exists status, payload.
    + intros _. right. by exists status, payload.
    + intros _ Hno. by destruct (Hno status payload).
Qed.
End Client.

Lemma send_outcomes_are_backed_by_evidence_witness :
  let unmarshal (_ : Bytes) := Some (mkDeliveryAPIResponse true 0 "" 0 55 1700000000 7001) in
  exists result, SendDelivery unmarshal 1024 true false (mkDeliverySendRequest 7001 "K1") (Responded 200 false [123]) 5 = inr result /\
    0 < sr_message_id result.
Proof.
  intros unmarshal. eexists. split; [vm_compute; reflexivity|].
  destruct (send_outcomes_are_backed_by_evidence unmarshal 1024 true false (mkDeliverySendRequest 7001 "K1")
              (Responded 200 false [123]) 5) as (status & body & payload & _ & _ & _ & _ & _ & _ & Hpos); [lia|].
  exact Hpos.
Defined.
