(* ===== verification/Startup.v ===== *)
(** * Start of the processes

    [src/cmd/api/main.go] and [src/cmd/worker/main.go], as far as the configuration goes
    into them: the services each process builds from its configuration, in the order of
    the code, and the errors that stop it.  Opening the pool, the host's name and the
    client of the Bot API are given ([Host]); metrics, logging, the HTTP server and its
    shutdown are left out. *)

From Stdlib Require Import Ascii SpecFloat.
From S2P Require Import Prelude Text Strconv Schema Tx Tables Domain Models AdminModels Config Ciphers.
From S2P Require Import Instructions Runner.
From S2P Require Import UpdateStore PaymentReference PaymentEvents Providers Reconciliation DeliveryService.
From S2P Require Import DeliveryAdmin.
From S2P Require Import OrderService WalletService BankAccounts InventoryAdmin PaymentAdmin ProviderAdmin.
From S2P Require Import CatalogStore AdminService Workflows.

(** [app.DefaultPostPaymentReservationTTL] and [app.DefaultPaymentTransferContentLimit] *)
Definition DefaultPostPaymentReservationTTL : Duration := 24 * 60 * Minute.
Definition DefaultPaymentTransferContentLimit : Z := 2048.

(** What the process finds: whether the database answers, whether the Bot API library
    takes the token, and the identity of the process *)
Record Host := mkHost { ho_database : bool; ho_bot : string -> bool; ho_name : string; ho_pid : Z }.

(** [fmt.Sprintf("%s-%d", hostname, os.Getpid())] *)
Definition process_name (h : Host) : string := cat [ho_name h; "-"; Z_dec (ho_pid h)].

Section Startup.
Context `{Crypto}.

(** ** The worker *)

Section Worker.
Context (unicode_letter unicode_digit : Z -> bool) (unicode_upper : Z -> Z).

Record WorkerProcess := mkWorkerProcess {
  wp_expiry_batch : Z;
  wp_payments : PaymentEventJob;
  wp_cipher : Cipher;
  wp_delivery : DeliveryJob;
  wp_reconciliation : option ReconciliationJob;
  wp_runner : Runner }.

Definition worker_payments (cfg : Config) (extractor : PaymentReferenceExtractor) : PaymentEventJob :=
  mkPaymentEventJob (PaymentEventBatchSize cfg) (PaymentEventRetryBase cfg) (PaymentStaleProcessingTimeout cfg)
    DefaultPostPaymentReservationTTL
    (if 0 <? DeliveryMaxAttempts cfg then DeliveryMaxAttempts cfg else DefaultDeliveryMaxAttempts)
    (Some (fun content => Extract unicode_letter unicode_digit unicode_upper extractor (codes content))).

Definition worker_delivery (cfg : Config) (h : Host) : DeliveryJob :=
  WithStaleScanInterval
    (NewDeliveryJob
       (mkDeliveryRetryPolicy (DeliveryRetryBase cfg) (DeliveryRetryMax cfg) (DeliveryRetryJitter cfg) (DeliveryMaxAttempts cfg))
       (DeliveryBatchSize cfg) (DeliveryProcessingLease cfg) (DeliveryJobTimeout cfg) (DeliveryMessageMaxBytes cfg)
       (SupportContact cfg) (process_name h))
    (DeliveryStaleScanInterval cfg).

Definition worker_runner (cfg : Config) : Runner :=
  WithDelivery
    (WithPaymentEvents (NewRunner (30 * Second) (OrderExpiryInterval cfg) (OrderExpiryRunTimeout cfg))
       (PaymentEventPollInterval cfg) (PaymentEventRunTimeout cfg))
    (DeliveryPollInterval cfg) (DeliveryRunTimeout cfg).

(** No provider is registered for the reconciliation of the worker. *)
Definition worker_reconciliation (cfg : Config) (h : Host) : Error + option ReconciliationJob :=
  if PaymentReconciliationEnabled cfg then
    match NewProviderRegistry [] with
    | inl _ => inl ErrInvalidInput
    | inr registry =>
        match NewReconciliationJob registry (process_name h) (PaymentReconciliationMaxPages cfg)
                (PaymentReconciliationPageSize cfg) (PaymentReconciliationRequestTimeout cfg)
                (wrap64 (PaymentReconciliationRunTimeout cfg + PaymentReconciliationRequestTimeout cfg)) with
        | None => inl ErrInvalidInput
        | Some job => inr (Some job)
        end
    end
  else inr None.

(** [run] of the worker, up to [runner.Run] *)
Definition start_worker (cfg : Config) (h : Host) : Error + WorkerProcess :=
  if negb (ho_database h) then inl ErrInfra else
  match NewPaymentReferenceExtractor (PaymentReferencePrefix cfg) (PaymentReferenceRandomBytes cfg)
          DefaultPaymentTransferContentLimit with
  | inl e => inl e
  | inr extractor =>
      match InventoryCipher.New (InventoryEncryptionKey cfg) (InventoryEncryptionKeyVersion cfg) with
      | inl e => inl e
      | inr cipher =>
          if negb (ho_bot h (TelegramBotToken cfg)) then inl (ErrExternal "telegram client") else
          match worker_reconciliation cfg h with
          | inl e => inl e
          | inr reconciliation =>
              inr (mkWorkerProcess (OrderExpiryBatchSize cfg) (worker_payments cfg extractor) cipher (worker_delivery cfg h)
                     reconciliation
                     (match reconciliation with
                      | Some _ => WithPaymentReconciliation (worker_runner cfg) (PaymentReconciliationInterval cfg)
                                    (PaymentReconciliationRunTimeout cfg)
                      | None => worker_runner cfg
                      end))
          end
      end
  end.
End Worker.

(** ** The API *)

Section Api.
Context {URL : Type} `{NetURL URL}.

(** What the collaborators of the router answer while an update is processed: the
    random sources, and the library functions the model has as parameters *)
Record Collaborators := mkCollaborators {
  co_reference : nat -> option (list Z);
  co_item_nonce : nat -> Bytes;
  co_account_nonce : Bytes;
  co_updated_at : OutboxRow -> Time;
  co_text_le : string -> string -> bool;
  co_sum256 : Bytes -> Bytes;
  co_hmac : Bytes -> Bytes -> Bytes;
  co_decode : Bytes -> option signedJSONPayload;
  co_sanitize : signedJSONPayload -> option SanitizedMetadata;
  co_marshal : workflowPayload -> string;
  co_unmarshal : string -> option workflowPayload;
  co_parse_time : string -> option Time;
  co_local_format : string -> Time -> string;
  co_utc_format : string -> Time -> string }.

Record ApiProcess := mkApiProcess {
  ap_router : Router;
  ap_secret : string;
  ap_body_limit : Z;
  ap_webhook_timeout : Duration;
  ap_registry : Registry;
  ap_payment_body_limit : Z;
  ap_max_attempts : Z }.

Definition adapters (cfg : Config) (co : Collaborators) : option (list (option Provider)) :=
  foldr (fun name adapters =>
    adapters ← adapters;
    if str_eqb name SignedJSONProvider then
      s ← NewSignedJSONForEnvironment (SignedJSONWebhookSecret cfg) (SignedJSONTimestampTolerance cfg)
            (PaymentProviderEnvironment cfg) true;
      Some (Some (signed_provider (co_hmac co) (co_sum256 co) (co_decode co) (co_sanitize co) s) :: adapters)
    else Some adapters) (Some []) (PaymentProviders cfg).

Definition descriptor (p : Provider) : PaymentProviderDescriptor :=
  mkPaymentProviderDescriptor (prov_name p) (prov_enabled p) (prov_environment p)
    (SupportsWebhook (prov_capabilities p)) (SupportsReconciliation (prov_capabilities p))
    (SupportsTestMode (prov_capabilities p)).

Definition api_orders (cfg : Config) (co : Collaborators) (bank : Cipher) (instructions : Generator URL)
    (references : RandomPaymentReferenceGenerator) : OrderConfig :=
  mkOrderConfig (OrderExpiry cfg) (OrderMaxQuantity cfg) (NewOrderService (OrderPageSize cfg))
    (if validPaymentEnvironment (PaymentProviderEnvironment cfg) then PaymentProviderEnvironment cfg else "production")
    (fun n => match PaymentReference.Generate references (co_reference co n) with
              | inl e => inl e
              | inr reference => inr (bytes_string reference)
              end)
    (BankCipher.Decrypt bank false)
    (Instructions.Generate instructions false).

Definition api_router (cfg : Config) (co : Collaborators) (inventory bank : Cipher) (instructions : Generator URL)
    (references : RandomPaymentReferenceGenerator) (registry : Registry) : Router :=
  {| ro_catalog := CatalogService.NewCatalogService DefaultPageSize;
     ro_sessionTTL := AdminSessionTTL cfg;
     ro_limits := mkInventoryImportLimits (InventoryImportMaxItems cfg) (InventoryImportMaxItemBytes cfg)
                    (InventoryImportMaxTotalBytes cfg);
     ro_inventory := DefaultPageSize;
     ro_protectItem := fun n => InventoryCipher.Protect inventory false (co_item_nonce co n);
     ro_banks := BankAccountService.WithPaymentEnvironment (BankAccountService.NewBankAccountService (BankAccountPageSize cfg))
                   (PaymentProviderEnvironment cfg);
     ro_protectAccount := BankCipher.Protect bank false (co_account_nonce co);
     ro_orders := api_orders cfg co bank instructions references;
     ro_wallet := WalletService.WithPaymentEnvironment (WalletService.WithDeliveryMaxAttempts
                    (WalletService.NewWalletService (WalletTopupMinAmount cfg) (WalletTopupMaxAmount cfg)
                       (WalletTopupExpiry cfg) DefaultPostPaymentReservationTTL) (DeliveryMaxAttempts cfg))
                    (PaymentProviderEnvironment cfg);
     ro_payments := PaymentAdminService.WithDeliveryMaxAttempts
                      (PaymentAdminService.NewPaymentAdminService (PaymentReviewPageSize cfg) DefaultPostPaymentReservationTTL)
                      (DeliveryMaxAttempts cfg);
     ro_deliveries := DeliveryAdminService.WithMetrics (DeliveryAdminService.WithProcessingLease
                        (DeliveryAdminService.NewDeliveryAdminService (DeliveryReviewPageSize cfg)) (DeliveryProcessingLease cfg));
     ro_updatedAt := co_updated_at co;
     ro_providers := Some (map descriptor (ListProviders registry), PaymentProviderReviewPageSize cfg);
     ro_text_le := co_text_le co;
     ro_sum256 := co_sum256 co;
     ro_staleAfter := TelegramUpdateStaleAfter cfg;
     ro_supportContact := SupportContact cfg;
     ro_marshal := co_marshal co;
     ro_unmarshal := co_unmarshal co;
     ro_parse_time := co_parse_time co;
     ro_local_format := co_local_format co;
     ro_utc_format := co_utc_format co |}.

(** The services of the API, in the order [run] builds them *)
Definition build_api (cfg : Config) (h : Host) (co : Collaborators) : Error + ApiProcess :=
  match InventoryCipher.New (InventoryEncryptionKey cfg) (InventoryEncryptionKeyVersion cfg) with
  | inl e => inl e
  | inr inventory =>
  match BankCipher.New (BankAccountEncryptionKey cfg) (BankAccountEncryptionVersion cfg) with
  | inl e => inl e
  | inr bank =>
  match NewGenerator (VietQRBaseURL cfg) (VietQRTemplate cfg) with
  | inl e => inl e
  | inr instructions =>
  match NewPaymentReferenceGenerator (PaymentReferencePrefix cfg) (PaymentReferenceRandomBytes cfg) with
  | inl e => inl e
  | inr references =>
  if negb (ho_bot h (TelegramBotToken cfg)) then inl (ErrExternal "telegram client") else
  match adapters cfg co with
  | None => inl ErrInvalidInput
  | Some adapters =>
  match NewProviderRegistry adapters with
  | inl _ => inl ErrInvalidInput
  | inr registry =>
      inr (mkApiProcess (api_router cfg co inventory bank instructions references registry)
             (TelegramWebhookSecret cfg) (TelegramWebhookBodyLimit cfg) (TelegramWebhookTimeout cfg)
             registry (PaymentWebhookBodyLimit cfg) (PaymentEventMaxAttempts cfg))
  end end end end end end.

(** The administrators of the configuration are recorded first. *)
Definition start_api (cfg : Config) (h : Host) (co : Collaborators) : Script Database ApiProcess :=
  if negb (ho_database h) then stop ErrInfra
  else
    AdminService.Bootstrap (AdminTelegramIDs cfg) ≫= fun _ =>
    match build_api cfg h co with inl e => stop e | inr p => mret p end.
End Api.
End Startup.
