(* ===== verification/Started.v ===== *)
(** * Processes that start

    A process that loads its configuration builds all its services, none of its jobs
    refuses the settings it is given, and every payment reference it draws is fit for
    the instructions it prints; provided no duration overflows. *)

From Stdlib Require Import Ascii SpecFloat.
From S2P Require Import Text Prelude Strconv Schema Tx Tables Domain Models AdminModels Config.

From S2P Require Import Ciphers Instructions Runner.
From S2P Require Import UpdateStore PaymentReference References PaymentEvents Providers Reconciliation DeliveryService.
From S2P Require Import DeliveryAdmin.
From S2P Require Import OrderService WalletService BankAccounts InventoryAdmin PaymentAdmin ProviderAdmin.
From S2P Require Import CatalogStore AdminService.
From S2P Require Import Workflows Startup Secrets.

(** ** Settings that were trimmed when read *)

(** Trimming what a variable gave, or the default *)
Definition trimmed_settings (c : Config) : Prop :=
  TrimSpace (PaymentReferencePrefix c) = PaymentReferencePrefix c /\ TrimSpace (VietQRBaseURL c) = VietQRBaseURL c /\
  TrimSpace (SignedJSONWebhookSecret c) = SignedJSONWebhookSecret c.

Section Trimmed.
Context (getenv : string -> string).
Definition keeps_trimmed (s : Setting) : Prop := forall l, trimmed_settings (ld_config l) -> trimmed_settings (ld_config (s l)).

Lemma envOrDefault_trimmed name fallback :
  TrimSpace fallback = fallback -> TrimSpace (envOrDefault getenv name fallback) = envOrDefault getenv name fallback.
Proof. unfold envOrDefault. cbv zeta. intros Hf. destruct (str_eqb _ _); [done|]. apply TrimSpace_twice. Qed.

Lemma assign_trimmed {A} name (result : ConfigError + A) target l :
  trimmed_settings (ld_config l) -> (forall v, trimmed_settings (target v (ld_config l))) ->
  trimmed_settings (ld_config (assign name result target l)).
Proof. unfold assign. destruct result; simpl; auto. Qed.

Ltac trimmed_setting :=
  intros l Hl;
  first [ apply assign_trimmed; [exact Hl | intros v; revert Hl; generalize (ld_config l); intros c Hc; destruct c; exact Hc]
        | destruct l as [c p]; destruct c; unfold trimmed_settings in *; cbn -[TrimSpace envOrDefault] in *; destruct Hl as (H1 & H2 & H3);
          split_and!; first [assumption | apply TrimSpace_twice | by apply envOrDefault_trimmed] ].

Lemma settings_trimmed process : Forall keeps_trimmed (settings getenv process).
Proof.
  unfold settings, delivery_settings, payment_settings. rewrite !Forall_app. split_and!.
  - repeat apply Forall_cons_2; try apply Forall_nil_2; trimmed_setting.
  - repeat apply Forall_cons_2; try apply Forall_nil_2; trimmed_setting.
  - destruct process; unfold api_settings, worker_settings; repeat apply Forall_cons_2; try apply Forall_nil_2; trimmed_setting.
Qed.

Lemma load_trimmed {URL} `{NetURL URL} process cfg : load getenv process = inr cfg -> trimmed_settings cfg.
Proof.
  intros Hl. apply (load_keeps getenv trimmed_settings process cfg); [|apply settings_trimmed|exact Hl].
  done.
Qed.
End Trimmed.

(** ** The prefix and the references *)

Lemma valid_prefix_part value : validReferencePrefix value = true -> safeReferencePart (TrimSpace (ToUpper value)) = true.
Proof.
  unfold validReferencePrefix, safeReferencePart, str_len. cbv zeta. rewrite !andb_true_iff, negb_true_iff, orb_false_iff, !Z.ltb_ge, !Nat.leb_le.
  intros [[? ?] ?]. split_and!; [lia|lia|done].
Qed.

Lemma references_start prefix n : validReferencePrefix prefix = true -> 4 <= n <= 24 ->
  (exists g, NewPaymentReferenceGenerator prefix n = inr g) /\
  exists e, NewPaymentReferenceExtractor prefix n DefaultPaymentTransferContentLimit = inr e.
Proof.
  intros Hp%valid_prefix_part Hn. split.
  - unfold NewPaymentReferenceGenerator. cbv zeta. rewrite Hp. simpl.
    replace ((n <? 4) || (24 <? n)) with false by lia. by eexists.
  - unfold NewPaymentReferenceExtractor. cbv zeta. rewrite <- TrimSpace_ToUpper, Hp. simpl.
    replace ((n <? 4) || (24 <? n)) with false by lia. by eexists.
Qed.

Lemma codes_bytes_string l : Forall is_byte l -> codes (bytes_string l) = l.
Proof.
  unfold codes, bytes_string. rewrite String.list_ascii_of_string_of_list_ascii, map_map. induction 1 as [|z l Hz Hl IH]; [done|].
  simpl. rewrite IH. f_equal. unfold is_byte in Hz. unfold ascii_Z. rewrite nat_ascii_embedding; lia.
Qed.

Lemma str_len_codes s : str_len s = Z.of_nat (length (codes s)).
Proof. unfold str_len, codes. rewrite length_map. f_equal. induction s as [|a s IH]; simpl; congruence. Qed.

(** A reference that is drawn can be printed. *)
Lemma drawn_reference_valid prefix n g buffer reference :
  NewPaymentReferenceGenerator prefix n = inr g -> Z.of_nat (length buffer) = n -> Forall is_byte buffer ->
  PaymentReference.Generate g (Some buffer) = inr reference -> validReference (bytes_string reference) = true.
Proof.
  intros (Hs & <- & Hn)%generator_inv Hlen Hb [= <-]. destruct (upper_hex_shape buffer Hb) as [Hhex Hhl].
  destruct (safe_ascii _ Hs) as [Ha Hl]. pose proof (hex_ascii _ Hhex) as Hha.
  unfold safeReferencePart in Hs. rewrite !andb_true_iff, !Nat.leb_le in Hs. destruct Hs as [[Hl1 Hl2] Hc].
  assert (codes (bytes_string (codes (g_prefix g) ++ upper_hex buffer)) = (codes (g_prefix g) ++ upper_hex buffer)%list) as E.
  { apply codes_bytes_string. apply Forall_app. split; (eapply Forall_impl; [eassumption|]); unfold is_byte; simpl; lia. }
  unfold validReference. rewrite str_len_codes, E, length_app, Hhl, forallb_app, !andb_true_iff, !Z.leb_le. split_and!; [lia|lia|done|].
  rewrite forallb_forall in Hhex |- *. intros r Hr. specialize (Hhex r Hr). unfold isUpperHex, PaymentReference.is_digit, Config.reference_char, Text.between in *.
  lia.
Qed.

(** ** The worker *)

(** Nothing the worker is given makes a job refuse to run, and as long as no job panics
    the process runs until it is told to stop. *)
Definition worker_ready (w : WorkerProcess) : Prop :=
  0 < wp_expiry_batch w /\
  (pj_batch_size (wp_payments w) <=? 0) || (pj_retry_base (wp_payments w) <=? 0) || (pj_stale_after (wp_payments w) <=? 0) = false /\
  DeliveryService.validate (wp_delivery w) = true /\
  dj_job_timeout (wp_delivery w) < dj_lease (wp_delivery w) /\
  forall outcome events, (forall n j, outcome n j <> JobPanicked) ->
    (Run (wp_runner w) outcome events).2 = if existsb is_cancelled events then Stopped else Running.

(** The name of the process fits the owner column of the leases. *)
Definition named (h : Host) : bool :=
  negb (str_eqb (TrimSpace (process_name h)) "") && (str_len (TrimSpace (process_name h)) <=? 128).
(** The database answers, and a Telegram client is made of any token there is. *)
Definition reachable (h : Host) : Prop := ho_database h = true /\ forall token, token <> ""%string -> ho_bot h token = true.

Lemma required_token cfg process : validate_required cfg process = [] -> TelegramBotToken cfg <> ""%string.
Proof. intros Hr Ht. destruct process; unfold validate_required in Hr; simpl in Hr; rewrite Ht in Hr; by repeat case_match. Qed.

Ltac facts Hw := unfold well_set, numbers, durations, proper_ratio in Hw; cbn -[Z.lt Z.le Z.mul Second Minute century] in Hw; destruct_and? Hw.

Section Worker.
Context `{Crypto} `{!CryptoLaws _} {URL : Type} `{NetURL URL}.
Context (getenv : string -> string) (h : Host) (Hfit : durations_fit getenv = true) (Hnamed : named h = true) (Hreach : reachable h).
Context (unicode_letter unicode_digit : Z -> bool) (unicode_upper : Z -> Z).

Lemma worker_starts cfg : LoadWorker getenv = inr cfg ->
  exists w, start_worker unicode_letter unicode_digit unicode_upper cfg h = inr w /\ worker_ready w.
Proof.
  intros Hload. destruct (load_ok _ Hfit _ _ Hload) as [Hw Hv]. unfold Config.validate in Hv.
  apply app_eq_nil in Hv as [Hreq Hv]. apply app_eq_nil in Hv as [_ Hv]. apply app_eq_nil in Hv as [_ Hv].
  apply app_eq_nil in Hv as [(Hexp & Hkey & Hver)%worker_ok Hcommon].
  apply common_ok in Hcommon as (_ & Hbytes & Hprefix & Hpages & Hsize & Hrt & Hpb & Hdb & Hma & Hbase & _ & Hjt & Hmsg).
  destruct Hreach as [Hdb' Hbot]. unfold start_worker. rewrite Hdb'. simpl.
  destruct (references_start _ _ Hprefix Hbytes) as [_ [e ->]].
  destruct (new_ring_one "telegram-shop/inventory/encryption/v1" "telegram-shop/inventory/fingerprint/v1"
    ErrEncryptionFailed ErrUnknownKeyVersion _ _ Hkey Hver) as [c Hc].
  change (InventoryCipher.New (InventoryEncryptionKey cfg) (InventoryEncryptionKeyVersion cfg) = inr c) in Hc. rewrite Hc.
  rewrite (Hbot _ (required_token _ _ Hreq)). simpl.
  unfold named in Hnamed. apply andb_true_iff in Hnamed as [Hn1%negb_true_iff Hn2%Z.leb_le].
  facts Hw. unfold century, Minute, Second in *.
  assert (exists r, worker_reconciliation cfg h = inr r) as [r Hr].
  { unfold worker_reconciliation. destruct (PaymentReconciliationEnabled cfg); [|by eexists]. simpl.
    unfold NewReconciliationJob. cbv zeta. rewrite Hn1, wrap64_id by (unfold int64_min, int64_max in *; lia). simpl.
    replace (_ || _) with false; [by eexists|]. symmetry. rewrite !orb_false_iff, !Z.ltb_ge, !Z.leb_gt. lia. }
  rewrite Hr. eexists. split; [reflexivity|]. unfold worker_ready. simpl. split_and!.
  - lia.
  - rewrite !orb_false_iff, !Z.leb_gt. lia.
  - unfold worker_delivery, WithStaleScanInterval. rewrite (proj2 (Z.ltb_lt 0 _)) by lia. unfold DeliveryService.validate. simpl.
    rewrite Hn1. unfold f64_lt in *. repeat match goal with H : SFltb _ _ = false |- _ => rewrite H; clear H end.
    rewrite !orb_false_r. apply negb_true_iff. rewrite !orb_false_iff, !Z.ltb_ge, !Z.leb_gt. lia.
  - unfold worker_delivery, WithStaleScanInterval. rewrite (proj2 (Z.ltb_lt 0 _)) by lia. simpl. lia.
  - intros outcome events Hno. apply runs_until_cancelled; [|exact Hno]. destruct r; unfold tickers_start; simpl; rewrite !andb_true_iff, !Z.ltb_lt; lia.
Qed.
End Worker.

(** ** The API *)

(** The settings of the services are in their ranges, and the references drawn from a
    full buffer of random bytes are fit for the instructions. *)
Definition api_ready (cfg : Config) (co : Collaborators) (p : ApiProcess) : Prop :=
  0 < ap_max_attempts p /\ 0 < ap_webhook_timeout p /\
  0 < ro_sessionTTL (ap_router p) /\ 0 < ro_staleAfter (ap_router p) /\
  0 < OrderService.expiry (ro_orders (ap_router p)) /\ 0 < OrderService.maxQuantity (ro_orders (ap_router p)) <= 1000 /\
  0 < WalletService.topupMin (ro_wallet (ap_router p)) <= WalletService.topupMax (ro_wallet (ap_router p)) /\
  0 < WalletService.topupExpiry (ro_wallet (ap_router p)) /\
  forall n buffer reference,
    co_reference co n = Some buffer -> Z.of_nat (length buffer) = PaymentReferenceRandomBytes cfg -> Forall is_byte buffer ->
    OrderService.references (ro_orders (ap_router p)) n = inr reference -> validReference reference = true.

Section Api.
Context `{Crypto} `{!CryptoLaws _} {URL : Type} `{NetURL URL}.
Context (getenv : string -> string) (h : Host) (Hfit : durations_fit getenv = true) (Hreach : reachable h).

Lemma signed_adapter cfg : 0 < SignedJSONTimestampTolerance cfg -> 16 <= str_len (SignedJSONWebhookSecret cfg) ->
  TrimSpace (SignedJSONWebhookSecret cfg) = SignedJSONWebhookSecret cfg ->
  In (PaymentProviderEnvironment cfg) ["development"; "test"; "production"]%string ->
  PaymentProviderEnvironment cfg <> "production"%string ->
  exists s, NewSignedJSONForEnvironment (SignedJSONWebhookSecret cfg) (SignedJSONTimestampTolerance cfg)
    (PaymentProviderEnvironment cfg) true = Some s /\ sj_environment s = PaymentProviderEnvironment cfg.
Proof.
  intros Ht Hl Htrim Henv Hne. unfold NewSignedJSONForEnvironment, NewSignedJSON. rewrite Htrim.
  destruct (str_eqb (SignedJSONWebhookSecret cfg) "") eqn:E; [apply str_eqb_eq in E; rewrite E in Hl; done|].
  replace (_ <=? 0) with false by lia. simpl in Henv. destruct Henv as [He|[He|[He|[]]]]; [..|congruence].
  all: rewrite <- He; simpl; by eexists.
Qed.

Lemma adapters_start cfg co : well_set cfg -> trimmed_settings cfg ->
  Forall (fun p => p = "signed_json"%string /\ 16 <= str_len (SignedJSONWebhookSecret cfg)) (PaymentProviders cfg) ->
  (PaymentProviders cfg <> [] -> PaymentProviderEnvironment cfg <> "production"%string) ->
  In (PaymentProviderEnvironment cfg) ["development"; "test"; "production"]%string ->
  exists ps registry, adapters cfg co = Some ps /\ NewProviderRegistry ps = inr registry.
Proof.
  intros (_ & Hd & _ & _ & Hnd) (_ & _ & Htrim) Hall Hprod Henv. unfold adapters.
  destruct (PaymentProviders cfg) as [|a [|b l]].
  - simpl. by eexists _, _.
  - apply Forall_cons in Hall as [[-> Hlen] _]. unfold durations in Hd. cbn -[Z.le Second Minute century] in Hd. destruct_and? Hd.
    unfold Second in *. destruct (signed_adapter cfg) as (s & Hs & He); [lia|done|done|done|by apply Hprod|].
    cbn -[NewSignedJSONForEnvironment]. rewrite Hs. simpl. eexists _, _. split; [reflexivity|].
    unfold NewProviderRegistry. simpl. rewrite He. destruct Henv as [<-|[<-|[<-|[]]]]; reflexivity.
  - apply Forall_cons in Hall as [[-> _] Hall]. apply Forall_cons in Hall as [[-> _] _].
    apply NoDup_cons in Hnd as [Hnot _]. destruct Hnot. left.
Qed.

Lemma generator_starts cfg : trimmed_settings cfg -> valid_vietqr cfg = true ->
  exists g, NewGenerator (VietQRBaseURL cfg) (VietQRTemplate cfg) = inr g.
Proof.
  intros (_ & Htrim & _). unfold valid_vietqr, NewGenerator. rewrite Htrim. destruct (url_parse _) as [u|]; [|done].
  rewrite !andb_true_iff, negb_true_iff. intros [[-> ->] Ht]. change safeTemplate with validVietQRTemplate. rewrite Ht. by eexists.
Qed.

Lemma api_starts cfg co : LoadAPI getenv = inr cfg -> exists p, build_api cfg h co = inr p /\ api_ready cfg co p.
Proof.
  intros Hload. destruct (load_ok _ Hfit _ _ Hload) as [Hw Hv]. pose proof (load_trimmed _ _ _ Hload) as Htrim.
  unfold Config.validate in Hv. apply app_eq_nil in Hv as [Hreq Hv]. apply app_eq_nil in Hv as [_ Hv].
  apply app_eq_nil in Hv as [_ Hv]. apply app_eq_nil in Hv as [Hapi Hcommon].
  apply api_ok in Hapi as (Hall & Hprod & Hik & Hiv & Hbk & Hbv & Hq & Htop & Hqr & _).
  apply common_ok in Hcommon as (Henv & Hbytes & Hprefix & _ & _ & _ & Hpb & _).
  destruct Hreach as [_ Hbot]. unfold build_api.
  destruct (new_ring_one "telegram-shop/inventory/encryption/v1" "telegram-shop/inventory/fingerprint/v1"
    ErrEncryptionFailed ErrUnknownKeyVersion _ _ Hik Hiv) as [ci Hci].
  change (InventoryCipher.New (InventoryEncryptionKey cfg) (InventoryEncryptionKeyVersion cfg) = inr ci) in Hci. rewrite Hci.
  destruct (new_ring_one "telegram-shop/bank/encryption/v1" "telegram-shop/bank/fingerprint/v1"
    ErrBankEncryptionFailed ErrUnknownBankKeyVersion _ _ Hbk Hbv) as [cb Hcb].
  change (BankCipher.New (BankAccountEncryptionKey cfg) (BankAccountEncryptionVersion cfg) = inr cb) in Hcb. rewrite Hcb.
  destruct (generator_starts cfg Htrim Hqr) as [g ->].
  destruct (references_start _ _ Hprefix Hbytes) as [[r Hr] _]. rewrite Hr, (Hbot _ (required_token _ _ Hreq)). simpl.
  destruct (adapters_start cfg co Hw Htrim Hall Hprod Henv) as (ps & registry & -> & ->). eexists. split; [reflexivity|].
  facts Hw. unfold century, Minute, Second in *. unfold api_ready. cbn -[Z.lt Z.le PaymentReference.Generate].
  split_and!; try lia.
  - unfold WalletService.WithPaymentEnvironment, WalletService.WithDeliveryMaxAttempts. repeat case_match; simpl; lia.
  - unfold WalletService.WithPaymentEnvironment, WalletService.WithDeliveryMaxAttempts. repeat case_match; simpl; lia.
  - unfold WalletService.WithPaymentEnvironment, WalletService.WithDeliveryMaxAttempts. repeat case_match; simpl; lia.
  - intros n buffer reference -> Hlen Hb. destruct (PaymentReference.Generate r (Some buffer)) as [|l] eqn:E; [done|].
    intros [= <-]. by eapply drawn_reference_valid.
Qed.
End Api.

(** ** Both processes *)

(** C16: on a host where the database answers, the Telegram client takes any token that is
    not empty, and the name of the process (host and number) has from 1 to 128 bytes, a
    process that has loaded its configuration, with no duration above a century, starts:
    every service is built, no job of the worker refuses its settings and, if none
    panics, the worker runs until it is told to stop; the API's limits and deadlines are
    positive and every payment reference drawn from random bytes is fit for the
    instruction sent to the customer. *)
Theorem configured_processes_start `{Crypto} `{!CryptoLaws _} {URL} `{NetURL URL}
    getenv h co unicode_letter unicode_digit unicode_upper :
  durations_fit getenv = true -> named h = true -> reachable h ->
  (forall cfg, LoadWorker getenv = inr cfg ->
     exists w, start_worker unicode_letter unicode_digit unicode_upper cfg h = inr w /\ worker_ready w) /\
  (forall cfg, LoadAPI getenv = inr cfg -> exists p, build_api cfg h co = inr p /\ api_ready cfg co p).
Proof. intros Hfit Hn Hr. split; intros cfg Hload; [by eapply worker_starts | by eapply api_starts]. Qed.

(** URLs by their text: those of https, of one host *)
#[export] Instance https_url : NetURL string := {
  url_parse s := if HasPrefix s "https://" then Some s else None;
  url_parse_request_uri s := if HasPrefix s "https://" then Some s else None;
  url_scheme _ := "https"%string;
  url_host _ := "host"%string;
  url_path _ := "/image/"%string;
  url_with_path u path := (u ++ path)%string;
  url_query _ := ∅;
  url_encode _ := ""%string;
  url_with_raw_query u query := (u ++ query)%string;
  url_string u := u }.

Definition thirty_two_zeros : string := cat (repeat "AAAA"%string 10 ++ ["AAA="%string]).
Definition deployed (name : string) : string :=
  default ""%string (list_to_map (M := gmap string string)
    [("DATABASE_URL", "postgres://shop"); ("TELEGRAM_BOT_TOKEN", "1:token"); ("TELEGRAM_WEBHOOK_SECRET", "a long webhook secret");
     ("TELEGRAM_WEBHOOK_URL", "https://shop.example/webhooks/telegram"); ("ADMIN_TELEGRAM_IDS", "7002, 7003,7002");
     ("INVENTORY_ENCRYPTION_KEY", thirty_two_zeros); ("BANK_ACCOUNT_ENCRYPTION_KEY", thirty_two_zeros);
     ("PAYMENT_PROVIDERS", "Signed_JSON"); ("SIGNED_JSON_WEBHOOK_SECRET", "another long secret");
     ("PAYMENT_RECONCILIATION_ENABLED", "true"); ("PAYMENT_REFERENCE_PREFIX", " sh9 "); ("DELIVERY_RETRY_JITTER", "0.5")]%string !! name).
Definition machine : Host := mkHost true (fun token => negb (str_eqb token "")) "node" 41.
Definition quiet_collaborators : Collaborators :=
  mkCollaborators (fun _ => Some (repeat 171 6)) (fun _ => repeat 5 12) (repeat 5 12) j_created_at (fun _ _ => true) (fun b => b)
    (fun _ b => b) (fun _ => None) (fun _ => None) (fun _ => "{}"%string) (fun _ => None) (fun _ => None)
    (fun _ _ => ""%string) (fun _ _ => ""%string).

Definition loads (process : processKind) (getenv : string -> string) : bool :=
  match load (URL := string) getenv process with inr _ => true | inl _ => false end.

Lemma configured_processes_start_witness :
  (exists cfg w, LoadWorker deployed = inr cfg /\ start_worker (fun _ => false) (fun _ => false) id cfg machine = inr w /\ worker_ready w)
  /\ exists cfg p, LoadAPI deployed = inr cfg /\ build_api cfg machine quiet_collaborators = inr p /\ api_ready cfg quiet_collaborators p.
Proof.
  assert (reachable machine) as Hr by (split; [done|]; intros t Ht; simpl; destruct (str_eqb t "") eqn:E; [by apply str_eqb_eq in E | done]).
  destruct (configured_processes_start deployed machine quiet_collaborators (fun _ => false) (fun _ => false) id) as [Hw Ha];
    [vm_compute; reflexivity | vm_compute; reflexivity | exact Hr |].
  split.
  - destruct (LoadWorker deployed) as [ps|cfg] eqn:E; [assert (loads processWorker deployed = true) as Hl by (vm_compute; reflexivity);
      unfold loads in Hl; unfold LoadWorker in E; rewrite E in Hl; discriminate|].
    destruct (Hw cfg eq_refl) as (w & Hs & Hready). exists cfg, w. split; [reflexivity|]. split; assumption.
  - destruct (LoadAPI deployed) as [ps|cfg] eqn:E; [assert (loads processAPI deployed = true) as Hl by (vm_compute; reflexivity);
      unfold loads in Hl; unfold LoadAPI in E; rewrite E in Hl; discriminate|].
    destruct (Ha cfg eq_refl) as (p & Hs & Hready). exists cfg, p. split; [reflexivity|]. split; assumption.
Defined.

(** ** What is not noticed *)

Definition but (getenv : string -> string) (name value : string) : string -> string := fun n => if str_eqb n name then value else getenv n.

Definition starts_and_crashes (getenv : string -> string) : bool :=
  match LoadWorker (URL := string) getenv with
  | inr cfg => match start_worker (fun _ => false) (fun _ => false) id cfg machine with
               | inr w => negb (tickers_start (wp_runner w))
               | inl _ => false
               end
  | inl _ => false
  end.

(** An interval of more than an int64 of nanoseconds loads as a negative one, and the
    worker crashes when it starts its tickers. *)
Lemma overflowing_interval_loads : exists cfg w,
  LoadWorker (but deployed "DELIVERY_POLL_INTERVAL" "9223372037") = inr cfg /\
  start_worker (fun _ => false) (fun _ => false) id cfg machine = inr w /\
  forall outcome events, Run (wp_runner w) outcome events = ([], Crashed).
Proof.
  assert (starts_and_crashes (but deployed "DELIVERY_POLL_INTERVAL" "9223372037") = true) as H by (vm_compute; reflexivity).
  unfold starts_and_crashes in H. destruct (LoadWorker _) as [ps|cfg] eqn:E; [done|].
  destruct (start_worker _ _ _ cfg machine) as [e|w] eqn:Es; [done|]. exists cfg, w. split_and!; [reflexivity|done|].
  intros outcome events. unfold Run. by destruct (tickers_start _).
Qed.

#[local] Instance spec_float_eq_dec : EqDecision spec_float.
Proof. solve_decision. Defined.

Definition takes_nan (getenv : string -> string) : bool :=
  match LoadWorker (URL := string) getenv with
  | inr cfg => bool_decide (DeliveryRetryJitter cfg = S754_nan) && DeliveryService.validate (worker_delivery cfg machine)
  | inl _ => false
  end.

(** A jitter ratio that is not a number passes every check. *)
Lemma nan_jitter_loads : exists cfg,
  LoadWorker (but deployed "DELIVERY_RETRY_JITTER" "NaN") = inr cfg /\ DeliveryRetryJitter cfg = S754_nan /\
  DeliveryService.validate (worker_delivery cfg machine) = true.
Proof.
  assert (takes_nan (but deployed "DELIVERY_RETRY_JITTER" "NaN") = true) as H by (vm_compute; reflexivity).
  unfold takes_nan in H. destruct (LoadWorker _) as [ps|cfg] eqn:E; [done|]. exists cfg.
  apply andb_true_iff in H as [Hj%bool_decide_eq_true Hv]. split_and!; [reflexivity | exact Hj | exact Hv].
Qed.
