(* ===== verification/TelegramClient.v ===== *)
(** * The client of the Bot API

    [src/internal/telegram/client.go]: how the errors of the Bot API library are
    classified, how keyboards are mapped, and the bound on what is read of a response.
    The library itself and its HTTP exchange are outside; an error is known by what
    [errors.As] and [errors.Is] say of it.  Metrics are left out. *)

From S2P Require Import Prelude View.

(** ** Errors *)

(** The retry delay in seconds of a [TooManyRequestsError] in the chain, and which
    sentinels are in it *)
Record ErrorChain := mkErrorChain { ec_rate_limit : option Z; ec_deadline : bool; ec_canceled : bool;
    ec_too_large : bool; ec_unauthorized : bool; ec_forbidden : bool; ec_bad_request : bool }.

Record APIError := mkAPIError { Kind : string; RetryAfter : Duration }.

Definition classifyAPIError (err : ErrorChain) : APIError :=
  match ec_rate_limit err with
  | Some seconds => mkAPIError "rate_limited" (wrap64 (seconds * 1000000000))
  | None =>
      mkAPIError
        (if ec_deadline err then "timeout"
         else if ec_canceled err then "cancelled"
         else if ec_too_large err then "response_too_large"
         else if ec_unauthorized err then "unauthorized"
         else if ec_forbidden err then "forbidden"
         else if ec_bad_request err then "bad_request"
         else "invalid_response") 0
  end.

(** [call]: a call of the library, its error classified *)
Definition call {A} (result : ErrorChain + A) : option APIError :=
  match result with inl err => Some (classifyAPIError err) | inr _ => None end.

(** ** Keyboards *)

Record InlineKeyboardButton := mkInlineKeyboardButton { ik_text : string; ik_callback_data : string; ik_url : string }.

(** [None] is no markup at all. *)
Definition mapKeyboard (keyboard : Keyboard) : option (list (list InlineKeyboardButton)) :=
  match keyboard with
  | [] => None
  | _ => Some (map (map (fun b => mkInlineKeyboardButton (bt_text b) (bt_data b) (bt_url b))) keyboard)
  end.

(** ** The bound on responses *)

(** A response: the length its header declares, -1 when it declares none, and its body *)
Record HttpResponse := mkHttpResponse { re_content_length : Z; re_body : list Z }.

(** What a body that is being read has left, how much the limiting reader still lets
    through, and how much has been read *)
Record limitedReadCloser := mkLimitedReadCloser { lr_left : list Z; lr_window : Z; lr_limit : Z; lr_read : Z }.

Inductive ReadError := EOF | errResponseTooLarge.

(** [limitedHTTPClient.Do] on a response that arrived *)
Definition Do (limit : Z) (response : HttpResponse) : ReadError + limitedReadCloser :=
  if limit <? re_content_length response then inl errResponseTooLarge
  else inr (mkLimitedReadCloser (re_body response) (limit + 1) limit 0).

(** [Read] into a buffer of [size] bytes; [chunk] is how many bytes the connection has
    ready.  The reader below gives no more than the buffer, its window and the body
    allow, and ends with the body or the window. *)
Definition Read (size chunk : nat) (r : limitedReadCloser) : list Z * option ReadError * limitedReadCloser :=
  let n := if lr_window r <=? 0 then 0%nat else Nat.min (Nat.min size chunk) (Z.to_nat (lr_window r)) in
  let data := take n (lr_left r) in
  let count := Z.of_nat (length data) in
  let err := if (lr_window r <=? 0) || match lr_left r with [] => true | _ => false end then Some EOF else None in
  let r' := mkLimitedReadCloser (drop n (lr_left r)) (lr_window r - count) (lr_limit r) (lr_read r + count) in
  (data, if lr_limit r <? lr_read r + count then Some errResponseTooLarge else err, r').

(** Reading on until an error, with the buffers and the chunks that come; [None] while
    none has come *)
Fixpoint read_all (reads : list (nat * nat)) (r : limitedReadCloser) : list Z * option ReadError :=
  match reads with
  | [] => ([], None)
  | (size, chunk) :: reads =>
      let '(data, err, r') := Read size chunk r in
      match err with
      | Some e => (data, Some e)
      | None => let '(rest, e) := read_all reads r' in ((data ++ rest)%list, e)
      end
  end.

(** What is read without the bound being reported is a prefix of the body within the
    bound, and all of it when the end is reported. *)
Lemma read_all_bounded reads r data err :
  lr_read r <= lr_limit r -> lr_window r = lr_limit r + 1 - lr_read r -> read_all reads r = (data, err) ->
  exists rest, lr_left r = (data ++ rest)%list /\
    (err <> Some errResponseTooLarge -> lr_read r + Z.of_nat (length data) <= lr_limit r) /\
    (err = Some EOF -> rest = []).
Proof.
  revert r data err. induction reads as [|[size chunk] reads IH]; intros r data err Hr Hw; simpl.
  - intros [= <- <-]. exists (lr_left r). split_and!; [done|simpl; lia|done].
  - replace (lr_window r <=? 0) with false by lia. simpl.
    set (n := Nat.min (Nat.min size chunk) (Z.to_nat (lr_window r))).
    destruct (Z.ltb_spec (lr_limit r) (lr_read r + Z.of_nat (length (take n (lr_left r))))) as [Hlt|Hle].
    { intros [= <- <-]. exists (drop n (lr_left r)). rewrite take_drop. by split_and!. }
    destruct (lr_left r) as [|b body] eqn:E.
    { intros [= <- <-]. exists []. rewrite take_nil in *. split_and!; [done| |done]. intros _. simpl in *. lia. }
    rewrite <- E in *. destruct (read_all reads _) as [rest e] eqn:Er. intros [= <- <-].
    apply IH in Er as (tail & Ht & Hb & He); [|simpl; lia|simpl; lia]. simpl in Ht, Hb. exists tail.
    split_and!; [|rewrite length_app; intros Hne; specialize (Hb Hne); lia|exact He].
    rewrite <- app_assoc, <- Ht. by rewrite take_drop.
Qed.

(** A response that is read to its end was within the limit and is read whole; one
    beyond the limit is never read to its end. *)
Lemma responses_are_bounded limit response r reads data :
  0 <= limit -> Do limit response = inr r -> read_all reads r = (data, Some EOF) ->
  data = re_body response /\ Z.of_nat (length (re_body response)) <= limit.
Proof.
  unfold Do. intros Hl. destruct (limit <? _); [done|]. intros [= <-] Hr.
  apply read_all_bounded in Hr as (rest & Hb & Hlen & Hrest); [|simpl; lia|simpl; lia]. specialize (Hrest eq_refl). subst rest.
  simpl in *. rewrite app_nil_r in Hb. subst data. split; [done|]. by apply Hlen.
Qed.
