(* ===== verification/Server.v ===== *)
(** * The HTTP server of the API

    [src/internal/httpapi/server.go] and [health.go]: the routes, the identity of a
    request, and the handlers behind them.  How gin matches a request against the routes
    and [crypto/rand] are given; logging, metrics and the recovery from panics are left
    out, and what is sent to Telegram is part of [Router.Process]. *)

From S2P Require Import Prelude Text Schema Tx Tables Domain Models UpdateStore PaymentReference PaymentEvents.
From S2P Require Import Providers Webhooks.
From S2P Require Import Parser View Workflows Router Config Ciphers Instructions Startup.

(** ** Requests *)

(** A request: its body as the payment webhook reads it and as the decoder of updates
    does; an absent header is empty. *)
Record HttpRequest := mkHttpRequest { rq_method : string; rq_path : string; rq_header : string -> string;
    rq_body : BodyRead; rq_update : Decoded TgUpdate; rq_received_at : Time }.

Inductive Endpoint := HealthLive | HealthReady | Metrics | TelegramUpdates | PaymentNotifications.

(** The routes, as they are registered *)
Definition routes (prometheusEnabled : bool) : list (string * string * Endpoint) :=
  [("GET", "/health/live", HealthLive); ("GET", "/health/ready", HealthReady)]%string
  ++ (if prometheusEnabled then [("GET", "/metrics", Metrics)]%string else [])
  ++ [("POST", "/webhooks/telegram", TelegramUpdates); ("POST", "/webhooks/payments/:provider", PaymentNotifications)]%string.

(** What gin makes of a request: an endpoint with its parameters, a redirection to a
    path with or without its last slash, a path that has no such method, or nothing *)
Inductive Matched := Route (endpoint : Endpoint) (param : string -> string) | Redirected (status : Z) | NoMethod | NoRoute.

Definition maxRequestIDLength : Z := 128.

(** [random] is the hexadecimal form of the bytes drawn, [None] a failure. *)
Definition newRequestID (random : option string) : string :=
  match random with Some id => id | None => "request-id-unavailable" end.
Definition request_id (header : string) (random : option string) : string :=
  if str_eqb header "" || (maxRequestIDLength <? str_len header) then newRequestID random else header.

Definition telegramSecretHeader : string := "X-Telegram-Bot-Api-Secret-Token".

Definition json_response (status : Z) (name value : string) : Response :=
  mkResponse status "application/json; charset=utf-8" (cat ["{"; q; name; q; ":"; q; value; q; "}"]) [].

Section Serve.
Context (gin : list (string * string * Endpoint) -> string -> string -> Matched).
Context (ParseMediaType : string -> option string) (CanonicalHeaderKey : string -> string).
Context (sha256 : string -> Bytes) (rfc3339 : Time -> string).
(** Whether PostgreSQL answers, and what [/metrics] says *)
Context (check : bool) (scrape : string).
Context (prometheusEnabled : bool) (api : ApiProcess).

(** [Process] as the webhook sees it: an error or none *)
Definition process_update (requestID : string) (update : TgUpdate) : Script Database unit :=
  result ← Process (ap_router api) update requestID;
  match result.1 with Some e => stop e | None => mret tt end.

Definition liveHandler : Response := json_response 200 "status" "ok".
Definition readyHandler : Response :=
  if check then json_response 200 "status" "ok" else json_response 503 "status" "unavailable".

Definition endpoint_handler (endpoint : Endpoint) (param : string -> string) (requestID : string) (request : HttpRequest)
    : Script Database Response :=
  match endpoint with
  | HealthLive => mret liveHandler
  | HealthReady => mret readyHandler
  | Metrics => mret (mkResponse 200 "text/plain" scrape [])
  | TelegramUpdates =>
      TelegramWebhook_Handler ParseMediaType (ap_secret api) (process_update requestID)
        (rq_header request telegramSecretHeader) (rq_header request "Content-Type") (rq_update request)
  | PaymentNotifications =>
      PaymentWebhook_Handler ParseMediaType CanonicalHeaderKey (ap_registry api)
        (Ingest sha256 rfc3339 (ap_max_attempts api))
        (param "provider") (rq_header request "Content-Type") (rq_header request) (rq_body request) (rq_received_at request)
  end.

(** The handler chain of a request; the answer carries its identity. *)
Definition serve (random : option string) (request : HttpRequest) : Script Database Response :=
  let requestID := request_id (rq_header request "X-Request-ID") random in
  response ← (match gin (routes prometheusEnabled) (rq_method request) (rq_path request) with
              | Route endpoint param => endpoint_handler endpoint param requestID request
              | Redirected status => mret (mkResponse status "text/html; charset=utf-8" "" [])
              | NoMethod => mret (error_response 405 "method not allowed")
              | NoRoute => mret (error_response 404 "not found")
              end);
  mret (mkResponse (hr_status response) (hr_content_type response) (hr_body response)
          (hr_headers response ++ [("X-Request-ID"%string, requestID)])%list).
End Serve.
