(* ===== verification/Entrances.v ===== *)
(** * Everything the two processes do, and who may ask for it

    Whatever enters the bot enters through an HTTP request to the API, the start of the
    API, or a run of one of the worker's jobs.  Each of them leaves a state that
    operations of the shop lead to, so every theorem about histories is a theorem about
    the running bot.  A request changes that state only if its sender knew the token of
    Telegram's webhook or the key of the signed notifications.  Runs are taken one after
    another here; delivery workers that are interleaved call by call are the subject of
    [Workers]. *)

From S2P Require Import Prelude Text Domain Schema Tx Tables Models AdminModels QOrders QInventory QPayments.
From S2P Require Import QWallet QUsers.
From S2P Require Import QCatalog QBanks QDelivery QReports UpdateStore AdminStore CatalogStore InventoryStore.
From S2P Require Import DeliveryStore.
From S2P Require Import PaymentStore WalletStore OrderService OrderStore PaymentEvents AdminService Providers.
From S2P Require Import Program Reconciliation.
From S2P Require Import Webhooks Parser View Workflows Router Steps Scripts Demo History DeliveryService Workers.
From S2P Require Import Config Ciphers Instructions.
From S2P Require Import Lifecycle Notifications Secrets Startup Started Server.

(** ** Programs *)

(** What every call of a program does to the world, its run does. *)
Lemma run_prog_respects {call} {answer : call -> Type} {W A} (Rel : W -> W -> Prop) `{!PreOrder Rel}
    (reply : nat -> forall c : call, W -> answer c * W) (p : Prog answer A) n w :
  (forall n c w, Rel w (reply n c w).2) -> Rel w (run_prog reply p n w).2.
Proof.
  intros Hr. revert n w. induction p as [a|c k IH]; intros n w; [reflexivity|]. simpl.
  specialize (Hr n c w). destruct (reply n c w) as [x w1]. transitivity w1; [exact Hr | apply IH].
Qed.

(** ** The reconciliation against the store *)

Section Reconciliation.
Context (text_le : string -> string -> bool) (sha256 : string -> Bytes) (rfc3339 : Time -> string) (maxAttempts : Z).

(** What the outside decides about one call: the environment of the store and the page
    the provider returns *)
Record ReconcileOutside := mkReconcileOutside { ru_env : Env;
    ru_fetch : string -> ListTransactionsRequest -> ReconcileError + TransactionPage }.

Definition reconcile_reply (out : ReconcileOutside) (c : reconcile_call) (d : Database) : reconcile_answer c * Database :=
  match c as c return reconcile_answer c * Database with
  | CallAccounts => ListActiveProviderAccounts text_le (ru_env out) d
  | CallEnsure account => EnsureProviderCheckpoint account (ru_env out) d
  | CallClaimCheckpoint id owner attempted expires => ClaimProviderCheckpoint id owner attempted expires (ru_env out) d
  | CallFetch provider request => (ru_fetch out provider request, d)
  | CallIngest event =>
      let '(r, (d', _)) := Ingest sha256 rfc3339 maxAttempts event (fun _ => ru_env out) (d, 0%nat) in (r, d')
  | CallAdvance checkpoint cursor transaction occurred => AdvanceProviderCheckpoint checkpoint cursor transaction occurred (ru_env out) d
  | CallComplete checkpoint completed => CompleteProviderCheckpoint checkpoint completed (ru_env out) d
  | CallFail checkpoint code => FailProviderCheckpoint checkpoint code (ru_env out) d
  | CallNow => (env_now (ru_env out), d)
  end.
End Reconciliation.

(** ** Histories *)

Abbreviation histories := (effects (fun _ => True) shop_steps).

Lemma acts_op {A} (a : Action Database A) op : perform op = after a -> acts (fun _ => True) shop_steps a.
Proof. intros Heq env d _. split; [done|]. rewrite <- Heq. apply rtc_once. by exists op, env. Qed.

Lemma shop_op {A} (a : Action Database A) op env d : perform op = after a -> shop_steps d (a env d).2.
Proof. intros Heq. exact (proj2 (acts_op a op Heq env d I)). Qed.

Lemma readonly_shop {A} (a : Action Database A) env d : acts (fun _ => True) shop_steps a -> shop_steps d (a env d).2.
Proof. intros Ha. exact (proj2 (Ha env d I)). Qed.

(** *** The store's part of payment events *)

Ltac op o := apply (acts_op _ o); reflexivity.

Lemma acts_ingest e n : acts (fun _ => True) shop_steps (InsertPaymentEvent e n).
Proof. op (OpIngestEvent e n). Qed.
Lemma acts_conflict i e r : acts (fun _ => True) shop_steps (RecordPaymentEventConflict i e r).
Proof. op (OpRecordConflict i e r). Qed.
Lemma acts_claim_events n s b : acts (fun _ => True) shop_steps (autocommit (QPayments.ClaimPaymentEvents n s b)).
Proof. op (OpClaimEvents n s b). Qed.
Lemma acts_attach m i : acts (fun _ => True) shop_steps (autocommit (AttachPaymentEventProviderAccount m i)).
Proof. op (OpAttachAccount m i). Qed.
Lemma acts_review i r re t : acts (fun _ => True) shop_steps (ReviewPaymentEvent i r re t).
Proof. op (OpReviewEvent i r re t). Qed.
Lemma acts_ignore i r t : acts (fun _ => True) shop_steps (CompleteIgnoredPaymentEvent i r t).
Proof. op (OpIgnoreEvent i r t). Qed.
Lemma acts_schedule i n p c d : acts (fun _ => True) shop_steps (SchedulePaymentEventRetry i n p c d).
Proof. op (OpScheduleEvent i n p c d). Qed.
Lemma acts_bootstrap t : acts (fun _ => True) shop_steps (BootstrapAdmin t).
Proof. op (OpBootstrap t). Qed.
Lemma acts_accept ttl n c : acts (fun _ => True) shop_steps (Accept ttl n c).
Proof.
  intros env d _. split; [done|]. unfold after, Accept. cbv zeta. destruct (invalid_command _ _).
  - unfold reject. reflexivity.
  - apply (shop_op _ (OpAcceptPayment (normalize_command c) (env_now env) ttl [n])). reflexivity.
Qed.
Lemma acts_resolve p e i : acts (fun _ => True) shop_steps (autocommit (ResolveActivePaymentProviderAccount p e i)).
Proof. apply acts_readonly; [apply _|]. unfold readonly. tx_auto. Qed.
#[local] Hint Resolve acts_resolve acts_ingest acts_conflict acts_claim_events acts_attach acts_review acts_ignore acts_schedule
  acts_bootstrap acts_accept : script.
#[local] Hint Extern 0 (PreOrder _) => apply _ : script.
Ltac histories := repeat (cbv zeta; script_step ltac:(solve [eauto with script nocore])).

Lemma Ingest_histories sha256 rfc3339 n e : histories (Ingest sha256 rfc3339 n e).
Proof. unfold Ingest. histories. Qed.
#[local] Hint Resolve Ingest_histories : script.

Lemma attach_items_histories l : histories (attach_items l).
Proof.
  induction l as [|row l IH]; cbn [attach_items]; histories.
Qed.
#[local] Hint Resolve attach_items_histories : script.

Lemma script_each_histories {A} (l : list A) f : (forall a, histories (f a)) -> histories (script_each l f).
Proof. intros Hf. induction l as [|a l IH]; cbn [script_each]; histories. Qed.

Lemma process_item_histories j now item : histories (process_item j now item).
Proof. unfold process_item. histories. Qed.

Lemma payment_pass_histories j : histories (PaymentEventJob_RunOnce j).
Proof.
  unfold PaymentEventJob_RunOnce, ClaimPaymentEvents. histories. apply script_each_histories, process_item_histories.
Qed.

Lemma Bootstrap_histories l : histories (AdminService.Bootstrap l).
Proof.
  unfold AdminService.Bootstrap. generalize (@nil Z) as seen.
  induction l as [|t l IH]; intros seen; cbn [AdminService.bootstrap_all]; unfold AdminService.bootstrap_one; histories.
Qed.
#[local] Hint Resolve Bootstrap_histories : script.

(** *** Requests *)

Lemma Process_histories rt update id : histories (Process rt update id).
Proof. exact (Process_effects _ _ True rt update id (shop_clearance _)). Qed.
#[local] Hint Resolve Process_histories : script.

Section Processes.
Context `{Crypto} {URL : Type} `{NetURL URL}.
Context (gin : list (string * string * Endpoint) -> string -> string -> Matched).
Context (ParseMediaType : string -> option string) (CanonicalHeaderKey : string -> string).
Context (sha256 : string -> Bytes) (rfc3339 : Time -> string) (text_le : string -> string -> bool).

Lemma serve_histories check scrape prometheus api random request :
  histories (serve gin ParseMediaType CanonicalHeaderKey sha256 rfc3339 check scrape prometheus api random request).
Proof.
  unfold serve, endpoint_handler, TelegramWebhook_Handler, PaymentWebhook_Handler, process_update. histories.
Qed.

Lemma start_api_histories cfg h co : histories (start_api cfg h co).
Proof. unfold start_api. histories. Qed.

(** *** The jobs of the worker *)

Lemma in_store_op {A} (a : Action Database A) op out w :
  perform op = after a -> shop_steps (wd_db w) (wd_db (in_store a out w).2).
Proof.
  intros Heq. unfold in_store. pose proof (shop_op a op (out_env out) (wd_db w) Heq) as Hop.
  by destruct (a (out_env out) (wd_db w)).
Qed.

Definition shop_world (w w' : World) : Prop := shop_steps (wd_db w) (wd_db w').
#[local] Instance shop_world_preorder : PreOrder shop_world.
Proof. unfold shop_world. split; [intros x; reflexivity|]. intros x y z Hxy Hyz. by transitivity (wd_db y). Qed.

Lemma LoadClaimedDelivery_reads j w : acts (fun _ => True) shop_steps (LoadClaimedDelivery j w).
Proof. apply acts_readonly; [apply _|]. unfold readonly, load_claimed_tx. tx_auto. Qed.

(** One call of a delivery worker *)
Lemma reply_histories out c w : shop_world w (reply out c w).2.
Proof.
  unfold shop_world. destruct c; try reflexivity.
  - apply (in_store_op _ (OpBackfillJobs now batch_size max_attempts)). reflexivity.
  - apply (in_store_op _ (OpRecoverStale now stale_before batch_size)). reflexivity.
  - apply (in_store_op _ (OpClaimJobs now worker_id batch_size)). reflexivity.
  - pose proof (readonly_shop _ (out_env out) (wd_db w) (LoadClaimedDelivery_reads job_id worker_id)) as Hl.
    simpl. unfold in_store. by destruct (LoadClaimedDelivery job_id worker_id (out_env out) (wd_db w)).
  - apply (in_store_op _ (OpBeginAttempt job_id worker_id attempted_at)). reflexivity.
  - apply (in_store_op _ (OpFinalizeSuccess job_id worker_id success)). reflexivity.
  - apply (in_store_op _ (OpFinalizeFailure job_id worker_id failure)). reflexivity.
  - apply (in_store_op _ (OpFinalizeClaimedFailure job_id worker_id failure)). reflexivity.
  - apply (in_store_op _ (OpPreserveAmbiguous job_id success reason)). reflexivity.
Qed.

Lemma ListActiveProviderAccounts_reads : acts (fun _ => True) shop_steps (ListActiveProviderAccounts text_le).
Proof. apply acts_readonly; [apply _|]. unfold readonly. tx_auto. Qed.

(** One call of the reconciliation *)
Lemma reconcile_reply_histories maxAttempts out c d :
  shop_steps d (reconcile_reply text_le sha256 rfc3339 maxAttempts out c d).2.
Proof.
  destruct c; try reflexivity.
  - exact (readonly_shop _ (ru_env out) d ListActiveProviderAccounts_reads).
  - exact (shop_op _ (OpEnsureCheckpoint account_id) (ru_env out) d eq_refl).
  - exact (shop_op _ (OpClaimCheckpoint id owner attempted_at expires_at) (ru_env out) d eq_refl).
  - simpl. destruct (Ingest _ _ _ event _ _) as [r [d' n]] eqn:E.
    exact (proj2 (Ingest_histories sha256 rfc3339 maxAttempts event _ _ _ _ _ _ I E)).
  - exact (shop_op _ (OpAdvanceCheckpoint checkpoint cursor last_transaction last_occurred_at) (ru_env out) d eq_refl).
  - exact (shop_op _ (OpCompleteCheckpoint checkpoint completed_at) (ru_env out) d eq_refl).
  - exact (shop_op _ (OpFailCheckpoint checkpoint code) (ru_env out) d eq_refl).
Qed.

Lemma expiry_pass_histories b env d : shop_steps d (OrderStore.RunOnce b env d).2.
Proof.
  unfold OrderStore.RunOnce. destruct (b <=? 0); [reflexivity|].
  pose proof (shop_op (ExpireOverdueOrders (env_now env) b) (OpExpireOrders (env_now env) b) env d eq_refl) as Hop.
  destruct (ExpireOverdueOrders (env_now env) b env d) as [[e|ids] d']; exact Hop.
Qed.

(** ** The running bot

    The database, what was sent, and the delivery workers in the middle of their passes;
    the processes are the ones some configuration builds. *)

Inductive bot_step : System -> System -> Prop :=
  | api_start cfg h co envs n db sends workers r db' n' :
      start_api cfg h co envs (db, n) = (r, (db', n')) ->
      bot_step (mkSystem (mkWorld db sends) workers) (mkSystem (mkWorld db' sends) workers)
  | api_serves cfg h co api check scrape random request envs n db sends workers r db' n' :
      build_api cfg h co = inr api ->
      serve gin ParseMediaType CanonicalHeaderKey sha256 rfc3339 check scrape (PrometheusEnabled cfg) api random request
        envs (db, n) = (r, (db', n')) ->
      bot_step (mkSystem (mkWorld db sends) workers) (mkSystem (mkWorld db' sends) workers)
  | orders_expire process env db sends workers r db' :
      OrderStore.RunOnce (wp_expiry_batch process) env db = (r, db') ->
      bot_step (mkSystem (mkWorld db sends) workers) (mkSystem (mkWorld db' sends) workers)
  | payments_settle process envs n db sends workers r db' n' :
      PaymentEventJob_RunOnce (wp_payments process) envs (db, n) = (r, (db', n')) ->
      bot_step (mkSystem (mkWorld db sends) workers) (mkSystem (mkWorld db' sends) workers)
  | accounts_reconcile process job maxAttempts outs n db sends workers r n' db' :
      wp_reconciliation process = Some job ->
      run_prog (fun n => reconcile_reply text_le sha256 rfc3339 maxAttempts (outs n)) (ReconciliationJob_RunOnce job) n db
        = (r, n', db') ->
      bot_step (mkSystem (mkWorld db sends) workers) (mkSystem (mkWorld db' sends) workers)
  | delivery_starts process lastStaleScan w workers :
      let j := wp_delivery process in
      workers !! dj_worker_id j = None ->
      bot_step (mkSystem w workers) (mkSystem w (<[dj_worker_id j := DeliveryService.RunOnce j lastStaleScan]> workers))
  | delivery_calls w workers id c k out :
      workers !! id = Some (Ask c k) ->
      bot_step (mkSystem w workers) (mkSystem (reply out c w).2 (<[id := k (reply out c w).1]> workers))
  | delivery_stops w workers id :
      bot_step (mkSystem w workers) (mkSystem w (delete id workers)).

Lemma bot_step_histories s s' : bot_step s s' -> shop_world (sy_world s) (sy_world s').
Proof.
  unfold shop_world. intros [cfg h co envs n db sends workers r db' n' Hrun
    | cfg h co api check scrape random request envs n db sends workers r db' n' Hb Hrun
    | process env db sends workers r db' Hrun | process envs n db sends workers r db' n' Hrun
    | process job maxAttempts outs n db sends workers r n' db' Hj Hrun
    | process lastStaleScan w workers j Hw | w workers id c k out Hw | w workers id]; simpl.
  - exact (proj2 (start_api_histories cfg h co _ _ _ _ _ _ I Hrun)).
  - exact (proj2 (serve_histories _ _ _ _ _ _ _ _ _ _ _ _ I Hrun)).
  - pose proof (expiry_pass_histories (wp_expiry_batch process) env db) as Hp. by rewrite Hrun in Hp.
  - exact (proj2 (payment_pass_histories _ _ _ _ _ _ _ I Hrun)).
  - pose proof (run_prog_respects shop_steps (fun n => reconcile_reply text_le sha256 rfc3339 maxAttempts (outs n))
      (ReconciliationJob_RunOnce job) n db) as Hp.
    rewrite Hrun in Hp. apply Hp. intros. apply reconcile_reply_histories.
  - reflexivity.
  - apply reply_histories.
  - reflexivity.
Qed.

(** Whatever is sent to the API, however often its processes start, and whatever the
    worker's jobs do and wherever they stop, the database of the running bot is one that
    operations of the shop lead to: so every theorem about histories is one about the
    two processes. *)
Theorem running_bot_makes_histories s s' :
  rtc bot_step s s' -> shop_steps (wd_db (sy_world s)) (wd_db (sy_world s')).
Proof.
  induction 1 as [s | s s1 s' Hstep _ IH]; [reflexivity|].
  etransitivity; [exact (bot_step_histories _ _ Hstep) | exact IH].
Qed.
(** ** Who may change the shop by a request *)

(** The adapters that a configuration builds are the signed one, under its secret. *)
Lemma adapters_signed cfg co ps : adapters cfg co = Some ps ->
  Forall (fun p => SignedJSONProvider ∈ PaymentProviders cfg /\ exists s,
    NewSignedJSONForEnvironment (SignedJSONWebhookSecret cfg) (SignedJSONTimestampTolerance cfg)
      (PaymentProviderEnvironment cfg) true = Some s /\
    p = Some (signed_provider (co_hmac co) (co_sum256 co) (co_decode co) (co_sanitize co) s)) ps.
Proof.
  unfold adapters. induction (PaymentProviders cfg) as [|name names IH] in ps |- *; simpl; [by intros [= <-]|].
  destruct (foldr _ _ names) as [rest|]; simpl; [|done].
  assert (Hrest : forall P Q : Prop, (P -> Q) -> P -> Q) by auto.
  specialize (IH rest eq_refl).
  assert (Forall (fun p => SignedJSONProvider ∈ name :: names /\ exists s,
    NewSignedJSONForEnvironment (SignedJSONWebhookSecret cfg) (SignedJSONTimestampTolerance cfg)
      (PaymentProviderEnvironment cfg) true = Some s /\
    p = Some (signed_provider (co_hmac co) (co_sum256 co) (co_decode co) (co_sanitize co) s)) rest) as Htail.
  { eapply Forall_impl; [exact IH|]. intros p [Hin Hs]. split; [by right | exact Hs]. }
  destruct (str_eqb name SignedJSONProvider) eqn:Hn; [|by intros [= <-]].
  destruct (NewSignedJSONForEnvironment _ _ _ _) as [s|] eqn:Hs; simpl; [|done]. intros [= <-].
  apply str_eqb_eq in Hn as ->. constructor; [|exact Htail]. split; [by left | by exists s].
Qed.

Lemma register_all_from (P : Provider -> Prop) ps registry registry' :
  Forall (fun p => forall provider, p = Some provider -> P provider) ps -> map_Forall (fun _ => P) registry ->
  register_all registry ps = inr registry' -> map_Forall (fun _ => P) registry'.
Proof.
  intros Hps. revert registry. induction Hps as [|[provider|] ps Hp _ IH]; intros registry Hr; simpl; [by intros [= <-] | | done].
  repeat (case_match; [done|]). apply IH, map_Forall_insert_2; [by apply Hp | done].
Qed.

(** What verifies the notifications of the running API *)
Lemma webhook_is_signed cfg h co api name webhook :
  build_api cfg h co = inr api -> GetWebhookProvider (ap_registry api) name = inr webhook ->
  SignedJSONProvider ∈ PaymentProviders cfg /\ exists s, sj_secret s = codes (SignedJSONWebhookSecret cfg) /\
    webhook = VerifyAndNormalizeWebhook (co_hmac co) (co_sum256 co) (co_decode co) (co_sanitize co) s.
Proof.
  unfold build_api. repeat (case_match; [done|]). destruct (adapters cfg co) as [ps|] eqn:Hps; [|done].
  destruct (NewProviderRegistry ps) as [|registry] eqn:Hr; [done|]. intros [= <-]. simpl.
  apply (register_all_from (fun p => SignedJSONProvider ∈ PaymentProviders cfg /\ exists s, sj_secret s = codes (SignedJSONWebhookSecret cfg) /\
    p = signed_provider (co_hmac co) (co_sum256 co) (co_decode co) (co_sanitize co) s)) in Hr; [| |apply map_Forall_empty].
  - unfold GetWebhookProvider, lookup_provider. destruct (negb (validProviderName name)); [done|].
    destruct (registry !! name) as [p|] eqn:Hp; [|done]. destruct (Hr _ _ Hp) as (Hin & s & Hs & ->).
    destruct (prov_enabled _); [|done]. simpl. intros [= <-]. split; [done | by exists s].
  - eapply Forall_impl; [by apply adapters_signed|]. intros p (Hin & s & Hs & ->) provider [= <-].
    split; [done|]. exists s. split; [|done]. unfold NewSignedJSONForEnvironment, NewSignedJSON in Hs.
    repeat (case_match; [done|]). simpl in Hs. by injection Hs as <-.
Qed.

(** Nothing is settled: no order, item, wallet, ledger, payment or delivery changes. *)
Definition settles_nothing (d d' : Database) : Prop :=
  (same_table OrderRow d d' /\ same_table InventoryRow d d' /\ same_table MappingRow d d') /\
  (same_table WalletRow d d' /\ same_table LedgerRow d d' /\ same_table TopupRow d d') /\
  (same_table PaymentRow d d' /\ same_table AllocationRow d d' /\ same_table OutboxRow d d').

#[local] Instance settles_nothing_preorder : PreOrder settles_nothing.
Proof. unfold settles_nothing. split; [intros d; split_and!; reflexivity|]. intros a b c Hab Hbc. destruct_and! Hab. destruct_and! Hbc. split_and!; by etransitivity. Qed.

Lemma settles_nothing_transaction {A} (m : Tx Database A) env d :
  respects (same_table OrderRow) m -> respects (same_table InventoryRow) m -> respects (same_table MappingRow) m ->
  respects (same_table WalletRow) m -> respects (same_table LedgerRow) m -> respects (same_table TopupRow) m ->
  respects (same_table PaymentRow) m -> respects (same_table AllocationRow) m -> respects (same_table OutboxRow) m ->
  settles_nothing d (after (WithinTransaction m) env d).
Proof. intros. unfold settles_nothing. split_and!; (apply after_transaction; [apply _ | done]). Qed.

Lemma Ingest_settles_nothing maxAttempts event :
  effects (fun _ => True) settles_nothing (Ingest sha256 rfc3339 maxAttempts event).
Proof.
  assert (forall e n, acts (fun _ => True) settles_nothing (InsertPaymentEvent e n)) as Hinsert.
  { intros e n env d _. split; [done|]. unfold InsertPaymentEvent. apply settles_nothing_transaction; unfold insert_event_tx; preserve. }
  assert (forall i e r, acts (fun _ => True) settles_nothing (RecordPaymentEventConflict i e r)) as Hrecord.
  { intros i e r env d _. split; [done|]. unfold RecordPaymentEventConflict. apply settles_nothing_transaction; unfold record_conflict_tx; preserve. }
  unfold Ingest. repeat (cbv zeta; script_step ltac:(solve [eauto with script nocore])).
Qed.

(** Some sender of the request knew the secret of its entrance: Telegram's token ... *)
Definition from_telegram (cfg : Config) (request : HttpRequest) (update : TgUpdate) : Prop :=
  TelegramWebhookSecret cfg <> ""%string /\ rq_header request telegramSecretHeader = TelegramWebhookSecret cfg /\
  rq_update request = DecodedUpdate _ update.

(** ... or the key under which the provider signs exactly this body. *)
Definition from_provider (cfg : Config) (co : Collaborators) (request : HttpRequest) : Prop :=
  SignedJSONProvider ∈ PaymentProviders cfg /\ exists body, rq_body request = BodyRead_ok body /\
  signed_by (co_hmac co) (codes (SignedJSONWebhookSecret cfg)) (rq_header request) body.

Lemma validSecret_spec provided expected :
  validSecret provided expected = true -> expected <> ""%string /\ provided = expected.
Proof.
  unfold validSecret. rewrite andb_true_iff, negb_true_iff, !orb_false_iff. intros [[[_ He] _] Heq%str_eqb_eq].
  split; [|done]. intros ->. done.
Qed.

(** Scripts that only look at what another one returned *)
Lemma script_map_state {A B} (m : Script Database A) (f : A -> B) envs sn r sn' :
  (m ≫= fun a => mret (f a)) envs sn = (r, sn') -> exists r', m envs sn = (r', sn').
Proof. unfold mbind, Script_bind. destruct (m envs sn) as [[e|a] sn1]; injection 1 as _ <-; eauto. Qed.

Lemma script_result_state {A} (m : Script Database A) envs sn r sn' :
  script_result m envs sn = (r, sn') -> exists r', m envs sn = (r', sn').
Proof. unfold script_result. destruct (m envs sn) as [r' sn1]. injection 1 as _ <-. eauto. Qed.

Section Requests.
Context (cfg : Config) (h : Host) (co : Collaborators) (api : ApiProcess).
Context (Hbuild : build_api (URL := URL) cfg h co = inr api).

Lemma built_secret : ap_secret api = TelegramWebhookSecret cfg.
Proof. revert Hbuild. unfold build_api. by repeat (case_match; try done); intros [= <-]. Qed.

Lemma telegram_request process content_type request envs sn r sn' :
  TelegramWebhook_Handler ParseMediaType (ap_secret api) process (rq_header request telegramSecretHeader) content_type
    (rq_update request) envs sn = (r, sn') ->
  sn' = sn \/ exists update outcome, from_telegram cfg request update /\ process update envs sn = (outcome, sn').
Proof.
  unfold TelegramWebhook_Handler. destruct (validSecret _ _) eqn:Hs; simpl; [|injection 1 as _ <-; by left].
  rewrite built_secret in Hs. apply validSecret_spec in Hs as [Hne Heq].
  destruct (json_content _ _); simpl; [|injection 1 as _ <-; by left].
  destruct (rq_update request) as [update| |] eqn:Hu; [|injection 1 as _ <-; by left ..].
  intros [r1 [r2 Hp]%script_result_state]%script_map_state. right. by exists update, r2.
Qed.

Lemma provider_request name content_type request maxAttempts now envs d n r d' n' :
  PaymentWebhook_Handler ParseMediaType CanonicalHeaderKey (ap_registry api) (Ingest sha256 rfc3339 maxAttempts)
    name content_type (rq_header request) (rq_body request) now envs (d, n) = (r, (d', n')) ->
  d' = d \/ (from_provider cfg co request /\ settles_nothing d d').
Proof.
  unfold PaymentWebhook_Handler. destruct (GetWebhookProvider _ name) as [e|webhook] eqn:Hw; [injection 1 as _ <- _; by left|].
  destruct (json_content _ _); simpl; [|injection 1 as _ <- _; by left].
  destruct (rq_body request) as [body| |] eqn:Hb; [|injection 1 as _ <- _; by left ..].
  destruct (webhook_is_signed cfg h co api name webhook Hbuild Hw) as (Hin & s & Hs & ->). unfold VerifyAndNormalizeWebhook. simpl.
  destruct (VerifyAndNormalize _ _ _ _ _ _ _ _) as [e|event] eqn:Hv; [injection 1 as _ <- _; by left|].
  intros [r1 [r2 Hi]%script_result_state]%script_map_state. right. split.
  - split; [done|]. exists body. split; [done|]. rewrite <- Hs. apply authentic_spec.
    unfold VerifyAndNormalize in Hv. destruct (authentic _ _ _ _); [done | discriminate].
  - by apply (Ingest_settles_nothing _ _ _ _ _ _ _ _ I Hi).
Qed.

(** C10: A request changes the database only if its sender knew a secret.  Either it
    carries the token that the API shares with Telegram, and what changes is what the
    processing of its update does; or the API is configured for the provider of signed
    notifications, the request carries the signature of exactly its body under the key
    shared with that provider, and then it settles nothing by itself: no order, item of
    stock, wallet, payment or delivery changes.  Every other request, on whatever route,
    leaves the database as it is. *)
Theorem only_authentic_requests_change_the_shop check scrape random request envs d n r d' n' :
  serve gin ParseMediaType CanonicalHeaderKey sha256 rfc3339 check scrape (PrometheusEnabled cfg) api random request
    envs (d, n) = (r, (d', n')) ->
  d' = d \/
  (exists update outcome, from_telegram cfg request update /\
     process_update api (request_id (rq_header request "X-Request-ID") random) update envs (d, n) = (outcome, (d', n'))) \/
  (from_provider cfg co request /\ settles_nothing d d').
Proof.
  intros [r1 Hrun]%script_map_state. destruct (gin _ _ _) as [endpoint param| | |]; [|injection Hrun as _ <- _; by left ..].
  destruct endpoint; simpl in Hrun; [injection Hrun as _ <- _; by left .. | |].
  - apply telegram_request in Hrun as [[= <- _] | Hp]; [by left | by right; left].
  - apply provider_request in Hrun as [-> | Hp]; [by left | by right; right].
Qed.
End Requests.
End Processes.

(** ** At a concrete execution *)

(** Routes without parameters *)
Definition exact_route (routes : list (string * string * Endpoint)) (method path : string) : Matched :=
  match List.find (fun '(m, p, _) => str_eqb m method && str_eqb p path) routes with
  | Some (_, _, endpoint) => Route endpoint (fun _ => ""%string)
  | None => NoRoute
  end.

(** The customer confirms an order, by a request to the API; the order then expires. *)
Definition order_request : HttpRequest :=
  mkHttpRequest "POST" "/webhooks/telegram"
    (fun name => if str_eqb name telegramSecretHeader then "a long webhook secret"
                 else if str_eqb name "Content-Type" then "application/json" else "")%string
    BodyFailed (DecodedUpdate _ order_button) 1000.

Definition in_production : string -> string :=
  but (but deployed "PAYMENT_PROVIDERS" "") "PAYMENT_PROVIDER_ENVIRONMENT" "production".
Definition ordered (api : ApiProcess) : (Error + Response) * (Database * nat) :=
  serve exact_route Some id (fun _ => []) (fun _ => ""%string) true "" true api None order_request minutes (shop, 0%nat).
Definition later : Env := calm (1 + 16 * Minute).

Definition an_order_comes_and_goes : bool :=
  match LoadAPI (URL := string) in_production, LoadWorker (URL := string) deployed with
  | inr cfg, inr wcfg =>
      match build_api cfg machine quiet_collaborators, start_worker (fun _ => false) (fun _ => false) id wcfg machine with
      | inr api, inr process =>
          let d := (ordered api).2.1 in
          PrometheusEnabled cfg && bool_decide (o_status <$> rows OrderRow d !! 1 = Some OrderStatusPendingPayment)
          && bool_decide (o_status <$> rows OrderRow (OrderStore.RunOnce (wp_expiry_batch process) later d).2 !! 1 = Some OrderStatusExpired)
      | _, _ => false
      end
  | _, _ => false
  end.

Lemma only_authentic_requests_change_the_shop_witness : exists cfg update,
  LoadAPI (URL := string) in_production = inr cfg /\ from_telegram cfg order_request update.
Proof.
  assert (an_order_comes_and_goes = true) as H by (vm_compute; reflexivity). unfold an_order_comes_and_goes in H.
  destruct (LoadAPI in_production) as [|cfg]; [done|]. destruct (LoadWorker deployed) as [|wcfg]; [done|].
  destruct (build_api cfg machine quiet_collaborators) as [|api] eqn:Eb; [done|].
  destruct (start_worker _ _ _ wcfg machine) as [|process]; [done|]. cbv zeta in H. rewrite !andb_true_iff in H.
  destruct H as [[Hp Ho%bool_decide_eq_true] _].
  destruct (ordered api) as [r [d n]] eqn:Eo. simpl in Ho. unfold ordered in Eo. rewrite <- Hp in Eo.
  destruct (only_authentic_requests_change_the_shop exact_route Some id (fun _ => []) (fun _ => ""%string)
    cfg machine quiet_collaborators api Eb (PrometheusEnabled cfg) "" None order_request minutes shop 0%nat r d n Eo)
    as [-> | [(update & outcome & Ht & _) | ((_ & body & Hb & _) & _)]].
  - vm_compute in Ho. discriminate.
  - exists cfg, update. split; [reflexivity | exact Ht].
  - discriminate.
Defined.

Lemma the_bot_runs : exists s,
  rtc (bot_step exact_route Some id (fun _ => []) (fun _ => ""%string) (fun _ _ => true)) (mkSystem (mkWorld shop []) empty) s /\
  shop_steps shop (wd_db (sy_world s)) /\
  o_status <$> rows OrderRow (wd_db (sy_world s)) !! 1 = Some OrderStatusExpired.
Proof.
  assert (an_order_comes_and_goes = true) as H by (vm_compute; reflexivity). unfold an_order_comes_and_goes in H.
  destruct (LoadAPI in_production) as [|cfg]; [done|]. destruct (LoadWorker deployed) as [|wcfg]; [done|].
  destruct (build_api cfg machine quiet_collaborators) as [|api] eqn:Eb; [done|].
  destruct (start_worker _ _ _ wcfg machine) as [|process]; [done|]. cbv zeta in H. rewrite !andb_true_iff in H.
  destruct H as [[Hp _] Hs%bool_decide_eq_true].
  destruct (ordered api) as [r [d n]] eqn:Eo. simpl in Hs.
  destruct (OrderStore.RunOnce (wp_expiry_batch process) later d) as [r' d'] eqn:Ee.
  assert (rtc (bot_step exact_route Some id (fun _ => []) (fun _ => ""%string) (fun _ _ => true))
            (mkSystem (mkWorld shop []) empty) (mkSystem (mkWorld d' []) empty)) as Hsteps.
  { eapply rtc_l; [eapply api_serves; [exact Eb|]|eapply rtc_once, orders_expire; exact Ee].
    rewrite Hp. exact Eo. }
  exists (mkSystem (mkWorld d' []) empty). split; [exact Hsteps|].
  split; [exact (running_bot_makes_histories _ _ _ _ _ _ _ _ Hsteps) | exact Hs].
Qed.
