(* ===== verification/Observations.v ===== *)
(** * What the model shows of the code

    Behaviour of the code that is not what its comments, names or messages say, at
    concrete executions of the model.  The two of the configuration are in [Started]. *)

From S2P Require Import Prelude Text Domain Schema Tx Tables Models AdminModels QOrders QInventory QPayments.
From S2P Require Import QWallet QUsers.
From S2P Require Import QCatalog QBanks QDelivery QReports UpdateStore AdminStore InventoryStore DeliveryStore.
From S2P Require Import PaymentStore WalletStore.
From S2P Require Import OrderService OrderStore PaymentEvents AdminService DeliveryAdmin PaymentAdmin Providers.
From S2P Require Import Program Reconciliation.
From S2P Require Import Steps Demo Parser View Workflows Router DeliveryService Scripts History.

(** ** Buttons *)

Definition minh : TgUser := mkTgUser 9001 false "minh" "Minh" "".
Definition answers_to (data : string) : list Answer :=
  match (Process front (pressed 301 minh data) "q" minutes (shop, 0%nat)).1 with
  | inr (None, answers) => answers
  | _ => []
  end.

(** The buttons of the administrator's menu for the categories and the products show
    nothing: the lists are rendered under another button. *)
Lemma category_lists_are_not_shown : forallb (fun a => match a with AnswerCallback _ _ _ => true | _ => false end)
    (answers_to "v1:a:c:0" ++ answers_to "v1:a:p:0") = true /\
  (length (answers_to "v1:a:i:0") = 2)%nat.
Proof. vm_compute. done. Qed.

(** The button that adjusts a wallet starts the session but shows the products, not how
    to go on. *)
Lemma wallet_adjustment_shows_products : exists text keyboard,
  answers_to "v1:a:wa" = [AnswerCallback "cb" "" false; EditMessage 7001 5 text keyboard] /\ text = "<b>Sản phẩm quản trị</b>"%string.
Proof. eexists _, _. split; [vm_compute; reflexivity | reflexivity]. Qed.

(** The buttons for the payment providers are not read back: the parser expects their
    actions among those of orders. *)
Lemma provider_buttons_are_not_read :
  map ParseCallback ["v1:a:qh"; "v1:a:ql:0"; "v1:a:qn"; "v1:a:qa:1:1:0"]%string = [None; None; None; None] /\
  cb_Action <$> ParseCallback "v1:o:qh" = Some CallbackAdminProviderHealth.
Proof. vm_compute. done. Qed.

(** ** Payment events *)

(** An event whose worker dies during the last attempt is never claimed again: it stays
    in processing, neither failed nor under review. *)
Lemma spent_events_are_never_claimed e claimed_at stale_before :
  ev_attempts e = ev_max_attempts e -> claimable_event claimed_at stale_before e = false.
Proof. intros Hs. unfold claimable_event. by rewrite Hs, Z.ltb_irrefl, andb_false_r. Qed.

(** An outgoing transaction is completed without a payment, as it should be, and from
    then on the financial report is not clean. *)
Definition withdrawal : NormalizedPaymentEvent :=
  mkNormalizedPaymentEvent "acb" "production" "ext-9" "txn-9" "" "outbound" "rent" "" "" "webhook" 500 "VND" 900 ""
    "transaction" (bytes 32 1) (bytes 32 2) (mkSanitizedMetadata true (Some (mkStoredPaymentMetadata "" 500 "VND" 900))).
Definition ignored : Database :=
  perform (OpIgnoreEvent 1 "provider_unsupported_transaction" 1200) (calm 1200)
    (perform (OpClaimEvents 1100 900 10) (calm 1100) (perform (OpIngestEvent withdrawal 5) (calm 1000) shop)).

Lemma ignored_events_are_reported : exists report,
  ReconcileFinancialState (calm 1300) shop = (inr (mkFinancialReconciliation 0 0 0 0 0), shop) /\
  ReconcileFinancialState (calm 1300) ignored = (inr report, ignored) /\
  rf_completed_events_without_payment report = 1 /\ FinancialClean report = false.
Proof. eexists. split; [vm_compute; reflexivity|]. split; [vm_compute; reflexivity|]. by vm_compute. Qed.

(** ** Deliveries *)

(** If the store cannot be read when a claimed delivery is loaded, the delivery fails
    for good, as if its data were wrong. *)
Lemma unreadable_deliveries_fail_for_good j job (outside : nat -> forall c, delivery_answer c) failed_at :
  outside (S O) CallClock = failed_at -> outside O (CallLoad (wi_id job) (dj_worker_id j)) = inl ErrInfra ->
  exists x, (run_trace outside 0 (process j job)).1 =
    [did (CallLoad (wi_id job) (dj_worker_id j)) (inl ErrInfra); did CallClock failed_at;
     did (CallClaimedFailure (wi_id job) (dj_worker_id j)
       (mkDeliveryFailure DeliveryResultPermanent "delivery_invariant_failed" "delivery validation failed before Telegram send"
          0 0 0 0 failed_at)) x].
Proof. intros <- Hload. eexists. cbn. rewrite Hload. reflexivity. Qed.
